(* ===== verification/_CoqProject ===== *)
-Q . S2P
Prelude.v
Float64.v
FloatBounds.v
PyStr.v
PyFormat.v
Json.v
JsonParse.v
JsonRoundTrip.v
JsonIndent.v
Csv.v
JsonValues.v
Files.v
PyTime.v
Models.v
Tables.v
Session.v
Topics.v
Schemas.v
Ingestion.v
AlarmFacts.v
Keys.v
Transactions.v
IngestionRuns.v
IngestionProps.v
HealthAckProps.v
Ingestor.v
IngestorProps.v
Generator.v
Gateway.v
GatewayProps.v
Settings.v
Live.v
Commands.v
CommandLoop.v
ApiViews.v
Api.v
ApiProps.v
QueryProps.v
Features.v
FeatureProps.v
SensorRules.v
SensorProps.v
Modeling.v
Artifacts.v
ArtifactProps.v
TrainingProps.v
Worker.v
WorkerFacts.v
WorkerProps.v
WorkerProgress.v
WorkerAlarms.v
AnomalyMain.v
Integrity.v
Platform.v
Evaluation.v
EvaluationProps.v
Migrations.v
MigrationProps.v
Smoke.v
SmokeProps.v
Licenses.v
LicenseProps.v
Regex.v
Hygiene.v
HygieneProps.v
ReportText.v
ReportTextProps.v
ReportPages.v
ReportProps.v
ReportCheck.v
ReportCheckProps.v
Solids.v
SolidProps.v
Hardware.v
HardwareProps.v
Modbus.v
