(* ===== verification/Prelude.v ===== *)
(** * Verification of the industrial IoT monitoring platform

    The development models the Python services of the repository and proves what
    they guarantee.  A sensor node answers Modbus requests; a gateway publishes
    telemetry and health over MQTT and obeys relay commands; an ingestion worker
    stores messages in PostgreSQL and raises threshold alarms; a REST API and a
    WebSocket serve operators; an anomaly worker trains and applies a model per
    device.

    ** Conventions

    - Exceptions are values of [exn]; a fallible function returns [result], a
      stateful one is a block of the monad [M] (state and [result]; an exception
      keeps the state reached).  Names are the source's, fields carry a letter
      for their class.
    - [float] is IEEE binary64, executable ([Float64]), with the error of a sum
      bounded ([FloatBounds]); text of floats is computed exactly ([PyFormat]).  [str] is UTF-8 ([PyStr]); [int] is [Z];
      times are microseconds ([PyTime]); JSON and its parser are [Json] and
      [JsonParse] (fuel: two units per byte), and [JsonRoundTrip] and
      [JsonIndent] show that the parser inverts the writers.  [JsonValues] is
      [int], [float] and [for] on a JSON value, [Csv] the csv module, [Files]
      the file system with paths, links and UTF-8 text.
    - Third-party code is an argument of the definitions that use it: pydantic's
      coercion, PyJWT, Argon2, the MQTT client, NumPy's reductions,
      scikit-learn, joblib, SHA-256, the Mersenne twister, UUIDs, the file
      system's links.  What a theorem needs of them is a hypothesis with a
      witness.
    - Every property with hypotheses is followed by a [_witness] that
      instantiates it on concrete data.

    ** Parts and files

    - Device side.  [Modbus]: [simulator/modbus/protocol.py] and the frame loop
      of [pty_node.py].  [Generator]: [simulator/telemetry_generator/main.py].
      [Gateway], [GatewayProps]: [simulator/gateway_agent.py], its state
      machine, and the interleaving of its two threads at attribute assignments.
    - Storage.  [Models], [Tables], [Keys]: [services/api/app/models.py], rows,
      column checks, key constraints and their invariant.  [Session],
      [Transactions]: the SQLAlchemy session of [database.py] as a unit of work
      with flush, commit, rollback and the after-commit queue of [events.py].
      [Migrations], [MigrationProps]: the scripts of
      [services/api/alembic/versions] as operations on a schema.
    - Ingestion.  [Topics] ([contracts/mqtt_topics.py]), [Schemas]
      ([services/api/app/schemas.py]), [Ingestion], [AlarmFacts],
      [IngestionRuns], [IngestionProps], [HealthAckProps]
      ([services/api/app/ingestion.py]), [Ingestor], [IngestorProps]
      ([services/mqtt_ingestor/main.py], which composes all of these).
    - Service.  [Settings] ([settings.py], [security.py]), [Live] ([live.py]),
      [Commands] ([command_service.py]), [CommandLoop] (a command through API,
      gateway and ingestion worker), [ApiViews], [Api], [ApiProps],
      [QueryProps] ([main.py], [seed.py]).
    - Anomaly detection.  [Features], [FeatureProps] ([features.py]);
      [SensorRules], [SensorProps] ([sensor_rules.py]); [Modeling],
      [TrainingProps], [Artifacts], [ArtifactProps] ([modeling.py]); [Worker],
      [WorkerFacts], [WorkerProps], [WorkerProgress], [WorkerAlarms]
      ([worker.py], over [Session] and [Artifacts]); [Evaluation],
      [EvaluationProps] ([evaluation.py], [demo_data.py], the demonstration of
      [main.py]); [AnomalyMain] (its commands [train] and [run]).
    - The whole.  [Integrity]: the invariant of the database and its proof for
      every block that writes.  [Platform]: the processes as one transition
      system, its reachable databases, and the API's responses on them.
    - Repository.  [Licenses], [LicenseProps]
      ([scripts/check_dependency_licenses.py]); [Regex] (the [re] module),
      [Hygiene], [HygieneProps] ([scripts/check_repository_hygiene.py]);
      [ReportText], [ReportTextProps] (shaping, wrapping, Markdown),
      [ReportPages], [ReportProps] (pages, manifest) of
      [scripts/build_reports.py]; [ReportCheck], [ReportCheckProps]
      ([scripts/verify_reports.py]); [Smoke], [SmokeProps]
      ([scripts/compose_smoke.py]); [Solids], [SolidProps] (the
      envelopes) and [Hardware], [HardwareProps] (the artifacts and their
      validation) of [scripts/generate_hardware_artifacts.py].

    ** What is proved

    - Platform: no sequence of messages, requests, commands, scoring passes,
      trainings and seedings breaks a key, an alarm's life cycle or a threshold
      row, and the responses built from any reachable database pass their
      response models.
    - Ingestion: whatever arrives on a topic, the database stays well-formed and
      the answer tells exactly what changed, row by row; stored telemetry and
      health are duplicates ever after, an acknowledgement as long as its
      command carries its status; alarms refine a hysteresis state machine; a
      valid message without NUL characters is accepted; a commit race ends as a
      duplicate; identity comes from the topic.
    - Modbus: the master decodes what a node holds, every single-byte corruption
      is detected, no byte string makes a node raise.
    - Relay: only an authorised, unexpired command switches it on, always with a
      deadline; the counter-scenario of overlapping threads is proved too.
    - API and commands: the five operator operations are atomic, write exactly
      their rows and are audited; access needs an active user, query windows
      are bounded, exported cells are inert.  A command and its audit event are
      committed before the message is sent; it is parsed back by the gateway,
      obeyed in time, and its acknowledgement, as [json.dumps] writes it,
      completes the row unless that row changed in between: an acknowledgement
      can be overwritten by the second commit (proved).
    - Schema: the migrations build what the mapped classes declare, the column
      checks of [Tables] are those of that schema, downgrades undo upgrades
      except the widening of the counters (proved).
    - Anomaly detection: the scan computes the maximal gap-free windows and is
      causal; the sensor rules are total and equivalent to a declarative
      reading; training takes exactly the healthy windows of the baseline and
      passes its gates; only verified artifacts are loaded and
      a save interrupted anywhere is never loaded; a scoring pass is atomic and
      touches its own columns only, drains its backlog and keeps the sensor
      alarm in step with the rules; the evaluation report counts every sample
      once; the readiness file appears only after a pass returned.
    - Licences: an inventory lists every pinned and every npm package once, by
      a reading of the locks independent of the parser, with an admitted
      licence (by SPDX identifier: other spellings pass, proved), whatever the order of the locks; read back as CSV it is its rows.
    - Hygiene: the check passes exactly on the checkouts that satisfy its
      declarative reading, where a pattern is found wherever it matches.
    - Reports: pages are closed and numbered, every line of the source is drawn
      in order, wrapping is greedy and loses no word, a rendered source parses
      back, right-to-left lines are drawn in visual order, the checksum manifest
      verifies; the hardware review drops pins past 190 characters (proved).
      Their verification accepts exactly the reports that satisfy its
      declarative reading, judges the pictures of this rendering in page order,
      and lays them out without overlap.
    - Smoke test: the wait ends with a token, an exception it does not catch or
      a timeout, neither early nor after more than 61 failed attempts; a reset
      connection ends it (proved).
    - Hardware: the generated files pass the script's own validation; meshes
      are closed and face outwards; STEP references point backwards; the bill
      of materials accounts for every component and pads follow the nets.

    ** Bounds

    Loops over data are structural.  [JsonParse] has fuel as above,
    shown sufficient for every written value;
    [upgrade_head] takes one unit per script.  Repeated scoring passes are
    counted by [passes], and [backlog_drained] gives the number that suffices.
    The turns of [wait] have fuel, and [wait_ends] shows that 62 suffice when the
    clock sees two seconds of sleep.

    ** Not modelled

    Process start-up, argument parsing, signal handling, sockets, threads of the
    MQTT client other than the callbacks, readiness files, the pseudo-terminal,
    FastAPI's routing and middleware and Alembic's environment: input and output
    around the modelled functions.  The firmware (C) and the web console
    (TypeScript) are other programs; of HTML, PDF and PNG only the operations
    that draw them are modelled, not the bytes the libraries write.
    The database is one transaction at a time except where a property names the
    interleaving (commit races, the acknowledgement of a command). *)
From Stdlib Require Export ZArith Lia Ascii.
From Stdlib Require String.
From stdpp Require Export base list gmap strings pretty sorting.
#[global] Open Scope Z_scope.
#[global] Unset Printing Use Implicit Types.

Declare Scope py_scope.
Delimit Scope py_scope with py.

(** ** Exceptions and results *)

(** The exceptions the modelled code raises, catches or lets escape.  The
    message is the text given to the constructor. *)
Inductive exn :=
  | ValueError (msg : string)
  | SequenceCollisionError (msg : string)
  | ValidationError (error_count : nat)
  | TrainingError (msg : string)
  | ArtifactError (msg : string)
  | KeyError
  | IndexError
  | TypeError
  | OverflowError
  | ZeroDivisionError
  | RuntimeError (msg : string)
  | StopIteration
  | IntegrityError
  | DataError
  | OSError (msg : string)
  | URLError (msg : string)
  | TimeoutError (msg : string)
  | FileExistsError
  | EOFError
  | AttributeError
  | ImportError
  | ArgumentTypeError (msg : string)
  | UnpicklingError
  | HTTPException (status_code : Z) (detail : string).

(** [issubclass(type(e), ValueError)]: the subclasses declared in the source,
    and pydantic's [ValidationError], which derives from [ValueError]. *)
Definition is_value_error (e : exn) : bool :=
  match e with
  | ValueError _ | SequenceCollisionError _ | ValidationError _
  | TrainingError _ | ArtifactError _ => true
  | _ => false
  end.

(** [str(exc)] of the exceptions whose text the modelled code reads. *)
Definition exn_text (e : exn) : string :=
  match e with
  | ValueError m | SequenceCollisionError m | TrainingError m | ArtifactError m | RuntimeError m
  | OSError m | URLError m | TimeoutError m | ArgumentTypeError m => m
  | _ => ""
  end.

Inductive result (A : Type) :=
  | Ok (a : A)
  | Raise (e : exn).
Arguments Ok {A} a.
Arguments Raise {A} e.

#[export] Instance result_ret : MRet result := λ A a, Ok a.
#[export] Instance result_bind : MBind result := λ A B f m,
  match m with Ok a => f a | Raise e => Raise e end.

(** ** A state monad with exceptions

    [M S A]: a Python statement block over a mutable state [S]; an exception
    keeps the state reached when it was raised. *)
Definition M (S A : Type) : Type := S → result A * S.

#[export] Instance M_ret {S} : MRet (M S) := λ A a s, (Ok a, s).
#[export] Instance M_bind {S} : MBind (M S) := λ A B f m s,
  match m s with
  | (Ok a, s') => f a s'
  | (Raise e, s') => (Raise e, s')
  end.

Definition raise {S A} (e : exn) : M S A := λ s, (Raise e, s).
Definition get {S A} (f : S → A) : M S A := λ s, (Ok (f s), s).
Definition modify {S} (f : S → S) : M S unit := λ s, (Ok tt, f s).
Definition lift {S A} (r : result A) : M S A := λ s, (r, s).
(** [if b: return/raise ...] as a guard on the rest of the block. *)
Definition unless {S A} (b : bool) (early : M S A) (rest : M S A) : M S A :=
  if b then early else rest.
(** [for x in l: f(x)] *)
Fixpoint for_each {S A} (f : A → M S unit) (l : list A) : M S unit :=
  match l with [] => mret tt | x :: l => f x ≫= λ _, for_each f l end.
Definition try_except {S A} (m : M S A) (handler : exn → option (M S A)) : M S A := λ s,
  match m s with
  | (Raise e, s') =>
      match handler e with
      | Some h => h s'
      | None => (Raise e, s')
      end
  | r => r
  end.

Lemma bind_ret_l {S A B} (a : A) (f : A → M S B) s : (mret a ≫= f) s = f a s.
Proof. reflexivity. Qed.
Lemma bind_ret_r {S A} (m : M S A) s : (m ≫= mret) s = m s.
Proof. unfold mbind, M_bind. by destruct (m s) as [[] ?]. Qed.
Lemma bind_assoc {S A B C} (m : M S A) (f : A → M S B) (g : B → M S C) s :
  ((m ≫= f) ≫= g) s = (m ≫= (λ a, f a ≫= g)) s.
Proof. unfold mbind, M_bind. by destruct (m s) as [[] ?]. Qed.

(** A block that ends normally in value [a] and state [s']. *)
Lemma bind_ok_inv {S A B} (m : M S A) (f : A → M S B) s b s' :
  (m ≫= f) s = (Ok b, s') → ∃ a s1, m s = (Ok a, s1) ∧ f a s1 = (Ok b, s').
Proof. unfold mbind, M_bind. destruct (m s) as [[] ?]; naive_solver. Qed.

(** A block preserves a state predicate whatever its outcome. *)
Definition preserves {S A} (P : S → Prop) (m : M S A) : Prop :=
  ∀ s, P s → P (m s).2.

Lemma preserves_ret {S A} (P : S → Prop) (a : A) : preserves P (mret a).
Proof. by intros s Hs. Qed.
Lemma preserves_raise {S A} (P : S → Prop) e : preserves P (raise (A := A) e).
Proof. by intros s Hs. Qed.
Lemma preserves_get {S A} (P : S → Prop) (f : S → A) : preserves P (get f).
Proof. by intros s Hs. Qed.
Lemma preserves_lift {S A} (P : S → Prop) (r : result A) : preserves P (lift r).
Proof. by intros s Hs. Qed.
Lemma preserves_modify {S} (P : S → Prop) f :
  (∀ s, P s → P (f s)) → preserves P (modify f).
Proof. intros Hf s Hs. by apply Hf. Qed.
Lemma preserves_bind {S A B} (P : S → Prop) (m : M S A) (f : A → M S B) :
  preserves P m → (∀ a, preserves P (f a)) → preserves P (m ≫= f).
Proof.
  intros Hm Hf s Hs. unfold mbind, M_bind.
  specialize (Hm s Hs). destruct (m s) as [[a|e] s1]; simpl in *; [by apply Hf|done].
Qed.
Lemma preserves_if {S A} (P : S → Prop) (b : bool) (m1 m2 : M S A) :
  preserves P m1 → preserves P m2 → preserves P (if b then m1 else m2).
Proof. by destruct b. Qed.
Lemma preserves_try {S A} (P : S → Prop) (m : M S A) h :
  preserves P m → (∀ e k, h e = Some k → preserves P k) → preserves P (try_except m h).
Proof.
  intros Hm Hh s Hs. unfold try_except. specialize (Hm s Hs).
  destruct (m s) as [[a|e] s1]; simpl in *; [done|].
  destruct (h e) eqn:He; [by eapply Hh|done].
Qed.

Create HintDb preserves.
#[export] Hint Resolve preserves_ret preserves_raise preserves_get preserves_lift
  preserves_modify preserves_bind preserves_if preserves_try : preserves.

(** ** Tactics *)

(** Split conjunctions and existentials of the context and simplify equations. *)
Ltac inv_all :=
  repeat match goal with
  | H : _ ∧ _ |- _ => destruct H
  | H : ∃ _, _ |- _ => destruct H
  | H : (_ && _)%bool = true |- _ => apply andb_true_iff in H
  | H : negb _ = true |- _ => apply negb_true_iff in H
  | H : negb _ = false |- _ => apply negb_false_iff in H
  end; simplify_eq.

(** Case analysis on the innermost match or [if] of the goal or a hypothesis. *)
Ltac case_goal :=
  match goal with
  | |- context [match ?x with _ => _ end] =>
      lazymatch x with
      | context [match _ with _ => _ end] => fail
      | _ => destruct x eqn:?
      end
  end.
Ltac case_in H :=
  match type of H with
  | context [match ?x with _ => _ end] =>
      lazymatch x with
      | context [match _ with _ => _ end] => fail
      | _ => destruct x eqn:?
      end
  end.

(** Boolean comparisons on [Z] and [string] turned into propositions. *)
Ltac b2p :=
  repeat match goal with
  | H : (_ <? _) = true |- _ => apply Z.ltb_lt in H
  | H : (_ <? _) = false |- _ => apply Z.ltb_ge in H
  | H : (_ <=? _) = true |- _ => apply Z.leb_le in H
  | H : (_ <=? _) = false |- _ => apply Z.leb_gt in H
  | H : (_ =? _) = true |- _ => apply Z.eqb_eq in H
  | H : (_ =? _) = false |- _ => apply Z.eqb_neq in H
  | H : String.eqb _ _ = true |- _ => apply String.eqb_eq in H
  | H : String.eqb _ _ = false |- _ => apply String.eqb_neq in H
  | H : (_ && _)%bool = true |- _ => apply andb_true_iff in H; destruct H
  | H : (_ || _)%bool = false |- _ => apply orb_false_iff in H; destruct H
  | H : bool_decide _ = true |- _ => apply bool_decide_eq_true in H
  | H : bool_decide _ = false |- _ => apply bool_decide_eq_false in H
  end.

(** Linear arithmetic with [/] and [mod] by constants. *)
Ltac zdiv := Z.to_euclidean_division_equations; lia.

(** ** Generic list operations of the language *)

(** [l[-n:]] for [n > 0]. *)
Definition last_n {A} (n : nat) (l : list A) : list A := drop (length l - n) l.
(** [all(...)] and [any(...)]. *)
Definition all {A} (p : A → bool) (l : list A) : bool := forallb p l.
Definition any {A} (p : A → bool) (l : list A) : bool := existsb p l.

Lemma length_last_n {A} n (l : list A) : (length (last_n n l) = n `min` length l)%nat.
Proof. unfold last_n. rewrite length_drop. lia. Qed.

Lemma last_n_app {A} n (l1 l2 : list A) :
  (length l2 ≤ n)%nat → last_n n (l1 ++ l2) = last_n (n - length l2) l1 ++ l2.
Proof.
  intros H. unfold last_n. rewrite length_app, drop_app.
  replace (length l1 + length l2 - n - length l1)%nat with 0%nat by lia.
  rewrite drop_0. f_equal. f_equal. lia.
Qed.

Lemma find_app {A} (p : A → bool) (l1 l2 : list A) :
  List.find p (l1 ++ l2) = match List.find p l1 with Some a => Some a | None => List.find p l2 end.
Proof. induction l1 as [|x l1 IH]; simpl; [done|]. by destruct (p x). Qed.

Lemma find_none_iff {A} (p : A → bool) (l : list A) :
  List.find p l = None ↔ ∀ x, x ∈ l → p x = false.
Proof.
  induction l as [|y l IH]; simpl.
  - split; [intros _ x Hx; by apply elem_of_nil in Hx|done].
  - destruct (p y) eqn:Hy.
    + split; [done|]. intros H. specialize (H y). rewrite Hy in H.
      by discriminate H; left.
    + rewrite IH. split; intros H x.
      * rewrite elem_of_cons. intros [->|Hx]; auto.
      * intros Hx. apply H. by right.
Qed.

Lemma forallb_elem {A} (p : A → bool) (l : list A) :
  forallb p l = true ↔ ∀ x, x ∈ l → p x = true.
Proof. rewrite forallb_forall. setoid_rewrite list_elem_of_In. done. Qed.

(** ** [sorted(l, key=...)]

    A stable insertion sort by a strict comparison of the keys. *)
Fixpoint insort {A} (lt : A → A → bool) (x : A) (l : list A) : list A :=
  match l with
  | [] => [x]
  | y :: l' => if lt y x then y :: insort lt x l' else x :: l
  end.
Definition py_sorted {A} (lt : A → A → bool) (l : list A) : list A := foldr (insort lt) [] l.

Section Sorting.
Context {A : Type} (lt : A → A → bool).

Lemma insort_perm x l : insort lt x l ≡ₚ x :: l.
Proof.
  induction l as [|y l IH]; simpl; [done|]. destruct (lt y x); [|done].
  rewrite IH. apply Permutation_swap.
Qed.
Lemma py_sorted_perm l : py_sorted lt l ≡ₚ l.
Proof. induction l as [|x l IH]; simpl; [done|]. by rewrite insort_perm, IH. Qed.

Lemma insort_app x l1 l2 :
  (∀ y, y ∈ l2 → lt y x = false) → insort lt x (l1 ++ l2) = insort lt x l1 ++ l2.
Proof.
  intros H. induction l1 as [|y l1 IH]; simpl.
  - destruct l2 as [|z l2]; [done|]. simpl. by rewrite (H z) by left.
  - destruct (lt y x); [by rewrite IH|done].
Qed.
(** Elements that are not below any earlier one are sorted on their own. *)
Lemma py_sorted_app l1 l2 :
  (∀ x y, x ∈ l1 → y ∈ l2 → lt y x = false) →
  py_sorted lt (l1 ++ l2) = py_sorted lt l1 ++ py_sorted lt l2.
Proof.
  intros H. induction l1 as [|x l1 IH]; [done|].
  change (insort lt x (py_sorted lt (l1 ++ l2)) = insort lt x (py_sorted lt l1) ++ py_sorted lt l2).
  rewrite IH by (intros x' y Hx; apply H; by right). apply insort_app.
  intros y Hy. apply H; [by left|]. by rewrite py_sorted_perm in Hy.
Qed.

Context (Htrans : ∀ a b c, lt b a = false → lt c b = false → lt c a = false).
Context (Htotal : ∀ a b, lt a b = true → lt b a = false).
Lemma insort_sorted x l :
  StronglySorted (λ a b, lt b a = false) l → StronglySorted (λ a b, lt b a = false) (insort lt x l).
Proof.
  induction 1 as [|y l Hs IH Hy]; simpl; [by repeat constructor|].
  destruct (lt y x) eqn:E.
  - constructor; [done|]. rewrite insort_perm. constructor; [by apply Htotal|done].
  - constructor; [by constructor|]. constructor; [done|].
    apply (Forall_impl _ _ _ Hy). intros z Hz. by eapply Htrans.
Qed.
Lemma py_sorted_sorted l : StronglySorted (λ a b, lt b a = false) (py_sorted lt l).
Proof. induction l as [|x l IH]; simpl; [constructor|]. by apply insort_sorted. Qed.
End Sorting.

(** [for x in l: k.append(f(x))] when no call raises. *)
Lemma mapM_result_ok {A B} (f : A → result B) l :
  (∀ x, x ∈ l → ∃ y, f x = Ok y) → ∃ k, mapM f l = Ok k ∧ Forall2 (λ x y, f x = Ok y) l k.
Proof.
  induction l as [|x l IH]; intros H; simpl; [by exists []|].
  destruct (H x) as [y Hy]; [by left|]. destruct IH as (k & Hk & HF); [intros z Hz; apply H; by right|].
  rewrite Hy. unfold mbind, result_bind. unfold mbind, result_bind in Hk. rewrite Hk. exists (y :: k). split; [done|by constructor].
Qed.

(** ** Boolean filters *)

Section Filter.
Context {A : Type}.

Lemma filter_both (p q : A → bool) l :
  List.filter (λ x, p x && q x) l = List.filter q (List.filter p l).
Proof. induction l as [|x l IH]; simpl; [done|]. destruct (p x); simpl; by rewrite IH. Qed.
Lemma filter_perm (p : A → bool) l1 l2 : l1 ≡ₚ l2 → List.filter p l1 ≡ₚ List.filter p l2.
Proof.
  induction 1 as [|x l1 l2 _ IH|x y l|l1 l2 l3 _ IH1 _ IH2]; simpl; [done|by destruct (p x); rewrite ?IH| |by rewrite IH1].
  destruct (p x), (p y); try done. apply Permutation_swap.
Qed.
Lemma filter_none (p : A → bool) l : (∀ x, x ∈ l → p x = false) → List.filter p l = [].
Proof. induction l as [|x l IH]; intros H; simpl; [done|]. rewrite (H x) by left. apply IH. intros y Hy. apply H. by right. Qed.
Lemma filter_all (p : A → bool) l : (∀ x, x ∈ l → p x = true) → List.filter p l = l.
Proof. induction l as [|x l IH]; intros H; simpl; [done|]. rewrite (H x) by left. f_equal. apply IH. intros y Hy. apply H. by right. Qed.
Lemma elem_of_filter_bool (p : A → bool) l x : x ∈ List.filter p l ↔ x ∈ l ∧ p x = true.
Proof. rewrite !list_elem_of_In. apply List.filter_In. Qed.
Lemma length_filter_le (p : A → bool) l : (length (List.filter p l) <= length l)%nat.
Proof. induction l as [|x l IH]; simpl; [done|]. destruct (p x); simpl; lia. Qed.

(** A filter keeps the distinctness of a key. *)
Lemma filter_NoDup {B} (key : A → B) (p : A → bool) l : NoDup (map key l) → NoDup (map key (List.filter p l)).
Proof.
  induction l as [|x l IH]; simpl; [done|]. rewrite NoDup_cons. intros [Hn Hl].
  destruct (p x); simpl; [|by apply IH]. apply NoDup_cons. split; [|by apply IH].
  intros (y & E & Hy)%list_elem_of_fmap. apply Hn. rewrite E. apply list_elem_of_fmap_2.
  by apply elem_of_filter_bool in Hy as [? _].
Qed.
End Filter.

(** ** Dictionaries with integer keys, and lists related pointwise *)

(** [d[key]] and [d.get(key)] of a dict filled in order: the last one wins. *)
Definition by_key {A} (key : Z) (d : list (Z * A)) : option A :=
  snd <$> List.find (λ kv, kv.1 =? key) (rev d).
Lemma by_key_some {A} key (d : list (Z * A)) : key ∈ map fst d → ∃ v, by_key key d = Some v.
Proof.
  intros Hin. unfold by_key. destruct (List.find _ (rev d)) as [[k v]|] eqn:E; [by exists v|]. exfalso.
  apply list_elem_of_In, in_map_iff in Hin as (kv & Hk & Hin). apply in_rev in Hin.
  pose proof (find_none _ _ E _ Hin) as H. simpl in H. rewrite Hk, Z.eqb_refl in H. done.
Qed.

Lemma mapM_forall2 {A B} (f : A → result B) l k : mapM f l = Ok k ↔ Forall2 (λ x y, f x = Ok y) l k.
Proof.
  revert k. induction l as [|x l IH]; intros k; cbn [mapM].
  - split; [by intros [= <-]|]. by intros ->%Forall2_nil_inv_l.
  - unfold mbind, result_bind in *. split.
    + destruct (f x) as [y|] eqn:Hx; [|done]. destruct (mapM f l) as [ys|] eqn:Hl; [|done]. intros [= <-].
      constructor; [done|]. by apply IH.
    + intros (y & ys & Hx & Hl & ->)%Forall2_cons_inv_l. rewrite Hx. apply IH in Hl. by rewrite Hl.
Qed.

Lemma find_app_none {A} (p : A → bool) l1 l2 : (∀ x, x ∈ l1 → p x = false) → List.find p (l1 ++ l2) = List.find p l2.
Proof.
  intros H. rewrite find_app. destruct (List.find p l1) as [x|] eqn:E; [|done].
  apply List.find_some in E as [Hin Hp]. rewrite H in Hp; [done|]. by apply list_elem_of_In.
Qed.

Lemma by_key_unique {A} key (v : A) l1 l2 :
  key ∉ map fst l2 → by_key key (l1 ++ (key, v) :: l2) = Some v.
Proof.
  intros Hn. unfold by_key. rewrite rev_app_distr. simpl. rewrite <- app_assoc. rewrite find_app_none.
  - simpl. by rewrite Z.eqb_refl.
  - intros [k x] Hin. apply Z.eqb_neq. simpl. intros ->. apply Hn.
    apply list_elem_of_In, in_rev in Hin. apply list_elem_of_In, in_map_iff. by exists (key, x).
Qed.

Lemma key_inj {A B} (key : A → B) l x y : NoDup (map key l) → x ∈ l → y ∈ l → key x = key y → x = y.
Proof.
  induction l as [|z l IH]; [by intros _ ?%elem_of_nil|]. simpl. rewrite NoDup_cons, !elem_of_cons.
  intros [Hz Hl] [->|Hx] [->|Hy] E; [done| | |by apply IH]; exfalso; apply Hz; [rewrite E|rewrite <- E];
    by apply list_elem_of_fmap_2.
Qed.

Lemma Forall2_elem_l {A B} (R : A → B → Prop) l k x : Forall2 R l k → x ∈ l → ∃ y, y ∈ k ∧ R x y.
Proof.
  intros HF [i Hi]%list_elem_of_lookup_1. destruct (Forall2_lookup_l _ _ _ _ _ HF Hi) as (y & Hy & ?).
  exists y. split; [by eapply list_elem_of_lookup_2|done].
Qed.
Lemma Forall2_elem_r {A B} (R : A → B → Prop) l k y : Forall2 R l k → y ∈ k → ∃ x, x ∈ l ∧ R x y.
Proof.
  intros HF [i Hi]%list_elem_of_lookup_1. destruct (Forall2_lookup_r _ _ _ _ _ HF Hi) as (x & Hx & ?).
  exists x. split; [by eapply list_elem_of_lookup_2|done].
Qed.
