(* ===== verification/Float64.v ===== *)
(** Python's [float]: IEEE 754 binary64, through the executable specification
    [SpecFloat] of the standard library (round to nearest, ties to even).
    Literals, conversions from [int], the arithmetic and the comparisons the
    modelled code uses.  The lemmas turn comparisons of
    valid floats into comparisons of integers ([fkey]). *)
From S2P Require Import Prelude.
From Stdlib Require Export SpecFloat.

Abbreviation float := spec_float.

Definition prec := 53.
Definition emax := 1024.

(** ** Arithmetic *)
Definition fadd : float → float → float := SFadd prec emax.
Definition fsub : float → float → float := SFsub prec emax.
Definition fmul : float → float → float := SFmul prec emax.
Definition fdiv : float → float → float := SFdiv prec emax.
Definition fsqrt : float → float := SFsqrt prec emax.
Definition fneg : float → float := SFopp.
Definition fabs : float → float := SFabs.

(** [x < y], [x <= y], [x == y]; every comparison with a nan is false. *)
Definition fltb : float → float → bool := SFltb.
Definition fleb : float → float → bool := SFleb.
Definition feqb : float → float → bool := SFeqb.

Infix "⊕" := fadd (at level 50, left associativity) : py_scope.
Infix "⊖" := fsub (at level 50, left associativity) : py_scope.
Infix "⊗" := fmul (at level 40, left associativity) : py_scope.
Infix "⊘" := fdiv (at level 40, left associativity) : py_scope.
Infix "<.?" := fltb (at level 70) : py_scope.
Infix "<=.?" := fleb (at level 70) : py_scope.

(** [max(a, b)] of two arguments: the first unless the second is greater. *)
Definition fmax (a b : float) : float := if fltb a b then b else a.

Definition is_finite (x : float) : bool :=
  match x with S754_zero _ | S754_finite _ _ _ => true | _ => false end.
Definition is_nan (x : float) : bool :=
  match x with S754_nan => true | _ => false end.
(** Every float the interpreter builds is canonical. *)
Definition fvalid (x : float) : bool := valid_binary prec emax x.

(** ** Integers and literals *)

(** [float(n)], correctly rounded. *)
Definition of_int (n : Z) : float := binary_normalize prec emax n 0 false.

(** [m / n] on ints: the correctly rounded quotient ([n] non-zero). *)
Definition int_div (m n : Z) : float :=
  match n with
  | Z0 => S754_nan
  | Zpos q =>
      match m with
      | Z0 => S754_zero false
      | Zpos p => SFdiv prec emax (S754_finite false p 0) (S754_finite false q 0)
      | Zneg p => SFdiv prec emax (S754_finite true p 0) (S754_finite false q 0)
      end
  | Zneg q =>
      match m with
      | Z0 => S754_zero true
      | Zpos p => SFdiv prec emax (S754_finite true p 0) (S754_finite false q 0)
      | Zneg p => SFdiv prec emax (S754_finite false p 0) (S754_finite false q 0)
      end
  end.

(** The decimal literal [m * 10^-k]: the nearest float. *)
Definition lit (m : Z) (k : Z) : float := int_div m (10 ^ k).

Example lit_65 : lit 650 1 = of_int 65. Proof. vm_compute. done. Qed.
Example lit_tenth : lit 1 1 = S754_finite false 7205759403792794 (-56).
Proof. vm_compute. done. Qed.
Example sum_tenths : (lit 1 1 ⊕ lit 2 1)%py ≠ lit 3 1.
Proof. vm_compute. done. Qed.

(** [int(x)] of a float. *)
Definition py_int (x : float) : result Z :=
  match x with
  | S754_zero _ => Ok 0
  | S754_finite s m e =>
      let q := if 0 <=? e then Zpos m * 2 ^ e else Zpos m / 2 ^ (- e) in
      Ok (if s then - q else q)
  | S754_infinity _ => Raise OverflowError
  | S754_nan => Raise (ValueError "cannot convert float NaN to integer")
  end.

(** ** Comparisons as integer comparisons

    The exact value of a finite float, in units of [2^-1074] (an infinity is
    put beyond every finite value). *)
Definition fkey (x : float) : Z :=
  match x with
  | S754_zero _ | S754_nan => 0
  | S754_infinity s => cond_Zopp s (2 ^ 2200)
  | S754_finite s m e => cond_Zopp s (Zpos m * 2 ^ (e + 1074))
  end.

Lemma digits2_pos_bounds m :
  2 ^ (Zpos (digits2_pos m) - 1) ≤ Zpos m < 2 ^ Zpos (digits2_pos m).
Proof.
  induction m as [m IH|m IH|]; simpl digits2_pos.
  - rewrite Pos2Z.inj_succ.
    replace (Z.succ (Zpos (digits2_pos m)) - 1) with (Z.succ (Zpos (digits2_pos m) - 1)) by lia.
    rewrite !Z.pow_succ_r by lia. lia.
  - rewrite Pos2Z.inj_succ.
    replace (Z.succ (Zpos (digits2_pos m)) - 1) with (Z.succ (Zpos (digits2_pos m) - 1)) by lia.
    rewrite !Z.pow_succ_r by lia. lia.
  - simpl. lia.
Qed.

(** Canonical mantissas: at most 53 bits, exactly 53 above the least exponent. *)
Lemma bounded_spec m e :
  bounded prec emax m e = true →
  -1074 ≤ e ≤ 971 ∧ Zpos m < 2 ^ 53 ∧ (-1074 < e → 2 ^ 52 ≤ Zpos m).
Proof.
  unfold bounded, canonical_mantissa, fexp, emin, prec, emax.
  rewrite andb_true_iff, Z.eqb_eq, Z.leb_le. intros [Hc He].
  pose proof (digits2_pos_bounds m) as [Hlo Hhi].
  assert (Hd : Zpos (digits2_pos m) ≤ 53) by lia.
  split; [lia|]. split.
  - eapply Z.lt_le_trans; [exact Hhi|]. apply Z.pow_le_mono_r; lia.
  - intros Hgt. replace (2 ^ 52) with (2 ^ (Zpos (digits2_pos m) - 1)); [done|].
    f_equal. lia.
Qed.

Lemma bounded_lt m1 e1 m2 e2 :
  bounded prec emax m1 e1 = true → bounded prec emax m2 e2 = true → e1 < e2 →
  Zpos m1 * 2 ^ (e1 + 1074) < Zpos m2 * 2 ^ (e2 + 1074).
Proof.
  intros [He1 [Hm1 _]]%bounded_spec [He2 [_ Hm2]]%bounded_spec Hlt.
  apply Z.lt_le_trans with (2 ^ 53 * 2 ^ (e1 + 1074)).
  - apply Z.mul_lt_mono_pos_r; [apply Z.pow_pos_nonneg|]; lia.
  - apply Z.le_trans with (2 ^ 52 * 2 ^ (e2 + 1074)).
    + rewrite <- !Z.pow_add_r by lia. apply Z.pow_le_mono_r; lia.
    + apply Z.mul_le_mono_nonneg_r; [apply Z.pow_nonneg|]; lia.
Qed.

Lemma bounded_below_inf m e :
  bounded prec emax m e = true → 0 < Zpos m * 2 ^ (e + 1074) < 2 ^ 2200.
Proof.
  intros [He [Hm _]]%bounded_spec. split.
  - apply Z.mul_pos_pos; [lia|apply Z.pow_pos_nonneg; lia].
  - apply Z.lt_le_trans with (2 ^ 53 * 2 ^ (e + 1074)).
    + apply Z.mul_lt_mono_pos_r; [apply Z.pow_pos_nonneg|]; lia.
    + rewrite <- Z.pow_add_r by lia. apply Z.pow_le_mono_r; lia.
Qed.

Lemma compare_finite_pos m1 e1 m2 e2 :
  bounded prec emax m1 e1 = true → bounded prec emax m2 e2 = true →
  match Z.compare e1 e2 with
  | Lt => Lt | Gt => Gt | Eq => Pos.compare_cont Eq m1 m2
  end = (Zpos m1 * 2 ^ (e1 + 1074) ?= Zpos m2 * 2 ^ (e2 + 1074)).
Proof.
  intros H1 H2. destruct (Z.compare_spec e1 e2) as [->|Hlt|Hgt].
  - apply bounded_spec in H2 as [He _].
    rewrite <- (Zmult_compare_compat_r (Zpos m1) (Zpos m2)); [done|].
    apply Z.lt_gt, Z.pow_pos_nonneg; lia.
  - symmetry. apply Z.compare_lt_iff. by apply bounded_lt.
  - symmetry. apply Z.compare_gt_iff. by apply bounded_lt.
Qed.

(** The comparison of two valid floats, neither a nan, is the comparison of
    their exact values. *)
Lemma SFcompare_key x y :
  fvalid x = true → fvalid y = true → is_nan x = false → is_nan y = false →
  SFcompare x y = Some (fkey x ?= fkey y).
Proof.
  pose proof (Z.pow_pos_nonneg 2 2200 ltac:(lia) ltac:(lia)) as Hinf.
  destruct x as [[]|[]| |[] m1 e1], y as [[]|[]| |[] m2 e2]; try done;
    unfold fvalid, valid_binary; intros H1 H2 _ _;
    try (pose proof (bounded_below_inf _ _ H1));
    try (pose proof (bounded_below_inf _ _ H2));
    unfold SFcompare, fkey, cond_Zopp; f_equal;
    try (rewrite Z.compare_refl; done);
    try (symmetry; first [apply Z.compare_lt_iff|apply Z.compare_gt_iff]; lia).
  - rewrite Z.compare_opp, <- compare_finite_pos by done.
    rewrite (Z.compare_antisym e1 e2). destruct (e1 ?= e2); try done.
    symmetry. apply Pos.compare_antisym.
  - by apply compare_finite_pos.
Qed.

Section Keys.
Context (x y : float).
Context (Hx : fvalid x = true) (Hy : fvalid y = true).
Context (Nx : is_nan x = false) (Ny : is_nan y = false).

Lemma fltb_key : fltb x y = (fkey x <? fkey y).
Proof.
  unfold fltb, SFltb. rewrite (SFcompare_key x y) by done.
  unfold Z.ltb. by destruct (fkey x ?= fkey y).
Qed.
Lemma fleb_key : fleb x y = (fkey x <=? fkey y).
Proof.
  unfold fleb, SFleb. rewrite (SFcompare_key x y) by done.
  unfold Z.leb. by destruct (fkey x ?= fkey y).
Qed.
Lemma feqb_key : feqb x y = (fkey x =? fkey y).
Proof.
  unfold feqb, SFeqb. rewrite (SFcompare_key x y) by done.
  destruct (Z.compare_spec (fkey x) (fkey y)); symmetry;
    [by apply Z.eqb_eq|by apply Z.eqb_neq; lia|by apply Z.eqb_neq; lia].
Qed.
End Keys.
