(* ===== verification/FloatBounds.v ===== *)
(** Rounding: a sum of valid floats is a valid float within one part in [2^52]
    of the exact sum ([fadd_bounds]). *)
From S2P Require Import Prelude Float64.

(** ** Digits and shifts *)

Lemma digits_unique m k : 2 ^ (k - 1) ≤ Zpos m < 2 ^ k → Zpos (digits2_pos m) = k.
Proof.
  intros [H1 H2]. pose proof (digits2_pos_bounds m) as [H3 H4].
  assert (k - 1 < Zpos (digits2_pos m)) by (apply (Z.pow_lt_mono_r_iff 2); lia).
  assert (0 ≤ k). { destruct (Z.neg_nonneg_cases k); [|done]. rewrite (Z.pow_neg_r 2 k) in H2 by done. lia. }
  assert (Zpos (digits2_pos m) - 1 < k) by (apply (Z.pow_lt_mono_r_iff 2); lia). lia.
Qed.

Lemma shr_1_m r : 0 ≤ shr_m r → shr_m (shr_1 r) = shr_m r / 2.
Proof.
  destruct r as [[|[p|p|]|p] r s]; simpl; intros H; try done; try lia.
  - by rewrite (Pos2Z.inj_xI p), Z.add_comm, Z.mul_comm, Z.div_add by lia.
  - by rewrite (Pos2Z.inj_xO p), Z.mul_comm, Z.div_mul by lia.
Qed.
Lemma shr_iter_m p : ∀ r, 0 ≤ shr_m r → shr_m (iter_pos shr_1 p r) = shr_m r / 2 ^ Zpos p.
Proof.
  assert (Hd : ∀ z k, 0 ≤ z → 0 ≤ z / 2 ^ Zpos k) by (intros; apply Z.div_pos; lia).
  induction p as [p IH|p IH|]; intros r Hr; simpl iter_pos.
  - assert (H1 : 0 ≤ shr_m (shr_1 r)) by (rewrite shr_1_m by done; apply Z.div_pos; lia).
    rewrite !IH; try done; [|rewrite IH by done; by apply Hd].
    rewrite shr_1_m, !Z.div_div by lia. f_equal. rewrite (Pos2Z.inj_xI p).
    replace (2 * Zpos p + 1) with (1 + Zpos p + Zpos p) by lia. rewrite !Z.pow_add_r by lia. lia.
  - rewrite !IH; try done; [|rewrite IH by done; by apply Hd].
    rewrite !Z.div_div by lia. f_equal. rewrite (Pos2Z.inj_xO p).
    replace (2 * Zpos p) with (Zpos p + Zpos p) by lia. by rewrite Z.pow_add_r by lia.
  - by apply shr_1_m.
Qed.
Lemma round_even_bounds m l : m ≤ round_nearest_even m l ≤ m + 1.
Proof. destruct l as [|[]]; simpl; try destruct (Z.even m); lia. Qed.
Lemma shl_iter m d : Zpos (Pos.iter xO m d) = Zpos m * 2 ^ Zpos d.
Proof.
  induction d as [|d IH] using Pos.peano_ind; [simpl; lia|].
  rewrite Pos.iter_succ, Pos2Z.inj_xO, IH, Pos2Z.inj_succ, Z.pow_succ_r by lia. lia.
Qed.
Lemma shl_align_spec m e e' :
  (shl_align m e e').2 = Z.min e e'
  ∧ Zpos (shl_align m e e').1 = Zpos m * 2 ^ (e - Z.min e e').
Proof.
  unfold shl_align. destruct (e' - e) as [|d|d] eqn:E; simpl.
  - replace (Z.min e e') with e by lia. by rewrite Z.sub_diag, Z.mul_1_r.
  - replace (Z.min e e') with e by lia. by rewrite Z.sub_diag, Z.mul_1_r.
  - replace (Z.min e e') with e' by lia. split; [done|]. rewrite shl_iter. do 2 f_equal. lia.
Qed.

(** ** Rounding to 53 bits *)

(** A mantissa that fits its exponent, and its value. *)
Definition fits (m e : Z) : Prop := -1074 ≤ e ∧ 0 < m < 2 ^ 53 ∧ (-1074 < e → 2 ^ 52 ≤ m).
Lemma pow_shift e k : -1074 ≤ e → 0 ≤ k → 2 ^ k * 2 ^ (e + 1074) = 2 ^ (e + k + 1074).
Proof. intros. rewrite <- Z.pow_add_r by lia. f_equal. lia. Qed.
Lemma fexp_fits m e : fits (Zpos m) e → fexp prec emax (Zpos (digits2_pos m) + e) = e.
Proof.
  unfold fits, fexp, emin, prec, emax. intros (He & [_ Hm] & Hlow). pose proof (digits2_pos_bounds m) as [H1 _].
  assert (Zpos (digits2_pos m) - 1 < 53) by (apply (Z.pow_lt_mono_r_iff 2); lia).
  destruct (Z.eq_dec e (-1074)) as [->|]; [lia|].
  rewrite (digits_unique m 53) by (split; [apply Hlow|]; lia). lia.
Qed.
Lemma fits_bounded m e : fits (Zpos m) e → e ≤ 971 → bounded prec emax m e = true.
Proof.
  intros Hf He. unfold bounded, canonical_mantissa. rewrite (fexp_fits _ _ Hf), Z.eqb_refl. by apply Z.leb_le.
Qed.
Lemma shr_fexp_fits m e l : fits (Zpos m) e → shr_m (shr_fexp prec emax (Zpos m) e l).1 = Zpos m ∧ (shr_fexp prec emax (Zpos m) e l).2 = e.
Proof.
  intros Hf. unfold shr_fexp. cbn [Zdigits2]. rewrite (fexp_fits _ _ Hf), Z.sub_diag. simpl. by destruct l as [|[]].
Qed.

(** The first shift keeps the leading bits of an exact value. *)
Lemma shr_fexp_exact m e : -1074 ≤ e → e ≤ fexp prec emax (Zpos (digits2_pos m) + e) →
  let r := shr_fexp prec emax (Zpos m) e loc_Exact in
  let X := Zpos m * 2 ^ (e + 1074) in
  fits (shr_m r.1) r.2 ∧ shr_m r.1 * 2 ^ (r.2 + 1074) ≤ X < (shr_m r.1 + 1) * 2 ^ (r.2 + 1074)
  ∧ (r.2 = e ∧ r.1 = Build_shr_record (Zpos m) false false
     ∨ e < fexp prec emax (Zpos (digits2_pos m) + e) ∧ 2 ^ 52 * 2 ^ (r.2 + 1074) ≤ X).
Proof.
  unfold shr_fexp, fexp, emin, prec, emax. cbn [Zdigits2 shr_record_of_loc]. intros He Hle.
  pose proof (digits2_pos_bounds m) as [H1 H2]. set (d := Zpos (digits2_pos m)) in *.
  destruct (Z.max (d + e - 53) (3 - 1024 - 53) - e) as [|n|n] eqn:En; [| |lia].
  - cbn [shr shr_m fst snd]. unfold fits. pose proof (Z.pow_pos_nonneg 2 (e + 1074)). split_and!; try lia; try nia; [| |by left].
    + apply Z.lt_le_trans with (2 ^ d); [done|]. apply Z.pow_le_mono_r; lia.
    + intros. apply Z.le_trans with (2 ^ (d - 1)); [|done]. apply Z.pow_le_mono_r; lia.
  - cbn [shr shr_m fst snd]. rewrite shr_iter_m by (cbn; lia). cbn [shr_m]. replace (e + Zpos n) with (d + e - 53) by lia.
    assert (Hd : d = 53 + Zpos n) by lia. rewrite Hd in *. clear Hd d.
    replace (53 + Zpos n + e - 53 + 1074) with (Zpos n + (e + 1074)) by lia. rewrite Z.pow_add_r by lia.
    pose proof (Z.pow_pos_nonneg 2 (e + 1074) ltac:(lia) ltac:(lia)) as Hp.
    pose proof (Z.pow_pos_nonneg 2 (Zpos n) ltac:(lia) ltac:(lia)) as Hn.
    replace (53 + Zpos n - 1) with (52 + Zpos n) in H1 by lia. rewrite Z.pow_add_r in H1, H2 by lia.
    set (N := 2 ^ Zpos n) in *. set (P := 2 ^ (e + 1074)) in *.
    pose proof (Z.div_mod (Zpos m) N ltac:(lia)) as Hdm. pose proof (Z.mod_pos_bound (Zpos m) N Hn) as Hm.
    assert (Hq : 2 ^ 52 ≤ Zpos m / N < 2 ^ 53).
    { split; [apply Z.div_le_lower_bound|apply Z.div_lt_upper_bound]; lia. }
    unfold fits. split_and!; first [lia|nia|right; split; [lia|nia]].
Qed.

(** The second one only renormalises [2^53]. *)
Lemma shr_fexp_carry q e : -1074 ≤ e → 0 < q ≤ 2 ^ 53 → (-1074 < e → 2 ^ 52 ≤ q) →
  let r := shr_fexp prec emax q e loc_Exact in
  fits (shr_m r.1) r.2 ∧ shr_m r.1 * 2 ^ (r.2 + 1074) = q * 2 ^ (e + 1074) ∧ r.2 ≤ e + 1
  ∧ (q < 2 ^ 53 → r.2 = e).
Proof.
  intros He Hq Hlow. destruct q as [|q|q]; try lia. destruct (Z.eq_dec (Zpos q) (2 ^ 53)) as [E|Hne].
  - unfold shr_fexp. cbn [Zdigits2]. rewrite (digits_unique q 54) by (rewrite E; done). rewrite E. unfold fexp, emin, prec, emax.
    replace (Z.max (54 + e - 53) (3 - 1024 - 53) - e) with 1 by lia. cbn [shr iter_pos shr_1 shr_record_of_loc fst snd].
    unfold fits. change (shr_m _) with (2 ^ 52). split_and!; try lia.
    replace (e + 1 + 1074) with (1 + (e + 1074)) by lia. rewrite Z.pow_add_r by lia. lia.
  - assert (Hf : fits (Zpos q) e) by (unfold fits; split_and!; try lia; done).
    destruct (shr_fexp_fits q e loc_Exact Hf) as [H1 H2]. cbv zeta. rewrite H1, H2. split_and!; try done; lia.
Qed.

Section Round.
Context (s : bool) (m : positive) (e : Z) (He : -1074 ≤ e).
Let X := Zpos m * 2 ^ (e + 1074).

(** Before the range check: mantissa and exponent. *)
Lemma round_steps : ∃ q e' r,
  binary_round prec emax s m e =
    match shr_m r with
    | Z0 => S754_zero s
    | Zpos m => if e' <=? 971 then S754_finite s m e' else S754_infinity s
    | _ => S754_nan
    end
  ∧ shr_m r = q ∧ fits q e' ∧ Z.abs (q * 2 ^ (e' + 1074) - X) * 2 ^ 52 ≤ X
  ∧ (Zpos m < 2 ^ 53 → q * 2 ^ (e' + 1074) = X).
Proof.
  unfold binary_round. set (fx := fexp prec emax (Zpos (digits2_pos m) + e)).
  assert (Hfx : -1074 ≤ fx) by (unfold fx, fexp, emin, prec, emax; lia).
  destruct (shl_align_spec m e fx) as [E1 E2]. destruct (shl_align m e fx) as [mz ez]. cbn [fst snd] in E1, E2.
  assert (Hez : -1074 ≤ ez) by lia.
  assert (HX : Zpos mz * 2 ^ (ez + 1074) = X).
  { unfold X. rewrite E2, <- Z.mul_assoc, <- Z.pow_add_r by lia. do 2 f_equal. lia. }
  assert (Hd : fexp prec emax (Zpos (digits2_pos mz) + ez) = fx).
  { unfold fx. f_equal. pose proof (digits2_pos_bounds m) as [H1 H2].
    rewrite (digits_unique mz (Zpos (digits2_pos m) + (e - Z.min e fx))); [lia|].
    rewrite E2. replace (Zpos (digits2_pos m) + (e - Z.min e fx) - 1) with (Zpos (digits2_pos m) - 1 + (e - Z.min e fx)) by lia.
    rewrite !Z.pow_add_r by lia. pose proof (Z.pow_pos_nonneg 2 (e - Z.min e fx)). nia. }
  destruct (shr_fexp_exact mz ez Hez ltac:(rewrite Hd; lia)) as (Hf & HX1 & Hb). rewrite HX in *.
  unfold binary_round_aux. destruct (shr_fexp prec emax (Zpos mz) ez loc_Exact) as [r1 e1]. cbn [fst snd] in *.
  set (q := round_nearest_even (shr_m r1) (loc_of_shr_record r1)).
  pose proof (round_even_bounds (shr_m r1) (loc_of_shr_record r1) : _ ≤ q ≤ _) as Hq.
  destruct Hf as (F1 & F2 & F3).
  destruct (shr_fexp_carry q e1) as (G1 & G2 & _ & _); [done|lia|intros; specialize (F3 ltac:(done)); lia|].
  destruct (shr_fexp prec emax q e1 loc_Exact) as [r2 e2]. cbn [fst snd] in *.
  exists (shr_m r2), e2, r2. split; [done|]. split; [done|]. split; [done|]. rewrite G2.
  pose proof (Z.pow_pos_nonneg 2 (e1 + 1074) ltac:(lia) ltac:(lia)) as Hp. destruct Hb as [[-> ->]|Hb].
  - cbn in q. subst q. rewrite HX, Z.sub_diag. unfold X. pose proof (Z.pow_nonneg 2 (e + 1074)). simpl. split; [lia|done].
  - destruct Hb as [Hb Hb']. assert (Z.abs (q * 2 ^ (e1 + 1074) - X) ≤ 2 ^ (e1 + 1074)) by nia. split; [lia|].
    intros Hm. exfalso. rewrite Hd in Hb. assert (fx ≤ e) as Hle; [|lia]. unfold fx, fexp, emin, prec, emax.
    pose proof (digits2_pos_bounds m) as [H1 _]. assert (Zpos (digits2_pos m) - 1 < 53) by (apply (Z.pow_lt_mono_r_iff 2); lia). lia.
Qed.

Lemma round_valid : fvalid (binary_round prec emax s m e) = true ∧ is_nan (binary_round prec emax s m e) = false.
Proof.
  destruct round_steps as (q & e' & r & -> & -> & Hf & _ & _). destruct q as [|q|q]; [done| |by destruct Hf; lia].
  destruct (Z.leb_spec e' 971); [|done]. split; [|done]. by apply fits_bounded.
Qed.
Lemma round_bounds : is_finite (binary_round prec emax s m e) = true →
  Z.abs (fkey (binary_round prec emax s m e) - cond_Zopp s X) * 2 ^ 52 ≤ X.
Proof.
  destruct round_steps as (q & e' & r & -> & -> & Hf & Hb & _). destruct q as [|q|q]; [by destruct Hf; lia| |by destruct Hf; lia].
  destruct (Z.leb_spec e' 971); [|done]. intros _. cbn [fkey]. destruct s; cbn [cond_Zopp]; lia.
Qed.
Lemma round_finite : X < 2 ^ 2096 → is_finite (binary_round prec emax s m e) = true.
Proof.
  intros HX. destruct round_steps as (q & e' & r & -> & -> & (F1 & F2 & F3) & Hb & _). destruct q as [|q|q]; [done| |lia].
  destruct (Z.leb_spec e' 971) as [|He']; [done|exfalso]. specialize (F3 ltac:(lia)).
  assert (2 ^ 2046 ≤ 2 ^ (e' + 1074)) by (apply Z.pow_le_mono_r; lia).
  assert (2 ^ 52 * 2 ^ 2046 ≤ Zpos q * 2 ^ (e' + 1074)) by (apply Z.mul_le_mono_nonneg; lia).
  change (2 ^ 2096) with (2 ^ 50 * 2 ^ 2046) in HX.
  pose proof (Z.pow_pos_nonneg 2 2046 ltac:(lia) ltac:(lia)). lia.
Qed.
Lemma round_exact : Zpos m < 2 ^ 53 → is_finite (binary_round prec emax s m e) = true →
  fkey (binary_round prec emax s m e) = cond_Zopp s X.
Proof.
  destruct round_steps as (q & e' & r & -> & -> & Hf & _ & Hx). intros Hm.
  destruct q as [|q|q]; [by destruct Hf; lia| |by destruct Hf; lia].
  destruct (Z.leb_spec e' 971); [|done]. intros _. cbn [fkey]. by rewrite Hx.
Qed.
End Round.

(** Integers of fewer than 53 bits are floats. *)
Lemma of_int_exact z : Z.abs z < 2 ^ 53 → fvalid (of_int z) = true ∧ is_finite (of_int z) = true ∧ fkey (of_int z) = z * 2 ^ 1074.
Proof.
  intros Hz. destruct z as [|p|p]; [done|..]; unfold of_int, binary_normalize; (split; [by apply round_valid|]);
    assert (HF : ∀ b, is_finite (binary_round prec emax b p 0) = true)
      by (intros b; apply round_finite; [done|]; change (2 ^ 2096) with (2 ^ 1022 * 2 ^ (0 + 1074)); nia);
    (split; [apply HF|]); rewrite round_exact by (done || lia || apply HF); cbn [cond_Zopp]; simpl (0 + 1074); lia.
Qed.

(** ** Sums *)

Lemma fkey_zero b : fkey (S754_zero b) = 0.
Proof. done. Qed.

Section Sum.
Context (x y : float) (Vx : fvalid x = true) (Vy : fvalid y = true).
Context (Fx : is_finite x = true) (Fy : is_finite y = true).

(** A sum of two finite floats is one of them, zero, or a rounded integer. *)
Lemma fadd_cases :
  (fkey (fadd x y) = fkey x + fkey y ∧ fvalid (fadd x y) = true ∧ is_finite (fadd x y) = true)
  ∨ ∃ s m e, -1074 ≤ e ∧ fadd x y = binary_round prec emax s m e
      ∧ cond_Zopp s (Zpos m * 2 ^ (e + 1074)) = fkey x + fkey y.
Proof.
  destruct x as [a|a| |a m e] eqn:Ex, y as [b|b| |b n f] eqn:Ey; try done.
  - left. by destruct a, b.
  - left. rewrite fkey_zero. done.
  - left. rewrite fkey_zero, Z.add_0_r. done.
  - unfold fadd, SFadd. cbv zeta. set (ez := Z.min e f).
    apply bounded_spec in Vx as [He _], Vy as [Hf _].
    destruct (shl_align_spec m e ez) as [_ E1], (shl_align_spec n f ez) as [_ E2]. rewrite E1, E2. clear E1 E2.
    assert (Hez : -1074 ≤ ez ∧ ez ≤ e ∧ ez ≤ f) by (unfold ez; lia). clearbody ez. set (sum := _ + _).
    assert (Hsum : sum * 2 ^ (ez + 1074) = fkey (S754_finite a m e) + fkey (S754_finite b n f)).
    { assert (Hz : ∀ c k g, ez ≤ g → cond_Zopp c (Zpos k * 2 ^ (g - Z.min g ez)) * 2 ^ (ez + 1074) = fkey (S754_finite c k g)).
      { intros c k g Hg. replace (Z.min g ez) with ez by lia. cbn [fkey].
        replace (g + 1074) with (g - ez + (ez + 1074)) by lia. rewrite (Z.pow_add_r 2 (g - ez)) by lia. destruct c; cbn [cond_Zopp]; lia. }
      unfold sum. rewrite Z.mul_add_distr_r, !Hz by lia. done. }
    rewrite <- Hsum. destruct sum as [|k|k]; cbn [binary_normalize].
    + left. done.
    + right. exists false, k, ez. split_and!; [lia|done|done].
    + right. exists true, k, ez. split_and!; [lia|done|]. cbn [cond_Zopp]. lia.
Qed.

Lemma fadd_valid : fvalid (fadd x y) = true ∧ is_nan (fadd x y) = false.
Proof.
  destruct fadd_cases as [(_ & V & F)|(s & m & e & He & -> & _)]; [|by apply round_valid].
  split; [done|]. by destruct (fadd x y).
Qed.
Lemma fadd_bounds : is_finite (fadd x y) = true →
  Z.abs (fkey (fadd x y) - (fkey x + fkey y)) * 2 ^ 52 ≤ Z.abs (fkey x + fkey y).
Proof.
  destruct fadd_cases as [(-> & _)|(s & m & e & He & -> & <-)]; intros HF; [rewrite Z.sub_diag; simpl; lia|].
  pose proof (round_bounds s m e He HF) as H. pose proof (Z.pow_nonneg 2 (e + 1074)).
  destruct s; cbn [cond_Zopp] in *; lia.
Qed.
Lemma fadd_finite : Z.abs (fkey x + fkey y) < 2 ^ 2096 → is_finite (fadd x y) = true.
Proof.
  destruct fadd_cases as [(_ & _ & ->)|(s & m & e & He & -> & <-)]; [done|]. intros H. apply (round_finite s m e He).
  pose proof (Z.pow_nonneg 2 (e + 1074)). destruct s; cbn [cond_Zopp] in H; lia.
Qed.
End Sum.
