(* ===== verification/PyStr.v ===== *)
(** Python's [str] as the UTF-8 bytes of a Rocq [string]: characters, [len],
    slices, [split], [strip], [lower], [startswith], [replace], [join] and the
    decimal form of an [int].  Only what the modelled code uses. *)
From S2P Require Import Prelude.

(** ** Characters *)

Definition is_cont (c : ascii) : bool :=
  (128 <=? N_of_ascii c)%N && (N_of_ascii c <? 192)%N.
Definition starts_cont (s : string) : bool :=
  match s with String c _ => is_cont c | EmptyString => false end.

(** The characters (code points) of a string, each as its UTF-8 bytes. *)
Fixpoint chars (s : string) : list string :=
  match s with
  | EmptyString => []
  | String c s' =>
      match chars s' with
      | w :: ws => if starts_cont w then String c w :: ws else String c EmptyString :: w :: ws
      | [] => [String c EmptyString]
      end
  end.

Definition join_chars (l : list string) : string := foldr String.append EmptyString l.
(** [len(s)] *)
Definition py_len (s : string) : nat := length (chars s).
(** [s[:n]] *)
Definition py_take (n : nat) (s : string) : string := join_chars (take n (chars s)).

(** ** Operations *)

(** [s.split(sep)] for a one-character separator. *)
Fixpoint split_on (sep : ascii) (s : string) : list string :=
  match s with
  | EmptyString => [EmptyString]
  | String c s' =>
      if Ascii.eqb c sep then EmptyString :: split_on sep s'
      else match split_on sep s' with
           | w :: ws => String c w :: ws
           | [] => [String c EmptyString]
           end
  end.

(** [sep.join(l)] *)
Fixpoint join (sep : string) (l : list string) : string :=
  match l with
  | [] => EmptyString
  | [w] => w
  | w :: ws => w +:+ sep +:+ join sep ws
  end.

(** The characters for which [str.isspace] holds, as UTF-8. *)
Definition byte_chr (n : N) : ascii := ascii_of_N n.
Definition bytes_str (l : list N) : string := foldr (λ n s, String (byte_chr n) s) EmptyString l.
Definition space_chars : list string := map bytes_str [
  [9]; [10]; [11]; [12]; [13]; [28]; [29]; [30]; [31]; [32]; [194; 133]; [194; 160];
  [225; 154; 128]; [226; 128; 128]; [226; 128; 129]; [226; 128; 130]; [226; 128; 131];
  [226; 128; 132]; [226; 128; 133]; [226; 128; 134]; [226; 128; 135]; [226; 128; 136];
  [226; 128; 137]; [226; 128; 138]; [226; 128; 168]; [226; 128; 169]; [226; 128; 175];
  [226; 129; 159]; [227; 128; 128] ]%N.
Definition is_space (c : string) : bool := existsb (String.eqb c) space_chars.

Fixpoint drop_while {A} (p : A → bool) (l : list A) : list A :=
  match l with
  | [] => []
  | x :: l' => if p x then drop_while p l' else l
  end.

(** [s.strip()] *)
Definition strip (s : string) : string :=
  join_chars (rev (drop_while is_space (rev (drop_while is_space (chars s))))).

(** [s.lower()] on ASCII letters; other characters are left alone, which is
    enough to compare the result with an ASCII word without [k] or [i]. *)
Definition lower_ascii (c : ascii) : ascii :=
  if (65 <=? N_of_ascii c)%N && (N_of_ascii c <=? 90)%N then ascii_of_N (N_of_ascii c + 32) else c.
Fixpoint lower (s : string) : string :=
  match s with
  | EmptyString => EmptyString
  | String c s' => String (lower_ascii c) (lower s')
  end.

(** [s.startswith(p)] *)
Definition startswith (p s : string) : bool := String.prefix p s.

(** [s.replace(old, new, 1)] for a non-empty [old]. *)
Fixpoint replace_first (old new s : string) : string :=
  if String.prefix old s
  then new +:+ String.substring (String.length old) (String.length s - String.length old) s
  else match s with
       | EmptyString => EmptyString
       | String c s' => String c (replace_first old new s')
       end.

(** [c in s] for a one-character [c]. *)
Fixpoint contains_char (c : ascii) (s : string) : bool :=
  match s with
  | EmptyString => false
  | String d s' => Ascii.eqb c d || contains_char c s'
  end.

Definition str_of_Z (z : Z) : string := pretty z.

(** No NUL character, which PostgreSQL refuses in text. *)
Definition nul : ascii := ascii_of_N 0.
Definition no_nul (s : string) : bool := negb (contains_char nul s).

(** ** Lemmas *)

Lemma app_nil_r_str s : s +:+ "" = s.
Proof. induction s as [|c s IH]; [done|]. exact (f_equal (String c) IH). Qed.
Lemma app_assoc_str s1 s2 s3 : (s1 +:+ s2) +:+ s3 = s1 +:+ s2 +:+ s3.
Proof. induction s1 as [|c s IH]; [done|]. exact (f_equal (String c) IH). Qed.

Lemma join_chars_app l1 l2 : join_chars (l1 ++ l2) = join_chars l1 +:+ join_chars l2.
Proof. induction l1 as [|w l IH]; simpl; [done|]. by rewrite IH, app_assoc_str. Qed.

Lemma join_chars_chars s : join_chars (chars s) = s.
Proof.
  induction s as [|c s IH]; simpl; [done|].
  destruct (chars s) as [|w ws]; [by rewrite <- IH|].
  rewrite <- IH. by destruct (starts_cont w).
Qed.

Lemma py_take_all n s : (py_len s ≤ n)%nat → py_take n s = s.
Proof. intros. unfold py_take. rewrite take_ge by done. apply join_chars_chars. Qed.

(** Taking characters of a string yields a string with those characters. *)
Lemma chars_cons c s :
  chars (String c s) = match chars s with
    | w :: ws => if starts_cont w then String c w :: ws else String c EmptyString :: w :: ws
    | [] => [String c EmptyString]
    end.
Proof. reflexivity. Qed.

Lemma chars_take n s : chars (join_chars (take n (chars s))) = take n (chars s).
Proof.
  revert n. induction s as [|c s IH]; intros n; simpl; [by destruct n|].
  destruct (chars s) as [|w ws] eqn:E.
  - destruct n as [|[|n]]; done.
  - destruct (starts_cont w) eqn:Ew.
    + destruct n as [|n]; [done|].
      change (join_chars _) with (String c (join_chars (take (S n) (w :: ws)))).
      rewrite chars_cons, IH. simpl. by rewrite Ew.
    + destruct n as [|[|n]]; [done..|].
      change (join_chars _) with (String c (join_chars (take (S n) (w :: ws)))).
      rewrite chars_cons, IH. simpl. by rewrite Ew.
Qed.

Lemma chars_drop n s : chars (join_chars (drop n (chars s))) = drop n (chars s).
Proof.
  revert s. assert (Htail : ∀ s w ws, chars s = w :: ws → chars (join_chars ws) = ws).
  { induction s as [|c s IH]; intros w ws; [done|]. rewrite chars_cons. destruct (chars s) as [|v vs] eqn:E; [by intros [= _ <-]|].
    destruct (starts_cont v); intros [= _ <-]; [by eapply IH|]. by rewrite <- E, join_chars_chars. }
  induction n as [|n IH]; intros s; [by rewrite drop_0, join_chars_chars|].
  destruct (chars s) as [|w ws] eqn:E; [done|]. cbn [drop]. rewrite <- (Htail s w ws E). apply IH.
Qed.
(** No space at the front of a text of characters. *)
Definition bare (l : list string) : Prop := match l with x :: _ => is_space x = false | [] => True end.
Lemma strip_bare s : bare (chars s) → bare (rev (chars s)) → strip s = s.
Proof.
  assert (H : ∀ l, bare l → drop_while is_space l = l) by (intros [|x l]; [done|]; cbn; by intros ->).
  intros H1 H2. unfold strip. by rewrite !H, rev_involutive, join_chars_chars by (by rewrite ?H).
Qed.
(** A trimmed text begins and ends with a character that is not a space. *)
Lemma drop_while_drop {A} (p : A → bool) l : ∃ n, drop_while p l = drop n l ∧ match drop n l with x :: _ => p x = false | [] => True end.
Proof.
  induction l as [|x l (n & E & H)]; [by exists 0%nat|]. cbn [drop_while]. destruct (p x) eqn:Hx; [by exists (S n)|by exists 0%nat].
Qed.
Lemma strip_ends s : bare (chars (strip s)) ∧ bare (rev (chars (strip s))).
Proof.
  unfold strip, bare. destruct (drop_while_drop is_space (chars s)) as (n & -> & Hn).
  rewrite <- (chars_drop n s) in *. set (t := join_chars (drop n (chars s))) in *.
  destruct (drop_while_drop is_space (rev (chars t))) as (m & -> & Hm).
  assert (E : rev (drop m (rev (chars t))) = take (length (chars t) - m) (chars t)).
  { rewrite <- (rev_involutive (take _ _)). f_equal. rewrite skipn_rev. done. }
  rewrite E, chars_take in *. split.
  - destruct (length (chars t) - m)%nat; [done|]. by destruct (chars t).
  - by rewrite <- E, rev_involutive.
Qed.
Lemma py_len_take n s : py_len (py_take n s) = (n `min` py_len s)%nat.
Proof. unfold py_len, py_take. by rewrite chars_take, length_take. Qed.

(** The characters of a concatenation. *)
Lemma chars_head s w ws : chars s = w :: ws → starts_cont w = starts_cont s.
Proof.
  destruct s as [|c s]; [done|]. cbn [chars]. destruct (chars s) as [|v vs]; [by intros [= <- _]|].
  destruct (starts_cont v); by intros [= <- _].
Qed.
Lemma chars_app s t : starts_cont t = false → chars (s +:+ t) = chars s ++ chars t.
Proof.
  intros Ht. induction s as [|c s IH]; [done|]. change (String c s +:+ t) with (String c (s +:+ t)). rewrite !chars_cons, IH.
  destruct (chars s) as [|w ws] eqn:Es; [|cbn [app]; by destruct (starts_cont w)].
  cbn [app]. destruct (chars t) as [|v vs] eqn:Et; [done|]. by rewrite (chars_head _ _ _ Et), Ht.
Qed.

Lemma contains_char_app c s t : contains_char c (s +:+ t) = contains_char c s || contains_char c t.
Proof.
  induction s as [|d s IH]; [done|]. change (String d s +:+ t) with (String d (s +:+ t)). cbn [contains_char]. by rewrite IH, orb_assoc.
Qed.
Lemma contains_char_elem c s : contains_char c s = true ↔ c ∈ String.list_ascii_of_string s.
Proof.
  induction s as [|d s IH]; cbn [contains_char String.list_ascii_of_string]; [by rewrite elem_of_nil|].
  by rewrite orb_true_iff, Ascii.eqb_eq, IH, elem_of_cons.
Qed.
Lemma contains_char_of_list c l : contains_char c (String.string_of_list_ascii l) = true ↔ c ∈ l.
Proof. by rewrite contains_char_elem, String.list_ascii_of_string_of_list_ascii. Qed.

(** Texts without NUL. *)
Lemma no_nul_elem s : no_nul s = true ↔ nul ∉ String.list_ascii_of_string s.
Proof. unfold no_nul. rewrite negb_true_iff, <- not_true_iff_false. by rewrite contains_char_elem. Qed.
Lemma no_nul_app s t : no_nul (s +:+ t) = no_nul s && no_nul t.
Proof. unfold no_nul. by rewrite contains_char_app, negb_orb. Qed.
Lemma no_nul_join sep l : no_nul sep = true → Forall (λ s, no_nul s = true) l → no_nul (join sep l) = true.
Proof.
  intros Hsep. induction 1 as [|x l Hx Hl IH]; [done|]. destruct l as [|y l]; [done|].
  change (join sep (x :: y :: l)) with (x +:+ sep +:+ join sep (y :: l)). by rewrite !no_nul_app, Hx, Hsep, IH.
Qed.
Lemma no_nul_prefix s t : no_nul (s +:+ t) = true → no_nul s = true.
Proof. rewrite no_nul_app. by intros [H _]%andb_true_iff. Qed.
Lemma no_nul_take n s : no_nul s = true → no_nul (py_take n s) = true.
Proof.
  intros H. apply (no_nul_prefix _ (join_chars (drop n (chars s)))). unfold py_take.
  by rewrite <- join_chars_app, take_drop, join_chars_chars.
Qed.
Lemma no_nul_substring n m s : no_nul s = true → no_nul (String.substring n m s) = true.
Proof.
  revert n m. induction s as [|c s IH]; intros n m; [by destruct n, m|].
  change (String c s) with (String c "" +:+ s). rewrite no_nul_app. intros [Hc Hs]%andb_true_iff.
  destruct n as [|n]; [destruct m as [|m]; [done|]|by apply IH].
  change (String.substring 0 (S m) _) with (String c "" +:+ String.substring 0 m s). by rewrite no_nul_app, Hc, IH.
Qed.
Lemma no_nul_go x s : no_nul s = true → no_nul (pretty_N_go x s) = true.
Proof.
  revert s. induction (N.lt_wf_0 x) as [x _ IH]. intros s Hs.
  destruct (N.eq_0_gt_0_cases x) as [->|Hx]; [done|]. rewrite pretty_N_go_step by done.
  apply IH; [by apply N.div_lt|]. change (String ?c s) with (String c "" +:+ s). rewrite no_nul_app, Hs, andb_true_r.
  unfold pretty_N_char. by repeat case_match.
Qed.
Lemma no_nul_Z z : no_nul (str_of_Z z) = true.
Proof.
  destruct z as [|p|p]; [done|by apply no_nul_go|].
  change (str_of_Z (Zneg p)) with ("-" +:+ pretty_N_go (Npos p) ""). by rewrite no_nul_app, no_nul_go.
Qed.

Lemma split_on_nonempty sep s : split_on sep s ≠ [].
Proof. destruct s as [|c s]; simpl; [done|]. destruct (Ascii.eqb c sep); [done|]. by destruct (split_on sep s). Qed.

Lemma split_on_single sep s : contains_char sep s = false → split_on sep s = [s].
Proof.
  induction s as [|c s IH]; simpl; [done|]. rewrite orb_false_iff. intros [Hc Hs].
  rewrite Ascii.eqb_sym, Hc, IH by done. done.
Qed.

Lemma split_on_app sep s1 s2 :
  contains_char sep s1 = false →
  split_on sep (s1 +:+ String sep s2) = s1 :: split_on sep s2.
Proof.
  induction s1 as [|c s IH]; simpl; [by rewrite Ascii.eqb_refl|].
  rewrite orb_false_iff. intros [Hc Hs]. rewrite Ascii.eqb_sym, Hc, IH by done. done.
Qed.

(** [sep.join(s.split(sep)) == s] *)
Lemma join_split sep s : join (String sep "") (split_on sep s) = s.
Proof.
  induction s as [|c s IH]; simpl; [done|].
  destruct (Ascii.eqb_spec c sep) as [->|Hne].
  - destruct (split_on sep s) eqn:E; [by destruct (split_on_nonempty sep s)|].
    simpl. by rewrite <- IH.
  - destruct (split_on sep s) as [|w [|w' ws]] eqn:E; [by destruct (split_on_nonempty sep s)|..];
      simpl in *; by rewrite <- IH.
Qed.

Lemma split_on_no_sep sep s w : w ∈ split_on sep s → contains_char sep w = false.
Proof.
  revert w. induction s as [|c s IH]; intros w; simpl.
  - rewrite list_elem_of_singleton. by intros ->.
  - destruct (Ascii.eqb_spec c sep) as [->|Hne].
    + rewrite elem_of_cons. intros [->|Hw]; [done|by apply IH].
    + destruct (split_on sep s) as [|w' ws] eqn:E; [by destruct (split_on_nonempty sep s)|].
      rewrite elem_of_cons. intros [->|Hw].
      * simpl. rewrite IH by left. rewrite orb_false_r.
        apply Ascii.eqb_neq. congruence.
      * apply IH. by right.
Qed.

(** ** Order of strings *)

Lemma ltb_cons a s b t :
  String.ltb (String a s) (String b t)
  = match (N_of_ascii a ?= N_of_ascii b)%N with Eq => String.ltb s t | Lt => true | Gt => false end.
Proof. unfold String.ltb. simpl. unfold Ascii.compare. by destruct (_ ?= _)%N. Qed.
Lemma ltb_asym a b : String.ltb a b = true → String.ltb b a = false.
Proof.
  revert b. induction a as [|c a IH]; intros [|d b]; try done. rewrite !ltb_cons, (N.compare_antisym (N_of_ascii c)).
  destruct (_ ?= _)%N; simpl; [apply IH|done|done].
Qed.
Lemma ltb_negtrans a b c : String.ltb b a = false → String.ltb c b = false → String.ltb c a = false.
Proof.
  revert b c. induction a as [|x a IH]; intros [|y b] [|z c]; try done. rewrite !ltb_cons.
  destruct (N.compare_spec (N_of_ascii y) (N_of_ascii x)), (N.compare_spec (N_of_ascii z) (N_of_ascii y)),
    (N.compare_spec (N_of_ascii z) (N_of_ascii x)); try done; try lia. apply IH.
Qed.
Lemma ltb_antisym a b : String.ltb b a = false → String.ltb a b = false → a = b.
Proof.
  revert b. induction a as [|x a IH]; intros [|y b]; try done. rewrite !ltb_cons, (N.compare_antisym (N_of_ascii x)).
  destruct (N.compare_spec (N_of_ascii x) (N_of_ascii y)) as [E| |]; try done. simpl. intros H1 H2.
  rewrite (IH b H1 H2). f_equal. rewrite <- (ascii_N_embedding x), <- (ascii_N_embedding y). by f_equal.
Qed.

Example strip_example : strip "  bearer 	" = "bearer".
Proof. vm_compute. done. Qed.
Example take_example : py_take 2 "m²/s" = "m²" ∧ py_len "m²/s" = 4%nat.
Proof. vm_compute. done. Qed.
