(* ===== verification/PyFormat.v ===== *)
(** Text of floats: [repr(x)] (shortest digits that read back as [x]),
    [format(x, '.Ng')], [format(x, '.Nf')] and [round(x, n)], computed on the
    exact rational value with ties to even, as CPython does. *)
From S2P Require Import Prelude PyStr Float64.

(** A positive finite float as a fraction [num / den]. *)
Definition frac_of (m : positive) (e : Z) : Z * Z :=
  if 0 <=? e then (Zpos m * 2 ^ e, 1) else (Zpos m, 2 ^ (- e)).

(** Nearest integer to [n / d], ties to even ([d > 0]). *)
Definition div_half_even (n d : Z) : Z :=
  let q := n / d in
  let r := n mod d in
  match 2 * r ?= d with
  | Lt => q
  | Gt => q + 1
  | Eq => if Z.even q then q else q + 1
  end.

(** [n/d * 10^k] as a fraction. *)
Definition scale10 (n d k : Z) : Z * Z :=
  if 0 <=? k then (n * 10 ^ k, d) else (n, d * 10 ^ (- k)).

(** The decimal point position: [10^(p-1) <= n/d < 10^p]. *)
Definition below_pow10 (n d k : Z) : bool :=
  let '(a, b) := scale10 n d (- k) in a <? b.
Definition decpt (n d : Z) : Z :=
  let guess := (Z.log2 n - Z.log2 d) * 1233 / 4096 in
  if below_pow10 n d (guess - 1) then guess - 1
  else if below_pow10 n d guess then guess
  else if below_pow10 n d (guess + 1) then guess + 1
  else guess + 2.

(** ** Digits and layout *)

Fixpoint zeros (n : nat) : string :=
  match n with O => EmptyString | S n => String "0" (zeros n) end.

Fixpoint strip_zeros_rev (l : list ascii) : list ascii :=
  match l with
  | c :: l' => if Ascii.eqb c "0" then strip_zeros_rev l' else l
  | [] => []
  end.
Definition rstrip_zeros (s : string) : string :=
  String.string_of_list_ascii (rev (strip_zeros_rev (rev (String.list_ascii_of_string s)))).

Definition str_take (n : nat) (s : string) : string := String.substring 0 n s.
Definition str_drop (n : nat) (s : string) : string :=
  String.substring n (String.length s - n) s.

(** [digits] with the point after the first [p] of them, padded with zeros. *)
Definition place_point (digits : string) (p : Z) : string * string :=
  let len := Z.of_nat (String.length digits) in
  if p <=? 0 then ("0", zeros (Z.to_nat (- p)) +:+ digits)
  else if len <=? p then (digits +:+ zeros (Z.to_nat (p - len)), "")
  else (str_take (Z.to_nat p) digits, str_drop (Z.to_nat p) digits).

Definition with_frac (int_part frac_part : string) : string :=
  if String.eqb frac_part "" then int_part else int_part +:+ "." +:+ frac_part.

(** Exponent part: sign and at least two digits. *)
Definition exp_text (x : Z) : string :=
  (if x <? 0 then "e-" else "e+") +:+ (if Z.abs x <? 10 then "0" else "") +:+ str_of_Z (Z.abs x).

Definition sci (digits : string) (x : Z) : string :=
  with_frac (str_take 1 digits) (str_drop 1 digits) +:+ exp_text x.

Definition with_sign (s : bool) (t : string) : string := if s then "-" +:+ t else t.

(** Digits of [n/d] rounded to [p] significant digits, and the resulting
    decimal point position. *)
Definition sig_digits (p : Z) (n d : Z) : string * Z :=
  let k := decpt n d in
  let '(a, b) := scale10 n d (p - k) in
  let q := div_half_even a b in
  if q =? 10 ^ p then (str_of_Z (10 ^ (p - 1)), k + 1) else (str_of_Z q, k).

(** [format(x, f'.{p}g')] *)
Definition fmt_g (p : Z) (x : float) : string :=
  match x with
  | S754_nan => "nan"
  | S754_infinity s => with_sign s "inf"
  | S754_zero s => with_sign s "0"
  | S754_finite s m e =>
      let '(n, d) := frac_of m e in
      let '(digits, k) := sig_digits p n d in
      let x10 := k - 1 in
      let digits := rstrip_zeros digits in
      with_sign s
        (if (-4 <=? x10) && (x10 <? p)
         then let '(i, f) := place_point digits k in with_frac i f
         else sci digits x10)
  end.

(** [q * 10^-p] with [p] decimals. *)
Definition fixed (p q : Z) : string :=
  let t := str_of_Z q in
  let pad := zeros (Z.to_nat (p + 1 - Z.of_nat (String.length t))) in
  let t := pad +:+ t in
  let cut := Nat.sub (String.length t) (Z.to_nat p) in
  with_frac (str_take cut t) (str_drop cut t).
(** [format(x, f'.{p}f')] *)
Definition fmt_f (p : Z) (x : float) : string :=
  match x with
  | S754_nan => "nan"
  | S754_infinity s => with_sign s "inf"
  | S754_zero s => with_sign s (fixed p 0)
  | S754_finite s m e =>
      let '(n, d) := frac_of m e in
      with_sign s (fixed p (div_half_even (n * 10 ^ p) d))
  end.

(** The float nearest to [sign q * 10^k], as [float(text)] reads it. *)
Definition of_decimal (s : bool) (q k : Z) : float :=
  match q with
  | Z0 => S754_zero s
  | Zpos p =>
      if 0 <=? k then binary_round prec emax s (p * Z.to_pos (10 ^ k)) 0
      else SFdiv prec emax (S754_finite s p 0) (S754_finite false (Z.to_pos (10 ^ (- k))) 0)
  | Zneg _ => S754_nan
  end.

(** [round(x, p)]: correctly rounded to [p] decimals, then read back. *)
Definition py_round (x : float) (p : Z) : float :=
  match x with
  | S754_finite s m e =>
      let '(n, d) := frac_of m e in of_decimal s (div_half_even (n * 10 ^ p) d) (- p)
  | _ => x
  end.

(** [repr(x)]: the fewest digits that read back as [x], the closest such. *)
Definition float_same (x y : float) : bool :=
  match x, y with
  | S754_finite s1 m1 e1, S754_finite s2 m2 e2 =>
      Bool.eqb s1 s2 && Pos.eqb m1 m2 && (e1 =? e2)
  | _, _ => false
  end.

Fixpoint shortest (fuel : nat) (p : Z) (s : bool) (m : positive) (e : Z) : Z * Z :=
  let '(n, d) := frac_of m e in
  let k := decpt n d in
  let '(a, b) := scale10 n d (p - k) in
  let lo := a / b in
  let near := div_half_even a b in
  let far := if near =? lo then lo + 1 else lo in
  let reads q := float_same (S754_finite s m e) (of_decimal s q (k - p)) in
  match fuel with
  | O => (near, k - p)
  | S fuel =>
      if reads near then (near, k - p)
      else if reads far then (far, k - p)
      else shortest fuel (p + 1) s m e
  end.

Definition py_repr (x : float) : string :=
  match x with
  | S754_nan => "nan"
  | S754_infinity s => with_sign s "inf"
  | S754_zero s => with_sign s "0.0"
  | S754_finite s m e =>
      let '(q, k) := shortest 17 1 s m e in
      let all := str_of_Z q in
      let p := Z.of_nat (String.length all) + k in
      let digits := rstrip_zeros all in
      with_sign s
        (if (-4 <? p) && (p <=? 16)
         then let '(i, f) := place_point digits p in i +:+ "." +:+ (if String.eqb f "" then "0" else f)
         else sci digits (p - 1))
  end.

(** ** The texts hold no NUL *)

Lemma no_nul_zeros n : no_nul (zeros n) = true.
Proof.
  induction n as [|n IH]; [done|]. change (zeros (S n)) with ("0" +:+ zeros n). by rewrite no_nul_app, IH.
Qed.
Lemma no_nul_sign s t : no_nul t = true → no_nul (with_sign s t) = true.
Proof. intros H. destruct s; [|done]. unfold with_sign. by rewrite no_nul_app, H. Qed.
Lemma strip_zeros_suffix l : ∃ k, l = k ++ strip_zeros_rev l.
Proof.
  induction l as [|c l [k Hk]]; [by exists []|]. cbn [strip_zeros_rev].
  destruct (Ascii.eqb c "0"); [exists (c :: k); by rewrite Hk at 1|by exists []].
Qed.
Lemma no_nul_rstrip s : no_nul s = true → no_nul (rstrip_zeros s) = true.
Proof.
  rewrite !no_nul_elem. unfold rstrip_zeros. rewrite String.list_ascii_of_string_of_list_ascii.
  destruct (strip_zeros_suffix (rev (String.list_ascii_of_string s))) as [k Hk]. intros Hs Hin. apply Hs.
  apply list_elem_of_In, in_rev. apply list_elem_of_In in Hin. apply in_rev in Hin. rewrite Hk.
  apply in_or_app. by right.
Qed.
Lemma no_nul_frac i f : no_nul i = true → no_nul f = true → no_nul (with_frac i f) = true.
Proof. intros Hi Hf. unfold with_frac. destruct (String.eqb f ""); [done|]. by rewrite !no_nul_app, Hi, Hf. Qed.
Lemma no_nul_exp x : no_nul (exp_text x) = true.
Proof. unfold exp_text. rewrite !no_nul_app, no_nul_Z. by destruct (x <? 0), (Z.abs x <? 10). Qed.
Lemma no_nul_sci digits x : no_nul digits = true → no_nul (sci digits x) = true.
Proof.
  intros H. unfold sci, str_take, str_drop.
  by rewrite no_nul_app, no_nul_exp, no_nul_frac by (by apply no_nul_substring).
Qed.
Lemma no_nul_point digits p :
  no_nul digits = true → no_nul (place_point digits p).1 = true ∧ no_nul (place_point digits p).2 = true.
Proof.
  intros H. unfold place_point, str_take, str_drop. destruct (p <=? 0); [|destruct (_ <=? p)]; cbn [fst snd];
    rewrite ?no_nul_app, ?no_nul_zeros, ?H; [done..|]. split; by apply no_nul_substring.
Qed.
Lemma no_nul_g p x : no_nul (fmt_g p x) = true.
Proof.
  destruct x as [s|s| |s m e]; [by apply no_nul_sign|by apply no_nul_sign|done|]. unfold fmt_g.
  destruct (frac_of m e) as [n d]. destruct (sig_digits p n d) as [digits k] eqn:E. apply no_nul_sign.
  assert (Hd : no_nul (rstrip_zeros digits) = true).
  { apply no_nul_rstrip. unfold sig_digits in E. destruct (scale10 _ _ _) as [a b].
    destruct (_ =? _); injection E as <- _; apply no_nul_Z. }
  destruct (_ && _); [|by apply no_nul_sci].
  destruct (place_point _ k) as [i f] eqn:Ep. pose proof (no_nul_point _ k Hd) as [Hi Hf]. rewrite Ep in Hi, Hf.
  by apply no_nul_frac.
Qed.
Lemma no_nul_fixed p q : no_nul (fixed p q) = true.
Proof.
  unfold fixed, str_take, str_drop.
  by apply no_nul_frac; apply no_nul_substring; rewrite no_nul_app, no_nul_zeros, no_nul_Z.
Qed.
Lemma no_nul_f p x : no_nul (fmt_f p x) = true.
Proof.
  destruct x as [s|s| |s m e]; [apply no_nul_sign, no_nul_fixed|by apply no_nul_sign|done|].
  unfold fmt_f. destruct (frac_of m e). apply no_nul_sign, no_nul_fixed.
Qed.

Example g_examples :
  map (fmt_g 3) [lit 70 0; lit 7012345 5; lit 1234567 0; lit 12 6; lit 45 1; lit (-5) 2; lit 99999 2]
  = ["70"; "70.1"; "1.23e+06"; "1.2e-05"; "4.5"; "-0.05"; "1e+03"].
Proof. vm_compute. done. Qed.
Example f_examples :
  map (fmt_f 1) [lit 3005 2; lit 25 2; lit 300 0; lit (-4) 2] = ["30.1"; "0.2"; "300.0"; "-0.0"].
Proof. vm_compute. done. Qed.
Example repr_examples :
  map py_repr [lit 1 1; fadd (lit 1 1) (lit 2 1); lit 65 0; of_int (10 ^ 16); lit 1 5; lit 123456 3]
  = ["0.1"; "0.30000000000000004"; "65.0"; "1e+16"; "1e-05"; "123.456"].
Proof. vm_compute. done. Qed.
Example round_example : py_round (lit 2675 3) 2 = lit 267 2. Proof. vm_compute. done. Qed.
