(* ===== verification/Json.v ===== *)
(** JSON values and [json.dumps] (ASCII output): compact for live events and
    commands, with the default separators for acknowledgements, indented with
    sorted keys for files. *)
From S2P Require Import Prelude PyStr Float64 PyFormat.

Inductive json :=
  | JNull
  | JBool (b : bool)
  | JInt (z : Z)
  | JFloat (x : float)
  | JStr (s : string)
  | JArr (l : list json)
  | JObj (fields : list (string * json)).

(** Optional values: [None] is [null]. *)
Definition jopt {A} (f : A → json) (o : option A) : json :=
  match o with Some a => f a | None => JNull end.
Definition jstrs (l : list string) : json := JArr (map JStr l).

(** ** Text of strings *)

(** The code point of one UTF-8 character. *)
Definition code_point (c : string) : N :=
  match map N_of_ascii (String.list_ascii_of_string c) with
  | [a] => a
  | [a; b] => (a mod 32) * 64 + b mod 64
  | [a; b; c] => ((a mod 16) * 64 + b mod 64) * 64 + c mod 64
  | [a; b; c; d] => (((a mod 8) * 64 + b mod 64) * 64 + c mod 64) * 64 + d mod 64
  | _ => 65533
  end%N.

Definition hex_digit (n : N) : string :=
  let c := if (n <? 10)%N then (48 + n)%N else (87 + n)%N in String (ascii_of_N c) "".
Definition u_escape (n : N) : string :=
  "\u" +:+ hex_digit (n / 4096 mod 16)%N +:+ hex_digit (n / 256 mod 16)%N
  +:+ hex_digit (n / 16 mod 16)%N +:+ hex_digit (n mod 16)%N.

Definition escape_char (c : string) : string :=
  let n := code_point c in
  if (n =? 34)%N then "\" +:+ c
  else if (n =? 92)%N then "\" +:+ c
  else if (n =? 10)%N then "\n"
  else if (n =? 13)%N then "\r"
  else if (n =? 9)%N then "\t"
  else if (n =? 12)%N then "\f"
  else if (n =? 8)%N then "\b"
  else if (32 <=? n)%N && (n <? 127)%N then c
  else if (n <? 65536)%N then u_escape n
  else let v := (n - 65536)%N in
       u_escape (55296 + v / 1024)%N +:+ u_escape (56320 + v mod 1024)%N.

Definition quote : string := String (ascii_of_N 34) "".
Definition quoted (s : string) : string :=
  quote +:+ join_chars (map escape_char (chars s)) +:+ quote.

Definition float_text (x : float) : string :=
  match x with
  | S754_nan => "NaN"
  | S754_infinity s => with_sign s "Infinity"
  | _ => py_repr x
  end.

(** [json.dumps(value, separators=(",", ":"))] *)
Fixpoint dumps (j : json) : string :=
  match j with
  | JNull => "null"
  | JBool b => if b then "true" else "false"
  | JInt z => str_of_Z z
  | JFloat x => float_text x
  | JStr s => quoted s
  | JArr l => "[" +:+ join "," (map dumps l) +:+ "]"
  | JObj fields =>
      "{" +:+ join "," (map (λ kv, quoted kv.1 +:+ ":" +:+ dumps kv.2) fields) +:+ "}"
  end.

(** [json.dumps(value)], with its default separators. *)
Fixpoint dumps_spaced (j : json) : string :=
  match j with
  | JArr l => "[" +:+ join ", " (map dumps_spaced l) +:+ "]"
  | JObj fields =>
      "{" +:+ join ", " (map (λ kv, quoted kv.1 +:+ ": " +:+ dumps_spaced kv.2) fields) +:+ "}"
  | _ => dumps j
  end.

(** [value.get(key)]: the last binding wins, as in a dict. *)
Fixpoint jget (key : string) (fields : list (string * json)) : option json :=
  match fields with
  | [] => None
  | (k, v) :: rest =>
      match jget key rest with
      | Some w => Some w
      | None => if String.eqb k key then Some v else None
      end
  end.

Example dumps_example :
  dumps (JObj [("a", JArr [JInt (-3); JFloat (lit 15 1); JNull]); ("u", JStr "°C")])
  = "{" +:+ quoted "a" +:+ ":[-3,1.5,null]," +:+ quoted "u" +:+ ":" +:+ quote +:+ "\u00b0C" +:+ quote +:+ "}".
Proof. vm_compute. done. Qed.

Example dumps_spaced_example :
  dumps_spaced (JObj [("a", JArr [JInt (-3); JNull]); ("u", JObj [])])
  = "{" +:+ quoted "a" +:+ ": [-3, null], " +:+ quoted "u" +:+ ": {}}".
Proof. vm_compute. done. Qed.

(** [str(value)] of a parsed value; [str_container] prints lists and dicts. *)
Definition py_str (str_container : json → string) (j : json) : string :=
  match j with
  | JStr s => s
  | JNull => "None"
  | JBool b => if b then "True" else "False"
  | JInt z => str_of_Z z
  | JFloat x => py_repr x
  | _ => str_container j
  end.

(** [payload[key]] *)
Definition subscript (key : string) (payload : json) : result json :=
  match payload with
  | JObj fields => match jget key fields with Some v => Ok v | None => Raise KeyError end
  | _ => Raise TypeError
  end.

(** ** [json.dumps(value, indent=2, sort_keys=True)] *)

Definition newline : string := String (ascii_of_N 10) "".
Fixpoint spaces (n : nat) : string := match n with O => "" | S n => " " +:+ spaces n end.
Definition break_at (level : nat) : string := newline +:+ spaces (2 * level).
(** The members of an object in the order of their keys. *)
Definition sorted_members {A} (fields : list (string * A)) : list (string * A) :=
  py_sorted (λ a b, String.ltb a.1 b.1) fields.
Fixpoint dumps_indented (level : nat) (j : json) : string :=
  let items l := break_at (S level) +:+ join ("," +:+ break_at (S level)) l +:+ break_at level in
  match j with
  | JArr [] => "[]"
  | JArr l => "[" +:+ items (map (dumps_indented (S level)) l) +:+ "]"
  | JObj [] => "{}"
  | JObj fields =>
      "{" +:+ items (map (λ kv, quoted kv.1 +:+ ": " +:+ kv.2)
        (sorted_members (map (λ kv, (kv.1, dumps_indented (S level) kv.2)) fields))) +:+ "}"
  | _ => dumps j
  end.

Example dumps_indented_example :
  dumps_indented 0 (JObj [("b", JArr [JInt 1]); ("a", JObj [])])
  = "{" +:+ newline +:+ "  " +:+ quoted "a" +:+ ": {}," +:+ newline +:+ "  " +:+ quoted "b" +:+ ": ["
    +:+ newline +:+ "    1" +:+ newline +:+ "  ]" +:+ newline +:+ "}".
Proof. vm_compute. done. Qed.
