(* ===== verification/JsonParse.v ===== *)
(** [json.loads] on the bytes of a payload: UTF-8 decoding (with
    [surrogatepass], as the function asks), the grammar of the decoder
    ([NaN] and the infinities included), integers at most 4300 digits long.

    The parser recurses on fuel; two units per byte are enough, because a value
    and the items or members it opens consume at least one byte together. *)
From S2P Require Import Prelude PyStr Float64 PyFormat Json.

Inductive loads_error :=
  | NotJson                    (** [UnicodeDecodeError], [JSONDecodeError] *)
  | DigitLimit (digits : nat). (** the [ValueError] of [int(text)] *)

(** The text of that error. *)
Definition digit_limit_message (n : nat) : string :=
  "Exceeds the limit (4300 digits) for integer string conversion: value has "
  +:+ str_of_Z (Z.of_nat n) +:+ " digits; use sys.set_int_max_str_digits() to increase the limit".

Definition parsed (A : Type) : Type := loads_error + A * string.

(** ** Decoding *)

(** Well-formed UTF-8, surrogates let through. *)
Fixpoint utf8_ok (l : list N) : bool :=
  match l with
  | [] => true
  | a :: l1 =>
      if (a <? 128)%N then utf8_ok l1
      else
        let cont b := ((128 <=? b) && (b <? 192))%N in
        match l1 with
        | b :: l2 =>
            if (194 <=? a)%N && (a <? 224)%N then cont b && utf8_ok l2
            else match l2 with
                 | c :: l3 =>
                     if (224 <=? a)%N && (a <? 240)%N
                     then cont b && cont c && (negb (a =? 224)%N || (160 <=? b)%N) && utf8_ok l3
                     else match l3 with
                          | d :: l4 =>
                              (240 <=? a)%N && (a <? 245)%N && cont b && cont c && cont d
                              && (negb (a =? 240)%N || (144 <=? b)%N)
                              && (negb (a =? 244)%N || (b <? 144)%N) && utf8_ok l4
                          | [] => false
                          end
                 | [] => false
                 end
        | [] => false
        end
  end.

(** UTF-8 of a code point. *)
Definition encode (n : N) : string :=
  bytes_str (if (n <? 128)%N then [n]
             else if (n <? 2048)%N then [192 + n / 64; 128 + n mod 64]
             else if (n <? 65536)%N then [224 + n / 4096; 128 + n / 64 mod 64; 128 + n mod 64]
             else [240 + n / 262144; 128 + n / 4096 mod 64; 128 + n / 64 mod 64; 128 + n mod 64])%N.

(** ** Scanning *)

Definition is_ws (c : ascii) : bool :=
  match N_of_ascii c with 32 | 9 | 10 | 13 => true | _ => false end%N.
Fixpoint skip_ws (s : string) : string :=
  match s with String c s' => if is_ws c then skip_ws s' else s | EmptyString => s end.

Definition is_digit (c : ascii) : bool := (48 <=? N_of_ascii c)%N && (N_of_ascii c <=? 57)%N.
Fixpoint span_digits (s : string) : string * string :=
  match s with
  | String c s' => if is_digit c then let '(d, r) := span_digits s' in (String c d, r) else ("", s)
  | EmptyString => ("", "")
  end.
Definition digits_value (s : string) : Z :=
  fold_left (λ n c, n * 10 + (Z.of_N (N_of_ascii c) - 48)) (String.list_ascii_of_string s) 0.

Definition after_prefix (p s : string) : option string :=
  if String.prefix p s
  then Some (String.substring (String.length p) (String.length s - String.length p) s) else None.

(** A number: a sign, [0] or digits without a leading zero, then an optional
    fraction and an optional exponent. *)
Definition parse_fraction (s : string) : string * string :=
  match s with
  | String c s' =>
      if Ascii.eqb c "." then
        let '(d, r) := span_digits s' in if String.eqb d "" then ("", s) else (d, r)
      else ("", s)
  | EmptyString => ("", s)
  end.
Definition parse_exponent (s : string) : option Z * string :=
  match s with
  | String c s' =>
      if Ascii.eqb c "e" || Ascii.eqb c "E" then
        let '(neg, s2) := match s' with
                          | String g s2 => if Ascii.eqb g "-" then (true, s2)
                                           else if Ascii.eqb g "+" then (false, s2) else (false, s')
                          | EmptyString => (false, s') end in
        let '(d, r) := span_digits s2 in
        if String.eqb d "" then (None, s)
        else (Some (if neg : bool then - digits_value d else digits_value d), r)
      else (None, s)
  | EmptyString => (None, s)
  end.
Definition number_rest (neg : bool) (digits s2 : string) : parsed json :=
  let '(frac, s3) := parse_fraction s2 in
  let '(exponent, s4) := parse_exponent s3 in
  match frac, exponent with
  | EmptyString, None =>
      if (4300 <? String.length digits)%nat then inl (DigitLimit (String.length digits))
      else inr (JInt (if neg then - digits_value digits else digits_value digits), s4)
  | _, _ =>
      let scale := match exponent with Some x => x | None => 0 end - Z.of_nat (String.length frac) in
      inr (JFloat (of_decimal neg (digits_value (digits +:+ frac)) scale), s4)
  end.
Definition unsigned_number (neg : bool) (s : string) : parsed json :=
  match s with
  | String c s2 =>
      if Ascii.eqb c "0" then number_rest neg "0" s2
      else let '(digits, s2) := span_digits s in
           if String.eqb digits "" then inl NotJson else number_rest neg digits s2
  | EmptyString => inl NotJson
  end.
Definition parse_number (s : string) : parsed json :=
  match s with
  | String c s1 => if Ascii.eqb c "-" then unsigned_number true s1 else unsigned_number false s
  | EmptyString => inl NotJson
  end.

Definition hex_value (c : ascii) : option N :=
  let n := N_of_ascii c in
  if is_digit c then Some (n - 48)%N
  else if ((65 <=? n) && (n <=? 70))%N then Some (n - 55)%N
  else if ((97 <=? n) && (n <=? 102))%N then Some (n - 87)%N else None.
Definition hex4 (s : string) : option (N * string) :=
  match s with
  | String a (String b (String c (String d r))) =>
      match hex_value a, hex_value b, hex_value c, hex_value d with
      | Some a, Some b, Some c, Some d => Some (((a * 16 + b) * 16 + c) * 16 + d, r)%N
      | _, _, _, _ => None
      end
  | _ => None
  end.

(** The escape after a backslash: the text it stands for and the rest. *)
Definition parse_escape (s : string) : option (string * string) :=
  match s with
  | String c r =>
      match N_of_ascii c with
      | 34 | 92 | 47 => Some (String c "", r)
      | 98 => Some (encode 8, r) | 102 => Some (encode 12, r) | 110 => Some (encode 10, r)
      | 114 => Some (encode 13, r) | 116 => Some (encode 9, r)
      | 117 =>
          match hex4 r with
          | Some (hi, r1) =>
              let low := match after_prefix "\u" r1 with
                         | Some r2 => if ((55296 <=? hi) && (hi <=? 56319)) then hex4 r2 else None
                         | None => None end in
              match low with
              | Some (lo, r3) =>
                  if ((56320 <=? lo) && (lo <=? 57343))
                  then Some (encode (65536 + (hi - 55296) * 1024 + (lo - 56320)), r3)
                  else Some (encode hi, r1)
              | None => Some (encode hi, r1)
              end
          | None => None
          end
      | _ => None
      end%N
  | EmptyString => None
  end.

(** The text after an opening quote. *)
Fixpoint parse_string (fuel : nat) (s : string) : parsed string :=
  match fuel with
  | O => inl NotJson
  | S fuel =>
      match s with
      | EmptyString => inl NotJson
      | String c r =>
          let n := N_of_ascii c in
          if (n =? 34)%N then inr ("", r)
          else if (n <? 32)%N then inl NotJson
          else if (n =? 92)%N then
            match parse_escape r with
            | Some (t, r') =>
                match parse_string fuel r' with
                | inr (u, r'') => inr (t +:+ u, r'')
                | inl e => inl e
                end
            | None => inl NotJson
            end
          else match parse_string fuel r with
               | inr (u, r'') => inr (String c u, r'')
               | inl e => inl e
               end
      end
  end.

Definition keywords : list (string * json) := [
  ("null", JNull); ("true", JBool true); ("false", JBool false); ("NaN", JFloat S754_nan);
  ("Infinity", JFloat (S754_infinity false)); ("-Infinity", JFloat (S754_infinity true)) ].
Fixpoint parse_keyword (l : list (string * json)) (s : string) : option (json * string) :=
  match l with
  | [] => None
  | (w, j) :: l => match after_prefix w s with Some r => Some (j, r) | None => parse_keyword l s end
  end.

Fixpoint parse_value (fuel : nat) (s : string) : parsed json :=
  match fuel with
  | O => inl NotJson
  | S fuel =>
      match s with
      | EmptyString => inl NotJson
      | String c r =>
          let n := N_of_ascii c in
          if (n =? 34)%N then
            match parse_string fuel r with inr (t, r') => inr (JStr t, r') | inl e => inl e end
          else if Ascii.eqb c "[" then
            match skip_ws r with
            | String "]" r' => inr (JArr [], r')
            | r' => match parse_items fuel r' with inr (l, r'') => inr (JArr l, r'') | inl e => inl e end
            end
          else if Ascii.eqb c "{" then
            match skip_ws r with
            | String "}" r' => inr (JObj [], r')
            | r' => match parse_members fuel r' with inr (l, r'') => inr (JObj l, r'') | inl e => inl e end
            end
          else match parse_keyword keywords s with
               | Some jr => inr jr
               | None => parse_number s
               end
      end
  end
with parse_items (fuel : nat) (s : string) : parsed (list json) :=
  match fuel with
  | O => inl NotJson
  | S fuel =>
      match parse_value fuel (skip_ws s) with
      | inl e => inl e
      | inr (j, r) =>
          match skip_ws r with
          | String "]" r' => inr ([j], r')
          | String "," r' =>
              match parse_items fuel r' with inr (l, r'') => inr (j :: l, r'') | inl e => inl e end
          | _ => inl NotJson
          end
      end
  end
with parse_members (fuel : nat) (s : string) : parsed (list (string * json)) :=
  match fuel with
  | O => inl NotJson
  | S fuel =>
      match skip_ws s with
      | String c r =>
          if negb (N_of_ascii c =? 34)%N then inl NotJson
          else match parse_string fuel r with
               | inl e => inl e
               | inr (k, r1) =>
                   match skip_ws r1 with
                   | String ":" r2 =>
                       match parse_value fuel (skip_ws r2) with
                       | inl e => inl e
                       | inr (j, r3) =>
                           match skip_ws r3 with
                           | String "}" r4 => inr ([(k, j)], r4)
                           | String "," r4 =>
                               match parse_members fuel r4 with
                               | inr (l, r5) => inr ((k, j) :: l, r5)
                               | inl e => inl e
                               end
                           | _ => inl NotJson
                           end
                       end
                   | _ => inl NotJson
                   end
               end
      | EmptyString => inl NotJson
      end
  end.

(** [json.loads(text)] *)
Definition loads_text (s : string) : loads_error + json :=
  match parse_value (2 * S (String.length s)) (skip_ws s) with
  | inl e => inl e
  | inr (j, r) => match skip_ws r with EmptyString => inr j | _ => inl NotJson end
  end.

(** [json.detect_encoding(b)] finds neither a byte-order mark nor the zero
    bytes of UTF-16 and UTF-32. *)
Definition plain_utf8 (s : string) : bool :=
  let l := map N_of_ascii (String.list_ascii_of_string s) in
  match l with
  | 255 :: 254 :: _ | 254 :: 255 :: _ | 0 :: 0 :: 254 :: 255 :: _ => false
  | 239 :: 187 :: 191 :: _ => false
  | a :: b :: _ => negb ((a =? 0) || (b =? 0))
  | _ => true
  end%N.

(** [json.loads(payload)]; [wide] decodes the payloads in another encoding. *)
Definition loads (wide : string → option string) (payload : string) : loads_error + json :=
  if plain_utf8 payload
  then if utf8_ok (map N_of_ascii (String.list_ascii_of_string payload))
       then loads_text payload else inl NotJson
  else match wide payload with Some t => loads_text t | None => inl NotJson end.

Example loads_examples :
  loads (λ _, None) (dumps (JObj [("a", JArr [JInt (-3); JFloat (lit 15 1); JNull; JBool false]); ("u", JStr "°C/"); ("e", JObj [])]))
    = inr (JObj [("a", JArr [JInt (-3); JFloat (lit 15 1); JNull; JBool false]); ("u", JStr "°C/"); ("e", JObj [])])
  ∧ map (loads (λ _, None)) [" [1 , 2.5e1] "; "01"; "[1,]"; "-"; "1.";  "tru"; "-Infinity"; "{}x"]
    = [inr (JArr [JInt 1; JFloat (of_int 25)]); inl NotJson; inl NotJson; inl NotJson; inl NotJson;
       inl NotJson; inr (JFloat (S754_infinity true)); inl NotJson].
Proof. vm_compute. done. Qed.
