(* ===== verification/JsonRoundTrip.v ===== *)
(** [json.loads(json.dumps(value)) == value]: the reader of [JsonParse] inverts
    the writer of [Json] on every value whose strings are well-formed Unicode,
    whose integers stay below the digit limit and whose floats are read back
    by their own text.

    Each reader is shown to consume exactly the text it is given and to leave
    what follows: the lemmas are stated with a continuation [r]. *)
From S2P Require Import Prelude PyStr Float64 PyFormat Json JsonParse.

(** ** The values that survive *)

(** The UTF-8 text of one Unicode scalar value. *)
Definition scalar_char (c : string) : bool :=
  let n := code_point c in
  (n <? 1114112)%N && negb ((55296 <=? n) && (n <? 57344))%N && String.eqb (encode n) c.
Definition text_ok (s : string) : bool := forallb scalar_char (chars s).

Definition float_eqb (x y : float) : bool :=
  match x, y with
  | S754_zero a, S754_zero b | S754_infinity a, S754_infinity b => Bool.eqb a b
  | S754_nan, S754_nan => true
  | _, _ => float_same x y
  end.
Definition number_reads (s : string) (j : json) : bool :=
  match parse_number s, j with
  | inr (JInt y, EmptyString), JInt z => y =? z
  | inr (JFloat y, EmptyString), JFloat x => float_eqb y x
  | _, _ => false
  end.
Fixpoint portable (j : json) : bool :=
  match j with
  | JNull | JBool _ | JFloat S754_nan | JFloat (S754_infinity _) => true
  | JInt z => (String.length (str_of_Z (Z.abs z)) <=? 4300)%nat
  | JFloat x => number_reads (float_text x) j
  | JStr s => text_ok s
  | JArr l => forallb portable l
  | JObj fields => forallb (λ kv, text_ok kv.1 && portable kv.2) fields
  end.

(** Induction on a value and the values inside it. *)
Section Nested.
Context (P : json → Prop).
Context (Hnull : P JNull) (Hbool : ∀ b, P (JBool b)) (Hint : ∀ z, P (JInt z)) (Hfloat : ∀ x, P (JFloat x)).
Context (Hstr : ∀ s, P (JStr s)) (Harr : ∀ l, Forall P l → P (JArr l)).
Context (Hobj : ∀ fields, Forall (λ kv, P kv.2) fields → P (JObj fields)).
Fixpoint json_nested (j : json) : P j :=
  match j with
  | JNull => Hnull | JBool b => Hbool b | JInt z => Hint z | JFloat x => Hfloat x | JStr s => Hstr s
  | JArr l => Harr l
      ((fix go l : Forall P l :=
          match l with [] => @List.Forall_nil _ _ | x :: l => @List.Forall_cons _ _ _ _ (json_nested x) (go l) end) l)
  | JObj fields => Hobj fields
      ((fix go l : Forall (λ kv, P kv.2) l :=
          match l with
          | [] => @List.Forall_nil _ _
          | kv :: l => @List.Forall_cons _ _ _ _ (json_nested kv.2) (go l)
          end) fields)
  end.
End Nested.

(** ** Strings *)

Ltac n_arith := zify; Z.to_euclidean_division_equations; lia.

(** Case analysis on a number that the context bounds. *)
Ltac enum_pos p := destruct p as [p|p|]; [try lia; enum_pos p | try lia; enum_pos p | try lia].
Ltac enum_N n := destruct n as [|n]; [|enum_pos n].

Lemma hex_value_digit d s : (d < 16)%N → ∃ c, hex_digit d +:+ s = String c s ∧ hex_value c = Some d.
Proof.
  intros Hd. enum_N d; by eexists.
Qed.

Lemma hex4_escape n r : (n < 65536)%N →
  hex4 (hex_digit (n / 4096 mod 16)%N +:+ hex_digit (n / 256 mod 16)%N +:+ hex_digit (n / 16 mod 16)%N
        +:+ hex_digit (n mod 16)%N +:+ r) = Some (n, r).
Proof.
  intros Hn.
  assert (Hm : ∀ k, (k mod 16 < 16)%N) by (intros; by apply N.mod_lt).
  destruct (hex_value_digit (n mod 16) r (Hm _)) as (d & -> & Hd).
  destruct (hex_value_digit (n / 16 mod 16) (String d r) (Hm _)) as (c & -> & Hc).
  destruct (hex_value_digit (n / 256 mod 16) (String c (String d r)) (Hm _)) as (b & -> & Hb).
  destruct (hex_value_digit (n / 4096 mod 16) (String b (String c (String d r))) (Hm _)) as (a & -> & Ha).
  unfold hex4. rewrite Ha, Hb, Hc, Hd. f_equal. f_equal. n_arith.
Qed.

Lemma prefix_app p s : String.prefix p (p +:+ s) = true.
Proof. induction p as [|c p IH]; simpl; [by destruct s|]. destruct (ascii_dec c c); done. Qed.
Lemma substring_drop p s m : m = String.length s → String.substring (String.length p) m (p +:+ s) = s.
Proof.
  intros ->. induction p as [|c p IH]; [|exact IH]. simpl. induction s as [|c s IH]; simpl; [done|]. by f_equal.
Qed.
Lemma length_app_str s1 s2 : String.length (s1 +:+ s2) = (String.length s1 + String.length s2)%nat.
Proof. induction s1 as [|c s IH]; [done|]. exact (f_equal S IH). Qed.
Lemma after_prefix_app p s : after_prefix p (p +:+ s) = Some s.
Proof.
  unfold after_prefix. rewrite prefix_app. f_equal. apply substring_drop. rewrite length_app_str. lia.
Qed.

Lemma u_escape_app n r :
  u_escape n +:+ r = "\u" +:+ hex_digit (n / 4096 mod 16)%N +:+ hex_digit (n / 256 mod 16)%N
    +:+ hex_digit (n / 16 mod 16)%N +:+ hex_digit (n mod 16)%N +:+ r.
Proof. unfold u_escape. by rewrite !app_assoc_str. Qed.

(** What one step of [parse_string] does on the escape of a character. *)
Definition reads_as (text c : string) : Prop :=
  ∀ fuel r, parse_string (S fuel) (text +:+ r)
    = match parse_string fuel r with inr (u, r') => inr (c +:+ u, r') | inl e => inl e end.

Lemma escape_reads_as text c :
  (∀ r, ∃ t, text +:+ r = String "\" t ∧ parse_escape t = Some (c, r)) → reads_as text c.
Proof. intros H fuel r. destruct (H r) as (t & -> & Ht). simpl. by rewrite Ht. Qed.

Lemma u_escape_reads n : (n < 65536)%N → (n < 55296 ∨ 57344 <= n)%N → reads_as (u_escape n) (encode n).
Proof.
  intros Hn Hs. apply escape_reads_as. intros r. rewrite u_escape_app. eexists. split; [reflexivity|].
  unfold parse_escape. cbn -[hex_digit hex4 after_prefix N.mul N.add N.sub N.leb encode]. change (?a ++ ?b)%string with (a +:+ b).
  rewrite hex4_escape by done. destruct (after_prefix _ _); [|done].
  replace ((55296 <=? n) && (n <=? 56319))%N with false; [done|]. symmetry. apply andb_false_iff.
  rewrite N.leb_gt, N.leb_gt. lia.
Qed.

Lemma pair_reads n : (65536 <= n)%N → (n < 1114112)%N →
  reads_as (u_escape (55296 + (n - 65536) / 1024) +:+ u_escape (56320 + (n - 65536) mod 1024)) (encode n).
Proof.
  intros Hl Hu. apply escape_reads_as. intros r. rewrite app_assoc_str, u_escape_app. eexists. split; [reflexivity|].
  set (hi := (55296 + _)%N). set (lo := (56320 + _)%N).
  assert (Hhi : (55296 <= hi <= 56319)%N) by (subst hi; n_arith).
  assert (Hlo : (56320 <= lo <= 57343)%N) by (subst lo; n_arith).
  unfold parse_escape. cbn -[hex_digit hex4 after_prefix N.mul N.add N.sub N.leb encode u_escape].
  change (?a ++ ?b)%string with (a +:+ b). rewrite hex4_escape by lia. rewrite u_escape_app, after_prefix_app.
  rewrite !(proj2 (N.leb_le _ _)) by lia. cbn [andb]. rewrite hex4_escape by lia.
  rewrite !(proj2 (N.leb_le _ _)) by lia. cbn [andb]. do 2 f_equal. f_equal. subst hi lo. n_arith.
Qed.

Lemma escape_char_reads c : scalar_char c = true → reads_as (escape_char c) c.
Proof.
  unfold scalar_char, escape_char. set (n := code_point c). clearbody n.
  rewrite !andb_true_iff, negb_true_iff, andb_false_iff, N.ltb_lt, N.leb_gt, N.ltb_ge, String.eqb_eq.
  intros [[Hn Hs] <-]. destruct (N.lt_ge_cases n 128) as [Hlt|Hge].
  - assert (Hcase : reads_as (u_escape n) (encode n)) by (apply u_escape_reads; lia).
    enum_N n; solve [exact Hcase | intros fuel r; reflexivity].
  - rewrite !(proj2 (N.eqb_neq n _)) by lia. rewrite (proj2 (N.ltb_ge n 127)), andb_false_r by lia.
    destruct (N.ltb_spec n 65536); [by apply u_escape_reads; [|lia]|by apply pair_reads].
Qed.

Lemma string_reads l r : forallb scalar_char l = true → ∀ fuel, (length l < fuel)%nat →
  parse_string fuel (join_chars (map escape_char l) +:+ quote +:+ r) = inr (join_chars l, r).
Proof.
  induction l as [|c l IH]; simpl; [by intros _ [|fuel]; [lia|]|].
  intros [Hc Hl]%andb_true_iff [|fuel] Hf; [lia|]. change (?a ++ ?b)%string with (a +:+ b).
  rewrite app_assoc_str, escape_char_reads, IH by (done || lia). done.
Qed.

Lemma escape_char_length c : scalar_char c = true → (1 <= String.length (escape_char c))%nat.
Proof.
  intros Hc. destruct (escape_char c) eqn:E; [|simpl; lia]. exfalso.
  pose proof (escape_char_reads c Hc 0%nat (String "a" "")) as H1. rewrite E in H1.
  pose proof (escape_char_reads c Hc 1%nat (quote +:+ "")) as H2. rewrite E in H2. vm_compute in H2.
  injection H2 as H2. unfold scalar_char in Hc. rewrite !andb_true_iff, String.eqb_eq in Hc.
  destruct Hc as [_ Hc]. apply (f_equal String.length) in Hc. clear - E H2.
  destruct c as [|a c]; [|done]. vm_compute in E. done.
Qed.

Lemma quoted_app s r :
  quoted s +:+ r = String (ascii_of_N 34) (join_chars (map escape_char (chars s)) +:+ quote +:+ r).
Proof. unfold quoted. by rewrite !app_assoc_str. Qed.

Lemma quoted_length s : text_ok s = true → (length (chars s) + 2 <= String.length (quoted s))%nat.
Proof.
  unfold text_ok, quoted. rewrite !length_app_str. simpl.
  induction (chars s) as [|c l IH]; simpl; [lia|]. intros [Hc Hl]%andb_true_iff.
  change (?a ++ ?b)%string with (a +:+ b). rewrite length_app_str. apply escape_char_length in Hc. apply IH in Hl. lia.
Qed.

(** A quoted string after its opening quote. *)
Lemma quoted_reads s r fuel : text_ok s = true → (String.length (quoted s) <= S fuel)%nat →
  parse_string fuel (join_chars (map escape_char (chars s)) +:+ quote +:+ r) = inr (s, r).
Proof.
  intros Hs Hf. pose proof (quoted_length s Hs). rewrite string_reads by (done || lia). by rewrite join_chars_chars.
Qed.

(** ** Numbers *)

(** What may follow a value: a separator, a closing bracket or a line end. *)
Definition stops (r : string) : bool :=
  match r with
  | EmptyString => true
  | String c _ => Ascii.eqb c "," || Ascii.eqb c "]" || Ascii.eqb c "}" || Ascii.eqb c "010"
  end.

Lemma stops_cases r : stops r = true → r = "" ∨ ∃ c t, r = String c t ∧ (c = "," ∨ c = "]" ∨ c = "}" ∨ c = "010")%char.
Proof.
  destruct r as [|c t]; [by left|]. simpl. rewrite !orb_true_iff, !Ascii.eqb_eq. right. exists c, t. tauto.
Qed.
Ltac stop_cases H := apply stops_cases in H as [->|(? & ? & -> & [->|[->|[->| ->]]])].

Lemma span_digits_app s d t r : stops r = true → span_digits s = (d, t) → span_digits (s +:+ r) = (d, t +:+ r).
Proof.
  intros Hr. revert d t. induction s as [|c s IH]; intros d t; simpl.
  - intros [= <- <-]. by stop_cases Hr.
  - destruct (is_digit c); [|by intros [= <- <-]]. destruct (span_digits s) as [d' t'].
    intros [= <- <-]. by rewrite (IH d' t').
Qed.

Lemma parse_fraction_app s f t r : stops r = true → parse_fraction s = (f, t) → parse_fraction (s +:+ r) = (f, t +:+ r).
Proof.
  intros Hr. destruct s as [|c s]; simpl.
  - intros [= <- <-]. by stop_cases Hr.
  - destruct (Ascii.eqb c "."); [|by intros [= <- <-]]. destruct (span_digits s) as [d t'] eqn:E.
    apply (span_digits_app _ _ _ r Hr) in E. change (s ++ r)%string with (s +:+ r). rewrite E.
    destruct (String.eqb d ""); by intros [= <- <-].
Qed.

Lemma parse_exponent_app s x t r : stops r = true → parse_exponent s = (x, t) → parse_exponent (s +:+ r) = (x, t +:+ r).
Proof.
  intros Hr. destruct s as [|c s]; simpl; [intros [= <- <-]; by stop_cases Hr|].
  destruct (Ascii.eqb c "e" || Ascii.eqb c "E"); [|by intros [= <- <-]].
  destruct s as [|g s]; simpl; [intros [= <- <-]; by stop_cases Hr|].
  assert (Hgen : ∀ neg s2, s2 = s ∨ s2 = String g s →
    (let '(d, r0) := span_digits s2 in
     if String.eqb d "" then (None, String c (String g s))
     else (Some (if neg : bool then - digits_value d else digits_value d), r0)) = (x, t) →
    (let '(d, r0) := span_digits (s2 +:+ r) in
     if String.eqb d "" then (None, String c (String g (s +:+ r)))
     else (Some (if neg : bool then - digits_value d else digits_value d), r0)) = (x, t +:+ r)).
  { intros neg s2 _. destruct (span_digits s2) as [d t'] eqn:E. apply (span_digits_app _ _ _ r Hr) in E. rewrite E.
    destruct (String.eqb d ""); by intros [= <- <-]. }
  destruct (Ascii.eqb g "-"); [exact (Hgen true s (or_introl eq_refl))|].
  destruct (Ascii.eqb g "+"); [exact (Hgen false s (or_introl eq_refl))|exact (Hgen false (String g s) (or_intror eq_refl))].
Qed.

Lemma number_rest_app neg digits s j t r :
  stops r = true → number_rest neg digits s = inr (j, t) → number_rest neg digits (s +:+ r) = inr (j, t +:+ r).
Proof.
  intros Hr. unfold number_rest. destruct (parse_fraction s) as [f s3] eqn:Ef.
  destruct (parse_exponent s3) as [x s4] eqn:Ee.
  rewrite (parse_fraction_app _ _ _ _ Hr Ef), (parse_exponent_app _ _ _ _ Hr Ee).
  destruct f, x; try (intros [= <- <-]; done). destruct (_ <? _)%nat; [done|]. by intros [= <- <-].
Qed.

Lemma unsigned_app neg s j t r :
  stops r = true → unsigned_number neg s = inr (j, t) → unsigned_number neg (s +:+ r) = inr (j, t +:+ r).
Proof.
  intros Hr. destruct s as [|c s]; [done|]. change (String c s +:+ r) with (String c (s +:+ r)). unfold unsigned_number.
  destruct (Ascii.eqb c "0"); [by apply number_rest_app|].
  destruct (span_digits (String c s)) as [d s2] eqn:Ed. apply (span_digits_app _ _ _ _ Hr) in Ed.
  change (String c s +:+ r) with (String c (s +:+ r)) in Ed. rewrite Ed.
  destruct (String.eqb d ""); [done|by apply number_rest_app].
Qed.

Lemma parse_number_app s j t r :
  stops r = true → parse_number s = inr (j, t) → parse_number (s +:+ r) = inr (j, t +:+ r).
Proof.
  intros Hr. destruct s as [|c s]; [done|]. change (String c s +:+ r) with (String c (s +:+ r)). unfold parse_number.
  destruct (Ascii.eqb c "-"); [by apply unsigned_app|].
  change (String c (s +:+ r)) with (String c s +:+ r). by apply unsigned_app.
Qed.

(** A number starts with a digit, or with a minus sign and a digit. *)
Inductive number_head : string → Prop :=
  | Head_digit c s : is_digit c = true → number_head (String c s)
  | Head_minus c s : is_digit c = true → number_head (String "-" (String c s)).

Lemma unsigned_head neg s v : unsigned_number neg s = inr v → ∃ c t, s = String c t ∧ is_digit c = true.
Proof.
  destruct s as [|c s]; [done|]. unfold unsigned_number. intros H. exists c, s. split; [done|].
  destruct (Ascii.eqb_spec c "0") as [->|_]; [done|]. simpl in H. destruct (is_digit c); [done|]. done.
Qed.
Lemma parse_number_head s v : parse_number s = inr v → number_head s.
Proof.
  destruct s as [|c s]; [done|]. unfold parse_number. destruct (Ascii.eqb_spec c "-") as [->|_].
  - intros (d & t & -> & Hd)%unsigned_head. by constructor.
  - intros (d & t & [= -> ->] & Hd)%unsigned_head. by constructor.
Qed.

Lemma digit_not c d : is_digit c = true → is_digit d = false → Ascii.eqb c d = false.
Proof. intros Hc Hd. apply Ascii.eqb_neq. congruence. Qed.

Lemma prefix_first w1 w c s : Ascii.eqb c w1 = false → String.prefix (String w1 w) (String c s) = false.
Proof. intros Hc. simpl. destruct (ascii_dec w1 c) as [->|]; [|done]. by rewrite Ascii.eqb_refl in Hc. Qed.

Lemma number_not_keyword s r : number_head s → parse_keyword keywords (s +:+ r) = None.
Proof.
  intros [c t Hc|c t Hc]; unfold parse_keyword, keywords, after_prefix.
  - change (String c t +:+ r) with (String c (t +:+ r)). by rewrite !prefix_first by (by apply digit_not).
  - change (String "-" (String c t) +:+ r) with (String "-" (String c (t +:+ r))). rewrite !(prefix_first _ _ "-") by done.
    change (String.prefix "-Infinity" (String "-" ?x)) with (String.prefix "Infinity" x).
    by rewrite prefix_first by (by apply digit_not).
Qed.

(** ** Texts of integers *)

Definition value_from (acc : Z) (s : string) : Z :=
  fold_left (λ n c, n * 10 + (Z.of_N (N_of_ascii c) - 48)) (String.list_ascii_of_string s) acc.

Lemma digit_char x : (x < 10)%N →
  is_digit (pretty_N_char x) = true ∧ Z.of_N (N_of_ascii (pretty_N_char x)) - 48 = Z.of_N x
  ∧ (x ≠ 0%N → pretty_N_char x ≠ "0"%char).
Proof. intros Hx. enum_N x; done. Qed.

Lemma pretty_N_go_ind (P : N → string → string → Prop) :
  (∀ s, P 0%N s s) →
  (∀ x s t, (0 < x)%N → P (x / 10)%N (String (pretty_N_char (x mod 10)) s) t → P x s t) →
  ∀ x s, P x s (pretty_N_go x s).
Proof.
  intros H0 H1 x. induction (N.lt_wf_0 x) as [x _ IH]. intros s.
  destruct (N.eq_0_gt_0_cases x) as [->|Hx]; [apply H0|]. rewrite pretty_N_go_step by done. apply H1; [done|].
  apply IH. by apply N.div_lt.
Qed.

Lemma go_value x s : value_from 0 (pretty_N_go x s) = value_from (Z.of_N x) s.
Proof.
  apply (pretty_N_go_ind (λ x s t, value_from 0 t = value_from (Z.of_N x) s)); [done|].
  clear. intros x s t Hx ->. unfold value_from. simpl. f_equal.
  destruct (digit_char (x mod 10)) as (_ & -> & _); [by apply N.mod_lt|]. n_arith.
Qed.
Lemma go_digits x s : span_digits s = (s, "") → span_digits (pretty_N_go x s) = (pretty_N_go x s, "").
Proof.
  apply (pretty_N_go_ind (λ x s t, span_digits s = (s, "") → span_digits t = (t, ""))); [done|].
  clear. intros x s t Hx IH Hs. apply IH. simpl. destruct (digit_char (x mod 10)) as (-> & _); [by apply N.mod_lt|].
  by rewrite Hs.
Qed.
Lemma go_head x s : (0 < x)%N → ∃ c t, pretty_N_go x s = String c t ∧ c ≠ "0"%char.
Proof.
  intros Hx. apply (pretty_N_go_ind (λ x s t,
    (x = 0%N → ∃ c u, s = String c u ∧ c ≠ "0"%char) → ∃ c u, t = String c u ∧ c ≠ "0"%char)); [auto|clear|lia].
  intros x s t Hx IH _. apply IH. intros Hz. do 2 eexists. split; [reflexivity|].
  apply digit_char; [by apply N.mod_lt|]. n_arith.
Qed.

Lemma digits_of_positive p : let s := str_of_Z (Zpos p) in
  span_digits s = (s, "") ∧ digits_value s = Zpos p ∧ ∃ c t, s = String c t ∧ c ≠ "0"%char.
Proof.
  cbv zeta. change (str_of_Z (Zpos p)) with (pretty_N_go (Npos p) "").
  split; [by apply go_digits|]. split; [|by apply go_head]. apply (go_value (Npos p) "").
Qed.

Lemma unsigned_positive neg p : (String.length (str_of_Z (Zpos p)) <= 4300)%nat →
  unsigned_number neg (str_of_Z (Zpos p)) = inr (JInt (if neg then Zneg p else Zpos p), "").
Proof.
  destruct (digits_of_positive p) as (Hspan & Hval & c & t & Hs & Hc). rewrite Hs in *. intros Hlen.
  unfold unsigned_number. rewrite (proj2 (Ascii.eqb_neq _ _) Hc), Hspan. cbn [String.eqb]. unfold number_rest.
  cbn [parse_fraction parse_exponent]. rewrite (proj2 (Nat.ltb_ge _ _) Hlen), Hval. by destruct neg.
Qed.

Lemma int_reads z : (String.length (str_of_Z (Z.abs z)) <= 4300)%nat → parse_number (str_of_Z z) = inr (JInt z, "").
Proof.
  destruct z as [|p|p]; [done|..]; intros H; pose proof (λ neg, unsigned_positive neg p H) as H'; revert H'; unfold parse_number.
  - destruct (digits_of_positive p) as (Hspan & _ & c & t & Hs & _). rewrite Hs in *. intros H'.
    destruct (Ascii.eqb_spec c "-") as [->|]; [done|exact (H' false)].
  - intros H'. exact (H' true).
Qed.

Lemma float_eqb_eq x y : float_eqb x y = true → x = y.
Proof.
  destruct x as [a|a| |a m e], y as [b|b| |b k f]; simpl; try done; try (intros <-%eqb_prop; done).
  rewrite !andb_true_iff. intros [[<-%eqb_prop <-%Pos.eqb_eq] <-%Z.eqb_eq]. done.
Qed.
Lemma number_reads_ok s j : number_reads s j = true → parse_number s = inr (j, "").
Proof.
  unfold number_reads. destruct (parse_number s) as [|[[] []]]; try done; destruct j; try done.
  - by intros ->%Z.eqb_eq.
  - by intros ->%float_eqb_eq.
Qed.

(** ** Values *)

(** The text of a value starts with neither white space nor a closing bracket. *)
Definition value_head (s : string) : Prop :=
  match s with String c _ => is_ws c = false ∧ Ascii.eqb c "]" = false | EmptyString => False end.

Lemma digit_head c : is_digit c = true → is_ws c = false ∧ Ascii.eqb c "]" = false.
Proof.
  intros Hc. split; [|by apply digit_not]. unfold is_digit, is_ws in *. destruct (N_of_ascii c); [done|].
  repeat (done || match goal with |- context [match ?p with _ => _ end] => destruct p end).
Qed.
Lemma number_value_head s : number_head s → value_head s.
Proof. intros [c t Hc|c t Hc]; [by apply digit_head|done]. Qed.

Lemma portable_float x : portable (JFloat x) = true →
  (∃ w, (w, JFloat x) ∈ keywords ∧ dumps (JFloat x) = w) ∨ parse_number (dumps (JFloat x)) = inr (JFloat x, "").
Proof.
  destruct x as [b|b| |b m e]; simpl; intros H.
  - right. by apply number_reads_ok.
  - left. eexists. split; [|reflexivity]. destruct b; unfold keywords; simpl; rewrite !elem_of_cons; tauto.
  - left. eexists. split; [|reflexivity]. unfold keywords; simpl; rewrite !elem_of_cons; tauto.
  - right. by apply number_reads_ok.
Qed.

Lemma keyword_reads w j r : (w, j) ∈ keywords → parse_keyword keywords (w +:+ r) = Some (j, r).
Proof.
  unfold keywords. rewrite !elem_of_cons, elem_of_nil.
  intros [[= -> ->]|[[= -> ->]|[[= -> ->]|[[= -> ->]|[[= -> ->]|[[= -> ->]|[]]]]]]];
    unfold parse_keyword; rewrite ?after_prefix_app; try done.
Qed.

Lemma number_value fuel s j r : (0 < fuel)%nat → stops r = true → parse_number s = inr (j, "") →
  parse_value fuel (s +:+ r) = inr (j, r).
Proof.
  intros Hf Hr Hs. destruct fuel as [|fuel]; [lia|]. pose proof (parse_number_head _ _ Hs) as Hh.
  pose proof (number_not_keyword s r Hh) as Hk. pose proof (parse_number_app _ _ _ r Hr Hs) as Hn.
  assert (Hd : ∃ c t, s +:+ r = String c t ∧ (is_digit c = true ∨ c = "-"%char)).
  { destruct Hh as [c t Hc|c t Hc]; do 2 eexists; (split; [reflexivity|]); tauto. }
  destruct Hd as (c & t & E & Hc). rewrite E in *.
  assert (Hn34 : (N_of_ascii c =? 34)%N = false ∧ Ascii.eqb c "[" = false ∧ Ascii.eqb c "{" = false).
  { destruct Hc as [Hc| ->]; [|done]. split; [|split; by apply digit_not].
    apply N.eqb_neq. unfold is_digit in Hc. rewrite andb_true_iff, !N.leb_le in Hc. lia. }
  destruct Hn34 as (H1 & H2 & H3). cbn [parse_value]. by rewrite H1, H2, H3, Hk, Hn.
Qed.

Lemma keyword_value fuel w j r : (0 < fuel)%nat → (w, j) ∈ keywords → parse_value fuel (w +:+ r) = inr (j, r).
Proof.
  intros Hf Hw. pose proof (keyword_reads w j r Hw) as Hk. destruct fuel as [|fuel]; [lia|].
  revert Hw Hk. unfold keywords at 1. rewrite !elem_of_cons, elem_of_nil.
  intros [[= -> ->]|[[= -> ->]|[[= -> ->]|[[= -> ->]|[[= -> ->]|[[= -> ->]|[]]]]]]] Hk;
    change (?a +:+ r) with (a ++ r)%string in *; cbn [parse_value String.append] in *; rewrite Hk; done.
Qed.

Lemma value_head_app s r : value_head s → value_head (s +:+ r).
Proof. by destruct s. Qed.
Lemma skip_head s : value_head s → skip_ws s = s.
Proof. destruct s as [|c s]; [done|]. simpl. by intros [-> _]. Qed.

Lemma dumps_head j : portable j = true → value_head (dumps j).
Proof.
  destruct j as [|b|z|x|s|l|fields]; intros H; try done.
  - by destruct b.
  - apply Nat.leb_le, int_reads, parse_number_head in H. by apply number_value_head.
  - apply portable_float in H as [(w & Hw & ->)|H]; [|apply parse_number_head in H; by apply number_value_head].
    revert Hw. unfold keywords. rewrite !elem_of_cons, elem_of_nil.
    intros [[= ->]|[[= ->]|[[= ->]|[[= -> ->]|[[= -> ->]|[[= -> ->]|[]]]]]]]; done.
Qed.

(** The reader gives the value back and leaves what follows it. *)
Definition reads_back (j : json) : Prop := ∀ fuel r,
  (2 * String.length (dumps j) <= fuel)%nat → stops r = true → parse_value fuel (dumps j +:+ r) = inr (j, r).

Definition member_text (kv : string * json) : string := quoted kv.1 +:+ ":" +:+ dumps kv.2.

Lemma items_read l : l ≠ [] → Forall (λ j, portable j = true ∧ reads_back j) l → ∀ fuel r,
  (2 * String.length (join "," (map dumps l)) < fuel)%nat →
  parse_items fuel (join "," (map dumps l) +:+ "]" +:+ r) = inr (l, r).
Proof.
  induction l as [|j l IH]; [done|]. intros _ [[Hp Hj] Hl]%Forall_cons fuel r Hf.
  destruct fuel as [|fuel]; [lia|]. cbn [parse_items]. destruct l as [|k l].
  - cbn [map join] in *. rewrite skip_head by (by apply value_head_app, dumps_head).
    rewrite Hj by (done || lia). done.
  - change (join "," (map dumps (j :: k :: l))) with (dumps j +:+ "," +:+ join "," (map dumps (k :: l))) in *.
    rewrite !length_app_str in Hf. cbn [String.length] in Hf.
    rewrite !app_assoc_str, skip_head by (by apply value_head_app, dumps_head).
    rewrite Hj by (done || lia). change (skip_ws ("," +:+ ?x)) with ("," +:+ x).
    change ("," +:+ ?x) with (String "," x). cbv iota. by rewrite IH by (done || lia).
Qed.

Lemma member_reads kv fuel r : text_ok kv.1 = true → portable kv.2 = true → reads_back kv.2 →
  (2 * String.length (member_text kv) <= fuel)%nat → stops r = true →
  ∃ t, skip_ws (member_text kv +:+ r) = String (ascii_of_N 34) t
    ∧ parse_string fuel t = inr (kv.1, ":" +:+ dumps kv.2 +:+ r)
    ∧ parse_value fuel (skip_ws (dumps kv.2 +:+ r)) = inr (kv.2, r).
Proof.
  intros Hk Hp Hv Hf Hr. unfold member_text in *. rewrite !length_app_str in Hf. cbn [String.length] in Hf.
  rewrite !app_assoc_str, quoted_app. eexists. split; [reflexivity|]. split; [by apply quoted_reads; [|lia]|].
  rewrite skip_head by (by apply value_head_app, dumps_head). apply Hv; [lia|done].
Qed.

Lemma members_read l : l ≠ [] →
  Forall (λ kv, text_ok kv.1 = true ∧ portable kv.2 = true ∧ reads_back kv.2) l → ∀ fuel r,
  (2 * String.length (join "," (map member_text l)) < fuel)%nat →
  parse_members fuel (join "," (map member_text l) +:+ "}" +:+ r) = inr (l, r).
Proof.
  induction l as [|kv l IH]; [done|]. intros _ [(Hk & Hp & Hv) Hl]%Forall_cons fuel r Hf.
  destruct fuel as [|fuel]; [lia|]. cbn [parse_members]. destruct l as [|kv' l].
  - cbn [map join] in *.
    destruct (member_reads kv fuel ("}" +:+ r)) as (t & -> & Hs & Hx); [done..|lia|done|].
    cbn [negb N_of_ascii]. rewrite Hs. cbn [negb N.eqb]. change (skip_ws (":" +:+ ?x)) with (":" +:+ x).
    change (":" +:+ ?x) with (String ":" x). cbv iota. rewrite Hx. by destruct kv.
  - change (join "," (map member_text (kv :: kv' :: l)))
      with (member_text kv +:+ "," +:+ join "," (map member_text (kv' :: l))) in *.
    rewrite !length_app_str in Hf. cbn [String.length] in Hf. rewrite !app_assoc_str.
    destruct (member_reads kv fuel ("," +:+ join "," (map member_text (kv' :: l)) +:+ "}" +:+ r))
      as (t & -> & Hs & Hx); [done..|lia|done|].
    cbn [negb N_of_ascii]. rewrite Hs. cbn [negb N.eqb]. change (skip_ws (":" +:+ ?x)) with (":" +:+ x).
    change (":" +:+ ?x) with (String ":" x). cbv iota. rewrite Hx.
    change (skip_ws ("," +:+ ?x)) with ("," +:+ x). change ("," +:+ ?x) with (String "," x). cbv iota.
    rewrite IH by (done || lia). by destruct kv.
Qed.

Lemma array_value fuel s r : value_head s →
  parse_value (S fuel) ("[" +:+ s +:+ r)
  = match parse_items fuel (s +:+ r) with inr (l, r'') => inr (JArr l, r'') | inl e => inl e end.
Proof.
  intros Hs. pose proof (value_head_app s r Hs) as Hh. change ("[" +:+ ?x) with (String "[" x).
  cbn -[parse_items parse_members skip_ws String.append]. rewrite skip_head by done.
  destruct (s +:+ r) as [|c t]; [done|]. destruct Hh as [_ Hc]. by destruct c as [[] [] [] [] [] [] [] []].
Qed.

Lemma join_head l : l ≠ [] → (∀ x, x ∈ l → value_head x) → value_head (join "," l).
Proof.
  destruct l as [|x [|y l]]; [done|..]; intros _ H.
  - apply H. by left.
  - apply (value_head_app x). apply H. by left.
Qed.

Lemma value_reads j : portable j = true → reads_back j.
Proof.
  induction j as [|b|z|x|s|l IH|fields IH] using json_nested; intros Hp fuel r Hf Hr.
  - apply (keyword_value _ "null"); [simpl in Hf; lia|by left].
  - apply keyword_value; [destruct b; simpl in Hf; lia|destruct b; unfold keywords; rewrite !elem_of_cons; tauto].
  - apply Nat.leb_le, int_reads in Hp. pose proof (parse_number_head _ _ Hp) as Hh. change (dumps (JInt z)) with (str_of_Z z) in *.
    apply number_value; [|done..]. destruct Hh; simpl in Hf; lia.
  - pose proof (dumps_head _ Hp) as Hh.
    assert (0 < fuel)%nat by (destruct (dumps (JFloat x)); [done|simpl in Hf; lia]).
    apply portable_float in Hp as [(w & Hw & ->)|Hp]; [by apply keyword_value|by apply number_value].
  - change (dumps (JStr s)) with (quoted s) in *. pose proof (quoted_length s Hp). destruct fuel as [|fuel]; [lia|].
    rewrite quoted_app. cbn -[parse_string String.append quote]. by rewrite quoted_reads by (done || lia).
  - change (dumps (JArr l)) with ("[" +:+ join "," (map dumps l) +:+ "]") in *.
    rewrite !length_app_str in Hf. cbn [String.length] in Hf. destruct fuel as [|fuel]; [lia|].
    assert (Hl : Forall (λ j, portable j = true) l) by (by apply Forall_forall, forallb_elem).
    rewrite !app_assoc_str. destruct l as [|j l]; [done|]. rewrite array_value.
    + rewrite items_read; [done|done| |lia]. apply Forall_and. split; [done|].
      by eapply Forall_impl; [apply Forall_and; split; [exact IH|exact Hl]|intros ? [Hi ?]; by apply Hi].
    + apply join_head; [done|]. intros t (k & -> & Hk)%list_elem_of_fmap. apply dumps_head.
      by eapply Forall_forall in Hl.
  - change (dumps (JObj fields)) with ("{" +:+ join "," (map member_text fields) +:+ "}") in *.
    rewrite !length_app_str in Hf. cbn [String.length] in Hf. destruct fuel as [|fuel]; [lia|].
    assert (Hl : Forall (λ kv, text_ok kv.1 = true ∧ portable kv.2 = true ∧ reads_back kv.2) fields).
    { eapply Forall_forall. intros kv Hkv. pose proof (proj1 (forallb_elem _ _) Hp kv Hkv) as [Hk Hv]%andb_true_iff.
      split_and!; [done|done|]. by eapply (proj1 (Forall_forall _ _) IH). }
    rewrite !app_assoc_str. destruct fields as [|kv fields]; [done|].
    pose proof (members_read (kv :: fields) ltac:(done) Hl fuel r ltac:(lia)) as Hm.
    assert (Hq : ∃ t, join "," (map member_text (kv :: fields)) +:+ "}" +:+ r = String (ascii_of_N 34) t).
    { cbn [map join]. destruct (map member_text fields); eexists; reflexivity. }
    destruct Hq as [t Hq]. rewrite Hq in *.
    transitivity (match parse_members fuel (String (ascii_of_N 34) t) with
                  | inr (l, r'') => inr (JObj l, r'') | inl e => inl e end : parsed json); [reflexivity|].
    by rewrite Hm.
Qed.

(** ** Encoding *)

(** ASCII text whose only control characters are line feeds. *)
Definition ascii_char (c : ascii) : bool :=
  ((N_of_ascii c =? 10) || (32 <=? N_of_ascii c))%N && (N_of_ascii c <? 128)%N.
Definition ascii_text (s : string) : bool := forallb ascii_char (String.list_ascii_of_string s).

Lemma ascii_text_app s1 s2 : ascii_text (s1 +:+ s2) = ascii_text s1 && ascii_text s2.
Proof.
  unfold ascii_text. induction s1 as [|c s IH]; [done|]. change (String c s +:+ s2) with (String c (s +:+ s2)).
  simpl. by rewrite IH, andb_assoc.
Qed.
Lemma ascii_text_join sep l : ascii_text sep = true → (∀ s, s ∈ l → ascii_text s = true) → ascii_text (join sep l) = true.
Proof.
  intros Hsep. induction l as [|x [|y l] IH]; intros H; [done|apply H; by left|].
  change (join sep (x :: y :: l)) with (x +:+ sep +:+ join sep (y :: l)).
  rewrite !ascii_text_app, Hsep, (H x), IH by (by left || (intros s Hs; apply H; by right)). done.
Qed.

Lemma span_digits_ascii s d t : span_digits s = (d, t) → ascii_text t = true → ascii_text s = true.
Proof.
  revert d. induction s as [|c s IH]; intros d; simpl; [done|].
  destruct (is_digit c) eqn:Hc; [|by intros [= _ <-]]. destruct (span_digits s) as [d' t'] eqn:E. intros [= _ <-] Ht.
  unfold ascii_text. simpl. apply andb_true_iff. split; [|by eapply IH].
  unfold is_digit in Hc. unfold ascii_char. rewrite andb_true_iff, !N.leb_le in Hc.
  rewrite andb_true_iff, orb_true_iff, N.leb_le, N.ltb_lt. lia.
Qed.
Lemma ascii_text_cons c s : ascii_char c = true → ascii_text s = true → ascii_text (String c s) = true.
Proof. unfold ascii_text. simpl. by intros -> ->. Qed.
Lemma number_rest_ascii neg digits s j : number_rest neg digits s = inr (j, "") → ascii_text s = true.
Proof.
  unfold number_rest. destruct (parse_fraction s) as [f s3] eqn:Ef. destruct (parse_exponent s3) as [x s4] eqn:Ee.
  intros H. assert (s4 = "") as ->; [destruct f, x; try congruence; by destruct (_ <? _)%nat; [|congruence]|].
  assert (H3 : ascii_text s3 = true).
  { unfold parse_exponent in Ee. destruct s3 as [|c u]; [done|].
    destruct (Ascii.eqb_spec c "e") as [->|_]; [|destruct (Ascii.eqb_spec c "E") as [->|_]; [|done]]; simpl in Ee;
      apply ascii_text_cons; try done;
      (destruct u as [|g u]; [done|]; destruct (Ascii.eqb_spec g "-") as [->|_]; [|destruct (Ascii.eqb_spec g "+") as [->|_]];
       [apply ascii_text_cons; [done|]..|]; destruct (span_digits _) as [d t] eqn:E; destruct (String.eqb d ""); try done;
       injection Ee as _ ->; by eapply span_digits_ascii). }
  unfold parse_fraction in Ef. destruct s as [|c s]; [done|]. destruct (Ascii.eqb_spec c ".") as [->|_]; [|congruence].
  destruct (span_digits s) as [d t] eqn:E. destruct (String.eqb d ""); injection Ef as _ <-; [done|].
  apply ascii_text_cons; [done|]. by eapply span_digits_ascii.
Qed.
Lemma number_ascii s j : parse_number s = inr (j, "") → ascii_text s = true.
Proof.
  assert (Hu : ∀ neg s, unsigned_number neg s = inr (j, "") → ascii_text s = true).
  { intros neg [|c u]; [done|]. unfold unsigned_number. destruct (Ascii.eqb_spec c "0") as [->|_].
    - intros H%number_rest_ascii. by apply ascii_text_cons.
    - destruct (span_digits (String c u)) as [d t] eqn:E. destruct (String.eqb d ""); [done|].
      intros H%number_rest_ascii. by eapply span_digits_ascii. }
  destruct s as [|c s]; [done|]. unfold parse_number. destruct (Ascii.eqb_spec c "-") as [->|_]; [|by apply Hu].
  intros H%Hu. by apply ascii_text_cons.
Qed.

Lemma hex_digit_ascii n : (n < 16)%N → ascii_text (hex_digit n) = true.
Proof. intros Hn. enum_N n; done. Qed.
Lemma u_escape_ascii n : ascii_text (u_escape n) = true.
Proof.
  assert (∀ k, (k mod 16 < 16)%N) by (intros; by apply N.mod_lt).
  unfold u_escape. by rewrite !ascii_text_app, !hex_digit_ascii by done.
Qed.
Lemma escape_char_ascii c : scalar_char c = true → ascii_text (escape_char c) = true.
Proof.
  unfold scalar_char, escape_char. set (n := code_point c). clearbody n.
  rewrite !andb_true_iff, N.ltb_lt, String.eqb_eq. intros [[Hn _] <-]. destruct (N.lt_ge_cases n 128) as [Hlt|Hge].
  - pose proof (u_escape_ascii n) as Hu. clear - Hlt Hu. enum_N n; solve [exact Hu|done].
  - rewrite !(proj2 (N.eqb_neq n _)) by lia. rewrite (proj2 (N.ltb_ge n 127)), andb_false_r by lia.
    destruct (n <? 65536)%N; [by apply u_escape_ascii|]. by rewrite ascii_text_app, !u_escape_ascii.
Qed.
Lemma quoted_ascii s : text_ok s = true → ascii_text (quoted s) = true.
Proof.
  unfold text_ok, quoted. intros H. rewrite !ascii_text_app. apply andb_true_iff. split; [done|].
  rewrite andb_true_r. induction (chars s) as [|c l IH]; [done|]. simpl in *. b2p.
  change (?a ++ ?b)%string with (a +:+ b). by rewrite ascii_text_app, escape_char_ascii, IH.
Qed.

Lemma dumps_ascii j : portable j = true → ascii_text (dumps j) = true.
Proof.
  induction j as [|b|z|x|s|l IH|fields IH] using json_nested; intros Hp.
  - done.
  - by destruct b.
  - apply Nat.leb_le, int_reads in Hp. by eapply number_ascii.
  - apply portable_float in Hp as [(w & Hw & ->)|Hp]; [|by eapply number_ascii].
    revert Hw. unfold keywords. rewrite !elem_of_cons, elem_of_nil. naive_solver.
  - by apply quoted_ascii.
  - change (dumps (JArr l)) with ("[" +:+ join "," (map dumps l) +:+ "]"). rewrite !ascii_text_app, andb_true_r.
    apply ascii_text_join; [done|]. intros s (j & -> & Hj)%list_elem_of_fmap.
    by apply (proj1 (Forall_forall _ _) IH), (proj1 (forallb_elem _ _) Hp).
  - change (dumps (JObj fields)) with ("{" +:+ join "," (map member_text fields) +:+ "}").
    rewrite !ascii_text_app, andb_true_r. apply ascii_text_join; [done|]. intros s (kv & -> & Hkv)%list_elem_of_fmap.
    pose proof (proj1 (forallb_elem _ _) Hp kv Hkv) as [Hk Hv]%andb_true_iff. unfold member_text.
    rewrite !ascii_text_app, quoted_ascii by done. by apply (proj1 (Forall_forall _ _) IH).
Qed.

Lemma ascii_utf8 s : ascii_text s = true → utf8_ok (map N_of_ascii (String.list_ascii_of_string s)) = true.
Proof.
  unfold ascii_text. induction (String.list_ascii_of_string s) as [|c l IH]; [done|]. simpl. intros [Hc Hl]%andb_true_iff.
  unfold ascii_char in Hc. apply andb_true_iff in Hc as [_ ->]. by apply IH.
Qed.
Lemma ascii_char_bounds c : ascii_char c = true → (0 < N_of_ascii c < 128)%N.
Proof. unfold ascii_char. rewrite andb_true_iff, orb_true_iff, N.eqb_eq, N.leb_le, N.ltb_lt. lia. Qed.
Lemma ascii_plain s : ascii_text s = true → plain_utf8 s = true.
Proof.
  unfold ascii_text, plain_utf8. destruct (String.list_ascii_of_string s) as [|c [|d l]]; [done|..]; simpl.
  - rewrite andb_true_r. intros Ha%ascii_char_bounds. generalize dependent (N_of_ascii c). intros a Ha. enum_N a; done.
  - rewrite !andb_true_iff. intros (Ha%ascii_char_bounds & Hb%ascii_char_bounds & _).
    generalize dependent (N_of_ascii c). generalize dependent (N_of_ascii d). intros b Hb a Ha.
    assert (Hz : (b =? 0)%N = false) by (apply N.eqb_neq; lia). enum_N a; try lia; exact (f_equal negb Hz).
Qed.
Lemma ascii_no_cr s : ascii_text s = true → contains_char (ascii_of_N 13) s = false.
Proof.
  induction s as [|c s IH]; [done|]. intros [Hc Hs]%andb_true_iff. cbn [contains_char]. rewrite IH by done.
  rewrite orb_false_r. apply Ascii.eqb_neq. by intros <-.
Qed.

Lemma loads_text_dumps j : portable j = true → loads_text (dumps j) = inr j.
Proof.
  intros Hp. unfold loads_text. rewrite skip_head by (by apply dumps_head). rewrite <- (app_nil_r_str (dumps j)) at 2.
  by rewrite value_reads by (done || lia).
Qed.

Lemma loads_dumps wide j : portable j = true → loads wide (dumps j) = inr j.
Proof.
  intros Hp. pose proof (dumps_ascii j Hp) as Ha. unfold loads.
  rewrite ascii_plain, ascii_utf8 by done. by apply loads_text_dumps.
Qed.

(** A JSON value written by [json.dumps] and read back by [json.loads] is
    the value itself: every escape (surrogate pairs included), integer, keyword,
    nested array and object survives, the text is ASCII whatever the strings
    hold, and the reader's fuel is always enough. *)
Theorem json_round_trip wide j :
  portable j = true → ascii_text (dumps j) = true ∧ loads wide (dumps j) = inr j.
Proof. intros Hp. split; [by apply dumps_ascii|by apply loads_dumps]. Qed.

Lemma json_round_trip_witness :
  let j := JObj [("unité", JArr [JStr "°C/😀"; JInt (-12); JFloat (lit 65 1); JFloat S754_nan; JNull]); ("", JObj [])] in
  ascii_text (dumps j) = true ∧ loads (λ _, None) (dumps j) = inr j.
Proof. cbv zeta. apply json_round_trip. vm_compute. reflexivity. Defined.
