(* ===== verification/JsonIndent.v ===== *)
(** [json.loads] reads the text of [json.dumps(value)] (default separators) back
    as the value, and the text of [json.dumps(indent=2, sort_keys=True)] as the
    value with the members of its objects in the order of their keys. *)
From Stdlib Require Permutation.
From S2P Require Import Prelude PyStr Float64 PyFormat Json JsonParse JsonRoundTrip.
Local Open Scope py_scope.

Fixpoint sort_keys (j : json) : json :=
  match j with
  | JArr l => JArr (map sort_keys l)
  | JObj fields => JObj (sorted_members (map (λ kv, (kv.1, sort_keys kv.2)) fields))
  | _ => j
  end.

(** Sorting members by key does not look at their values. *)
Lemma insort_map {A B} (f : A → B) (lta : A → A → bool) (ltb : B → B → bool) x l :
  (∀ a b, ltb (f a) (f b) = lta a b) → insort ltb (f x) (map f l) = map f (insort lta x l).
Proof. intros H. induction l as [|y l IH]; [done|]. cbn [map insort]. rewrite H. by destruct (lta y x); [rewrite IH|]. Qed.
Lemma py_sorted_map {A B} (f : A → B) (lta : A → A → bool) (ltb : B → B → bool) l :
  (∀ a b, ltb (f a) (f b) = lta a b) → py_sorted ltb (map f l) = map f (py_sorted lta l).
Proof.
  intros H. unfold py_sorted. induction l as [|x l IH]; [done|]. cbn [map foldr]. rewrite IH. by apply insort_map.
Qed.
Lemma sorted_members_map {A B} (f : A → B) (l : list (string * A)) :
  sorted_members (map (λ kv, (kv.1, f kv.2)) l) = map (λ kv, (kv.1, f kv.2)) (sorted_members l).
Proof. apply (py_sorted_map (λ kv : string * A, (kv.1, f kv.2))). done. Qed.
Lemma sorted_members_elem {A} (l : list (string * A)) kv : kv ∈ sorted_members l → kv ∈ l.
Proof. unfold sorted_members. by rewrite py_sorted_perm. Qed.

(** White space between the parts of a value. *)
Lemma skip_spaces n s : skip_ws (spaces n +:+ s) = skip_ws s.
Proof. induction n as [|n IH]; [done|]. exact IH. Qed.
Lemma skip_break n s : skip_ws (break_at n +:+ s) = skip_ws s.
Proof. unfold break_at. rewrite app_assoc_str. exact (skip_spaces (2 * n) s). Qed.
Lemma stops_break n s : stops (break_at n +:+ s) = true.
Proof. done. Qed.

(** A text that reads as a value, whatever follows. *)
Definition reads_as (t : string) (j : json) : Prop :=
  value_head t ∧ ∀ fuel r, (2 * String.length t <= fuel)%nat → stops r = true → parse_value fuel (t +:+ r) = inr (j, r).

(** An array or an object whose parts are separated by a comma and [gap], with
    white space [opening] and [closing] inside the brackets. *)
Section Spaced.
Context (opening gap closing : string).
Context (Hopening : ∀ s, skip_ws (opening +:+ s) = skip_ws s) (Hgap : ∀ s, skip_ws (gap +:+ s) = skip_ws s).
Context (Hclosing : ∀ s, skip_ws (closing +:+ s) = skip_ws s).
Context (Hstops : ∀ s, stops s = true → stops (closing +:+ s) = true).

Lemma spaced_items l : l ≠ [] → Forall (λ tj, reads_as tj.1 tj.2) l → ∀ fuel r,
  (2 * String.length (join ("," +:+ gap) (map fst l)) < fuel)%nat →
  parse_items fuel (join ("," +:+ gap) (map fst l) +:+ closing +:+ "]" +:+ r) = inr (map snd l, r).
Proof.
  induction l as [|[t j] l IH]; [done|]. intros _ [[Hh Hj] Hl]%Forall_cons fuel r Hf. cbn [fst snd] in *.
  destruct fuel as [|fuel]; [lia|]. cbn [parse_items]. destruct l as [|[u k] l].
  - cbn [map join fst snd] in *. rewrite skip_head by (by apply value_head_app). rewrite Hj by (lia || by apply Hstops).
    rewrite Hclosing. done.
  - cbn [map fst snd] in *.
    change (join ?sep (t :: u :: ?rest)) with (t +:+ sep +:+ join sep (u :: rest)) in *.
    rewrite !length_app_str in Hf. cbn [String.length] in Hf.
    rewrite !app_assoc_str, skip_head by (by apply value_head_app).
    rewrite Hj by (done || lia). change (skip_ws ("," +:+ ?x)) with ("," +:+ x). change ("," +:+ ?x) with (String "," x). cbv iota.
    assert (Hskip : ∀ f s, parse_items f (gap +:+ s) = parse_items f s).
    { intros [|f] s; [done|]. cbn [parse_items]. by rewrite Hgap. }
    rewrite Hskip, IH by (done || lia). done.
Qed.

Definition entry_text (e : string * (string * json)) : string := quoted e.1 +:+ ": " +:+ e.2.1.
Definition entry_value (e : string * (string * json)) : string * json := (e.1, e.2.2).

Lemma entry_reads e fuel r : text_ok e.1 = true → reads_as e.2.1 e.2.2 →
  (2 * String.length (entry_text e) <= fuel)%nat → stops r = true →
  ∃ t, skip_ws (entry_text e +:+ r) = String (ascii_of_N 34) t
    ∧ parse_string fuel t = inr (e.1, ": " +:+ e.2.1 +:+ r)
    ∧ parse_value fuel (skip_ws (" " +:+ e.2.1 +:+ r)) = inr (e.2.2, r).
Proof.
  intros Hk [Hh Hv] Hf Hr. unfold entry_text in *. rewrite !length_app_str in Hf. cbn [String.length] in Hf.
  rewrite !app_assoc_str, quoted_app. eexists. split; [reflexivity|]. split; [by apply quoted_reads; [|lia]|].
  change (skip_ws (" " +:+ ?x)) with (skip_ws x). rewrite skip_head by (by apply value_head_app). apply Hv; [lia|done].
Qed.

Lemma spaced_members l : l ≠ [] →
  Forall (λ e, text_ok e.1 = true ∧ reads_as e.2.1 e.2.2) l → ∀ fuel r,
  (2 * String.length (join ("," +:+ gap) (map entry_text l)) < fuel)%nat →
  parse_members fuel (join ("," +:+ gap) (map entry_text l) +:+ closing +:+ "}" +:+ r)
  = inr (map entry_value l, r).
Proof.
  induction l as [|e l IH]; [done|]. intros _ [(Hk & Hv) Hl]%Forall_cons fuel r Hf.
  destruct fuel as [|fuel]; [lia|]. cbn [parse_members]. destruct l as [|e' l].
  - cbn [map join] in *.
    destruct (entry_reads e fuel (closing +:+ "}" +:+ r)) as (t & -> & Hs & Hx); [done..|lia|by apply Hstops|].
    cbn [negb N_of_ascii]. rewrite Hs. cbn [negb N.eqb]. change (skip_ws (": " +:+ ?x)) with (String ":" (" " +:+ x)).
    cbv iota. rewrite Hx, Hclosing. done.
  - change (join ?sep (map entry_text (e :: e' :: l))) with (entry_text e +:+ sep +:+ join sep (map entry_text (e' :: l))) in *.
    rewrite !length_app_str in Hf. cbn [String.length] in Hf. rewrite !app_assoc_str.
    destruct (entry_reads e fuel ("," +:+ gap +:+ join ("," +:+ gap) (map entry_text (e' :: l)) +:+ closing +:+ "}" +:+ r))
      as (t & -> & Hs & Hx); [done..|lia|done|].
    cbn [negb N_of_ascii]. rewrite Hs. cbn [negb N.eqb]. change (skip_ws (": " +:+ ?x)) with (String ":" (" " +:+ x)).
    cbv iota. rewrite Hx. change (skip_ws ("," +:+ ?x)) with ("," +:+ x). change ("," +:+ ?x) with (String "," x). cbv iota.
    assert (Hskip : ∀ f s, parse_members f (gap +:+ s) = parse_members f s).
    { intros [|f] s; [done|]. cbn [parse_members]. by rewrite Hgap. }
    rewrite Hskip, IH by (done || lia). done.
Qed.

Lemma bracket_value fuel t : value_head t →
  parse_value (S fuel) ("[" +:+ opening +:+ t)
  = match parse_items fuel t with inr (l, r) => inr (JArr l, r) | inl e => inl e end.
Proof.
  intros Hh. change ("[" +:+ ?x) with (String "[" x).
  cbn -[parse_items parse_members skip_ws String.append]. rewrite Hopening, skip_head by done.
  destruct t as [|c t]; [done|]. destruct Hh as [_ Hc]. by destruct c as [[] [] [] [] [] [] [] []].
Qed.
Lemma brace_value fuel t :
  parse_value (S fuel) ("{" +:+ opening +:+ String (ascii_of_N 34) t)
  = match parse_members fuel (String (ascii_of_N 34) t) with inr (l, r) => inr (JObj l, r) | inl e => inl e end.
Proof.
  change ("{" +:+ ?x) with (String "{" x). cbn -[parse_items parse_members skip_ws String.append].
  by rewrite Hopening.
Qed.
Lemma join_value_head sep l : l ≠ [] → Forall value_head l → value_head (join sep l).
Proof. destruct l as [|x [|y l]]; [done|..]; intros _ [Hx _]%Forall_cons; [exact Hx|exact (value_head_app x _ Hx)]. Qed.
Lemma entries_head sep l r : l ≠ [] → ∃ t, join sep (map entry_text l) +:+ r = String (ascii_of_N 34) t.
Proof. destruct l as [|e l]; [done|]. intros _. cbn [map join]. destruct (map entry_text l); eexists; reflexivity. Qed.

Lemma array_text l : l ≠ [] → Forall (λ tj, reads_as tj.1 tj.2) l →
  reads_as ("[" +:+ opening +:+ join ("," +:+ gap) (map fst l) +:+ closing +:+ "]") (JArr (map snd l)).
Proof.
  intros Hne Hl. split; [done|]. intros fuel r Hf Hr. rewrite !length_app_str in Hf. cbn [String.length] in Hf.
  destruct fuel as [|fuel]; [lia|]. rewrite !app_assoc_str, bracket_value.
  - rewrite spaced_items by (done || lia). done.
  - apply value_head_app, join_value_head; [by destruct l|]. apply Forall_forall.
    intros t (tj & -> & Ht)%list_elem_of_fmap. apply (proj1 (Forall_forall _ _) Hl tj Ht).
Qed.
Lemma object_text l : l ≠ [] → Forall (λ e, text_ok e.1 = true ∧ reads_as e.2.1 e.2.2) l →
  reads_as ("{" +:+ opening +:+ join ("," +:+ gap) (map entry_text l) +:+ closing +:+ "}") (JObj (map entry_value l)).
Proof.
  intros Hne Hl. split; [done|]. intros fuel r Hf Hr. rewrite !length_app_str in Hf. cbn [String.length] in Hf.
  destruct fuel as [|fuel]; [lia|]. pose proof (spaced_members l Hne Hl fuel r ltac:(lia)) as Hm. rewrite !app_assoc_str.
  destruct (entries_head ("," +:+ gap) l (closing +:+ "}" +:+ r) Hne) as [t Ht].
  rewrite Ht in *. by rewrite brace_value, Hm.
Qed.
End Spaced.

(** ** Default separators *)

Lemma scalar_reads j : portable j = true → reads_as (dumps j) j.
Proof. intros Hp. split; [by apply dumps_head|]. by apply value_reads. Qed.

Definition spaced_entries (fields : list (string * json)) : list (string * (string * json)) :=
  map (λ kv, (kv.1, (dumps_spaced kv.2, kv.2))) fields.
Lemma spaced_reads j : portable j = true → reads_as (dumps_spaced j) j.
Proof.
  induction j as [|b|z|x|s|l IH|fields IH] using json_nested; intros Hp; try (by apply (scalar_reads _ Hp)).
  - destruct l as [|j l]; [by apply (scalar_reads (JArr []))|].
    pose proof (array_text "" " " "" ltac:(done) ltac:(done) ltac:(done) ltac:(done)
      (map (λ j, (dumps_spaced j, j)) (j :: l)) ltac:(done)) as H. rewrite !map_map in H. cbn [fst snd] in H.
    rewrite map_id in H. apply H, Forall_map, Forall_forall. intros k Hk. cbn [fst snd].
    apply (proj1 (Forall_forall _ _) IH k Hk). exact (proj1 (forallb_elem _ _) Hp k Hk).
  - destruct fields as [|kv fields]; [by apply (scalar_reads (JObj []))|].
    pose proof (object_text "" " " "" ltac:(done) ltac:(done) ltac:(done) ltac:(done)
      (spaced_entries (kv :: fields)) ltac:(done)) as H.
    assert (E : map entry_value (spaced_entries (kv :: fields)) = kv :: fields).
    { unfold spaced_entries. rewrite map_map. rewrite <- map_id. apply map_ext. by intros []. }
    rewrite E in H. unfold spaced_entries in H at 2. rewrite map_map in H. apply H, Forall_map, Forall_forall.
    intros kv' Hk. pose proof (proj1 (forallb_elem _ _) Hp kv' Hk) as [H1 H2]%andb_true_iff.
    split; [done|]. by apply (proj1 (Forall_forall _ _) IH kv').
Qed.

Lemma spaced_ascii j : portable j = true → ascii_text (dumps_spaced j) = true.
Proof.
  induction j as [|b|z|x|s|l IH|fields IH] using json_nested; intros Hp; try (by apply (dumps_ascii _ Hp)).
  - change (dumps_spaced (JArr l)) with ("[" +:+ join ", " (map dumps_spaced l) +:+ "]").
    rewrite !ascii_text_app, andb_true_r. apply ascii_text_join; [done|]. intros s (j & -> & Hj)%list_elem_of_fmap.
    by apply (proj1 (Forall_forall _ _) IH), (proj1 (forallb_elem _ _) Hp).
  - change (dumps_spaced (JObj fields))
      with ("{" +:+ join ", " (map (λ kv, quoted kv.1 +:+ ": " +:+ dumps_spaced kv.2) fields) +:+ "}").
    rewrite !ascii_text_app, andb_true_r. apply ascii_text_join; [done|]. intros s (kv & -> & Hkv)%list_elem_of_fmap.
    pose proof (proj1 (forallb_elem _ _) Hp kv Hkv) as [Hk Hv]%andb_true_iff.
    rewrite !ascii_text_app, quoted_ascii by done. by apply (proj1 (Forall_forall _ _) IH).
Qed.
Lemma loads_spaced wide j : portable j = true → loads wide (dumps_spaced j) = inr j.
Proof.
  intros Hp. pose proof (spaced_ascii j Hp) as Ha. unfold loads. rewrite ascii_plain, ascii_utf8 by done.
  destruct (spaced_reads j Hp) as [Hh Hr]. unfold loads_text. rewrite skip_head by done.
  rewrite <- (app_nil_r_str (dumps_spaced j)) at 2. by rewrite Hr by (done || lia).
Qed.

(** ** Indented *)

Lemma dumps_indented_arr level j l :
  dumps_indented level (JArr (j :: l))
  = "[" +:+ break_at (S level) +:+ join ("," +:+ break_at (S level)) (map (dumps_indented (S level)) (j :: l))
    +:+ break_at level +:+ "]".
Proof. change (dumps_indented level (JArr (j :: l))) with ("[" +:+ (break_at (S level) +:+ join ("," +:+ break_at (S level)) (map (dumps_indented (S level)) (j :: l)) +:+ break_at level) +:+ "]"). by rewrite !app_assoc_str. Qed.
Definition entries_of (level : nat) (fields : list (string * json)) : list (string * (string * json)) :=
  sorted_members (map (λ kv, (kv.1, (dumps_indented level kv.2, sort_keys kv.2))) fields).
Lemma dumps_indented_obj level kv fields :
  dumps_indented level (JObj (kv :: fields))
  = "{" +:+ break_at (S level) +:+ join ("," +:+ break_at (S level)) (map entry_text (entries_of (S level) (kv :: fields)))
    +:+ break_at level +:+ "}".
Proof.
  transitivity ("{" +:+ (break_at (S level) +:+ join ("," +:+ break_at (S level))
    (map (λ kv, quoted kv.1 +:+ ": " +:+ kv.2)
      (sorted_members (map (λ kv, (kv.1, dumps_indented (S level) kv.2)) (kv :: fields)))) +:+ break_at level) +:+ "}");
    [reflexivity|]. rewrite !app_assoc_str. unfold entries_of.
  rewrite (sorted_members_map (dumps_indented (S level))), (sorted_members_map (λ v, (dumps_indented (S level) v, sort_keys v))).
  rewrite !map_map. done.
Qed.

Lemma array_reads level l :
  Forall (λ j, reads_as (dumps_indented (S level) j) (sort_keys j)) l →
  reads_as (dumps_indented level (JArr l)) (sort_keys (JArr l)).
Proof.
  intros Hl. destruct l as [|j l]; [by apply (scalar_reads (JArr []))|]. rewrite dumps_indented_arr.
  pose proof (array_text _ _ _ (skip_break (S level)) (skip_break (S level)) (skip_break level) (λ s _, stops_break level s)
    (map (λ j, (dumps_indented (S level) j, sort_keys j)) (j :: l)) ltac:(done)) as H.
  rewrite !map_map in H. by apply H, Forall_map.
Qed.

Lemma entries_value level fields :
  sort_keys (JObj fields) = JObj (map entry_value (entries_of level fields)).
Proof.
  change (sort_keys (JObj fields)) with (JObj (sorted_members (map (λ kv, (kv.1, sort_keys kv.2)) fields))).
  f_equal. unfold entries_of. rewrite (sorted_members_map sort_keys).
  by rewrite (sorted_members_map (λ v, (dumps_indented level v, sort_keys v))), map_map.
Qed.
Lemma entries_nonempty level kv fields : entries_of level (kv :: fields) ≠ [].
Proof. intros E. apply (f_equal length) in E. unfold entries_of, sorted_members in E. by rewrite py_sorted_perm in E. Qed.
Lemma object_reads level fields :
  Forall (λ kv, text_ok kv.1 = true ∧ reads_as (dumps_indented (S level) kv.2) (sort_keys kv.2)) fields →
  reads_as (dumps_indented level (JObj fields)) (sort_keys (JObj fields)).
Proof.
  intros Hl. destruct fields as [|kv fields]; [by apply (scalar_reads (JObj []))|]. rewrite dumps_indented_obj, (entries_value (S level)).
  apply (object_text _ _ _ (skip_break (S level)) (skip_break (S level)) (skip_break level) (λ s _, stops_break level s)
    (entries_of (S level) (kv :: fields)) (entries_nonempty (S level) kv fields)).
  apply Forall_forall. intros e (kv' & -> & Hk)%sorted_members_elem%list_elem_of_fmap.
  by apply (proj1 (Forall_forall _ _) Hl kv').
Qed.

Lemma indented_reads j level : portable j = true → reads_as (dumps_indented level j) (sort_keys j).
Proof.
  revert level. induction j as [|b|z|x|s|l IH|fields IH] using json_nested; intros level Hp;
    try (by apply (scalar_reads _ Hp)).
  - apply array_reads, Forall_forall. intros j Hj. apply (proj1 (Forall_forall _ _) IH j Hj).
    exact (proj1 (forallb_elem _ _) Hp j Hj).
  - apply object_reads, Forall_forall. intros kv Hkv. pose proof (proj1 (forallb_elem _ _) Hp kv Hkv) as [H1 H2]%andb_true_iff.
    split; [done|]. by apply (proj1 (Forall_forall _ _) IH kv).
Qed.

(** The text written with an indent, and a line feed after it, reads back. *)
Lemma loads_indented j : portable j = true → loads_text (dumps_indented 0 j +:+ newline) = inr (sort_keys j).
Proof.
  intros Hp. destruct (indented_reads j 0 Hp) as [Hh Hr]. unfold loads_text. rewrite skip_head by (by apply value_head_app).
  rewrite Hr; [done| |done]. rewrite length_app_str. lia.
Qed.

(** That text is ASCII. *)
Lemma spaces_ascii n : ascii_text (spaces n) = true.
Proof. by induction n. Qed.
Lemma break_ascii n : ascii_text (break_at n) = true.
Proof. unfold break_at. by rewrite ascii_text_app, spaces_ascii. Qed.
Lemma indented_ascii j level : portable j = true → ascii_text (dumps_indented level j) = true.
Proof.
  revert level. induction j as [|b|z|x|s|l IH|fields IH] using json_nested; intros level Hp;
    try (by apply (dumps_ascii _ Hp)).
  - destruct l as [|j l]; [done|]. rewrite dumps_indented_arr, !ascii_text_app, !break_ascii, andb_true_r. cbn [andb].
    apply ascii_text_join; [by rewrite ascii_text_app, break_ascii|]. intros s (k & -> & Hk)%list_elem_of_fmap.
    by apply (proj1 (Forall_forall _ _) IH), (proj1 (forallb_elem _ _) Hp).
  - destruct fields as [|kv fields]; [done|]. rewrite dumps_indented_obj, !ascii_text_app, !break_ascii, andb_true_r. cbn [andb].
    apply ascii_text_join; [by rewrite ascii_text_app, break_ascii|].
    intros s (e & -> & (kv' & -> & Hk)%sorted_members_elem%list_elem_of_fmap)%list_elem_of_fmap.
    pose proof (proj1 (forallb_elem _ _) Hp kv' Hk) as [H1 H2]%andb_true_iff.
    unfold entry_text. simpl. change (?a ++ ?b)%string with (a +:+ b).
    rewrite !ascii_text_app, quoted_ascii by done. by apply (proj1 (Forall_forall _ _) IH).
Qed.
