(* ===== verification/Csv.v ===== *)
(** Texts and CSV files: [str.splitlines], the substring test, universal
    newlines, the writer of the [csv] module with [lineterminator="\n"], its
    reader and [DictReader], and that the reader inverts the writer.  The
    reader is modelled without its limit on the size of a field. *)
From S2P Require Import Prelude PyStr Json JsonParse JsonRoundTrip.
Local Open Scope py_scope.

(** ** Text *)

Definition lf : string := String (ascii_of_N 10) "".
Definition cr : string := String (ascii_of_N 13) "".
(** The characters at which [str.splitlines] breaks, as UTF-8. *)
Definition line_breaks : list string := map bytes_str [
  [10]; [11]; [12]; [13]; [28]; [29]; [30]; [194; 133]; [226; 128; 168]; [226; 128; 169] ]%N.
Definition is_break (c : string) : bool := existsb (String.eqb c) line_breaks.
Definition extend_first (c : string) (l : list string) : list string :=
  match l with w :: ws => (c +:+ w) :: ws | [] => [c] end.
Fixpoint break_lines (l : list string) : list string :=
  match l with
  | [] => []
  | c :: rest =>
      if String.eqb c cr then
        match rest with
        | d :: rest' => if String.eqb d lf then "" :: break_lines rest' else "" :: break_lines rest
        | [] => [""]
        end
      else if is_break c then "" :: break_lines rest
      else extend_first c (break_lines rest)
  end.
(** [text.splitlines()] *)
Definition splitlines (text : string) : list string := break_lines (chars text).

(** A text of terminated lines. *)
Definition unbroken (line : string) : bool := forallb (λ c, negb (is_break c)) (chars line).
Lemma break_line l rest : forallb (λ c, negb (is_break c)) l = true →
  break_lines (l ++ lf :: rest) = join_chars l :: break_lines rest.
Proof.
  induction l as [|c l IH]; [done|]. cbn [forallb]. intros [Hc%negb_true_iff Hl]%andb_true_iff. cbn [app break_lines].
  destruct (String.eqb_spec c cr) as [->|_]; [by vm_compute in Hc|]. by rewrite Hc, (IH Hl).
Qed.
Lemma splitlines_lines lines :
  Forall (λ l, unbroken l = true ∧ starts_cont l = false) lines → splitlines (join_chars (map (λ l, l +:+ lf) lines)) = lines.
Proof.
  unfold splitlines. induction 1 as [|l lines [Hl Hs] Hls IH]; [done|].
  change (join_chars (map _ (l :: lines))) with ((l +:+ lf) +:+ join_chars (map (λ l, l +:+ lf) lines)).
  assert (Hrest : starts_cont (join_chars (map (λ l, l +:+ lf) lines)) = false)
    by (destruct Hls as [|[|c k] ls [_ Hk]]; done).
  rewrite app_assoc_str, chars_app by done. change (lf +:+ ?x) with (String (ascii_of_N 10) x).
  change (chars (String (ascii_of_N 10) ?x)) with (chars (lf +:+ x)). rewrite chars_app by done.
  change (chars lf) with [lf]. cbn [app]. by rewrite break_line, join_chars_chars, IH.
Qed.

(** [sub in s] *)
Fixpoint occurs (sub s : string) : bool :=
  String.prefix sub s || match s with String _ s' => occurs sub s' | EmptyString => false end.
(** [Path.read_text]: every line end becomes a line feed. *)
Fixpoint universal_newlines (s : string) : string :=
  match s with
  | EmptyString => EmptyString
  | String c s' =>
      if (N_of_ascii c =? 13)%N
      then match s' with
           | String d s'' => if (N_of_ascii d =? 10)%N then String d (universal_newlines s'')
                             else String (ascii_of_N 10) (universal_newlines s')
           | EmptyString => lf
           end
      else String c (universal_newlines s')
  end.
Fixpoint count_char (c : ascii) (s : string) : Z :=
  match s with String d s' => (if Ascii.eqb c d then 1 else 0) + count_char c s' | EmptyString => 0 end.

(** [x in l] *)
Definition member (x : string) (l : list string) : bool := existsb (String.eqb x) l.
Lemma member_elem x l : member x l = true ↔ x ∈ l.
Proof.
  unfold member. rewrite existsb_exists. split; [intros (y & Hy & <-%String.eqb_eq)|intros Hx; exists x]; rewrite ?list_elem_of_In in *.
  - done.
  - split; [done|apply String.eqb_refl].
Qed.
Lemma member_false x l : member x l = false ↔ x ∉ l.
Proof. rewrite <- member_elem. by destruct (member x l). Qed.

Lemma prefix_split p s : String.prefix p s = true ↔ ∃ b, s = p +:+ b.
Proof.
  split; [|intros [b ->]; apply prefix_app]. revert s. induction p as [|c p IH]; intros s H; [by exists s|].
  destruct s as [|d s]; [done|]. simpl in H. destruct (ascii_dec c d) as [->|]; [|done]. destruct (IH s H) as [b ->]. by exists b.
Qed.
Lemma occurs_split sub s : occurs sub s = true ↔ ∃ a b, s = a +:+ sub +:+ b.
Proof.
  split.
  - induction s as [|c s IH]; cbn [occurs]; rewrite orb_true_iff, prefix_split.
    + intros [[b ->]|]; [by exists "", b|done].
    + intros [[b ->]|H]; [by exists "", b|]. destruct (IH H) as (a & b & ->). by exists (String c a), b.
  - intros (a & b & ->). induction a as [|c a IH].
    + change ("" +:+ ?x) with x. destruct (sub +:+ b) eqn:E; cbn [occurs]; rewrite <- E, prefix_app; done.
    + change (String c a +:+ ?x) with (String c (a +:+ x)). cbn [occurs]. by rewrite IH, orb_true_r.
Qed.

(** ** Writing *)

(** [csv.writer(..., lineterminator="\n")] with minimal quoting. *)
Definition special (c : ascii) : bool :=
  existsb (Ascii.eqb c) (map ascii_of_N [44; 34; 10; 13]%N).
Fixpoint any_ascii (p : ascii → bool) (s : string) : bool :=
  match s with String c s' => p c || any_ascii p s' | EmptyString => false end.
Fixpoint double_quotes (s : string) : string :=
  match s with
  | EmptyString => EmptyString
  | String c s' => if (N_of_ascii c =? 34)%N then String c (String c (double_quotes s')) else String c (double_quotes s')
  end.
Definition csv_field (s : string) : string :=
  if any_ascii special s then quote +:+ double_quotes s +:+ quote else s.
Definition csv_row (fields : list string) : string :=
  join "," (map csv_field fields) +:+ String (ascii_of_N 10) "".

(** ** Reading *)

(** [csv.reader] on a whole text: the state of the reader, the field and the
    record read so far. *)
Inductive CsvState := StartRecord | AfterCr | StartField | InField | InQuoted | QuoteInQuoted.
Definition record_end (n : N) : CsvState := if (n =? 13)%N then AfterCr else StartRecord.
Fixpoint csv_read (st : CsvState) (field : string) (row : list string) (s : string) : list (list string) :=
  match s with
  | EmptyString => match st with StartRecord | AfterCr => [] | _ => [row ++ [field]] end
  | String c s' =>
      let n := N_of_ascii c in
      let added := field +:+ String c "" in
      let eol := (n =? 10)%N || (n =? 13)%N in
      match st with
      | InQuoted => if (n =? 34)%N then csv_read QuoteInQuoted field row s' else csv_read InQuoted added row s'
      | InField | QuoteInQuoted =>
          if eol then (row ++ [field]) :: csv_read (record_end n) "" [] s'
          else if (n =? 44)%N then csv_read StartField "" (row ++ [field]) s'
          else if (n =? 34)%N && (match st with QuoteInQuoted => true | _ => false end)
          then csv_read InQuoted added row s'
          else csv_read InField added row s'
      | StartField =>
          if eol then (row ++ [field]) :: csv_read (record_end n) "" [] s'
          else if (n =? 34)%N then csv_read InQuoted field row s'
          else if (n =? 44)%N then csv_read StartField "" (row ++ [field]) s'
          else csv_read InField added row s'
      | StartRecord | AfterCr =>
          if (n =? 10)%N && (match st with AfterCr => true | _ => false end) then csv_read StartRecord "" [] s'
          else if eol then [] :: csv_read (record_end n) "" [] s'
          else if (n =? 34)%N then csv_read InQuoted field row s'
          else if (n =? 44)%N then csv_read StartField "" (row ++ [field]) s'
          else csv_read InField added row s'
      end
  end.
Definition csv_records (text : string) : list (list string) := csv_read StartRecord "" [] text.

(** [csv.DictReader]: the header and the records that are not empty. *)
Definition dict_reader (text : string) : list string * list (list string) :=
  match csv_records text with
  | header :: rows => (header, List.filter (λ r, negb (bool_decide (r = []))) rows)
  | [] => ([], [])
  end.
(** [row[key]]: the last column of that name, [None] past the end of the record. *)
Fixpoint cell (key : string) (header row : list string) : option (option string) :=
  match header with
  | [] => None
  | h :: header =>
      match cell key header (tl row) with
      | Some v => Some v
      | None => if String.eqb h key then Some (head row) else None
      end
  end.
(** ** The reader inverts the writer *)

(** What may follow a field of a record: a comma, or the end of the line. *)
Lemma csv_plain f tail row field st :
  st = InField ∨ st = StartField → any_ascii special f = false → f ≠ "" →
  csv_read st field row (f +:+ tail) = csv_read InField (field +:+ f) row tail.
Proof.
  revert st field. induction f as [|c f IH]; [done|]. intros st field Hst Hf _. simpl in Hf.
  apply orb_false_iff in Hf as [Hc Hf].
  assert (Hn : (N_of_ascii c =? 10)%N = false ∧ (N_of_ascii c =? 13)%N = false ∧ (N_of_ascii c =? 34)%N = false
    ∧ (N_of_ascii c =? 44)%N = false) by (destruct c as [[] [] [] [] [] [] [] []]; by vm_compute).
  destruct Hn as (H1 & H2 & H3 & H4). change (String c f +:+ tail) with (String c (f +:+ tail)).
  assert (Hstep : csv_read st field row (String c (f +:+ tail)) = csv_read InField (field +:+ String c "") row (f +:+ tail)).
  { cbn [csv_read]. rewrite H1, H2, H3, H4. by destruct Hst as [->| ->]. }
  rewrite Hstep. destruct f as [|d f]; [done|]. rewrite IH by (auto || done). by rewrite app_assoc_str.
Qed.
Lemma csv_quoted f tail row field :
  csv_read InQuoted field row (double_quotes f +:+ quote +:+ tail) = csv_read QuoteInQuoted (field +:+ f) row tail.
Proof.
  revert field. induction f as [|c f IH]; intros field; [by rewrite app_nil_r_str|].
  cbn [double_quotes]. destruct (N_of_ascii c =? 34)%N eqn:Hc.
  - change (String c (String c ?x) +:+ ?y) with (String c (String c (x +:+ y))). cbn [csv_read]. rewrite Hc.
    apply N.eqb_eq in Hc. rewrite Hc. cbn [N.eqb Pos.eqb orb andb]. rewrite IH. by rewrite app_assoc_str.
  - change (String c ?x +:+ ?y) with (String c (x +:+ y)). cbn [csv_read]. rewrite Hc, IH. by rewrite app_assoc_str.
Qed.

Lemma csv_field_reads f tail row :
  ∃ st, (st = InField ∨ st = StartField ∨ st = QuoteInQuoted)
    ∧ csv_read StartField "" row (csv_field f +:+ tail) = csv_read st f row tail.
Proof.
  unfold csv_field. destruct (any_ascii special f) eqn:Hf.
  - exists QuoteInQuoted. split; [auto|]. rewrite !app_assoc_str.
    change (quote +:+ double_quotes f +:+ quote +:+ tail) with (String (ascii_of_N 34) (double_quotes f +:+ quote +:+ tail)).
    change (csv_read StartField "" row (String (ascii_of_N 34) ?x)) with (csv_read InQuoted "" row x). apply csv_quoted.
  - destruct f as [|c f]; [exists StartField; auto|]. exists InField. split; [auto|]. by apply csv_plain; [right| |].
Qed.
Lemma csv_field_comma f t row :
  csv_read StartField "" row (csv_field f +:+ "," +:+ t) = csv_read StartField "" (row ++ [f]) t.
Proof. destruct (csv_field_reads f ("," +:+ t) row) as (st & Hst & ->). by destruct Hst as [->|[->| ->]]. Qed.
Lemma csv_field_end f t row :
  csv_read StartField "" row (csv_field f +:+ lf +:+ t) = (row ++ [f]) :: csv_records t.
Proof. destruct (csv_field_reads f (lf +:+ t) row) as (st & Hst & ->). by destruct Hst as [->|[->| ->]]. Qed.
Lemma csv_first_field f t :
  csv_read StartRecord "" [] (csv_field f +:+ "," +:+ t) = csv_read StartField "" [] (csv_field f +:+ "," +:+ t).
Proof.
  unfold csv_field. destruct (any_ascii special f) eqn:Hf; [done|]. destruct f as [|c f]; [done|].
  simpl in Hf. apply orb_false_iff in Hf as [Hc _].
  assert (Hn : (N_of_ascii c =? 10)%N = false ∧ (N_of_ascii c =? 13)%N = false)
    by (destruct c as [[] [] [] [] [] [] [] []]; by vm_compute).
  change (String c f +:+ ?x) with (String c (f +:+ x)). cbn [csv_read]. by destruct Hn as [-> ->].
Qed.

Lemma csv_cells_read cells f row t :
  csv_read StartField "" row (join "," (map csv_field (f :: cells)) +:+ lf +:+ t) = (row ++ f :: cells) :: csv_records t.
Proof.
  revert f row. induction cells as [|g cells IH]; intros f row; [apply csv_field_end|].
  change (join "," (map csv_field (f :: g :: cells))) with (csv_field f +:+ "," +:+ join "," (map csv_field (g :: cells))).
  rewrite !app_assoc_str, csv_field_comma, IH. by rewrite <- app_assoc.
Qed.
Lemma csv_row_reads f g cells t : csv_records (csv_row (f :: g :: cells) +:+ t) = (f :: g :: cells) :: csv_records t.
Proof.
  unfold csv_records at 1, csv_row. rewrite app_assoc_str. change (String _ "" +:+ t) with (lf +:+ t).
  change (join "," (map csv_field (f :: g :: cells))) with (csv_field f +:+ "," +:+ join "," (map csv_field (g :: cells))).
  rewrite !app_assoc_str, csv_first_field, csv_field_comma. apply csv_cells_read.
Qed.
(** A text of written rows reads back as its rows. *)
Lemma csv_rows_read rows :
  Forall (λ r, (2 ≤ length r)%nat) rows → csv_records (join_chars (map csv_row rows)) = rows.
Proof.
  induction 1 as [|r rows Hr _ IH]; [done|]. destruct r as [|f [|g cells]]; simpl in Hr; [lia..|].
  change (join_chars (map csv_row (?h :: ?l))) with (csv_row h +:+ join_chars (map csv_row l)).
  by rewrite csv_row_reads, IH.
Qed.

Lemma universal_plain s : contains_char (ascii_of_N 13) s = false → universal_newlines s = s.
Proof.
  induction s as [|c s IH]; [done|]. cbn [contains_char universal_newlines]. rewrite orb_false_iff. intros [Hc Hs].
  destruct (N.eqb_spec (N_of_ascii c) 13) as [E|_]; [|by rewrite IH].
  rewrite <- E, ascii_N_embedding, Ascii.eqb_refl in Hc. done.
Qed.

