(* ===== verification/JsonValues.v ===== *)
(** Parsed JSON values used as Python values: [int], [float], iteration and dicts.
    [int] and [float] of text are parameters. *)
From S2P Require Import Prelude PyStr Float64 Json JsonParse.
Local Open Scope py_scope.

(** [int(value)] *)
Definition to_int (int_of_str : string → result Z) (j : json) : result Z :=
  match j with
  | JInt z => Ok z
  | JBool b => Ok (if b then 1 else 0)
  | JFloat x => py_int x
  | JStr s => int_of_str s
  | _ => Raise TypeError
  end.
(** [float(value)] *)
Definition float_of_Z (z : Z) : result float :=
  let x := of_int z in if is_finite x then Ok x else Raise OverflowError.
Definition to_float (float_of_str : string → result float) (j : json) : result float :=
  match j with
  | JInt z => float_of_Z z
  | JBool b => Ok (of_int (if b then 1 else 0))
  | JFloat x => Ok x
  | JStr s => float_of_str s
  | _ => Raise TypeError
  end.
(** [for item in value]: items, characters or keys. *)
Definition dict_keys (fields : list (string * json)) : list string :=
  fold_left (λ ks kv, if existsb (String.eqb kv.1) ks then ks else ks ++ [kv.1]) fields [].
Definition iterate (j : json) : result (list json) :=
  match j with
  | JArr l => Ok l
  | JStr s => Ok (map JStr (chars s))
  | JObj fields => Ok (map JStr (dict_keys fields))
  | _ => Raise TypeError
  end.

(** ** Objects as dicts *)

(** A dict keeps the place of a key's first value and its last value. *)
Fixpoint set_key {A} (key : string) (value : A) (d : list (string * A)) : list (string * A) :=
  match d with
  | [] => [(key, value)]
  | (k, v) :: d => if String.eqb k key then (k, value) :: d else (k, v) :: set_key key value d
  end.
Fixpoint canonical (j : json) : json :=
  match j with
  | JArr l => JArr (map canonical l)
  | JObj fields => JObj (fold_left (λ d kv, set_key kv.1 kv.2 d) (map (λ kv, (kv.1, canonical kv.2)) fields) [])
  | _ => j
  end.

Definition items (j : json) : result (list (string * json)) :=
  match j with JObj fields => Ok fields | _ => Raise AttributeError end.
Definition entries (key : string) (j : json) : result (list json) := v ← subscript key j; iterate v.
Definition enumerate {A} (l : list A) : list (Z * A) := zip (seqZ 0 (Z.of_nat (length l))) l.
(** [str(j[key])] and [float(j[key])] *)
Definition text_field (str_container : json → string) (key : string) (j : json) : result string :=
  v ← subscript key j; mret (py_str str_container v).
Definition float_field (float_of_str : string → result float) (key : string) (j : json) : result float :=
  v ← subscript key j; to_float float_of_str v.

(** [json.loads(text)] *)
Definition parse_json (text : string) : result json :=
  match loads_text text with
  | inr j => Ok (canonical j)
  | inl NotJson => Raise (ValueError "JSONDecodeError")
  | inl (DigitLimit n) => Raise (ValueError (digit_limit_message n))
  end.
