(* ===== verification/Files.v ===== *)
(** Paths and files.  A file system is a map from paths to contents and the
    set of its directories; [resolve] follows links and [..].  Text files are
    UTF-8. *)
From Stdlib Require Import Wf_nat.
From S2P Require Import Prelude PyStr JsonParse JsonRoundTrip Csv.

(** ** Paths *)

Definition path := list string.
(** [base / text] *)
Definition path_parts (text : string) : path :=
  List.filter (λ p, negb (String.eqb p "") && negb (String.eqb p ".")) (split_on "/" text).
Definition path_of (base : path) (text : string) : path :=
  if startswith "/" text then path_parts text else base ++ path_parts text.
(** [candidate.is_relative_to(root)] and [candidate.relative_to(root)] *)
Fixpoint relative_to (root candidate : path) : option path :=
  match root, candidate with
  | [], _ => Some candidate
  | r :: root, c :: candidate => if String.eqb r c then relative_to root candidate else None
  | _ :: _, [] => None
  end.
Definition is_relative_to (root candidate : path) : bool := bool_decide (is_Some (relative_to root candidate)).
Lemma relative_to_app root l : relative_to root (root ++ l) = Some l.
Proof. induction root as [|r p IH]; [done|]. cbn [app relative_to]. by rewrite String.eqb_refl. Qed.
Lemma relative_to_spec root p l : relative_to root p = Some l ↔ p = root ++ l.
Proof.
  split; [|intros ->; apply relative_to_app]. revert p. induction root as [|r root IH]; intros p; [by intros [= ->]|].
  destruct p as [|c p]; [done|]. cbn [relative_to]. destruct (String.eqb_spec r c) as [->|]; [|done].
  intros H. by rewrite (IH _ H).
Qed.

(** Paths compare by their parts. *)
Fixpoint path_ltb (p q : path) : bool :=
  match p, q with
  | [], _ :: _ => true
  | a :: p, b :: q => String.ltb a b || String.eqb a b && path_ltb p q
  | _, [] => false
  end.

Record FS := { files : gmap path string; dirs : gset path }.

(** ** File operations *)

Section Files.
Context (resolve : path → path).

Definition is_dir (fs : FS) (p : path) : bool := bool_decide (resolve p ∈ dirs fs).
Definition is_file (fs : FS) (p : path) : bool := bool_decide (is_Some (files fs !! resolve p)).
Definition write_file (p : path) (content : string) (fs : FS) : result FS :=
  Ok {| files := <[resolve p := content]> (files fs); dirs := dirs fs |}.
Definition read_file (p : path) (fs : FS) : result string :=
  match files fs !! resolve p with Some c => Ok c | None => Raise (OSError "No such file or directory") end.
(** [os.replace(source, target)] *)
Definition replace_file (source target : path) (fs : FS) : result FS :=
  content ← read_file source fs;
  mret {| files := <[resolve target := content]> (delete (resolve source) (files fs)); dirs := dirs fs |}.
(** The non-empty prefixes of a path, itself included. *)
Fixpoint ancestors (p : path) : list path :=
  match p with [] => [] | c :: p => [c] :: map (cons c) (ancestors p) end.
(** [directory.mkdir(parents=True, exist_ok=False)] *)
Definition mkdir (directory : path) (fs : FS) : result FS :=
  if is_dir fs directory || is_file fs directory then Raise FileExistsError
  else if existsb (is_file fs) (ancestors directory) then Raise (OSError "Not a directory")
  else Ok {| files := files fs; dirs := list_to_set (map resolve (ancestors directory)) ∪ dirs fs |}.
(** [p.exists()] *)
Definition exists_path (p : path) (fs : FS) : bool := is_file fs p || is_dir fs p.
End Files.

(** [str(path.relative_to(root))] *)
Definition relative_text (root p : path) : result string :=
  match relative_to root p with
  | Some [] => Ok "."
  | Some parts => Ok (join "/" parts)
  | None => Raise (ValueError "the path is not in the subpath of the root")
  end.
(** The digest of a file's content. *)
Definition checksum (sha256 : string → string) (resolve : path → path) (p : path) (fs : FS) : result string :=
  content ← read_file resolve p fs; mret (sha256 content).

(** ** Text *)

(** Strict UTF-8: no surrogate (a byte 237 followed by 160 or more). *)
Fixpoint no_surrogate (l : list N) : bool :=
  match l with
  | a :: (b :: _) as l => negb ((a =? 237)%N && (160 <=? b)%N) && no_surrogate l
  | _ => true
  end.
Definition strict_utf8 (s : string) : bool :=
  let l := map N_of_ascii (String.list_ascii_of_string s) in utf8_ok l && no_surrogate l.

(** [p.read_text(encoding="utf-8")] *)
Definition read_text (resolve : path → path) (decode_error : string → string) (p : path) (fs : FS) : result string :=
  content ← read_file resolve p fs;
  if strict_utf8 content then Ok (universal_newlines content) else Raise (ValueError (decode_error content)).

(** [bytes.decode("utf-8", errors="replace")]: U+FFFD for every longest start
    of a character that is not completed. *)
Fixpoint replace_bytes (l : list N) : list N :=
  let mark := [239; 191; 189]%N in
  let cont b := ((128 <=? b) && (b <? 192))%N in
  let second a b := cont b && (negb (a =? 224) || (160 <=? b))%N && (negb (a =? 237) || (b <? 160))%N
                    && (negb (a =? 240) || (144 <=? b))%N && (negb (a =? 244) || (b <? 144))%N in
  match l with
  | [] => []
  | a :: l1 =>
      if (a <? 128)%N then a :: replace_bytes l1
      else if negb ((194 <=? a) && (a <? 245))%N then mark ++ replace_bytes l1
      else match l1 with
           | [] => mark
           | b :: l2 =>
               if negb (second a b) then mark ++ replace_bytes l1
               else if (a <? 224)%N then a :: b :: replace_bytes l2
               else match l2 with
                    | [] => mark
                    | c :: l3 =>
                        if negb (cont c) then mark ++ replace_bytes l2
                        else if (a <? 240)%N then a :: b :: c :: replace_bytes l3
                        else match l3 with
                             | [] => mark
                             | d :: l4 =>
                                 if negb (cont d) then mark ++ replace_bytes l3 else a :: b :: c :: d :: replace_bytes l4
                             end
                    end
           end
  end.
Definition decode_replace (s : string) : string :=
  bytes_str (replace_bytes (map N_of_ascii (String.list_ascii_of_string s))).
(** [p.read_text(encoding="utf-8", errors="replace")] *)
Definition read_replaced (resolve : path → path) (p : path) (fs : FS) : result string :=
  content ← read_file resolve p fs; mret (universal_newlines (decode_replace content)).

(** Texts are put together from texts. *)
Definition text_bytes (s : string) : list N := map N_of_ascii (String.list_ascii_of_string s).

(** The first character of well-formed bytes, and the rest. *)
Lemma utf8_ok_step l : utf8_ok l = true → l ≠ [] →
  ∃ c r x, l = c ++ r ∧ last c = Some x ∧ (x < 192)%N ∧ utf8_ok r = true ∧ ∀ t, utf8_ok (c ++ t) = utf8_ok t.
Proof.
  assert (Hcont : ∀ b, ((128 <=? b) && (b <? 192))%N = true → (b < 192)%N) by (intros b [_ Hb%N.ltb_lt]%andb_true_iff; done).
  destruct l as [|a l1]; [done|]. intros H _. cbn [utf8_ok] in H. destruct (a <? 128)%N eqn:Ha.
  { exists [a], l1, a. split_and!; [done|done|apply N.ltb_lt in Ha; lia|done|]. intros t. cbn [app utf8_ok]. by rewrite Ha. }
  destruct l1 as [|b l2]; [done|]. destruct ((194 <=? a)%N && (a <? 224)%N) eqn:H2.
  { apply andb_true_iff in H as [Hb Hr]. exists [a; b], l2, b.
    split_and!; [done|done|by apply Hcont|done|]. intros t. cbn [app utf8_ok]. by rewrite Ha, H2, Hb. }
  destruct l2 as [|c l3]; [done|]. destruct ((224 <=? a)%N && (a <? 240)%N) eqn:H3.
  { apply andb_true_iff in H as [[[Hb Hc]%andb_true_iff Hd]%andb_true_iff Hr]. exists [a; b; c], l3, c.
    split_and!; [done|done|by apply Hcont|done|]. intros t. cbn [app utf8_ok]. by rewrite Ha, H2, H3, Hb, Hc, Hd. }
  destruct l3 as [|d l4]; [done|].
  apply andb_true_iff in H as [[[[[[[H4 H5]%andb_true_iff Hb]%andb_true_iff Hc]%andb_true_iff Hd]%andb_true_iff
    H6]%andb_true_iff H7]%andb_true_iff Hr].
  exists [a; b; c; d], l4, d. split_and!; [done|done|by apply Hcont|done|].
  intros t. cbn [app utf8_ok]. by rewrite Ha, H2, H3, H4, H5, Hb, Hc, Hd, H6, H7.
Qed.
Lemma utf8_ok_app a b : utf8_ok a = true → utf8_ok (a ++ b) = utf8_ok b ∧ ∀ x, last a = Some x → (x < 192)%N.
Proof.
  revert b. induction a as [a IH] using (induction_ltof1 _ length). intros b H. destruct a as [|x a].
  { split; [done|]. by intros x [=]. }
  destruct (utf8_ok_step _ H) as (c & r & y & E & Hl & Hy & Hr & Hc); [done|]. rewrite E.
  assert (Hlen : (length r < length (x :: a))%nat).
  { rewrite E, length_app. destruct c; [done|]. simpl. lia. }
  destruct (IH r Hlen b Hr) as [H1 H2]. split; [by rewrite <- app_assoc, Hc|].
  intros z Hz. rewrite last_app in Hz. destruct (last r) as [w|] eqn:Hw; [injection Hz as <-; by apply H2|].
  rewrite Hl in Hz. by injection Hz as <-.
Qed.
Lemma no_surrogate_app a b :
  (∀ x, last a = Some x → (x < 192)%N) → no_surrogate a = true → no_surrogate b = true → no_surrogate (a ++ b) = true.
Proof.
  intros Hx Ha Hb. induction a as [|x a IH]; [done|]. destruct a as [|y a].
  - cbn [app]. destruct b as [|y b]; [done|]. cbn [no_surrogate] in *.
    assert (x < 192)%N by (by apply Hx). by rewrite (proj2 (N.eqb_neq x 237)) by lia.
  - cbn [app no_surrogate] in *. apply andb_true_iff in Ha as [-> Ha]. apply IH; [|done]. intros z Hz. apply Hx.
    by rewrite last_cons_cons.
Qed.
Lemma text_bytes_app s t : text_bytes (s +:+ t) = text_bytes s ++ text_bytes t.
Proof.
  unfold text_bytes. induction s as [|c s IH]; [done|]. change (String c s +:+ t) with (String c (s +:+ t)). simpl. by rewrite IH.
Qed.
Lemma strict_utf8_app s t : strict_utf8 s = true → strict_utf8 t = true → strict_utf8 (s +:+ t) = true.
Proof.
  unfold strict_utf8. change (map N_of_ascii (String.list_ascii_of_string ?x)) with (text_bytes x).
  rewrite text_bytes_app, !andb_true_iff. intros [Hs1 Hs2] [Ht1 Ht2].
  destruct (utf8_ok_app (text_bytes s) (text_bytes t) Hs1) as [-> Hl]. split; [done|]. by apply no_surrogate_app.
Qed.
Lemma ascii_strict s : ascii_text s = true → strict_utf8 s = true.
Proof.
  intros Hs. unfold strict_utf8. rewrite (ascii_utf8 _ Hs). unfold ascii_text in Hs. cbn [andb].
  induction (String.list_ascii_of_string s) as [|c l IH]; [done|]. cbn [forallb map] in *. apply andb_true_iff in Hs as [Hc Hl].
  unfold ascii_char in Hc. destruct l as [|d l]; [done|]. cbn [map no_surrogate] in *.
  apply andb_true_iff in Hc as [_ Hc]. apply N.ltb_lt in Hc. rewrite (proj2 (N.eqb_neq _ 237)) by lia. by apply IH.
Qed.

(** Replacement changes nothing in a well-formed text. *)
Lemma surrogate_step c r : no_surrogate (c ++ r) = true → no_surrogate r = true.
Proof.
  induction c as [|a c IH]; [done|]. cbn [app]. intros H. apply IH. destruct (c ++ r); [done|].
  cbn [no_surrogate] in H. by apply andb_true_iff in H as [_ H].
Qed.
Ltac split_bools :=
  repeat match goal with
  | H : _ && _ = true |- _ => apply andb_true_iff in H as [? H]
  | H : (_ <=? _)%N = true |- _ => apply N.leb_le in H
  | H : (_ <? _)%N = true |- _ => apply N.ltb_lt in H
  | H : (_ <? _)%N = false |- _ => apply N.ltb_ge in H
  end.
Ltac decide_bytes :=
  repeat match goal with
  | |- context [(?x <? ?y)%N] =>
      first [rewrite (proj2 (N.ltb_lt x y)) by lia|rewrite (proj2 (N.ltb_ge x y)) by lia]
  | |- context [(?x <=? ?y)%N] =>
      first [rewrite (proj2 (N.leb_le x y)) by lia|rewrite (proj2 (N.leb_gt x y)) by lia]
  | |- context [(?x =? ?y)%N] => rewrite (proj2 (N.eqb_neq x y)) by lia
  end.
Lemma replace_well_formed l : utf8_ok l = true → no_surrogate l = true → replace_bytes l = l.
Proof.
  induction l as [l IH] using (induction_ltof1 _ length). unfold ltof in IH. destruct l as [|a l1]; [done|]. intros H Hn.
  cbn [utf8_ok] in H. cbn [replace_bytes]. pose proof (surrogate_step [a] l1 Hn) as Hn1.
  destruct (a <? 128)%N eqn:Ha; [by rewrite IH by (simpl; lia || done)|].
  destruct l1 as [|b l2]; [done|]. pose proof (surrogate_step [a; b] l2 Hn) as Hn2.
  assert (Hs : (a ≠ 237 ∨ b < 160)%N).
  { cbn [no_surrogate] in Hn. apply andb_true_iff in Hn as [Hs _]. apply negb_true_iff, andb_false_iff in Hs as [Hs|Hs];
      [left; by apply N.eqb_neq|right; by apply N.leb_gt]. }
  assert (Hs' : negb (a =? 237)%N || (b <? 160)%N = true).
  { destruct Hs as [Hs|Hs]; [by rewrite (proj2 (N.eqb_neq _ _) Hs)|]. by rewrite (proj2 (N.ltb_lt _ _) Hs), orb_true_r. }
  destruct ((194 <=? a)%N && (a <? 224)%N) eqn:H2.
  { apply andb_true_iff in H as [Hb Hr]. rewrite Hb. split_bools. decide_bytes. cbn. by rewrite IH by (simpl; lia || done). }
  destruct l2 as [|c l3]; [done|]. pose proof (surrogate_step [a; b; c] l3 Hn) as Hn3.
  destruct ((224 <=? a)%N && (a <? 240)%N) eqn:H3.
  { apply andb_true_iff in H as [[[Hb Hc]%andb_true_iff H160]%andb_true_iff Hr]. rewrite Hb, Hc, H160, Hs'. split_bools.
    decide_bytes. cbn. by rewrite IH by (simpl; lia || done). }
  destruct l3 as [|d l4]; [done|]. pose proof (surrogate_step [a; b; c; d] l4 Hn) as Hn4.
  apply andb_true_iff in H as [[[[[[[H4 H5]%andb_true_iff Hb]%andb_true_iff Hc]%andb_true_iff Hd]%andb_true_iff
    H6]%andb_true_iff H7]%andb_true_iff Hr].
  rewrite Hb, Hc, Hd, H6, H7, Hs'. split_bools. decide_bytes. cbn. by rewrite IH by (simpl; lia || done).
Qed.
Lemma bytes_text_str s : bytes_str (map N_of_ascii (String.list_ascii_of_string s)) = s.
Proof.
  induction s as [|c s IH]; [done|]. simpl. unfold byte_chr. rewrite ascii_N_embedding. by f_equal.
Qed.
Lemma decode_replace_strict s : strict_utf8 s = true → decode_replace s = s.
Proof. intros [H1 H2]%andb_true_iff. unfold decode_replace. rewrite replace_well_formed by done. apply bytes_text_str. Qed.
Lemma read_text_replaced resolve decode_error p fs text :
  read_text resolve decode_error p fs = Ok text → read_replaced resolve p fs = Ok text.
Proof.
  unfold read_text, read_replaced, mbind, result_bind. destruct (read_file resolve p fs) as [c|]; [|done].
  destruct (strict_utf8 c) eqn:Hc; [|done]. by rewrite decode_replace_strict.
Qed.

(** ** Writing *)

(** A computation that only reads the files. *)
Definition reading {A} (f : FS → result A) : M FS A := λ fs, (f fs, fs).

Section Writing.
Context (encode_error : string → string) (resolve : path → path).

Definition parent (p : path) : path := removelast p.
(** [directory.mkdir(parents=True, exist_ok=True)] *)
Definition make_dirs (directory : path) : M FS () := λ fs,
  if is_file resolve fs directory then (Raise FileExistsError, fs)
  else if existsb (is_file resolve fs) (ancestors directory) then (Raise (OSError "Not a directory"), fs)
  else (Ok (), {| files := files fs; dirs := list_to_set (map resolve (ancestors directory)) ∪ dirs fs |}).
(** [open(p, "w")] *)
Definition open_writing (p : path) : M FS () := λ fs,
  if is_dir resolve fs p then (Raise (OSError "Is a directory"), fs)
  else if negb (is_dir resolve fs (parent p)) then (Raise (OSError "No such file or directory"), fs)
  else (Ok (), {| files := <[resolve p := ""]> (files fs); dirs := dirs fs |}).
(** [stream.write(text)] *)
Definition append_text (p : path) (text : string) : M FS () := λ fs,
  if strict_utf8 text
  then (Ok (), {| files := <[resolve p := default "" (files fs !! resolve p) +:+ text]> (files fs); dirs := dirs fs |})
  else (Raise (ValueError (encode_error text)), fs).
Definition write_text (p : path) (value : string) : M FS () :=
  make_dirs (parent p);; open_writing p;; append_text p value.

(** The content at a resolved path. *)
Definition holds (q : path) (v : option string) (fs : FS) : Prop := files fs !! q = v.

Lemma make_dirs_holds p q v : preserves (holds q v) (make_dirs p).
Proof. intros fs H. unfold make_dirs. destruct (is_file _ _ _); [done|]. by destruct (existsb _ _). Qed.
Lemma open_holds p q v : resolve p ≠ q → preserves (holds q v) (open_writing p).
Proof.
  intros Hp fs H. unfold open_writing. destruct (is_dir _ _ _); [done|]. destruct (negb _); [done|].
  unfold holds. simpl. by rewrite lookup_insert_ne.
Qed.
Lemma append_holds p t q v : resolve p ≠ q → preserves (holds q v) (append_text p t).
Proof.
  intros Hp fs H. unfold append_text. destruct (strict_utf8 t); [|done]. unfold holds. simpl. by rewrite lookup_insert_ne.
Qed.
Lemma write_holds p value q v : resolve p ≠ q → preserves (holds q v) (write_text p value).
Proof.
  intros Hp. unfold write_text. apply preserves_bind; [apply make_dirs_holds|intros _].
  apply preserves_bind; [by apply open_holds|intros _]. by apply append_holds.
Qed.
Lemma open_ok p fs a fs' : open_writing p fs = (Ok a, fs') → files fs' !! resolve p = Some "".
Proof.
  unfold open_writing. destruct (is_dir _ _ _); [done|]. destruct (negb _); [done|]. intros [= _ <-]. apply lookup_insert_eq.
Qed.
Lemma append_ok p t fs a fs' c :
  files fs !! resolve p = Some c → append_text p t fs = (Ok a, fs') →
  strict_utf8 t = true ∧ files fs' !! resolve p = Some (c +:+ t).
Proof.
  unfold append_text. intros Hc. destruct (strict_utf8 t); [|done]. intros [= _ <-]. split; [done|]. simpl.
  by rewrite Hc, lookup_insert_eq.
Qed.
Lemma write_ok p value fs a fs' :
  write_text p value fs = (Ok a, fs') → strict_utf8 value = true ∧ files fs' !! resolve p = Some value.
Proof.
  intros (u & fs1 & _ & H1)%bind_ok_inv. apply bind_ok_inv in H1 as (w & fs2 & Ho & Ha). apply open_ok in Ho.
  exact (append_ok _ _ _ _ _ _ Ho Ha).
Qed.
Lemma is_file_holds p fs c : files fs !! resolve p = Some c → is_file resolve fs p = true.
Proof. intros H. unfold is_file. rewrite H. by apply bool_decide_eq_true. Qed.
Lemma read_file_holds p fs c : files fs !! resolve p = Some c → read_file resolve p fs = Ok c.
Proof. intros H. unfold read_file. by rewrite H. Qed.

Lemma append_only p t fs a fs' q : append_text p t fs = (Ok a, fs') → resolve p ≠ q → files fs' !! q = files fs !! q.
Proof. intros H Hq. pose proof (append_holds p t q _ Hq fs eq_refl) as K. by rewrite H in K. Qed.
End Writing.
