(* ===== verification/PyTime.v ===== *)
(** [datetime] and [timedelta]: a wall clock in microseconds since 1970-01-01
    with an optional UTC offset (naive when absent), as the standard library
    compares, subtracts and converts them. *)
From S2P Require Import Prelude PyStr Float64.

Record datetime := { wall : Z; offset : option Z }.
#[export] Instance datetime_eq_dec : EqDecision datetime.
Proof. solve_decision. Defined.

(** The range of [datetime]: years 1 to 9999. *)
Definition min_wall : Z := -62135596800 * 1000000.
Definition max_wall : Z := 253402300799 * 1000000 + 999999.
Definition in_range (w : Z) : bool := (min_wall <=? w) && (w <=? max_wall).

(** An aware instant in UTC, the value [datetime.now(UTC)] returns. *)
Definition utc (t : Z) : datetime := {| wall := t; offset := Some 0 |}.

Definition seconds (n : Z) : Z := n * 1000000.
Definition hours (n : Z) : Z := seconds (n * 3600).
Definition days (n : Z) : Z := seconds (n * 86400).

(** The instant of an aware value, in microseconds. *)
Definition instant (d : datetime) (o : Z) : Z := wall d - o.

(** [a <= b], [a < b] and [a - b]: mixing a naive and an aware value is a
    [TypeError]. *)
Definition dt_sub (a b : datetime) : result Z :=
  match offset a, offset b with
  | Some oa, Some ob => Ok (instant a oa - instant b ob)
  | None, None => Ok (wall a - wall b)
  | _, _ => Raise TypeError
  end.
Definition dt_leb (a b : datetime) : result bool := d ← dt_sub a b; mret (d <=? 0).
Definition dt_ltb (a b : datetime) : result bool := d ← dt_sub a b; mret (d <? 0).

(** [a + timedelta]: out of the range of years is an [OverflowError]. *)
Definition dt_add (a : datetime) (delta : Z) : result datetime :=
  if in_range (wall a + delta)
  then Ok {| wall := wall a + delta; offset := offset a |} else Raise OverflowError.

(** [value.replace(tzinfo=UTC)] of a naive value and [value.astimezone(UTC)] of
    an aware one. *)
Definition replace_utc (a : datetime) : datetime := {| wall := wall a; offset := Some 0 |}.
Definition astimezone_utc (a : datetime) : result datetime :=
  match offset a with
  | Some o => if in_range (wall a - o) then Ok (utc (wall a - o)) else Raise OverflowError
  | None => Raise TypeError
  end.

(** [delta.total_seconds()] *)
Definition total_seconds (delta : Z) : float := int_div delta 1000000.

Lemma dt_sub_utc a b : dt_sub (utc a) (utc b) = Ok (a - b).
Proof. unfold dt_sub, instant; simpl. f_equal. lia. Qed.
Lemma dt_leb_utc a b : dt_leb (utc a) (utc b) = Ok (a <=? b).
Proof.
  unfold dt_leb. rewrite dt_sub_utc. unfold mbind, result_bind, mret, result_ret. f_equal.
  destruct (Z.leb_spec a b); [apply Z.leb_le|apply Z.leb_gt]; lia.
Qed.
Lemma dt_ltb_utc a b : dt_ltb (utc a) (utc b) = Ok (a <? b).
Proof.
  unfold dt_ltb. rewrite dt_sub_utc. unfold mbind, result_bind, mret, result_ret. f_equal.
  destruct (Z.ltb_spec a b); [apply Z.ltb_lt|apply Z.ltb_ge]; lia.
Qed.
Lemma dt_sub_aware a b oa ob :
  offset a = Some oa → offset b = Some ob → dt_sub a b = Ok ((wall a - oa) - (wall b - ob)).
Proof. intros Ha Hb. unfold dt_sub. by rewrite Ha, Hb. Qed.
Lemma dt_sub_mixed a b : is_Some (offset a) → offset b = None → dt_sub a b = Raise TypeError.
Proof. intros [o Ha] Hb. unfold dt_sub. by rewrite Ha, Hb. Qed.

(** ** ISO 8601 text *)

(** Gregorian date of a day number since 1970-01-01 (era arithmetic on years
    starting in March). *)
Definition civil (day : Z) : Z * Z * Z :=
  let z := day + 719468 in
  let era := z / 146097 in
  let doe := z mod 146097 in
  let yoe := (doe - doe / 1460 + doe / 36524 - doe / 146096) / 365 in
  let doy := doe - (365 * yoe + yoe / 4 - yoe / 100) in
  let mp := (5 * doy + 2) / 153 in
  let d := doy - (153 * mp + 2) / 5 + 1 in
  let m := if mp <? 10 then mp + 3 else mp - 9 in
  let y := yoe + era * 400 + (if m <=? 2 then 1 else 0) in
  (y, m, d).

Fixpoint pad_zeros (n : nat) (s : string) : string :=
  match n with O => s | S n => if (String.length s <=? n)%nat then String "0" (pad_zeros n s) else s end.
(** [f"{z:0{n}d}"] for [z >= 0] *)
Definition padded (n : nat) (z : Z) : string := pad_zeros n (str_of_Z z).

(** [value.isoformat()] of a naive value. *)
Definition iso_naive (w : Z) : string :=
  let micro := w mod 1000000 in
  let sec := (w / 1000000) mod 86400 in
  let '(y, m, d) := civil (w / 86400000000) in
  padded 4 y +:+ "-" +:+ padded 2 m +:+ "-" +:+ padded 2 d +:+ "T"
  +:+ padded 2 (sec / 3600) +:+ ":" +:+ padded 2 (sec / 60 mod 60) +:+ ":" +:+ padded 2 (sec mod 60)
  +:+ (if micro =? 0 then "" else "." +:+ padded 6 micro).
(** [datetime.now(UTC).isoformat().replace("+00:00", "Z")] at instant [t]. *)
Definition iso_z (t : Z) : string := iso_naive t +:+ "Z".

Example iso_examples :
  map iso_z [0; 1786435200000000; 951782399000001; 253402300799999999]
  = ["1970-01-01T00:00:00Z"; "2026-08-11T08:00:00Z"; "2000-02-28T23:59:59.000001Z"; "9999-12-31T23:59:59.999999Z"].
Proof. vm_compute. done. Qed.

(** [s.replace("Z", "+00:00")] *)
Fixpoint replace_z (s : string) : string :=
  match s with
  | EmptyString => EmptyString
  | String c s' => if Ascii.eqb c "Z" then "+00:00" +:+ replace_z s' else String c (replace_z s')
  end.
