(* ===== verification/Models.v ===== *)
(** The relational model of [services/api/app/models.py]: one record per mapped
    class, the column defaults, and the checks the database applies to a row
    (declared widths and lengths, uniqueness, foreign keys).

    A column filled from [utc_now()] is an instant in microseconds ([Z]); a
    column filled from a client value is a [datetime].  A table is the list of
    its rows in insertion order; nothing in the program deletes a row, so an
    autoincrement key is one more than the number of rows. *)
From S2P Require Import Prelude PyStr Float64 Json PyTime.

(** ** Rows *)

Record User := {
  u_id : Z; u_username : string; u_password_hash : string; u_role : string;
  u_active : bool; u_created_at : Z }.

Record Device := {
  d_id : string; d_site_id : string; d_display_name : string; d_asset_class : string;
  d_simulated : bool; d_firmware_version : option string; d_reported_status : string;
  d_last_seen_at : option Z; d_rssi_dbm : option Z; d_reset_reason : option string;
  d_reset_count : Z; d_queue_depth : Z; d_queue_capacity : Z; d_dropped_message_count : Z;
  d_modbus_status : string; d_active_faults : list string; d_created_at : Z }.

Record AnomalyModel := {
  m_id : Z; m_device_id : string; m_model_version : string; m_status : string;
  m_feature_schema : json; m_training_start : datetime; m_training_end : datetime;
  m_training_sample_count : Z; m_validation_sample_count : Z; m_contamination : float;
  m_random_seed : Z; m_sklearn_version : string; m_artifact_path : string;
  m_artifact_checksum : string; m_created_at : datetime; m_last_scored_at : option Z;
  m_diagnostic : option string }.

Record ThresholdConfig := {
  c_device_id : string;
  c_temperature_warning_c : float; c_temperature_critical_c : float;
  c_vibration_warning_mps2 : float; c_vibration_critical_mps2 : float;
  c_current_warning_a : float; c_current_critical_a : float;
  c_hysteresis_percent : float; c_updated_by : string; c_updated_at : Z }.

Record Telemetry := {
  t_id : Z; t_message_id : string; t_device_id : string; t_site_id : string; t_sequence : Z;
  t_device_time : option datetime; t_received_at : Z; t_clock_synchronized : bool;
  t_uptime_ms : Z; t_firmware_version : string; t_quality : string; t_replayed : bool;
  t_temperature_c : option float; t_vibration_rms_mps2 : option float;
  t_vibration_peak_mps2 : option float; t_vibration_crest_factor : option float;
  t_current_a : option float; t_sample_quality : json; t_fault_flags : list string;
  t_anomaly_score : option float; t_anomaly_percentile : option float;
  t_anomaly_reason : option string }.

Record HealthSnapshot := {
  h_id : Z; h_message_id : string; h_device_id : string; h_received_at : Z; h_payload : json }.

Record Alarm := {
  a_id : Z; a_device_id : string; a_code : string; a_severity : string; a_source : string;
  a_state : string; a_summary : string; a_opened_at : Z; a_cleared_at : option Z;
  a_acknowledged_at : option Z; a_acknowledged_by : option string }.

Record Calibration := {
  k_id : Z; k_device_id : string; k_sensor : string;
  k_previous_coefficients : list (string * float); k_new_coefficients : list (string * float);
  k_reason : string; k_operator : string; k_performed_at : Z }.

Record MaintenanceRecord := {
  r_id : Z; r_device_id : string; r_status : string; r_notes : string;
  r_performed_at : datetime; r_next_due_at : option datetime; r_created_by : string;
  r_updated_at : Z }.

Record AuditEvent := {
  e_id : Z; e_actor : string; e_action : string; e_target_type : string; e_target_id : string;
  e_details : json; e_created_at : Z }.

Record ErrorLog := {
  l_id : Z; l_component : string; l_error_code : string; l_severity : string;
  l_device_id : option string; l_detail : string; l_created_at : Z }.

Record DeviceCommand := {
  x_command_id : string; x_device_id : string; x_kind : string; x_parameters : json;
  x_status : string; x_result_code : option string; x_detail : option string;
  x_issued_by : string; x_issued_at : Z; x_expires_at : Z; x_acknowledged_at : option Z }.

(** ** Rows with their column defaults

    [new_X] is [X(...)] with the arguments the program gives, the remaining
    columns at the default the flush fills in ([now] for [default=utc_now]). *)

Definition new_device (now : Z) (id site_id display_name asset_class : string) (simulated : bool) : Device := {|
  d_id := id; d_site_id := site_id; d_display_name := display_name; d_asset_class := asset_class;
  d_simulated := simulated; d_firmware_version := None; d_reported_status := "offline";
  d_last_seen_at := None; d_rssi_dbm := None; d_reset_reason := None; d_reset_count := 0;
  d_queue_depth := 0; d_queue_capacity := 512; d_dropped_message_count := 0;
  d_modbus_status := "disabled"; d_active_faults := []; d_created_at := now |}.

Definition new_threshold_config (now : Z) (device_id : string) : ThresholdConfig := {|
  c_device_id := device_id;
  c_temperature_warning_c := lit 650 1; c_temperature_critical_c := lit 750 1;
  c_vibration_warning_mps2 := lit 45 1; c_vibration_critical_mps2 := lit 70 1;
  c_current_warning_a := lit 14 1; c_current_critical_a := lit 18 1;
  c_hysteresis_percent := lit 50 1; c_updated_by := "system"; c_updated_at := now |}.

Definition new_alarm (opened_at : Z) (device_id code severity source summary : string) : Alarm := {|
  a_id := 0; a_device_id := device_id; a_code := code; a_severity := severity; a_source := source;
  a_state := "active"; a_summary := summary; a_opened_at := opened_at; a_cleared_at := None;
  a_acknowledged_at := None; a_acknowledged_by := None |}.

Definition new_health (now : Z) (message_id device_id : string) (payload : json) : HealthSnapshot := {|
  h_id := 0; h_message_id := message_id; h_device_id := device_id; h_received_at := now;
  h_payload := payload |}.

Definition new_audit (now : Z) (actor action target_type target_id : string) (details : json) : AuditEvent := {|
  e_id := 0; e_actor := actor; e_action := action; e_target_type := target_type;
  e_target_id := target_id; e_details := details; e_created_at := now |}.

Definition new_error_log (now : Z) (component error_code severity : string)
    (device_id : option string) (detail : string) : ErrorLog := {|
  l_id := 0; l_component := component; l_error_code := error_code; l_severity := severity;
  l_device_id := device_id; l_detail := detail; l_created_at := now |}.

(** ** The database *)

Record DB := {
  users : list User; devices : list Device; anomaly_models : list AnomalyModel;
  threshold_configs : list ThresholdConfig; telemetry : list Telemetry;
  health_snapshots : list HealthSnapshot; alarms : list Alarm; calibrations : list Calibration;
  maintenance_records : list MaintenanceRecord; audit_events : list AuditEvent;
  error_logs : list ErrorLog; device_commands : list DeviceCommand }.

Definition empty_db : DB := Build_DB [] [] [] [] [] [] [] [] [] [] [] [].

Definition set_users v d := Build_DB v (devices d) (anomaly_models d) (threshold_configs d) (telemetry d) (health_snapshots d) (alarms d) (calibrations d) (maintenance_records d) (audit_events d) (error_logs d) (device_commands d).
Definition set_devices v d := Build_DB (users d) v (anomaly_models d) (threshold_configs d) (telemetry d) (health_snapshots d) (alarms d) (calibrations d) (maintenance_records d) (audit_events d) (error_logs d) (device_commands d).
Definition set_anomaly_models v d := Build_DB (users d) (devices d) v (threshold_configs d) (telemetry d) (health_snapshots d) (alarms d) (calibrations d) (maintenance_records d) (audit_events d) (error_logs d) (device_commands d).
Definition set_threshold_configs v d := Build_DB (users d) (devices d) (anomaly_models d) v (telemetry d) (health_snapshots d) (alarms d) (calibrations d) (maintenance_records d) (audit_events d) (error_logs d) (device_commands d).
Definition set_telemetry v d := Build_DB (users d) (devices d) (anomaly_models d) (threshold_configs d) v (health_snapshots d) (alarms d) (calibrations d) (maintenance_records d) (audit_events d) (error_logs d) (device_commands d).
Definition set_health_snapshots v d := Build_DB (users d) (devices d) (anomaly_models d) (threshold_configs d) (telemetry d) v (alarms d) (calibrations d) (maintenance_records d) (audit_events d) (error_logs d) (device_commands d).
Definition set_alarms v d := Build_DB (users d) (devices d) (anomaly_models d) (threshold_configs d) (telemetry d) (health_snapshots d) v (calibrations d) (maintenance_records d) (audit_events d) (error_logs d) (device_commands d).
Definition set_calibrations v d := Build_DB (users d) (devices d) (anomaly_models d) (threshold_configs d) (telemetry d) (health_snapshots d) (alarms d) v (maintenance_records d) (audit_events d) (error_logs d) (device_commands d).
Definition set_maintenance_records v d := Build_DB (users d) (devices d) (anomaly_models d) (threshold_configs d) (telemetry d) (health_snapshots d) (alarms d) (calibrations d) v (audit_events d) (error_logs d) (device_commands d).
Definition set_audit_events v d := Build_DB (users d) (devices d) (anomaly_models d) (threshold_configs d) (telemetry d) (health_snapshots d) (alarms d) (calibrations d) (maintenance_records d) v (error_logs d) (device_commands d).
Definition set_error_logs v d := Build_DB (users d) (devices d) (anomaly_models d) (threshold_configs d) (telemetry d) (health_snapshots d) (alarms d) (calibrations d) (maintenance_records d) (audit_events d) v (device_commands d).
Definition set_device_commands v d := Build_DB (users d) (devices d) (anomaly_models d) (threshold_configs d) (telemetry d) (health_snapshots d) (alarms d) (calibrations d) (maintenance_records d) (audit_events d) (error_logs d) v.
