(* ===== verification/Tables.v ===== *)
(** What the database does with a row: the checks declared by the columns,
    [UniqueConstraint]s, primary and foreign keys of [models.py], then the
    insertion.  A value outside its column type is a [DataError], a violated
    constraint an [IntegrityError].  Writes are partial functions on [DB].

    The text a statement compares with is under the same rule; a lookup here is
    total, so a key with a NUL finds no row instead of raising. *)
From S2P Require Import Prelude PyStr Float64 Json PyTime Models.

(** ** Column types *)

Definition integer (z : Z) : bool := (- 2 ^ 31 <=? z) && (z <? 2 ^ 31).
Definition big_integer (z : Z) : bool := (- 2 ^ 63 <=? z) && (z <? 2 ^ 63).
(** PostgreSQL text holds no NUL: psycopg refuses it with a [DataError].  (JSON
    columns are sent as ASCII with the character escaped.) *)
Definition text (s : string) : bool := no_nul s.
Definition varchar (n : nat) (s : string) : bool := (py_len s <=? n)%nat && text s.
Definition nullable {A} (p : A → bool) (o : option A) : bool :=
  match o with Some a => p a | None => true end.

Definition device_fits (d : Device) : bool :=
  varchar 63 (d_id d) && varchar 63 (d_site_id d) && varchar 120 (d_display_name d)
  && varchar 80 (d_asset_class d) && nullable (varchar 48) (d_firmware_version d)
  && varchar 20 (d_reported_status d) && nullable integer (d_rssi_dbm d)
  && nullable (varchar 48) (d_reset_reason d) && integer (d_reset_count d)
  && integer (d_queue_depth d) && integer (d_queue_capacity d)
  && integer (d_dropped_message_count d) && varchar 20 (d_modbus_status d).

Definition telemetry_fits (t : Telemetry) : bool :=
  varchar 36 (t_message_id t) && varchar 63 (t_site_id t) && big_integer (t_sequence t)
  && big_integer (t_uptime_ms t) && varchar 48 (t_firmware_version t)
  && varchar 20 (t_quality t) && nullable (varchar 300) (t_anomaly_reason t).

Definition alarm_fits (a : Alarm) : bool :=
  varchar 48 (a_code a) && varchar 16 (a_severity a) && varchar 24 (a_source a)
  && varchar 16 (a_state a) && varchar 240 (a_summary a)
  && nullable (varchar 80) (a_acknowledged_by a).

Definition threshold_fits (c : ThresholdConfig) : bool := varchar 80 (c_updated_by c).

Definition health_fits (h : HealthSnapshot) : bool := varchar 36 (h_message_id h).

Definition calibration_fits (k : Calibration) : bool :=
  varchar 32 (k_sensor k) && varchar 240 (k_reason k) && varchar 80 (k_operator k).

Definition maintenance_fits (r : MaintenanceRecord) : bool :=
  varchar 24 (r_status r) && text (r_notes r) && varchar 80 (r_created_by r).

Definition audit_fits (e : AuditEvent) : bool :=
  varchar 80 (e_actor e) && varchar 80 (e_action e) && varchar 48 (e_target_type e)
  && varchar 80 (e_target_id e).

Definition error_log_fits (l : ErrorLog) : bool :=
  varchar 48 (l_component l) && varchar 48 (l_error_code l) && varchar 16 (l_severity l)
  && nullable (varchar 63) (l_device_id l) && varchar 300 (l_detail l).

Definition command_fits (x : DeviceCommand) : bool :=
  varchar 36 (x_command_id x) && varchar 48 (x_kind x) && varchar 24 (x_status x)
  && nullable (varchar 48) (x_result_code x) && nullable (varchar 240) (x_detail x)
  && varchar 80 (x_issued_by x).

Lemma varchar_iff n s : varchar n s = true ↔ (py_len s <= n)%nat ∧ no_nul s = true.
Proof. unfold varchar, text. by rewrite andb_true_iff, Nat.leb_le. Qed.
Lemma varchar_le n m s : (n <= m)%nat → varchar n s = true → varchar m s = true.
Proof. rewrite !varchar_iff. intros Hn [? ?]. split; [lia|done]. Qed.
Lemma varchar_take n s : no_nul s = true → varchar n (py_take n s) = true.
Proof. intros H. rewrite varchar_iff, py_len_take. split; [lia|by apply no_nul_take]. Qed.

(** ** Lookups by key *)

Definition by_id (id : string) (d : Device) : bool := String.eqb (d_id d) id.
Definition get_device (id : string) (db : DB) : option Device := List.find (by_id id) (devices db).
Definition get_threshold_config (id : string) (db : DB) : option ThresholdConfig :=
  List.find (λ c, String.eqb (c_device_id c) id) (threshold_configs db).
Definition get_command (id : string) (db : DB) : option DeviceCommand :=
  List.find (λ x, String.eqb (x_command_id x) id) (device_commands db).
Definition get_alarm (id : Z) (db : DB) : option Alarm := List.find (λ a, a_id a =? id) (alarms db).
Definition get_maintenance (id : Z) (db : DB) : option MaintenanceRecord :=
  List.find (λ r, r_id r =? id) (maintenance_records db).

Definition has_device (id : string) (db : DB) : bool := existsb (by_id id) (devices db).

Definition next_id {A} (l : list A) : Z := Z.of_nat (length l) + 1.

(** ** Writes *)

Definition write : Type := DB → result DB.
Definition guard_data (b : bool) (k : result DB) : result DB := if b then k else Raise DataError.
Definition guard_integrity (b : bool) (k : result DB) : result DB := if b then k else Raise IntegrityError.

Definition insert_device (d : Device) : write := λ db,
  guard_data (device_fits d) $ guard_integrity (negb (has_device (d_id d) db)) $
  Ok (set_devices (devices db ++ [d]) db).

Definition with_t_id (i : Z) (t : Telemetry) : Telemetry :=
  Build_Telemetry i (t_message_id t) (t_device_id t) (t_site_id t) (t_sequence t)
    (t_device_time t) (t_received_at t) (t_clock_synchronized t) (t_uptime_ms t)
    (t_firmware_version t) (t_quality t) (t_replayed t) (t_temperature_c t)
    (t_vibration_rms_mps2 t) (t_vibration_peak_mps2 t) (t_vibration_crest_factor t)
    (t_current_a t) (t_sample_quality t) (t_fault_flags t) (t_anomaly_score t)
    (t_anomaly_percentile t) (t_anomaly_reason t).
Definition same_message (m : string) (t : Telemetry) : bool := String.eqb (t_message_id t) m.
Definition same_sequence (dev : string) (seq : Z) (t : Telemetry) : bool :=
  String.eqb (t_device_id t) dev && (t_sequence t =? seq).

Definition insert_telemetry (t : Telemetry) : write := λ db,
  guard_data (telemetry_fits t) $
  guard_integrity (negb (existsb (same_message (t_message_id t)) (telemetry db))
                   && negb (existsb (same_sequence (t_device_id t) (t_sequence t)) (telemetry db))
                   && has_device (t_device_id t) db) $
  Ok (set_telemetry (telemetry db ++ [with_t_id (next_id (telemetry db)) t]) db).

Definition with_a_id (i : Z) (a : Alarm) : Alarm :=
  Build_Alarm i (a_device_id a) (a_code a) (a_severity a) (a_source a) (a_state a) (a_summary a)
    (a_opened_at a) (a_cleared_at a) (a_acknowledged_at a) (a_acknowledged_by a).
Definition insert_alarm (a : Alarm) : write := λ db,
  guard_data (alarm_fits a) $ guard_integrity (has_device (a_device_id a) db) $
  Ok (set_alarms (alarms db ++ [with_a_id (next_id (alarms db)) a]) db).

Definition insert_threshold_config (c : ThresholdConfig) : write := λ db,
  guard_data (threshold_fits c) $
  guard_integrity (negb (existsb (λ c', String.eqb (c_device_id c') (c_device_id c)) (threshold_configs db))
                   && has_device (c_device_id c) db) $
  Ok (set_threshold_configs (threshold_configs db ++ [c]) db).

Definition insert_health (h : HealthSnapshot) : write := λ db,
  guard_data (health_fits h) $
  guard_integrity (negb (existsb (λ h', String.eqb (h_message_id h') (h_message_id h)) (health_snapshots db))
                   && has_device (h_device_id h) db) $
  Ok (set_health_snapshots (health_snapshots db ++
        [Build_HealthSnapshot (next_id (health_snapshots db)) (h_message_id h) (h_device_id h)
           (h_received_at h) (h_payload h)]) db).

Definition insert_calibration (k : Calibration) : write := λ db,
  guard_data (calibration_fits k) $ guard_integrity (has_device (k_device_id k) db) $
  Ok (set_calibrations (calibrations db ++
        [Build_Calibration (next_id (calibrations db)) (k_device_id k) (k_sensor k)
           (k_previous_coefficients k) (k_new_coefficients k) (k_reason k) (k_operator k)
           (k_performed_at k)]) db).

Definition insert_maintenance (r : MaintenanceRecord) : write := λ db,
  guard_data (maintenance_fits r) $ guard_integrity (has_device (r_device_id r) db) $
  Ok (set_maintenance_records (maintenance_records db ++
        [Build_MaintenanceRecord (next_id (maintenance_records db)) (r_device_id r) (r_status r)
           (r_notes r) (r_performed_at r) (r_next_due_at r) (r_created_by r) (r_updated_at r)]) db).

Definition insert_audit (e : AuditEvent) : write := λ db,
  guard_data (audit_fits e) $
  Ok (set_audit_events (audit_events db ++
        [Build_AuditEvent (next_id (audit_events db)) (e_actor e) (e_action e) (e_target_type e)
           (e_target_id e) (e_details e) (e_created_at e)]) db).

Definition insert_error_log (l : ErrorLog) : write := λ db,
  guard_data (error_log_fits l) $
  Ok (set_error_logs (error_logs db ++
        [Build_ErrorLog (next_id (error_logs db)) (l_component l) (l_error_code l) (l_severity l)
           (l_device_id l) (l_detail l) (l_created_at l)]) db).

Definition insert_command (x : DeviceCommand) : write := λ db,
  guard_data (command_fits x) $
  guard_integrity (negb (existsb (λ y, String.eqb (x_command_id y) (x_command_id x)) (device_commands db))
                   && has_device (x_device_id x) db) $
  Ok (set_device_commands (device_commands db ++ [x]) db).

(** [UPDATE ... SET ... WHERE key]: the changed columns of one row. *)
Definition update_where {A} (p : A → bool) (f : A → A) (l : list A) : list A :=
  map (λ r, if p r then f r else r) l.

Definition update_device (id : string) (f : Device → Device) : write := λ db,
  let rows := update_where (by_id id) f (devices db) in
  guard_data (forallb device_fits rows) $ Ok (set_devices rows db).
Definition update_alarm (id : Z) (f : Alarm → Alarm) : write := λ db,
  let rows := update_where (λ a, a_id a =? id) f (alarms db) in
  guard_data (forallb alarm_fits rows) $ Ok (set_alarms rows db).
Definition update_threshold_config (id : string) (f : ThresholdConfig → ThresholdConfig) : write := λ db,
  let rows := update_where (λ c, String.eqb (c_device_id c) id) f (threshold_configs db) in
  guard_data (forallb threshold_fits rows) $ Ok (set_threshold_configs rows db).
Definition update_maintenance (id : Z) (f : MaintenanceRecord → MaintenanceRecord) : write := λ db,
  let rows := update_where (λ r, r_id r =? id) f (maintenance_records db) in
  guard_data (forallb maintenance_fits rows) $ Ok (set_maintenance_records rows db).
Definition update_command (id : string) (f : DeviceCommand → DeviceCommand) : write := λ db,
  let rows := update_where (λ x, String.eqb (x_command_id x) id) f (device_commands db) in
  guard_data (forallb command_fits rows) $ Ok (set_device_commands rows db).

(** The registry of anomaly models. *)
Definition model_fits (m : AnomalyModel) : bool :=
  varchar 80 (m_model_version m) && varchar 24 (m_status m)
  && integer (m_training_sample_count m) && integer (m_validation_sample_count m)
  && integer (m_random_seed m) && varchar 32 (m_sklearn_version m)
  && varchar 300 (m_artifact_path m) && varchar 80 (m_artifact_checksum m)
  && nullable (varchar 300) (m_diagnostic m).
Definition same_version (device_id version : string) (m : AnomalyModel) : bool :=
  String.eqb (m_device_id m) device_id && String.eqb (m_model_version m) version.
Definition with_m_id (i : Z) (m : AnomalyModel) : AnomalyModel :=
  Build_AnomalyModel i (m_device_id m) (m_model_version m) (m_status m) (m_feature_schema m)
    (m_training_start m) (m_training_end m) (m_training_sample_count m)
    (m_validation_sample_count m) (m_contamination m) (m_random_seed m) (m_sklearn_version m)
    (m_artifact_path m) (m_artifact_checksum m) (m_created_at m) (m_last_scored_at m)
    (m_diagnostic m).
Definition insert_model (m : AnomalyModel) : write := λ db,
  guard_data (model_fits m) $
  guard_integrity (negb (existsb (same_version (m_device_id m) (m_model_version m)) (anomaly_models db))
                   && has_device (m_device_id m) db) $
  Ok (set_anomaly_models (anomaly_models db ++ [with_m_id (next_id (anomaly_models db)) m]) db).
Definition update_model (id : Z) (f : AnomalyModel → AnomalyModel) : write := λ db,
  let rows := update_where (λ m, m_id m =? id) f (anomaly_models db) in
  guard_data (forallb model_fits rows) $ Ok (set_anomaly_models rows db).

Definition update_telemetry (id : Z) (f : Telemetry → Telemetry) : write := λ db,
  let rows := update_where (λ t, t_id t =? id) f (telemetry db) in
  guard_data (forallb telemetry_fits rows) $ Ok (set_telemetry rows db).

Fixpoint run_writes (ws : list write) (db : DB) : result DB :=
  match ws with
  | [] => Ok db
  | w :: ws' => db' ← w db; run_writes ws' db'
  end.

(** ** Ordered selections *)

(** The instant a [timestamptz] comparison uses; the database session runs in
    UTC, so a naive bound is read as UTC. *)
Definition db_instant (d : datetime) : Z := wall d - match offset d with Some o => o | None => 0 end.

(** [ORDER BY]: insertion by [before a b] (the order of ties is the
    database's choice). *)
Fixpoint insert_by {A} (before : A → A → bool) (x : A) (l : list A) : list A :=
  match l with
  | [] => [x]
  | y :: l' => if before x y then x :: l else y :: insert_by before x l'
  end.
Definition order_by {A} (before : A → A → bool) (l : list A) : list A :=
  foldr (insert_by before) [] l.

Lemma insert_by_perm {A} (before : A → A → bool) x l : insert_by before x l ≡ₚ x :: l.
Proof.
  induction l as [|y l IH]; simpl; [done|]. destruct (before x y); [done|].
  rewrite IH. apply Permutation_swap.
Qed.
Lemma order_by_perm {A} (before : A → A → bool) l : order_by before l ≡ₚ l.
Proof.
  unfold order_by. induction l as [|x l IH]; simpl; [done|]. by rewrite insert_by_perm, IH.
Qed.

Section OrderBy.
Context {A : Type} (before : A → A → bool).
Context (Htrans : ∀ a b c, before b a = false → before c b = false → before c a = false).
Context (Hasym : ∀ a b, before a b = true → before b a = false).
Lemma insert_by_sorted x l :
  StronglySorted (λ a b, before b a = false) l → StronglySorted (λ a b, before b a = false) (insert_by before x l).
Proof.
  induction 1 as [|y l Hs IH Hy]; simpl; [by repeat constructor|]. destruct (before x y) eqn:E.
  - constructor; [by constructor|]. constructor; [by apply Hasym|].
    apply (Forall_impl _ _ _ Hy). intros z Hz. apply (Htrans _ y); [by apply Hasym|done].
  - constructor; [done|]. rewrite insert_by_perm. by constructor.
Qed.
Lemma order_by_sorted l : StronglySorted (λ a b, before b a = false) (order_by before l).
Proof. unfold order_by. induction l as [|x l IH]; simpl; [constructor|]. by apply insert_by_sorted. Qed.
End OrderBy.
