(* ===== verification/Session.v ===== *)
(** A SQLAlchemy session of [services/api/app/database.py] ([autoflush=False],
    [expire_on_commit=False]) and [notify_after_commit] of
    [services/api/app/events.py].

    [db] is what the session's queries see (committed rows and its own flushed
    writes), [pending] the unit of work, [notes] the NOTIFYs queued in the
    transaction, [published] the events delivered to listeners.  The clock is
    an oracle read by [utc_now]. *)
From S2P Require Import Prelude PyStr Float64 Json PyTime Models Tables.

Record Session := {
  db : DB;
  saved : DB;
  pending : list write;
  notes : list json;
  published : list json;
  postgres : bool;
  clock : nat → Z;
  ticks : nat
}.

(** [SessionLocal()] on a database. *)
Definition open_session (d : DB) (pub : list json) (pg : bool) (clk : nat → Z) (t : nat) : Session := {|
  db := d; saved := d; pending := []; notes := []; published := pub; postgres := pg;
  clock := clk; ticks := t |}.

Definition set_pending (ws : list write) (s : Session) : Session :=
  Build_Session (db s) (saved s) ws (notes s) (published s) (postgres s) (clock s) (ticks s).
Definition set_flushed (d : DB) (s : Session) : Session :=
  Build_Session d (saved s) [] (notes s) (published s) (postgres s) (clock s) (ticks s).
Definition set_committed (d : DB) (s : Session) : Session :=
  Build_Session d d [] [] (published s ++ notes s) (postgres s) (clock s) (ticks s).
Definition set_rolled_back (s : Session) : Session :=
  Build_Session (saved s) (saved s) [] [] (published s) (postgres s) (clock s) (ticks s).
Definition add_note (e : json) (s : Session) : Session :=
  Build_Session (db s) (saved s) (pending s) (notes s ++ [e]) (published s) (postgres s) (clock s) (ticks s).
Definition next_tick (s : Session) : Session :=
  Build_Session (db s) (saved s) (pending s) (notes s) (published s) (postgres s) (clock s) (S (ticks s)).

Abbreviation DBM := (M Session).

(** [datetime.now(UTC)]. *)
Definition utc_now : DBM Z := λ s, (Ok (clock s (ticks s)), next_tick s).
(** A query over the rows the session sees. *)
Definition query {A} (f : DB → A) : DBM A := get (λ s, f (db s)).
(** [session.add(row)] or an attribute assignment on a loaded row. *)
Definition add (w : write) : DBM unit := modify (λ s, set_pending (pending s ++ [w]) s).
(** [session.flush()] *)
Definition flush : DBM unit := λ s,
  match run_writes (pending s) (db s) with
  | Ok d => (Ok tt, set_flushed d s)
  | Raise e => (Raise e, s)
  end.
(** [session.commit()] *)
Definition commit : DBM unit := λ s,
  match run_writes (pending s) (db s) with
  | Ok d => (Ok tt, set_committed d s)
  | Raise e => (Raise e, s)
  end.
(** [session.rollback()], also what closing the session does. *)
Definition rollback : DBM unit := modify set_rolled_back.

Definition EVENT_CHANNEL := "iiot_events".

(** [len(payload.encode()) > 7000] fails. *)
Definition event_fits (event : json) : bool :=
  (Z.of_nat (String.length (dumps event)) <=? 7000).

Definition notify_after_commit (event : json) : DBM unit := λ s,
  if negb (postgres s) then (Ok tt, s)
  else if negb (event_fits event)
  then (Raise (ValueError "live event exceeds bounded PostgreSQL notification size"), s)
  else (Ok tt, add_note event s).

(** [with SessionLocal() as session: body]: whatever the outcome, uncommitted
    work is dropped when the session closes. *)
Definition closing {A} (m : DBM A) : DBM A := λ s,
  let '(r, s') := m s in (r, set_rolled_back s').

(** ** Lemmas *)

(** A session between transactions. *)
Definition clean (s : Session) : Prop := db s = saved s ∧ pending s = [] ∧ notes s = [].

Lemma open_clean d pub pg clk t : clean (open_session d pub pg clk t).
Proof. done. Qed.

Lemma closing_clean {A} (m : DBM A) s : clean (closing m s).2.
Proof. unfold closing. by destruct (m s). Qed.

(** A block that never commits leaves the database and the listeners alone. *)
Definition keeps (s s' : Session) : Prop :=
  saved s' = saved s ∧ published s' = published s ∧ postgres s' = postgres s ∧ clock s' = clock s.

Lemma keeps_refl s : keeps s s.
Proof. done. Qed.
Lemma keeps_trans s1 s2 s3 : keeps s1 s2 → keeps s2 s3 → keeps s1 s3.
Proof. unfold keeps. intuition congruence. Qed.

Definition uncommitted {A} (m : DBM A) : Prop := ∀ s, keeps s (m s).2.

Lemma uncommitted_ret {A} (a : A) : uncommitted (mret a).
Proof. done. Qed.
Lemma uncommitted_raise {A} e : uncommitted (raise (A := A) e).
Proof. done. Qed.
Lemma uncommitted_get {A} (f : Session → A) : uncommitted (get f).
Proof. done. Qed.
Lemma uncommitted_lift {A} (r : result A) : uncommitted (lift r).
Proof. done. Qed.
Lemma uncommitted_now : uncommitted utc_now.
Proof. done. Qed.
Lemma uncommitted_query {A} (f : DB → A) : uncommitted (query f).
Proof. done. Qed.
Lemma uncommitted_add w : uncommitted (add w).
Proof. done. Qed.
Lemma uncommitted_flush : uncommitted flush.
Proof. intros s. unfold flush. by destruct (run_writes (pending s) (db s)). Qed.
Lemma uncommitted_notify e : uncommitted (notify_after_commit e).
Proof. intros s. unfold notify_after_commit. by destruct (negb (postgres s)), (negb (event_fits e)). Qed.
Lemma uncommitted_bind {A B} (m : DBM A) (f : A → DBM B) :
  uncommitted m → (∀ a, uncommitted (f a)) → uncommitted (m ≫= f).
Proof.
  intros Hm Hf s. unfold mbind, M_bind. specialize (Hm s).
  destruct (m s) as [[a|e] s1]; simpl in *; [|done]. eapply keeps_trans; [done|apply Hf].
Qed.
Lemma uncommitted_if {A} (b : bool) (m1 m2 : DBM A) :
  uncommitted m1 → uncommitted m2 → uncommitted (if b then m1 else m2).
Proof. by destruct b. Qed.

Create HintDb session.
#[export] Hint Resolve uncommitted_ret uncommitted_raise uncommitted_get uncommitted_lift
  uncommitted_now uncommitted_query uncommitted_add uncommitted_flush uncommitted_notify
  uncommitted_bind uncommitted_if : session.

(** Discharge [uncommitted] goals along the structure of the block. *)
Ltac solve_uncommitted :=
  cbv zeta; repeat match goal with
  | |- uncommitted (match ?x with _ => _ end) => destruct x
  | |- uncommitted (_ ≫= _) => apply uncommitted_bind; [|intros]
  | |- uncommitted _ => solve [eauto 3 with session]
  end.

Lemma closing_uncommitted {A} (m : DBM A) s :
  uncommitted m → clean s → keeps s (closing m s).2 ∧ db (closing m s).2 = db s.
Proof.
  intros Hm [Hdb _]. specialize (Hm s). unfold closing.
  destruct (m s) as [r s']; simpl in *. destruct Hm as (E & ? & ? & ?).
  unfold keeps; simpl. by rewrite E, Hdb.
Qed.
