(* ===== verification/Topics.v ===== *)
(** MQTT topics: construction in [contracts/mqtt_topics.py] and parsing in
    [services/mqtt_ingestor/main.py] ([parse_topic], [parse_telemetry_topic]). *)
From S2P Require Import Prelude PyStr.

Definition TOPIC_VERSION := "v1".
Definition TOPIC_ROOT := "iiot".
Definition MAX_PAYLOAD_BYTES : Z := 16 * 1024.

(** [IDENTIFIER_PATTERN]: [^[a-z0-9][a-z0-9-]{0,62}$] under [fullmatch]. *)
Definition in_range_ascii (lo hi c : ascii) : bool :=
  (N_of_ascii lo <=? N_of_ascii c)%N && (N_of_ascii c <=? N_of_ascii hi)%N.
Definition id_head (c : ascii) : bool := in_range_ascii "a" "z" c || in_range_ascii "0" "9" c.
Definition id_tail (c : ascii) : bool := id_head c || Ascii.eqb c "-".
Fixpoint all_ascii (p : ascii → bool) (s : string) : bool :=
  match s with EmptyString => true | String c s' => p c && all_ascii p s' end.
Definition is_identifier (s : string) : bool :=
  match s with
  | EmptyString => false
  | String c s' => id_head c && all_ascii id_tail s' && (String.length s' <=? 62)%nat
  end.

Inductive TopicKind :=
  TELEMETRY | HEALTH | EVENTS | COMMANDS | COMMAND_ACKS | AVAILABILITY.
#[export] Instance TopicKind_eq_dec : EqDecision TopicKind.
Proof. solve_decision. Defined.

(** [kind.value] of the [StrEnum]. *)
Definition kind_value (k : TopicKind) : string :=
  match k with
  | TELEMETRY => "telemetry"
  | HEALTH => "health"
  | EVENTS => "events"
  | COMMANDS => "commands"
  | COMMAND_ACKS => "command-acks"
  | AVAILABILITY => "availability"
  end.

(** [TopicKind(value)]; [None] is the [ValueError] of the enum lookup. *)
Definition all_kinds : list TopicKind :=
  [TELEMETRY; HEALTH; EVENTS; COMMANDS; COMMAND_ACKS; AVAILABILITY].
Definition kind_of_value (s : string) : option TopicKind :=
  List.find (λ k, String.eqb (kind_value k) s) all_kinds.

Definition slash : ascii := "/".

Definition topic (site_id device_id : string) (kind : TopicKind) : result string :=
  if negb (is_identifier site_id) then Raise (ValueError "invalid site_id")
  else if negb (is_identifier device_id) then Raise (ValueError "invalid device_id")
  else Ok (TOPIC_ROOT +:+ "/" +:+ TOPIC_VERSION +:+ "/" +:+ site_id +:+ "/" +:+ device_id
           +:+ "/" +:+ kind_value kind).

Definition subscription (kind : TopicKind) : string :=
  TOPIC_ROOT +:+ "/" +:+ TOPIC_VERSION +:+ "/+/+/" +:+ kind_value kind.
Definition telemetry_subscription : string := subscription TELEMETRY.

Record ParsedTopic := { pt_site_id : string; pt_device_id : string; pt_kind : TopicKind }.

Definition parse_topic (value : string) : result ParsedTopic :=
  match split_on slash value with
  | [p0; p1; p2; p3; p4] =>
      if negb (String.eqb p0 "iiot" && String.eqb p1 "v1")
      then Raise (ValueError "topic is not a version-1 application topic")
      else match kind_of_value p4 with
           | None => Raise (ValueError "topic kind is not supported")
           | Some kind => Ok {| pt_site_id := p2; pt_device_id := p3; pt_kind := kind |}
           end
  | _ => Raise (ValueError "topic is not a version-1 application topic")
  end.

Definition parse_telemetry_topic (value : string) : result ParsedTopic :=
  parsed ← parse_topic value;
  if decide (pt_kind parsed = TELEMETRY) then mret parsed
  else Raise (ValueError "topic is not a version-1 telemetry topic").

(** ** Lemmas *)

Lemma kind_of_value_of k : kind_of_value (kind_value k) = Some k.
Proof. by destruct k. Qed.
Lemma kind_of_value_Some s k : kind_of_value s = Some k → s = kind_value k.
Proof.
  unfold kind_of_value. intros H. apply List.find_some in H as [_ H]. b2p. done.
Qed.

Lemma all_ascii_lacks c p s :
  (∀ d, p d = true → Ascii.eqb c d = false) → all_ascii p s = true →
  contains_char c s = false.
Proof.
  intros Hp. induction s as [|d s IH]; cbn [all_ascii contains_char]; [done|].
  rewrite andb_true_iff. intros [Hc Hs]. by rewrite Hp, IH.
Qed.

Lemma identifier_lacks c s :
  (∀ d, id_tail d = true → Ascii.eqb c d = false) → is_identifier s = true → contains_char c s = false.
Proof.
  intros Hc. destruct s as [|d s]; [done|]. cbn [is_identifier contains_char]. intros H. b2p.
  rewrite (all_ascii_lacks c id_tail s Hc) by done. by rewrite Hc by (unfold id_tail; by rewrite H).
Qed.
Lemma identifier_no_slash s : is_identifier s = true → contains_char slash s = false.
Proof. apply identifier_lacks. intros c. destruct c as [[] [] [] [] [] [] [] []]; vm_compute; done. Qed.
Lemma identifier_no_nul s : is_identifier s = true → contains_char nul s = false.
Proof. apply identifier_lacks. intros c. destruct c as [[] [] [] [] [] [] [] []]; vm_compute; done. Qed.

Lemma topic_ok s d k :
  is_identifier s = true → is_identifier d = true →
  topic s d k = Ok (TOPIC_ROOT +:+ "/" +:+ TOPIC_VERSION +:+ "/" +:+ s +:+ "/" +:+ d
                    +:+ "/" +:+ kind_value k).
Proof. intros Hs Hd. unfold topic. by rewrite Hs, Hd. Qed.

Lemma parse_built s d k :
  is_identifier s = true → is_identifier d = true →
  parse_topic (TOPIC_ROOT +:+ "/" +:+ TOPIC_VERSION +:+ "/" +:+ s +:+ "/" +:+ d
               +:+ "/" +:+ kind_value k)
  = Ok {| pt_site_id := s; pt_device_id := d; pt_kind := k |}.
Proof.
  intros Hs Hd. unfold parse_topic.
  change (split_on slash _) with (split_on slash ("iiot" +:+ String slash ("v1" +:+ String slash
    (s +:+ String slash (d +:+ String slash (kind_value k)))))).
  rewrite (split_on_app slash "iiot"), (split_on_app slash "v1") by done.
  rewrite (split_on_app slash s), (split_on_app slash d) by (by apply identifier_no_slash).
  rewrite split_on_single by (by destruct k).
  rewrite kind_of_value_of. done.
Qed.

(** ** Properties *)

(** Building and parsing topics are inverse of each other: a topic built
    from a site, a device and a kind parses back to exactly these; and a
    string that parses to identifiers is the topic built from them. *)
Theorem topic_round_trip (t s d : string) (k : TopicKind)
    (Hs : is_identifier s = true) (Hd : is_identifier d = true) :
  topic s d k = Ok t ↔
  parse_topic t = Ok {| pt_site_id := s; pt_device_id := d; pt_kind := k |}.
Proof.
  rewrite topic_ok by done. split.
  - intros [= <-]. by apply parse_built.
  - intros Hp. f_equal. unfold parse_topic in Hp.
    pose proof (join_split slash t) as Hj.
    destruct (split_on slash t) as [|p0 [|p1 [|p2 [|p3 [|p4 [|]]]]]]; try done.
    case_in Hp; [done|]. b2p. destruct (kind_of_value p4) eqn:Hk; [|done].
    apply kind_of_value_Some in Hk. simplify_eq. apply negb_false_iff in Heqb. b2p. subst.
    done.
Qed.

Lemma topic_round_trip_witness :
  parse_topic "iiot/v1/workshop-demo/motor-01/command-acks"
  = Ok {| pt_site_id := "workshop-demo"; pt_device_id := "motor-01"; pt_kind := COMMAND_ACKS |}.
Proof.
  apply (topic_round_trip "iiot/v1/workshop-demo/motor-01/command-acks"
           "workshop-demo" "motor-01" COMMAND_ACKS); vm_compute; reflexivity.
Defined.
