(* ===== verification/Schemas.v ===== *)
(** The validated contracts of [services/api/app/schemas.py]: envelopes and
    requests as records, their declared field constraints and validators as
    boolean functions.

    [validate] is pydantic's [model_validate]: coercion of the raw value to the
    declared types belongs to pydantic and is a parameter of the callers;
    [field_errors] counts the violated declarations, and the [mode="after"]
    validator runs only when there is none. *)
From S2P Require Import Prelude PyStr Float64 Json PyTime Topics.

(** ** Field constraints *)

Definition ge (lo x : Z) : bool := lo <=? x.
Definition le (hi x : Z) : bool := x <=? hi.
(** [Field(ge=lo, le=hi)] on a float: a nan satisfies neither. *)
Definition fbetween (lo hi x : float) : bool := fleb lo x && fleb x hi.
Definition optional {A} (p : A → bool) (o : option A) : bool :=
  match o with Some a => p a | None => true end.
Definition max_length (n : nat) (s : string) : bool := (py_len s <=? n)%nat.
Definition min_length (n : nat) (s : string) : bool := (n <=? py_len s)%nat.
Definition max_items {A} (n : nat) (l : list A) : bool := (length l <=? n)%nat.
Definition literal (values : list string) (s : string) : bool := existsb (String.eqb s) values.

(** [^[A-Z][A-Z0-9_]{1,47}$] *)
Definition code_head (c : ascii) : bool := in_range_ascii "A" "Z" c.
Definition code_tail (c : ascii) : bool :=
  code_head c || in_range_ascii "0" "9" c || Ascii.eqb c "_".
Definition is_result_code (s : string) : bool :=
  match s with
  | EmptyString => false
  | String c s' => code_head c && all_ascii code_tail s'
      && (1 <=? String.length s')%nat && (String.length s' <=? 47)%nat
  end.

(** Number of violated declarations. *)
Definition count_errors (checks : list bool) : nat :=
  foldr (λ (ok : bool) n, if ok then n else S n) 0%nat checks.

Definition validate {A} (field_errors : A → nat) (after : A → bool) (a : A) : result A :=
  if negb (Nat.eqb (field_errors a) 0) then Raise (ValidationError (field_errors a))
  else if after a then Ok a else Raise (ValidationError 1).

Lemma validate_ok {A} (fe : A → nat) after a b :
  validate fe after a = Ok b ↔ b = a ∧ fe a = 0%nat ∧ after a = true.
Proof.
  unfold validate. destruct (Nat.eqb_spec (fe a) 0) as [Hfe|Hfe]; simpl.
  - destruct (after a); (split; [intros; by simplify_eq|by intros (-> & _ & ?)]).
  - split; [done|]. by intros (_ & ? & _).
Qed.

(** ** Telemetry *)

Record SensorQuality := {
  sq_status : string; sq_valid_samples : Z; sq_expected_samples : Z; sq_error_code : option string }.
Record SampleQuality := { temperature : SensorQuality; vibration : SensorQuality; current : SensorQuality }.
Record Measurements := {
  temperature_c : option float; vibration_rms_mps2 : option float;
  vibration_peak_mps2 : option float; vibration_crest_factor : option float;
  current_a : option float }.

Record TelemetryEnvelope := {
  te_schema_version : Z; te_message_id : string; te_site_id : string; te_device_id : string;
  te_sequence : Z; te_device_time : option datetime; te_clock_synchronized : bool;
  te_uptime_ms : Z; te_firmware_version : string; te_quality : string; te_replayed : bool;
  te_measurements : Measurements; te_sample_quality : SampleQuality;
  te_fault_flags : list string }.

Definition sensor_quality_checks (q : SensorQuality) : list bool := [
  literal ["good"; "missing"; "stuck"; "out_of_range"; "noisy"; "rate_invalid"; "driver_error"] (sq_status q);
  ge 0 (sq_valid_samples q); ge 1 (sq_expected_samples q);
  optional (max_length 48) (sq_error_code q) ].

Definition sample_quality_checks (q : SampleQuality) : list bool :=
  sensor_quality_checks (temperature q) ++ sensor_quality_checks (vibration q)
  ++ sensor_quality_checks (current q).

Definition measurements_checks (m : Measurements) : list bool := [
  optional (fbetween (of_int (-80)) (of_int 200)) (temperature_c m);
  optional (fbetween (of_int 0) (of_int 2000)) (vibration_rms_mps2 m);
  optional (fbetween (of_int 0) (of_int 4000)) (vibration_peak_mps2 m);
  optional (fbetween (of_int 0) (of_int 100)) (vibration_crest_factor m);
  optional (fbetween (lit (-1) 1) (of_int 10)) (current_a m) ].

Definition telemetry_errors (e : TelemetryEnvelope) : nat := count_errors ([
  te_schema_version e =? 1; is_identifier (te_site_id e); is_identifier (te_device_id e);
  ge 0 (te_sequence e); ge 0 (te_uptime_ms e); max_length 48 (te_firmware_version e);
  literal ["good"; "degraded"; "bad"] (te_quality e); max_items 32 (te_fault_flags e) ]
  ++ measurements_checks (te_measurements e) ++ sample_quality_checks (te_sample_quality e)).

Definition clock_state_is_consistent (e : TelemetryEnvelope) : bool :=
  if negb (te_clock_synchronized e) && bool_decide (is_Some (te_device_time e)) then false
  else negb (te_clock_synchronized e && bool_decide (te_device_time e = None)).

Definition telemetry_validate : TelemetryEnvelope → result TelemetryEnvelope :=
  validate telemetry_errors clock_state_is_consistent.

(** [measurements.model_dump(mode="json")] and [sample_quality.model_dump(mode="json")]. *)
Definition dump_measurements (m : Measurements) : json := JObj [
  ("temperature_c", jopt JFloat (temperature_c m));
  ("vibration_rms_mps2", jopt JFloat (vibration_rms_mps2 m));
  ("vibration_peak_mps2", jopt JFloat (vibration_peak_mps2 m));
  ("vibration_crest_factor", jopt JFloat (vibration_crest_factor m));
  ("current_a", jopt JFloat (current_a m)) ].
Definition dump_sensor_quality (q : SensorQuality) : json := JObj [
  ("status", JStr (sq_status q)); ("valid_samples", JInt (sq_valid_samples q));
  ("expected_samples", JInt (sq_expected_samples q)); ("error_code", jopt JStr (sq_error_code q)) ].
Definition dump_sample_quality (q : SampleQuality) : json := JObj [
  ("temperature", dump_sensor_quality (temperature q));
  ("vibration", dump_sensor_quality (vibration q));
  ("current", dump_sensor_quality (current q)) ].

(** ** Health *)

Record HealthEnvelope := {
  he_schema_version : Z; he_message_id : string; he_site_id : string; he_device_id : string;
  he_sequence : Z; he_device_time : option datetime; he_uptime_ms : Z;
  he_firmware_version : string; he_status : string; he_rssi_dbm : option Z;
  he_reset_reason : string; he_reset_count : Z; he_queue_depth : Z; he_queue_capacity : Z;
  he_dropped_message_count : Z; he_modbus_status : string; he_active_faults : list string }.

Definition health_errors (e : HealthEnvelope) : nat := count_errors [
  he_schema_version e =? 1; is_identifier (he_site_id e); is_identifier (he_device_id e);
  ge 0 (he_sequence e); ge 0 (he_uptime_ms e); max_length 48 (he_firmware_version e);
  literal ["online"; "degraded"; "offline"] (he_status e);
  optional (λ r, ge (-127) r && le 0 r) (he_rssi_dbm e); max_length 48 (he_reset_reason e);
  ge 0 (he_reset_count e); ge 0 (he_queue_depth e); ge 1 (he_queue_capacity e);
  ge 0 (he_dropped_message_count e);
  literal ["ok"; "timeout"; "crc_error"; "exception"; "stale"; "disabled"] (he_modbus_status e);
  max_items 32 (he_active_faults e) ].
Definition health_validate : HealthEnvelope → result HealthEnvelope :=
  validate health_errors (λ _, true).

(** [envelope.model_dump(mode="json")]; [iso] is pydantic's text of a datetime. *)
Definition dump_health (iso : datetime → string) (e : HealthEnvelope) : json := JObj [
  ("schema_version", JInt (he_schema_version e)); ("message_id", JStr (he_message_id e));
  ("site_id", JStr (he_site_id e)); ("device_id", JStr (he_device_id e));
  ("sequence", JInt (he_sequence e)); ("device_time", jopt (λ d, JStr (iso d)) (he_device_time e));
  ("uptime_ms", JInt (he_uptime_ms e)); ("firmware_version", JStr (he_firmware_version e));
  ("status", JStr (he_status e)); ("rssi_dbm", jopt JInt (he_rssi_dbm e));
  ("reset_reason", JStr (he_reset_reason e)); ("reset_count", JInt (he_reset_count e));
  ("queue_depth", JInt (he_queue_depth e)); ("queue_capacity", JInt (he_queue_capacity e));
  ("dropped_message_count", JInt (he_dropped_message_count e));
  ("modbus_status", JStr (he_modbus_status e)); ("active_faults", jstrs (he_active_faults e)) ].

(** ** Command acknowledgements *)

Record CommandAckEnvelope := {
  ce_schema_version : Z; ce_message_id : string; ce_command_id : string; ce_site_id : string;
  ce_device_id : string; ce_device_time : option datetime; ce_status : string;
  ce_result_code : string; ce_detail : option string; ce_relay_on : bool }.

Definition ack_errors (e : CommandAckEnvelope) : nat := count_errors [
  ce_schema_version e =? 1; is_identifier (ce_site_id e); is_identifier (ce_device_id e);
  literal ["accepted"; "completed"; "rejected"; "expired"; "failed"] (ce_status e);
  is_result_code (ce_result_code e); optional (max_length 240) (ce_detail e) ].
Definition ack_validate : CommandAckEnvelope → result CommandAckEnvelope :=
  validate ack_errors (λ _, true).

(** ** Requests of the API *)

Record CalibrationCreate := {
  cc_sensor : string; cc_new_coefficients : list (string * float); cc_reason : string }.

Definition calibration_errors (r : CalibrationCreate) : nat := count_errors [
  literal ["temperature"; "vibration"; "current"] (cc_sensor r);
  (1 <=? length (cc_new_coefficients r))%nat; max_items 8 (cc_new_coefficients r);
  min_length 4 (cc_reason r) && max_length 240 (cc_reason r) ].
Definition coefficient (name : string) (l : list (string * float)) : option float :=
  snd <$> List.find (λ kv, String.eqb (fst kv) name) l.
Definition coefficients_are_bounded (r : CalibrationCreate) : bool :=
  let c := cc_new_coefficients r in
  if negb (forallb (λ kv, literal ["scale"; "offset"] kv.1) c) then false
  else if negb (optional (fbetween (lit 1 1) (of_int 10)) (coefficient "scale" c)) then false
  else optional (fbetween (of_int (-100)) (of_int 100)) (coefficient "offset" c).
Definition calibration_validate : CalibrationCreate → result CalibrationCreate :=
  validate calibration_errors coefficients_are_bounded.

Record MaintenanceCreate := {
  mc_status : string; mc_notes : string; mc_performed_at : datetime; mc_next_due_at : option datetime }.
Definition maintenance_statuses : list string := ["scheduled"; "completed"; "deferred"].
Definition maintenance_errors (r : MaintenanceCreate) : nat := count_errors [
  literal maintenance_statuses (mc_status r);
  min_length 3 (mc_notes r) && max_length 4000 (mc_notes r) ].
(** The comparison raises [TypeError] when one date is naive and the other
    aware; pydantic turns only a [ValueError] into a validation error. *)
Definition due_date_is_after_work (r : MaintenanceCreate) : result bool :=
  match mc_next_due_at r with
  | None => Ok true
  | Some due => late ← dt_leb due (mc_performed_at r); mret (negb late)
  end.
Definition maintenance_validate (r : MaintenanceCreate) : result MaintenanceCreate :=
  if negb (Nat.eqb (maintenance_errors r) 0) then Raise (ValidationError (maintenance_errors r))
  else ok ← due_date_is_after_work r;
       if ok : bool then Ok r else Raise (ValidationError 1).

(** [next_due_at] distinguishes an absent field from an explicit null
    ([model_fields_set]). *)
Record MaintenanceUpdate := {
  mu_status : option string; mu_notes : option string; mu_next_due_at : option (option datetime) }.
Definition maintenance_update_errors (r : MaintenanceUpdate) : nat := count_errors [
  optional (literal maintenance_statuses) (mu_status r);
  optional (λ n, min_length 3 n && max_length 4000 n) (mu_notes r) ].

Record RelayCommandCreate := { rc_relay_on : bool; rc_timeout_s : Z }.
Definition relay_errors (r : RelayCommandCreate) : nat := count_errors [
  ge 1 (rc_timeout_s r) && le 30 (rc_timeout_s r) ].
Definition relay_validate : RelayCommandCreate → result RelayCommandCreate :=
  validate relay_errors (λ _, true).

Record ThresholdConfigUpdate := {
  tu_temperature_warning_c : float; tu_temperature_critical_c : float;
  tu_vibration_warning_mps2 : float; tu_vibration_critical_mps2 : float;
  tu_current_warning_a : float; tu_current_critical_a : float; tu_hysteresis_percent : float }.
Definition threshold_errors (r : ThresholdConfigUpdate) : nat := count_errors [
  fbetween (of_int 0) (of_int 150) (tu_temperature_warning_c r);
  fbetween (of_int 0) (of_int 180) (tu_temperature_critical_c r);
  fbetween (of_int 0) (of_int 200) (tu_vibration_warning_mps2 r);
  fbetween (of_int 0) (of_int 400) (tu_vibration_critical_mps2 r);
  fbetween (of_int 0) (of_int 8) (tu_current_warning_a r);
  fbetween (of_int 0) (of_int 10) (tu_current_critical_a r);
  fbetween (of_int 1) (of_int 25) (tu_hysteresis_percent r) ].
Definition warnings_are_below_critical (r : ThresholdConfigUpdate) : bool :=
  negb (existsb (λ p, fleb p.2 p.1) [
    (tu_temperature_warning_c r, tu_temperature_critical_c r);
    (tu_vibration_warning_mps2 r, tu_vibration_critical_mps2 r);
    (tu_current_warning_a r, tu_current_critical_a r) ]).
Definition threshold_validate : ThresholdConfigUpdate → result ThresholdConfigUpdate :=
  validate threshold_errors warnings_are_below_critical.

(** [normalized_utc(value)] *)
Definition normalized_utc (value : datetime) : result datetime :=
  match offset value with
  | None => Ok (replace_utc value)
  | Some _ => astimezone_utc value
  end.

Lemma count_errors_0 l : count_errors l = 0%nat ↔ Forall (λ b, b = true) l.
Proof.
  induction l as [|b l IH]; simpl; [by split; [constructor|]|].
  rewrite Forall_cons, <- IH. destruct b; [tauto|]. split; [done|by intros [? _]].
Qed.
