(* ===== verification/Ingestion.v ===== *)
(** Idempotent persistence of validated envelopes:
    [services/api/app/ingestion.py], one definition per function, as blocks on
    a [Session]. *)
From S2P Require Import Prelude PyStr Float64 PyFormat Json PyTime Models Tables Session Schemas.
Local Open Scope py_scope.

Inductive Status := inserted | duplicate.
#[export] Instance Status_eq_dec : EqDecision Status.
Proof. solve_decision. Defined.
Record PersistResult := { status : Status; message_id : string }.

(** ** Threshold alarms *)

Definition replace_char (old new : ascii) (s : string) : string :=
  String.string_of_list_ascii
    (map (λ c, if Ascii.eqb c old then new else c) (String.list_ascii_of_string s)).
Definition upper_ascii (c : ascii) : ascii :=
  if (97 <=? N_of_ascii c)%N && (N_of_ascii c <=? 122)%N then ascii_of_N (N_of_ascii c - 32) else c.
Definition capitalize (s : string) : string :=
  match s with EmptyString => EmptyString | String c s' => String (upper_ascii c) (lower s') end.

Definition threshold_summary (metric : string) (value : float) (severity unit : string) : string :=
  let label := replace_char "_" " " metric in
  capitalize label +:+ " is " +:+ fmt_g 3 value +:+ " " +:+ unit +:+ "; " +:+ severity
  +:+ " threshold is active.".

(** [Alarm.device_id == d, Alarm.code == c, Alarm.state == "active"] *)
Definition is_active (device_id code : string) (a : Alarm) : bool :=
  String.eqb (a_device_id a) device_id && String.eqb (a_code a) code
  && String.eqb (a_state a) "active".
Definition active_alarm (device_id code : string) (d : DB) : option Alarm :=
  List.find (is_active device_id code) (alarms d).

Definition escalate (severity summary : string) (a : Alarm) : Alarm :=
  Build_Alarm (a_id a) (a_device_id a) (a_code a) severity (a_source a) (a_state a) summary
    (a_opened_at a) (a_cleared_at a) (a_acknowledged_at a) (a_acknowledged_by a).
Definition clear (now : Z) (a : Alarm) : Alarm :=
  Build_Alarm (a_id a) (a_device_id a) (a_code a) (a_severity a) (a_source a) "cleared" (a_summary a)
    (a_opened_at a) (Some now) (a_acknowledged_at a) (a_acknowledged_by a).

Definition desired_severity (value warning critical : float) : option string :=
  if fleb critical value then Some "critical"
  else if fleb warning value then Some "warning"
  else None.

(** [warning * (1 - hysteresis_percent / 100)] *)
Definition clear_below (warning hysteresis_percent : float) : float :=
  warning ⊗ (of_int 1 ⊖ hysteresis_percent ⊘ of_int 100).

Definition apply_metric_alarm (device_id code metric unit : string) (value : option float)
    (warning critical hysteresis_percent : float) : DBM () :=
  match value with
  | None => mret ()
  | Some value =>
      active ← query (active_alarm device_id code);
      let desired := desired_severity value warning critical in
      now ← utc_now;
      match desired with
      | Some severity =>
          let summary := threshold_summary metric value severity unit in
          match active with
          | None => add (insert_alarm (new_alarm now device_id code severity "threshold" summary))
          | Some a => add (update_alarm (a_id a) (escalate severity summary))
          end
      | None =>
          match active with
          | Some a =>
              if fltb value (clear_below warning hysteresis_percent)
              then add (update_alarm (a_id a) (clear now))
              else mret ()
          | None => mret ()
          end
      end
  end.

Definition apply_threshold_alarms (device_id : string) (values : Measurements) : DBM () :=
  found ← query (get_threshold_config device_id);
  config ← match found with
           | Some config => mret config
           | None =>
               now ← utc_now;
               let config := new_threshold_config now device_id in
               add (insert_threshold_config config);;
               flush;;
               mret config
           end;
  apply_metric_alarm device_id "TEMPERATURE_THRESHOLD" "temperature" "deg C"
    (temperature_c values) (c_temperature_warning_c config) (c_temperature_critical_c config)
    (c_hysteresis_percent config);;
  apply_metric_alarm device_id "VIBRATION_THRESHOLD" "vibration RMS" "m/s^2"
    (vibration_rms_mps2 values) (c_vibration_warning_mps2 config) (c_vibration_critical_mps2 config)
    (c_hysteresis_percent config);;
  apply_metric_alarm device_id "CURRENT_THRESHOLD" "current" "A"
    (current_a values) (c_current_warning_a config) (c_current_critical_a config)
    (c_hysteresis_percent config).

(** ** Telemetry *)

(** The attributes [persist_telemetry] assigns to the device. *)
Definition seen_telemetry (now : Z) (e : TelemetryEnvelope) (d : Device) : Device :=
  Build_Device (d_id d) (d_site_id d) (d_display_name d) (d_asset_class d) (d_simulated d)
    (Some (te_firmware_version e))
    (if negb (String.eqb (te_quality e) "good") then "degraded" else "online")
    (Some now) (d_rssi_dbm d) (d_reset_reason d) (d_reset_count d) (d_queue_depth d)
    (d_queue_capacity d) (d_dropped_message_count d) (d_modbus_status d) (te_fault_flags e)
    (d_created_at d).

Definition telemetry_row (now : Z) (e : TelemetryEnvelope) : Telemetry := {|
  t_id := 0; t_message_id := te_message_id e; t_device_id := te_device_id e;
  t_site_id := te_site_id e; t_sequence := te_sequence e; t_device_time := te_device_time e;
  t_received_at := now; t_clock_synchronized := te_clock_synchronized e;
  t_uptime_ms := te_uptime_ms e; t_firmware_version := te_firmware_version e;
  t_quality := te_quality e; t_replayed := te_replayed e;
  t_temperature_c := temperature_c (te_measurements e);
  t_vibration_rms_mps2 := vibration_rms_mps2 (te_measurements e);
  t_vibration_peak_mps2 := vibration_peak_mps2 (te_measurements e);
  t_vibration_crest_factor := vibration_crest_factor (te_measurements e);
  t_current_a := current_a (te_measurements e);
  t_sample_quality := dump_sample_quality (te_sample_quality e);
  t_fault_flags := te_fault_flags e;
  t_anomaly_score := None; t_anomaly_percentile := None; t_anomaly_reason := None |}.

Definition telemetry_event (e : TelemetryEnvelope) : json := JObj [
  ("type", JStr "telemetry"); ("device_id", JStr (te_device_id e));
  ("message_id", JStr (te_message_id e)); ("sequence", JInt (te_sequence e));
  ("quality", JStr (te_quality e)); ("measurements", dump_measurements (te_measurements e));
  ("fault_flags", jstrs (te_fault_flags e)) ].

Definition find_message (m : string) (d : DB) : option Telemetry :=
  List.find (same_message m) (telemetry d).
Definition sequence_owner (device_id : string) (sequence : Z) (d : DB) : option Telemetry :=
  List.find (same_sequence device_id sequence) (telemetry d).

Definition collision_message (sequence : Z) : string :=
  "sequence " +:+ str_of_Z sequence +:+ " already belongs to another message".
Definition site_mismatch : string := "topic site does not match registered device site".

(** The device row a message updates or creates. *)
Definition touch_device (device_id site_id : string) (now : Z) (seen : Device → Device)
    (found : option Device) : DBM () :=
  match found with
  | Some _ => add (update_device device_id seen)
  | None =>
      created_at ← utc_now;
      add (insert_device (seen (new_device created_at device_id site_id device_id "dc-motor" true)))
  end.

Definition site_differs (site_id : string) (found : option Device) : bool :=
  match found with Some d => negb (String.eqb (d_site_id d) site_id) | None => false end.

(** Everything before [session.commit()]. *)
Definition stage_telemetry (e : TelemetryEnvelope) : DBM () :=
  found ← query (get_device (te_device_id e));
  if site_differs (te_site_id e) found then raise (ValueError site_mismatch)
  else
    now ← utc_now;
    touch_device (te_device_id e) (te_site_id e) now (seen_telemetry now e) found;;
    add (insert_telemetry (telemetry_row now e));;
    apply_threshold_alarms (te_device_id e) (te_measurements e);;
    notify_after_commit (telemetry_event e).

(** [try: session.commit() except IntegrityError: ...] and what follows. *)
Definition finish_telemetry (m : string) : DBM PersistResult :=
  try_except (commit;; mret {| status := inserted; message_id := m |})
    (λ err, match err with
            | IntegrityError => Some (
                rollback;;
                existing ← query (find_message m);
                match existing with
                | Some _ => mret {| status := duplicate; message_id := m |}
                | None => raise IntegrityError
                end)
            | _ => None
            end).

Definition persist_telemetry (e : TelemetryEnvelope) : DBM PersistResult :=
  let m := te_message_id e in
  existing ← query (find_message m);
  match existing with
  | Some _ => mret {| status := duplicate; message_id := m |}
  | None =>
      owner ← query (sequence_owner (te_device_id e) (te_sequence e));
      match owner with
      | Some _ => raise (SequenceCollisionError (collision_message (te_sequence e)))
      | None => stage_telemetry e;; finish_telemetry m
      end
  end.

(** ** Health *)

Definition seen_health (now : Z) (e : HealthEnvelope) (d : Device) : Device :=
  Build_Device (d_id d) (d_site_id d) (d_display_name d) (d_asset_class d) (d_simulated d)
    (Some (he_firmware_version e)) (he_status e) (Some now) (he_rssi_dbm e)
    (Some (he_reset_reason e)) (he_reset_count e) (he_queue_depth e) (he_queue_capacity e)
    (he_dropped_message_count e) (he_modbus_status e) (he_active_faults e) (d_created_at d).

Definition health_event (e : HealthEnvelope) : json := JObj [
  ("type", JStr "health"); ("device_id", JStr (he_device_id e)); ("status", JStr (he_status e));
  ("queue_depth", JInt (he_queue_depth e)); ("modbus_status", JStr (he_modbus_status e));
  ("active_faults", jstrs (he_active_faults e)) ].

Definition find_health (m : string) (d : DB) : option HealthSnapshot :=
  List.find (λ h, String.eqb (h_message_id h) m) (health_snapshots d).

Definition persist_health (iso : datetime → string) (e : HealthEnvelope) : DBM PersistResult :=
  let m := he_message_id e in
  existing ← query (find_health m);
  match existing with
  | Some _ => mret {| status := duplicate; message_id := m |}
  | None =>
      found ← query (get_device (he_device_id e));
      if site_differs (he_site_id e) found then raise (ValueError site_mismatch)
      else
        now ← utc_now;
        touch_device (he_device_id e) (he_site_id e) now (seen_health now e) found;;
        received ← utc_now;
        add (insert_health (new_health received m (he_device_id e) (dump_health iso e)));;
        notify_after_commit (health_event e);;
        commit;;
        mret {| status := inserted; message_id := m |}
  end.

(** ** Command acknowledgements *)

Definition acknowledge (now : Z) (e : CommandAckEnvelope) (x : DeviceCommand) : DeviceCommand :=
  Build_DeviceCommand (x_command_id x) (x_device_id x) (x_kind x) (x_parameters x) (ce_status e)
    (Some (ce_result_code e)) (ce_detail e) (x_issued_by x) (x_issued_at x) (x_expires_at x)
    (Some now).

Definition ack_details (e : CommandAckEnvelope) : list (string * json) := [
  ("status", JStr (ce_status e)); ("result_code", JStr (ce_result_code e));
  ("relay_on", JBool (ce_relay_on e)) ].
Definition ack_event (e : CommandAckEnvelope) (command_id : string) : json := JObj ([
  ("type", JStr "command_ack"); ("device_id", JStr (ce_device_id e));
  ("command_id", JStr command_id) ] ++ ack_details e).

Definition persist_command_ack (e : CommandAckEnvelope) : DBM PersistResult :=
  let m := ce_message_id e in
  found ← query (get_command (ce_command_id e));
  match found with
  | None => raise (ValueError "acknowledgement references an unknown command")
  | Some x =>
      if negb (String.eqb (x_device_id x) (ce_device_id e))
      then raise (ValueError "acknowledgement device does not match command")
      else if bool_decide (is_Some (x_acknowledged_at x)) && String.eqb (x_status x) (ce_status e)
      then mret {| status := duplicate; message_id := m |}
      else
        now ← utc_now;
        add (update_command (x_command_id x) (acknowledge now e));;
        created ← utc_now;
        add (insert_audit (new_audit created (ce_device_id e) "command_acknowledged"
               "device_command" (x_command_id x) (JObj (ack_details e))));;
        notify_after_commit (ack_event e (x_command_id x));;
        commit;;
        mret {| status := inserted; message_id := m |}
  end.
