(* ===== verification/AlarmFacts.v ===== *)
(** The alarm table under threshold evaluation: the abstract per-metric state
    machine, the effect of one metric on the list of alarms, and its lemmas
    (shared by the ingestion properties and the anomaly worker). *)
From S2P Require Import Prelude PyStr Float64 Json PyTime Models Tables Session Schemas Ingestion.

(** ** Abstract state machine

    The state of a device's metric is the severity of its active alarm. *)
Definition alarm_step (value : option float) (warning critical hysteresis : float)
    (state : option string) : option string :=
  match value with
  | None => state
  | Some v =>
      match desired_severity v warning critical with
      | Some severity => Some severity
      | None => if fltb v (clear_below warning hysteresis) then None else state
      end
  end.

Definition active_in (device_id code : string) (l : list Alarm) : option Alarm :=
  List.find (is_active device_id code) l.
Definition severity_in (device_id code : string) (l : list Alarm) : option string :=
  a_severity <$> active_in device_id code l.

(** ** Invariant of the table *)

(** Keys are 1, 2, ...; at most one active alarm per device and code; an alarm
    is active or cleared, and has a clearing time exactly when cleared. *)
Definition keyed (l : list Alarm) : Prop := map a_id l = seqZ 1 (Z.of_nat (length l)).
Definition one_active (l : list Alarm) : Prop :=
  ∀ device_id code, (length (List.filter (is_active device_id code) l) ≤ 1)%nat.
Definition lifecycle (a : Alarm) : Prop :=
  (a_state a = "active" ∧ a_cleared_at a = None)
  ∨ (a_state a = "cleared" ∧ is_Some (a_cleared_at a)).
Definition alarms_wf (l : list Alarm) : Prop := keyed l ∧ one_active l ∧ Forall lifecycle l.

(** An update of a row that keeps its key columns. *)
Definition keeps_key (f : Alarm → Alarm) : Prop :=
  ∀ a, a_id (f a) = a_id a ∧ a_device_id (f a) = a_device_id a ∧ a_code (f a) = a_code a.

Lemma keyed_nodup l : keyed l → NoDup (map a_id l).
Proof. intros ->. apply NoDup_seqZ. Qed.

Lemma find_split {A} (p : A → bool) (l : list A) a :
  List.find p l = Some a →
  ∃ l1 l2, l = l1 ++ a :: l2 ∧ p a = true ∧ List.find p l1 = None.
Proof.
  induction l as [|x l IH]; simpl; [done|]. destruct (p x) eqn:Hx.
  - intros [= ->]. by exists [], l.
  - intros (l1 & l2 & -> & Ha & Hn)%IH. exists (x :: l1), l2. simpl. by rewrite Hx.
Qed.

Lemma update_where_other {A} (p : A → bool) f (l : list A) :
  (∀ x, x ∈ l → p x = false) → update_where p f l = l.
Proof.
  induction l as [|x l IH]; intros H; [done|]. unfold update_where in *. simpl.
  rewrite (H x) by left. f_equal. apply IH. intros y Hy. apply H. by right.
Qed.

(** Updating by key changes exactly the row found. *)
Lemma update_where_split (l1 l2 : list Alarm) a f :
  NoDup (map a_id (l1 ++ a :: l2)) →
  update_where (λ r, a_id r =? a_id a) f (l1 ++ a :: l2) = l1 ++ f a :: l2.
Proof.
  rewrite map_app, NoDup_app. simpl. rewrite NoDup_cons. intros (_ & Hd & Hn & _).
  unfold update_where. rewrite map_app. simpl. rewrite Z.eqb_refl.
  assert (Hne : ∀ l, a_id a ∉ map a_id l → map (λ r, if a_id r =? a_id a then f r else r) l = l).
  { intros l Hl. apply update_where_other. intros x Hx. apply Z.eqb_neq. intros E.
    apply Hl. rewrite <- E. by apply list_elem_of_fmap_2. }
  rewrite (Hne l2) by done. rewrite Hne; [done|].
  intros Hin. apply (Hd _ Hin). by left.
Qed.

Lemma active_in_app d c l1 l2 :
  active_in d c (l1 ++ l2) = match active_in d c l1 with Some a => Some a | None => active_in d c l2 end.
Proof. apply find_app. Qed.

Lemma one_active_rest d c l1 a l2 :
  one_active (l1 ++ a :: l2) → is_active d c a = true →
  active_in d c l1 = None ∧ active_in d c l2 = None.
Proof.
  intros Hone Ha. specialize (Hone d c).
  rewrite List.filter_app, length_app in Hone. simpl in Hone. rewrite Ha in Hone. simpl in Hone.
  assert (Hf : ∀ l, length (List.filter (is_active d c) l) = 0%nat → active_in d c l = None).
  { intros l Hl. unfold active_in. induction l as [|x l IH]; [done|]. simpl in *.
    destruct (is_active d c x); [done|]. by apply IH. }
  split; apply Hf; lia.
Qed.

Lemma filter_active_none d c l : active_in d c l = None → List.filter (is_active d c) l = [].
Proof.
  unfold active_in. induction l as [|x l IH]; [done|]. simpl.
  by destruct (is_active d c x).
Qed.

Lemma keyed_app l a : keyed l → a_id a = next_id l → keyed (l ++ [a]).
Proof.
  unfold keyed, next_id. intros Hk Ha. rewrite map_app, length_app, Hk. simpl.
  rewrite Nat2Z.inj_add, seqZ_app by lia. f_equal. rewrite Ha. simpl. unfold seqZ. simpl.
  f_equal. lia.
Qed.

Lemma keyed_update l1 a l2 f :
  keeps_key f → keyed (l1 ++ a :: l2) → keyed (l1 ++ f a :: l2).
Proof.
  unfold keyed. intros Hf. rewrite !map_app, !length_app. simpl.
  by destruct (Hf a) as [-> _].
Qed.

(** ** The effect of one metric *)

Section Metric.
Context (device_id code metric unit : string) (value : option float).
Context (warning critical hysteresis : float) (now : Z).

(** The write [apply_metric_alarm] adds to the unit of work, and its effect
    on the list of alarms. *)
Definition metric_write (d : DB) : list write :=
  match value with
  | None => []
  | Some v =>
      match desired_severity v warning critical, active_in device_id code (alarms d) with
      | Some sev, None =>
          [insert_alarm (new_alarm now device_id code sev "threshold" (threshold_summary metric v sev unit))]
      | Some sev, Some a => [update_alarm (a_id a) (escalate sev (threshold_summary metric v sev unit))]
      | None, Some a =>
          if fltb v (clear_below warning hysteresis) then [update_alarm (a_id a) (clear now)] else []
      | None, None => []
      end
  end.

Definition metric_effect (l : list Alarm) : list Alarm :=
  match value with
  | None => l
  | Some v =>
      match desired_severity v warning critical, active_in device_id code l with
      | Some sev, None =>
          l ++ [with_a_id (next_id l)
                  (new_alarm now device_id code sev "threshold" (threshold_summary metric v sev unit))]
      | Some sev, Some a =>
          update_where (λ r, a_id r =? a_id a) (escalate sev (threshold_summary metric v sev unit)) l
      | None, Some a =>
          if fltb v (clear_below warning hysteresis)
          then update_where (λ r, a_id r =? a_id a) (clear now) l else l
      | None, None => l
      end
  end.

(** Three shapes of effect: none, a new active row, one row updated. *)
Inductive metric_case (l : list Alarm) : list Alarm → Prop :=
  | Metric_same :
      alarm_step value warning critical hysteresis (severity_in device_id code l)
        = severity_in device_id code l →
      metric_case l l
  | Metric_open a :
      active_in device_id code l = None → is_active device_id code a = true →
      a_device_id a = device_id → a_code a = code →
      a_cleared_at a = None → a_id a = next_id l →
      alarm_step value warning critical hysteresis None = Some (a_severity a) →
      metric_case l (l ++ [a])
  | Metric_update l1 a l2 f :
      l = l1 ++ a :: l2 → is_active device_id code a = true → keeps_key f →
      (∀ b, lifecycle b → lifecycle (f b)) →
      active_in device_id code l1 = None → active_in device_id code l2 = None →
      alarm_step value warning critical hysteresis (Some (a_severity a))
        = (if is_active device_id code (f a) then Some (a_severity (f a)) else None) →
      metric_case l (l1 ++ f a :: l2).

Lemma is_active_new id sev summary :
  is_active device_id code (with_a_id id (new_alarm now device_id code sev "threshold" summary)) = true.
Proof. unfold is_active; simpl. by rewrite !String.eqb_refl. Qed.

Lemma active_key a : is_active device_id code a = true →
  a_device_id a = device_id ∧ a_code a = code ∧ a_state a = "active".
Proof. unfold is_active. rewrite !andb_true_iff, !String.eqb_eq. tauto. Qed.

Lemma metric_effect_case l : alarms_wf l → metric_case l (metric_effect l).
Proof.
  intros (Hk & Hone & _). unfold metric_effect.
  destruct value as [v|] eqn:Hv; [|apply Metric_same; by rewrite Hv].
  destruct (desired_severity v warning critical) as [sev|] eqn:Hd.
  - destruct (active_in device_id code l) as [a|] eqn:Ha.
    + destruct (find_split _ _ _ Ha) as (l1 & l2 & -> & Hact & _).
      rewrite update_where_split by (by apply keyed_nodup).
      destruct (one_active_rest _ _ _ _ _ Hone Hact) as [H1 H2].
      apply (Metric_update _ l1 a l2); try done. rewrite Hv. cbn [alarm_step]. rewrite Hd.
      change (is_active device_id code (escalate _ _ a)) with (is_active device_id code a).
      by rewrite Hact.
    + eapply Metric_open; try done; [apply is_active_new|]. rewrite Hv. simpl. by rewrite Hd.
  - destruct (active_in device_id code l) as [a|] eqn:Ha.
    + destruct (fltb v (clear_below warning hysteresis)) eqn:Hc.
      * destruct (find_split _ _ _ Ha) as (l1 & l2 & -> & Hact & _).
        rewrite update_where_split by (by apply keyed_nodup).
        destruct (one_active_rest _ _ _ _ _ Hone Hact) as [H1 H2].
        apply (Metric_update _ l1 a l2); try done.
        { intros b _. right. split; [done|]. by eexists. }
        rewrite Hv. cbn [alarm_step]. rewrite Hd, Hc. unfold is_active. simpl. by rewrite andb_false_r.
      * apply Metric_same. unfold severity_in. rewrite Ha, Hv. simpl. by rewrite Hd, Hc.
    + apply Metric_same. unfold severity_in. rewrite Ha, Hv. simpl. rewrite Hd.
      by destruct (fltb _ _).
Qed.
End Metric.

Lemma is_active_other d c a device_id code :
  a_device_id a = device_id → a_code a = code → (d, c) ≠ (device_id, code) →
  is_active d c a = false.
Proof.
  intros <- <- Hne. unfold is_active. apply not_true_iff_false. rewrite !andb_true_iff, !String.eqb_eq.
  intros [[<- <-] _]. done.
Qed.

Lemma active_in_cons d c a l :
  active_in d c (a :: l) = if is_active d c a then Some a else active_in d c l.
Proof. reflexivity. Qed.

Lemma active_in_update_none d c l1 a l2 :
  is_active d c a = false →
  active_in d c (l1 ++ a :: l2) = match active_in d c l1 with Some b => Some b | None => active_in d c l2 end.
Proof. intros Ha. by rewrite active_in_app, active_in_cons, Ha. Qed.

Lemma one_active_app l a :
  one_active l → active_in (a_device_id a) (a_code a) l = None → one_active (l ++ [a]).
Proof.
  intros Hone Hn d c. rewrite List.filter_app, length_app. simpl.
  destruct (is_active d c a) eqn:Ha; simpl; [|specialize (Hone d c); lia].
  apply active_key in Ha as (<- & <- & _).
  rewrite filter_active_none by done. simpl. lia.
Qed.

Lemma one_active_update l1 a l2 f :
  keeps_key f → one_active (l1 ++ a :: l2) → a_state a = "active" → one_active (l1 ++ f a :: l2).
Proof.
  intros Hf Hone Hs d c. specialize (Hone d c).
  rewrite List.filter_app, length_app in *. simpl in *.
  destruct (is_active d c (f a)) eqn:Hfa; [|destruct (is_active d c a); simpl in *; lia].
  replace (is_active d c a) with true in Hone; [simpl in *; lia|].
  apply active_key in Hfa as (E1 & E2 & _). destruct (Hf a) as (_ & E3 & E4).
  unfold is_active. rewrite <- E3, <- E4, E1, E2, Hs, !String.eqb_refl. done.
Qed.

(** A change of the alarm of one device and code: none, a new active row, or an
    update of the active one. *)
Inductive alarm_change (device_id code : string) (l : list Alarm) : list Alarm → Prop :=
  | Change_none : alarm_change device_id code l l
  | Change_open a :
      active_in device_id code l = None → is_active device_id code a = true →
      a_cleared_at a = None → a_id a = next_id l → alarm_change device_id code l (l ++ [a])
  | Change_update l1 a l2 f :
      l = l1 ++ a :: l2 → is_active device_id code a = true → keeps_key f →
      (∀ b, lifecycle b → lifecycle (f b)) →
      active_in device_id code l1 = None → active_in device_id code l2 = None →
      alarm_change device_id code l (l1 ++ f a :: l2).

(** It leaves the other alarms alone ... *)
Lemma alarm_change_frame device_id code l l' d k :
  alarm_change device_id code l l' → (d, k) ≠ (device_id, code) → active_in d k l' = active_in d k l.
Proof.
  intros [|a Hn Ha _ _|l1 a l2 f -> Ha Hf _ _ _] Hne; [done|..].
  - apply active_key in Ha as (Hd & Hk & _). rewrite active_in_app, active_in_cons.
    rewrite (is_active_other _ _ _ _ _ Hd Hk Hne). simpl. by destruct (active_in d k l).
  - apply active_key in Ha as (Hd & Hk & _). destruct (Hf a) as (_ & Efd & Efk).
    rewrite !active_in_update_none; [done|by eapply is_active_other|].
    eapply is_active_other; [|..|exact Hne]; congruence.
Qed.

(** ... and keeps the table well-formed. *)
Lemma alarm_change_wf device_id code l l' :
  alarm_change device_id code l l' → alarms_wf l → alarms_wf l'.
Proof.
  intros [|a Hn Ha Hcl Hid|l1 a l2 f -> Ha Hf Hlf _ _] (Hk & Hone & Hlc); [done|..].
  - apply active_key in Ha as (Hd & Hc & Hs). split; [by apply keyed_app|]. split.
    + apply one_active_app; [done|]. by rewrite Hd, Hc.
    + apply Forall_app_2; [done|]. repeat constructor; done.
  - apply active_key in Ha as (_ & _ & Hs). split; [by apply (keyed_update l1 a)|]. split.
    + by apply (one_active_update l1 a).
    + apply Forall_app in Hlc as [H1 [H2 H3]%Forall_cons].
      apply Forall_app_2; [done|]. apply List.Forall_cons; auto.
Qed.

Section MetricCase.
Context (device_id code : string) (value : option float) (w c h : float).

(** The effect refines the abstract state machine of its metric ... *)
Lemma metric_case_step l l' :
  metric_case device_id code value w c h l l' →
  severity_in device_id code l' = alarm_step value w c h (severity_in device_id code l).
Proof.
  intros [Hs|a Hn Ha _ _ _ _ Hst|l1 a l2 f -> Ha Hf _ H1 H2 Hst]; [done|..];
    unfold severity_in.
  - rewrite active_in_app, Hn, active_in_cons, Ha. simpl. by rewrite Hst.
  - rewrite !active_in_app, H1, !active_in_cons, Ha, H2. cbn [fmap option_fmap option_map]. rewrite Hst.
    by destruct (is_active device_id code (f a)).
Qed.

(** ... and is a change of its own alarm only. *)
Lemma metric_case_change l l' :
  metric_case device_id code value w c h l l' → alarm_change device_id code l l'.
Proof.
  intros [_|a Hn Ha _ _ Hcl Hid _|l1 a l2 f E Ha Hf Hlf H1 H2 _];
    [apply Change_none|by apply Change_open|by eapply Change_update].
Qed.
Lemma metric_case_frame l l' d k :
  metric_case device_id code value w c h l l' → (d, k) ≠ (device_id, code) → active_in d k l' = active_in d k l.
Proof. intros H%metric_case_change. by eapply alarm_change_frame. Qed.
Lemma metric_case_wf l l' :
  metric_case device_id code value w c h l l' → alarms_wf l → alarms_wf l'.
Proof. intros H%metric_case_change. by eapply alarm_change_wf. Qed.
End MetricCase.

(** ** Running the write of one metric *)

Lemma guard_data_ok b k d : guard_data b k = Ok d ↔ b = true ∧ k = Ok d.
Proof. unfold guard_data. destruct b; [tauto|]. split; [done|by intros [? _]]. Qed.
Lemma guard_integrity_ok b k d : guard_integrity b k = Ok d ↔ b = true ∧ k = Ok d.
Proof. unfold guard_integrity. destruct b; [tauto|]. split; [done|by intros [? _]]. Qed.

Lemma run_writes_app ws1 ws2 d :
  run_writes (ws1 ++ ws2) d = run_writes ws1 d ≫= run_writes ws2.
Proof.
  revert d. induction ws1 as [|w ws IH]; intros d; [done|]. simpl.
  unfold mbind, result_bind in *. destruct (w d); [apply IH|done].
Qed.
Lemma run_writes_cons_ok w ws d d' :
  run_writes (w :: ws) d = Ok d' ↔ ∃ d1, w d = Ok d1 ∧ run_writes ws d1 = Ok d'.
Proof.
  simpl. unfold mbind, result_bind. destruct (w d); [|split; [done|by intros (? & ? & _)]].
  split; [by eauto|]. by intros (? & [= <-] & ?).
Qed.
Lemma run_writes_app_ok ws1 ws2 d d' :
  run_writes (ws1 ++ ws2) d = Ok d' ↔ ∃ d1, run_writes ws1 d = Ok d1 ∧ run_writes ws2 d1 = Ok d'.
Proof.
  rewrite run_writes_app. unfold mbind, result_bind.
  destruct (run_writes ws1 d); [|split; [done|by intros (? & ? & _)]].
  split; [by eauto|]. by intros (? & [= <-] & ?).
Qed.

Lemma set_alarms_id d : set_alarms (alarms d) d = d.
Proof. by destruct d. Qed.

Lemma metric_write_run dev code metric unit v w c h now d0 d d' :
  active_in dev code (alarms d) = active_in dev code (alarms d0) →
  run_writes (metric_write dev code metric unit v w c h now d0) d = Ok d' →
  d' = set_alarms (metric_effect dev code metric unit v w c h now (alarms d)) d.
Proof.
  intros Hact. unfold metric_write, metric_effect. rewrite <- Hact.
  destruct v as [x|]; [|intros [= <-]; by rewrite set_alarms_id].
  destruct (desired_severity x w c), (active_in dev code (alarms d)).
  - rewrite run_writes_cons_ok. intros (d1 & [_ [= <-]]%guard_data_ok & [= <-]). done.
  - rewrite run_writes_cons_ok.
    intros (d1 & [_ [_ [= <-]]%guard_integrity_ok]%guard_data_ok & [= <-]). done.
  - destruct (fltb x (clear_below w h)); [|intros [= <-]; by rewrite set_alarms_id].
    rewrite run_writes_cons_ok. intros (d1 & [_ [= <-]]%guard_data_ok & [= <-]). done.
  - intros [= <-]. by rewrite set_alarms_id.
Qed.
