(* ===== verification/Keys.v ===== *)
(** The key constraints of the database (unique, primary and foreign keys) as
    an invariant, and its preservation by every write of [Tables.v] the
    program uses. *)
From S2P Require Import Prelude PyStr Float64 Json PyTime Models Tables AlarmFacts.

Definition device_ids (d : DB) : list string := map d_id (devices d).
Definition seq_key (t : Telemetry) : string * Z := (t_device_id t, t_sequence t).

Record keys_wf (d : DB) : Prop := {
  kw_devices : NoDup (device_ids d);
  kw_messages : NoDup (map t_message_id (telemetry d));
  kw_sequences : NoDup (map seq_key (telemetry d));
  kw_telemetry_fk : Forall (λ t, t_device_id t ∈ device_ids d) (telemetry d);
  kw_alarm_fk : Forall (λ a, a_device_id a ∈ device_ids d) (alarms d);
  kw_configs : NoDup (map c_device_id (threshold_configs d));
  kw_config_fk : Forall (λ c, c_device_id c ∈ device_ids d) (threshold_configs d);
  kw_health : NoDup (map h_message_id (health_snapshots d));
  kw_health_fk : Forall (λ h, h_device_id h ∈ device_ids d) (health_snapshots d);
  kw_commands : NoDup (map x_command_id (device_commands d));
  kw_command_fk : Forall (λ x, x_device_id x ∈ device_ids d) (device_commands d)
}.

Lemma empty_keys_wf : keys_wf empty_db.
Proof. constructor; try apply NoDup_nil_2; apply List.Forall_nil. Qed.

Lemma has_device_elem id d : has_device id d = true ↔ id ∈ device_ids d.
Proof.
  unfold has_device, device_ids, by_id. rewrite existsb_exists. split.
  - intros (x & Hx & <-%String.eqb_eq). apply list_elem_of_In in Hx. by apply list_elem_of_fmap_2.
  - intros (x & -> & Hx)%list_elem_of_fmap. exists x. rewrite <- list_elem_of_In.
    by rewrite String.eqb_refl.
Qed.

Lemma existsb_false_notin {A B} `{EqDecision B} (p : A → bool) (key : A → B) (k : B) (l : list A) :
  (∀ x, key x = k → p x = true) → existsb p l = false → k ∉ map key l.
Proof.
  intros Hp Hf (x & -> & Hx)%list_elem_of_fmap.
  assert (existsb p l = true); [|congruence].
  rewrite existsb_exists. exists x. rewrite <- list_elem_of_In. auto.
Qed.

Lemma nodup_snoc {A B} (key : A → B) (l : list A) x :
  NoDup (map key l) → key x ∉ map key l → NoDup (map key (l ++ [x])).
Proof.
  intros Hl Hx. rewrite map_app. apply NoDup_app. split; [done|]. split.
  - intros y Hy. simpl. rewrite list_elem_of_singleton. by intros ->.
  - apply NoDup_singleton.
Qed.

Lemma map_update_where {A B} (key : A → B) p f (l : list A) :
  (∀ x, key (f x) = key x) → map key (update_where p f l) = map key l.
Proof.
  intros Hf. unfold update_where. rewrite map_map. apply map_ext. intros x.
  destruct (p x); auto.
Qed.

Lemma Forall_update_where {A} (P : A → Prop) p f (l : list A) :
  (∀ x, P x → P (f x)) → Forall P l → Forall P (update_where p f l).
Proof.
  intros Hf Hl. unfold update_where. induction Hl as [|x l Hx Hl IH]; simpl; [constructor|].
  constructor; [destruct (p x); auto|done].
Qed.

Lemma Forall_snoc {A} (P : A → Prop) l x : Forall P l → P x → Forall P (l ++ [x]).
Proof. intros. apply Forall_app_2; [done|]. by apply List.Forall_cons. Qed.

(** ** Writes preserve the invariant *)

Definition keeps_keys (w : write) : Prop := ∀ d d', w d = Ok d' → keys_wf d → keys_wf d'.

(** Open the guards of an executed write. *)
Ltac open_write H :=
  repeat first
    [ apply guard_data_ok in H as [? H]
    | apply guard_integrity_ok in H as [? H] ];
  injection H as <-; b2p; inv_all.

Lemma update_device_keys id f :
  (∀ x, d_id (f x) = d_id x) → keeps_keys (update_device id f).
Proof.
  intros Hf d d' H [? ? ? ? ? ? ? ? ? ? ?]. unfold update_device in H. open_write H.
  assert (E : device_ids (set_devices (update_where (by_id id) f (devices d)) d) = device_ids d)
    by (by apply map_update_where).
  constructor; rewrite ?E; done.
Qed.

Lemma insert_device_keys x : keeps_keys (insert_device x).
Proof.
  intros d d' H [? ? ? ? ? ? ? ? ? ? ?]. unfold insert_device in H. open_write H.
  assert (Hn : d_id x ∉ device_ids d).
  { intros Hin%has_device_elem. congruence. }
  set (d' := set_devices _ d).
  assert (Hsub : ∀ y, y ∈ device_ids d → y ∈ device_ids d').
  { intros y Hy. unfold device_ids, d'. simpl. rewrite map_app. apply elem_of_app. by left. }
  assert (Hnd : NoDup (device_ids d')).
  { unfold device_ids, d'. simpl. by apply nodup_snoc. }
  constructor; try done; (eapply Forall_impl; [eassumption|]; simpl; auto).
Qed.

Lemma insert_telemetry_keys t : keeps_keys (insert_telemetry t).
Proof.
  intros d d' H [? ? ? ? ? ? ? ? ? ? ?]. unfold insert_telemetry in H. open_write H.
  constructor; try done; simpl.
  - apply nodup_snoc; [done|].
    eapply (existsb_false_notin (same_message (t_message_id t))); [|done].
    intros y Hy. unfold same_message. rewrite Hy. apply String.eqb_refl.
  - apply nodup_snoc; [done|].
    eapply (existsb_false_notin (same_sequence (t_device_id t) (t_sequence t))); [|done].
    unfold seq_key. intros y [= Hy Hs]. unfold same_sequence.
    by rewrite Hy, Hs, String.eqb_refl, Z.eqb_refl.
  - apply Forall_snoc; [done|]. by apply has_device_elem.
Qed.

Lemma insert_alarm_keys a : keeps_keys (insert_alarm a).
Proof.
  intros d d' H [? ? ? ? ? ? ? ? ? ? ?]. unfold insert_alarm in H. open_write H.
  constructor; try done; simpl. apply Forall_snoc; [done|]. by apply has_device_elem.
Qed.

Lemma update_alarm_keys id f : keeps_key f → keeps_keys (update_alarm id f).
Proof.
  intros Hf d d' H [? ? ? ? ? ? ? ? ? ? ?]. unfold update_alarm in H. open_write H.
  constructor; try done; simpl. apply Forall_update_where; [|done].
  intros x Hx. by destruct (Hf x) as (_ & -> & _).
Qed.

Lemma insert_threshold_config_keys c : keeps_keys (insert_threshold_config c).
Proof.
  intros d d' H [? ? ? ? ? ? ? ? ? ? ?]. unfold insert_threshold_config in H. open_write H.
  constructor; try done; simpl.
  - apply nodup_snoc; [done|]. eapply existsb_false_notin; [|eassumption].
    intros y Hy. apply String.eqb_eq. exact Hy.
  - apply Forall_snoc; [done|]. by apply has_device_elem.
Qed.

Lemma insert_health_keys h : keeps_keys (insert_health h).
Proof.
  intros d d' H [? ? ? ? ? ? ? ? ? ? ?]. unfold insert_health in H. open_write H.
  constructor; try done; simpl.
  - apply nodup_snoc; [done|]. eapply existsb_false_notin; [|eassumption].
    intros y Hy. apply String.eqb_eq. exact Hy.
  - apply Forall_snoc; [done|]. by apply has_device_elem.
Qed.

Lemma insert_command_keys x : keeps_keys (insert_command x).
Proof.
  intros d d' H [? ? ? ? ? ? ? ? ? ? ?]. unfold insert_command in H. open_write H.
  constructor; try done; simpl.
  - apply nodup_snoc; [done|]. eapply existsb_false_notin; [|eassumption].
    intros y Hy. apply String.eqb_eq. exact Hy.
  - apply Forall_snoc; [done|]. by apply has_device_elem.
Qed.

Lemma update_command_keys id f :
  (∀ x, x_command_id (f x) = x_command_id x ∧ x_device_id (f x) = x_device_id x) →
  keeps_keys (update_command id f).
Proof.
  intros Hf d d' H [? ? ? ? ? ? ? ? ? ? ?]. unfold update_command in H. open_write H.
  constructor; try done; simpl.
  - rewrite map_update_where; [done|]. intros x. by destruct (Hf x).
  - apply Forall_update_where; [|done]. intros x Hx. by destruct (Hf x) as [_ ->].
Qed.

Lemma update_threshold_config_keys id f :
  (∀ c, c_device_id (f c) = c_device_id c) → keeps_keys (update_threshold_config id f).
Proof.
  intros Hf d d' H [? ? ? ? ? ? ? ? ? ? ?]. unfold update_threshold_config in H. open_write H.
  constructor; try done; simpl.
  - by rewrite map_update_where.
  - apply Forall_update_where; [|done]. intros x Hx. by rewrite Hf.
Qed.

(** Tables without key constraints. *)
Lemma insert_audit_keys e : keeps_keys (insert_audit e).
Proof. intros d d' H []. unfold insert_audit in H. open_write H. by constructor. Qed.
Lemma insert_error_log_keys l : keeps_keys (insert_error_log l).
Proof. intros d d' H []. unfold insert_error_log in H. open_write H. by constructor. Qed.
Lemma insert_calibration_keys k : keeps_keys (insert_calibration k).
Proof. intros d d' H []. unfold insert_calibration in H. open_write H. by constructor. Qed.
Lemma insert_maintenance_keys r : keeps_keys (insert_maintenance r).
Proof. intros d d' H []. unfold insert_maintenance in H. open_write H. by constructor. Qed.
Lemma update_maintenance_keys i f : keeps_keys (update_maintenance i f).
Proof. intros d d' H []. unfold update_maintenance in H. open_write H. by constructor. Qed.

Create HintDb keys.
#[export] Hint Resolve update_device_keys insert_device_keys insert_telemetry_keys
  insert_alarm_keys update_alarm_keys insert_threshold_config_keys insert_health_keys
  insert_command_keys update_command_keys update_threshold_config_keys insert_audit_keys
  insert_error_log_keys insert_calibration_keys insert_maintenance_keys
  update_maintenance_keys : keys.

Lemma run_writes_keys ws d d' :
  Forall keeps_keys ws → run_writes ws d = Ok d' → keys_wf d → keys_wf d'.
Proof.
  intros Hws. revert d. induction Hws as [|w ws Hw Hws IH]; intros d; [by intros [= <-]|].
  rewrite run_writes_cons_ok. intros (d1 & H1 & H2) Hd. eapply IH; [done|]. by eapply Hw.
Qed.
