(* ===== verification/Transactions.v ===== *)
(** What a transaction of [ingestion.py] amounts to: the list of writes it has
    accumulated, followed through [add], [flush], [notify] and [commit], and
    the writes of threshold evaluation as a function of the database. *)
From S2P Require Import Prelude PyStr Float64 Json PyTime Models Tables Session Schemas Ingestion.
From S2P Require Import AlarmFacts Keys.

(** ** The effective database of a session *)

(** What a commit would store. *)
Definition effective (s : Session) : result DB := run_writes (pending s) (db s).

(** A block that adds the writes [ws] (flushing some of them, perhaps) and the
    notifications [ns] to the transaction. *)
Definition reaches (ws : list write) (ns : list json) (s s' : Session) : Prop :=
  keeps s s' ∧ notes s' = notes s ++ ns ∧ effective s' = (effective s ≫= run_writes ws).

Lemma bind_run_nil (r : result DB) : (r ≫= run_writes []) = r.
Proof. by destruct r. Qed.
Lemma bind_run_app (r : result DB) ws1 ws2 :
  ((r ≫= run_writes ws1) ≫= run_writes ws2) = (r ≫= run_writes (ws1 ++ ws2)).
Proof. destruct r; [|done]. simpl. by rewrite run_writes_app. Qed.

Lemma reaches_refl s : reaches [] [] s s.
Proof. split; [done|]. by rewrite app_nil_r, bind_run_nil. Qed.
Lemma reaches_trans ws1 ws2 ns1 ns2 s1 s2 s3 :
  reaches ws1 ns1 s1 s2 → reaches ws2 ns2 s2 s3 → reaches (ws1 ++ ws2) (ns1 ++ ns2) s1 s3.
Proof.
  intros (K1 & N1 & E1) (K2 & N2 & E2). split; [by eapply keeps_trans|]. split.
  - by rewrite N2, N1, app_assoc.
  - by rewrite E2, E1, bind_run_app.
Qed.
Lemma reaches_tick s : reaches [] [] s (next_tick s).
Proof. split; [done|]. simpl. by rewrite app_nil_r, bind_run_nil. Qed.
Lemma reaches_add w s : reaches [w] [] s (set_pending (pending s ++ [w]) s).
Proof.
  split; [done|]. simpl. rewrite app_nil_r. split; [done|]. unfold effective. simpl.
  by rewrite run_writes_app.
Qed.
Lemma reaches_flush s d : effective s = Ok d → reaches [] [] s (set_flushed d s).
Proof.
  intros H. split; [done|]. simpl. rewrite app_nil_r, bind_run_nil. split; [done|]. by rewrite H.
Qed.
Lemma reaches_note ev s : reaches [] [ev] s (add_note ev s).
Proof. split; [done|]. simpl. by rewrite bind_run_nil. Qed.

Lemma reaches_keeps ws ns s s' : reaches ws ns s s' → keeps s s'.
Proof. by intros [? _]. Qed.

(** The notifications of an event: none unless the dialect is PostgreSQL. *)
Definition notified (pg : bool) (ev : json) : list json := if pg then [ev] else [].

Lemma notify_run ev s r s' :
  notify_after_commit ev s = (r, s') →
  (r = Ok () ∧ reaches [] (notified (postgres s) ev) s s' ∧ (postgres s = true → event_fits ev = true))
  ∨ (r = Raise (ValueError "live event exceeds bounded PostgreSQL notification size")
     ∧ s' = s ∧ postgres s = true ∧ event_fits ev = false).
Proof.
  unfold notify_after_commit, notified. destruct (postgres s) eqn:Hp; simpl.
  - destruct (event_fits ev) eqn:He; simpl; intros [= <- <-]; [|by right].
    left. split; [done|]. split; [apply reaches_note|done].
  - intros [= <- <-]. left. split; [done|]. split; [apply reaches_refl|done].
Qed.

Lemma commit_run s r s' :
  commit s = (r, s') →
  (∃ d, effective s = Ok d ∧ r = Ok () ∧ s' = set_committed d s)
  ∨ (∃ e, effective s = Raise e ∧ r = Raise e ∧ s' = s).
Proof. unfold commit, effective. destruct (run_writes _ _) as [d|e]; intros [= <- <-]; eauto. Qed.

Lemma clean_effective s : clean s → effective s = Ok (db s).
Proof. intros (_ & Hp & _). unfold effective. by rewrite Hp. Qed.

(** ** Threshold evaluation *)

Lemma apply_metric_run dev code metric unit v w c h s r s' :
  apply_metric_alarm dev code metric unit v w c h s = (r, s') →
  r = Ok () ∧ db s' = db s ∧
  ∃ now, reaches (metric_write dev code metric unit v w c h now (db s)) [] s s'.
Proof.
  unfold apply_metric_alarm, metric_write. change (active_alarm dev code) with (λ d, active_in dev code (alarms d)).
  destruct v as [x|].
  - unfold mbind, M_bind, query, get, utc_now.
    destruct (active_in dev code (alarms (db s))) as [a|], (desired_severity x w c) as [sev|];
      [| destruct (fltb x (clear_below w h))| |]; intros [= <- <-]; (split; [done|split; [done|]]);
      exists (clock s (ticks s));
      first [exact (reaches_trans [] _ [] _ _ _ _ (reaches_tick s) (reaches_add _ _))
            |exact (reaches_tick s)].
  - intros [= <- <-]. split; [done|]. split; [done|]. exists 0. apply reaches_refl.
Qed.

Definition config_of (dev : string) (now : Z) (d : DB) : ThresholdConfig :=
  match get_threshold_config dev d with Some c => c | None => new_threshold_config now dev end.
Definition config_writes (dev : string) (now : Z) (d : DB) : list write :=
  match get_threshold_config dev d with
  | Some _ => []
  | None => [insert_threshold_config (new_threshold_config now dev)]
  end.

Section Thresholds.
Context (dev : string) (values : Measurements) (c : ThresholdConfig) (n1 n2 n3 : Z).

Definition temperature_write : DB → list write :=
  metric_write dev "TEMPERATURE_THRESHOLD" "temperature" "deg C" (temperature_c values)
    (c_temperature_warning_c c) (c_temperature_critical_c c) (c_hysteresis_percent c) n1.
Definition vibration_write : DB → list write :=
  metric_write dev "VIBRATION_THRESHOLD" "vibration RMS" "m/s^2" (vibration_rms_mps2 values)
    (c_vibration_warning_mps2 c) (c_vibration_critical_mps2 c) (c_hysteresis_percent c) n2.
Definition current_write : DB → list write :=
  metric_write dev "CURRENT_THRESHOLD" "current" "A" (current_a values)
    (c_current_warning_a c) (c_current_critical_a c) (c_hysteresis_percent c) n3.

(** The writes of the three metrics, all computed on the same rows [d]. *)
Definition threshold_writes (d : DB) : list write :=
  temperature_write d ++ vibration_write d ++ current_write d.

(** Their effect on the alarm table. *)
Definition temperature_effect : list Alarm → list Alarm :=
  metric_effect dev "TEMPERATURE_THRESHOLD" "temperature" "deg C" (temperature_c values)
    (c_temperature_warning_c c) (c_temperature_critical_c c) (c_hysteresis_percent c) n1.
Definition vibration_effect : list Alarm → list Alarm :=
  metric_effect dev "VIBRATION_THRESHOLD" "vibration RMS" "m/s^2" (vibration_rms_mps2 values)
    (c_vibration_warning_mps2 c) (c_vibration_critical_mps2 c) (c_hysteresis_percent c) n2.
Definition current_effect : list Alarm → list Alarm :=
  metric_effect dev "CURRENT_THRESHOLD" "current" "A" (current_a values)
    (c_current_warning_a c) (c_current_critical_a c) (c_hysteresis_percent c) n3.
Definition threshold_effect (l : list Alarm) : list Alarm :=
  current_effect (vibration_effect (temperature_effect l)).

Lemma temperature_case l : alarms_wf l →
  metric_case dev "TEMPERATURE_THRESHOLD" (temperature_c values) (c_temperature_warning_c c)
    (c_temperature_critical_c c) (c_hysteresis_percent c) l (temperature_effect l).
Proof. apply metric_effect_case. Qed.
Lemma vibration_case l : alarms_wf l →
  metric_case dev "VIBRATION_THRESHOLD" (vibration_rms_mps2 values) (c_vibration_warning_mps2 c)
    (c_vibration_critical_mps2 c) (c_hysteresis_percent c) l (vibration_effect l).
Proof. apply metric_effect_case. Qed.
Lemma current_case l : alarms_wf l →
  metric_case dev "CURRENT_THRESHOLD" (current_a values) (c_current_warning_a c)
    (c_current_critical_a c) (c_hysteresis_percent c) l (current_effect l).
Proof. apply metric_effect_case. Qed.

Lemma threshold_effect_wf l : alarms_wf l → alarms_wf (threshold_effect l).
Proof.
  intros H. unfold threshold_effect.
  assert (H1 : alarms_wf (temperature_effect l)) by (eapply metric_case_wf; [by apply temperature_case|done]).
  assert (H2 : alarms_wf (vibration_effect (temperature_effect l)))
    by (eapply metric_case_wf; [by apply vibration_case|done]).
  eapply metric_case_wf; [by apply current_case|done].
Qed.

(** Writes computed on rows [d0] whose alarms are those of [d]. *)
Lemma threshold_writes_run d0 d d' :
  alarms d0 = alarms d → alarms_wf (alarms d) →
  run_writes (threshold_writes d0) d = Ok d' → d' = set_alarms (threshold_effect (alarms d)) d.
Proof.
  intros Ha Hwf. unfold threshold_writes.
  rewrite !run_writes_app_ok. intros (d1 & H1 & H2). rewrite run_writes_app_ok in H2.
  destruct H2 as (d2 & H2 & H3).
  apply metric_write_run in H1; [|by rewrite Ha].
  change (metric_effect _ _ _ _ _ _ _ _ _ _) with (temperature_effect (alarms d)) in H1. subst d1.
  assert (Hw1 : alarms_wf (temperature_effect (alarms d)))
    by (eapply metric_case_wf; [by apply temperature_case|done]).
  apply metric_write_run in H2.
  2:{ rewrite Ha. simpl. eapply metric_case_frame; [by apply temperature_case|]. congruence. }
  change (metric_effect _ _ _ _ _ _ _ _ _ _) with (vibration_effect (temperature_effect (alarms d))) in H2.
  subst d2. apply metric_write_run in H3; [rewrite H3; by destruct d|].
  rewrite Ha. simpl. etrans.
  - eapply metric_case_frame; [by apply vibration_case|]. congruence.
  - eapply metric_case_frame; [by apply temperature_case|]. congruence.
Qed.
End Thresholds.

(** Run a block that starts with a block whose runs are known. *)
Lemma bind_run {A B} (m : DBM A) (f : A → DBM B) s r s' :
  (m ≫= f) s = (r, s') →
  (∃ a s1, m s = (Ok a, s1) ∧ f a s1 = (r, s')) ∨ (∃ e, m s = (Raise e, s') ∧ r = Raise e).
Proof.
  unfold mbind, M_bind. destruct (m s) as [[a|e] s1]; [by eauto 6|]. intros [= <- <-]. eauto.
Qed.
Lemma bind_step {A B} (m : DBM A) (f : A → DBM B) s a s1 :
  m s = (Ok a, s1) → (m ≫= f) s = f a s1.
Proof. unfold mbind, M_bind. by intros ->. Qed.

Lemma query_step {A B} (g : DB → A) (f : A → DBM B) s : (query g ≫= f) s = f (g (db s)) s.
Proof. done. Qed.
Lemma now_step {B} (f : Z → DBM B) s : (utc_now ≫= f) s = f (clock s (ticks s)) (next_tick s).
Proof. done. Qed.
Lemma add_step {B} w (f : () → DBM B) s :
  (add w ≫= f) s = f () (set_pending (pending s ++ [w]) s).
Proof. done. Qed.

Lemma apply_thresholds_run dev values s r s' :
  apply_threshold_alarms dev values s = (r, s') →
  (r = Ok () ∧ ∃ nc n1 n2 n3 d0,
     reaches (config_writes dev nc (db s)
              ++ threshold_writes dev values (config_of dev nc (db s)) n1 n2 n3 d0) [] s s'
     ∧ (d0 = db s ∨ (effective s ≫= run_writes (config_writes dev nc (db s))) = Ok d0))
  ∨ (∃ e nc, r = Raise e ∧ keeps s s'
     ∧ (effective s ≫= run_writes (config_writes dev nc (db s))) = Raise e).
Proof.
  unfold apply_threshold_alarms. rewrite query_step.
  assert (Hmetrics : ∀ c s1,
    (apply_metric_alarm dev "TEMPERATURE_THRESHOLD" "temperature" "deg C"
      (temperature_c values) (c_temperature_warning_c c) (c_temperature_critical_c c)
      (c_hysteresis_percent c);;
     apply_metric_alarm dev "VIBRATION_THRESHOLD" "vibration RMS" "m/s^2"
      (vibration_rms_mps2 values) (c_vibration_warning_mps2 c) (c_vibration_critical_mps2 c)
      (c_hysteresis_percent c);;
     apply_metric_alarm dev "CURRENT_THRESHOLD" "current" "A"
      (current_a values) (c_current_warning_a c) (c_current_critical_a c)
      (c_hysteresis_percent c)) s1 = (r, s') →
    r = Ok () ∧ ∃ n1 n2 n3, reaches (threshold_writes dev values c n1 n2 n3 (db s1)) [] s1 s').
  { intros c s1 H.
    apply bind_run in H as [(? & s2 & H1 & H)|(? & H1 & _)];
      apply apply_metric_run in H1 as (E1 & D1 & n1 & R1); [|done].
    apply bind_run in H as [(? & s3 & H2 & H)|(? & H2 & _)];
      apply apply_metric_run in H2 as (E2 & D2 & n2 & R2); [|done].
    apply apply_metric_run in H as (-> & D3 & n3 & R3). split; [done|]. exists n1, n2, n3.
    rewrite D1 in R2. rewrite D2, D1 in R3.
    exact (reaches_trans _ _ [] [] _ _ _ R1 (reaches_trans _ _ [] [] _ _ _ R2 R3)). }
  unfold config_of, config_writes.
  destruct (get_threshold_config dev (db s)) as [c|] eqn:Hc.
  - rewrite bind_ret_l. intros H. apply (Hmetrics c s) in H as (-> & n1 & n2 & n3 & HR).
    left. split; [done|]. exists 0, n1, n2, n3, (db s). split; [exact HR|by left].
  - intros H. set (cfg := new_threshold_config (clock s (ticks s)) dev) in *.
    set (s1 := set_pending (pending s ++ [insert_threshold_config cfg]) (next_tick s)).
    assert (R0 : reaches [insert_threshold_config cfg] [] s s1).
    { exact (reaches_trans [] _ [] _ _ _ _ (reaches_tick s) (reaches_add _ (next_tick s))). }
    destruct (effective s1) as [d1|e] eqn:He.
    + assert (Hrun : (now ← utc_now; let config := new_threshold_config now dev in
                add (insert_threshold_config config);; flush;; mret config) s
              = (Ok cfg, set_flushed d1 s1)).
      { unfold mbind, M_bind, utc_now, add, modify, flush. simpl. 
        change (run_writes _ _) with (effective s1). by rewrite He. }
      rewrite (bind_step _ _ s _ _ Hrun) in H.
      apply (Hmetrics cfg) in H as (-> & n1 & n2 & n3 & HR).
      left. split; [done|]. exists (clock s (ticks s)), n1, n2, n3, d1. split.
      * exact (reaches_trans _ _ [] [] _ _ _ R0
          (reaches_trans [] _ [] [] _ _ _ (reaches_flush _ _ He) HR)).
      * right. destruct R0 as (_ & _ & R0). exact (eq_trans (eq_sym R0) He).
    + right. exists e, (clock s (ticks s)).
      assert (Hrun : (now ← utc_now; let config := new_threshold_config now dev in
                add (insert_threshold_config config);; flush;; mret config) s
              = (Raise e, s1)).
      { unfold mbind, M_bind, utc_now, add, modify, flush. simpl. 
        change (run_writes _ _) with (effective s1). by rewrite He. }
      apply bind_run in H as [(? & ? & H1 & H)|(e' & H1 & ->)];
        apply (eq_trans (eq_sym Hrun)) in H1; [done|]. injection H1 as <- <-. split; [done|]. split; [apply R0|].
      destruct R0 as (_ & _ & R0). exact (eq_trans (eq_sym R0) He).
Qed.
