(* ===== verification/IngestionRuns.v ===== *)
(** The possible outcomes of [persist_telemetry], [persist_health] and
    [persist_command_ack] on a session between transactions, each with the
    writes it commits. *)
From S2P Require Import Prelude PyStr Float64 Json PyTime Models Tables Session Schemas Ingestion.
From S2P Require Import AlarmFacts Keys Transactions.

(** The write of [touch_device]. *)
Definition device_write (dev site : string) (created : Z) (seen : Device → Device)
    (found : option Device) : write :=
  match found with
  | Some _ => update_device dev seen
  | None => insert_device (seen (new_device created dev site dev "dc-motor" true))
  end.

Lemma touch_device_run dev site now seen found s :
  ∃ created s', touch_device dev site now seen found s = (Ok (), s') ∧ db s' = db s
    ∧ reaches [device_write dev site created seen found] [] s s'.
Proof.
  unfold touch_device. destruct found as [x|].
  - exists 0. eexists. split; [reflexivity|]. split; [done|]. apply reaches_add.
  - exists (clock s (ticks s)). eexists. split; [reflexivity|]. split; [done|].
    exact (reaches_trans [] _ [] _ _ _ _ (reaches_tick s) (reaches_add _ (next_tick s))).
Qed.

Lemma device_write_frame dev site created seen found d d' :
  device_write dev site created seen found d = Ok d' → d' = set_devices (devices d') d.
Proof.
  destruct found; simpl; unfold update_device, insert_device; intros H; open_write H; by destruct d.
Qed.

Lemma config_writes_frame dev nc c d d' :
  run_writes (config_writes dev nc c) d = Ok d' → d' = set_threshold_configs (threshold_configs d') d.
Proof.
  unfold config_writes. destruct (get_threshold_config dev c).
  - intros [= <-]. by destruct d.
  - rewrite run_writes_cons_ok. intros (d1 & H & [= <-]). unfold insert_threshold_config in H.
    open_write H. by destruct d.
Qed.

Lemma insert_telemetry_frame t d d' :
  insert_telemetry t d = Ok d' →
  d' = set_telemetry (telemetry d ++ [with_t_id (next_id (telemetry d)) t]) d.
Proof. unfold insert_telemetry. intros H. open_write H. by destruct d. Qed.

(** ** Telemetry *)

Section Telemetry.
Context (e : TelemetryEnvelope).

(** The rows written before threshold evaluation, then all of them. *)
Definition row_writes (d : DB) (now created : Z) : list write :=
  [device_write (te_device_id e) (te_site_id e) created (seen_telemetry now e)
     (get_device (te_device_id e) d); insert_telemetry (telemetry_row now e)].
Definition prefix_writes (d : DB) (now created nc : Z) : list write :=
  row_writes d now created ++ config_writes (te_device_id e) nc d.
Definition ingest_writes (d : DB) (now created nc n1 n2 n3 : Z) : list write :=
  prefix_writes d now created nc
  ++ threshold_writes (te_device_id e) (te_measurements e) (config_of (te_device_id e) nc d) n1 n2 n3 d.

Lemma row_writes_frame d now created d1 :
  run_writes (row_writes d now created) d = Ok d1 →
  d1 = set_telemetry (telemetry d ++ [with_t_id (next_id (telemetry d)) (telemetry_row now e)])
         (set_devices (devices d1) d).
Proof.
  unfold row_writes. rewrite run_writes_cons_ok. intros (da & Ha & H).
  rewrite run_writes_cons_ok in H. destruct H as (db & Hb & [= <-]).
  apply device_write_frame in Ha. apply insert_telemetry_frame in Hb. by rewrite Hb, Ha.
Qed.

Lemma prefix_frame d now created nc d0 :
  run_writes (prefix_writes d now created nc) d = Ok d0 →
  alarms d0 = alarms d ∧
  d0 = set_threshold_configs (threshold_configs d0)
         (set_telemetry (telemetry d ++ [with_t_id (next_id (telemetry d)) (telemetry_row now e)])
           (set_devices (devices d0) d)).
Proof.
  unfold prefix_writes. rewrite run_writes_app_ok. intros (d1 & H1 & H2).
  apply row_writes_frame in H1. apply config_writes_frame in H2. rewrite H2, H1. done.
Qed.

(** The outcomes of a call on a database [d]. *)
Inductive outcome (s : Session) : result PersistResult → Session → Prop :=
  | Out_duplicate :
      is_Some (find_message (te_message_id e) (db s)) →
      outcome s (Ok {| status := duplicate; message_id := te_message_id e |}) s
  | Out_collision :
      find_message (te_message_id e) (db s) = None →
      is_Some (sequence_owner (te_device_id e) (te_sequence e) (db s)) →
      outcome s (Raise (SequenceCollisionError (collision_message (te_sequence e)))) s
  | Out_site :
      find_message (te_message_id e) (db s) = None →
      sequence_owner (te_device_id e) (te_sequence e) (db s) = None →
      site_differs (te_site_id e) (get_device (te_device_id e) (db s)) = true →
      outcome s (Raise (ValueError site_mismatch)) s
  | Out_too_large s' :
      keeps s s' → postgres s = true → event_fits (telemetry_event e) = false →
      outcome s (Raise (ValueError "live event exceeds bounded PostgreSQL notification size")) s'
  | Out_database err s' now created nc n1 n2 n3 :
      keeps s s' → run_writes (ingest_writes (db s) now created nc n1 n2 n3) (db s) = Raise err →
      outcome s (Raise err) s'
  | Out_inserted d' s' created nc n1 n2 n3 :
      find_message (te_message_id e) (db s) = None →
      sequence_owner (te_device_id e) (te_sequence e) (db s) = None →
      site_differs (te_site_id e) (get_device (te_device_id e) (db s)) = false →
      (postgres s = true → event_fits (telemetry_event e) = true) →
      run_writes (ingest_writes (db s) (clock s (ticks s)) created nc n1 n2 n3) (db s) = Ok d' →
      db s' = d' → clean s' → postgres s' = postgres s → clock s' = clock s →
      published s' = published s ++ notified (postgres s) (telemetry_event e) →
      outcome s (Ok {| status := inserted; message_id := te_message_id e |}) s'.

(** What [stage_telemetry] does to a clean session. *)
Lemma stage_run s r s' :
  clean s → stage_telemetry e s = (r, s') →
  (r = Raise (ValueError site_mismatch) ∧ s' = s
   ∧ site_differs (te_site_id e) (get_device (te_device_id e) (db s)) = true)
  ∨ (site_differs (te_site_id e) (get_device (te_device_id e) (db s)) = false ∧
     ∃ created nc n1 n2 n3,
       let ws := ingest_writes (db s) (clock s (ticks s)) created nc n1 n2 n3 in
       (r = Raise (ValueError "live event exceeds bounded PostgreSQL notification size")
        ∧ keeps s s' ∧ postgres s = true ∧ event_fits (telemetry_event e) = false)
       ∨ (∃ err, r = Raise err ∧ keeps s s' ∧ run_writes ws (db s) = Raise err)
       ∨ (r = Ok () ∧ reaches ws (notified (postgres s) (telemetry_event e)) s s'
          ∧ (postgres s = true → event_fits (telemetry_event e) = true))).
Proof.
  intros Hs. unfold stage_telemetry. rewrite query_step.
  destruct (site_differs _ _) eqn:Hsite; [intros [= <- <-]; by left|].
  intros H. right. split; [done|]. rewrite now_step in H.
  set (now := clock s (ticks s)) in *. set (found := get_device (te_device_id e) (db s)) in *.
  destruct (touch_device_run (te_device_id e) (te_site_id e) now (seen_telemetry now e) found (next_tick s))
    as (created & s1 & Ht & D1 & R1).
  rewrite (bind_step _ _ _ _ _ Ht), add_step in H. simpl in D1.
  set (s2 := set_pending _ s1) in *.
  assert (R2 : reaches (row_writes (db s) now created) [] s s2).
  { exact (reaches_trans [] _ [] _ _ _ _ (reaches_tick s)
      (reaches_trans [_] [_] [] [] _ _ _ R1 (reaches_add _ s1))). }
  assert (D2 : db s2 = db s) by exact D1.
  assert (E2 : effective s2 = run_writes (row_writes (db s) now created) (db s)).
  { destruct R2 as (_ & _ & ->). by rewrite clean_effective. }
  exists created.
  apply bind_run in H as [(u & s3 & H3 & H)|(err & H3 & ->)];
    apply apply_thresholds_run in H3 as [(Eu & nc & n1 & n2 & n3 & d0 & R3 & Hd0)|(err' & nc & Eu & K3 & Hw)];
    try done.
  - rewrite D2 in *. exists nc, n1, n2, n3.
    assert (Hws : reaches (ingest_writes (db s) now created nc n1 n2 n3) [] s s3).
    { assert (Ha : alarms d0 = alarms (db s)).
      { destruct Hd0 as [->|Hd0]; [done|]. rewrite E2, <- run_writes_app in Hd0.
        by apply (prefix_frame (db s) now created nc). }
      assert (Hth : ∀ cfg, threshold_writes (te_device_id e) (te_measurements e) cfg n1 n2 n3 d0
                = threshold_writes (te_device_id e) (te_measurements e) cfg n1 n2 n3 (db s)).
      { intros cfg. unfold threshold_writes, temperature_write, vibration_write, current_write, metric_write.
        by rewrite Ha. }
      rewrite Hth in R3. unfold ingest_writes, prefix_writes. rewrite <- app_assoc.
      exact (reaches_trans _ _ [] [] _ _ _ R2 R3). }
    apply notify_run in H as [(-> & R4 & Hfit)|(-> & -> & Hp & Hfit)].
    + right. right. split; [done|].
      assert (Ep : postgres s3 = postgres s) by apply Hws. rewrite Ep in R4, Hfit.
      split; [|done]. rewrite <- (app_nil_r (ingest_writes _ _ _ _ _ _ _)).
      exact (reaches_trans _ [] [] _ _ _ _ Hws R4).
    + left. split; [done|]. split; [apply Hws|]. split; [|done].
      destruct Hws as ((_ & _ & <- & _) & _). done.
  - rewrite D2 in *. exists nc, 0, 0, 0. right. left. exists err'. split; [congruence|].
    split; [eapply keeps_trans; [apply R2|done]|].
    unfold ingest_writes, prefix_writes. rewrite !run_writes_app. 
    rewrite E2 in Hw. unfold mbind, result_bind in *. by rewrite Hw.
Qed.

(** The commit of a staged message, on a database where it is new. *)
Lemma finish_run ws s s2 r s' :
  clean s → find_message (te_message_id e) (db s) = None →
  reaches ws (notified (postgres s) (telemetry_event e)) s s2 →
  finish_telemetry (te_message_id e) s2 = (r, s') →
  (∃ d', run_writes ws (db s) = Ok d' ∧ r = Ok {| status := inserted; message_id := te_message_id e |}
     ∧ db s' = d' ∧ clean s' ∧ postgres s' = postgres s ∧ clock s' = clock s
     ∧ published s' = published s ++ notified (postgres s) (telemetry_event e))
  ∨ (∃ err, run_writes ws (db s) = Raise err ∧ r = Raise err ∧ keeps s s').
Proof.
  intros Hs Hnew (K & N & E). rewrite (clean_effective s Hs) in E. simpl in E.
  destruct Hs as (Hdb & _ & Hn). rewrite Hn in N. simpl in N.
  unfold finish_telemetry, try_except, mbind, M_bind.
  destruct (commit s2) as [rc sc] eqn:Hc.
  apply commit_run in Hc as [(d & Hd & -> & ->)|(err & He & -> & ->)].
  - intros [= <- <-]. left. exists d. rewrite <- E. split; [done|]. split; [done|].
    destruct K as (_ & Kp & Kpg & Kc). simpl. by rewrite N, Kp, Kpg, Kc.
  - intros H. right. exists err. rewrite <- E. split; [done|].
    destruct err; try (injection H as <- <-; done).
    revert H. unfold rollback, modify, query, get. cbn [db set_rolled_back].
    rewrite (proj1 K), <- Hdb, Hnew. intros [= <- <-]. split; [done|].
    eapply keeps_trans; [exact K|done].
Qed.

Lemma persist_run s r s' :
  clean s → persist_telemetry e s = (r, s') → outcome s r s'.
Proof.
  intros Hs. unfold persist_telemetry. cbv zeta. rewrite query_step.
  destruct (find_message _ _) as [t|] eqn:Hm; [intros [= <- <-]; apply Out_duplicate; by rewrite Hm|].
  rewrite query_step.
  destruct (sequence_owner _ _ _) as [o|] eqn:Ho;
    [intros [= <- <-]; apply Out_collision; [done|by rewrite Ho]|].
  intros H. apply bind_run in H as [(u & s2 & H1 & H2)|(err & H1 & ->)];
    apply stage_run in H1 as [(E1 & -> & Hsite)|(Hsite & created & nc & n1 & n2 & n3 & Hst)]; try done.
  - destruct Hst as [(? & _)|[(? & ? & _)|(_ & HR & Hfit)]]; [done..|].
    eapply finish_run in H2 as [(d' & Hw & -> & Hd & Hc & Hpg & Hck & Hpub)|(err & Hw & -> & HK)]; try done.
    + by eapply Out_inserted.
    + by eapply Out_database.
  - injection E1 as ->. by apply Out_site.
  - destruct Hst as [(E1 & HK & Hp & Hf)|[(err' & E1 & HK & Hw)|(? & _)]]; [| |done].
    + injection E1 as ->. by apply Out_too_large.
    + injection E1 as ->. by eapply Out_database.
Qed.

Lemma ingest_alarms d now created nc n1 n2 n3 d' :
  alarms_wf (alarms d) → run_writes (ingest_writes d now created nc n1 n2 n3) d = Ok d' →
  ∃ d0, run_writes (prefix_writes d now created nc) d = Ok d0 ∧
    d' = set_alarms (threshold_effect (te_device_id e) (te_measurements e)
                       (config_of (te_device_id e) nc d) n1 n2 n3 (alarms d)) d0.
Proof.
  intros Hwf. unfold ingest_writes. rewrite run_writes_app_ok. intros (d0 & H0 & H1).
  exists d0. split; [done|]. destruct (prefix_frame _ _ _ _ _ H0) as [Ha _].
  rewrite <- Ha. eapply threshold_writes_run; [..|exact H1]; congruence.
Qed.
End Telemetry.
