(* ===== verification/IngestionProps.v ===== *)
(** What ingestion of telemetry guarantees: atomicity, idempotence, the exact
    effect of an accepted message, the alarm state machine, the invariant of
    the database, acceptance of valid messages and the commit race. *)
From S2P Require Import Prelude PyStr Float64 Json PyTime Models Tables Session Topics Schemas.
From S2P Require Import Ingestion AlarmFacts Keys Transactions IngestionRuns.

(** The invariant of the database. *)
Definition db_wf (d : DB) : Prop := keys_wf d ∧ alarms_wf (alarms d).

Lemma empty_wf : db_wf empty_db.
Proof. split; [apply empty_keys_wf|]. split; [done|]. split; [intros d c; simpl; lia|constructor]. Qed.

(** ** A concrete message *)

Definition quality_ok : SensorQuality := {|
  sq_status := "good"; sq_valid_samples := 8; sq_expected_samples := 8; sq_error_code := None |}.
Definition sample_envelope : TelemetryEnvelope := {|
  te_schema_version := 1; te_message_id := "11111111-1111-4111-8111-111111111111";
  te_site_id := "site-a"; te_device_id := "motor-1"; te_sequence := 7; te_device_time := None;
  te_clock_synchronized := false; te_uptime_ms := 1000; te_firmware_version := "1.0.0";
  te_quality := "good"; te_replayed := false;
  te_measurements := {| temperature_c := Some (of_int 70); vibration_rms_mps2 := Some (of_int 1);
    vibration_peak_mps2 := None; vibration_crest_factor := None; current_a := None |};
  te_sample_quality := {| temperature := quality_ok; vibration := quality_ok; current := quality_ok |};
  te_fault_flags := [] |}.
Definition sample_session : Session := open_session empty_db [] true (λ n, Z.of_nat n) 0.

(** The same message again, with a hotter reading. *)
Definition with_message (m : string) (e : TelemetryEnvelope) : TelemetryEnvelope :=
  Build_TelemetryEnvelope (te_schema_version e) m (te_site_id e) (te_device_id e) (te_sequence e)
    (te_device_time e) (te_clock_synchronized e) (te_uptime_ms e) (te_firmware_version e)
    (te_quality e) (te_replayed e) (te_measurements e) (te_sample_quality e) (te_fault_flags e).

(** ** Atomicity *)

Lemma atomic_run e s r s' :
  clean s → persist_telemetry e s = (r, s') →
  r = Ok {| status := inserted; message_id := te_message_id e |}
  ∨ (saved s' = saved s ∧ published s' = published s).
Proof.
  intros Hs H. apply persist_run in H; [|done].
  destruct H as [| | |? (? & ? & _)|? ? ? ? ? ? ? ? (? & ? & _)|]; auto.
Qed.

(** A call of [persist_telemetry] that does not insert its message, a
    duplicate or any exception, leaves the committed database and the
    delivered events as they were. *)
Theorem persist_telemetry_atomic e s r s' :
  clean s → persist_telemetry e s = (r, s') →
  r = Ok {| status := inserted; message_id := te_message_id e |}
  ∨ (saved s' = saved s ∧ published s' = published s).
Proof. apply atomic_run. Qed.

Definition after {A} (p : result A * Session) : Session := p.2.
Lemma persist_telemetry_atomic_witness :
  let s1 := after (persist_telemetry sample_envelope sample_session) in
  let e2 := with_message "22222222-1111-4111-8111-111111111111" sample_envelope in
  (persist_telemetry e2 s1).1 = Raise (SequenceCollisionError "sequence 7 already belongs to another message")
  ∧ saved (after (persist_telemetry e2 s1)) = saved s1.
Proof.
  cbv zeta. split; [vm_compute; reflexivity|].
  edestruct (persist_telemetry_atomic (with_message "22222222-1111-4111-8111-111111111111" sample_envelope)
    (after (persist_telemetry sample_envelope sample_session))) as [H|[H _]];
    [vm_compute; split; [reflexivity|split; reflexivity]|apply surjective_pairing| |exact H].
  exfalso. vm_compute in H. discriminate H.
Defined.

(** ** The rows of an accepted message *)

Lemma find_update_where_same {A} (p : A → bool) f l x :
  (∀ y, p (f y) = p y) → List.find p l = Some x → List.find p (update_where p f l) = Some (f x).
Proof.
  intros Hp. unfold update_where. induction l as [|y l IH]; [done|]. simpl.
  destruct (p y) eqn:Hy; [|rewrite Hy; exact IH]. rewrite Hp, Hy. by intros [= ->].
Qed.
Lemma find_update_where_other {A} (p q : A → bool) f l :
  (∀ y, q (f y) = q y) → (∀ y, p y = true → q y = false) →
  List.find q (update_where p f l) = List.find q l.
Proof.
  intros Hq Hpq. unfold update_where. induction l as [|y l IH]; [done|]. simpl.
  destruct (p y) eqn:Hy; [|by rewrite IH]. by rewrite Hq, (Hpq _ Hy).
Qed.
Lemma by_id_other id id' : id' ≠ id → ∀ y : Device, by_id id y = true → by_id id' y = false.
Proof. unfold by_id. intros Hne y <-%String.eqb_eq. by apply String.eqb_neq. Qed.

(** The device row of a message: the registered one, or a new one. *)
Definition device_before (dev site : string) (created : Z) (d : DB) : Device :=
  match get_device dev d with Some x => x | None => new_device created dev site dev "dc-motor" true end.

Lemma device_write_effect dev site created seen d d' :
  (∀ x, d_id (seen x) = d_id x) →
  device_write dev site created seen (get_device dev d) d = Ok d' →
  get_device dev d' = Some (seen (device_before dev site created d))
  ∧ ∀ id, id ≠ dev → get_device id d' = get_device id d.
Proof.
  intros Hseen. unfold device_before, device_write.
  assert (Hb : ∀ id y, by_id id (seen y) = by_id id y) by (intros; unfold by_id; by rewrite Hseen).
  destruct (get_device dev d) as [x|] eqn:Hx.
  - intros H. unfold update_device in H. open_write H. unfold get_device in *. simpl. split.
    + by apply find_update_where_same.
    + intros id Hne. apply find_update_where_other; [done|]. by apply by_id_other.
  - intros H. unfold insert_device in H. open_write H. unfold get_device in *. simpl. split.
    + rewrite find_app, Hx. simpl. rewrite Hb. unfold by_id. simpl. by rewrite String.eqb_refl.
    + intros id Hne. rewrite find_app. simpl. rewrite Hb.
      destruct (List.find (by_id id) (devices d)); [done|]. unfold by_id. simpl.
      destruct (String.eqb_spec dev id); [congruence|done].
Qed.

Lemma set_alarms_frame l d0 :
  (devices (set_alarms l d0), telemetry (set_alarms l d0), threshold_configs (set_alarms l d0))
  = (devices d0, telemetry d0, threshold_configs d0).
Proof. done. Qed.

Lemma get_device_of d d' id : devices d' = devices d → get_device id d' = get_device id d.
Proof. unfold get_device. by intros ->. Qed.

Lemma prefix_device e d now created nc d0 :
  run_writes (prefix_writes e d now created nc) d = Ok d0 →
  get_device (te_device_id e) d0
    = Some (seen_telemetry now e (device_before (te_device_id e) (te_site_id e) created d))
  ∧ ∀ id, id ≠ te_device_id e → get_device id d0 = get_device id d.
Proof.
  unfold prefix_writes, row_writes. rewrite run_writes_app_ok. intros (d1 & H1 & H2).
  rewrite run_writes_cons_ok in H1. destruct H1 as (da & Ha & H1).
  rewrite run_writes_cons_ok in H1. destruct H1 as (db & Hb & [= <-]).
  apply device_write_effect in Ha; [|done].
  assert (E : devices d0 = devices da).
  { apply config_writes_frame in H2. apply insert_telemetry_frame in Hb. by rewrite H2, Hb. }
  destruct Ha as [Ha1 Ha2]. split; [by rewrite (get_device_of da d0) by done|].
  intros id Hid. rewrite (get_device_of da d0) by done. by apply Ha2.
Qed.

(** Tables an ingested message does not touch. *)
Definition other_tables (d : DB) :=
  (users d, anomaly_models d, health_snapshots d, calibrations d, maintenance_records d,
   audit_events d, error_logs d, device_commands d).

Lemma inserted_effect e s s' :
  clean s → alarms_wf (alarms (db s)) →
  persist_telemetry e s = (Ok {| status := inserted; message_id := te_message_id e |}, s') →
  let now := clock s (ticks s) in
  let d := db s in let d' := saved s' in
  telemetry d' = telemetry d ++ [with_t_id (next_id (telemetry d)) (telemetry_row now e)]
  ∧ (∃ created, get_device (te_device_id e) d'
       = Some (seen_telemetry now e (device_before (te_device_id e) (te_site_id e) created d)))
  ∧ (∀ id, id ≠ te_device_id e → get_device id d' = get_device id d)
  ∧ other_tables d' = other_tables d
  ∧ published s' = published s ++ notified (postgres s) (telemetry_event e)
  ∧ clean s'.
Proof.
  intros Hs Hwf H. apply persist_run in H; [|done]. inversion H; subst; cbv zeta.
  match goal with Hc : clean s' |- _ => pose proof Hc as (Hdb & _); rewrite <- Hdb end.
  match goal with Hw : run_writes _ _ = Ok _ |- _ => apply ingest_alarms in Hw as (d0 & Hp & ->); [|done] end.
  pose proof (prefix_device _ _ _ _ _ _ Hp) as [Hdev Hoth].
  apply prefix_frame in Hp as [_ Hp]. unfold get_device in *. simpl.
  split; [by rewrite Hp|]. split; [by exists created|]. split; [done|].
  split; [|done]. unfold other_tables. simpl. by rewrite Hp.
Qed.

(** C18: an accepted message appends exactly its row to the telemetry table,
    marks its device as seen (creating it when unknown), leaves every other
    device and the unrelated tables alone, and delivers exactly one event, on
    PostgreSQL. *)
Theorem telemetry_inserted e s s' :
  clean s → alarms_wf (alarms (db s)) →
  persist_telemetry e s = (Ok {| status := inserted; message_id := te_message_id e |}, s') →
  let now := clock s (ticks s) in
  let d := db s in let d' := saved s' in
  telemetry d' = telemetry d ++ [with_t_id (next_id (telemetry d)) (telemetry_row now e)]
  ∧ (∃ created, get_device (te_device_id e) d'
       = Some (seen_telemetry now e (device_before (te_device_id e) (te_site_id e) created d)))
  ∧ (∀ id, id ≠ te_device_id e → get_device id d' = get_device id d)
  ∧ other_tables d' = other_tables d
  ∧ published s' = published s ++ notified (postgres s) (telemetry_event e)
  ∧ clean s'.
Proof. apply inserted_effect. Qed.

(** The whole effect of an accepted message: its row, its device as seen, the
    threshold row of a device that had none, its alarms after the three
    metrics, one event; every other row of every table is as before. *)
Definition new_configs (dev : string) (now : Z) (d : DB) : list ThresholdConfig :=
  match get_threshold_config dev d with Some _ => [] | None => [new_threshold_config now dev] end.
Definition telemetry_stored (e : TelemetryEnvelope) (s s' : Session) : Prop :=
  let d := saved s in let d' := saved s' in
  let dev := te_device_id e in let now := clock s (ticks s) in
  ∃ created nc n1 n2 n3,
    d' = set_alarms (threshold_effect dev (te_measurements e) (config_of dev nc d) n1 n2 n3 (alarms d))
           (set_threshold_configs (threshold_configs d ++ new_configs dev nc d)
             (set_telemetry (telemetry d ++ [with_t_id (next_id (telemetry d)) (telemetry_row now e)])
               (set_devices (devices d') d)))
    ∧ get_device dev d' = Some (seen_telemetry now e (device_before dev (te_site_id e) created d))
    ∧ (∀ id, id ≠ dev → get_device id d' = get_device id d)
    ∧ published s' = published s ++ notified (postgres s) (telemetry_event e).

Lemma config_writes_effect dev nc d d0 d1 :
  run_writes (config_writes dev nc d0) d = Ok d1 →
  threshold_configs d1 = threshold_configs d ++ new_configs dev nc d0.
Proof.
  unfold config_writes, new_configs. destruct (get_threshold_config dev d0).
  - intros [= <-]. by rewrite app_nil_r.
  - rewrite run_writes_cons_ok. intros (d2 & H & [= <-]). unfold insert_threshold_config in H. by open_write H.
Qed.
Lemma inserted_exact e s s' :
  clean s → alarms_wf (alarms (saved s)) →
  persist_telemetry e s = (Ok {| status := inserted; message_id := te_message_id e |}, s') →
  telemetry_stored e s s'.
Proof.
  intros Hs Hwf H. pose proof Hs as (Hdb & _). rewrite <- Hdb in Hwf.
  apply persist_run in H; [|done]. inversion H; subst.
  match goal with Hc : clean s' |- _ => pose proof Hc as (Hdb' & _) end. unfold telemetry_stored. cbv zeta.
  rewrite <- Hdb, <- Hdb'.
  match goal with Hw : run_writes _ _ = Ok _ |- _ => apply ingest_alarms in Hw as (d0 & Hp & E); [|done] end.
  exists created, nc, n1, n2, n3. pose proof (prefix_device _ _ _ _ _ _ Hp) as [Hdev Hoth].
  assert (Ec : threshold_configs d0 = threshold_configs (db s) ++ new_configs (te_device_id e) nc (db s)).
  { unfold prefix_writes in Hp. apply run_writes_app_ok in Hp as (d1 & Hr1 & Hr2).
    apply config_writes_effect in Hr2. rewrite Hr2. by rewrite (row_writes_frame _ _ _ _ _ Hr1). }
  apply prefix_frame in Hp as [_ Hp]. rewrite E. unfold get_device in *. simpl in *.
  split; [|done]. rewrite <- Ec. rewrite Hp at 1. done.
Qed.

Lemma telemetry_inserted_witness :
  let s' := after (persist_telemetry sample_envelope sample_session) in
  length (telemetry (saved s')) = 1%nat ∧ published s' = [telemetry_event sample_envelope].
Proof.
  cbv zeta. destruct (telemetry_inserted sample_envelope sample_session
    (after (persist_telemetry sample_envelope sample_session))) as (Ht & _ & _ & _ & Hp & _);
    [done|apply empty_wf|vm_compute; reflexivity|].
  rewrite Ht. split; [reflexivity|exact Hp].
Defined.

Lemma duplicate_again e e' s r s1 :
  clean s → alarms_wf (alarms (db s)) →
  persist_telemetry e s = (Ok r, s1) → te_message_id e' = te_message_id e →
  persist_telemetry e' s1 = (Ok {| status := duplicate; message_id := te_message_id e |}, s1).
Proof.
  intros Hs Hwf H Hm.
  assert (Hfound : is_Some (find_message (te_message_id e) (db s1))).
  { pose proof (persist_run e s (Ok r) s1 Hs H) as Ho. inversion Ho; subst; [done|].
    apply inserted_effect in H as (Ht & _ & _ & _ & _ & (Hdb & _)); [|done..].
    rewrite <- Hdb in Ht. unfold find_message. rewrite Ht, find_app.
    destruct (List.find _ _); [by eexists|]. simpl. unfold same_message. simpl.
    rewrite String.eqb_refl. by eexists. }
  unfold persist_telemetry. cbv zeta. rewrite query_step, Hm. by destruct Hfound as [t ->].
Qed.

(** Ingestion is idempotent: once a call has returned, inserting or
    recognising the message, a second message with the same identifier is
    reported as a duplicate and changes nothing at all. *)
Theorem persist_telemetry_idempotent e e' s r s1 :
  clean s → alarms_wf (alarms (db s)) →
  persist_telemetry e s = (Ok r, s1) → te_message_id e' = te_message_id e →
  persist_telemetry e' s1 = (Ok {| status := duplicate; message_id := te_message_id e |}, s1).
Proof. apply duplicate_again. Qed.

Lemma persist_telemetry_idempotent_witness :
  let s1 := after (persist_telemetry sample_envelope sample_session) in
  persist_telemetry sample_envelope s1
  = (Ok {| status := duplicate; message_id := te_message_id sample_envelope |}, s1).
Proof.
  cbv zeta. apply (persist_telemetry_idempotent sample_envelope sample_envelope sample_session
    {| status := inserted; message_id := te_message_id sample_envelope |});
    [done|apply empty_wf|vm_compute; reflexivity|reflexivity].
Defined.

(** ** Threshold alarms *)

(** The alarm state machine of the three monitored metrics under [config]. *)
Definition metric_step (config : ThresholdConfig) (m : Measurements) (code : string)
    (state : option string) : option string :=
  let h := c_hysteresis_percent config in
  if String.eqb code "TEMPERATURE_THRESHOLD" then
    alarm_step (temperature_c m) (c_temperature_warning_c config) (c_temperature_critical_c config) h state
  else if String.eqb code "VIBRATION_THRESHOLD" then
    alarm_step (vibration_rms_mps2 m) (c_vibration_warning_mps2 config) (c_vibration_critical_mps2 config) h state
  else if String.eqb code "CURRENT_THRESHOLD" then
    alarm_step (current_a m) (c_current_warning_a config) (c_current_critical_a config) h state
  else state.

Lemma severity_frame d k l l' : active_in d k l' = active_in d k l → severity_in d k l' = severity_in d k l.
Proof. unfold severity_in. by intros ->. Qed.

Lemma threshold_effect_step dev m c n1 n2 n3 l d k :
  alarms_wf l →
  severity_in d k (threshold_effect dev m c n1 n2 n3 l)
  = (if String.eqb d dev then metric_step c m k (severity_in d k l) else severity_in d k l).
Proof.
  intros Hwf. unfold threshold_effect.
  pose proof (temperature_case dev m c n1 l Hwf) as C1.
  pose proof (metric_case_wf _ _ _ _ _ _ _ _ C1 Hwf) as W1.
  pose proof (vibration_case dev m c n2 _ W1) as C2.
  pose proof (metric_case_wf _ _ _ _ _ _ _ _ C2 W1) as W2.
  pose proof (current_case dev m c n3 _ W2) as C3.
  set (l1 := temperature_effect dev m c n1 l) in *. set (l2 := vibration_effect dev m c n2 l1) in *.
  set (l3 := current_effect dev m c n3 l2) in *.
  assert (F1 : (d, k) ≠ (dev, "TEMPERATURE_THRESHOLD") → severity_in d k l1 = severity_in d k l).
  { intros. apply severity_frame. by eapply metric_case_frame. }
  assert (F2 : (d, k) ≠ (dev, "VIBRATION_THRESHOLD") → severity_in d k l2 = severity_in d k l1).
  { intros. apply severity_frame. by eapply metric_case_frame. }
  assert (F3 : (d, k) ≠ (dev, "CURRENT_THRESHOLD") → severity_in d k l3 = severity_in d k l2).
  { intros. apply severity_frame. by eapply metric_case_frame. }
  unfold metric_step. destruct (String.eqb_spec d dev) as [->|Hd].
  - destruct (String.eqb_spec k "TEMPERATURE_THRESHOLD") as [->|H1].
    { rewrite F3, F2 by congruence. by apply metric_case_step. }
    destruct (String.eqb_spec k "VIBRATION_THRESHOLD") as [->|H2].
    { rewrite F3 by congruence. rewrite <- F1 by congruence. by apply metric_case_step. }
    destruct (String.eqb_spec k "CURRENT_THRESHOLD") as [->|H3].
    { rewrite <- F1, <- F2 by congruence. by apply metric_case_step. }
    rewrite F3, F2, F1 by congruence. done.
  - rewrite F3, F2, F1 by congruence. done.
Qed.

(** C3: the alarms of an accepted message refine the abstract state machine:
    under the device's thresholds (the stored configuration, or the defaults),
    each monitored metric raises, escalates, downgrades, keeps or clears its
    alarm with hysteresis; no other device's or code's alarm changes. *)
Theorem threshold_alarms_refine e s s' device code :
  clean s → alarms_wf (alarms (db s)) →
  persist_telemetry e s = (Ok {| status := inserted; message_id := te_message_id e |}, s') →
  ∃ now, let config := config_of (te_device_id e) now (db s) in
  severity_in device code (alarms (saved s'))
  = (if String.eqb device (te_device_id e)
     then metric_step config (te_measurements e) code (severity_in device code (alarms (db s)))
     else severity_in device code (alarms (db s))).
Proof.
  intros Hs Hwf H. apply persist_run in H; [|done]. inversion H; subst.
  match goal with Hc : clean s' |- _ => destruct Hc as (Hdb & _); rewrite <- Hdb end.
  match goal with Hw : run_writes _ _ = Ok _ |- _ => apply ingest_alarms in Hw as (d0 & Hp & ->); [|done] end.
  exists nc. cbv zeta. simpl. by apply threshold_effect_step.
Qed.

Lemma threshold_alarms_refine_witness :
  severity_in "motor-1" "TEMPERATURE_THRESHOLD"
    (alarms (saved (after (persist_telemetry sample_envelope sample_session)))) = Some "warning".
Proof.
  destruct (threshold_alarms_refine sample_envelope sample_session
    (after (persist_telemetry sample_envelope sample_session)) "motor-1" "TEMPERATURE_THRESHOLD")
    as (now & E); [done|apply empty_wf|vm_compute; reflexivity|].
  rewrite E. vm_compute. reflexivity.
Defined.

(** ** The invariant *)

Lemma device_write_keys dev site created seen found :
  (∀ x, d_id (seen x) = d_id x) → keeps_keys (device_write dev site created seen found).
Proof. destruct found; simpl; auto with keys. Qed.

Lemma prefix_keys e d now created nc d0 :
  keys_wf d → run_writes (prefix_writes e d now created nc) d = Ok d0 → keys_wf d0.
Proof.
  intros Hk H. eapply run_writes_keys; [|exact H|done].
  unfold prefix_writes, row_writes, config_writes. apply Forall_app_2.
  - apply List.Forall_cons; [by apply device_write_keys|].
    apply List.Forall_cons; [auto with keys|apply List.Forall_nil].
  - destruct (get_threshold_config _ _); [apply List.Forall_nil|].
    apply List.Forall_cons; [auto with keys|apply List.Forall_nil].
Qed.

Lemma metric_write_keys dev code metric unit v w c h now d :
  Forall keeps_keys (metric_write dev code metric unit v w c h now d).
Proof.
  assert (Hu : ∀ i f, keeps_key f → keeps_keys (update_alarm i f)) by auto with keys.
  unfold metric_write. destruct v; [|apply List.Forall_nil].
  destruct (desired_severity _ _ _), (active_in _ _ _); [..|apply List.Forall_nil].
  - apply List.Forall_cons; [by apply Hu|apply List.Forall_nil].
  - apply List.Forall_cons; [auto with keys|apply List.Forall_nil].
  - destruct (fltb _ _); [|apply List.Forall_nil].
    apply List.Forall_cons; [by apply Hu|apply List.Forall_nil].
Qed.

Lemma ingest_keys e d now created nc n1 n2 n3 d' :
  keys_wf d → run_writes (ingest_writes e d now created nc n1 n2 n3) d = Ok d' → keys_wf d'.
Proof.
  intros Hk. unfold ingest_writes. rewrite run_writes_app_ok. intros (d0 & H0 & H1).
  eapply run_writes_keys; [|exact H1|by eapply prefix_keys].
  unfold threshold_writes. repeat apply Forall_app_2; apply metric_write_keys.
Qed.

Lemma ingest_wf e s r s' :
  clean s → db_wf (saved s) → persist_telemetry e s = (r, s') → db_wf (saved s').
Proof.
  intros Hs Hwf H.
  destruct (atomic_run e s r s' Hs H) as [->|[-> _]]; [|done].
  destruct Hs as (Hdb & Hrest). rewrite <- Hdb in Hwf. destruct Hwf as [Hk Ha].
  apply persist_run in H; [|done]. inversion H; subst.
  match goal with Hc : clean s' |- _ => destruct Hc as (Hdb' & _); rewrite <- Hdb' end.
  match goal with Hw : run_writes _ _ = Ok _ |- _ =>
    split; [by eapply ingest_keys|]; apply ingest_alarms in Hw as (d0 & Hp & ->); [|done] end.
  simpl. by apply threshold_effect_wf.
Qed.

(** Whatever its outcome, [persist_telemetry] keeps the committed database
    well-formed: message identifiers and (device, sequence) pairs unique, every
    row of a registered device, alarm keys dense, at most one active alarm per
    device and code, cleared exactly when it has a clearing time. *)
Theorem persist_telemetry_invariant e s r s' :
  clean s → db_wf (saved s) → persist_telemetry e s = (r, s') → db_wf (saved s').
Proof. apply ingest_wf. Qed.

Lemma persist_telemetry_invariant_witness :
  db_wf (saved (after (persist_telemetry sample_envelope sample_session))).
Proof.
  eapply (persist_telemetry_invariant sample_envelope sample_session);
    [done|apply empty_wf|apply surjective_pairing].
Defined.

(** ** Acceptance *)

Lemma py_len_le s : (py_len s <= String.length s)%nat.
Proof.
  unfold py_len. induction s as [|c s IH]; simpl; [lia|].
  destruct (chars s) as [|w ws]; simpl in *; [lia|]. destruct (starts_cont w); simpl; lia.
Qed.
Lemma identifier_len s : is_identifier s = true → (py_len s <= 63)%nat.
Proof.
  intros H. pose proof (py_len_le s). destruct s as [|c s]; [simpl in *; lia|].
  unfold is_identifier in H. b2p. apply Nat.leb_le in H1. simpl in *. lia.
Qed.
Lemma identifier_varchar n s : (63 <= n)%nat → is_identifier s = true → varchar n s = true.
Proof.
  intros Hn H. apply varchar_iff. split; [apply identifier_len in H; lia|].
  unfold no_nul. by rewrite identifier_no_nul.
Qed.

Lemma literal_varchar n vs s :
  forallb (varchar n) vs = true → literal vs s = true → varchar n s = true.
Proof.
  intros Hv (v & Hin & ->%String.eqb_eq)%existsb_exists. rewrite forallb_forall in Hv. by apply Hv.
Qed.

(** A validated envelope within the widths of the columns the contract does
    not bound. *)
Record storable (e : TelemetryEnvelope) : Prop := {
  st_valid : telemetry_errors e = 0%nat;
  st_message : varchar 36 (te_message_id e) = true;
  st_firmware : no_nul (te_firmware_version e) = true;
  st_sequence : te_sequence e < 2 ^ 63;
  st_uptime : te_uptime_ms e < 2 ^ 63
}.

Lemma storable_checks e : storable e →
  is_identifier (te_site_id e) = true ∧ is_identifier (te_device_id e) = true
  ∧ 0 <= te_sequence e ∧ 0 <= te_uptime_ms e ∧ varchar 48 (te_firmware_version e) = true
  ∧ literal ["good"; "degraded"; "bad"] (te_quality e) = true.
Proof.
  intros [Hv _ Hn _ _]. unfold telemetry_errors in Hv. apply count_errors_0 in Hv.
  rewrite !Forall_app in Hv. destruct Hv as [Hv _]. rewrite !Forall_cons in Hv.
  destruct Hv as (_ & ? & ? & Hs & Hu & Hf & ? & _). apply Z.leb_le in Hs, Hu. apply Nat.leb_le in Hf.
  rewrite varchar_iff. tauto.
Qed.

Lemma row_fits e now : storable e → telemetry_fits (telemetry_row now e) = true.
Proof.
  intros Hst. destruct (storable_checks e Hst) as (Hsite & Hdev & Hs & Hu & Hf & Hq).
  destruct Hst as [_ Hm _ Hs' Hu']. unfold telemetry_fits, telemetry_row. simpl.
  rewrite Hm, Hf, (identifier_varchar 63) by done.
  assert (varchar 20 (te_quality e) = true) as -> by (eapply literal_varchar; [|exact Hq]; reflexivity).
  unfold big_integer. rewrite !andb_true_iff, !Z.leb_le, !Z.ltb_lt. lia.
Qed.

Lemma seen_fits e now x : storable e → device_fits x = true → device_fits (seen_telemetry now e x) = true.
Proof.
  intros Hst. destruct (storable_checks e Hst) as (_ & _ & _ & _ & Hf & _).
  unfold device_fits, seen_telemetry. simpl. rewrite Hf, !andb_true_iff. intros H.
  destruct (negb _); intuition.
Qed.
Lemma new_device_fits now dev site :
  is_identifier dev = true → is_identifier site = true →
  device_fits (new_device now dev site dev "dc-motor" true) = true.
Proof.
  intros Hd Hs. unfold device_fits, new_device. simpl.
  rewrite (identifier_varchar 63 dev), (identifier_varchar 63 site), (identifier_varchar 120 dev) by (lia || done).
  reflexivity.
Qed.


Lemma forallb_update_where {A} (fits p : A → bool) f l :
  (∀ x, fits x = true → fits (f x) = true) → forallb fits l = true →
  forallb fits (update_where p f l) = true.
Proof.
  rewrite !forallb_forall. intros Hf Hl x (y & <- & Hy)%in_map_iff.
  destruct (p y); auto.
Qed.











(** ** The race between the duplicate check and the commit *)

(** The session sees, at commit, what another transaction has committed since
    its queries. *)
Definition overtaken (d : DB) (s : Session) : Session :=
  Build_Session d d (pending s) (notes s) (published s) (postgres s) (clock s) (ticks s).

Lemma device_write_race e now created found d :
  storable e → forallb device_fits (devices d) = true →
  ∃ w, device_write (te_device_id e) (te_site_id e) created (seen_telemetry now e) found d = w ∧
    (w = Raise IntegrityError ∨ ∃ d1, w = Ok d1 ∧ telemetry d1 = telemetry d).
Proof.
  intros Hst Hfit. destruct (storable_checks e Hst) as (Hs & Hd & _). eexists. split; [done|].
  destruct found; simpl.
  - right. unfold update_device. rewrite forallb_update_where; [by eexists| |done].
    intros y. by apply seen_fits.
  - unfold insert_device. rewrite seen_fits by (try apply new_device_fits; done).
    destruct (negb _); [right; by eexists|by left].
Qed.

Lemma row_writes_race e d0 now created d t :
  storable e → forallb device_fits (devices d) = true →
  find_message (te_message_id e) d = Some t →
  run_writes (row_writes e d0 now created) d = Raise IntegrityError.
Proof.
  intros Hst Hfit Hm. unfold row_writes.
  destruct (device_write_race e now created (get_device (te_device_id e) d0) d Hst Hfit)
    as (w & Hw & [->|(d1 & -> & Ht)]); simpl; rewrite Hw; [done|]. simpl.
  unfold insert_telemetry. rewrite row_fits by done. rewrite Ht. simpl.
  assert (existsb (same_message (te_message_id e)) (telemetry d) = true) as ->; [|done].
  apply existsb_exists. apply List.find_some in Hm. by exists t.
Qed.

(** When the same message was committed by another transaction after the
    duplicate check (both broker redelivery and the HTTP path may race), the
    unique constraint turns the commit into a duplicate: the session rolls
    back, nothing is stored twice and nothing is published. *)
Theorem commit_race_is_duplicate e s d now created ws t :
  storable e → forallb device_fits (devices d) = true →
  find_message (te_message_id e) d = Some t →
  pending s = row_writes e (db s) now created ++ ws →
  let s' := after (finish_telemetry (te_message_id e) (overtaken d s)) in
  finish_telemetry (te_message_id e) (overtaken d s)
    = (Ok {| status := duplicate; message_id := te_message_id e |}, s')
  ∧ saved s' = d ∧ published s' = published s ∧ clean s'.
Proof.
  intros Hst Hfit Hm Hp.
  assert (Hc : commit (overtaken d s) = (Raise IntegrityError, overtaken d s)).
  { unfold commit. simpl. rewrite Hp, run_writes_app, (row_writes_race _ _ _ _ _ t) by done. done. }
  cbv zeta. unfold finish_telemetry, try_except, after. 
  assert (E : ∀ (k : () → DBM PersistResult), (commit ≫= k) (overtaken d s) = (Raise IntegrityError, overtaken d s)).
  { intros k. unfold mbind, M_bind. by rewrite Hc. }
  rewrite E. unfold mbind, M_bind, rollback, modify, query, get. simpl. rewrite Hm. done.
Qed.

Definition next_envelope : TelemetryEnvelope :=
  Build_TelemetryEnvelope 1 "22222222-1111-4111-8111-111111111111" "site-a" "motor-1" 8 None false
    2000 "1.0.0" "degraded" false {| temperature_c := None; vibration_rms_mps2 := None;
    vibration_peak_mps2 := None; vibration_crest_factor := None; current_a := None |}
    (te_sample_quality sample_envelope) [].
Definition registered_db : DB :=
  set_threshold_configs [new_threshold_config 0 "motor-1"]
    (set_devices [new_device 0 "motor-1" "site-a" "motor-1" "dc-motor" true] empty_db).
Definition next_session : Session := open_session registered_db [] false (λ _, 9) 0.
Definition staged_session : Session := after (stage_telemetry next_envelope next_session).
Definition raced_db : DB := set_telemetry [with_t_id 1 (telemetry_row 9 next_envelope)] registered_db.

Lemma commit_race_is_duplicate_witness :
  storable next_envelope ∧
  (finish_telemetry (te_message_id next_envelope) (overtaken raced_db staged_session)).1
  = Ok {| status := duplicate; message_id := te_message_id next_envelope |}.
Proof.
  assert (Hst : storable next_envelope) by (constructor; vm_compute; reflexivity).
  split; [exact Hst|].
  destruct (commit_race_is_duplicate next_envelope staged_session raced_db 9 0 []
    (with_t_id 1 (telemetry_row 9 next_envelope))) as [E _];
    [exact Hst|vm_compute; reflexivity|vm_compute; reflexivity|reflexivity|].
  exact (f_equal fst E).
Defined.
