(* ===== verification/HealthAckProps.v ===== *)
(** What ingestion of health snapshots and of command acknowledgements
    guarantees. *)
From S2P Require Import Prelude PyStr Float64 Json PyTime Models Tables Session Topics Schemas.
From S2P Require Import Ingestion AlarmFacts Keys Transactions IngestionRuns IngestionProps.

(** ** Outcomes *)

(** A transaction that stages [ws] and [ns] and commits. *)
Lemma commit_result {A} (a : A) ws ns s s2 r s' :
  clean s → reaches ws ns s s2 → (commit;; mret a) s2 = (r, s') →
  (∃ d', run_writes ws (db s) = Ok d' ∧ r = Ok a ∧ db s' = d' ∧ clean s'
     ∧ postgres s' = postgres s ∧ clock s' = clock s ∧ published s' = published s ++ ns)
  ∨ (∃ err, run_writes ws (db s) = Raise err ∧ r = Raise err ∧ keeps s s').
Proof.
  intros Hs (K & N & E) H. rewrite (clean_effective s Hs) in E. simpl in E.
  destruct Hs as (_ & _ & Hn). rewrite Hn in N. simpl in N.
  apply bind_run in H as [(u & sc & Hc & H)|(err & Hc & ->)];
    apply commit_run in Hc as [(d & Hd & Eu & ->)|(err' & He & Eu & ->)]; try done.
  - injection H as <- <-. left. exists d. rewrite <- E. split; [done|]. split; [done|].
    destruct K as (_ & Kp & Kpg & Kc). simpl. by rewrite N, Kp, Kpg, Kc.
  - injection Eu as <-. right. exists err. by rewrite <- E.
Qed.

Section Health.
Context (iso : datetime → string) (e : HealthEnvelope).

Definition health_writes (d : DB) (now created received : Z) : list write :=
  [device_write (he_device_id e) (he_site_id e) created (seen_health now e)
     (get_device (he_device_id e) d);
   insert_health (new_health received (he_message_id e) (he_device_id e) (dump_health iso e))].

Inductive health_outcome (s : Session) : result PersistResult → Session → Prop :=
  | Health_duplicate :
      is_Some (find_health (he_message_id e) (db s)) →
      health_outcome s (Ok {| status := duplicate; message_id := he_message_id e |}) s
  | Health_site :
      site_differs (he_site_id e) (get_device (he_device_id e) (db s)) = true →
      health_outcome s (Raise (ValueError site_mismatch)) s
  | Health_too_large s' :
      keeps s s' → postgres s = true → event_fits (health_event e) = false →
      health_outcome s (Raise (ValueError "live event exceeds bounded PostgreSQL notification size")) s'
  | Health_database err s' now created received :
      keeps s s' → run_writes (health_writes (db s) now created received) (db s) = Raise err →
      health_outcome s (Raise err) s'
  | Health_inserted d' s' created received :
      find_health (he_message_id e) (db s) = None →
      site_differs (he_site_id e) (get_device (he_device_id e) (db s)) = false →
      run_writes (health_writes (db s) (clock s (ticks s)) created received) (db s) = Ok d' →
      db s' = d' → clean s' → published s' = published s ++ notified (postgres s) (health_event e) →
      health_outcome s (Ok {| status := inserted; message_id := he_message_id e |}) s'.

Lemma health_run s r s' : clean s → persist_health iso e s = (r, s') → health_outcome s r s'.
Proof.
  intros Hs. unfold persist_health. cbv zeta. rewrite query_step.
  destruct (find_health _ _) as [t|] eqn:Hm; [intros [= <- <-]; apply Health_duplicate; by rewrite Hm|].
  rewrite query_step.
  destruct (site_differs _ _) eqn:Hsite; [intros [= <- <-]; by apply Health_site|].
  rewrite now_step. intros H.
  set (now := clock s (ticks s)) in *. set (found := get_device (he_device_id e) (db s)) in *.
  destruct (touch_device_run (he_device_id e) (he_site_id e) now (seen_health now e) found (next_tick s))
    as (created & s1 & Ht & D1 & R1).
  rewrite (bind_step _ _ _ _ _ Ht), now_step, add_step in H.
  set (received := clock s1 (ticks s1)) in *. set (s2 := set_pending _ (next_tick s1)) in *.
  assert (R2 : reaches (health_writes (db s) now created received) [] s s2).
  { exact (reaches_trans [] _ [] _ _ _ _ (reaches_tick s)
      (reaches_trans [_] [_] [] [] _ _ _ R1
        (reaches_trans [] _ [] _ _ _ _ (reaches_tick s1) (reaches_add _ (next_tick s1))))). }
  apply bind_run in H as [(u & s3 & H3 & H)|(err & H3 & ->)];
    apply notify_run in H3 as [(Eu & R4 & Hfit)|(Eu & -> & Hp & Hfit)]; try done.
  - assert (Ep : postgres s2 = postgres s) by apply R2. rewrite Ep in R4.
    pose proof (reaches_trans _ _ _ _ _ _ _ R2 R4) as R5. rewrite app_nil_r in R5.
    eapply commit_result in H as [(d' & Hw & -> & Hd & Hc & _ & _ & Hpub)|(err & Hw & -> & HK)];
      [..|exact Hs|exact R5].
    + by eapply Health_inserted.
    + by eapply Health_database.
  - injection Eu as ->. apply Health_too_large; [apply R2| |done].
    destruct R2 as ((_ & _ & <- & _) & _). done.
Qed.
End Health.

Definition health_row (d : DB) (received : Z) (iso : datetime → string) (e : HealthEnvelope) : HealthSnapshot :=
  Build_HealthSnapshot (next_id (health_snapshots d)) (he_message_id e) (he_device_id e) received
    (dump_health iso e).

Lemma health_effect iso e s r s' :
  clean s → db_wf (saved s) → persist_health iso e s = (r, s') →
  db_wf (saved s') ∧
  ((r ≠ Ok {| status := inserted; message_id := he_message_id e |}
    ∧ saved s' = saved s ∧ published s' = published s)
   ∨ (r = Ok {| status := inserted; message_id := he_message_id e |}
      ∧ ∃ received created,
        health_snapshots (saved s') = health_snapshots (saved s) ++ [health_row (saved s) received iso e]
        ∧ get_device (he_device_id e) (saved s')
          = Some (seen_health (clock s (ticks s)) e
                    (device_before (he_device_id e) (he_site_id e) created (saved s)))
        ∧ (∀ id, id ≠ he_device_id e → get_device id (saved s') = get_device id (saved s))
        ∧ alarms (saved s') = alarms (saved s) ∧ telemetry (saved s') = telemetry (saved s)
        ∧ published s' = published s ++ notified (postgres s) (health_event e))).
Proof.
  intros Hs Hwf H. apply health_run in H; [|done]. pose proof Hs as (Hdb & _).
  destruct H as [| |s' (E1 & E2 & _)|err s' now created received (E1 & E2 & _)|d' s' created received _ _ Hw Hd (Hdb' & _) Hpub];
    try (split; [congruence|left; split; [congruence|split; congruence]]).
  rewrite <- Hdb' , Hd, <- Hdb in *. clear Hd Hdb'.
  pose proof Hw as Hw'. unfold health_writes in Hw. apply run_writes_cons_ok in Hw as (d1 & H1 & H2).
  apply run_writes_cons_ok in H2 as (d2 & H2 & [= <-]).
  pose proof (device_write_frame _ _ _ _ _ _ _ H1) as F1. pose proof H1 as K1.
  apply device_write_effect in H1 as [G1 G2]; [|done].
  assert (K2 : keys_wf d2).
  { eapply insert_health_keys; [exact H2|]. eapply device_write_keys; [|exact K1|apply Hwf]. done. }
  unfold insert_health in H2. open_write H2. split.
  - split; [exact K2|]. simpl. rewrite F1. apply Hwf.
  - right. split; [done|]. exists received, created. simpl.
    rewrite (get_device_of d1 _ (he_device_id e)) by done.
    split; [rewrite F1; done|]. split; [done|]. split.
    + intros id Hid. rewrite (get_device_of d1 _ id) by done. by apply G2.
    + rewrite F1. done.
Qed.

(** The whole effect of an accepted snapshot: its row, its device as seen, one
    event; every other row of every table is as before. *)
Definition health_stored (iso : datetime → string) (e : HealthEnvelope) (s s' : Session) : Prop :=
  let d := saved s in let d' := saved s' in
  ∃ received created,
    d' = set_health_snapshots (health_snapshots d ++ [health_row d received iso e]) (set_devices (devices d') d)
    ∧ get_device (he_device_id e) d'
      = Some (seen_health (clock s (ticks s)) e (device_before (he_device_id e) (he_site_id e) created d))
    ∧ (∀ id, id ≠ he_device_id e → get_device id d' = get_device id d)
    ∧ published s' = published s ++ notified (postgres s) (health_event e).

Lemma health_exact iso e s s' :
  clean s → persist_health iso e s = (Ok {| status := inserted; message_id := he_message_id e |}, s') →
  health_stored iso e s s'.
Proof.
  intros Hs H. apply health_run in H; [|done]. pose proof Hs as (Hdb & _).
  inversion H as [| | | |d' s0 created received _ _ Hw Hd (Hdb' & _) Hpub]; subst.
  unfold health_stored. cbv zeta. rewrite <- Hdb, <- Hdb'. exists received, created.
  unfold health_writes in Hw. apply run_writes_cons_ok in Hw as (d1 & H1 & H2).
  apply run_writes_cons_ok in H2 as (d2 & H2 & [= E]).
  pose proof (device_write_frame _ _ _ _ _ _ _ H1) as F1. apply device_write_effect in H1 as [G1 G2]; [|done].
  unfold insert_health in H2. open_write H2. rewrite <- E. unfold get_device in *. simpl.
  split; [by rewrite F1|done].
Qed.

(** A health message either leaves the committed database and the
    delivered events as they were, or stores its snapshot, copies its counters
    and status to the device (and to no other), keeps every alarm and
    telemetry row, and delivers one event on PostgreSQL.  In both cases the
    database stays well-formed. *)
Theorem persist_health_effect iso e s r s' :
  clean s → db_wf (saved s) → persist_health iso e s = (r, s') →
  db_wf (saved s') ∧
  ((r ≠ Ok {| status := inserted; message_id := he_message_id e |}
    ∧ saved s' = saved s ∧ published s' = published s)
   ∨ (r = Ok {| status := inserted; message_id := he_message_id e |}
      ∧ ∃ received created,
        health_snapshots (saved s') = health_snapshots (saved s) ++ [health_row (saved s) received iso e]
        ∧ get_device (he_device_id e) (saved s')
          = Some (seen_health (clock s (ticks s)) e
                    (device_before (he_device_id e) (he_site_id e) created (saved s)))
        ∧ (∀ id, id ≠ he_device_id e → get_device id (saved s') = get_device id (saved s))
        ∧ alarms (saved s') = alarms (saved s) ∧ telemetry (saved s') = telemetry (saved s)
        ∧ published s' = published s ++ notified (postgres s) (health_event e))).
Proof. apply health_effect. Qed.

Definition sample_health : HealthEnvelope := {|
  he_schema_version := 1; he_message_id := "33333333-1111-4111-8111-111111111111";
  he_site_id := "site-a"; he_device_id := "motor-1"; he_sequence := 3; he_device_time := None;
  he_uptime_ms := 5000; he_firmware_version := "1.0.0"; he_status := "degraded";
  he_rssi_dbm := Some (-61); he_reset_reason := "power_on"; he_reset_count := 1;
  he_queue_depth := 4; he_queue_capacity := 512; he_dropped_message_count := 0;
  he_modbus_status := "timeout"; he_active_faults := ["MODBUS_TIMEOUT"] |}.

Lemma persist_health_effect_witness :
  let s' := after (persist_health (λ _, "") sample_health next_session) in
  db_wf (saved s') ∧ length (health_snapshots (saved s')) = 1%nat.
Proof.
  cbv zeta.
  assert (Hwf : db_wf (saved next_session)).
  { split.
    - constructor; try apply NoDup_nil_2; try apply List.Forall_nil; try apply NoDup_singleton.
      apply List.Forall_cons; [by left|apply List.Forall_nil].
    - split; [done|]. split; [intros d c; simpl; lia|apply List.Forall_nil]. }
  destruct (persist_health_effect (λ _, "") sample_health next_session _ _ ltac:(done) Hwf
    (surjective_pairing _)) as [H [[Hne _]|(_ & received & created & Hrows & _)]].
  - exfalso. apply Hne. vm_compute. reflexivity.
  - split; [exact H|]. unfold after. rewrite Hrows. reflexivity.
Defined.

(** ** Acknowledgements *)

Definition is_command (id : string) (x : DeviceCommand) : bool := String.eqb (x_command_id x) id.

Section Ack.
Context (e : CommandAckEnvelope).

Definition ack_writes (x : DeviceCommand) (now created : Z) : list write :=
  [update_command (x_command_id x) (acknowledge now e);
   insert_audit (new_audit created (ce_device_id e) "command_acknowledged" "device_command"
                   (x_command_id x) (JObj (ack_details e)))].

(** The message repeats the acknowledgement already recorded. *)
Definition already_acknowledged (x : DeviceCommand) : Prop :=
  is_Some (x_acknowledged_at x) ∧ x_status x = ce_status e.

Inductive ack_outcome (s : Session) : result PersistResult → Session → Prop :=
  | Ack_unknown :
      get_command (ce_command_id e) (db s) = None →
      ack_outcome s (Raise (ValueError "acknowledgement references an unknown command")) s
  | Ack_device x :
      get_command (ce_command_id e) (db s) = Some x → x_device_id x ≠ ce_device_id e →
      ack_outcome s (Raise (ValueError "acknowledgement device does not match command")) s
  | Ack_duplicate x :
      get_command (ce_command_id e) (db s) = Some x → x_device_id x = ce_device_id e →
      already_acknowledged x →
      ack_outcome s (Ok {| status := duplicate; message_id := ce_message_id e |}) s
  | Ack_too_large x s' :
      get_command (ce_command_id e) (db s) = Some x → keeps s s' →
      postgres s = true → event_fits (ack_event e (x_command_id x)) = false →
      ack_outcome s (Raise (ValueError "live event exceeds bounded PostgreSQL notification size")) s'
  | Ack_database x err s' now created :
      get_command (ce_command_id e) (db s) = Some x → keeps s s' →
      run_writes (ack_writes x now created) (db s) = Raise err →
      ack_outcome s (Raise err) s'
  | Ack_recorded x d' s' created :
      get_command (ce_command_id e) (db s) = Some x → x_device_id x = ce_device_id e →
      ¬ already_acknowledged x →
      run_writes (ack_writes x (clock s (ticks s)) created) (db s) = Ok d' →
      db s' = d' → clean s' →
      published s' = published s ++ notified (postgres s) (ack_event e (x_command_id x)) →
      ack_outcome s (Ok {| status := inserted; message_id := ce_message_id e |}) s'.

Lemma ack_run s r s' : clean s → persist_command_ack e s = (r, s') → ack_outcome s r s'.
Proof.
  intros Hs. unfold persist_command_ack. cbv zeta. rewrite query_step.
  destruct (get_command _ _) as [x|] eqn:Hx; [|intros [= <- <-]; by apply Ack_unknown].
  destruct (String.eqb_spec (x_device_id x) (ce_device_id e)) as [Hd|Hd]; simpl negb; cbv iota;
    [|intros [= <- <-]; by eapply Ack_device].
  destruct (bool_decide _ && _) eqn:Hdup.
  { intros [= <- <-]. apply andb_true_iff in Hdup as [H1%bool_decide_eq_true H2%String.eqb_eq].
    by eapply Ack_duplicate. }
  cbn [negb]. rewrite now_step, add_step, now_step, add_step. intros H.
  match type of H with ((notify_after_commit _ ≫= _) ?s2 = _) =>
    assert (R2 : reaches (ack_writes x (clock s (ticks s)) (clock s (S (ticks s)))) [] s s2) end.
  { eapply (reaches_trans [] [_; _] [] []); [apply reaches_tick|].
    eapply (reaches_trans [_] [_] [] []); [apply reaches_add|].
    eapply (reaches_trans [] [_] [] []); [apply reaches_tick|]. apply reaches_add. }
  apply bind_run in H as [(u & s3 & H3 & H)|(err & H3 & ->)];
    apply notify_run in H3 as [(Eu & R4 & Hfit)|(Eu & -> & Hp & Hfit)]; try done.
  - pose proof (reaches_trans _ _ _ _ _ _ _ R2 R4) as R5. rewrite app_nil_r in R5.
    eapply commit_result in H as [(d' & Hw & -> & Hdd & Hc & _ & _ & Hpub)|(err & Hw & -> & HK)];
      [..|exact Hs|exact R5].
    + eapply Ack_recorded; try done. intros [H1 H2].
      rewrite bool_decide_eq_true_2, H2, String.eqb_refl in Hdup by done. done.
    + by eapply Ack_database.
  - injection Eu as ->. eapply Ack_too_large; [done|apply R2|done|done].
Qed.
End Ack.

Lemma acknowledge_fits now e x :
  varchar 24 (ce_status e) && varchar 48 (ce_result_code e) && nullable (varchar 240) (ce_detail e) = true →
  command_fits x = true → command_fits (acknowledge now e x) = true.
Proof.
  unfold command_fits. simpl. intros H Hx. b2p. rewrite !andb_true_iff.
  repeat match goal with H : _ = true |- _ => rewrite H; clear H end. tauto.
Qed.

Lemma ack_recorded_command e x now created d d' :
  get_command (ce_command_id e) d = Some x → run_writes (ack_writes e x now created) d = Ok d' →
  get_command (ce_command_id e) d' = Some (acknowledge now e x)
  ∧ (∀ id, id ≠ ce_command_id e → get_command id d' = get_command id d)
  ∧ telemetry d' = telemetry d ∧ alarms d' = alarms d ∧ devices d' = devices d.
Proof.
  intros Hx. pose proof (List.find_some _ _ Hx) as [_ Hid%String.eqb_eq].
  unfold ack_writes. rewrite run_writes_cons_ok. intros (d1 & H1 & H2).
  apply run_writes_cons_ok in H2 as (d2 & H2 & [= <-]).
  unfold update_command in H1. open_write H1. unfold insert_audit in H2. open_write H2.
  unfold get_command in *. simpl. rewrite Hid. split; [|split; [|done]].
  - by apply find_update_where_same.
  - intros id Hne. apply find_update_where_other; [done|]. intros y Hy%String.eqb_eq.
    apply String.eqb_neq. congruence.
Qed.

(** The whole effect of an acknowledgement: the reported outcome on its
    command, one audit event, one live event. *)
Definition ack_audit (e : CommandAckEnvelope) (created : Z) (d : DB) : AuditEvent :=
  Build_AuditEvent (next_id (audit_events d)) (ce_device_id e) "command_acknowledged" "device_command"
    (ce_command_id e) (JObj (ack_details e)) created.
Definition ack_stored (e : CommandAckEnvelope) (s s' : Session) : Prop :=
  let d := saved s in let d' := saved s' in
  ∃ x created,
    get_command (ce_command_id e) d = Some x ∧ x_device_id x = ce_device_id e
    ∧ d' = set_audit_events (audit_events d ++ [ack_audit e created d]) (set_device_commands (device_commands d') d)
    ∧ get_command (ce_command_id e) d' = Some (acknowledge (clock s (ticks s)) e x)
    ∧ (∀ id, id ≠ ce_command_id e → get_command id d' = get_command id d)
    ∧ published s' = published s ++ notified (postgres s) (ack_event e (ce_command_id e)).

Lemma ack_exact e s s' :
  clean s → persist_command_ack e s = (Ok {| status := inserted; message_id := ce_message_id e |}, s') →
  ack_stored e s s'.
Proof.
  intros Hs H. apply ack_run in H; [|done]. pose proof Hs as (Hdb & _).
  inversion H as [| | | | |x d' s0 created Hx Hd _ Hw Hdb2 (Hdb' & _) Hpub]; subst.
  pose proof (List.find_some _ _ Hx) as [_ Hid%String.eqb_eq]. rewrite Hid in Hpub.
  unfold ack_stored. cbv zeta. rewrite <- Hdb, <- Hdb'. exists x, created. split; [done|]. split; [done|].
  pose proof Hw as Hw2. apply (ack_recorded_command _ _ _ _ _ _ Hx) in Hw2 as (G1 & G2 & _).
  split; [|done]. unfold ack_writes in Hw. apply run_writes_cons_ok in Hw as (d1 & H1 & H2).
  apply run_writes_cons_ok in H2 as (d2 & H2 & [= E]). unfold update_command in H1. open_write H1.
  unfold insert_audit in H2. open_write H2. unfold ack_audit. simpl. by rewrite Hid.
Qed.

Lemma ack_recorded e s r s' :
  clean s → persist_command_ack e s = (Ok r, s') →
  message_id r = ce_message_id e ∧
  (∃ x, get_command (ce_command_id e) (db s) = Some x ∧ x_device_id x = ce_device_id e ∧
     ((status r = duplicate ∧ s' = s)
      ∨ (status r = inserted
         ∧ get_command (ce_command_id e) (saved s') = Some (acknowledge (clock s (ticks s)) e x)
         ∧ (∀ id, id ≠ ce_command_id e → get_command id (saved s') = get_command id (db s))
         ∧ telemetry (saved s') = telemetry (db s) ∧ alarms (saved s') = alarms (db s)
         ∧ published s' = published s ++ notified (postgres s) (ack_event e (ce_command_id e)))))
  ∧ persist_command_ack e s' = (Ok {| status := duplicate; message_id := ce_message_id e |}, s').
Proof.
  intros Hs H. apply ack_run in H; [|done].
  assert (Hdup : ∀ s1 x, get_command (ce_command_id e) (db s1) = Some x → x_device_id x = ce_device_id e →
    already_acknowledged e x →
    persist_command_ack e s1 = (Ok {| status := duplicate; message_id := ce_message_id e |}, s1)).
  { intros s1 x Hx Hd [Ha Hst]. unfold persist_command_ack. cbv zeta.
    rewrite query_step, Hx, Hd, String.eqb_refl. simpl.
    by rewrite bool_decide_eq_true_2, Hst, String.eqb_refl by done. }
  inversion H as [| |x Hx Hd Ha| | |x d' ? created Hx Hd _ Hw Hdb Hc Hpub]; subst; simpl;
    (split; [done|]); pose proof (List.find_some _ _ Hx) as [_ Hid%String.eqb_eq].
  - split; [exists x; eauto|]. by eapply Hdup.
  - apply (ack_recorded_command _ _ _ _ _ _ Hx) in Hw as (G1 & G2 & G3 & G4 & _).
    split.
    + exists x. split; [done|]. split; [done|]. right.
      destruct Hc as (Hc & _). rewrite <- Hc. by rewrite Hid in Hpub.
    + eapply Hdup; [exact G1|done|]. split; [by eexists|done].
Qed.

(** An acknowledgement accepted from a device concerns a known command of
    that device; it records the reported status, result and time on that
    command only, adds one audit event and delivers one event on PostgreSQL.
    Repeating it is reported as a duplicate and changes nothing. *)
Theorem command_ack_recorded e s r s' :
  clean s → persist_command_ack e s = (Ok r, s') →
  message_id r = ce_message_id e ∧
  (∃ x, get_command (ce_command_id e) (db s) = Some x ∧ x_device_id x = ce_device_id e ∧
     ((status r = duplicate ∧ s' = s)
      ∨ (status r = inserted
         ∧ get_command (ce_command_id e) (saved s') = Some (acknowledge (clock s (ticks s)) e x)
         ∧ (∀ id, id ≠ ce_command_id e → get_command id (saved s') = get_command id (db s))
         ∧ telemetry (saved s') = telemetry (db s) ∧ alarms (saved s') = alarms (db s)
         ∧ published s' = published s ++ notified (postgres s) (ack_event e (ce_command_id e)))))
  ∧ persist_command_ack e s' = (Ok {| status := duplicate; message_id := ce_message_id e |}, s').
Proof. apply ack_recorded. Qed.

Definition sample_ack : CommandAckEnvelope := {|
  ce_schema_version := 1; ce_message_id := "44444444-1111-4111-8111-111111111111";
  ce_command_id := "cmd-1"; ce_site_id := "site-a"; ce_device_id := "motor-1";
  ce_device_time := None; ce_status := "completed"; ce_result_code := "OK"; ce_detail := None;
  ce_relay_on := true |}.
Definition commanded_session : Session :=
  open_session (set_device_commands [Build_DeviceCommand "cmd-1" "motor-1" "relay" JNull "queued"
    None None "operator" 0 30 None] registered_db) [] true (λ _, 9) 0.

Lemma command_ack_recorded_witness :
  let s' := after (persist_command_ack sample_ack commanded_session) in
  persist_command_ack sample_ack s'
  = (Ok {| status := duplicate; message_id := ce_message_id sample_ack |}, s').
Proof.
  cbv zeta.
  apply (command_ack_recorded sample_ack commanded_session
    {| status := inserted; message_id := ce_message_id sample_ack |}); [done|vm_compute; reflexivity].
Defined.
