(* ===== verification/Ingestor.v ===== *)
(** The MQTT consumer, [services/mqtt_ingestor/main.py]: payload decoding,
    [handle_message] with its error log, and the connection callbacks.

    Pydantic's [model_validate]/[model_validate_json] of the three envelopes
    are parameters: what they return satisfies the constraints of
    [Schemas.v], and they raise only [ValidationError]. *)
From S2P Require Import Prelude PyStr Float64 Json JsonParse PyTime Models Tables Session Topics.
From S2P Require Import Schemas Ingestion.

Section Ingestor.
Context (wide : string → option string).
Context (model_validate : json → result TelemetryEnvelope).
Context (health_validate_json : string → result HealthEnvelope).
Context (ack_validate_json : string → result CommandAckEnvelope).
Context (iso : datetime → string).

Definition too_large (payload : string) : bool :=
  MAX_PAYLOAD_BYTES <? Z.of_nat (String.length payload).
Definition payload_error : exn := ValueError "payload exceeds 16 KiB contract limit".
Definition identity_error : exn := ValueError "topic and payload identities do not match".
Definition same_identity (site device : string) (p : ParsedTopic) : bool :=
  String.eqb site (pt_site_id p) && String.eqb device (pt_device_id p).

Definition decode_payload (topic payload : string) : result TelemetryEnvelope :=
  if too_large payload then Raise payload_error
  else
    parsed_topic ← parse_telemetry_topic topic;
    raw ← match loads wide payload with
          | inr raw => Ok raw
          | inl NotJson => Raise (ValueError "payload is not valid UTF-8 JSON")
          | inl (DigitLimit n) => Raise (ValueError (digit_limit_message n))
          end;
    envelope ← model_validate raw;
    if same_identity (te_site_id envelope) (te_device_id envelope) parsed_topic
    then mret envelope else Raise identity_error.

Definition decode_health (topic payload : string) : result HealthEnvelope :=
  parsed_topic ← parse_topic topic;
  if negb (bool_decide (pt_kind parsed_topic = HEALTH))
  then Raise (ValueError "topic is not a health topic")
  else if too_large payload then Raise payload_error
  else
    envelope ← health_validate_json payload;
    if same_identity (he_site_id envelope) (he_device_id envelope) parsed_topic
    then mret envelope else Raise identity_error.

Definition decode_command_ack (topic payload : string) : result CommandAckEnvelope :=
  parsed_topic ← parse_topic topic;
  if negb (bool_decide (pt_kind parsed_topic = COMMAND_ACKS))
  then Raise (ValueError "topic is not a command acknowledgement topic")
  else if too_large payload then Raise payload_error
  else
    envelope ← ack_validate_json payload;
    if same_identity (ce_site_id envelope) (ce_device_id envelope) parsed_topic
    then mret envelope else Raise identity_error.

(** [with SessionLocal() as session: session.add(ErrorLog(...)); session.commit()] *)
Definition record_error (code detail : string) (device_id : option string) : DBM () :=
  closing (
    now ← utc_now;
    add (insert_error_log
           (new_error_log now "mqtt-ingestor" code "warning" device_id (py_take 300 detail)));;
    commit).

(** What [handle_message] answers. *)
Inductive Reply := Persisted (s : Status) | Rejected.

Definition reject (code detail : string) : DBM Reply :=
  record_error code detail None;; mret Rejected.

(** The [except] clauses, in order. *)
Definition on_error (e : exn) : option (DBM Reply) :=
  match e with
  | ValidationError n =>
      Some (reject "CONTRACT_VALIDATION"
              ("validation failed with " +:+ str_of_Z (Z.of_nat n) +:+ " errors"))
  | SequenceCollisionError m => Some (reject "SEQUENCE_COLLISION" m)
  | _ => if is_value_error e then Some (reject "INVALID_MESSAGE" (exn_text e)) else None
  end.

Definition persist_message (kind : TopicKind) (topic payload : string) : DBM PersistResult :=
  match kind with
  | TELEMETRY => telemetry ← lift (decode_payload topic payload); persist_telemetry telemetry
  | HEALTH => health ← lift (decode_health topic payload); persist_health iso health
  | COMMAND_ACKS => command_ack ← lift (decode_command_ack topic payload); persist_command_ack command_ack
  | _ => raise (ValueError "worker does not consume this topic kind")
  end.

Definition handle_message (topic payload : string) : DBM Reply :=
  try_except
    (parsed_topic ← lift (parse_topic topic);
     result ← closing (persist_message (pt_kind parsed_topic) topic payload);
     mret (Persisted (status result)))
    on_error.
End Ingestor.

(** ** The client

    What the callbacks of [build_client] change: the topic filters subscribed
    on the broker and the readiness file. *)
Record Client := { subscriptions : list string; ready : bool }.

Definition consumed_kinds : list TopicKind := [TELEMETRY; HEALTH; COMMAND_ACKS].

Definition on_connect (is_failure : bool) (c : Client) : Client :=
  if is_failure then c
  else {| subscriptions := subscriptions c ++ map subscription consumed_kinds; ready := true |}.
Definition on_disconnect (c : Client) : Client :=
  {| subscriptions := subscriptions c; ready := false |}.
