(* ===== verification/IngestorProps.v ===== *)
(** What [handle_message] guarantees whatever arrives on a topic: every
    message is stored, recognised or rejected with one error-log row, identity
    comes from the topic, and a redelivered message is recognised as long as
    it is recorded. *)
From S2P Require Import Prelude PyStr Float64 Json JsonParse PyTime Models Tables Session Topics.
From S2P Require Import Schemas Ingestion AlarmFacts Keys Transactions IngestionRuns.
From S2P Require Import IngestionProps HealthAckProps Ingestor.

(** ** The error log *)

Definition rejection_log (now : Z) (code detail : string) (id : Z) : ErrorLog := {|
  l_id := id; l_component := "mqtt-ingestor"; l_error_code := code; l_severity := "warning";
  l_device_id := None; l_detail := py_take 300 detail; l_created_at := now |}.

Lemma record_error_run code detail s :
  varchar 48 code = true → no_nul (py_take 300 detail) = true → clean s →
  ∃ s', record_error code detail None s = (Ok (), s') ∧ clean s' ∧ published s' = published s
    ∧ saved s' = set_error_logs (error_logs (saved s)
        ++ [rejection_log (clock s (ticks s)) code detail (next_id (error_logs (saved s)))]) (saved s).
Proof.
  intros Hcode Hnul (Hdb & Hp & Hn).
  assert (Hfit : error_log_fits (new_error_log (clock s (ticks s)) "mqtt-ingestor" code "warning" None
            (py_take 300 detail)) = true).
  { unfold error_log_fits. simpl. rewrite Hcode. apply varchar_iff. by rewrite py_len_take; split; [lia|]. }
  unfold record_error, closing. rewrite now_step, add_step. unfold commit. simpl. rewrite Hp. simpl.
  unfold insert_error_log. rewrite Hfit. simpl. eexists. split; [reflexivity|].
  split; [done|]. simpl. rewrite Hn, Hdb. split; [apply app_nil_r|]. done.
Qed.

(** A detail the column refuses: the error is not logged and escapes. *)
Lemma record_error_refused code detail s :
  clean s → no_nul (py_take 300 detail) = false →
  ∃ s', record_error code detail None s = (Raise DataError, s') ∧ keeps s s' ∧ clean s'.
Proof.
  intros (Hdb & Hp & Hn) Hnul.
  assert (Hfit : error_log_fits (new_error_log (clock s (ticks s)) "mqtt-ingestor" code "warning" None (py_take 300 detail)) = false).
  { unfold error_log_fits, varchar, text. simpl. by rewrite Hnul, !andb_false_r. }
  unfold record_error, closing. rewrite now_step, add_step. unfold commit. simpl. rewrite Hp. simpl.
  unfold insert_error_log. rewrite Hfit. simpl. by eexists.
Qed.

(** ** Running the body *)

Lemma closing_saved {A} (m : DBM A) s r s1 :
  m s = (r, s1) → closing m s = (r, set_rolled_back s1).
Proof. unfold closing. by intros ->. Qed.

Lemma rolled_back_clean s : clean s → set_rolled_back s = s.
Proof. intros (Hd & Hp & Hn). destruct s; simpl in *. by subst. Qed.

Lemma lift_step {A B} (r : result A) (f : A → DBM B) s :
  (lift r ≫= f) s = match r with Ok a => f a s | Raise e => (Raise e, s) end.
Proof. by destruct r. Qed.

Lemma ack_writes_keys e x now created : Forall keeps_keys (ack_writes e x now created).
Proof.
  assert (H : keeps_keys (update_command (x_command_id x) (acknowledge now e)))
    by (by apply update_command_keys).
  apply List.Forall_cons; [exact H|]. apply List.Forall_cons; [|apply List.Forall_nil].
  auto with keys.
Qed.

Lemma ack_writes_frame e x now created d d' :
  run_writes (ack_writes e x now created) d = Ok d' → alarms d' = alarms d.
Proof.
  unfold ack_writes. rewrite run_writes_cons_ok. intros (d1 & H1 & H2).
  apply run_writes_cons_ok in H2 as (d2 & H2 & [= <-]).
  unfold update_command in H1. open_write H1. unfold insert_audit in H2. by open_write H2.
Qed.

Definition unchanged (s s' : Session) : Prop := saved s' = saved s ∧ published s' = published s.

Section Worker.
Context (wide : string → option string).
Context (model_validate : json → result TelemetryEnvelope).
Context (health_validate_json : string → result HealthEnvelope).
Context (ack_validate_json : string → result CommandAckEnvelope).
Context (iso : datetime → string).
#[local] Abbreviation persist := (persist_message wide model_validate health_validate_json ack_validate_json iso).
#[local] Abbreviation handle := (handle_message wide model_validate health_validate_json ack_validate_json iso).

(** What an inserted message stores, by the kind of its topic: the effect of
    the envelope its payload decodes to. *)
Definition stored (kind : TopicKind) (topic payload : string) (s s' : Session) : Prop :=
  match kind with
  | TELEMETRY => ∃ e, decode_payload wide model_validate topic payload = Ok e ∧ telemetry_stored e s s'
  | HEALTH => ∃ e, decode_health health_validate_json topic payload = Ok e ∧ health_stored iso e s s'
  | COMMAND_ACKS => ∃ e, decode_command_ack ack_validate_json topic payload = Ok e ∧ ack_stored e s s'
  | _ => False
  end.

(** What makes a message a duplicate on a database: its telemetry or health
    row is there, or the command carries the acknowledgement's own status. *)
Definition recorded (kind : TopicKind) (topic payload : string) (d : DB) : Prop :=
  match kind with
  | TELEMETRY => ∃ e, decode_payload wide model_validate topic payload = Ok e
      ∧ is_Some (find_message (te_message_id e) d)
  | HEALTH => ∃ e, decode_health health_validate_json topic payload = Ok e
      ∧ is_Some (find_health (he_message_id e) d)
  | COMMAND_ACKS => ∃ e x, decode_command_ack ack_validate_json topic payload = Ok e
      ∧ get_command (ce_command_id e) d = Some x ∧ x_device_id x = ce_device_id e ∧ already_acknowledged e x
  | _ => False
  end.

(** A step of the worker: a message is stored, recognised, or refused. *)
Lemma persist_message_step kind topic payload s r s' :
  clean s → db_wf (saved s) → persist kind topic payload s = (r, s') →
  (∃ p, r = Ok p ∧ status p = inserted ∧ clean s' ∧ db_wf (saved s') ∧ stored kind topic payload s s')
  ∨ (∃ p, r = Ok p ∧ status p = duplicate ∧ s' = s ∧ recorded kind topic payload (saved s))
  ∨ (∃ e, r = Raise e ∧ unchanged s s').
Proof.
  intros Hs Hwf. pose proof Hs as (Hdb & _). unfold persist_message, stored, recorded.
  destruct kind; try (intros [= <- <-]; right; right; by eexists); rewrite lift_step.
  - destruct (decode_payload _ _ _ _) as [e|err]; [|intros [= <- <-]; right; right; by eexists].
    intros H. pose proof (ingest_wf e s r s' Hs Hwf H) as Hw.
    pose proof H as Hr. apply persist_run in Hr; [|done]. rewrite <- Hdb.
    inversion Hr as [Hm|? ?|? ? ?|? (K1 & K2 & _)|? ? ? ? ? ? ? ? (K1 & K2 & _)|]; subst;
      try (right; right; by eexists).
    + right; left. by eauto 8.
    + left. eexists. split; [done|]. split; [done|]. split; [done|]. split; [done|].
      exists e. split; [done|]. by apply inserted_exact; [|apply Hwf|].
  - destruct (decode_health _ _ _) as [e|err]; [|intros [= <- <-]; right; right; by eexists].
    intros H. pose proof (persist_health_effect iso e s r s' Hs Hwf H) as [Hw _].
    pose proof H as Hr. apply health_run in Hr; [|done]. rewrite <- Hdb.
    inversion Hr as [Hm|?|? (K1 & K2 & _)|? ? ? ? ? (K1 & K2 & _)|]; subst; try (right; right; by eexists).
    + right; left. by eauto 8.
    + left. eexists. split; [done|]. split; [done|]. split; [done|]. split; [done|].
      exists e. split; [done|]. by apply health_exact.
  - destruct (decode_command_ack _ _ _) as [e|err]; [|intros [= <- <-]; right; right; by eexists].
    intros H. pose proof H as Hr. apply ack_run in Hr; [|done]. rewrite <- Hdb.
    inversion Hr as [| |x|? ? ? (K1 & K2 & _)|? ? ? ? ? ? (K1 & K2 & _)|x d' ? created Hx Hd _ Hw Hd' Hc _]; subst;
      try (right; right; by eexists).
    + right; left. by eauto 10.
    + left. eexists. split; [done|]. split; [done|]. split; [done|].
      split; [|exists e; split; [done|]; by apply ack_exact].
      destruct Hc as (<- & _). pose proof Hw as Hk. rewrite Hdb in Hk.
      apply run_writes_keys in Hk; [|apply ack_writes_keys|apply Hwf].
      apply ack_writes_frame in Hw. split; [done|]. rewrite Hw, Hdb. apply Hwf.
Qed.

Lemma on_error_rejects err h s st s' :
  on_error err = Some h → h s = (Ok (Persisted st), s') → False.
Proof.
  assert (Hrej : ∀ code detail, reject code detail s = (Ok (Persisted st), s') → False).
  { intros code detail. unfold reject, mbind, M_bind. by destruct (record_error _ _ _ _) as [[] ?]. }
  destruct err; simpl; intros; simplify_eq; by eapply Hrej.
Qed.

Lemma handle_ok topic payload s st s' :
  handle topic payload s = (Ok (Persisted st), s') →
  ∃ k p s1, parse_topic topic = Ok k ∧ persist (pt_kind k) topic payload s = (Ok p, s1)
    ∧ st = status p ∧ s' = set_rolled_back s1.
Proof.
  unfold handle_message, try_except. rewrite lift_step.
  destruct (parse_topic topic) as [k|err].
  - unfold mbind, M_bind, closing. destruct (persist _ _ _ s) as [[p|err] s1] eqn:Hp.
    + intros [= <- <-]. eauto 8.
    + destruct (on_error err) as [h|] eqn:He; [|done].
      intros Hh. by destruct (on_error_rejects _ _ _ _ _ He Hh).
  - destruct (on_error err) as [h|] eqn:He; [|done].
    intros Hh. by destruct (on_error_rejects _ _ _ _ _ He Hh).
Qed.

(** Rejecting adds one row to the error log. *)
Definition logged_one (s s' : Session) : Prop :=
  ∃ code detail now,
    saved s' = set_error_logs (error_logs (saved s)
                 ++ [rejection_log now code detail (next_id (error_logs (saved s)))]) (saved s).

Lemma on_error_run err s r s' h :
  clean s → on_error err = Some h → h s = (r, s') →
  clean s' ∧ published s' = published s
  ∧ ((r = Ok Rejected ∧ logged_one s s') ∨ (r = Raise DataError ∧ saved s' = saved s)).
Proof.
  intros Hs. assert (Hrej : ∀ code detail, varchar 48 code = true → reject code detail s = (r, s') →
    clean s' ∧ published s' = published s
    ∧ ((r = Ok Rejected ∧ logged_one s s') ∨ (r = Raise DataError ∧ saved s' = saved s))).
  { intros code detail Hc. unfold reject. destruct (no_nul (py_take 300 detail)) eqn:Hn.
    - destruct (record_error_run code detail s Hc Hn Hs) as (s1 & H1 & Hcl & Hp & Hsv).
      rewrite (bind_step _ _ _ _ _ H1). intros [= <- <-]. split; [done|]. split; [done|].
      left. split; [done|]. unfold logged_one. eauto.
    - destruct (record_error_refused code detail s Hs Hn) as (s1 & H1 & (K1 & K2 & _) & Hcl).
      unfold mbind, M_bind. rewrite H1. intros [= <- <-]. auto. }
  destruct err; simpl; intros; simplify_eq; (eapply Hrej; [|eassumption]); reflexivity.
Qed.

Lemma on_error_none err : on_error err = None → is_value_error err = false.
Proof. by destruct err. Qed.
End Worker.

(** The outcome of one message. *)
Definition message_outcome wide mv hv av iso (topic payload : string) (s : Session) (r : result Reply) (s' : Session) : Prop :=
  match r with
  | Ok (Persisted inserted) =>
      ∃ k, parse_topic topic = Ok k ∧ stored wide mv hv av iso (pt_kind k) topic payload s s'
  | Ok (Persisted duplicate) =>
      s' = s ∧ ∃ k, parse_topic topic = Ok k ∧ recorded wide mv hv av (pt_kind k) topic payload (saved s)
  | Ok Rejected => logged_one s s' ∧ published s' = published s
  | Raise e => is_value_error e = false ∧ unchanged s s'
  end.

Lemma handle_outcome wide mv hv av iso topic payload s r s' :
  clean s → db_wf (saved s) →
  handle_message wide mv hv av iso topic payload s = (r, s') →
  clean s' ∧ db_wf (saved s') ∧ message_outcome wide mv hv av iso topic payload s r s'.
Proof.
  intros Hs Hwf. unfold handle_message, try_except. rewrite lift_step.
  assert (Herr : ∀ err s0, clean s0 → unchanged s s0 →
    match on_error err with Some h => h s0 | None => (Raise err, s0) end = (r, s') →
    clean s' ∧ db_wf (saved s') ∧ message_outcome wide mv hv av iso topic payload s r s').
  { intros err s0 H0 [Hsv Hpb] H. destruct (on_error err) as [h|] eqn:He.
    - destruct (on_error_run err s0 r s' h H0 He H) as (Hc & Hp & [[-> (code & detail & now & Hlog)]|[-> E]]);
        (split; [done|]); [|rewrite E, Hsv; split; [done|]; split; [done|]; split; congruence].
      rewrite Hsv in Hlog. split.
      + rewrite Hlog. destruct Hwf as [[] Ha]. split; [by constructor|exact Ha].
      + split; [by exists code, detail, now|congruence].
    - injection H as <- <-. split; [done|]. rewrite Hsv. split; [done|].
      split; [by apply on_error_none|done]. }
  destruct (parse_topic topic) as [k|err] eqn:Hk; [|intros H; by eapply Herr].
  unfold mbind, M_bind, closing. destruct (persist_message _ _ _ _ _ _ _ _ s) as [rp s1] eqn:Hp.
  destruct (persist_message_step _ _ _ _ _ _ _ _ s rp s1 Hs Hwf Hp)
    as [(p & -> & Hi & Hc & Hw & Hst)|[(p & -> & Hd & -> & Hr)|(e & -> & Hsv & Hpb)]].
  - intros [= <- <-]. rewrite rolled_back_clean by done. split; [done|]. split; [done|].
    unfold message_outcome. rewrite Hi. by exists k.
  - intros [= <- <-]. rewrite rolled_back_clean by done. split; [done|]. split; [done|].
    unfold message_outcome. rewrite Hd. split; [done|]. by exists k.
  - intros H. by apply (Herr e (set_rolled_back s1)).
Qed.

(** C2: whatever bytes arrive on whatever topic, the worker keeps the database
    well-formed and its answer tells exactly what changed: an inserted message
    stored the envelope its payload decodes to under the topic's kind (its
    telemetry or health row, its device as seen and its alarms, or its
    command's outcome and the audit event, and one live event) and nothing
    else; a duplicate was already recorded and changes nothing; a rejected one
    changes nothing but one row appended to the error log; an exception that
    escapes is none of the [ValueError]s and changes nothing. *)
Theorem handle_message_outcome wide mv hv av iso topic payload s r s' :
  clean s → db_wf (saved s) →
  handle_message wide mv hv av iso topic payload s = (r, s') →
  clean s' ∧ db_wf (saved s') ∧
  match r with
  | Ok (Persisted inserted) =>
      ∃ k, parse_topic topic = Ok k ∧ stored wide mv hv av iso (pt_kind k) topic payload s s'
  | Ok (Persisted duplicate) =>
      s' = s ∧ ∃ k, parse_topic topic = Ok k ∧ recorded wide mv hv av (pt_kind k) topic payload (saved s)
  | Ok Rejected => logged_one s s' ∧ published s' = published s
  | Raise e => is_value_error e = false ∧ unchanged s s'
  end.
Proof. apply handle_outcome. Qed.

Definition telemetry_topic : string := "iiot/v1/site-a/motor-1/telemetry".
Definition validate_sample (j : json) : result TelemetryEnvelope :=
  match j with JObj [] => telemetry_validate sample_envelope | _ => Raise (ValidationError 1) end.
Definition sample_handle (payload : string) : DBM Reply :=
  handle_message (λ _, None) validate_sample (λ _, Raise (ValidationError 2)) (λ _, Raise (ValidationError 3))
    (λ _, "") telemetry_topic payload.

Lemma handle_message_outcome_witness :
  (sample_handle "[1" sample_session).1 = Ok Rejected
  ∧ logged_one sample_session (after (sample_handle "[1" sample_session))
  ∧ length (telemetry (saved (after (sample_handle " {} " sample_session)))) = 1%nat.
Proof.
  pose proof (λ payload, handle_message_outcome (λ _, None) validate_sample (λ _, Raise (ValidationError 2))
    (λ _, Raise (ValidationError 3)) (λ _, "") telemetry_topic payload sample_session
    (sample_handle payload sample_session).1 (sample_handle payload sample_session).2
    ltac:(done) ltac:(apply empty_wf) (surjective_pairing _)) as H.
  assert (Hr : (sample_handle "[1" sample_session).1 = Ok Rejected) by (vm_compute; reflexivity).
  assert (Hi : (sample_handle " {} " sample_session).1 = Ok (Persisted inserted)) by (vm_compute; reflexivity).
  destruct (H "[1") as (_ & _ & H1). destruct (H " {} ") as (_ & _ & H2). clear H. rewrite Hr in H1. rewrite Hi in H2.
  split; [exact Hr|]. split; [exact (proj1 H1)|]. destruct H2 as (k & Hk & Hst).
  assert (Ek : Ok k = Ok {| pt_site_id := "site-a"; pt_device_id := "motor-1"; pt_kind := TELEMETRY |}) by (by rewrite <- Hk).
  injection Ek as ->. destruct Hst as (e & _ & created & nc & n1 & n2 & n3 & E & _).
  unfold after. rewrite E. simpl. reflexivity.
Defined.

Lemma decode_payload_ok wide mv topic payload e :
  decode_payload wide mv topic payload = Ok e →
  (∃ j, mv j = Ok e) ∧ Z.of_nat (String.length payload) <= MAX_PAYLOAD_BYTES ∧
  ∃ k, parse_topic topic = Ok k ∧ pt_kind k = TELEMETRY ∧ te_site_id e = pt_site_id k ∧ te_device_id e = pt_device_id k.
Proof.
  unfold decode_payload, parse_telemetry_topic, too_large.
  destruct (MAX_PAYLOAD_BYTES <? _) eqn:Hsize; [done|]. b2p.
  unfold mbind, result_bind. destruct (parse_topic topic) as [k|]; [|done].
  destruct (decide (pt_kind k = TELEMETRY)) as [Hk|]; [|done]. unfold mret, result_ret.
  destruct (loads wide payload) as [[]|j]; [done..|].
  destruct (mv j) as [e'|] eqn:Hj; [|done]. unfold same_identity.
  destruct (_ && _) eqn:Hid; [|done]. intros [= <-]. b2p. eauto 8.
Qed.

(** C11: a telemetry row written by the worker carries the device and site of
    the topic it was published on, so a device cannot write under another
    identity than its own topics', and comes from a payload of at most 16 KiB
    that the contract accepts. *)
Theorem ingested_identity wide mv hv av iso topic payload k s s' :
  (∀ j e, mv j = Ok e → telemetry_validate e = Ok e) →
  clean s → db_wf (saved s) → parse_topic topic = Ok k → pt_kind k = TELEMETRY →
  handle_message wide mv hv av iso topic payload s = (Ok (Persisted inserted), s') →
  Z.of_nat (String.length payload) <= MAX_PAYLOAD_BYTES ∧
  ∃ e, telemetry_validate e = Ok e ∧ te_device_id e = pt_device_id k ∧ te_site_id e = pt_site_id k ∧
    telemetry (saved s') = telemetry (saved s)
      ++ [with_t_id (next_id (telemetry (saved s))) (telemetry_row (clock s (ticks s)) e)].
Proof.
  intros Hmv Hs Hwf Hk Hkind H. apply handle_ok in H as (k' & p & s1 & Hk' & Hp & Hst & ->).
  rewrite Hk in Hk'. injection Hk' as <-. rewrite Hkind in Hp. unfold persist_message in Hp.
  rewrite lift_step in Hp.
  destruct (decode_payload wide mv topic payload) as [e|] eqn:Hd; [|done].
  apply decode_payload_ok in Hd as ((j & Hj) & Hsize & k' & Hk' & _ & Hsite & Hdev).
  split; [done|]. exists e. split; [by eapply Hmv|]. rewrite Hk in Hk'. injection Hk' as <-.
  split; [done|]. split; [done|]. pose proof Hs as (Hdb & _).
  assert (Ep : p = {| status := inserted; message_id := te_message_id e |}).
  { pose proof (persist_run e s (Ok p) s1 Hs Hp) as Ho. inversion Ho; subst; done. }
  subst p. apply inserted_effect in Hp as (Ht & _ & _ & _ & _ & Hc); [|done|rewrite Hdb; apply Hwf].
  rewrite rolled_back_clean by done. by rewrite Ht, Hdb.
Qed.

Lemma ingested_identity_witness :
  ∃ e, te_device_id e = "motor-1"
    ∧ length (telemetry (saved (after (sample_handle " {} " sample_session)))) = 1%nat.
Proof.
  destruct (ingested_identity (λ _, None) validate_sample (λ _, Raise (ValidationError 2))
    (λ _, Raise (ValidationError 3)) (λ _, "") telemetry_topic " {} "
    {| pt_site_id := "site-a"; pt_device_id := "motor-1"; pt_kind := TELEMETRY |} sample_session
    (after (sample_handle " {} " sample_session))) as (_ & e & _ & He & _ & Ht).
  - assert (Hv : telemetry_validate sample_envelope = Ok sample_envelope) by (vm_compute; reflexivity).
    intros j e. unfold validate_sample. destruct j as [| | | | | |[|]]; try discriminate.
    intros E. rewrite Hv in E. injection E as <-. exact Hv.
  - done.
  - apply empty_wf.
  - vm_compute. reflexivity.
  - reflexivity.
  - vm_compute. reflexivity.
  - exists e. split; [exact He|]. rewrite Ht. reflexivity.
Defined.

(** ** Redelivery *)

Section Redelivery.
Context (wide : string → option string).
Context (model_validate : json → result TelemetryEnvelope).
Context (health_validate_json : string → result HealthEnvelope).
Context (ack_validate_json : string → result CommandAckEnvelope).
Context (iso : datetime → string).
#[local] Abbreviation handle := (handle_message wide model_validate health_validate_json ack_validate_json iso).
#[local] Abbreviation known := (recorded wide model_validate health_validate_json ack_validate_json).

(** No telemetry row and no health snapshot is lost. *)
Definition keeps_messages (d d' : DB) : Prop :=
  (∀ m, is_Some (find_message m d) → is_Some (find_message m d'))
  ∧ (∀ m, is_Some (find_health m d) → is_Some (find_health m d')).

(** The states in which the worker meets a message again: it has handled any
    other messages, and other programs have committed any change that deletes
    no telemetry row and no snapshot (none of them does). *)
Inductive later (s : Session) : Session → Prop :=
  | later_now : later s s
  | later_message s1 s2 topic payload r : later s s1 → handle topic payload s1 = (r, s2) → later s s2
  | later_commit s1 s2 : later s s1 → clean s2 → db_wf (saved s2) → keeps_messages (saved s1) (saved s2) → later s s2.

Lemma find_app_kept {A} (p : A → bool) l l' : is_Some (List.find p l) → is_Some (List.find p (l ++ l')).
Proof. rewrite find_app. intros [x ->]. by eexists. Qed.

Lemma handle_keeps_messages topic payload s r s' :
  clean s → db_wf (saved s) → handle topic payload s = (r, s') → keeps_messages (saved s) (saved s').
Proof.
  intros Hs Hwf H. apply handle_outcome in H as (_ & _ & H); [|done..].
  destruct r as [[[]|]|]; simpl in H.
  - destruct H as (k & _ & H). unfold stored in H.
    destruct (pt_kind k); try done; destruct H as (e & _ & H).
    + destruct H as (? & ? & ? & ? & ? & -> & _). split; intros m; [apply find_app_kept|done].
    + destruct H as (? & ? & -> & _). split; intros m; [done|apply find_app_kept].
    + by destruct H as (? & ? & _ & _ & -> & _).
  - by destruct H as [-> _].
  - by destruct H as ((? & ? & ? & ->) & _).
  - destruct H as (_ & -> & _). done.
Qed.

Lemma later_keeps s s' :
  clean s → db_wf (saved s) → later s s' → clean s' ∧ db_wf (saved s') ∧ keeps_messages (saved s) (saved s').
Proof.
  intros Hs Hwf. induction 1 as [|s1 s2 topic payload r _ (Hc & Hw & K1 & K2) H|s1 s2 _ (Hc & Hw & K1 & K2) Hc2 Hw2 [J1 J2]].
  - done.
  - pose proof (handle_keeps_messages _ _ _ _ _ Hc Hw H) as [J1 J2].
    apply handle_outcome in H as (Hc2 & Hw2 & _); [|done..].
    split; [done|]. split; [done|]. split; auto.
  - split; [done|]. split; [done|]. split; auto.
Qed.

(** A stored message is on record. *)
Lemma stored_recorded kind topic payload s s' :
  stored wide model_validate health_validate_json ack_validate_json iso kind topic payload s s' →
  known kind topic payload (saved s').
Proof.
  unfold stored, recorded. destruct kind; try done; intros (e & He & H).
  - exists e. split; [done|]. destruct H as (? & ? & ? & ? & ? & -> & _). unfold find_message. simpl.
    rewrite find_app. destruct (List.find _ _); [by eexists|]. simpl. unfold same_message. simpl.
    rewrite String.eqb_refl. by eexists.
  - exists e. split; [done|]. destruct H as (? & ? & -> & _). unfold find_health. simpl.
    rewrite find_app. destruct (List.find _ _); [by eexists|]. simpl. rewrite String.eqb_refl. by eexists.
  - destruct H as (x & ? & _ & Hd & _ & Hx & _). exists e. eexists. split; [done|]. split; [exact Hx|].
    split; [done|]. split; [by eexists|done].
Qed.

(** A message is answered as a duplicate exactly when it is on record. *)
Lemma recorded_duplicate k topic payload s :
  clean s → parse_topic topic = Ok k → known (pt_kind k) topic payload (saved s) →
  handle topic payload s = (Ok (Persisted duplicate), s).
Proof.
  intros Hs Hk H. pose proof Hs as (Hdb & _). rewrite <- Hdb in H.
  assert (Hp : ∃ p, persist_message wide model_validate health_validate_json ack_validate_json iso (pt_kind k)
    topic payload s = (Ok p, s) ∧ status p = duplicate).
  { unfold recorded in H. unfold persist_message. destruct (pt_kind k); try done; rewrite lift_step;
      destruct H as (e & H); [destruct H as (-> & x & Hx)|destruct H as (-> & x & Hx)|destruct H as (x & -> & Hx & Hd & Ha & Hst)].
    - unfold persist_telemetry. cbv zeta. rewrite query_step, Hx. by eexists.
    - unfold persist_health. cbv zeta. rewrite query_step, Hx. by eexists.
    - unfold persist_command_ack. cbv zeta. rewrite query_step, Hx, Hd, String.eqb_refl. cbn [negb].
      rewrite bool_decide_eq_true_2, Hst, String.eqb_refl by done. by eexists. }
  destruct Hp as (p & Hp & Hst). unfold handle_message, try_except. rewrite lift_step, Hk.
  rewrite (bind_step _ _ _ _ _ (closing_saved _ _ _ _ Hp)), rolled_back_clean by done. by rewrite <- Hst.
Qed.

Lemma recorded_later k topic payload s s' :
  keeps_messages (saved s) (saved s') → pt_kind k ≠ COMMAND_ACKS →
  known (pt_kind k) topic payload (saved s) → known (pt_kind k) topic payload (saved s').
Proof.
  intros [K1 K2] Hk. unfold recorded. destruct (pt_kind k); try done; intros (e & He & H); exists e; auto.
Qed.
End Redelivery.

(** C4: at-least-once delivery has exactly-once effect for telemetry and
    health: a message the worker has answered as stored or as a duplicate is,
    whenever the broker delivers it again (after any other messages and any
    commits of the other programs), answered as a duplicate, and nothing
    changes.  An acknowledgement is too as long as its command still carries
    its status, and only so long: delivered again after another status was
    recorded it is not recognised (see [ack_replayed]). *)
Theorem redelivery_is_duplicate wide mv hv av iso topic payload s st s1 :
  clean s → db_wf (saved s) →
  handle_message wide mv hv av iso topic payload s = (Ok (Persisted st), s1) →
  ∃ k, parse_topic topic = Ok k ∧ recorded wide mv hv av (pt_kind k) topic payload (saved s1)
    ∧ ∀ s2, later wide mv hv av iso s1 s2 →
        (pt_kind k ≠ COMMAND_ACKS → recorded wide mv hv av (pt_kind k) topic payload (saved s2))
        ∧ (recorded wide mv hv av (pt_kind k) topic payload (saved s2) →
             handle_message wide mv hv av iso topic payload s2 = (Ok (Persisted duplicate), s2))
        ∧ (¬ recorded wide mv hv av (pt_kind k) topic payload (saved s2) →
             (handle_message wide mv hv av iso topic payload s2).1 ≠ Ok (Persisted duplicate)).
Proof.
  intros Hs Hwf H. apply handle_outcome in H as (Hc1 & Hw1 & H); [|done..].
  assert (Hk : ∃ k, parse_topic topic = Ok k ∧ recorded wide mv hv av (pt_kind k) topic payload (saved s1)).
  { destruct st; [destruct H as (k & Hk & H)|destruct H as (-> & k & Hk & H)]; exists k; (split; [done|]); [|done].
    by eapply stored_recorded. }
  destruct Hk as (k & Hk & Hr). exists k. split; [done|]. split; [done|].
  intros s2 Hl. apply later_keeps in Hl as (Hc2 & Hw2 & K); [|done..].
  split; [intros; by eapply recorded_later|]. split; [intros; by eapply recorded_duplicate|].
  intros Hn E. destruct (handle_message wide mv hv av iso topic payload s2) as [r s3] eqn:H2. simpl in E. subst r.
  apply handle_outcome in H2 as (_ & _ & _ & k' & Hk' & H2); [|done..]. rewrite Hk in Hk'. injection Hk' as <-.
  by apply Hn.
Qed.

Definition other_envelope : TelemetryEnvelope :=
  with_message "99999999-1111-4111-8111-111111111111" sample_envelope.
Definition validate_samples (j : json) : result TelemetryEnvelope :=
  match j with JObj [] => telemetry_validate sample_envelope | _ => telemetry_validate other_envelope end.
#[local] Abbreviation demo_handle := (handle_message (λ _, None) validate_samples
  (λ _, Raise (ValidationError 2)) (λ _, Raise (ValidationError 3)) (λ _, "") telemetry_topic).

(** The message comes again after one that reuses its sequence number. *)
Lemma redelivery_is_duplicate_witness :
  let s2 := after (demo_handle "[]" (after (demo_handle " {} " sample_session))) in
  length (error_logs (saved s2)) = 1%nat ∧ demo_handle " {} " s2 = (Ok (Persisted duplicate), s2).
Proof.
  cbv zeta. split; [vm_compute; reflexivity|].
  destruct (redelivery_is_duplicate (λ _, None) validate_samples (λ _, Raise (ValidationError 2))
    (λ _, Raise (ValidationError 3)) (λ _, "") telemetry_topic " {} " sample_session inserted
    (after (demo_handle " {} " sample_session))) as (k & Hk & _ & H); [done|apply empty_wf|vm_compute; reflexivity|].
  destruct (H (after (demo_handle "[]" (after (demo_handle " {} " sample_session))))) as (H1 & H2 & _).
  - eapply later_message; [apply later_now|apply surjective_pairing].
  - apply H2, H1. assert (Ek : Ok k = Ok {| pt_site_id := "site-a"; pt_device_id := "motor-1"; pt_kind := TELEMETRY |})
      by (by rewrite <- Hk). injection Ek as ->. discriminate.
Defined.

(** The acknowledgements [accepted] and [completed] of one command, and
    [accepted] delivered again: the command's status goes back and a second
    audit event claims the acknowledgement twice. *)
Definition ack_with (status : string) : CommandAckEnvelope := {|
  ce_schema_version := 1; ce_message_id := "44444444-1111-4111-8111-111111111111";
  ce_command_id := "cmd-1"; ce_site_id := "site-a"; ce_device_id := "motor-1";
  ce_device_time := None; ce_status := status; ce_result_code := "OK"; ce_detail := None;
  ce_relay_on := true |}.
Definition ack_handle (status : string) : DBM Reply :=
  handle_message (λ _, None) (λ _, Raise (ValidationError 1)) (λ _, Raise (ValidationError 2))
    (λ status, Ok (ack_with status)) (λ _, "") "iiot/v1/site-a/motor-1/command-acks" status.
Example ack_replayed :
  let s1 := after (ack_handle "accepted" commanded_session) in
  let s2 := after (ack_handle "completed" s1) in
  let '(r, s3) := ack_handle "accepted" s2 in
  (ack_handle "accepted" s1).1 = Ok (Persisted duplicate)
  ∧ (option_map x_status (get_command "cmd-1" (saved s2)), length (audit_events (saved s2))) = (Some "completed", 2%nat)
  ∧ r = Ok (Persisted inserted)
  ∧ (option_map x_status (get_command "cmd-1" (saved s3)), length (audit_events (saved s3))) = (Some "accepted", 3%nat).
Proof. vm_compute. done. Qed.

(** A new message that reuses a sequence number of its device, or whose site
    is not the site the device is registered at, is rejected with the error
    code of its cause. *)
Theorem rejections wide mv hv av iso topic payload s e :
  clean s → decode_payload wide mv topic payload = Ok e →
  find_message (te_message_id e) (db s) = None →
  (is_Some (sequence_owner (te_device_id e) (te_sequence e) (db s)) ∨
   site_differs (te_site_id e) (get_device (te_device_id e) (db s)) = true) →
  let '(r, s') := handle_message wide mv hv av iso topic payload s in
  r = Ok Rejected ∧ ∃ row, saved s' = set_error_logs (error_logs (saved s) ++ [row]) (saved s)
    ∧ l_error_code row = (if bool_decide (is_Some (sequence_owner (te_device_id e) (te_sequence e) (db s)))
                          then "SEQUENCE_COLLISION" else "INVALID_MESSAGE").
Proof.
  intros Hs Hd Hm Hbad. pose proof (decode_payload_ok _ _ _ _ _ Hd) as (_ & _ & k & Hk & Hkind & _).
  assert (Hbody : ∃ err, closing (persist_message wide mv hv av iso TELEMETRY topic payload) s = (Raise err, s)
     ∧ ∃ code detail, on_error err = Some (reject code detail) ∧ varchar 48 code = true ∧ no_nul (py_take 300 detail) = true
       ∧ code = (if bool_decide (is_Some (sequence_owner (te_device_id e) (te_sequence e) (db s)))
                 then "SEQUENCE_COLLISION" else "INVALID_MESSAGE")).
  { assert (Hp : ∀ err, persist_telemetry e s = (Raise err, s) →
      closing (persist_message wide mv hv av iso TELEMETRY topic payload) s = (Raise err, s)).
    { intros err Hp. unfold closing, persist_message. rewrite lift_step, Hd, Hp.
      by rewrite rolled_back_clean. }
    unfold persist_telemetry in Hp. cbv zeta in Hp. rewrite query_step, Hm, query_step in Hp.
    destruct (sequence_owner _ _ _) as [o|] eqn:Ho.
    - eexists. split; [by apply Hp|]. do 2 eexists. split; [reflexivity|]. split; [done|].
      split; [apply no_nul_take; unfold collision_message; by rewrite !no_nul_app, no_nul_Z|]. by rewrite bool_decide_eq_true_2.
    - destruct Hbad as [[? ?]|Hsite]; [done|].
      eexists. split; [apply Hp; unfold stage_telemetry; unfold mbind, M_bind, query, get; by rewrite Hsite|].
      do 2 eexists. split; [reflexivity|]. split; [done|]. split; [done|]. rewrite bool_decide_eq_false_2; [done|by intros []]. }
  destruct Hbody as (err & Hb & code & detail & Herr & Hlen & Hnul & Hcode).
  destruct (record_error_run code detail s Hlen Hnul Hs) as (s1 & H1 & _ & _ & Hsv).
  assert (Hrun : handle_message wide mv hv av iso topic payload s = (Ok Rejected, s1)).
  { unfold handle_message, try_except. rewrite lift_step.
    rewrite Hk. unfold mbind at 1, M_bind at 1. rewrite Hkind, Hb, Herr. unfold reject.
    by rewrite (bind_step _ _ _ _ _ H1). }
  rewrite Hrun. split; [done|]. eexists. split; [exact Hsv|]. by rewrite <- Hcode.
Qed.

Lemma rejections_witness :
  let s1 := after (sample_handle " {} " sample_session) in
  let other := other_envelope in
  let mv := λ _ : json, telemetry_validate other in
  (handle_message (λ _, None) mv (λ _, Raise (ValidationError 2)) (λ _, Raise (ValidationError 3))
     (λ _, "") telemetry_topic "{}" s1).1 = Ok Rejected.
Proof.
  cbv zeta.
  pose proof (rejections (λ _, None)
    (λ _ : json, telemetry_validate other_envelope)
    (λ _, Raise (ValidationError 2)) (λ _, Raise (ValidationError 3)) (λ _, "") telemetry_topic "{}"
    (after (sample_handle " {} " sample_session))
    other_envelope) as H.
  destruct (handle_message _ _ _ _ _ _ _ _) as [r s']. apply H.
  - vm_compute. split; [reflexivity|split; reflexivity].
  - vm_compute. reflexivity.
  - vm_compute. reflexivity.
  - left. vm_compute. eexists. reflexivity.
Defined.
