(* ===== verification/Generator.v ===== *)
(** The synthetic scenarios of [simulator/telemetry_generator/main.py]:
    [scenario_values] and [build_envelope].

    The Mersenne twister and the sine are parameters: [rng i k] is the [k]-th
    [random()] drawn for sample [i] (four per sample), [sin] the library's
    sine. *)
From S2P Require Import Prelude PyStr Float64 PyFormat Json PyTime Topics.
Local Open Scope py_scope.

Definition SCENARIOS : list string :=
  ["normal"; "rising-temperature"; "vibration-imbalance"; "current-overload"; "sensor-stuck"].

(** One item of the iterator. *)
Record Values := {
  v_temperature_c : float; v_vibration_rms_mps2 : float; v_vibration_peak_mps2 : float;
  v_vibration_crest_factor : float; v_current_a : float; v_quality : string;
  v_fault_flags : list string; v_temperature_status : string }.

(** The loop variables the scenario branch assigns. *)
Record Sample := {
  s_temperature_c : float; s_vibration_rms_mps2 : float; s_vibration_peak_mps2 : float;
  s_current_a : float; s_quality : string; s_fault_flags : list string; s_temperature_status : string }.

Section Generator.
Context (sin : float → float) (rng : nat → nat → float).

(** [random.uniform(a, b)] *)
Definition uniform (a b r : float) : float := a ⊕ (b ⊖ a) ⊗ r.

Definition stuck_temperature : float := lit 4175 2.

(** The sample before the scenario is applied. *)
Definition base_sample (index : nat) : Sample :=
  let i := Z.of_nat index in
  let rms := lit 115 2 ⊕ uniform (lit (-8) 2) (lit 8 2) (rng index 1) in
  {| s_temperature_c := lit 415 1 ⊕ lit 5 1 ⊗ sin (int_div i 8)
                        ⊕ uniform (lit (-12) 2) (lit 12 2) (rng index 0);
     s_vibration_rms_mps2 := rms;
     s_vibration_peak_mps2 := rms ⊗ (lit 22 1 ⊕ uniform (lit (-12) 2) (lit 12 2) (rng index 2));
     s_current_a := lit 63 2 ⊕ uniform (lit (-25) 3) (lit 25 3) (rng index 3);
     s_quality := "good"; s_fault_flags := []; s_temperature_status := "good" |}.

Definition phase (index count : nat) : float :=
  int_div (Z.of_nat index) (Z.max (Z.of_nat count - 1) 1).

Definition degrade (flag : string) (s : Sample) : Sample :=
  {| s_temperature_c := s_temperature_c s; s_vibration_rms_mps2 := s_vibration_rms_mps2 s;
     s_vibration_peak_mps2 := s_vibration_peak_mps2 s; s_current_a := s_current_a s;
     s_quality := "degraded"; s_fault_flags := s_fault_flags s ++ [flag];
     s_temperature_status := s_temperature_status s |}.
Definition set_temperature (t : float) (s : Sample) : Sample :=
  {| s_temperature_c := t; s_vibration_rms_mps2 := s_vibration_rms_mps2 s;
     s_vibration_peak_mps2 := s_vibration_peak_mps2 s; s_current_a := s_current_a s;
     s_quality := s_quality s; s_fault_flags := s_fault_flags s;
     s_temperature_status := s_temperature_status s |}.
Definition set_vibration (rms peak : float) (s : Sample) : Sample :=
  {| s_temperature_c := s_temperature_c s; s_vibration_rms_mps2 := rms;
     s_vibration_peak_mps2 := peak; s_current_a := s_current_a s;
     s_quality := s_quality s; s_fault_flags := s_fault_flags s;
     s_temperature_status := s_temperature_status s |}.
Definition set_current (a : float) (s : Sample) : Sample :=
  {| s_temperature_c := s_temperature_c s; s_vibration_rms_mps2 := s_vibration_rms_mps2 s;
     s_vibration_peak_mps2 := s_vibration_peak_mps2 s; s_current_a := a;
     s_quality := s_quality s; s_fault_flags := s_fault_flags s;
     s_temperature_status := s_temperature_status s |}.
Definition mark_stuck (s : Sample) : Sample :=
  {| s_temperature_c := s_temperature_c s; s_vibration_rms_mps2 := s_vibration_rms_mps2 s;
     s_vibration_peak_mps2 := s_vibration_peak_mps2 s; s_current_a := s_current_a s;
     s_quality := "bad"; s_fault_flags := s_fault_flags s ++ ["TEMPERATURE_SENSOR_STUCK"];
     s_temperature_status := "stuck" |}.

(** The [if name == ...] chain. *)
Definition apply_scenario (name : string) (index count : nat) (s : Sample) : result Sample :=
  let ph := phase index count in
  if String.eqb name "rising-temperature" then
    let s := set_temperature (s_temperature_c s ⊕ of_int 32 ⊗ ph) s in
    Ok (if fleb (of_int 65) (s_temperature_c s) then degrade "TEMPERATURE_WARNING" s else s)
  else if String.eqb name "vibration-imbalance" then
    let rms := s_vibration_rms_mps2 s ⊕ lit 52 1 ⊗ ph in
    let s := set_vibration rms (rms ⊗ (lit 27 1 ⊕ lit 8 1 ⊗ ph)) s in
    Ok (if fleb (lit 45 1) (s_vibration_rms_mps2 s) then degrade "VIBRATION_WARNING" s else s)
  else if String.eqb name "current-overload" then
    let s := set_current (s_current_a s ⊕ lit 125 2 ⊗ ph) s in
    Ok (if fleb (lit 14 1) (s_current_a s) then degrade "CURRENT_OVERLOAD_WARNING" s else s)
  else if String.eqb name "sensor-stuck" then
    let s := set_temperature stuck_temperature s in
    Ok (if (8 <=? index)%nat then mark_stuck s else s)
  else if negb (String.eqb name "normal") then Raise (ValueError ("unsupported scenario: " +:+ name))
  else Ok s.

(** [round(peak / max(rms, 0.0001), 3)]: Python's [max] keeps its first
    argument unless the second is greater. *)
Definition crest_factor (peak rms : float) : result float :=
  let floor := fmax rms (lit 1 4) in
  if feqb floor (of_int 0) then Raise ZeroDivisionError else Ok (py_round (peak ⊘ floor) 3).

Definition yielded (s : Sample) : result Values :=
  crest ← crest_factor (s_vibration_peak_mps2 s) (s_vibration_rms_mps2 s);
  mret {| v_temperature_c := py_round (s_temperature_c s) 3;
          v_vibration_rms_mps2 := py_round (s_vibration_rms_mps2 s) 4;
          v_vibration_peak_mps2 := py_round (s_vibration_peak_mps2 s) 4;
          v_vibration_crest_factor := crest;
          v_current_a := py_round (s_current_a s) 4;
          v_quality := s_quality s; v_fault_flags := s_fault_flags s;
          v_temperature_status := s_temperature_status s |}.

(** [next(scenario_values(name, count))] at position [index]: [None] is
    [StopIteration]. *)
Definition scenario_value (name : string) (count index : nat) : option (result Values) :=
  if (index <? count)%nat
  then Some (s ← apply_scenario name index count (base_sample index); yielded s) else None.

(** The items up to the end or the first exception. *)
Fixpoint scenario_from (name : string) (count index remaining : nat) : list Values * option exn :=
  match remaining with
  | O => ([], None)
  | S remaining =>
      match scenario_value name count index with
      | None => ([], None)
      | Some (Raise e) => ([], Some e)
      | Some (Ok v) => let '(vs, e) := scenario_from name count (S index) remaining in (v :: vs, e)
      end
  end.
Definition scenario_values (name : string) (count : nat) : list Values * option exn :=
  scenario_from name count 0 count.
End Generator.

(** ** Envelopes *)

Definition SIM_SITE := "workshop-demo".
Definition SIM_DEVICE := "motor-01".

Definition quality_json (status : string) (samples : Z) : json := JObj [
  ("status", JStr status); ("valid_samples", JInt samples); ("expected_samples", JInt samples);
  ("error_code", JNull) ].

(** [build_envelope]; [uuid5] is the name-based UUID of the URL namespace. *)
Definition build_envelope (uuid5 : string → string) (v : Values) (sequence : Z) (device_time : Z)
    (session_id : string) : list (string * json) := [
  ("schema_version", JInt 1);
  ("message_id", JStr (uuid5 ("iiot:" +:+ session_id +:+ ":" +:+ SIM_DEVICE +:+ ":" +:+ str_of_Z sequence)));
  ("site_id", JStr SIM_SITE); ("device_id", JStr SIM_DEVICE); ("sequence", JInt sequence);
  ("device_time", JStr (iso_z device_time)); ("clock_synchronized", JBool true);
  ("uptime_ms", JInt ((sequence + 1) * 10000)); ("firmware_version", JStr "0.1.0-sim");
  ("quality", JStr (v_quality v)); ("replayed", JBool false);
  ("measurements", JObj [
     ("temperature_c", JFloat (v_temperature_c v));
     ("vibration_rms_mps2", JFloat (v_vibration_rms_mps2 v));
     ("vibration_peak_mps2", JFloat (v_vibration_peak_mps2 v));
     ("vibration_crest_factor", JFloat (v_vibration_crest_factor v));
     ("current_a", JFloat (v_current_a v)) ]);
  ("sample_quality", JObj [
     ("temperature", quality_json (v_temperature_status v) 10);
     ("vibration", quality_json "good" 256);
     ("current", quality_json "good" 50) ]);
  ("fault_flags", jstrs (v_fault_flags v)) ].

(** ** Publishing

    The loop of [publish]: one QoS 1 message per item, sequence numbers
    consecutive from [sequence_start], device times ten seconds apart; a
    publish that fails raises. *)
Section Publish.
Context (uuid5 : string → string) (publish_rc : nat → Z).

Definition publish_message (start sequence_start : Z) (session_id : string) (offset : nat) (v : Values) :
    list (string * json) :=
  build_envelope uuid5 v (sequence_start + Z.of_nat offset) (start + seconds (10 * Z.of_nat offset)) session_id.

Fixpoint publish_from (start sequence_start : Z) (session_id : string) (offset : nat)
    (items : list Values) (end_error : option exn) : list (list (string * json)) * option exn :=
  match items with
  | [] => ([], end_error)
  | v :: items =>
      let m := publish_message start sequence_start session_id offset v in
      if negb (publish_rc offset =? 0)
      then ([m], Some (RuntimeError ("publish failed with MQTT code " +:+ str_of_Z (publish_rc offset))))
      else let '(ms, e) := publish_from start sequence_start session_id (S offset) items end_error in
           (m :: ms, e)
  end.
End Publish.
Definition publish (sin : float → float) (rng : nat → nat → float) (uuid5 : string → string)
    (publish_rc : nat → Z) (scenario : string) (count : nat) (start sequence_start : Z)
    (session_id : string) : list (list (string * json)) * option exn :=
  let '(items, e) := scenario_values sin rng scenario count in
  publish_from uuid5 publish_rc start sequence_start session_id 0 items e.

(** ** Properties *)

Lemma fmax_not_zero x : feqb (fmax x (lit 1 4)) (of_int 0) = false.
Proof.
  unfold fmax. destruct (fltb x (lit 1 4)) eqn:H; [reflexivity|].
  destruct x as [s|s| |s m e]; [|by destruct s|reflexivity|by destruct s].
  destruct s; vm_compute in H; discriminate H.
Qed.

Lemma yielded_ok s : ∃ v, yielded s = Ok v ∧ v_quality v = s_quality s
  ∧ v_fault_flags v = s_fault_flags s ∧ v_temperature_status v = s_temperature_status s
  ∧ v_temperature_c v = py_round (s_temperature_c s) 3.
Proof. unfold yielded, crest_factor. rewrite fmax_not_zero. eexists. split; [reflexivity|]. done. Qed.

(** The only flag each scenario may raise. *)
Definition scenario_flag (name : string) : list string :=
  if String.eqb name "rising-temperature" then ["TEMPERATURE_WARNING"]
  else if String.eqb name "vibration-imbalance" then ["VIBRATION_WARNING"]
  else if String.eqb name "current-overload" then ["CURRENT_OVERLOAD_WARNING"]
  else if String.eqb name "sensor-stuck" then ["TEMPERATURE_SENSOR_STUCK"]
  else [].

(** What a sample of a scenario may look like. *)
Definition consistent (name : string) (v : Values) : Prop :=
  (v_quality v = "good" ∧ v_fault_flags v = [] ∧ v_temperature_status v = "good")
  ∨ (v_quality v = "degraded" ∧ v_fault_flags v = scenario_flag name ∧ scenario_flag name ≠ []
     ∧ v_temperature_status v = "good")
  ∨ (name = "sensor-stuck" ∧ v_quality v = "bad" ∧ v_fault_flags v = scenario_flag name
     ∧ v_temperature_status v = "stuck").

Section Items.
Context (sin : float → float) (rng : nat → nat → float).

Lemma apply_scenario_ok name index count :
  name ∈ SCENARIOS → ∃ s, apply_scenario name index count (base_sample sin rng index) = Ok s.
Proof.
  unfold SCENARIOS. rewrite !elem_of_cons.
  intros [->|[->|[->|[->|[->|[]%elem_of_nil]]]]]; eexists; reflexivity.
Qed.

Lemma scenario_value_ok name count index :
  name ∈ SCENARIOS → (index < count)%nat →
  ∃ v, scenario_value sin rng name count index = Some (Ok v) ∧ consistent name v.
Proof.
  intros Hn Hi. unfold scenario_value.
  replace (index <? count)%nat with true by (symmetry; by apply Nat.ltb_lt).
  revert Hn. unfold SCENARIOS. rewrite !elem_of_cons.
  intros [->|[->|[->|[->|[->|[]%elem_of_nil]]]]]; unfold apply_scenario; cbn -[base_sample yielded Nat.leb];
    repeat match goal with
           | |- context [if ?b then degrade _ _ else _] => destruct b
           | |- context [if ?b then mark_stuck _ else _] => destruct b
           end; cbn -[base_sample yielded];
    match goal with |- context [yielded ?s] => destruct (yielded_ok s) as (v & -> & Hq & Hf & Hs & _) end;
    exists v; (split; [reflexivity|]); unfold consistent; rewrite Hq, Hf, Hs; simpl; auto 10.
Qed.

Lemma scenario_from_ok name count index remaining :
  name ∈ SCENARIOS → (index + remaining = count)%nat →
  ∃ vs, scenario_from sin rng name count index remaining = (vs, None)
    ∧ length vs = remaining ∧ Forall (consistent name) vs.
Proof.
  intros Hn. revert index. induction remaining as [|n IH]; intros index Hc; simpl.
  - exists []. split; [done|]. split; [done|apply List.Forall_nil].
  - destruct (scenario_value_ok name count index Hn) as (v & -> & Hv); [lia|].
    destruct (IH (S index)) as (vs & -> & Hl & Hvs); [lia|].
    exists (v :: vs). split; [done|]. split; [by rewrite <- Hl|by apply List.Forall_cons].
Qed.
End Items.

(** Each named scenario yields exactly the requested number of samples and
    no exception, every sample is self-consistent (a good sample has no flag,
    a degraded or bad one exactly its scenario's flag, and only a stuck sensor
    is bad), and publishing them with a working broker sends one message per
    sample with consecutive sequence numbers, ten seconds of device time
    apart. *)
Theorem scenario_published sin rng uuid5 name count start seq0 session :
  name ∈ SCENARIOS →
  ∃ vs, scenario_values sin rng name count = (vs, None) ∧ length vs = count
    ∧ Forall (consistent name) vs
    ∧ publish sin rng uuid5 (λ _, 0) name count start seq0 session
      = (imap (λ i v, build_envelope uuid5 v (seq0 + Z.of_nat i) (start + seconds (10 * Z.of_nat i)) session) vs,
         None).
Proof.
  intros Hn. unfold publish, scenario_values.
  destruct (scenario_from_ok sin rng name count 0 count Hn) as (vs & -> & Hl & Hc); [lia|].
  exists vs. split; [done|]. split; [done|]. split; [done|].
  assert (H : ∀ l off, publish_from uuid5 (λ _, 0) start seq0 session off l None
    = (imap (λ i v, build_envelope uuid5 v (seq0 + Z.of_nat (off + i))
                      (start + seconds (10 * Z.of_nat (off + i))) session) l, None)).
  { induction l as [|v l IH]; intros off; simpl; [done|]. rewrite IH. f_equal. f_equal.
    - unfold publish_message. by rewrite Nat.add_0_r.
    - apply imap_ext. intros i x _. simpl. by rewrite Nat.add_succ_r. }
  by rewrite H.
Qed.

Lemma scenario_published_witness :
  ∃ vs, scenario_values (λ _, of_int 0) (λ _ _, lit 5 1) "sensor-stuck" 9 = (vs, None)
    ∧ map v_quality vs = repeat "good" 8 ++ ["bad"].
Proof.
  destruct (scenario_published (λ _, of_int 0) (λ _ _, lit 5 1) (λ s, s) "sensor-stuck" 9 0 1000 "demo")
    as (vs & Hvs & _); [unfold SCENARIOS; rewrite !elem_of_cons; auto 10|].
  exists vs. split; [exact Hvs|].
  rewrite <- (f_equal fst Hvs : _ = vs). vm_compute. reflexivity.
Defined.

(** An unknown scenario is refused at its first sample. *)
Theorem unsupported_scenario sin rng name count :
  name ∉ SCENARIOS → scenario_values sin rng name (S count)
    = ([], Some (ValueError ("unsupported scenario: " +:+ name))).
Proof.
  unfold SCENARIOS. rewrite !not_elem_of_cons. intros (H1 & H2 & H3 & H4 & H5 & _).
  assert (Hap : ∀ s, apply_scenario name 0 (S count) s = Raise (ValueError ("unsupported scenario: " +:+ name))).
  { intros s. unfold apply_scenario. cbv zeta.
    repeat match goal with H : name ≠ _ |- _ => apply String.eqb_neq in H; rewrite H; clear H end.
    reflexivity. }
  unfold scenario_values. cbn [scenario_from]. unfold scenario_value.
  change (0 <? S count)%nat with true. cbv iota. rewrite Hap. reflexivity.
Qed.

Lemma unsupported_scenario_witness :
  scenario_values (λ _, of_int 0) (λ _ _, of_int 0) "calm" 4
  = ([], Some (ValueError "unsupported scenario: calm")).
Proof.
  apply unsupported_scenario. unfold SCENARIOS. rewrite !not_elem_of_cons.
  repeat split; try discriminate. apply not_elem_of_nil.
Defined.
