(* ===== verification/Gateway.v ===== *)
(** The simulated gateway, [simulator/gateway_agent.py]: its state, its MQTT
    callbacks and loop body as functions on that state, and the two threads
    that run them interleaved at the granularity of attribute assignments.

    Parameters: pydantic's [RelayCommandCreate.model_validate], the parser
    [datetime.fromisoformat], [str] of a container, UUID generation and the
    name-based UUID of [build_envelope].  Clock readings are arguments. *)
From S2P Require Import Prelude PyStr Float64 PyFormat Json JsonParse PyTime Topics Schemas.
From S2P Require Import Generator.
Local Open Scope py_scope.

Definition SITE_ID := "workshop-demo".
Definition DEVICE_ID := "motor-01".

Record Publication := { p_topic : string; p_body : list (string * json); p_qos : Z; p_retain : bool }.
(** The text on the wire, [json.dumps(payload)]. *)
Definition p_text (p : Publication) : string := dumps_spaced (JObj (p_body p)).

Record Gateway := {
  started_monotonic : float;
  sequence : Z;
  telemetry_sequence : Z;
  telemetry_index : nat;              (** samples taken from [telemetry_values] *)
  reset_count : Z;
  relay_on : bool;
  relay_off_deadline : option float;
  ready_file : bool;
  subscribed : list string;
  published : list Publication }.

Definition set_relay (on : bool) (deadline : option float) (g : Gateway) : Gateway :=
  Build_Gateway (started_monotonic g) (sequence g) (telemetry_sequence g) (telemetry_index g)
    (reset_count g) on deadline (ready_file g) (subscribed g) (published g).
Definition set_ready (b : bool) (g : Gateway) : Gateway :=
  Build_Gateway (started_monotonic g) (sequence g) (telemetry_sequence g) (telemetry_index g)
    (reset_count g) (relay_on g) (relay_off_deadline g) b (subscribed g) (published g).
Definition subscribe (filter : string) (g : Gateway) : Gateway :=
  Build_Gateway (started_monotonic g) (sequence g) (telemetry_sequence g) (telemetry_index g)
    (reset_count g) (relay_on g) (relay_off_deadline g) (ready_file g) (subscribed g ++ [filter]) (published g).
Definition publish_to (kind : TopicKind) (body : list (string * json)) (qos : Z) (retain : bool)
    (g : Gateway) : Gateway :=
  let t := TOPIC_ROOT +:+ "/" +:+ TOPIC_VERSION +:+ "/" +:+ SITE_ID +:+ "/" +:+ DEVICE_ID
           +:+ "/" +:+ kind_value kind in
  Build_Gateway (started_monotonic g) (sequence g) (telemetry_sequence g) (telemetry_index g)
    (reset_count g) (relay_on g) (relay_off_deadline g) (ready_file g) (subscribed g)
    (published g ++ [{| p_topic := t; p_body := body; p_qos := qos; p_retain := retain |}]).

(** [topic(SITE_ID, DEVICE_ID, kind)] is the text [publish_to] uses. *)
Lemma gateway_topic kind :
  topic SITE_ID DEVICE_ID kind
  = Ok (TOPIC_ROOT +:+ "/" +:+ TOPIC_VERSION +:+ "/" +:+ SITE_ID +:+ "/" +:+ DEVICE_ID
        +:+ "/" +:+ kind_value kind).
Proof. by destruct kind. Qed.

(** [GatewayAgent.__init__] at monotonic time [mono], [time.time()] = [now]. *)
Definition new_gateway (mono : float) (now : Z) : Gateway := {|
  started_monotonic := mono; sequence := 0; telemetry_sequence := now; telemetry_index := 0;
  reset_count := 1; relay_on := false; relay_off_deadline := None; ready_file := false;
  subscribed := []; published := [] |}.

Definition availability (status reason : string) : list (string * json) := [
  ("schema_version", JInt 1); ("site_id", JStr SITE_ID); ("device_id", JStr DEVICE_ID);
  ("status", JStr status); ("reason", JStr reason) ].
(** The last will the broker publishes for the gateway. *)
Definition last_will : list (string * json) := availability "offline" "broker_lwt".

Section Gateway.
Context (relay_model_validate : json → result RelayCommandCreate).
Context (fromisoformat : string → result datetime).
Context (str_container : json → string).
Context (wide : string → option string).
Context (uuid5 : string → string).
Context (sin : float → float) (rng : nat → nat → float).

Definition on_connect (is_failure : bool) (g : Gateway) : Gateway :=
  if is_failure then g
  else
    let g := subscribe (TOPIC_ROOT +:+ "/" +:+ TOPIC_VERSION +:+ "/" +:+ SITE_ID +:+ "/" +:+ DEVICE_ID
                        +:+ "/" +:+ kind_value COMMANDS) g in
    let g := publish_to AVAILABILITY (availability "online" "boot") 1 true g in
    set_ready true g.

Definition on_disconnect (g : Gateway) : Gateway := set_relay false None (set_ready false g).

(** [publish_ack]; [now] and [uuid] are read when it runs. *)
Definition ack_body (now : Z) (uuid command_id status result_code : string) (relay : bool) :
    list (string * json) := [
  ("schema_version", JInt 1); ("message_id", JStr uuid); ("command_id", JStr command_id);
  ("site_id", JStr SITE_ID); ("device_id", JStr DEVICE_ID); ("device_time", JStr (iso_z now));
  ("status", JStr status); ("result_code", JStr result_code); ("detail", JNull);
  ("relay_on", JBool relay) ].
Definition publish_ack (now : Z) (uuid command_id status result_code : string) (g : Gateway) : Gateway :=
  publish_to COMMAND_ACKS (ack_body now uuid command_id status result_code (relay_on g)) 1 false g.

(** [payload.get(key) != expected] once [payload] is known to be a dict. *)
Definition differs (key expected : string) (payload : json) : bool :=
  match payload with
  | JObj fields => match jget key fields with
                   | Some (JStr s) => negb (String.eqb s expected)
                   | _ => true
                   end
  | _ => true
  end.

(** What a command asks for: a refusal to acknowledge, or a relay request. *)
Inductive Verdict :=
  | Refuse (status result_code : string)
  | Execute (request : RelayCommandCreate).

(** The checks of [on_message], in order. *)
Definition judge (now : Z) (payload : json) : result Verdict :=
  if differs "device_id" DEVICE_ID payload || differs "site_id" SITE_ID payload
  then Ok (Refuse "rejected" "IDENTITY_MISMATCH")
  else
    expires ← subscript "expires_at" payload;
    expires_at ← fromisoformat (replace_z (py_str str_container expires));
    expired ← dt_leb expires_at (utc now);
    if expired : bool then Ok (Refuse "expired" "COMMAND_EXPIRED")
    else if differs "kind" "set_demo_relay" payload then Ok (Refuse "rejected" "UNSUPPORTED_COMMAND")
    else
      parameters ← subscript "parameters" payload;
      request ← relay_model_validate parameters;
      mret (Execute request).

(** [on_message]: the state after it, or the exception it lets escape. The
    clause catches KeyError, TypeError, ValueError and its subclasses. *)
Definition is_caught (e : exn) : bool :=
  match e with KeyError | TypeError => true | _ => is_value_error e end.

Definition relay_deadline (mono : float) (request : RelayCommandCreate) : option float :=
  if rc_relay_on request then Some (mono ⊕ of_int (rc_timeout_s request)) else None.

Definition on_message (now ack_now : Z) (mono : float) (uuid : string) (payload : string) (g : Gateway) :
    result Gateway :=
  let body :=
    match loads wide payload with
    | inl _ => Raise (ValueError "payload is not JSON")
    | inr payload =>
        id ← subscript "command_id" payload;
        let command_id := py_str str_container id in
        verdict ← judge now payload;
        mret (match verdict with
              | Refuse status code => publish_ack ack_now uuid command_id status code g
              | Execute request =>
                  let g := set_relay (rc_relay_on request) (relay_deadline mono request) g in
                  publish_ack ack_now uuid command_id "completed"
                    (if relay_on g then "RELAY_ON" else "RELAY_OFF") g
              end)
    end in
  match body with
  | Raise e => if is_caught e then Ok g else Raise e
  | r => r
  end.

Definition uptime (mono : float) (g : Gateway) : result Z :=
  py_int ((mono ⊖ started_monotonic g) ⊗ of_int 1000).

Definition set_sequence (n : Z) (g : Gateway) : Gateway :=
  Build_Gateway (started_monotonic g) n (telemetry_sequence g) (telemetry_index g)
    (reset_count g) (relay_on g) (relay_off_deadline g) (ready_file g) (subscribed g) (published g).
Definition publish_health (now : Z) (mono : float) (uuid : string) (g : Gateway) : result Gateway :=
  let g := set_sequence (sequence g + 1) g in
  up ← uptime mono g;
  mret (publish_to HEALTH [
    ("schema_version", JInt 1); ("message_id", JStr uuid); ("site_id", JStr SITE_ID);
    ("device_id", JStr DEVICE_ID); ("sequence", JInt (sequence g)); ("device_time", JStr (iso_z now));
    ("uptime_ms", JInt up); ("firmware_version", JStr "0.1.0-sim"); ("status", JStr "online");
    ("rssi_dbm", JInt (-48)); ("reset_reason", JStr "software_simulation_start");
    ("reset_count", JInt (reset_count g)); ("queue_depth", JInt 0); ("queue_capacity", JInt 512);
    ("dropped_message_count", JInt 0); ("modbus_status", JStr "ok"); ("active_faults", JArr []) ]
    1 true g).

(** [payload[key] = value] on a dict: in place. *)
Definition dict_set (key : string) (value : json) (fields : list (string * json)) : list (string * json) :=
  map (λ kv, if String.eqb kv.1 key then (key, value) else kv) fields.

Definition take_sample (g : Gateway) : Gateway :=
  Build_Gateway (started_monotonic g) (sequence g) (telemetry_sequence g) (S (telemetry_index g))
    (reset_count g) (relay_on g) (relay_off_deadline g) (ready_file g) (subscribed g) (published g).
Definition next_telemetry (g : Gateway) : Gateway :=
  Build_Gateway (started_monotonic g) (sequence g) (telemetry_sequence g + 1) (telemetry_index g)
    (reset_count g) (relay_on g) (relay_off_deadline g) (ready_file g) (subscribed g) (published g).
Definition publish_telemetry (now : Z) (mono : float) (uuid : string) (g : Gateway) : result Gateway :=
  values ← match scenario_value sin rng "normal" (Z.to_nat 1000000) (telemetry_index g) with
           | Some r => r
           | None => Raise StopIteration
           end;
  let g := take_sample g in
  up ← uptime mono g;
  let payload := build_envelope uuid5 values (telemetry_sequence g) now "simulated-gateway" in
  let payload := dict_set "uptime_ms" (JInt up) (dict_set "message_id" (JStr uuid) payload) in
  mret (next_telemetry (publish_to TELEMETRY payload 1 false g)).

(** One iteration of the loop of [run], sleeping apart: the state and the
    next publication times. *)
Record Loop := { agent : Gateway; next_health : float; next_sample : float }.
Definition relay_timeout (now : float) (g : Gateway) : Gateway :=
  match relay_off_deadline g with
  | Some deadline => if fleb deadline now then set_relay false None g else g
  | None => g
  end.
Definition iteration (now : float) (utc1 utc2 : Z) (mono1 mono2 : float) (uuid1 uuid2 : string)
    (l : Loop) : result Loop :=
  l ← (if fleb (next_health l) now
       then g ← publish_health utc1 mono1 uuid1 (agent l);
            mret {| agent := g; next_health := now ⊕ of_int 10; next_sample := next_sample l |}
       else mret l);
  l ← (if fleb (next_sample l) now
       then g ← publish_telemetry utc2 mono2 uuid2 (agent l);
            mret {| agent := g; next_health := next_health l; next_sample := now ⊕ of_int 2 |}
       else mret l);
  mret {| agent := relay_timeout now (agent l); next_health := next_health l; next_sample := next_sample l |}.

(** The [finally] clause of [run]. *)
Definition shut_down (g : Gateway) : Gateway := set_relay false (relay_off_deadline g) g.
End Gateway.

(** ** Serialised callbacks and iterations *)

Section Properties.
Context (mv : json → result RelayCommandCreate).
Context (fromisoformat : string → result datetime).
Context (str_container : json → string).
Context (wide : string → option string).
Context (uuid5 : string → string).
Context (sin : float → float) (rng : nat → nat → float).

(** What a payload must say for the relay to obey it at instant [now]. *)
Definition authorises (now : Z) (payload : json) (request : RelayCommandCreate) : Prop :=
  differs "device_id" DEVICE_ID payload = false ∧ differs "site_id" SITE_ID payload = false
  ∧ differs "kind" "set_demo_relay" payload = false
  ∧ (∃ text expires_at, subscript "expires_at" payload = Ok text
       ∧ fromisoformat (replace_z (py_str str_container text)) = Ok expires_at
       ∧ dt_leb expires_at (utc now) = Ok false)
  ∧ (∃ parameters, subscript "parameters" payload = Ok parameters ∧ mv parameters = Ok request).

Lemma judge_execute now payload request :
  judge mv fromisoformat str_container now payload = Ok (Execute request) → authorises now payload request.
Proof.
  unfold judge. destruct (differs "device_id" _ _ || differs "site_id" _ _) eqn:Hid; [done|].
  unfold mbind, result_bind. destruct (subscript "expires_at" payload) as [text|] eqn:He; [|done].
  destruct (fromisoformat _) as [d|] eqn:Hd; [|done].
  destruct (dt_leb d (utc now)) as [[]|] eqn:Hx; [done| |done].
  destruct (differs "kind" _ _) eqn:Hk; [done|].
  destruct (subscript "parameters" payload) as [p|] eqn:Hp; [|done].
  destruct (mv p) as [q|] eqn:Hq; [|done]. intros [= <-]. b2p. unfold authorises. eauto 12.
Qed.

(** One acknowledgement was published and nothing else. *)
Definition acked (g g' : Gateway) (status code : string) : Prop :=
  ∃ now uuid id, published g'
    = published g ++ [{| p_topic := TOPIC_ROOT +:+ "/" +:+ TOPIC_VERSION +:+ "/" +:+ SITE_ID +:+ "/"
                           +:+ DEVICE_ID +:+ "/" +:+ kind_value COMMAND_ACKS;
                         p_body := ack_body now uuid id status code (relay_on g');
                         p_qos := 1; p_retain := false |}].

(** The three ways a command message may end. *)
Inductive handled (now : Z) (mono : float) (payload : string) (g : Gateway) : Gateway → Prop :=
  | Ignored : handled now mono payload g g
  | Refused g' status code :
      relay_on g' = relay_on g → relay_off_deadline g' = relay_off_deadline g →
      acked g g' status code → status = "rejected" ∨ status = "expired" →
      handled now mono payload g g'
  | Executed g' fields request :
      loads wide payload = inr fields → authorises now fields request →
      relay_on g' = rc_relay_on request → relay_off_deadline g' = relay_deadline mono request →
      acked g g' "completed" (if rc_relay_on request then "RELAY_ON" else "RELAY_OFF") →
      handled now mono payload g g'.

Lemma on_message_handled now ack_now mono uuid payload g g' :
  on_message mv fromisoformat str_container wide now ack_now mono uuid payload g = Ok g' →
  handled now mono payload g g'.
Proof.
  unfold on_message. destruct (loads wide payload) as [err|fields] eqn:Hl;
    [intros [= <-]; apply Ignored|].
  unfold mbind, result_bind. destruct (subscript "command_id" fields) as [id|e] eqn:Hid.
  2:{ destruct (is_caught e); [intros [= <-]; apply Ignored|done]. }
  destruct (judge mv fromisoformat str_container now fields) as [[status code|request]|e] eqn:Hj.
  - intros [= <-]. unfold judge in Hj.
    assert (Hst : status = "rejected" ∨ status = "expired").
    { destruct (_ || _); [left; congruence|]. unfold mbind, result_bind in Hj.
      repeat case_in Hj; simplify_eq; auto. }
    eapply Refused; [reflexivity|reflexivity| |exact Hst]. unfold acked. simpl. eauto.
  - intros [= <-]. eapply Executed; [exact Hl|by apply judge_execute|reflexivity|reflexivity|].
    unfold acked. simpl. eauto.
  - destruct (is_caught e); [intros [= <-]; apply Ignored|done].
Qed.
End Properties.
