(* ===== verification/GatewayProps.v ===== *)
(** Safety of the simulated gateway's relay: only an authorised command turns
    it on, always with a deadline, and it is off after the deadline, a
    disconnection or the end of the loop - as long as callbacks and loop
    iterations do not overlap.  The last section lets the two threads overlap,
    as the MQTT client's network thread and the main thread do. *)
From S2P Require Import Prelude PyStr Float64 PyFormat Json JsonParse PyTime Topics Schemas.
From S2P Require Import Generator Gateway.

(** ** Reachable states *)

Section Reach.
Context (mv : json → result RelayCommandCreate).
Context (fromisoformat : string → result datetime).
Context (str_container : json → string).
Context (wide : string → option string).
Context (uuid5 : string → string).
Context (sin : float → float) (rng : nat → nat → float).

(** The agent of the running loop, one callback or iteration at a time. *)
Definition with_agent (g : Gateway) (l : Loop) : Loop :=
  {| agent := g; next_health := next_health l; next_sample := next_sample l |}.

Inductive step (l : Loop) : Loop → Prop :=
  | Step_connect b : step l (with_agent (on_connect b (agent l)) l)
  | Step_disconnect : step l (with_agent (on_disconnect (agent l)) l)
  | Step_message now ack_now mono uuid payload g :
      on_message mv fromisoformat str_container wide now ack_now mono uuid payload (agent l) = Ok g →
      step l (with_agent g l)
  | Step_iteration now u1 u2 m1 m2 id1 id2 l' :
      iteration uuid5 sin rng now u1 u2 m1 m2 id1 id2 l = Ok l' → step l l'.

Inductive reachable (mono : float) (time : Z) : Loop → Prop :=
  | Reach_start :
      reachable mono time {| agent := new_gateway mono time; next_health := of_int 0; next_sample := of_int 0 |}
  | Reach_step l l' : reachable mono time l → step l l' → reachable mono time l'.

(** The relay is on only with a deadline. *)
Definition deadline_set (g : Gateway) : Prop :=
  relay_on g = true → is_Some (relay_off_deadline g).

Lemma publish_health_relay now mono uuid g g' :
  publish_health now mono uuid g = Ok g' →
  relay_on g' = relay_on g ∧ relay_off_deadline g' = relay_off_deadline g.
Proof.
  unfold publish_health, mbind, result_bind. destruct (uptime _ _); [|done]. by intros [= <-].
Qed.
Lemma publish_telemetry_relay now mono uuid g g' :
  publish_telemetry uuid5 sin rng now mono uuid g = Ok g' →
  relay_on g' = relay_on g ∧ relay_off_deadline g' = relay_off_deadline g.
Proof.
  unfold publish_telemetry, mbind, result_bind.
  destruct (scenario_value _ _ _ _ _) as [[v|]|]; [|done..].
  destruct (uptime _ _); [|done]. by intros [= <-].
Qed.

(** An iteration publishes, then applies the relay timeout to the relay
    state it started from. *)
Lemma iteration_relay now u1 u2 m1 m2 id1 id2 l l' :
  iteration uuid5 sin rng now u1 u2 m1 m2 id1 id2 l = Ok l' →
  ∃ g, relay_on g = relay_on (agent l) ∧ relay_off_deadline g = relay_off_deadline (agent l)
    ∧ agent l' = relay_timeout now g.
Proof.
  unfold iteration. intros H.
  assert (Hh : ∃ l1, (if fleb (next_health l) now
       then g ← publish_health u1 m1 id1 (agent l);
            mret {| agent := g; next_health := fadd now (of_int 10); next_sample := next_sample l |}
       else mret l) = Ok l1 ∧ relay_on (agent l1) = relay_on (agent l)
       ∧ relay_off_deadline (agent l1) = relay_off_deadline (agent l)).
  { destruct (fleb _ now); [|by exists l]. unfold mbind, result_bind in *.
    destruct (publish_health u1 m1 id1 (agent l)) as [g|] eqn:Hg; [|done].
    eexists. split; [reflexivity|]. by eapply publish_health_relay. }
  destruct Hh as (l1 & E1 & R1 & D1). rewrite E1 in H. clear E1. unfold mbind at 1, result_bind at 1 in H.
  destruct (fleb (next_sample l1) now); unfold mbind, result_bind in H.
  - destruct (publish_telemetry _ _ _ u2 m2 id2 (agent l1)) as [g|] eqn:Hg; [|done].
    injection H as <-. exists g. apply publish_telemetry_relay in Hg as [-> ->]. done.
  - injection H as <-. exists (agent l1). done.
Qed.

Lemma relay_timeout_cases now g :
  relay_timeout now g = g ∧ (∀ d, relay_off_deadline g = Some d → fleb d now = false)
  ∨ (relay_on (relay_timeout now g) = false ∧ relay_off_deadline (relay_timeout now g) = None).
Proof.
  unfold relay_timeout. destruct (relay_off_deadline g) as [d|] eqn:Hd; [|by left].
  destruct (fleb d now) eqn:Hf; [by right|]. left. split; [done|]. naive_solver.
Qed.

Lemma step_deadline l l' : deadline_set (agent l) → step l l' → deadline_set (agent l').
Proof.
  intros Hd [b| |now ack_now mono uuid payload g H|now u1 u2 m1 m2 id1 id2 l2 H].
  - destruct b; exact Hd.
  - done.
  - apply on_message_handled in H. simpl.
    destruct H as [|g status code Hr Hdl _ _|g fields request _ _ Hr Hdl _].
    + exact Hd.
    + unfold deadline_set. by rewrite Hr, Hdl.
    + unfold deadline_set, relay_deadline in *. rewrite Hr, Hdl. intros ->. by eexists.
  - apply iteration_relay in H as (g & Hr & Hdl & ->).
    destruct (relay_timeout_cases now g) as [[-> _]|[Hoff _]].
    + unfold deadline_set. by rewrite Hr, Hdl.
    + unfold deadline_set. by rewrite Hoff.
Qed.

(** C8: in every state reached by connections, disconnections, command
    messages and loop iterations that do not overlap, an energised relay
    has a switch-off deadline. *)
Theorem relay_has_deadline mono time l : reachable mono time l → deadline_set (agent l).
Proof. induction 1 as [|l l' _ IH Hs]; [done|]. by eapply step_deadline. Qed.

(** An iteration at or after the deadline, a disconnection and the end
    of the loop leave the relay off; before the deadline an iteration keeps
    it. *)
Theorem relay_switched_off now u1 u2 m1 m2 id1 id2 l l' :
  iteration uuid5 sin rng now u1 u2 m1 m2 id1 id2 l = Ok l' →
  (∀ d, relay_off_deadline (agent l) = Some d →
     relay_on (agent l') = if fleb d now then false else relay_on (agent l))
  ∧ relay_on (on_disconnect (agent l)) = false
  ∧ relay_on (shut_down (agent l)) = false.
Proof.
  intros H. split; [|done]. intros d Hd. apply iteration_relay in H as (g & Hr & Hdl & ->).
  unfold relay_timeout. rewrite Hdl, Hd. by destruct (fleb d now).
Qed.

(** C7: a command message changes the relay only when it is addressed to
    this gateway, unexpired, of the supported kind and valid (so with a
    timeout of 1 to 30 seconds); it then obeys the request with a deadline
    that many seconds away and acknowledges it, and every other message
    leaves the relay as it was and is refused or ignored. *)
Theorem relay_needs_authority now ack_now mono uuid payload g g' :
  (∀ p request, mv p = Ok request → relay_validate request = Ok request) →
  on_message mv fromisoformat str_container wide now ack_now mono uuid payload g = Ok g' →
  (relay_on g' = relay_on g ∧ relay_off_deadline g' = relay_off_deadline g)
  ∨ ∃ fields request,
      loads wide payload = inr fields ∧ authorises mv fromisoformat str_container now fields request
      ∧ 1 <= rc_timeout_s request <= 30
      ∧ relay_on g' = rc_relay_on request
      ∧ relay_off_deadline g' = relay_deadline mono request
      ∧ acked g g' "completed" (if rc_relay_on request then "RELAY_ON" else "RELAY_OFF").
Proof.
  intros Hmv H. apply on_message_handled in H.
  destruct H as [|g' status code Hr Hdl _ _|g' fields request Hl Ha Hr Hdl Hack]; [by left|by left|].
  right. exists fields, request. split; [done|]. split; [done|]. split; [|done].
  destruct Ha as (_ & _ & _ & _ & p & _ & Hp). apply Hmv in Hp.
  apply validate_ok in Hp as (_ & Hv & _). apply count_errors_0 in Hv.
  apply List.Forall_cons_iff in Hv as [Hv _]. unfold ge, le in Hv. b2p. lia.
Qed.
End Reach.

(** ** A concrete session *)

Definition sample_relay_model (j : json) : result RelayCommandCreate :=
  match j with
  | JObj fields =>
      match jget "relay_on" fields, jget "timeout_s" fields with
      | Some (JBool b), Some (JInt t) => relay_validate {| rc_relay_on := b; rc_timeout_s := t |}
      | _, _ => Raise (ValidationError 1)
      end
  | _ => Raise (ValidationError 1)
  end.
Definition relay_command (on : bool) : string := dumps (JObj [
  ("command_id", JStr "cmd-1"); ("site_id", JStr SITE_ID); ("device_id", JStr DEVICE_ID);
  ("expires_at", JStr "2026-08-11T08:00:10Z"); ("kind", JStr "set_demo_relay");
  ("parameters", JObj [("relay_on", JBool on); ("timeout_s", JInt 5)]) ]).
Definition sample_on_message (now : Z) (mono : float) (on : bool) : Gateway → result Gateway :=
  on_message sample_relay_model (λ _, Ok (utc (seconds 10))) (λ _, "") (λ _, None) now now mono "uuid" (relay_command on).

Definition gateway_at (g : Gateway) : Loop :=
  {| agent := g; next_health := of_int 100; next_sample := of_int 100 |}.
Definition energised (mono : float) : Gateway :=
  match sample_on_message 0 mono true (new_gateway (of_int 0) 0) with Ok g => g | Raise _ => new_gateway mono 0 end.

Lemma sample_relay_model_valid p request :
  sample_relay_model p = Ok request → relay_validate request = Ok request.
Proof.
  unfold sample_relay_model. destruct p as [| | | | | |fields]; try done.
  destruct (jget "relay_on" fields) as [[]|]; try done.
  destruct (jget "timeout_s" fields) as [[]|]; try done.
  intros H. pose proof H as Hv. apply validate_ok in Hv as (Hr & _). subst request. exact H.
Qed.

Lemma relay_needs_authority_witness :
  relay_on (energised (of_int 3)) = true ∧
  ∃ request, rc_relay_on request = true ∧ relay_off_deadline (energised (of_int 3)) = relay_deadline (of_int 3) request.
Proof.
  split; [vm_compute; reflexivity|].
  destruct (relay_needs_authority sample_relay_model (λ _, Ok (utc (seconds 10))) (λ _, "") (λ _, None)
    0 0 (of_int 3) "uuid" (relay_command true) (new_gateway (of_int 0) 0) (energised (of_int 3))
    sample_relay_model_valid) as [[H _]|(fields & request & _ & _ & _ & H & Hd & _)].
  - vm_compute. reflexivity.
  - vm_compute in H. discriminate H.
  - exists request. split; [|exact Hd]. rewrite <- H. vm_compute. reflexivity.
Defined.

Lemma relay_switched_off_witness :
  match iteration (λ s, s) (λ x, x) (λ _ _, of_int 0) (of_int 8) 0 0 (of_int 8) (of_int 8) "" ""
          (gateway_at (energised (of_int 3))) with
  | Ok l' => relay_on (agent l') = false
  | Raise _ => False
  end.
Proof.
  destruct (iteration (λ s, s) (λ x, x) (λ _ _, of_int 0) (of_int 8) 0 0 (of_int 8) (of_int 8) "" ""
          (gateway_at (energised (of_int 3)))) as [l'|] eqn:H.
  - destruct (relay_switched_off _ _ _ _ _ _ _ _ _ _ _ _ H) as [Hd _].
    rewrite (Hd (of_int 8)); [vm_compute; reflexivity|]. vm_compute. reflexivity.
  - vm_compute in H. discriminate H.
Defined.

Lemma relay_has_deadline_witness :
  ∃ l, relay_on (agent l) = true ∧ is_Some (relay_off_deadline (agent l)).
Proof.
  exists (with_agent (energised (of_int 3)) {| agent := new_gateway (of_int 0) 0; next_health := of_int 0; next_sample := of_int 0 |}).
  split; [vm_compute; reflexivity|].
  apply (relay_has_deadline sample_relay_model (λ _, Ok (utc (seconds 10))) (λ _, "") (λ _, None) (λ s, s)
    (λ x, x) (λ _ _, of_int 0) (of_int 0) 0); [|vm_compute; reflexivity].
  eapply Reach_step; [apply Reach_start|].
  apply (Step_message _ _ _ _ _ _ _ _ 0 0 (of_int 3) "uuid" (relay_command true)). vm_compute. reflexivity.
Defined.

(** ** Overlapping threads

    [client.loop_start()] runs the callbacks on a second thread.  Between the
    assignments of one thread the other may run; this is the relay part of
    the two threads, one shared-attribute access per step.  The main thread
    tests [relay_off_deadline is not None], then [now >= relay_off_deadline],
    then assigns [relay_on = False] and [relay_off_deadline = None]; the
    network thread assigns [relay_on] then [relay_off_deadline]. *)
Inductive MainAt := AtTest | AtCompare | AtOff | AtClear | Dead.
Inductive NetAt := Waiting | AtDeadline (deadline : option float).
Record Threads := { t_relay : bool; t_deadline : option float; t_main : MainAt; t_net : NetAt }.

Inductive thread_step (s : Threads) : Threads → Prop :=
  | Main_test :
      t_main s = AtTest →
      thread_step s {| t_relay := t_relay s; t_deadline := t_deadline s; t_net := t_net s;
                       t_main := match t_deadline s with Some _ => AtCompare | None => AtTest end |}
  | Main_compare now :
      t_main s = AtCompare →
      thread_step s {| t_relay := t_relay s; t_deadline := t_deadline s; t_net := t_net s;
                       t_main := match t_deadline s with
                                 | Some d => if fleb d now then AtOff else AtTest
                                 | None => Dead (** [TypeError] ends the loop *)
                                 end |}
  | Main_off :
      t_main s = AtOff →
      thread_step s {| t_relay := false; t_deadline := t_deadline s; t_net := t_net s; t_main := AtClear |}
  | Main_clear :
      t_main s = AtClear →
      thread_step s {| t_relay := t_relay s; t_deadline := None; t_net := t_net s; t_main := AtTest |}
  | Net_command on mono timeout :
      t_net s = Waiting → 1 <= timeout <= 30 →
      thread_step s {| t_relay := on; t_deadline := t_deadline s; t_main := t_main s;
                       t_net := AtDeadline (relay_deadline mono {| rc_relay_on := on; rc_timeout_s := timeout |}) |}
  | Net_disconnect :
      t_net s = Waiting →
      thread_step s {| t_relay := false; t_deadline := t_deadline s; t_main := t_main s; t_net := AtDeadline None |}
  | Net_deadline d :
      t_net s = AtDeadline d →
      thread_step s {| t_relay := t_relay s; t_deadline := d; t_main := t_main s; t_net := Waiting |}.

Definition started : Threads := {| t_relay := false; t_deadline := None; t_main := AtTest; t_net := Waiting |}.
Definition runs_to : Threads → Threads → Prop := rtc thread_step.

Definition stuck_on : Threads := {| t_relay := true; t_deadline := None; t_main := AtTest; t_net := Waiting |}.

(** Steps of the main thread leave the network thread where it is. *)
Definition main_step (s s' : Threads) : Prop := thread_step s s' ∧ t_net s' = t_net s ∧ t_net s = Waiting.

Lemma stuck_on_stays s : rtc main_step stuck_on s → s = stuck_on.
Proof.
  assert (H1 : ∀ s s', main_step s s' → s = stuck_on → s' = stuck_on).
  { intros s0 s1 [Hs [Hn _]] ->.
    inversion Hs as [Ha|? Ha|Ha|Ha|? ? ? Ha|Ha|? Ha]; subst; simpl in *; done. }
  intros H. assert (H2 : ∀ s0 s1, rtc main_step s0 s1 → s0 = stuck_on → s1 = stuck_on).
  { induction 1 as [|s0 s1 s2 Hs _ IH]; [done|]. intros E. apply IH. by apply (H1 s0). }
  by apply (H2 stuck_on).
Qed.

(** C29: when the two threads overlap, a command that arrives while the main
    loop is switching the relay off can leave the relay energised without a
    deadline; from there the loop alone never switches it off. *)
Theorem overlap_sticks_relay :
  runs_to started stuck_on ∧ (∀ s, rtc main_step stuck_on s → t_relay s = true).
Proof.
  split; [|intros s Hs; by rewrite (stuck_on_stays s Hs)].
  set (d1 := Some (of_int 0 ⊕ of_int 1)%py). set (d2 := Some (of_int 1 ⊕ of_int 5)%py).
  unfold runs_to, started.
  eapply rtc_l; [apply (Net_command _ true (of_int 0) 1); [done|lia]|]. cbn.
  eapply rtc_l; [eapply Net_deadline; reflexivity|]. cbn.
  eapply rtc_l; [apply Main_test; reflexivity|]. cbn.
  eapply rtc_l; [apply (Main_compare _ (of_int 1)); reflexivity|].
  cbn [t_deadline t_relay t_net].
  replace (fleb _ (of_int 1)) with true by (vm_compute; reflexivity).
  eapply rtc_l; [apply Main_off; reflexivity|]. cbn [t_deadline t_relay t_net].
  eapply rtc_l; [apply (Net_command _ true (of_int 1) 5); [done|lia]|]. cbn [t_deadline t_relay t_net t_main].
  eapply rtc_l; [eapply Net_deadline; reflexivity|]. cbn [t_deadline t_relay t_net t_main].
  eapply rtc_l; [apply Main_clear; reflexivity|]. apply rtc_refl.
Qed.
