(* ===== verification/Settings.v ===== *)
(** [services/api/app/settings.py]: the configuration, its field checks and
    [allowed_origins]; and the token rules of [services/api/app/security.py].

    Argon2 and PyJWT are parameters.  Reading the environment and the [.env]
    file belongs to pydantic-settings. *)
From S2P Require Import Prelude PyStr Float64 Json PyTime Models Tables Session Schemas.

Record Settings := {
  environment : string; database_url : string; jwt_secret : string; jwt_algorithm : string;
  access_token_minutes : Z; ingest_token : string; demo_admin_username : string;
  demo_admin_password : string; mqtt_host : string; mqtt_port : Z; mqtt_username : option string;
  mqtt_password : option string; cors_origins : string; offline_after_s : Z; max_query_days : Z;
  model_root : string; model_stale_after_days : Z; anomaly_poll_interval_s : float;
  anomaly_minimum_feature_rows : Z }.

Definition validate_secret_length (value : string) : bool := negb (py_len value <? 32)%nat.
Definition validate_demo_password (value : string) : bool := negb (py_len value <? 12)%nat.

Definition between (lo hi x : Z) : bool := ge lo x && le hi x.
Definition settings_errors (s : Settings) : nat := count_errors [
  validate_secret_length (jwt_secret s); between 5 1440 (access_token_minutes s);
  validate_secret_length (ingest_token s); validate_demo_password (demo_admin_password s);
  between 1 65535 (mqtt_port s); between 10 3600 (offline_after_s s);
  between 1 366 (max_query_days s); between 1 3650 (model_stale_after_days s);
  fbetween (lit 2 1) (of_int 300) (anomaly_poll_interval_s s);
  between 50 1000000 (anomaly_minimum_feature_rows s) ].
Definition settings_validate : Settings → result Settings := validate settings_errors (λ _, true).

(** [[origin.strip() for origin in cors_origins.split(",") if origin.strip()]] *)
Definition comma : ascii := ",".
Definition allowed_origins (s : Settings) : list string :=
  List.filter (λ o, negb (String.eqb o "")) (map strip (split_on comma (cors_origins s))).

(** ** Tokens and users *)

Definition unauthorized (detail : string) : exn := HTTPException 401 detail.

(** The claims [create_access_token] signs. *)
Record Claims := { sub : string; iat : Z; exp : Z; aud : string }.

Section Security.
(** [jwt.encode] and [jwt.decode] with the audience [iiot-dashboard]:
    [None] is an [InvalidTokenError]. *)
Context (jwt_encode : Claims → string → string → string).
Context (jwt_decode : string → string → string → option json).
(** [PasswordHasher().verify]; a mismatch raises [VerifyMismatchError]. *)
Inductive Verification := Verified | Mismatch | OtherError (e : exn).
Context (argon2_verify : string → string → Verification).

Definition verify_password (password password_hash : string) : result bool :=
  match argon2_verify password_hash password with
  | Verified => Ok true
  | Mismatch => Ok false
  | OtherError e => Raise e
  end.

Definition create_access_token (username : string) (s : Settings) (now : Z) : string * Z :=
  let expires := now + seconds (access_token_minutes s * 60) in
  (jwt_encode {| sub := username; iat := now; exp := expires; aud := "iiot-dashboard" |}
     (jwt_secret s) (jwt_algorithm s),
   (expires - now) / 1000000).

Definition decode_access_token (token : string) (s : Settings) : result string :=
  match jwt_decode token (jwt_secret s) (jwt_algorithm s) with
  | None => Raise (unauthorized "Invalid or expired access token")
  | Some (JObj payload) =>
      match jget "sub" payload with
      | Some (JStr username) =>
          if String.eqb username "" then Raise (unauthorized "Invalid token subject") else Ok username
      | _ => Raise (unauthorized "Invalid token subject")
      end
  | Some _ => Raise TypeError
  end.

(** [User.username == username, User.active.is_(True)] *)
Definition active_user (username : string) (d : DB) : option User :=
  List.find (λ u, String.eqb (u_username u) username && u_active u) (users d).

Definition get_current_user (token : string) (s : Settings) : DBM User :=
  username ← lift (decode_access_token token s);
  found ← query (active_user username);
  match found with
  | Some user => mret user
  | None => raise (unauthorized "User is inactive")
  end.

(** [login] of [main.py]. *)
Definition login (username password : string) (s : Settings) : DBM (string * Z) :=
  found ← query (active_user username);
  match found with
  | None => raise (unauthorized "Incorrect username or password")
  | Some user =>
      ok ← lift (verify_password password (u_password_hash user));
      if negb ok then raise (unauthorized "Incorrect username or password")
      else now ← utc_now; mret (create_access_token (u_username user) s now)
  end.

Definition ensure_admin (user : User) : result () :=
  if negb (String.eqb (u_role user) "admin") then Raise (HTTPException 403 "Admin role required") else Ok ().
End Security.

(** A token is accepted only for the non-empty subject the signature
    verification returned, and gives access only while a user of that name is
    active; every other outcome is a 401 and no outcome writes. *)
Theorem current_user_is_active jwt_decode token s ses r ses' :
  (∀ t k a, match jwt_decode t k a with Some (JObj _) | None => True | _ => False end) →
  get_current_user jwt_decode token s ses = (r, ses') →
  ses' = ses ∧
  match r with
  | Ok user => u_active user = true ∧ user ∈ users (db ses) ∧ u_username user ≠ ""
      ∧ ∃ claims, jwt_decode token (jwt_secret s) (jwt_algorithm s) = Some (JObj claims)
          ∧ jget "sub" claims = Some (JStr (u_username user))
  | Raise e => ∃ detail, e = HTTPException 401 detail
  end.
Proof.
  intros Hdict. unfold get_current_user, decode_access_token.
  specialize (Hdict token (jwt_secret s) (jwt_algorithm s)).
  destruct (jwt_decode _ _ _) as [[| | | | | |claims]|] eqn:Hj; try done.
  2:{ intros [= <- <-]. split; [done|]. by eexists. }
  destruct (jget "sub" claims) as [[| | | |name| |]|] eqn:Hs;
    try (intros [= <- <-]; split; [done|by eexists]).
  destruct (String.eqb_spec name "") as [->|Hne]; [intros [= <- <-]; split; [done|by eexists]|].
  unfold mbind, M_bind, lift, query, get.
  destruct (active_user name (db ses)) as [u|] eqn:Hu; intros [= <- <-]; (split; [done|]).
  - apply List.find_some in Hu as [Hin Hu]. b2p. subst name.
    split; [done|]. split; [by apply list_elem_of_In|]. split; [done|]. by exists claims.
  - by eexists.
Qed.

Definition sample_settings : Settings := {|
  environment := "test"; database_url := "postgresql+psycopg://db/iiot";
  jwt_secret := "0123456789abcdef0123456789abcdef"; jwt_algorithm := "HS256";
  access_token_minutes := 30; ingest_token := "fedcba9876543210fedcba9876543210";
  demo_admin_username := "demo-admin"; demo_admin_password := "demo-password";
  mqtt_host := "localhost"; mqtt_port := 1883; mqtt_username := None; mqtt_password := None;
  cors_origins := "http://localhost:3000, http://127.0.0.1:3000,"; offline_after_s := 60;
  max_query_days := 31; model_root := "data/models"; model_stale_after_days := 30;
  anomaly_poll_interval_s := of_int 5; anomaly_minimum_feature_rows := 200 |}.
Example sample_settings_valid : settings_validate sample_settings = Ok sample_settings.
Proof. vm_compute. done. Qed.
Example sample_origins :
  allowed_origins sample_settings = ["http://localhost:3000"; "http://127.0.0.1:3000"].
Proof. vm_compute. done. Qed.

Definition sample_user (name role : string) : User := {|
  u_id := 1; u_username := name; u_password_hash := "hash"; u_role := role; u_active := true;
  u_created_at := 0 |}.
(** A decoder that accepts the token ["good"] for the operator. *)
Definition sample_decode (token secret algorithm : string) : option json :=
  if String.eqb token "good" then Some (JObj [("sub", JStr "operator")]) else None.

Lemma current_user_is_active_witness :
  let ses := open_session (set_users [sample_user "operator" "admin"] empty_db) [] true (λ _, 0) 0 in
  (get_current_user sample_decode "good" sample_settings ses).1 = Ok (sample_user "operator" "admin")
  ∧ u_active (sample_user "operator" "admin") = true.
Proof.
  cbv zeta. split; [vm_compute; reflexivity|].
  destruct (current_user_is_active sample_decode "good" sample_settings
    (open_session (set_users [sample_user "operator" "admin"] empty_db) [] true (λ _, 0) 0)
    (Ok (sample_user "operator" "admin")) (open_session (set_users [sample_user "operator" "admin"] empty_db) [] true (λ _, 0) 0))
    as [_ [H _]].
  - intros t k a. unfold sample_decode. destruct (String.eqb t "good"); exact I.
  - vm_compute. reflexivity.
  - exact H.
Defined.
