(* ===== verification/Live.v ===== *)
(** [services/api/app/live.py]: the WebSocket fan-out, the credential and
    origin checks of the socket, and the reconnecting listener. *)
From S2P Require Import Prelude PyStr Float64 Json JsonParse PyTime Models Session Schemas.
From S2P Require Import Settings.
Local Open Scope py_scope.

(** ** Connection manager

    A WebSocket is identified by a number; the manager holds the list of
    accepted ones. *)
Definition Manager := list nat.

Definition connect (w : nat) (m : Manager) : Manager := m ++ [w].
(** [list.remove] with [ValueError] suppressed. *)
Fixpoint disconnect (w : nat) (m : Manager) : Manager :=
  match m with
  | [] => []
  | x :: m' => if Nat.eqb x w then m' else x :: disconnect w m'
  end.
Definition connection_count (m : Manager) : nat := length m.

(** What [send_json] does on one socket. *)
Inductive Send := Delivered | SocketClosed (** [RuntimeError] *) | SendFailed (e : exn).

(** Other tasks run while a send is awaited: the connections and
    disconnections they make before the [i]-th send. *)
Inductive Event := Joined (w : nat) | Left (w : nat).
Definition apply_event (m : Manager) (ev : Event) : Manager :=
  match ev with Joined w => connect w m | Left w => disconnect w m end.

Section Broadcast.
Context (send : nat → Send) (meanwhile : nat → list Event).

(** The loop over the snapshot: the manager, the sockets that received the
    event, the stale ones and the exception that ended the loop, if any. *)
Fixpoint send_all (i : nat) (snapshot : list nat) (m : Manager) (delivered stale : list nat) :
    Manager * list nat * list nat * option exn :=
  match snapshot with
  | [] => (m, delivered, stale, None)
  | w :: rest =>
      let m := fold_left apply_event (meanwhile i) m in
      match send w with
      | Delivered => send_all (S i) rest m (delivered ++ [w]) stale
      | SocketClosed => send_all (S i) rest m delivered (stale ++ [w])
      | SendFailed e => (m, delivered, stale, Some e)
      end
  end.
Definition broadcast (m : Manager) : Manager * list nat * option exn :=
  let '(m', delivered, stale, e) := send_all 0 m m [] [] in
  match e with
  | None => (fold_left (λ m w, disconnect w m) stale m', delivered, None)
  | Some e => (m', delivered, Some e)
  end.
End Broadcast.

(** ** Credentials of the socket *)

Definition psycopg_url (database_url : string) : string :=
  replace_first "postgresql+psycopg://" "postgresql://" database_url.

Definition bearer_subprotocol_token (header : option string) : option string :=
  match header with
  | None => None
  | Some header =>
      match map strip (split_on comma header) with
      | [scheme; token] =>
          if negb (String.eqb (lower scheme) "bearer") then None
          else if String.eqb token "" || (4096 <? py_len token)%nat then None
          else Some token
      | _ => None
      end
  end.

Definition websocket_origin_is_allowed (origin : option string) (allowed : list string) : bool :=
  match origin with None => true | Some o => existsb (String.eqb o) allowed end.

(** How [live_events] of [main.py] answers a handshake. *)
Inductive Handshake :=
  | Closed (code : Z) (reason : string)
  | Accepted (username : string) (subprotocol : option string).

Section Handshake.
Context (jwt_decode : string → string → string → option json).

Definition live_events (s : Settings) (d : DB) (origin protocols cookie : option string) : result Handshake :=
  if negb (websocket_origin_is_allowed origin (allowed_origins s))
  then Ok (Closed 4403 "Origin not allowed")
  else
    let bearer := bearer_subprotocol_token protocols in
    let negotiated := match bearer with Some _ => Some "bearer" | None => None end in
    let token :=
      match bearer with
      | Some t => Some t
      | None => match origin with
                | Some o => if existsb (String.eqb o) (allowed_origins s) then cookie else None
                | None => None
                end
      end in
    match token with
    | None => Ok (Closed 4401 "Missing WebSocket credential")
    | Some token =>
        match decode_access_token jwt_decode token s with
        | Raise (HTTPException _ _) => Ok (Closed 4401 "Invalid access token")
        | Raise e => Raise e
        | Ok username =>
            match active_user username d with
            | None => Ok (Closed 4403 "Inactive user")
            | Some _ => Ok (Accepted username negotiated)
            end
        end
    end.
End Handshake.

(** ** The listener

    One turn of the [while] loop: a connection attempt that fails, or a
    connection that delivers notifications until it ends or fails. *)
Inductive Turn := Refused | Connected (payloads : list string) (failed : bool).

Record Listener := { delay_s : float; events : list json; waits : list float }.

Definition back_off (l : Listener) : Listener :=
  let doubled := delay_s l ⊗ of_int 2 in
  {| delay_s := if fltb (of_int 30) doubled then of_int 30 else doubled;
     events := events l; waits := waits l ++ [delay_s l] |}.
Definition reset_delay (l : Listener) : Listener :=
  {| delay_s := of_int 1; events := events l; waits := waits l |}.

(** Broadcast the objects; a payload that is no JSON raises. *)
Fixpoint deliver (wide : string → option string) (payloads : list string) (l : Listener) : Listener * bool :=
  match payloads with
  | [] => (l, true)
  | p :: rest =>
      match loads wide p with
      | inl _ => (l, false)
      | inr (JObj fields) =>
          deliver wide rest {| delay_s := delay_s l; events := events l ++ [JObj fields]; waits := waits l |}
      | inr _ => deliver wide rest l
      end
  end.

Definition turn (wide : string → option string) (t : Turn) (l : Listener) : Listener :=
  match t with
  | Refused => back_off l
  | Connected payloads failed =>
      let '(l, ok) := deliver wide payloads (reset_delay l) in
      if ok && negb failed then l else back_off l
  end.
Definition listen_for_events (wide : string → option string) (s : Settings) (turns : list Turn) : Listener :=
  let start := {| delay_s := of_int 1; events := []; waits := [] |} in
  if negb (startswith "postgresql" (database_url s)) then start
  else fold_left (λ l t, turn wide t l) turns start.

(** ** Properties *)

Section BroadcastProps.
Context (send : nat → Send) (meanwhile : nat → list Event).

(** What joined and left while the snapshot was being served. *)
Definition all_events (i n : nat) : list Event := concat (map meanwhile (seq i n)).
Definition delivered_to (l : list nat) : list nat :=
  List.filter (λ w, match send w with Delivered => true | _ => false end) l.
Definition closed_of (l : list nat) : list nat :=
  List.filter (λ w, match send w with SocketClosed => true | _ => false end) l.

Lemma send_all_effect snapshot i m d st :
  (∀ w e, w ∈ snapshot → send w ≠ SendFailed e) →
  send_all send meanwhile i snapshot m d st
  = (fold_left apply_event (all_events i (length snapshot)) m,
     d ++ delivered_to snapshot, st ++ closed_of snapshot, None).
Proof.
  revert i m d st. induction snapshot as [|w l IH]; intros i m d st Hf; simpl.
  - by rewrite !app_nil_r.
  - unfold all_events. simpl. rewrite fold_left_app.
    assert (Hl : ∀ w' e, w' ∈ l → send w' ≠ SendFailed e) by (intros; apply Hf; by right).
    pose proof (Hf w) as Hw. destruct (send w) as [| |e].
    + rewrite IH by done. by rewrite <- app_assoc.
    + rewrite IH by done. by rewrite <- app_assoc.
    + by destruct (Hw e); [left|].
Qed.

Lemma elem_of_disconnect w x m : NoDup m → x ∈ disconnect w m ↔ x ∈ m ∧ x ≠ w.
Proof.
  induction m as [|y m IH]; simpl; [set_solver|]. rewrite NoDup_cons. intros [Hy Hm].
  destruct (Nat.eqb_spec y w) as [->|Hne]; rewrite !elem_of_cons; [set_solver|].
  rewrite IH by done. set_solver.
Qed.
Lemma NoDup_disconnect w m : NoDup m → NoDup (disconnect w m).
Proof.
  induction m as [|y m IH]; simpl; [done|]. rewrite NoDup_cons. intros [Hy Hm].
  destruct (Nat.eqb_spec y w); [done|]. rewrite NoDup_cons. split; [|by apply IH].
  rewrite elem_of_disconnect by done. naive_solver.
Qed.

Lemma elem_of_closed w l : w ∈ closed_of l ↔ w ∈ l ∧ send w = SocketClosed.
Proof.
  unfold closed_of. rewrite !list_elem_of_In, filter_In. split; intros [H1 H2]; (split; [done|]).
  - by destruct (send w).
  - by rewrite H2.
Qed.

Lemma disconnect_all st m : NoDup m →
  ∀ x, x ∈ fold_left (λ m w, disconnect w m) st m ↔ x ∈ m ∧ x ∉ st.
Proof.
  revert m. induction st as [|w st IH]; intros m Hm x; simpl; [set_solver|].
  rewrite IH by (by apply NoDup_disconnect). rewrite elem_of_disconnect by done. set_solver.
Qed.
End BroadcastProps.

(** A broadcast reaches every socket of its snapshot that can still be
    written to, exactly once and in order; afterwards the manager holds what
    joined and did not leave in the meantime, without the sockets found
    closed. *)
Theorem broadcast_effect send meanwhile m :
  (∀ w e, w ∈ m → send w ≠ SendFailed e) →
  let now := fold_left apply_event (all_events meanwhile 0 (length m)) m in
  NoDup now →
  let '(m', delivered, error) := broadcast send meanwhile m in
  error = None ∧ delivered = delivered_to send m
  ∧ ∀ w, w ∈ m' ↔ w ∈ now ∧ ¬ (w ∈ m ∧ send w = SocketClosed).
Proof.
  intros Hf now Hnd. unfold broadcast. rewrite send_all_effect by done.
  cbn [app]. split; [done|]. split; [done|]. intros w. rewrite disconnect_all by done.
  fold now. by rewrite elem_of_closed.
Qed.

Lemma broadcast_effect_witness :
  broadcast (λ w, if Nat.eqb w 2 then SocketClosed else Delivered)
    (λ i, if Nat.eqb i 1 then [Joined 7; Left 3] else []) [1; 2; 3]%nat
  = ([1; 7]%nat, [1; 3]%nat, None) ∧ ¬ (2 ∈ [1; 7])%nat.
Proof.
  split; [reflexivity|].
  pose proof (broadcast_effect (λ w, if Nat.eqb w 2 then SocketClosed else Delivered)
    (λ i, if Nat.eqb i 1 then [Joined 7; Left 3] else []) [1; 2; 3]%nat) as H.
  destruct H as (_ & _ & H).
  - intros w e _. by destruct (Nat.eqb w 2).
  - cbn. repeat (apply NoDup_cons; split; [set_solver|]). apply NoDup_nil_2.
  - change ([1; 7]%nat) with ((broadcast (λ w, if Nat.eqb w 2 then SocketClosed else Delivered)
      (λ i, if Nat.eqb i 1 then [Joined 7; Left 3] else []) [1; 2; 3]%nat).1.1).
    intros Hin. apply H in Hin as [_ Hn]. apply Hn. split; [set_solver|reflexivity].
Defined.

(** C26: a live connection is accepted only for an active user named by a valid
    token.  An Origin header that was sent must name an allowed origin; a client
    that sends none (a program, not a browser) is accepted only with its own
    bearer token.  The session cookie counts only when there is no bearer token
    and an allowed origin was sent, so another site cannot ride on it. *)
Theorem handshake_safe jwt_decode s d origin protocols cookie username subprotocol :
  live_events jwt_decode s d origin protocols cookie = Ok (Accepted username subprotocol) →
  (∀ o, origin = Some o → o ∈ allowed_origins s)
  ∧ (∃ u, u ∈ users d ∧ u_active u = true ∧ u_username u = username)
  ∧ ∃ token, decode_access_token jwt_decode token s = Ok username
      ∧ match bearer_subprotocol_token protocols with
        | Some t => token = t ∧ subprotocol = Some "bearer"
        | None => cookie = Some token ∧ subprotocol = None ∧ is_Some origin
        end.
Proof.
  unfold live_events. destruct (websocket_origin_is_allowed _ _) eqn:Ho; [|done]. cbn [negb].
  assert (Hin : ∀ o, origin = Some o → o ∈ allowed_origins s).
  { intros o ->. simpl in Ho. apply existsb_exists in Ho as (x & Hx & ->%String.eqb_eq).
    by apply list_elem_of_In. }
  assert (Huser : ∀ name, is_Some (active_user name d) →
    ∃ u, u ∈ users d ∧ u_active u = true ∧ u_username u = name).
  { intros name [u Hu]. apply List.find_some in Hu as [Hu1 Hu2]. b2p. exists u.
    split; [by apply list_elem_of_In|done]. }
  intros H. split; [done|].
  destruct (bearer_subprotocol_token protocols) as [t|].
  - destruct (decode_access_token _ t s) as [name|e] eqn:Hd; [|by destruct e].
    destruct (active_user name d) eqn:Hu; [|done]. injection H as <- <-.
    split; [by apply Huser; rewrite Hu|]. by exists t.
  - destruct origin as [o|]; [|done].
    destruct (existsb _ _); [|done]. destruct cookie as [t|]; [|done].
    destruct (decode_access_token _ t s) as [name|e] eqn:Hd; [|by destruct e].
    destruct (active_user name d) eqn:Hu; [|done]. injection H as <- <-.
    split; [by apply Huser; rewrite Hu|]. exists t. split; [done|]. by split_and!.
Qed.

Lemma handshake_safe_witness :
  live_events sample_decode sample_settings (set_users [sample_user "operator" "admin"] empty_db)
    (Some "http://localhost:3000") None (Some "good") = Ok (Accepted "operator" None)
  ∧ "http://localhost:3000" ∈ allowed_origins sample_settings.
Proof.
  assert (E : live_events sample_decode sample_settings (set_users [sample_user "operator" "admin"] empty_db)
    (Some "http://localhost:3000") None (Some "good") = Ok (Accepted "operator" None)) by (vm_compute; reflexivity).
  split; [exact E|].
  destruct (handshake_safe _ _ _ _ _ _ _ _ E) as [H _]. by apply H.
Defined.

(** The waits between attempts, in order. *)
Definition schedule : list float := map of_int [1; 2; 4; 8; 16; 30].

Definition backoff_inv (l : Listener) : Prop :=
  delay_s l ∈ schedule ∧ Forall (λ w, w ∈ schedule) (waits l).

Lemma back_off_inv l : backoff_inv l → backoff_inv (back_off l).
Proof.
  intros [Hd Hw]. split.
  - unfold back_off, schedule in *. cbn [delay_s map] in *. rewrite !elem_of_cons in Hd.
    destruct Hd as [->|[->|[->|[->|[->|[->|[]%elem_of_nil]]]]]]; apply list_elem_of_In; vm_compute; tauto.
  - apply Forall_app_2; [done|]. by apply List.Forall_cons.
Qed.

Lemma deliver_frame wide ps l :
  delay_s (deliver wide ps l).1 = delay_s l ∧ waits (deliver wide ps l).1 = waits l.
Proof.
  revert l. induction ps as [|p ps IH]; intros l; simpl; [done|].
  destruct (loads wide p) as [e|[| | | | | |fields]]; try done; try apply IH.
  by rewrite !(proj1 (IH _)), !(proj2 (IH _)).
Qed.

Lemma turn_inv wide t l : backoff_inv l → backoff_inv (turn wide t l).
Proof.
  intros H. destruct t as [|ps failed]; simpl; [by apply back_off_inv|].
  destruct (deliver wide ps (reset_delay l)) as [l' ok] eqn:E.
  destruct (deliver_frame wide ps (reset_delay l)) as [Hd Hw]. rewrite E in Hd, Hw. simpl in *.
  assert (backoff_inv l').
  { destruct H as [_ H]. split; [rewrite Hd; by left|by rewrite Hw]. }
  destruct (ok && negb failed); [done|by apply back_off_inv].
Qed.

Lemma turns_inv wide ts l : backoff_inv l → backoff_inv (fold_left (λ l t, turn wide t l) ts l).
Proof. revert l. induction ts as [|t ts IH]; intros l H; simpl; [done|]. apply IH. by apply turn_inv. Qed.

(** Whatever the database does, the listener waits between 1 and 30
    seconds before each new attempt, along 1, 2, 4, 8, 16, 30; a failure after
    a successful connection starts again from one second. *)
Theorem reconnect_back_off wide s turns :
  let l := listen_for_events wide s turns in
  Forall (λ w, w ∈ schedule) (waits l)
  ∧ (∀ n, waits (listen_for_events wide s (repeat Refused n)) =
       if startswith "postgresql" (database_url s) then take n (take 5 schedule ++ repeat (of_int 30) (n - 5)) else [])
  ∧ (∀ payloads, startswith "postgresql" (database_url s) = true →
       last (waits (listen_for_events wide s (turns ++ [Connected payloads true]))) = Some (of_int 1)).
Proof.
  set (start := {| delay_s := of_int 1; events := []; waits := [] |}).
  assert (Hstart : backoff_inv start) by (split; [by left|apply List.Forall_nil]).
  cbv zeta. unfold listen_for_events. fold start.
  destruct (startswith "postgresql" (database_url s)) eqn:Hp; cbn [negb].
  - split; [by apply turns_inv|]. split.
    + assert (Hcap : ∀ n l, delay_s l = of_int 30 →
        waits (fold_left (λ l t, turn wide t l) (repeat Refused n) l) = waits l ++ repeat (of_int 30) n).
      { induction n as [|n IH]; intros l Hl; simpl; [by rewrite app_nil_r|].
        rewrite IH.
        - unfold back_off. simpl. by rewrite Hl, <- app_assoc.
        - unfold back_off. simpl. rewrite Hl. by vm_compute. }
      intros n. destruct n as [|[|[|[|[|n]]]]]; [vm_compute; reflexivity..|].
      replace (S (S (S (S (S n)))) - 5)%nat with n by lia.
      change (repeat Refused (S (S (S (S (S n)))))) with ([Refused; Refused; Refused; Refused; Refused] ++ repeat Refused n).
      rewrite fold_left_app, Hcap by (vm_compute; reflexivity).
      rewrite take_ge; [|rewrite length_app, repeat_length; simpl; lia].
      f_equal.
    + intros payloads _. rewrite fold_left_app. simpl.
      set (l := fold_left _ _ _).
      destruct (deliver wide payloads (reset_delay l)) as [l' ok] eqn:E.
      destruct (deliver_frame wide payloads (reset_delay l)) as [Hd _]. rewrite E in Hd. simpl in Hd.
      rewrite andb_false_r. simpl. by rewrite last_snoc, Hd.
  - split; [apply List.Forall_nil|]. split; [|done]. done.
Qed.
