(* ===== verification/Commands.v ===== *)
(** [services/api/app/command_service.py]: a relay command is committed, then
    published, then its status is committed.

    Parameters: [uuid4], the broker ([mqtt_publish.single]: [None], or the
    class name of the exception it raised) and what other processes commit
    while the message is on its way. *)
From S2P Require Import Prelude PyStr Float64 Json PyTime Models Tables Session Topics Schemas.
From S2P Require Import Settings Ingestion AlarmFacts Keys Transactions IngestionRuns.
From S2P Require Import IngestionProps HealthAckProps.

(** What is handed to [mqtt_publish.single]. *)
Record Sending := {
  n_topic : string; n_payload : string; n_qos : Z; n_retain : bool; n_hostname : string;
  n_port : Z; n_auth : option (string * string) }.

(** [settings.mqtt_username and settings.mqtt_password] *)
Definition mqtt_auth (s : Settings) : option (string * string) :=
  match mqtt_username s, mqtt_password s with
  | Some u, Some p => if String.eqb u "" || String.eqb p "" then None else Some (u, p)
  | _, _ => None
  end.

Definition command_parameters (r : RelayCommandCreate) : list (string * json) :=
  [("relay_on", JBool (rc_relay_on r)); ("timeout_s", JInt (rc_timeout_s r))].

Definition new_command (now : Z) (uuid device_id actor : string) (r : RelayCommandCreate) : DeviceCommand := {|
  x_command_id := uuid; x_device_id := device_id; x_kind := "set_demo_relay";
  x_parameters := JObj (command_parameters r); x_status := "queued"; x_result_code := None;
  x_detail := None; x_issued_by := actor; x_issued_at := now;
  x_expires_at := now + seconds (Z.min (rc_timeout_s r) 10); x_acknowledged_at := None |}.

Definition command_payload (site device : string) (x : DeviceCommand) : json := JObj [
  ("schema_version", JInt 1); ("command_id", JStr (x_command_id x)); ("site_id", JStr site);
  ("device_id", JStr device); ("issued_at", JStr (iso_z (x_issued_at x)));
  ("expires_at", JStr (iso_z (x_expires_at x))); ("issued_by", JStr (x_issued_by x));
  ("kind", JStr "set_demo_relay"); ("parameters", x_parameters x) ].

Definition mark_published (x : DeviceCommand) : DeviceCommand :=
  Build_DeviceCommand (x_command_id x) (x_device_id x) (x_kind x) (x_parameters x) "published"
    (x_result_code x) (x_detail x) (x_issued_by x) (x_issued_at x) (x_expires_at x) (x_acknowledged_at x).
Definition mark_failed (error : string) (x : DeviceCommand) : DeviceCommand :=
  Build_DeviceCommand (x_command_id x) (x_device_id x) (x_kind x) (x_parameters x) "failed"
    (Some "BROKER_PUBLISH_FAILED") (Some error) (x_issued_by x) (x_issued_at x) (x_expires_at x)
    (x_acknowledged_at x).

(** Other processes commit: the session is between transactions. *)
Definition others (f : DB → DB) : DBM () :=
  modify (λ s, Build_Session (f (saved s)) (f (saved s)) (pending s) (notes s) (published s)
                 (postgres s) (clock s) (ticks s)).

Section Commands.
Context (uuid : string) (broker : Sending → option string) (meanwhile : DB → DB).

(** The row as the caller sees it, and the message handed to the broker. *)
Definition sending (device : Device) (x : DeviceCommand) (s : Settings) : result Sending :=
  t ← topic (d_site_id device) (d_id device) COMMANDS;
  mret {| n_topic := t; n_payload := dumps (command_payload (d_site_id device) (d_id device) x);
          n_qos := 1; n_retain := false; n_hostname := mqtt_host s; n_port := mqtt_port s;
          n_auth := mqtt_auth s |}.

(** The [try] block: the attributes it assigns and what was sent. *)
Definition publish_command (device : Device) (x : DeviceCommand) (s : Settings) :
    (DeviceCommand → DeviceCommand) * option Sending :=
  match sending device x s with
  | Raise _ => (mark_failed "ValueError", None)
  | Ok m => match broker m with
            | None => (mark_published, Some m)
            | Some error => (mark_failed error, Some m)
            end
  end.

Definition issue_relay_command (device : Device) (actor : string) (request : RelayCommandCreate)
    (settings : Settings) : DBM (DeviceCommand * option Sending) :=
  now ← utc_now;
  let command := new_command now uuid (d_id device) actor request in
  add (insert_command command);;
  created ← utc_now;
  add (insert_audit (new_audit created actor "relay_command_issued" "device_command" uuid
         (JObj (("device_id", JStr (d_id device)) :: command_parameters request))));;
  commit;;
  let '(mark, sent) := publish_command device command settings in
  others meanwhile;;
  add (update_command uuid mark);;
  commit;;
  mret (mark command, sent).
End Commands.

(** ** Properties *)

Lemma find_app_new {A} (p : A → bool) l x :
  existsb p l = false → p x = true → List.find p (l ++ [x]) = Some x.
Proof.
  intros Hl Hx. rewrite find_app. replace (List.find p l) with (@None A); [simpl; by rewrite Hx|].
  symmetry. apply find_none_iff. intros y Hy. apply not_true_iff_false. intros Hp.
  assert (existsb p l = true); [|congruence]. apply existsb_exists. exists y. by rewrite <- list_elem_of_In.
Qed.

(** The first transaction. *)
Definition issue_writes (device : Device) (actor uuid : string) (request : RelayCommandCreate) (now created : Z) :
    list write :=
  [insert_command (new_command now uuid (d_id device) actor request);
   insert_audit (new_audit created actor "relay_command_issued" "device_command" uuid
                   (JObj (("device_id", JStr (d_id device)) :: command_parameters request)))].

Lemma issue_writes_effect device actor uuid request now created d d' :
  run_writes (issue_writes device actor uuid request now created) d = Ok d' →
  get_command uuid d = None
  ∧ get_command uuid d' = Some (new_command now uuid (d_id device) actor request)
  ∧ (∀ id, id ≠ uuid → get_command id d' = get_command id d)
  ∧ ∃ a, audit_events d' = audit_events d ++ [a] ∧ e_action a = "relay_command_issued" ∧ e_target_id a = uuid
      ∧ e_actor a = actor.
Proof.
  unfold issue_writes. rewrite run_writes_cons_ok. intros (d1 & H1 & H2).
  apply run_writes_cons_ok in H2 as (d2 & H2 & [= <-]).
  unfold insert_command in H1. open_write H1. unfold insert_audit in H2. open_write H2.
  unfold get_command. simpl in *. split; [|split; [|split]].
  - apply find_none_iff. intros y Hy. apply not_true_iff_false. intros Hp.
    match goal with H : existsb _ _ = false |- _ => rename H into Hn end.
    assert (Ht : existsb (λ y, String.eqb (x_command_id y) uuid) (device_commands d) = true); [|congruence].
    apply existsb_exists. exists y. by rewrite <- list_elem_of_In.
  - apply find_app_new; [done|]. simpl. apply String.eqb_refl.
  - intros id Hid. rewrite find_app. simpl.
    destruct (String.eqb_spec uuid id); [congruence|]. by destruct (List.find _ _).
  - eexists. split; [reflexivity|]. done.
Qed.

(** What a call that returns has done. *)
Lemma issue_run uuid broker meanwhile device actor request settings s x sent s' :
  clean s → issue_relay_command uuid broker meanwhile device actor request settings s = (Ok (x, sent), s') →
  let command := new_command (clock s (ticks s)) uuid (d_id device) actor request in
  ∃ created d1 d2, run_writes (issue_writes device actor uuid request (clock s (ticks s)) created) (saved s) = Ok d1
    ∧ x = (publish_command broker device command settings).1 command
    ∧ sent = (publish_command broker device command settings).2
    ∧ update_command uuid (publish_command broker device command settings).1 (meanwhile d1) = Ok d2
    ∧ saved s' = d2 ∧ clean s'.
Proof.
  intros Hs. pose proof Hs as (Hdb & Hp & Hn). unfold issue_relay_command. cbv zeta.
  rewrite now_step. set (now := clock s (ticks s)). rewrite add_step, now_step, add_step.
  intros H. apply bind_run in H as [(u & s1 & H1 & H)|(e & _ & Hr)]; [|done].
  apply commit_run in H1 as [(d1 & Hd1 & _ & ->)|(e & _ & ? & _)]; [|done].
  unfold effective in Hd1. simpl in Hd1. rewrite Hp, Hdb in Hd1.
  destruct (publish_command broker device _ settings) as [mark sent'] eqn:Hpub.
  unfold others in H. unfold mbind at 1, M_bind at 1, modify at 1 in H. rewrite add_step in H.
  apply bind_run in H as [(u' & s2 & H2 & H)|(e & _ & Hr)]; [|done].
  apply commit_run in H2 as [(d2 & Hd2 & _ & ->)|(e & _ & ? & _)]; [|done].
  unfold effective in Hd2. cbn [pending db set_pending set_committed saved app] in Hd2.
  apply run_writes_cons_ok in Hd2 as (d2' & Hd2 & [= ->]).
  injection H as <- <- <-. exists (clock s (S (ticks s))), d1, d2. split; [exact Hd1|]. done.
Qed.

(** The row and the audit event of the first transaction, and nothing else. *)
Definition issue_audit (device : Device) (actor uuid : string) (request : RelayCommandCreate) (created : Z) (d : DB) :
    AuditEvent :=
  Build_AuditEvent (next_id (audit_events d)) actor "relay_command_issued" "device_command" uuid
    (JObj (("device_id", JStr (d_id device)) :: command_parameters request)) created.
Lemma issue_writes_exact device actor uuid request now created d d' :
  run_writes (issue_writes device actor uuid request now created) d = Ok d' →
  d' = set_audit_events (audit_events d ++ [issue_audit device actor uuid request created d])
         (set_device_commands (device_commands d ++ [new_command now uuid (d_id device) actor request]) d).
Proof.
  unfold issue_writes. rewrite run_writes_cons_ok. intros (d1 & H1 & H2).
  apply run_writes_cons_ok in H2 as (d2 & H2 & [= <-]).
  unfold insert_command in H1. open_write H1. unfold insert_audit in H2. by open_write H2.
Qed.

(** What the [try] block decides. *)
Lemma publish_command_cases broker device x settings mark sent :
  publish_command broker device x settings = (mark, sent) →
  (mark = mark_published ∨ ∃ error, mark = mark_failed error)
  ∧ (x_status (mark x) = "published" ↔ ∃ m, sent = Some m ∧ broker m = None)
  ∧ (∀ m, sent = Some m → n_qos m = 1 ∧ n_retain m = false
       ∧ topic (d_site_id device) (d_id device) COMMANDS = Ok (n_topic m)
       ∧ n_payload m = dumps (command_payload (d_site_id device) (d_id device) x)).
Proof.
  unfold publish_command, sending, mbind, result_bind, mret, result_ret.
  destruct (topic _ _ _) as [t|e]; [|by intros [= <- <-]; naive_solver].
  match goal with |- context [broker ?m] => destruct (broker m) eqn:Hb end; intros [= <- <-]; naive_solver.
Qed.
Lemma mark_fields (mark : DeviceCommand → DeviceCommand) :
  (mark = mark_published ∨ ∃ error, mark = mark_failed error) → ∀ x,
  x_command_id (mark x) = x_command_id x ∧ x_device_id (mark x) = x_device_id x
  ∧ x_issued_by (mark x) = x_issued_by x ∧ x_issued_at (mark x) = x_issued_at x
  ∧ x_expires_at (mark x) = x_expires_at x ∧ (x_status (mark x) = "published" ∨ x_status (mark x) = "failed").
Proof. intros [->|[e ->]] x; simpl; tauto. Qed.

(** C24: issuing a relay command records and audits it before anything is
    sent.  The database that is committed when the message goes to the broker
    ([d1], on which whatever the other processes commit meanwhile is applied)
    is the one before with the new command, queued, and its audit event, and
    nothing else.  The message is sent at most once, to the device's command
    topic, at QoS 1 and not retained, with the command as its payload.  Only
    then is the status written, on that command alone: published exactly when
    the broker took the message, else failed.  The command was new and expires
    at most ten seconds (and at most its timeout) after it was issued. *)
Theorem command_issued uuid broker meanwhile device actor request settings s x sent s' :
  clean s → 1 <= rc_timeout_s request →
  issue_relay_command uuid broker meanwhile device actor request settings s = (Ok (x, sent), s') →
  let queued := new_command (clock s (ticks s)) uuid (d_id device) actor request in
  ∃ created d1,
    get_command uuid (saved s) = None
    ∧ d1 = set_audit_events (audit_events (saved s) ++ [issue_audit device actor uuid request created (saved s)])
             (set_device_commands (device_commands (saved s) ++ [queued]) (saved s))
    ∧ get_command uuid d1 = Some queued
    ∧ (∀ m, sent = Some m → n_qos m = 1 ∧ n_retain m = false
         ∧ topic (d_site_id device) (d_id device) COMMANDS = Ok (n_topic m)
         ∧ n_payload m = dumps (command_payload (d_site_id device) (d_id device) queued))
    ∧ saved s' = set_device_commands (device_commands (saved s')) (meanwhile d1)
    ∧ (∀ id, id ≠ uuid → get_command id (saved s') = get_command id (meanwhile d1))
    ∧ (get_command uuid (meanwhile d1) = Some queued → get_command uuid (saved s') = Some x)
    ∧ (x_status x = "published" ↔ ∃ m, sent = Some m ∧ broker m = None)
    ∧ (x_status x = "published" ∨ x_status x = "failed")
    ∧ x_device_id x = d_id device ∧ x_issued_by x = actor
    ∧ 0 < x_expires_at x - x_issued_at x <= seconds 10
    ∧ x_expires_at x - x_issued_at x <= seconds (rc_timeout_s request).
Proof.
  intros Hs Ht H. apply issue_run in H as (created & d1 & d2 & H1 & Ex & Esent & H2 & -> & _); [|done].
  intros queued. fold queued in Ex, Esent, H2. exists created, d1.
  pose proof (issue_writes_exact _ _ _ _ _ _ _ _ H1) as Ed1.
  apply issue_writes_effect in H1 as (Hnew & Hrow & _ & _).
  destruct (publish_command broker device queued settings) as [mark sent'] eqn:Epub. simpl in *. subst x sent'.
  apply publish_command_cases in Epub as (Hmark & Hst & Hm). pose proof (mark_fields mark Hmark) as Hf.
  split; [done|]. split; [done|]. split; [done|]. split; [done|].
  unfold update_command in H2. open_write H2. unfold get_command in *. cbn [device_commands set_device_commands].
  split; [done|]. split.
  { intros id Hne. apply find_update_where_other; [intros y; by rewrite (proj1 (Hf y))|].
    intros y Hy%String.eqb_eq. apply String.eqb_neq. congruence. }
  split; [intros Hq; apply find_update_where_same; [intros y; by rewrite (proj1 (Hf y))|done]|].
  destruct (Hf queued) as (_ & -> & -> & -> & -> & F6). unfold queued in *. simpl in *. unfold seconds.
  split; [done|]. split; [done|]. split; [done|]. split; [done|]. lia.
Qed.

Definition demo_device : Device := new_device 0 "motor-1" "site-a" "motor-1" "dc-motor" true.
Definition demo_request : RelayCommandCreate := {| rc_relay_on := true; rc_timeout_s := 30 |}.
#[local] Abbreviation demo_issue meanwhile :=
  (issue_relay_command "cmd-1" (λ _, None) meanwhile demo_device "operator" demo_request sample_settings).

Lemma command_issued_witness :
  let s' := after (demo_issue (λ d, d) next_session) in
  ∃ x a, get_command "cmd-1" (saved s') = Some x ∧ x_expires_at x - x_issued_at x <= seconds 10
    ∧ audit_events (saved s') = [a] ∧ e_action a = "relay_command_issued".
Proof.
  cbv zeta. destruct (demo_issue (λ d, d) next_session) as [[[x sent]|e] s'] eqn:E.
  - destruct (command_issued "cmd-1" (λ _, None) (λ d, d) demo_device "operator" demo_request sample_settings
      next_session x sent s' ltac:(done) ltac:(simpl; lia) E)
      as (created & d1 & _ & Hd1 & Hrow & _ & Hs' & _ & Hx & _ & _ & _ & _ & [_ Ht] & _).
    eexists x, _. split; [exact (Hx Hrow)|]. split; [exact Ht|].
    unfold after. cbn [snd]. rewrite Hs', Hd1. split; reflexivity.
  - apply (f_equal (λ p, match p.1 with Ok _ => true | Raise _ => false end)) in E. vm_compute in E. discriminate E.
Defined.

(** ** The acknowledgement may come first *)

(** The device's acknowledgement, stored by the ingestor. *)
Definition ack_committed (e : CommandAckEnvelope) (now : Z) (d : DB) : DB :=
  match update_command (ce_command_id e) (acknowledge now e) d with Ok d' => d' | Raise _ => d end.

(** When the acknowledgement is stored between the publication and the
    second commit, the second commit overwrites the acknowledged status with
    its own: the row ends as published although its result and its
    acknowledgement time are recorded. *)
Theorem acknowledgement_overwritten uuid device actor request settings e ack_time s x sent s' :
  clean s → ce_command_id e = uuid →
  varchar 24 (ce_status e) && varchar 48 (ce_result_code e) && nullable (varchar 240) (ce_detail e) = true →
  forallb command_fits (device_commands (saved s)) = true →
  issue_relay_command uuid (λ _, None) (ack_committed e ack_time) device actor request settings s
    = (Ok (x, sent), s') →
  is_Some sent →
  ∃ row, get_command uuid (saved s') = Some row ∧ x_status row = "published"
    ∧ x_acknowledged_at row = Some ack_time ∧ x_result_code row = Some (ce_result_code e).
Proof.
  intros Hs Hid Hfit Hrows H Hsent.
  apply issue_run in H as (created & d1 & d2 & H1 & -> & Esent & H2 & -> & Hc); [|done].
  pose proof H1 as Hw. apply issue_writes_effect in H1 as (Hnew & Hrow & _).
  set (command := new_command _ _ _ _ _) in *.
  assert (Hfits1 : forallb command_fits (device_commands d1) = true).
  { unfold issue_writes in Hw. apply run_writes_cons_ok in Hw as (da & Ha & Hb).
    apply run_writes_cons_ok in Hb as (db & Hb & [= <-]).
    unfold insert_command in Ha. open_write Ha. unfold insert_audit in Hb. open_write Hb.
    simpl. rewrite forallb_app, Hrows. simpl. by rewrite andb_true_r. }
  assert (Hack : ack_committed e ack_time d1
    = set_device_commands (update_where (λ y, String.eqb (x_command_id y) uuid) (acknowledge ack_time e)
        (device_commands d1)) d1).
  { unfold ack_committed, update_command. rewrite Hid, forallb_update_where; [done| |done].
    intros y. by apply acknowledge_fits. }
  rewrite Hack in H2. subst sent.
  unfold publish_command in *. destruct (sending device command settings) as [m|]; [|by destruct Hsent].
  simpl in *. unfold update_command in H2. open_write H2. unfold get_command in *.
  cbn [device_commands set_device_commands].
  eexists. split; [|split; [|split]].
  - apply find_update_where_same; [done|]. by apply find_update_where_same.
  - done.
  - done.
  - done.
Qed.

Definition demo_ack : CommandAckEnvelope := {|
  ce_schema_version := 1; ce_message_id := "44444444-1111-4111-8111-111111111111";
  ce_command_id := "cmd-1"; ce_site_id := "site-a"; ce_device_id := "motor-1"; ce_device_time := None;
  ce_status := "completed"; ce_result_code := "RELAY_ON"; ce_detail := None; ce_relay_on := true |}.

Lemma acknowledgement_overwritten_witness :
  let s' := after (demo_issue (ack_committed demo_ack 42) next_session) in
  ∃ row, get_command "cmd-1" (saved s') = Some row ∧ x_status row = "published"
    ∧ x_acknowledged_at row = Some 42.
Proof.
  cbv zeta. destruct (demo_issue (ack_committed demo_ack 42) next_session) as [[[x sent]|e] s'] eqn:E.
  - 
    pose proof (acknowledgement_overwritten "cmd-1" demo_device "operator" demo_request sample_settings
      demo_ack 42 next_session x sent s') as H.
    specialize (H ltac:(done) eq_refl ltac:(vm_compute; reflexivity) ltac:(vm_compute; reflexivity) E).
    destruct H as (row & H1 & H2 & H3 & _).
    + destruct sent as [m|]; [by eexists|].
      apply (f_equal (λ p, match p.1 with Ok (_, Some _) => true | _ => false end)) in E. vm_compute in E. discriminate E.
    + exists row. split; [exact H1|]. split; [exact H2|exact H3].
  - apply (f_equal (λ p, match p.1 with Ok _ => true | Raise _ => false end)) in E. vm_compute in E. discriminate E.
Defined.
