(* ===== verification/CommandLoop.v ===== *)
(** A relay command through the three programs that handle it: the API writes
    and publishes it ([Commands]), the gateway judges and acknowledges it
    ([Gateway]), the ingestion worker records the acknowledgement
    ([Ingestor]).  What one program sends is the text the next one reads. *)
From S2P Require Import Prelude PyStr Float64 PyFormat Json JsonParse JsonRoundTrip JsonIndent PyTime Models Tables Session.
From S2P Require Import Topics Schemas Settings Ingestion AlarmFacts Keys Transactions IngestionRuns.
From S2P Require Import IngestionProps HealthAckProps Ingestor IngestorProps Generator Gateway GatewayProps Commands.

(** ** Texts that survive *)

Lemma ascii_char_scalar c : ascii_char c = true → scalar_char (String c "") = true.
Proof. by destruct c as [[] [] [] [] [] [] [] []]. Qed.
Lemma ascii_chars s : ascii_text s = true → chars s = map (λ c, String c "") (String.list_ascii_of_string s).
Proof.
  induction s as [|c s IH]; [done|]. unfold ascii_text in *. simpl. intros [_ Hs]%andb_true_iff. rewrite IH by done.
  destruct s as [|d s]; [done|]. simpl in *. apply andb_true_iff in Hs as [Hd _].
  replace (is_cont d) with false; [done|]. symmetry. apply ascii_char_bounds in Hd. unfold is_cont.
  apply andb_false_iff. rewrite N.leb_gt. lia.
Qed.
Lemma ascii_text_ok s : ascii_text s = true → text_ok s = true.
Proof.
  intros H. unfold text_ok. rewrite ascii_chars by done. apply forallb_elem. intros w (c & -> & Hc)%list_elem_of_fmap.
  apply ascii_char_scalar. by apply (proj1 (forallb_elem _ _) H).
Qed.

Lemma str_of_Z_ascii z : ascii_text (str_of_Z z) = true.
Proof.
  assert (Hp : ∀ p, ascii_text (str_of_Z (Zpos p)) = true).
  { intros p. destruct (digits_of_positive p) as [Hs _]. by eapply span_digits_ascii. }
  destruct z as [|p|p]; [done|done|]. apply ascii_text_cons; [done|]. apply Hp.
Qed.
Lemma padded_ascii n z : ascii_text (padded n z) = true.
Proof.
  unfold padded. pose proof (str_of_Z_ascii z) as H. induction n as [|n IH]; [done|]. simpl.
  destruct (_ <=? _)%nat; [|done]. by apply ascii_text_cons.
Qed.
Lemma iso_z_ascii t : ascii_text (iso_z t) = true.
Proof.
  unfold iso_z, iso_naive. destruct (civil _) as [[y m] d]. rewrite !ascii_text_app, !padded_ascii.
  destruct (_ =? 0); [done|]. by rewrite ascii_text_app, padded_ascii.
Qed.

Lemma command_portable site device x :
  text_ok site = true → text_ok device = true → text_ok (x_command_id x) = true → text_ok (x_issued_by x) = true →
  portable (x_parameters x) = true → portable (command_payload site device x) = true.
Proof.
  intros Hs Hd Hc Hi Hp. cbn [portable command_payload forallb fst snd].
  rewrite Hs, Hd, Hc, Hi, Hp, !(ascii_text_ok (iso_z _)) by (apply iso_z_ascii). reflexivity.
Qed.

Lemma relay_parameters_portable r : relay_errors r = 0%nat → portable (JObj (command_parameters r)) = true.
Proof.
  intros Hr. assert (Ht : 1 <= rc_timeout_s r <= 30).
  { unfold relay_errors, count_errors in Hr. simpl in Hr. destruct (ge _ _ && le _ _) eqn:E; [|done].
    unfold ge, le in E. b2p. lia. }
  unfold command_parameters. destruct (rc_timeout_s r) as [|p|p]; [lia| |lia]. cbn -[String.length str_of_Z].
  rewrite andb_true_r. clear Hr. enum_pos p; done.
Qed.

(** ** The message the API leaves *)

Lemma issue_published uuid device actor request settings s x m s1 :
  clean s → issue_relay_command uuid (λ _, None) (λ d, d) device actor request settings s = (Ok (x, Some m), s1) →
  x = mark_published (new_command (clock s (ticks s)) uuid (d_id device) actor request)
  ∧ n_payload m = dumps (command_payload (d_site_id device) (d_id device) x)
  ∧ get_command uuid (saved s1) = Some x ∧ forallb command_fits (device_commands (saved s1)) = true.
Proof.
  intros Hs H. apply issue_run in H as (created & d1 & d2 & H1 & -> & Em & H2 & -> & Hc); [|done].
  apply issue_writes_effect in H1 as (_ & Hrow & _). set (command := new_command _ _ _ _ _) in *.
  unfold publish_command in *. destruct (sending device command settings) as [m'|] eqn:Es; [|done].
  cbn [fst snd] in *. injection Em as ->. split; [done|].
  unfold sending, mbind, result_bind in Es. destruct (topic _ _ _); [|done]. injection Es as <-. split; [done|].
  unfold update_command in H2. open_write H2. split; [|done].
  unfold get_command in *. by apply find_update_where_same.
Qed.

(** ** Bounds of the event *)

Lemma escape_char_short c : scalar_char c = true → (String.length (escape_char c) <= 12)%nat.
Proof.
  unfold scalar_char, escape_char. set (n := code_point c). clearbody n.
  rewrite !andb_true_iff, N.ltb_lt, String.eqb_eq. intros [[Hn _] <-]. destruct (N.lt_ge_cases n 128) as [Hlt|Hge].
  - enum_N n; vm_compute; lia.
  - rewrite !(proj2 (N.eqb_neq n _)) by lia. rewrite (proj2 (N.ltb_ge n 127)), andb_false_r by lia.
    assert (Hu : ∀ k, String.length (u_escape k) = 6%nat) by reflexivity.
    destruct (n <? 65536)%N; [|rewrite length_app_str]; rewrite !Hu; lia.
Qed.
Lemma quoted_short s : text_ok s = true → (String.length (quoted s) <= 12 * py_len s + 2)%nat.
Proof.
  unfold text_ok, quoted, py_len. rewrite !length_app_str. simpl.
  induction (chars s) as [|c l IH]; simpl; [lia|]. intros [Hc Hl]%andb_true_iff.
  change (?a ++ ?b)%string with (a +:+ b). rewrite length_app_str. apply escape_char_short in Hc. apply IH in Hl. lia.
Qed.

(** ** The gateway's answer *)

Section Loop.
Context (relay_model_validate : json → result RelayCommandCreate).
Context (fromisoformat : string → result datetime) (str_container : json → string).
Context (wide : string → option string).
Context (model_validate : json → result TelemetryEnvelope) (health_validate_json : string → result HealthEnvelope).
Context (ack_validate_json : string → result CommandAckEnvelope) (iso : datetime → string).
(** The validation of the parsed acknowledgement. *)
Context (ack_validate_fields : json → result CommandAckEnvelope).

(** A command that arrives at [arrival]: too late, or carried out. *)
Definition late (x : DeviceCommand) (arrival : Z) : bool := x_expires_at x <=? arrival.
Definition ack_status (x : DeviceCommand) (arrival : Z) : string :=
  if late x arrival then "expired" else "completed".
Definition ack_code (x : DeviceCommand) (arrival : Z) (request : RelayCommandCreate) : string :=
  if late x arrival then "COMMAND_EXPIRED" else if rc_relay_on request then "RELAY_ON" else "RELAY_OFF".
Definition obeyed (x : DeviceCommand) (arrival : Z) (mono : float) (request : RelayCommandCreate) (g : Gateway) : Gateway :=
  if late x arrival then g else set_relay (rc_relay_on request) (relay_deadline mono request) g.

Lemma gateway_answers x request arrival ack_now mono mid g :
  portable (command_payload SITE_ID DEVICE_ID x) = true →
  fromisoformat (replace_z (iso_z (x_expires_at x))) = Ok (utc (x_expires_at x)) →
  relay_model_validate (x_parameters x) = Ok request →
  on_message relay_model_validate fromisoformat str_container wide arrival ack_now mono mid
    (dumps (command_payload SITE_ID DEVICE_ID x)) g
  = Ok (publish_ack ack_now mid (x_command_id x) (ack_status x arrival) (ack_code x arrival request)
          (obeyed x arrival mono request g)).
Proof.
  intros Hp Hiso Hmv. unfold on_message. rewrite loads_dumps by done.
  assert (Hj : judge relay_model_validate fromisoformat str_container arrival (command_payload SITE_ID DEVICE_ID x)
    = Ok (if late x arrival then Refuse "expired" "COMMAND_EXPIRED" else Execute request)).
  { unfold judge. change (_ || _) with false. cbv iota.
    change (subscript "expires_at" _) with (Ok (JStr (iso_z (x_expires_at x)))).
    change (subscript "parameters" _) with (Ok (x_parameters x)).
    change (differs "kind" _ _) with false. unfold mbind, result_bind, py_str. rewrite Hiso, dt_leb_utc, Hmv.
    unfold late. by destruct (_ <=? _). }
  rewrite Hj. change (subscript "command_id" _) with (Ok (JStr (x_command_id x))).
  unfold mbind, result_bind, py_str, obeyed, ack_status, ack_code. by destruct (late x arrival).
Qed.

(** ** The recorded acknowledgement *)

(** What the validated acknowledgement says. *)
Definition ack_envelope (now : Z) (mid id status code : string) (relay : bool) : CommandAckEnvelope := {|
  ce_schema_version := 1; ce_message_id := mid; ce_command_id := id; ce_site_id := SITE_ID;
  ce_device_id := DEVICE_ID; ce_device_time := Some (utc now); ce_status := status;
  ce_result_code := code; ce_detail := None; ce_relay_on := relay |}.

Lemma ack_writes_succeed e x now created d :
  get_command (ce_command_id e) d = Some x → forallb command_fits (device_commands d) = true →
  varchar 24 (ce_status e) && varchar 48 (ce_result_code e) && nullable (varchar 240) (ce_detail e) = true →
  varchar 80 (ce_device_id e) = true →
  ∃ d', run_writes (ack_writes e x now created) d = Ok d'.
Proof.
  intros Hx Hfit Hs Hd. pose proof (List.find_some _ _ Hx) as [Hin _].
  assert (Hxf : command_fits x = true) by (apply (proj1 (forallb_elem _ _) Hfit); by apply list_elem_of_In).
  unfold ack_writes. cbn [run_writes]. unfold update_command at 1.
  rewrite forallb_update_where; [|intros y; by apply acknowledge_fits|done].
  unfold guard_data, mbind, result_bind. unfold insert_audit, guard_data, audit_fits. simpl.
  rewrite Hd. unfold command_fits in Hxf. b2p.
  replace (varchar 80 (x_command_id x)) with true; [by eexists|]. symmetry.
  match goal with H : varchar 36 _ = true |- _ => revert H end. apply varchar_le. lia.
Qed.

Lemma ack_persisted e x s :
  clean s → get_command (ce_command_id e) (saved s) = Some x → x_device_id x = ce_device_id e →
  x_acknowledged_at x = None → forallb command_fits (device_commands (saved s)) = true →
  varchar 24 (ce_status e) && varchar 48 (ce_result_code e) && nullable (varchar 240) (ce_detail e) = true →
  varchar 80 (ce_device_id e) = true → event_fits (ack_event e (x_command_id x)) = true →
  ∃ s', persist_command_ack e s = (Ok {| status := inserted; message_id := ce_message_id e |}, s') ∧ clean s'
    ∧ get_command (ce_command_id e) (saved s') = Some (acknowledge (clock s (ticks s)) e x).
Proof.
  intros Hs Hx Hdev Hack Hfit Hst Hd Hev. pose proof Hs as (Hdb & _). rewrite <- Hdb in *.
  destruct (persist_command_ack e s) as [r s'] eqn:E. pose proof (ack_run _ _ _ _ Hs E) as Hr.
  assert (Hw : ∀ now created, ∃ d', run_writes (ack_writes e x now created) (db s) = Ok d')
    by (intros; by apply ack_writes_succeed).
  inversion Hr as [Hn|y Hy Hne|y Hy Hyd [[t Ht] _]|y s2 Hy _ _ Hf|y err s2 now created Hy _ Hw2
                  |y d' s2 created Hy _ _ Hw2 Hd2 Hc Hpub]; subst; [congruence|..];
    rewrite Hx in Hy; injection Hy as <-; [congruence..|destruct (Hw now created); congruence|].
  - exists s'. split; [done|]. split; [done|].
    apply (ack_recorded_command _ _ _ _ _ _ Hx) in Hw2 as [Hg _]. destruct Hc as (<- & _). exact Hg.
Qed.

Lemma ack_event_fits now mid id status code relay :
  text_ok id = true → (py_len id <= 36)%nat → (status, code) ∈ [("expired", "COMMAND_EXPIRED"); ("completed", "RELAY_ON"); ("completed", "RELAY_OFF")] →
  event_fits (ack_event (ack_envelope now mid id status code relay) id) = true.
Proof.
  intros Hid Hlen Hsc. pose proof (quoted_short id Hid). unfold event_fits. apply Z.leb_le.
  change (dumps (ack_event ?e id)) with ("{" +:+ join "," (map member_text (("type", JStr "command_ack")
    :: ("device_id", JStr (ce_device_id e)) :: ("command_id", JStr id) :: ack_details e)) +:+ "}").
  cbn [map join ack_details ack_envelope ce_status ce_result_code ce_relay_on ce_device_id]. unfold member_text.
  cbn [fst snd dumps].
  rewrite !elem_of_cons, elem_of_nil in Hsc. rewrite !length_app_str.
  destruct Hsc as [[= -> ->]|[[= -> ->]|[[= -> ->]|[]]]]; destruct relay;
    repeat match goal with |- context [String.length ?s] =>
      lazymatch s with context [id] => fail | _ => let n := eval vm_compute in (String.length s) in change (String.length s) with n end
    end; lia.
Qed.

(** The gateway's topic of acknowledgements. *)
Definition ack_topic : string :=
  TOPIC_ROOT +:+ "/" +:+ TOPIC_VERSION +:+ "/" +:+ SITE_ID +:+ "/" +:+ DEVICE_ID +:+ "/" +:+ kind_value COMMAND_ACKS.
Lemma parse_ack_topic :
  parse_topic ack_topic = Ok {| pt_site_id := SITE_ID; pt_device_id := DEVICE_ID; pt_kind := COMMAND_ACKS |}.
Proof. reflexivity. Qed.

Lemma ack_decoded text e :
  too_large text = false → ack_validate_json text = Ok e → ce_site_id e = SITE_ID → ce_device_id e = DEVICE_ID →
  decode_command_ack ack_validate_json ack_topic text = Ok e.
Proof.
  intros Hsmall Hval Hs Hd. unfold decode_command_ack. rewrite parse_ack_topic. unfold mbind, result_bind, pt_kind.
  rewrite bool_decide_eq_true_2 by done. cbn [negb]. by rewrite Hsmall, Hval, Hs, Hd.
Qed.

(** An acknowledgement that is persisted is what handling its message does. *)
Lemma ack_handled text e s s' :
  too_large text = false → ack_validate_json text = Ok e → ce_site_id e = SITE_ID → ce_device_id e = DEVICE_ID →
  persist_command_ack e s = (Ok {| status := inserted; message_id := ce_message_id e |}, s') → clean s' →
  handle_message wide model_validate health_validate_json ack_validate_json iso ack_topic text s
  = (Ok (Persisted inserted), s').
Proof.
  intros Hsmall Hval Hs Hd Hrun Hc. unfold handle_message, try_except. rewrite lift_step, parse_ack_topic.
  assert (Hp : persist_message wide model_validate health_validate_json ack_validate_json iso COMMAND_ACKS ack_topic text s
    = (Ok {| status := inserted; message_id := ce_message_id e |}, s')).
  { unfold persist_message. rewrite lift_step, (ack_decoded text e) by done. exact Hrun. }
  cbn [pt_kind]. unfold mbind at 1, M_bind at 1. rewrite (closing_saved _ _ _ _ Hp). by rewrite (rolled_back_clean _ Hc).
Qed.

Lemma ack_portable now mid id status code relay :
  text_ok mid = true → text_ok id = true →
  (status, code) ∈ [("expired", "COMMAND_EXPIRED"); ("completed", "RELAY_ON"); ("completed", "RELAY_OFF")] →
  portable (JObj (ack_body now mid id status code relay)) = true.
Proof.
  intros Hm Hi Hsc. assert (Ht : text_ok (iso_z now) = true) by apply ascii_text_ok, iso_z_ascii.
  rewrite !elem_of_cons, elem_of_nil in Hsc. destruct Hsc as [[= -> ->]|[[= -> ->]|[[= -> ->]|[]]]];
    cbn [portable ack_body forallb fst snd]; rewrite Hm, Hi, Ht; reflexivity.
Qed.

(** C9: a relay command travels the whole way round.  What the API publishes
    the gateway parses back to the same command; it obeys it before its expiry
    (relay as asked, with its deadline) and leaves the relay alone after; either
    way it publishes one acknowledgement, whose text reads back to its fields,
    and which the ingestion worker accepts, so that the command's row ends
    [completed] with the relay's state or [expired], at the time the worker
    read.  Other rows may change while the messages travel, but the command's
    own row is as the API left it when the acknowledgement is stored: if it is
    stored before the API's second commit, see [acknowledgement_overwritten]. *)
Theorem command_loop uuid device actor request settings s x m s1 arrival ack_now mono mid g :
  clean s → d_site_id device = SITE_ID → d_id device = DEVICE_ID → relay_errors request = 0%nat →
  text_ok uuid = true → text_ok actor = true → text_ok mid = true →
  issue_relay_command uuid (λ _, None) (λ d, d) device actor request settings s = (Ok (x, Some m), s1) →
  fromisoformat (replace_z (iso_z (x_expires_at x))) = Ok (utc (x_expires_at x)) →
  relay_model_validate (JObj (command_parameters request)) = Ok request →
  (∀ text j, loads wide text = inr j → portable j = true → ack_validate_json text = ack_validate_fields j) →
  let on := if late x arrival then relay_on g else rc_relay_on request in
  let answer := ack_body ack_now mid uuid (ack_status x arrival) (ack_code x arrival request) on in
  let p := {| p_topic := ack_topic; p_body := answer; p_qos := 1; p_retain := false |} in
  (∃ g', on_message relay_model_validate fromisoformat str_container wide arrival ack_now mono mid (n_payload m) g = Ok g'
    ∧ Gateway.published g' = Gateway.published g ++ [p]
    ∧ relay_on g' = on
    ∧ relay_off_deadline g' = (if late x arrival then relay_off_deadline g else relay_deadline mono request))
  ∧ loads wide (p_text p) = inr (JObj answer)
  ∧ ∀ s2, clean s2 → get_command uuid (saved s2) = Some x → forallb command_fits (device_commands (saved s2)) = true →
      too_large (p_text p) = false →
      ack_validate_fields (JObj answer)
        = Ok (ack_envelope ack_now mid uuid (ack_status x arrival) (ack_code x arrival request) on) →
      ∃ s3 row,
        handle_message wide model_validate health_validate_json ack_validate_json iso (p_topic p) (p_text p) s2
        = (Ok (Persisted inserted), s3)
        ∧ clean s3 ∧ get_command uuid (saved s3) = Some row
        ∧ x_status row = ack_status x arrival ∧ x_result_code row = Some (ack_code x arrival request)
        ∧ x_acknowledged_at row = Some (clock s2 (ticks s2)).
Proof.
  intros Hs Hsite Hdev Hreq Hu Ha Hm H Hiso Hmv Hjson on answer p.
  apply issue_published in H as (Ex & Em & Hrow & Hfit); [|done]. rewrite Hsite, Hdev in Em.
  assert (Hpar : x_parameters x = JObj (command_parameters request)) by (by rewrite Ex).
  assert (Hid : x_command_id x = uuid) by (by rewrite Ex).
  assert (Hport : portable (command_payload SITE_ID DEVICE_ID x) = true).
  { apply command_portable; try done; [by rewrite Hid|by rewrite Ex|]. rewrite Hpar. by apply relay_parameters_portable. }
  assert (Hcode : (ack_status x arrival, ack_code x arrival request)
    ∈ [("expired", "COMMAND_EXPIRED"); ("completed", "RELAY_ON"); ("completed", "RELAY_OFF")]).
  { unfold ack_status, ack_code. rewrite !elem_of_cons. destruct (late x arrival), (rc_relay_on request); tauto. }
  assert (Hap : portable (JObj answer) = true) by (by apply ack_portable).
  assert (Hload : loads wide (p_text p) = inr (JObj answer)) by (by apply loads_spaced).
  split; [|split; [done|]].
  { rewrite Em, (gateway_answers x request) by (done || by rewrite Hpar). rewrite Hid. eexists. split; [reflexivity|].
    subst p answer on. unfold publish_ack, publish_to, obeyed. by destruct (late x arrival). }
  intros s2 Hs2 Hrow2 Hfit2 Hsmall Hval. rewrite <- (Hjson _ _ Hload Hap) in Hval.
  set (e := ack_envelope _ _ _ _ _ _) in Hval.
  pose proof (List.find_some _ _ Hrow) as [Hin _].
  pose proof (proj1 (forallb_elem _ _) Hfit x (proj2 (list_elem_of_In _ _) Hin)) as Hxf.
  assert (Hlen : (py_len uuid <= 36)%nat).
  { unfold command_fits in Hxf. b2p. rewrite <- Hid. by eapply varchar_iff. }
  destruct (ack_persisted e x s2) as (s3 & Hrun & Hc & Hg); try done.
  - by rewrite Ex.
  - by rewrite Ex.
  - clear - Hcode. subst e. simpl. rewrite !elem_of_cons, elem_of_nil in Hcode.
    destruct Hcode as [[= -> ->]|[[= -> ->]|[[= -> ->]|[]]]]; done.
  - rewrite Hid. by apply ack_event_fits.
  - exists s3, (acknowledge (clock s2 (ticks s2)) e x). split; [by eapply ack_handled|done].
Qed.
End Loop.

(** ** A concrete round *)

Definition loop_device : Device := new_device 0 DEVICE_ID SITE_ID "Workshop motor" "dc-motor" true.
Definition loop_session : Session := open_session (set_devices [loop_device] empty_db) [] true (λ _, 9) 0.
Definition loop_fromiso (text : string) : result datetime :=
  if String.eqb text "1970-01-01T00:00:10.000009+00:00" then Ok (utc 10000009)
  else Raise (ValueError "Invalid isoformat string").
Definition ack_fields (arrival : Z) (j : json) : result CommandAckEnvelope :=
  match j with
  | JObj fields =>
      match jget "message_id" fields, jget "command_id" fields, jget "status" fields,
            jget "result_code" fields, jget "relay_on" fields with
      | Some (JStr mid), Some (JStr id), Some (JStr status), Some (JStr code), Some (JBool relay) =>
          ack_validate (ack_envelope arrival mid id status code relay)
      | _, _, _, _, _ => Raise (ValidationError 5)
      end
  | _ => Raise (ValidationError 1)
  end.
Definition ack_model (arrival : Z) (text : string) : result CommandAckEnvelope :=
  match loads (λ _, None) text with inr j => ack_fields arrival j | inl _ => Raise (ValidationError 1) end.
#[local] Abbreviation loop_issue :=
  (issue_relay_command "cmd-1" (λ _, None) (λ d, d) loop_device "opérateur" demo_request sample_settings loop_session).

Lemma command_loop_witness :
  ∃ text s3 row,
    handle_message (λ _, None) (λ _, Raise TypeError) (λ _, Raise TypeError) (ack_model 12) (λ _, "") ack_topic text
      (after loop_issue) = (Ok (Persisted inserted), s3)
    ∧ get_command "cmd-1" (saved s3) = Some row ∧ x_status row = "completed" ∧ x_result_code row = Some "RELAY_ON".
Proof.
  destruct loop_issue as [[[x [m|]]|e] s1] eqn:E.
  2-3: apply (f_equal (λ p, match p.1 with Ok (_, Some _) => true | _ => false end)) in E; vm_compute in E; discriminate E.
  assert (Ex : x = mark_published (new_command 9 "cmd-1" DEVICE_ID "opérateur" demo_request)).
  { apply (f_equal (λ p, match p.1 with Ok (x, _) => x | _ => x end)) in E. simpl in E. rewrite <- E. vm_compute. reflexivity. }
  destruct (command_loop sample_relay_model loop_fromiso (λ _, "") (λ _, None) (λ _, Raise TypeError)
    (λ _, Raise TypeError) (ack_model 12) (λ _, "") (ack_fields 12) "cmd-1" loop_device "opérateur" demo_request sample_settings
    loop_session x m s1 11 12 (of_int 1) "ack-1" (new_gateway (of_int 0) 0)) as (_ & _ & Hack);
    try done; try (rewrite Ex; reflexivity).
  { intros text j Hj _. unfold ack_model. by rewrite Hj. }
  rewrite Ex in Hack. destruct (Hack (after loop_issue)) as (s3 & row & Hr & _ & Hrow & Hst & Hcode & _).
  - vm_compute. done.
  - vm_compute. reflexivity.
  - vm_compute. reflexivity.
  - vm_compute. reflexivity.
  - vm_compute. reflexivity.
  - rewrite <- E. eexists _, s3, row. split; [exact Hr|]. split; [exact Hrow|]. split; [exact Hst|exact Hcode].
Defined.
