(* ===== verification/ApiViews.v ===== *)
(** The read side of [services/api/app/main.py]: statuses, views, query
    ranges and the CSV export. *)
From S2P Require Import Prelude PyStr Float64 PyFormat Json PyTime Models Tables Session Schemas.
From S2P Require Import Settings Gateway Csv.

(** ** Devices *)

Definition device_status (d : Device) (s : Settings) (reference : Z) : string :=
  match d_last_seen_at d with
  | None => "offline"
  | Some last_seen =>
      if seconds (offline_after_s s) <? reference - last_seen then "offline"
      else if negb (String.eqb (d_reported_status d) "online") || negb (Nat.eqb (length (d_active_faults d)) 0)
      then "degraded"
      else "online"
  end.

Record DeviceView := {
  dv_id : string; dv_site_id : string; dv_display_name : string; dv_asset_class : string;
  dv_simulated : bool; dv_firmware_version : option string; dv_status : string;
  dv_last_seen_at : option Z; dv_rssi_dbm : option Z; dv_reset_reason : option string;
  dv_reset_count : Z; dv_queue_depth : Z; dv_queue_capacity : Z; dv_dropped_message_count : Z;
  dv_modbus_status : string; dv_active_faults : list string }.
Definition to_device_view (d : Device) (s : Settings) (now : Z) : DeviceView := {|
  dv_id := d_id d; dv_site_id := d_site_id d; dv_display_name := d_display_name d;
  dv_asset_class := d_asset_class d; dv_simulated := d_simulated d;
  dv_firmware_version := d_firmware_version d; dv_status := device_status d s now;
  dv_last_seen_at := d_last_seen_at d; dv_rssi_dbm := d_rssi_dbm d;
  dv_reset_reason := d_reset_reason d; dv_reset_count := d_reset_count d;
  dv_queue_depth := d_queue_depth d; dv_queue_capacity := d_queue_capacity d;
  dv_dropped_message_count := d_dropped_message_count d; dv_modbus_status := d_modbus_status d;
  dv_active_faults := d_active_faults d |}.

(** ** Telemetry *)

Record TelemetryView := {
  tv_message_id : string; tv_sequence : Z; tv_device_time : option datetime; tv_received_at : Z;
  tv_quality : string; tv_replayed : bool; tv_temperature_c : option float;
  tv_vibration_rms_mps2 : option float; tv_vibration_peak_mps2 : option float;
  tv_vibration_crest_factor : option float; tv_current_a : option float;
  tv_fault_flags : list string; tv_anomaly_score : option float;
  tv_anomaly_percentile : option float; tv_anomaly_reason : option string }.
Definition to_telemetry_view (t : Telemetry) : TelemetryView := {|
  tv_message_id := t_message_id t; tv_sequence := t_sequence t; tv_device_time := t_device_time t;
  tv_received_at := t_received_at t; tv_quality := t_quality t; tv_replayed := t_replayed t;
  tv_temperature_c := t_temperature_c t; tv_vibration_rms_mps2 := t_vibration_rms_mps2 t;
  tv_vibration_peak_mps2 := t_vibration_peak_mps2 t;
  tv_vibration_crest_factor := t_vibration_crest_factor t; tv_current_a := t_current_a t;
  tv_fault_flags := t_fault_flags t; tv_anomaly_score := t_anomaly_score t;
  tv_anomaly_percentile := t_anomaly_percentile t; tv_anomaly_reason := t_anomaly_reason t |}.
Record TelemetryPage := { items : list TelemetryView; count : Z; limit : Z }.

(** ** Anomaly model *)

Record AnomalyModelView := {
  mv_device_id : string; mv_status : string; mv_ready : bool; mv_diagnostic : string;
  mv_model_version : option string; mv_feature_schema_version : option Z;
  mv_feature_names : list string; mv_training_start : option datetime;
  mv_training_end : option datetime; mv_training_sample_count : Z;
  mv_validation_sample_count : Z; mv_contamination : option float; mv_random_seed : option Z;
  mv_sklearn_version : option string; mv_created_at : option datetime;
  mv_last_scored_at : option Z; mv_score_interpretation : string;
  mv_field_performance_claimed : bool }.
Definition score_interpretation : string :=
  "higher is more anomalous; percentile is empirical, not probability".

(** [int(version) if isinstance(version, int) else None]: a bool is an int. *)
Definition version_of (j : option json) : option Z :=
  match j with
  | Some (JInt z) => Some z
  | Some (JBool b) => Some (if b then 1 else 0)
  | _ => None
  end.
Definition names_of (str_container : json → string) (j : option json) : list string :=
  match j with Some (JArr l) => map (py_str str_container) l | _ => [] end.

Definition model_status (m : AnomalyModel) (s : Settings) (now : Z) : result string :=
  age ← dt_sub (utc now) (match offset (m_created_at m) with
                          | None => replace_utc (m_created_at m)
                          | Some _ => m_created_at m end);
  mret (if String.eqb (m_status m) "error" then "error"
        else if String.eqb (m_status m) "stale" || (days (model_stale_after_days s) <? age) then "stale"
        else "ready").
Definition default_diagnostic (status : string) : string :=
  if String.eqb status "ready" then "model artifact passed registry checks and is available for scoring"
  else if String.eqb status "stale" then "MODEL_STALE: retrain from a reviewed healthy baseline window"
  else "MODEL_ERROR: deterministic rules remain active".

Definition to_anomaly_model_view (str_container : json → string) (model : option AnomalyModel)
    (device_id : string) (s : Settings) (now : Z) : result AnomalyModelView :=
  match model with
  | None => Ok {|
      mv_device_id := device_id; mv_status := "model_not_ready"; mv_ready := false;
      mv_diagnostic := "MODEL_NOT_READY: train from an explicitly selected healthy window";
      mv_model_version := None; mv_feature_schema_version := None; mv_feature_names := [];
      mv_training_start := None; mv_training_end := None; mv_training_sample_count := 0;
      mv_validation_sample_count := 0; mv_contamination := None; mv_random_seed := None;
      mv_sklearn_version := None; mv_created_at := None; mv_last_scored_at := None;
      mv_score_interpretation := score_interpretation; mv_field_performance_claimed := false |}
  | Some m =>
      status ← model_status m s now;
      let field key := match m_feature_schema m with JObj fs => jget key fs | _ => None end in
      mret {|
        mv_device_id := device_id; mv_status := status; mv_ready := String.eqb status "ready";
        mv_diagnostic := match m_diagnostic m with
                         | Some d => if String.eqb d "" then default_diagnostic status else d
                         | None => default_diagnostic status end;
        mv_model_version := Some (m_model_version m);
        mv_feature_schema_version := version_of (field "version");
        mv_feature_names := names_of str_container (field "names");
        mv_training_start := Some (m_training_start m); mv_training_end := Some (m_training_end m);
        mv_training_sample_count := m_training_sample_count m;
        mv_validation_sample_count := m_validation_sample_count m;
        mv_contamination := Some (m_contamination m); mv_random_seed := Some (m_random_seed m);
        mv_sklearn_version := Some (m_sklearn_version m); mv_created_at := Some (m_created_at m);
        mv_last_scored_at := m_last_scored_at m;
        mv_score_interpretation := score_interpretation; mv_field_performance_claimed := false |}
  end.

(** ** Views with the columns of their row *)

Record AlarmView := {
  av_id : Z; av_device_id : string; av_code : string; av_severity : string; av_source : string;
  av_state : string; av_summary : string; av_opened_at : Z; av_cleared_at : option Z;
  av_acknowledged_at : option Z; av_acknowledged_by : option string }.
Definition to_alarm_view (a : Alarm) : AlarmView :=
  Build_AlarmView (a_id a) (a_device_id a) (a_code a) (a_severity a) (a_source a) (a_state a)
    (a_summary a) (a_opened_at a) (a_cleared_at a) (a_acknowledged_at a) (a_acknowledged_by a).

Record CalibrationView := {
  kv_id : Z; kv_device_id : string; kv_sensor : string;
  kv_previous_coefficients : list (string * float); kv_new_coefficients : list (string * float);
  kv_reason : string; kv_operator : string; kv_performed_at : Z }.
Definition to_calibration_view (k : Calibration) : CalibrationView :=
  Build_CalibrationView (k_id k) (k_device_id k) (k_sensor k) (k_previous_coefficients k)
    (k_new_coefficients k) (k_reason k) (k_operator k) (k_performed_at k).

Record MaintenanceView := {
  rv_id : Z; rv_device_id : string; rv_status : string; rv_notes : string;
  rv_performed_at : datetime; rv_next_due_at : option datetime; rv_created_by : string;
  rv_updated_at : Z }.
Definition to_maintenance_view (r : MaintenanceRecord) : MaintenanceView :=
  Build_MaintenanceView (r_id r) (r_device_id r) (r_status r) (r_notes r) (r_performed_at r)
    (r_next_due_at r) (r_created_by r) (r_updated_at r).

Record CommandView := {
  xv_command_id : string; xv_device_id : string; xv_kind : string; xv_parameters : json;
  xv_status : string; xv_result_code : option string; xv_detail : option string;
  xv_issued_by : string; xv_issued_at : Z; xv_expires_at : Z; xv_acknowledged_at : option Z }.
Definition to_command_view (x : DeviceCommand) : CommandView :=
  Build_CommandView (x_command_id x) (x_device_id x) (x_kind x) (x_parameters x) (x_status x)
    (x_result_code x) (x_detail x) (x_issued_by x) (x_issued_at x) (x_expires_at x)
    (x_acknowledged_at x).

Record ThresholdConfigView := {
  cv_thresholds : ThresholdConfigUpdate; cv_device_id : string; cv_updated_by : string;
  cv_updated_at : Z }.
Definition to_threshold_view (c : ThresholdConfig) : ThresholdConfigView := {|
  cv_thresholds := {|
    tu_temperature_warning_c := c_temperature_warning_c c;
    tu_temperature_critical_c := c_temperature_critical_c c;
    tu_vibration_warning_mps2 := c_vibration_warning_mps2 c;
    tu_vibration_critical_mps2 := c_vibration_critical_mps2 c;
    tu_current_warning_a := c_current_warning_a c; tu_current_critical_a := c_current_critical_a c;
    tu_hysteresis_percent := c_hysteresis_percent c |};
  cv_device_id := c_device_id c; cv_updated_by := c_updated_by c; cv_updated_at := c_updated_at c |}.

(** ** The checks of the response models

    pydantic validates a view when it is built: these are its constraints
    beyond the types of the columns ([IngestResult] and the other views have
    none). *)
Definition device_view_errors (v : DeviceView) : nat :=
  count_errors [literal ["online"; "degraded"; "offline"] (dv_status v)].
Definition anomaly_view_errors (v : AnomalyModelView) : nat :=
  count_errors [literal ["model_not_ready"; "ready"; "stale"; "error"] (mv_status v);
                negb (mv_field_performance_claimed v)].
Definition alarm_view_errors (v : AlarmView) : nat :=
  count_errors [literal ["warning"; "critical"] (av_severity v); literal ["active"; "cleared"] (av_state v)].
Definition threshold_view_validate (v : ThresholdConfigView) : result ThresholdConfigView :=
  thresholds ← threshold_validate (cv_thresholds v);
  mret {| cv_thresholds := thresholds; cv_device_id := cv_device_id v; cv_updated_by := cv_updated_by v;
          cv_updated_at := cv_updated_at v |}.

(** ** Query ranges *)

Definition bounded_range (start stop : option datetime) (s : Settings) (now : Z) : result (datetime * datetime) :=
  let range_end := match stop with Some e => e | None => utc now end in
  range_start ← match start with Some b => Ok b | None => dt_add range_end (- hours 24) end;
  empty ← dt_leb range_end range_start;
  if empty : bool then Raise (HTTPException 422 "end must be after start")
  else
    width ← dt_sub range_end range_start;
    if days (max_query_days s) <? width
    then Raise (HTTPException 422 "requested time range is too large")
    else mret (range_start, range_end).

Definition in_window (device_id : string) (range : datetime * datetime) (t : Telemetry) : bool :=
  String.eqb (t_device_id t) device_id && (db_instant range.1 <=? t_received_at t)
  && (t_received_at t <=? db_instant range.2).

(** ** CSV *)

Definition formula_heads : list ascii := map ascii_of_N [61; 43; 45; 64; 9; 13]%N.
Definition starts_formula (s : string) : bool :=
  match s with String c _ => existsb (Ascii.eqb c) formula_heads | EmptyString => false end.
Definition safe_csv_text (value : string) : string :=
  if starts_formula value then "'" +:+ value else value.

Definition metric_value (metric : string) (t : Telemetry) : option float :=
  if String.eqb metric "temperature_c" then t_temperature_c t
  else if String.eqb metric "vibration_rms_mps2" then t_vibration_rms_mps2 t
  else if String.eqb metric "vibration_peak_mps2" then t_vibration_peak_mps2 t
  else t_current_a t.
Definition float_cell (v : option float) : string := match v with Some x => py_repr x | None => "" end.

Definition csv_header : list string :=
  ["device_id"; "received_at_utc"; "metric"; "value"; "quality"; "fault_flags"].
Definition csv_cells (metric : string) (t : Telemetry) : list string := [
  safe_csv_text (t_device_id t); iso_naive (t_received_at t) +:+ "+00:00"; metric;
  float_cell (metric_value metric t); safe_csv_text (t_quality t);
  safe_csv_text (join "|" (t_fault_flags t)) ].
Definition csv_stream (metric : string) (rows : list Telemetry) : list string :=
  csv_row csv_header :: map (λ t, csv_row (csv_cells metric t)) rows.
