(* ===== verification/Api.v ===== *)
(** The endpoints of [create_app] in [services/api/app/main.py] and [seed] of
    [services/api/app/seed.py], as blocks on the request's session.

    The authenticated [user] is an argument (see [get_current_user] in
    [Settings.v]); path, query and body values are already validated by their
    declared types.  [services/api/app/main.py]'s [get_device] and
    [list_...] keep their names with the suffix [_endpoint] where a lookup of
    [Tables.v] has it. *)
From S2P Require Import Prelude PyStr Float64 PyFormat Json JsonParse PyTime Models Tables.
From S2P Require Import Session Topics Schemas Settings Ingestion Gateway Commands ApiViews.

Definition not_found (what : string) : exn := HTTPException 404 (what +:+ " not found").

(** [if db.get(Device, device_id) is None: raise HTTPException(404)] *)
Definition require_device (device_id : string) : DBM Device :=
  found ← query (get_device device_id);
  match found with
  | Some d => mret d
  | None => raise (not_found "Device")
  end.

(** [GET /healthz] *)
Definition healthz : json := JObj [("status", JStr "ok"); ("service", JStr "api")].

Section Api.
Context (s : Settings) (str_container : json → string).

(** ** Reading *)

Definition list_devices (site_id : option string) : DBM (list DeviceView) :=
  rows ← query devices;
  let chosen := match site_id with
                | Some site => if String.eqb site "" then rows
                               else List.filter (λ d, String.eqb (d_site_id d) site) rows
                | None => rows end in
  now ← utc_now;
  mret (map (λ d, to_device_view d s now) (order_by (λ a b, String.ltb (d_id a) (d_id b)) chosen)).

Definition get_device_endpoint (device_id : string) : DBM DeviceView :=
  device ← require_device device_id;
  now ← utc_now;
  mret (to_device_view device s now).

Definition list_telemetry (device_id : string) (start stop : option datetime) (lim : Z) : DBM TelemetryPage :=
  now ← utc_now;
  range ← lift (bounded_range start stop s now);
  rows ← query telemetry;
  let found := take (Z.to_nat lim)
    (order_by (λ a b, t_received_at b <? t_received_at a) (List.filter (in_window device_id range) rows)) in
  let views := map to_telemetry_view found in
  mret {| items := views; count := Z.of_nat (length views); limit := lim |}.

Definition newer_model (a b : AnomalyModel) : bool :=
  (db_instant (m_created_at b) <? db_instant (m_created_at a))
  || ((db_instant (m_created_at b) =? db_instant (m_created_at a)) && (m_id b <? m_id a)).
Definition latest_model (device_id : string) (d : DB) : option AnomalyModel :=
  head (order_by newer_model (List.filter (λ m, String.eqb (m_device_id m) device_id) (anomaly_models d))).
Definition get_anomaly_model (device_id : string) : DBM AnomalyModelView :=
  require_device device_id;;
  model ← query (latest_model device_id);
  now ← utc_now;
  lift (to_anomaly_model_view str_container model device_id s now).

Definition list_alarms (device_id alarm_state : option string) (lim : Z) : DBM (list AlarmView) :=
  rows ← query alarms;
  let by_device a := match device_id with
                     | Some d => String.eqb d "" || String.eqb (a_device_id a) d
                     | None => true end in
  let by_state a := match alarm_state with
                    | Some st => String.eqb st "" || String.eqb (a_state a) st
                    | None => true end in
  mret (map to_alarm_view (take (Z.to_nat lim)
    (order_by (λ a b, a_opened_at b <? a_opened_at a) (List.filter (λ a, by_device a && by_state a) rows)))).

(** [report]: the text of the report file, [None] when it cannot be read. *)
Definition anomaly_evaluation_demo (report : option string) : result json :=
  let unavailable := Raise (HTTPException 503 "Synthetic anomaly evaluation report is unavailable") in
  let invalid := Raise (HTTPException 503 "Synthetic anomaly evaluation report failed provenance validation") in
  match report with
  | None => unavailable
  | Some text =>
      match loads_text text with
      | inl NotJson => unavailable
      | inl (DigitLimit _) => Raise (ValueError "Exceeds the limit (4300 digits) for integer string conversion")
      | inr (JObj fields) =>
          match jget "field_performance_claimed" fields with
          | Some (JBool false) => Ok (JObj fields)
          | _ => invalid
          end
      | inr _ => invalid
      end
  end.

Definition list_calibrations (device_id : string) : DBM (list CalibrationView) :=
  rows ← query calibrations;
  mret (map to_calibration_view (take 200
    (order_by (λ a b, k_performed_at b <? k_performed_at a)
       (List.filter (λ k, String.eqb (k_device_id k) device_id) rows)))).

Definition list_maintenance (device_id : string) : DBM (list MaintenanceView) :=
  rows ← query maintenance_records;
  mret (map to_maintenance_view (take 200
    (order_by (λ a b, db_instant (r_performed_at b) <? db_instant (r_performed_at a))
       (List.filter (λ r, String.eqb (r_device_id r) device_id) rows)))).

Definition list_commands (device_id : string) : DBM (list CommandView) :=
  rows ← query device_commands;
  mret (map to_command_view (take 100
    (order_by (λ a b, x_issued_at b <? x_issued_at a)
       (List.filter (λ x, String.eqb (x_device_id x) device_id) rows)))).

Definition export_telemetry (device_id metric : string) (start stop : option datetime) :
    DBM (string * list string) :=
  now ← utc_now;
  range ← lift (bounded_range start stop s now);
  rows ← query telemetry;
  let found := take (Z.to_nat 10000)
    (order_by (λ a b, t_received_at a <? t_received_at b) (List.filter (in_window device_id range) rows)) in
  mret (device_id +:+ "-" +:+ metric +:+ ".csv", csv_stream metric found).

(** ** Ingestion over HTTP *)

Definition ingest_telemetry (x_ingest_token : string) (e : TelemetryEnvelope) : DBM PersistResult :=
  if negb (String.eqb x_ingest_token (ingest_token s))
  then raise (HTTPException 401 "Invalid ingest token")
  else try_except (persist_telemetry e)
         (λ err, match err with
                 | SequenceCollisionError m => Some (raise (HTTPException 409 m))
                 | _ => None
                 end).

(** ** Operations *)

Definition acknowledged (now : Z) (who : string) (a : Alarm) : Alarm :=
  Build_Alarm (a_id a) (a_device_id a) (a_code a) (a_severity a) (a_source a) (a_state a) (a_summary a)
    (a_opened_at a) (a_cleared_at a) (Some now) (Some who).
Definition alarm_ack_event (who : string) (a : Alarm) : json := JObj [
  ("type", JStr "alarm_acknowledged"); ("device_id", JStr (a_device_id a)); ("alarm_id", JInt (a_id a));
  ("acknowledged_by", JStr who) ].

Definition acknowledge_alarm (user : User) (alarm_id : Z) : DBM AlarmView :=
  found ← query (get_alarm alarm_id);
  match found with
  | None => raise (not_found "Alarm")
  | Some alarm =>
      match a_acknowledged_at alarm with
      | Some _ => mret (to_alarm_view alarm)
      | None =>
          now ← utc_now;
          add (update_alarm (a_id alarm) (acknowledged now (u_username user)));;
          created ← utc_now;
          add (insert_audit (new_audit created (u_username user) "alarm_acknowledged" "alarm"
                 (str_of_Z (a_id alarm))
                 (JObj [("device_id", JStr (a_device_id alarm)); ("code", JStr (a_code alarm))])));;
          notify_after_commit (alarm_ack_event (u_username user) alarm);;
          commit;;
          mret (to_alarm_view (acknowledged now (u_username user) alarm))
      end
  end.

Definition latest_calibration (device_id sensor : string) (d : DB) : option Calibration :=
  head (order_by (λ a b, k_performed_at b <? k_performed_at a)
    (List.filter (λ k, String.eqb (k_device_id k) device_id && String.eqb (k_sensor k) sensor)
       (calibrations d))).
Definition default_coefficients : list (string * float) := [("scale", of_int 1); ("offset", of_int 0)].

Definition create_calibration (user : User) (device_id : string) (request : CalibrationCreate) : DBM CalibrationView :=
  lift (ensure_admin user);;
  require_device device_id;;
  latest ← query (latest_calibration device_id (cc_sensor request));
  let previous := match latest with Some k => k_new_coefficients k | None => default_coefficients end in
  performed ← utc_now;
  let row := Build_Calibration 0 device_id (cc_sensor request) previous (cc_new_coefficients request)
               (cc_reason request) (u_username user) performed in
  id ← query (λ d, next_id (calibrations d));
  add (insert_calibration row);;
  flush;;
  created ← utc_now;
  add (insert_audit (new_audit created (u_username user) "calibration_created" "calibration" (str_of_Z id)
         (JObj [("device_id", JStr device_id); ("sensor", JStr (cc_sensor request))])));;
  commit;;
  mret (to_calibration_view (Build_Calibration id device_id (cc_sensor request) previous
          (cc_new_coefficients request) (cc_reason request) (u_username user) performed)).

Definition create_maintenance (user : User) (device_id : string) (request : MaintenanceCreate) : DBM MaintenanceView :=
  require_device device_id;;
  updated ← utc_now;
  let row id := Build_MaintenanceRecord id device_id (mc_status request) (mc_notes request)
                  (mc_performed_at request) (mc_next_due_at request) (u_username user) updated in
  id ← query (λ d, next_id (maintenance_records d));
  add (insert_maintenance (row 0));;
  flush;;
  created ← utc_now;
  add (insert_audit (new_audit created (u_username user) "maintenance_created" "maintenance" (str_of_Z id)
         (JObj [("device_id", JStr device_id); ("status", JStr (mc_status request))])));;
  commit;;
  mret (to_maintenance_view (row id)).

(** The attributes a PATCH assigns before the date check. *)
Definition patched (request : MaintenanceUpdate) (updated : Z) (r : MaintenanceRecord) : MaintenanceRecord :=
  Build_MaintenanceRecord (r_id r) (r_device_id r)
    (match mu_status request with Some st => st | None => r_status r end)
    (match mu_notes request with Some n => n | None => r_notes r end)
    (r_performed_at r)
    (match mu_next_due_at request with Some due => due | None => r_next_due_at r end)
    (r_created_by r) updated.

Definition update_maintenance_endpoint (user : User) (record_id : Z) (request : MaintenanceUpdate) :
    DBM MaintenanceView :=
  found ← query (get_maintenance record_id);
  match found with
  | None => raise (not_found "Maintenance record")
  | Some row =>
      let row' := patched request (r_updated_at row) row in
      late ← lift (match r_next_due_at row' with
                   | Some due => dt_leb due (r_performed_at row')
                   | None => Ok false end);
      if late : bool then raise (HTTPException 422 "next_due_at must be after performed_at")
      else
        updated ← utc_now;
        add (update_maintenance (r_id row) (patched request updated));;
        created ← utc_now;
        add (insert_audit (new_audit created (u_username user) "maintenance_updated" "maintenance"
               (str_of_Z (r_id row)) (JObj [("device_id", JStr (r_device_id row))])));;
        commit;;
        mret (to_maintenance_view (patched request updated row))
  end.

Definition get_thresholds (device_id : string) : DBM ThresholdConfigView :=
  require_device device_id;;
  found ← query (get_threshold_config device_id);
  match found with
  | Some config => mret (to_threshold_view config)
  | None =>
      now ← utc_now;
      add (insert_threshold_config (new_threshold_config now device_id));;
      commit;;
      mret (to_threshold_view (new_threshold_config now device_id))
  end.

(** [setattr] of every request field, then the two columns of the update. *)
Definition with_thresholds (r : ThresholdConfigUpdate) (who : string) (now : Z) (c : ThresholdConfig) :
    ThresholdConfig :=
  Build_ThresholdConfig (c_device_id c) (tu_temperature_warning_c r) (tu_temperature_critical_c r)
    (tu_vibration_warning_mps2 r) (tu_vibration_critical_mps2 r) (tu_current_warning_a r)
    (tu_current_critical_a r) (tu_hysteresis_percent r) who now.
Definition dump_thresholds (r : ThresholdConfigUpdate) : json := JObj [
  ("temperature_warning_c", JFloat (tu_temperature_warning_c r));
  ("temperature_critical_c", JFloat (tu_temperature_critical_c r));
  ("vibration_warning_mps2", JFloat (tu_vibration_warning_mps2 r));
  ("vibration_critical_mps2", JFloat (tu_vibration_critical_mps2 r));
  ("current_warning_a", JFloat (tu_current_warning_a r));
  ("current_critical_a", JFloat (tu_current_critical_a r));
  ("hysteresis_percent", JFloat (tu_hysteresis_percent r)) ].

Definition update_thresholds (user : User) (device_id : string) (request : ThresholdConfigUpdate) :
    DBM ThresholdConfigView :=
  lift (ensure_admin user);;
  require_device device_id;;
  found ← query (get_threshold_config device_id);
  now ← utc_now;
  let update := with_thresholds request (u_username user) now in
  (match found with
   | Some _ => add (update_threshold_config device_id update)
   | None => add (insert_threshold_config (update (new_threshold_config now device_id)))
   end);;
  created ← utc_now;
  add (insert_audit (new_audit created (u_username user) "thresholds_updated" "device" device_id
         (dump_thresholds request)));;
  commit;;
  mret (to_threshold_view (update (match found with
                                   | Some c => c
                                   | None => new_threshold_config now device_id end))).

Definition create_relay_command (uuid : string) (broker : Sending → option string) (meanwhile : DB → DB)
    (user : User) (device_id : string) (request : RelayCommandCreate) : DBM CommandView :=
  lift (ensure_admin user);;
  device ← require_device device_id;
  issued ← issue_relay_command uuid broker meanwhile device (u_username user) request s;
  mret (to_command_view issued.1).
End Api.

(** ** Seeding *)

Definition user_fits (u : User) : bool :=
  varchar 80 (u_username u) && varchar 255 (u_password_hash u) && varchar 32 (u_role u).
Definition insert_user (u : User) : write := λ db,
  guard_data (user_fits u) $
  guard_integrity (negb (existsb (λ v, String.eqb (u_username v) (u_username u)) (users db))) $
  Ok (set_users (users db ++ [Build_User (next_id (users db)) (u_username u) (u_password_hash u)
                                (u_role u) (u_active u) (u_created_at u)]) db).
Definition new_user (now : Z) (username password_hash role : string) : User := {|
  u_id := 0; u_username := username; u_password_hash := password_hash; u_role := role;
  u_active := true; u_created_at := now |}.

Definition seed (hash_password : string → string) (s : Settings) : DBM () :=
  if negb (existsb (String.eqb (environment s)) ["development"; "test"])
  then raise (RuntimeError "demo seeding is restricted to development and test environments")
  else closing (
    user ← query (λ d, List.find (λ u, String.eqb (u_username u) (demo_admin_username s)) (users d));
    (match user with
     | Some _ => mret ()
     | None => now ← utc_now;
               add (insert_user (new_user now (demo_admin_username s) (hash_password (demo_admin_password s)) "admin"))
     end);;
    device ← query (get_device "motor-01");
    (match device with
     | Some _ => mret ()
     | None => now ← utc_now;
               add (insert_device (new_device now "motor-01" "workshop-demo" "Workshop demo motor" "dc-motor" true))
     end);;
    config ← query (get_threshold_config "motor-01");
    (match config with
     | Some _ => mret ()
     | None => now ← utc_now; add (insert_threshold_config (new_threshold_config now "motor-01"))
     end);;
    commit).
