(* ===== verification/ApiProps.v ===== *)
(** What the API endpoints guarantee: reads do not write, operations are
    authorised, audited, atomic and keep the database well-formed, query
    windows are bounded and exported cells are inert. *)
From S2P Require Import Prelude PyStr Float64 PyFormat Json JsonParse PyTime Models Tables.
From S2P Require Import Session Topics Schemas Settings Ingestion AlarmFacts Keys Transactions.
From S2P Require Import IngestionRuns IngestionProps HealthAckProps ApiViews Api.

(** ** Transactions of the operations *)

(** A block that only reads. *)
Definition reads_only {A} (m : DBM A) : Prop :=
  ∀ s, db (m s).2 = db s ∧ pending (m s).2 = pending s ∧ notes (m s).2 = notes s ∧ keeps s (m s).2.

Lemma reads_ret {A} (a : A) : reads_only (mret a).
Proof. done. Qed.
Lemma reads_raise {A} e : reads_only (raise (A := A) e).
Proof. done. Qed.
Lemma reads_query {A} (f : DB → A) : reads_only (query f).
Proof. done. Qed.
Lemma reads_now : reads_only utc_now.
Proof. done. Qed.
Lemma reads_lift {A} (r : result A) : reads_only (lift r).
Proof. done. Qed.
Lemma reads_bind {A B} (m : DBM A) (f : A → DBM B) :
  reads_only m → (∀ a, reads_only (f a)) → reads_only (m ≫= f).
Proof.
  intros Hm Hf s. unfold mbind, M_bind. specialize (Hm s).
  destruct (m s) as [[a|e] s1]; simpl in *; [|done].
  destruct (Hf a s1) as (E1 & E2 & E3 & K). destruct Hm as (M1 & M2 & M3 & MK).
  split; [congruence|]. split; [congruence|]. split; [congruence|]. by eapply keeps_trans.
Qed.
#[export] Hint Resolve reads_ret reads_raise reads_query reads_now reads_lift reads_bind : session.

Lemma reads_reaches {A} (m : DBM A) s a s1 : reads_only m → m s = (Ok a, s1) → reaches [] [] s s1 ∧ db s1 = db s.
Proof.
  intros Hm H. destruct (Hm s) as (E1 & E2 & E3 & K). rewrite H in *. simpl in *.
  split; [|done]. split; [done|]. rewrite app_nil_r, bind_run_nil. split; [done|].
  unfold effective. by rewrite E1, E2.
Qed.

Lemma require_device_reads id : reads_only (require_device id).
Proof. unfold require_device. apply reads_bind; [apply reads_query|]. intros [d|]; auto with session. Qed.
#[export] Hint Resolve require_device_reads : session.

(** How an operation ends: with its writes committed, or with no effect. *)
Inductive ends (ws : list write) (ns : list json) (s : Session) {A} : result A → Session → Prop :=
  | Ends_committed a d s' :
      run_writes ws (saved s) = Ok d → saved s' = d → clean s' →
      published s' = published s ++ ns → ends ws ns s (Ok a) s'
  | Ends_raised e s' : keeps s s' → ends ws ns s (Raise e) s'.

Lemma commit_ends {A} (a : A) ws ns s s2 r s' :
  clean s → reaches ws ns s s2 → (commit;; mret a) s2 = (r, s') → ends ws ns s r s'.
Proof.
  intros Hs HR H. pose proof Hs as (Hdb & _).
  destruct (commit_result _ _ _ _ _ _ _ Hs HR H) as [(d & Hw & -> & Hd & Hc & _ & _ & Hp)|(e & _ & -> & Hk)].
  - rewrite Hdb in Hw. destruct Hc as (Hc1 & Hc2). eapply Ends_committed; [exact Hw|congruence|done|done].
  - by apply Ends_raised.
Qed.

Lemma reads_ends {A B} (m : DBM A) (f : A → DBM B) ws ns s r s' :
  reads_only m → clean s → (m ≫= f) s = (r, s') →
  (∀ a s1, m s = (Ok a, s1) → f a s1 = (r, s') → ends ws ns s r s') → ends ws ns s r s'.
Proof.
  intros Hm Hs H Hf. apply bind_run in H as [(a & s1 & H1 & H2)|(e & H1 & ->)]; [by eapply Hf|].
  apply Ends_raised. destruct (Hm s) as (_ & _ & _ & K). by rewrite H1 in K.
Qed.

(** ** The audited operations *)

Inductive operation :=
  | Acknowledge_alarm (alarm_id : Z)
  | Create_calibration (device_id : string) (request : CalibrationCreate)
  | Create_maintenance (device_id : string) (request : MaintenanceCreate)
  | Update_maintenance (record_id : Z) (request : MaintenanceUpdate)
  | Update_thresholds (device_id : string) (request : ThresholdConfigUpdate).

Definition discard {A} (m : DBM A) : DBM () := m;; mret ().
Definition run_operation (user : User) (op : operation) : DBM () :=
  match op with
  | Acknowledge_alarm id => discard (acknowledge_alarm user id)
  | Create_calibration d r => discard (create_calibration user d r)
  | Create_maintenance d r => discard (create_maintenance user d r)
  | Update_maintenance id r => discard (update_maintenance_endpoint user id r)
  | Update_thresholds d r => discard (update_thresholds user d r)
  end.
Definition action_of (op : operation) : string :=
  match op with
  | Acknowledge_alarm _ => "alarm_acknowledged"
  | Create_calibration _ _ => "calibration_created"
  | Create_maintenance _ _ => "maintenance_created"
  | Update_maintenance _ _ => "maintenance_updated"
  | Update_thresholds _ _ => "thresholds_updated"
  end.
Definition needs_admin (op : operation) : bool :=
  match op with Create_calibration _ _ | Update_thresholds _ _ => true | _ => false end.

Definition target_type (op : operation) : string :=
  match op with
  | Acknowledge_alarm _ => "alarm"
  | Create_calibration _ _ => "calibration"
  | Create_maintenance _ _ | Update_maintenance _ _ => "maintenance"
  | Update_thresholds _ _ => "device"
  end.

(** The rows an operation makes from the database it reads. *)
Definition calibration_row (who device_id : string) (r : CalibrationCreate) (now id : Z) (d : DB) : Calibration :=
  Build_Calibration id device_id (cc_sensor r)
    (match latest_calibration device_id (cc_sensor r) d with Some k => k_new_coefficients k | None => default_coefficients end)
    (cc_new_coefficients r) (cc_reason r) who now.
Definition maintenance_row (who device_id : string) (r : MaintenanceCreate) (now id : Z) : MaintenanceRecord :=
  Build_MaintenanceRecord id device_id (mc_status r) (mc_notes r) (mc_performed_at r) (mc_next_due_at r) who now.
Definition in_order (r : MaintenanceRecord) : Prop :=
  ∀ due, r_next_due_at r = Some due → dt_leb due (r_performed_at r) = Ok false.

(** What an operation does to the tables but the audit trail, with the target
    and the details of its audit event. *)
Definition performed (user : User) (op : operation) (d d' : DB) (target : string) (details : json) : Prop :=
  let who := u_username user in
  match op with
  | Acknowledge_alarm id => ∃ a now,
      get_alarm id d = Some a ∧ a_acknowledged_at a = None
      ∧ d' = set_alarms (update_where (λ b, a_id b =? id) (acknowledged now who) (alarms d)) d
      ∧ target = str_of_Z id
      ∧ details = JObj [("device_id", JStr (a_device_id a)); ("code", JStr (a_code a))]
  | Create_calibration dev r => ∃ now,
      d' = set_calibrations (calibrations d ++ [calibration_row who dev r now (next_id (calibrations d)) d]) d
      ∧ target = str_of_Z (next_id (calibrations d))
      ∧ details = JObj [("device_id", JStr dev); ("sensor", JStr (cc_sensor r))]
  | Create_maintenance dev r => ∃ now,
      d' = set_maintenance_records (maintenance_records d
             ++ [maintenance_row who dev r now (next_id (maintenance_records d))]) d
      ∧ target = str_of_Z (next_id (maintenance_records d))
      ∧ details = JObj [("device_id", JStr dev); ("status", JStr (mc_status r))]
  | Update_maintenance id r => ∃ row now,
      get_maintenance id d = Some row ∧ in_order (patched r (r_updated_at row) row)
      ∧ d' = set_maintenance_records (update_where (λ x, r_id x =? id) (patched r now) (maintenance_records d)) d
      ∧ target = str_of_Z id ∧ details = JObj [("device_id", JStr (r_device_id row))]
  | Update_thresholds dev r => ∃ now,
      d' = set_threshold_configs
             (match get_threshold_config dev d with
              | Some _ => update_where (λ c, String.eqb (c_device_id c) dev) (with_thresholds r who now) (threshold_configs d)
              | None => threshold_configs d ++ [with_thresholds r who now (new_threshold_config now dev)]
              end) d
      ∧ target = dev ∧ details = dump_thresholds r
  end.

(** Only an alarm acknowledgement is announced. *)
Definition op_notes (user : User) (op : operation) (s : Session) : list json :=
  match op with
  | Acknowledge_alarm id =>
      match get_alarm id (saved s) with
      | Some a => notified (postgres s) (alarm_ack_event (u_username user) a)
      | None => []
      end
  | _ => []
  end.

(** A write that performs an operation whenever it succeeds. *)
Definition op_write (user : User) (op : operation) (d : DB) (w : write) (target : string) (details : json) : Prop :=
  (needs_admin op = true → u_role user = "admin")
  ∧ keeps_keys w ∧ ∀ d', w d = Ok d' → performed user op d d' target details.

Lemma discard_run {A} (m : DBM A) s r s' :
  discard m s = (r, s') →
  ∃ r0, m s = (r0, s') ∧ r = match r0 with Ok _ => Ok () | Raise e => Raise e end.
Proof.
  unfold discard, mbind, M_bind. destruct (m s) as [[a|e] s1]; intros [= <- <-]; by eexists.
Qed.

Lemma ends_discard {A} ws ns s (r0 : result A) s' :
  ends ws ns s r0 s' → ends ws ns s (match r0 with Ok _ => Ok () | Raise e => Raise e end) s'.
Proof.
  intros [a d s1 Hw Hd Hc Hp|e s1 K]; [by eapply Ends_committed|by apply Ends_raised].
Qed.

(** An operation repeats an acknowledgement, fails, or commits its write with
    one audit event. *)
Definition op_outcome (user : User) (op : operation) (s : Session) (r : result ()) (s' : Session) : Prop :=
  (r = Ok () ∧ s' = s ∧ ∃ id a, op = Acknowledge_alarm id ∧ get_alarm id (saved s) = Some a ∧ is_Some (a_acknowledged_at a))
  ∨ (∃ e, r = Raise e ∧ keeps s s')
  ∨ ∃ w target details created, op_write user op (saved s) w target details
      ∧ ends [w; insert_audit (new_audit created (u_username user) (action_of op) (target_type op) target details)]
          (op_notes user op s) s r s'.
Lemma op_raised user op s e s' : keeps s s' → op_outcome user op s (Raise e) s'.
Proof. intros K. right. left. by eexists. Qed.
Lemma op_ends {A} user op s w target details created (r0 : result A) s' :
  op_write user op (saved s) w target details →
  ends [w; insert_audit (new_audit created (u_username user) (action_of op) (target_type op) target details)]
    (op_notes user op s) s r0 s' →
  op_outcome user op s (match r0 with Ok _ => Ok () | Raise e => Raise e end) s'.
Proof. intros Hw He. right. right. exists w, target, details, created. split; [done|]. by apply ends_discard. Qed.

(** A clock reading followed by an addition. *)
Lemma reaches_tick_add w s : reaches [w] [] s (set_pending (pending s ++ [w]) (next_tick s)).
Proof. exact (reaches_trans [] [w] [] [] _ _ _ (reaches_tick s) (reaches_add w (next_tick s))). Qed.

Lemma acknowledge_outcome user id s r s' :
  clean s → run_operation user (Acknowledge_alarm id) s = (r, s') → op_outcome user (Acknowledge_alarm id) s r s'.
Proof.
  intros Hs H. pose proof Hs as (Hdb & _). apply discard_run in H as (r0 & H & ->). unfold acknowledge_alarm in H.
  rewrite query_step in H. rewrite Hdb in H. destruct (get_alarm id (saved s)) as [a|] eqn:Ha;
    [|injection H as <- <-; by apply op_raised].
  destruct (a_acknowledged_at a) eqn:Hack.
  { injection H as <- <-. left. split; [done|]. split; [done|]. exists id, a. by rewrite Hack. }
  rewrite now_step, add_step, now_step, add_step in H.
  set (w := update_alarm _ _) in *.
  match type of H with ((notify_after_commit ?ev ≫= _) ?s2 = _) =>
    assert (R2 : reaches [w; insert_audit (new_audit (clock s (S (ticks s))) (u_username user) "alarm_acknowledged" "alarm"
      (str_of_Z (a_id a)) (JObj [("device_id", JStr (a_device_id a)); ("code", JStr (a_code a))]))] [] s s2)
      by exact (reaches_trans [_] [_] [] [] _ _ _ (reaches_tick_add w s) (reaches_tick_add _ _)) end.
  pose proof (List.find_some _ _ Ha) as [_ Hid%Z.eqb_eq].
  apply bind_run in H as [(u & s3 & H3 & H)|(err & H3 & ->)];
    apply notify_run in H3 as [(Eu & R4 & Hfit)|(Eu & -> & Hp & Hfit)]; try done;
    [|apply op_raised; apply R2].
  pose proof (reaches_trans _ _ _ _ _ _ _ R2 R4) as R5. rewrite app_nil_r in R5.
  eapply commit_ends in H; [|exact Hs|exact R5].
  eapply op_ends; [|unfold op_notes; rewrite Ha; exact H].
  split; [done|]. split; [by apply update_alarm_keys|]. intros d' Hw. unfold w, update_alarm in Hw. open_write Hw. by exists a, (clock s (ticks s)).
Qed.

Lemma flush_run s r s' :
  flush s = (r, s') → (r = Ok () ∧ reaches [] [] s s') ∨ (∃ e, r = Raise e ∧ s' = s).
Proof.
  unfold flush. destruct (run_writes (pending s) (db s)) as [d|e] eqn:Hd; intros [= <- <-]; [|by eauto].
  left. split; [done|]. by apply reaches_flush.
Qed.

(** Add a row and flush it, then audit and commit: the shape of the two
    creation endpoints. *)
Lemma insert_flush_audit {A} (w : write) (audit : Z → AuditEvent) (a : A) s s1 r s' :
  clean s → reaches [] [] s s1 →
  (add w;; flush;; created ← utc_now; add (insert_audit (audit created));; commit;; mret a) s1 = (r, s') →
  ∃ created, ends [w; insert_audit (audit created)] [] s r s'.
Proof.
  intros Hs R1 H. rewrite add_step in H.
  assert (R2 : reaches [w] [] s (set_pending (pending s1 ++ [w]) s1))
    by exact (reaches_trans [] [w] [] [] _ _ _ R1 (reaches_add w s1)).
  apply bind_run in H as [(u & s3 & H3 & H)|(e & H3 & ->)];
    apply flush_run in H3 as [(Eu & R3)|(e' & Eu & ->)]; try done.
  - rewrite now_step, add_step in H. exists (clock s3 (ticks s3)). eapply commit_ends; [exact Hs| |exact H].
    exact (reaches_trans [_] [_] [] [] _ _ _
      (reaches_trans [_] [] [] [] _ _ _ R2 R3) (reaches_tick_add _ s3)).
  - exists 0. apply Ends_raised. apply R2.
Qed.

(** The first reads of an operation: a failure has no effect, and otherwise
    the rows read are the committed ones. *)
Lemma op_reads {A B} user op (m : DBM A) (f : A → DBM B) s s0 (r0 : result B) s' :
  reads_only m → reaches [] [] s s0 → db s0 = saved s → (m ≫= f) s0 = (r0, s') →
  (∀ a s1, m s0 = (Ok a, s1) → reaches [] [] s s1 → db s1 = saved s → f a s1 = (r0, s') →
    op_outcome user op s (match r0 with Ok _ => Ok () | Raise e => Raise e end) s') →
  op_outcome user op s (match r0 with Ok _ => Ok () | Raise e => Raise e end) s'.
Proof.
  intros Hm R0 Hdb H Hf. apply bind_run in H as [(a & s1 & H1 & H)|(e & H1 & ->)].
  - pose proof (reads_reaches _ _ _ _ Hm H1) as [R1 D1]. apply (Hf a s1 H1); [|congruence|done].
    exact (reaches_trans [] [] [] [] _ _ _ R0 R1).
  - apply op_raised. pose proof (Hm s0) as (_ & _ & _ & K). rewrite H1 in K. eapply keeps_trans; [apply R0|exact K].
Qed.
Lemma admin_run user (s : Session) u s1 : lift (ensure_admin user) s = (Ok u, s1) → u_role user = "admin".
Proof. unfold lift, ensure_admin. destruct (String.eqb_spec (u_role user) "admin"); [done|by intros [=]]. Qed.

Lemma calibration_outcome user d req s r s' :
  clean s → run_operation user (Create_calibration d req) s = (r, s') →
  op_outcome user (Create_calibration d req) s r s'.
Proof.
  intros Hs H. pose proof Hs as (Hdb & _). apply discard_run in H as (r0 & H & ->). unfold create_calibration in H.
  eapply op_reads; [apply reads_lift|apply reaches_refl|exact Hdb|exact H|]. clear H. intros u s1 Hadm%admin_run R1 D1 H.
  eapply op_reads; [apply (require_device_reads d)|exact R1|exact D1|exact H|]. clear H. intros dv s2 _ R2 D2 H.
  cbv beta in H. rewrite query_step, now_step, query_step in H. cbn [db next_tick] in H. rewrite D2 in H.
  eapply (insert_flush_audit _ (λ c, new_audit c (u_username user) "calibration_created" "calibration" _ _))
    in H as (created & He); [|exact Hs|exact (reaches_trans [] [] [] [] _ _ _ R2 (reaches_tick s2))].
  eapply op_ends; [|exact He]. split; [done|]. split; [auto with keys|]. intros d' Hw. unfold insert_calibration in Hw. open_write Hw.
  by exists (clock s2 (ticks s2)).
Qed.

Lemma maintenance_outcome user d req s r s' :
  clean s → run_operation user (Create_maintenance d req) s = (r, s') →
  op_outcome user (Create_maintenance d req) s r s'.
Proof.
  intros Hs H. pose proof Hs as (Hdb & _). apply discard_run in H as (r0 & H & ->). unfold create_maintenance in H.
  eapply op_reads; [apply (require_device_reads d)|apply reaches_refl|exact Hdb|exact H|]. clear H. intros dv s1 _ R1 D1 H.
  cbv beta in H. rewrite now_step in H. cbv zeta in H. rewrite query_step in H. cbn [db next_tick] in H. rewrite D1 in H.
  eapply (insert_flush_audit _ (λ c, new_audit c (u_username user) "maintenance_created" "maintenance" _ _))
    in H as (created & He); [|exact Hs|exact (reaches_trans [] [] [] [] _ _ _ R1 (reaches_tick s1))].
  eapply op_ends; [|exact He]. split; [done|]. split; [auto with keys|]. intros d' Hw. unfold insert_maintenance in Hw. open_write Hw.
  by exists (clock s1 (ticks s1)).
Qed.

Lemma patch_outcome user id req s r s' :
  clean s → run_operation user (Update_maintenance id req) s = (r, s') →
  op_outcome user (Update_maintenance id req) s r s'.
Proof.
  intros Hs H. pose proof Hs as (Hdb & _). apply discard_run in H as (r0 & H & ->). unfold update_maintenance_endpoint in H.
  rewrite query_step in H. rewrite Hdb in H.
  destruct (get_maintenance id (saved s)) as [row|] eqn:Hrow; [|injection H as <- <-; by apply op_raised].
  pose proof (List.find_some _ _ Hrow) as [_ Hid%Z.eqb_eq].
  cbv zeta in H. unfold mbind at 1, M_bind at 1, lift at 1 in H.
  destruct (match r_next_due_at _ with Some _ => _ | None => _ end) as [[]|e] eqn:Hlate;
    [injection H as <- <-; by apply op_raised| |injection H as <- <-; by apply op_raised].
  rewrite now_step, add_step, now_step, add_step in H.
  eapply commit_ends in H; [|exact Hs|exact (reaches_trans [_] [_] [] [] _ _ _ (reaches_tick_add _ s) (reaches_tick_add _ _))].
  eapply op_ends; [|exact H]. split; [done|]. split; [auto with keys|]. intros d' Hw. unfold update_maintenance in Hw. open_write Hw.
  exists row, (clock s (ticks s)). split; [done|]. split; [|done].
  intros due Hdue. by rewrite Hdue in Hlate.
Qed.

Lemma thresholds_outcome user d req s r s' :
  clean s → run_operation user (Update_thresholds d req) s = (r, s') →
  op_outcome user (Update_thresholds d req) s r s'.
Proof.
  intros Hs H. pose proof Hs as (Hdb & _). apply discard_run in H as (r0 & H & ->). unfold update_thresholds in H.
  eapply op_reads; [apply reads_lift|apply reaches_refl|exact Hdb|exact H|]. clear H. intros u s1 Hadm%admin_run R1 D1 H.
  eapply op_reads; [apply (require_device_reads d)|exact R1|exact D1|exact H|]. clear H. intros dv s2 _ R2 D2 H.
  cbv beta in H. rewrite query_step, now_step in H. cbv zeta in H. rewrite D2 in H.
  destruct (get_threshold_config d (saved s)) as [c|] eqn:Hc;
    rewrite add_step, now_step, add_step in H;
    (eapply commit_ends in H; [|exact Hs|
       exact (reaches_trans [] [_; _] [] [] _ _ _ R2
         (reaches_trans [_] [_] [] [] _ _ _ (reaches_tick_add _ s2) (reaches_tick_add _ _)))]);
    (eapply op_ends; [|exact H]); (split; [done|]);
    (split; [first [by apply update_threshold_config_keys|auto with keys]|]); intros d' Hw;
    [unfold update_threshold_config in Hw|unfold insert_threshold_config in Hw]; open_write Hw;
    exists (clock s2 (ticks s2)); by rewrite Hc.
Qed.

Lemma operation_outcome user op s r s' :
  clean s → run_operation user op s = (r, s') → op_outcome user op s r s'.
Proof.
  intros Hs H. destruct op.
  - by apply acknowledge_outcome.
  - by apply calibration_outcome.
  - by apply maintenance_outcome.
  - by apply patch_outcome.
  - by apply thresholds_outcome.
Qed.

(** ** Invariant *)

Lemma alarms_wf_update p f l :
  keeps_key f → (∀ a, a_state (f a) = a_state a) → (∀ a, lifecycle a → lifecycle (f a)) →
  alarms_wf l → alarms_wf (update_where p f l).
Proof.
  intros Hf Hst Hlf (Hk & Hone & Hl). split; [|split].
  - unfold keyed in *. rewrite map_update_where by (intros a; by destruct (Hf a)).
    unfold update_where. by rewrite length_map.
  - intros d c. specialize (Hone d c).
    assert (E : length (List.filter (is_active d c) (update_where p f l)) = length (List.filter (is_active d c) l)).
    { unfold update_where. clear -Hf Hst. induction l as [|a l IH]; [done|]. simpl.
      assert (Ha : is_active d c (if p a then f a else a) = is_active d c a).
      { destruct (p a); [|done]. unfold is_active. destruct (Hf a) as (_ & -> & ->). by rewrite Hst. }
      rewrite Ha. destruct (is_active d c a); simpl; by rewrite IH. }
    lia.
  - by apply Forall_update_where.
Qed.

Lemma performed_frame user op d d' target details :
  performed user op d d' target details → alarms_wf (alarms d) →
  alarms_wf (alarms d') ∧ audit_events d' = audit_events d.
Proof.
  intros H Ha. destruct op.
  - destruct H as (a & now & _ & _ & -> & _). split; [|done].
    apply alarms_wf_update; [done|done| |done]. intros b [[H1 H2]|[H1 H2]]; [by left|by right].
  - by destruct H as (now & -> & _).
  - by destruct H as (now & -> & _).
  - by destruct H as (row & now & _ & _ & -> & _).
  - by destruct H as (now & -> & _).
Qed.

(** The audit event of an operation, as it is stored. *)
Definition op_audit (user : User) (op : operation) (target : string) (details : json) (created : Z) (d : DB) : AuditEvent :=
  Build_AuditEvent (next_id (audit_events d)) (u_username user) (action_of op) (target_type op) target details created.

(** C10: the five operator operations (acknowledge an alarm, record a
    calibration, record or change a maintenance entry, set the thresholds) are
    atomic and audited.  A call either fails without any effect, or repeats the
    acknowledgement of an acknowledged alarm (which changes nothing), or
    commits exactly the rows the operation is for and one audit event that
    names the user, the action, the target and its details, and announces
    alarm acknowledgements; calibrations and thresholds only for an
    administrator.  In every case the database stays well-formed. *)
Theorem operations_audited user op s r s' :
  clean s → db_wf (saved s) → run_operation user op s = (r, s') →
  db_wf (saved s') ∧
  ((r = Ok () ∧ s' = s
    ∧ ∃ id a, op = Acknowledge_alarm id ∧ get_alarm id (saved s) = Some a ∧ is_Some (a_acknowledged_at a))
   ∨ (∃ e, r = Raise e ∧ saved s' = saved s ∧ published s' = published s)
   ∨ (r = Ok () ∧ (needs_admin op = true → u_role user = "admin") ∧ ∃ d target details created,
        performed user op (saved s) d target details
        ∧ saved s' = set_audit_events (audit_events (saved s) ++ [op_audit user op target details created (saved s)]) d
        ∧ published s' = published s ++ op_notes user op s)).
Proof.
  intros Hs Hwf H. pose proof (operation_outcome user op s r s' Hs H)
    as [(-> & -> & Hop)|[(e & -> & K1 & K2 & _)|(w & target & details & created & (Hadm & Hkeys & Hop) & He)]].
  - split; [done|]. by left.
  - rewrite K1. split; [done|]. right. left. by exists e.
  - destruct He as [u d s1 Hw Hd Hc Hp|e s1 (K1 & K2 & _)].
    2:{ rewrite K1. split; [done|]. right. left. by exists e. }
    apply run_writes_cons_ok in Hw as (d1 & Hw & Haud).
    apply run_writes_cons_ok in Haud as (d2 & Haud & [= ->]).
    pose proof (Hop _ Hw) as Hperf. destruct Hwf as [Hk Ha].
    destruct (performed_frame _ _ _ _ _ _ Hperf Ha) as [Ha1 Hev].
    pose proof (insert_audit_keys _ _ _ Haud (Hkeys _ _ Hw Hk)) as Hk2.
    unfold insert_audit in Haud. open_write Haud. rewrite Hd. split; [by split|]. right. right. destruct u.
    split; [done|]. split; [done|]. exists d1, target, details, created. split; [done|].
    split; [unfold op_audit; by rewrite <- Hev|done].
Qed.

Definition operator : User := sample_user "operator" "operator".
Definition sample_calibration : CalibrationCreate := {|
  cc_sensor := "current"; cc_new_coefficients := [("scale", of_int 1)]; cc_reason := "yearly check" |}.
Definition sample_maintenance : MaintenanceCreate := {|
  mc_status := "completed"; mc_notes := "belt replaced"; mc_performed_at := utc 5; mc_next_due_at := None |}.

Lemma registered_wf : db_wf (saved next_session).
Proof.
  split.
  - constructor; try apply NoDup_nil_2; try apply List.Forall_nil; try apply NoDup_singleton.
    apply List.Forall_cons; [by left|apply List.Forall_nil].
  - split; [done|]. split; [intros d c; simpl; lia|apply List.Forall_nil].
Qed.

Lemma operations_audited_witness :
  let '(r, s') := run_operation operator (Create_maintenance "motor-1" sample_maintenance) next_session in
  r = Ok () ∧ map r_notes (maintenance_records (saved s')) = ["belt replaced"]
  ∧ map e_action (audit_events (saved s')) = ["maintenance_created"].
Proof.
  destruct (run_operation operator (Create_maintenance "motor-1" sample_maintenance) next_session) as [r s'] eqn:E.
  assert (Hr : r = Ok ()).
  { apply (f_equal fst) in E. vm_compute in E. symmetry. exact E. }
  destruct (operations_audited operator _ next_session r s' ltac:(done) registered_wf E)
    as [_ [(_ & _ & id & a & Hid & _)|[(e & He & _)|(_ & _ & d & target & details & created & Hp & Hd & _)]]].
  - discriminate Hid.
  - rewrite Hr in He. discriminate He.
  - split; [exact Hr|]. destruct Hp as (now & Hp & _). rewrite Hd, Hp. split; reflexivity.
Defined.

(** Calibrations and thresholds need the administrator role; anyone else
    gets a 403 and nothing changes. *)
Theorem admin_only user op s :
  needs_admin op = true → u_role user ≠ "admin" →
  run_operation user op s = (Raise (HTTPException 403 "Admin role required"), s).
Proof.
  intros Hop Hrole. apply String.eqb_neq in Hrole.
  destruct op; try done; unfold run_operation, discard, create_calibration, update_thresholds, ensure_admin;
    rewrite Hrole; done.
Qed.

Lemma admin_only_witness :
  run_operation operator (Create_calibration "motor-1" sample_calibration) next_session
  = (Raise (HTTPException 403 "Admin role required"), next_session).
Proof. apply admin_only; [reflexivity|discriminate]. Defined.
