(* ===== verification/QueryProps.v ===== *)
(** The read side of the API: query windows, pages, exported CSV; the HTTP
    ingestion path and seeding. *)
From Stdlib Require Import Sorting.Sorted.
From S2P Require Import Prelude PyStr Float64 PyFormat Json JsonParse PyTime Models Tables.
From S2P Require Import Session Topics Schemas Settings Ingestion AlarmFacts Keys Transactions.
From S2P Require Import IngestionRuns IngestionProps HealthAckProps Csv ApiViews Api ApiProps.

(** ** Windows *)

Lemma bounded_range_ok start stop s now a b :
  bounded_range start stop s now = Ok (a, b) →
  b = match stop with Some e => e | None => utc now end
  ∧ (∀ t, start = Some t → a = t) ∧ (start = None → dt_add b (- hours 24) = Ok a)
  ∧ ∃ width, dt_sub b a = Ok width ∧ 0 < width <= days (max_query_days s).
Proof.
  unfold bounded_range, mbind, result_bind, mret, result_ret, dt_leb.
  set (e := match stop with Some e => e | None => utc now end).
  destruct (match start with Some b => Ok b | None => _ end) as [a'|] eqn:Ha; [|done].
  unfold mbind, result_bind, mret, result_ret.
  destruct (dt_sub e a') as [w|] eqn:Hw; [|done].
  destruct (w <=? 0) eqn:H0; [done|].
  destruct (days (max_query_days s) <? w) eqn:H1; [done|]. intros [= <- <-]. b2p.
  split; [done|]. split; [intros t ->; by injection Ha as ->|].
  split; [by intros ->|]. exists w. split; [done|]. lia.
Qed.

Lemma db_instant_sub a b w : dt_sub b a = Ok w → db_instant b - db_instant a = w.
Proof.
  unfold dt_sub, db_instant, instant. destruct (offset b), (offset a); intros [= <-]; lia.
Qed.

(** ** Sorted selections *)

Section Sorted.
Context {A : Type} (key : A → Z).

(** Decreasing keys. *)
Definition newest_first (a b : A) : Prop := key b <= key a.
Definition newer (a b : A) : bool := key b <? key a.

Lemma order_sorted l : StronglySorted newest_first (order_by newer l).
Proof.
  assert (H : StronglySorted (λ a b, newer b a = false) (order_by newer l)).
  { apply order_by_sorted; unfold newer; intros; b2p; lia. }
  induction H as [|x k _ IH Hx]; [apply SSorted_nil|]. apply SSorted_cons; [done|].
  apply (Forall_impl _ _ _ Hx). unfold newer, newest_first. intros; b2p; lia.
Qed.
Lemma take_sorted n l : StronglySorted newest_first l → StronglySorted newest_first (take n l).
Proof.
  intros Hl. revert n. induction Hl as [|y l Hl IH Hy]; intros [|n]; simpl; try apply SSorted_nil.
  apply SSorted_cons; [apply IH|]. by apply Forall_take.
Qed.
End Sorted.

(** C27: a telemetry page covers a non-empty window no wider than configured
    (the last 24 hours by default), holds at most [limit] rows, newest first,
    all of the requested device and inside the window, misses nothing when
    fewer rows than [limit] match, and reading it changes nothing. *)
Theorem telemetry_page s device start stop lim ses page ses' :
  0 <= lim → list_telemetry s device start stop lim ses = (Ok page, ses') →
  (∃ range, bounded_range start stop s (clock ses (ticks ses)) = Ok range
    ∧ 0 < db_instant range.2 - db_instant range.1 <= days (max_query_days s)
    ∧ ∃ rows, items page = map to_telemetry_view rows
      ∧ StronglySorted (newest_first t_received_at) rows
      ∧ Forall (λ t, t ∈ telemetry (db ses) ∧ t_device_id t = device
                 ∧ db_instant range.1 <= t_received_at t <= db_instant range.2) rows
      ∧ (Z.of_nat (length rows) < lim → ∀ t, t ∈ telemetry (db ses) → in_window device range t = true → t ∈ rows))
  ∧ count page = Z.of_nat (length (items page)) ∧ count page <= lim
  ∧ db ses' = db ses ∧ pending ses' = pending ses.
Proof.
  intros Hlim. unfold list_telemetry. rewrite now_step. set (now := clock ses (ticks ses)).
  unfold mbind at 1, M_bind at 1, lift at 1.
  destruct (bounded_range start stop s now) as [[a b]|e] eqn:Hr; [|done].
  rewrite query_step. cbv zeta. intros [= <- <-]. cbn [items count limit].
  set (matching := List.filter (in_window device (a, b)) (telemetry (db (next_tick ses)))).
  set (rows := take (Z.to_nat lim) _).
  assert (Hin : ∀ t, t ∈ rows → t ∈ matching).
  { intros t Ht. rewrite <- (order_by_perm (λ a b, t_received_at b <? t_received_at a) matching).
    by eapply elem_of_take in Ht as (i & Hi & _); eapply list_elem_of_lookup_2. }
  assert (Hmatch : ∀ t, t ∈ matching ↔ t ∈ telemetry (db ses) ∧ in_window device (a, b) t = true).
  { intros t. unfold matching. rewrite !list_elem_of_In, filter_In. done. }
  split; [|split; [done|]].
  - exists (a, b). split; [done|]. cbn [fst snd].
    destruct (bounded_range_ok _ _ _ _ _ _ Hr) as (_ & _ & _ & w & Hw & Hwidth).
    rewrite (db_instant_sub _ _ _ Hw). split; [done|]. exists rows. split; [done|]. split.
    { apply take_sorted. exact (order_sorted t_received_at matching). }
    split.
    { apply Forall_forall. intros t Ht. apply Hin, Hmatch in Ht as [Ht Hwin].
      unfold in_window in Hwin. b2p. simpl in *. auto. }
    intros Hlen t Ht Hwin. unfold rows. rewrite take_ge.
    + rewrite order_by_perm. by apply Hmatch.
    + unfold rows in Hlen. rewrite length_take in Hlen. lia.
  - split; [|done]. unfold rows. rewrite length_map, length_take. lia.
Qed.

Lemma telemetry_page_witness :
  let ses := after (persist_telemetry sample_envelope sample_session) in
  let '(r, _) := list_telemetry sample_settings "motor-1" None None 10 ses in
  match r with Ok page => count page = 1 ∧ count page <= 10 | Raise _ => False end.
Proof.
  cbv zeta. destruct (list_telemetry sample_settings "motor-1" None None 10
    (after (persist_telemetry sample_envelope sample_session))) as [[page|e] ses'] eqn:E.
  - pose proof (telemetry_page sample_settings "motor-1" None None 10
      (after (persist_telemetry sample_envelope sample_session)) page ses' ltac:(lia) E) as H.
    destruct H as (_ & _ & Hc & _). split; [|exact Hc].
    apply (f_equal (λ p, match p.1 with Ok pg => count pg | Raise _ => 0 end)) in E.
    vm_compute in E. symmetry. exact E.
  - apply (f_equal (λ p, match p.1 with Ok _ => true | Raise _ => false end)) in E.
    vm_compute in E. discriminate E.
Defined.

(** ** The exported file *)

Lemma safe_text_inert v : starts_formula (safe_csv_text v) = false.
Proof. unfold safe_csv_text. destruct (starts_formula v) eqn:H; [reflexivity|done]. Qed.

(** C28: an export read back as CSV is its header and one record of six cells
    per row, whatever the texts hold; the device, quality and fault cells are
    the stored text, behind an apostrophe when it would start a spreadsheet
    formula, and none of them starts one. *)
Theorem csv_export_inert metric rows :
  csv_records (join_chars (csv_stream metric rows))
  = csv_header :: map (λ t,
      [safe_csv_text (t_device_id t); iso_naive (t_received_at t) +:+ "+00:00"; metric;
       float_cell (metric_value metric t); safe_csv_text (t_quality t);
       safe_csv_text (join "|" (t_fault_flags t))]) rows
  ∧ ∀ text, starts_formula (safe_csv_text text) = false
      ∧ (safe_csv_text text = text ∨ starts_formula text = true ∧ safe_csv_text text = "'" +:+ text).
Proof.
  split.
  - unfold csv_stream. change (csv_row csv_header :: map (λ t, csv_row (csv_cells metric t)) rows)
      with (map csv_row [csv_header] ++ map (λ t, csv_row (csv_cells metric t)) rows).
    rewrite <- (map_map (csv_cells metric) csv_row), <- map_app, csv_rows_read; [done|].
    constructor; [simpl; lia|]. apply Forall_forall. intros c (t & -> & _)%list_elem_of_fmap. simpl. lia.
  - intros text. split; [apply safe_text_inert|]. unfold safe_csv_text. destruct (starts_formula text); auto.
Qed.

Definition hostile_row : Telemetry :=
  with_t_id 1 (telemetry_row 9 (Build_TelemetryEnvelope 1 "22222222-1111-4111-8111-111111111111" "site-a"
    "motor-1" 8 None false 2000 "1.0.0" "bad" false (te_measurements sample_envelope)
    (te_sample_quality sample_envelope) ["=HYPERLINK(1,2)"; "a,b"])).

Example hostile_export :
  csv_records (join_chars (csv_stream "temperature_c" [hostile_row]))
  = [csv_header; ["motor-1"; "1970-01-01T00:00:00.000009+00:00"; "temperature_c"; "70.0"; "bad"; "'=HYPERLINK(1,2)|a,b"]].
Proof. vm_compute. reflexivity. Qed.

(** ** Reads do not write *)

Ltac solve_reads :=
  repeat match goal with
  | |- reads_only (_ ≫= _) => apply reads_bind; [|intros ?]
  | |- reads_only (match ?x with _ => _ end) => destruct x
  | |- reads_only _ => solve [auto 3 with session]
  end.

(** The listing endpoints, the device, the model and the export read only:
    whatever they answer, the session has nothing pending or published and
    sees the same rows.  (Reading thresholds is the exception: it stores the
    defaults of a device that has none.) *)
Theorem reads_do_not_write s str_container device site stop start metric state lim :
  reads_only (list_devices s site) ∧ reads_only (get_device_endpoint s device)
  ∧ reads_only (list_telemetry s device start stop lim)
  ∧ reads_only (get_anomaly_model s str_container device)
  ∧ reads_only (list_alarms site state lim)
  ∧ reads_only (list_calibrations device) ∧ reads_only (list_maintenance device)
  ∧ reads_only (list_commands device) ∧ reads_only (export_telemetry s device metric start stop).
Proof.
  unfold list_devices, get_device_endpoint, list_telemetry, get_anomaly_model, list_alarms,
    list_calibrations, list_maintenance, list_commands, export_telemetry.
  split_and!; solve_reads.
Qed.

(** ** Seeding *)

Definition admin_row (s : Settings) (d : DB) : option User :=
  List.find (λ u, String.eqb (u_username u) (demo_admin_username s)) (users d).
Definition seeded (s : Settings) (d : DB) : Prop :=
  is_Some (admin_row s d) ∧ is_Some (get_device "motor-01" d) ∧ is_Some (get_threshold_config "motor-01" d).

Definition when_absent {A} (found : option A) (w : Z → write) (now : Z) : list write :=
  match found with Some _ => [] | None => [w now] end.
Lemma when_absent_run {A} (found : option A) (w : Z → write) s :
  ∃ now s', (match found with Some _ => mret () | None => now ← utc_now; add (w now) end : DBM ()) s = (Ok (), s')
    ∧ db s' = db s ∧ reaches (when_absent found w now) [] s s'.
Proof.
  destruct found.
  - exists 0, s. split; [done|]. split; [done|apply reaches_refl].
  - exists (clock s (ticks s)). eexists. split; [reflexivity|]. split; [done|]. exact (reaches_tick_add (w (clock s (ticks s))) s).
Qed.

Lemma find_app_some {A} (p : A → bool) l l' : is_Some (List.find p l) → is_Some (List.find p (l ++ l')).
Proof. rewrite find_app. by intros [x ->]. Qed.

Lemma insert_user_run u d d' : insert_user u d = Ok d' →
  d' = set_users (users d ++ [Build_User (next_id (users d)) (u_username u) (u_password_hash u)
                                (u_role u) (u_active u) (u_created_at u)]) d.
Proof. unfold insert_user. intros H. by open_write H. Qed.
Lemma insert_device_run x d d' : insert_device x d = Ok d' → d' = set_devices (devices d ++ [x]) d.
Proof. unfold insert_device. intros H. by open_write H. Qed.
Lemma insert_config_run c d d' :
  insert_threshold_config c d = Ok d' → d' = set_threshold_configs (threshold_configs d ++ [c]) d.
Proof. unfold insert_threshold_config. intros H. by open_write H. Qed.

Lemma seed_writes_seeded h cfg d n1 n2 n3 d' :
  run_writes (when_absent (admin_row cfg d)
      (λ now, insert_user (new_user now (demo_admin_username cfg) (h (demo_admin_password cfg)) "admin")) n1
    ++ when_absent (get_device "motor-01" d)
      (λ now, insert_device (new_device now "motor-01" "workshop-demo" "Workshop demo motor" "dc-motor" true)) n2
    ++ when_absent (get_threshold_config "motor-01" d)
      (λ now, insert_threshold_config (new_threshold_config now "motor-01")) n3) d = Ok d' →
  seeded cfg d' ∧ telemetry d' = telemetry d ∧ alarms d' = alarms d.
Proof.
  rewrite !run_writes_app_ok. intros (d1 & H1 & H2). rewrite run_writes_app_ok in H2.
  destruct H2 as (d2 & H2 & H3).
  assert (E1 : is_Some (admin_row cfg d1) ∧ d1 = set_users (users d1) d).
  { destruct (admin_row cfg d) eqn:Hu; simpl in H1.
    - injection H1 as <-. split; [by rewrite Hu|by destruct d].
    - unfold mbind, result_bind in H1. destruct (insert_user _ d) as [d0|] eqn:Hi; [|done].
      injection H1 as <-. apply insert_user_run in Hi as ->. split; [|done].
      unfold admin_row in *. simpl. rewrite find_app, Hu. simpl. rewrite String.eqb_refl. by eexists. }
  assert (E2 : is_Some (get_device "motor-01" d2) ∧ d2 = set_devices (devices d2) d1).
  { destruct (get_device "motor-01" d) eqn:Hu; simpl in H2.
    - injection H2 as <-. destruct E1 as [_ E1]. split; [|by destruct d1].
      rewrite (get_device_of d) by (by rewrite E1). by rewrite Hu.
    - unfold mbind, result_bind in H2. destruct (insert_device _ d1) as [d0|] eqn:Hi; [|done].
      injection H2 as <-. apply insert_device_run in Hi as ->. split; [|done].
      destruct E1 as [_ E1]. unfold get_device in *. simpl. rewrite E1. simpl.
      rewrite find_app, Hu. simpl. by eexists. }
  assert (E3 : is_Some (get_threshold_config "motor-01" d') ∧ d' = set_threshold_configs (threshold_configs d') d2).
  { destruct E1 as [_ E1], E2 as [_ E2].
    assert (Ec : threshold_configs d2 = threshold_configs d) by (by rewrite E2, E1).
    destruct (get_threshold_config "motor-01" d) eqn:Hu; simpl in H3.
    - injection H3 as <-. split; [|by destruct d2]. unfold get_threshold_config in *. rewrite Ec, Hu. by eexists.
    - unfold mbind, result_bind in H3. destruct (insert_threshold_config _ d2) as [d0|] eqn:Hi; [|done].
      injection H3 as <-. apply insert_config_run in Hi as ->. split; [|done].
      unfold get_threshold_config in *. simpl. rewrite Ec, find_app, Hu. simpl. by eexists. }
  destruct E1 as [E1 F1], E2 as [E2 F2], E3 as [E3 F3]. split; [|by rewrite F3, F2, F1].
  split; [|split]; [| |done].
  - unfold admin_row in *. by rewrite F3, F2.
  - rewrite (get_device_of d2) by (by rewrite F3). done.
Qed.

(** Seeding is refused outside development and test without touching
    anything; otherwise it leaves the demonstration user, device and thresholds
    in place, adds nothing else, and running it again changes nothing. *)
Theorem seed_idempotent h cfg s s1 :
  clean s →
  (negb (existsb (String.eqb (environment cfg)) ["development"; "test"]) = true →
     seed h cfg s = (Raise (RuntimeError "demo seeding is restricted to development and test environments"), s))
  ∧ (seed h cfg s = (Ok (), s1) →
     seeded cfg (saved s1) ∧ telemetry (saved s1) = telemetry (saved s) ∧ alarms (saved s1) = alarms (saved s)
     ∧ ∃ s2, seed h cfg s1 = (Ok (), s2) ∧ saved s2 = saved s1 ∧ published s2 = published s1).
Proof.
  intros Hs. split; [intros He; unfold seed; by rewrite He|]. unfold seed.
  destruct (negb _); [done|].
  assert (Hrun : ∀ s r s', clean s → closing (
    user ← query (λ d, List.find (λ u, String.eqb (u_username u) (demo_admin_username cfg)) (users d));
    (match user with
     | Some _ => mret ()
     | None => now ← utc_now;
               add (insert_user (new_user now (demo_admin_username cfg) (h (demo_admin_password cfg)) "admin"))
     end);;
    device ← query (get_device "motor-01");
    (match device with
     | Some _ => mret ()
     | None => now ← utc_now;
               add (insert_device (new_device now "motor-01" "workshop-demo" "Workshop demo motor" "dc-motor" true))
     end);;
    config ← query (get_threshold_config "motor-01");
    (match config with
     | Some _ => mret ()
     | None => now ← utc_now; add (insert_threshold_config (new_threshold_config now "motor-01"))
     end);;
    commit) s = (r, s') →
    ∃ n1 n2 n3, let ws := when_absent (admin_row cfg (db s))
      (λ now, insert_user (new_user now (demo_admin_username cfg) (h (demo_admin_password cfg)) "admin")) n1
    ++ when_absent (get_device "motor-01" (db s))
      (λ now, insert_device (new_device now "motor-01" "workshop-demo" "Workshop demo motor" "dc-motor" true)) n2
    ++ when_absent (get_threshold_config "motor-01" (db s))
      (λ now, insert_threshold_config (new_threshold_config now "motor-01")) n3 in
    match run_writes ws (db s) with
    | Ok d => r = Ok () ∧ saved s' = d ∧ clean s' ∧ published s' = published s
    | Raise e => r = Raise e
    end).
  { clear. intros s r s' Hs. unfold closing. rewrite query_step.
    change (List.find _ (users (db s))) with (admin_row cfg (db s)).
    edestruct (when_absent_run (admin_row cfg (db s))) as (n1 & s1 & H1 & D1 & R1).
    rewrite (bind_step _ _ _ _ _ H1), query_step.
    edestruct (when_absent_run (get_device "motor-01" (db s1))) as (n2 & s2 & H2 & D2 & R2).
    rewrite (bind_step _ _ _ _ _ H2), query_step.
    edestruct (when_absent_run (get_threshold_config "motor-01" (db s2))) as (n3 & s3 & H3 & D3 & R3).
    rewrite (bind_step _ _ _ _ _ H3). rewrite D2, D1 in R3. rewrite D1 in R2.
    pose proof (reaches_trans _ _ [] [] _ _ _ R1 (reaches_trans _ _ [] [] _ _ _ R2 R3)) as (K & N & E).
    exists n1, n2, n3. cbv zeta. rewrite (clean_effective s Hs) in E.
    change (Ok (db s) ≫= run_writes ?l) with (run_writes l (db s)) in E. rewrite <- E.
    destruct Hs as (_ & _ & Hn). rewrite Hn in N. revert H. destruct (commit s3) as [rc sc] eqn:Hc.
    apply commit_run in Hc as [(d & Hd & -> & ->)|(e & He & -> & ->)]; intros [= <- <-].
    - rewrite Hd. split; [done|]. split; [done|]. split; [done|]. simpl.
      destruct K as (_ & -> & _). simpl in N. by rewrite N, app_nil_r.
    - by rewrite He. }
  intros H. destruct (Hrun s _ _ Hs H) as (n1 & n2 & n3 & Hw). cbv zeta in Hw.
  destruct (run_writes _ (db s)) as [d|] eqn:Ew; [|done].
  destruct Hw as (_ & Hd & Hc & _). apply seed_writes_seeded in Ew as (Hsd & Ht & Ha).
  pose proof Hs as (Hdb & _). rewrite <- Hdb, Hd. split; [done|]. split; [done|]. split; [done|].
  match goal with |- ∃ s2, ?m s1 = _ ∧ _ => destruct (m s1) as [r2 s2] eqn:E2 end.
  destruct (Hrun s1 _ _ Hc E2) as (m1 & m2 & m3 & Hw2). cbv zeta in Hw2.
  destruct Hc as (Hdb1 & _). rewrite Hdb1, Hd in Hw2.
  destruct Hsd as ([u Hu] & [v Hv] & [w Hx]). rewrite Hu, Hv, Hx in Hw2. simpl in Hw2.
  destruct Hw2 as (-> & Hs2 & _ & Hp2). by exists s2.
Qed.

Lemma seed_idempotent_witness :
  ∃ s2, seed (λ p, p) sample_settings (after (seed (λ p, p) sample_settings sample_session)) = (Ok (), s2)
    ∧ seeded sample_settings (saved s2).
Proof.
  destruct (seed_idempotent (λ p, p) sample_settings sample_session
    (after (seed (λ p, p) sample_settings sample_session)) ltac:(done)) as [_ H].
  destruct H as (Hs & _ & _ & s2 & H2 & Hsv & _); [vm_compute; reflexivity|].
  exists s2. split; [exact H2|]. rewrite Hsv. exact Hs.
Defined.
