(* ===== verification/Features.v ===== *)
(** Causal rolling features: [services/anomaly_worker/features.py].

    A sample's timestamp is the instant of its aware [datetime], in
    microseconds.  numpy's reductions ([mean], [std], [max], [dot]) are
    parameters; element-wise float64 arithmetic is IEEE arithmetic. *)
From S2P Require Import Prelude PyStr Float64 PyTime.
Local Open Scope py_scope.

Definition FEATURE_SCHEMA_VERSION := 1.
Definition FEATURE_NAMES : list string := [
  "temperature_level_c"; "temperature_slope_c_per_min"; "temperature_std_c"; "current_mean_a";
  "current_std_a"; "vibration_rms_mean_mps2"; "vibration_peak_max_mps2"; "vibration_crest_mean";
  "vibration_to_current_ratio" ].

Record TelemetrySample := {
  s_sample_id : Z; s_timestamp : Z; s_temperature_c : option float;
  s_vibration_rms_mps2 : option float; s_vibration_peak_mps2 : option float;
  s_vibration_crest_factor : option float; s_current_a : option float;
  s_quality : string; s_fault_flags : list string; s_regime : string }.

(** [value is not None and math.isfinite(value)] *)
Definition present_finite (o : option float) : bool :=
  match o with Some x => is_finite x | None => false end.
Definition measurements_are_finite (s : TelemetrySample) : bool :=
  all present_finite [s_temperature_c s; s_vibration_rms_mps2 s; s_vibration_peak_mps2 s;
                      s_vibration_crest_factor s; s_current_a s].
Definition is_healthy (s : TelemetrySample) : bool :=
  String.eqb (s_quality s) "good" && bool_decide (s_fault_flags s = []) && measurements_are_finite s.

Record FeatureRow := {
  w_sample_id : Z; w_timestamp : Z; w_regime : string; w_values : list float }.

(** [sorted(samples, key=lambda item: (item.timestamp, item.sample_id))] *)
Definition sample_ltb (a b : TelemetrySample) : bool :=
  (s_timestamp a <? s_timestamp b)
  || ((s_timestamp a =? s_timestamp b) && (s_sample_id a <? s_sample_id b)).
Definition ordered_samples : list TelemetrySample → list TelemetrySample := py_sorted sample_ltb.

(** [(later - earlier).total_seconds()] *)
Definition elapsed (earlier later : Z) : float := total_seconds (later - earlier).

(** [np.asarray([...], dtype=np.float64)]: [None] becomes a nan. *)
Definition float64_of (o : option float) : float := match o with Some x => x | None => S754_nan end.

Section Features.
Context (mean std amax : list float → float).
Context (dot : list float → list float → float).

Definition slope_per_minute (times_s values : list float) : float :=
  let centered := map (λ t, t ⊖ mean times_s) times_s in
  let denominator := dot centered centered in
  if fleb denominator (of_int 0) then of_int 0
  else dot centered (map (λ v, v ⊖ mean values) values) ⊘ denominator ⊗ of_int 60.

(** The nine features of a window. *)
Definition window_values (segment : list TelemetrySample) : list float :=
  let first_time := match segment with s :: _ => s_timestamp s | [] => 0 end in
  let times := map (λ s, elapsed first_time (s_timestamp s)) segment in
  let temperature := map (λ s, float64_of (s_temperature_c s)) segment in
  let current := map (λ s, float64_of (s_current_a s)) segment in
  let vibration_rms := map (λ s, float64_of (s_vibration_rms_mps2 s)) segment in
  let vibration_peak := map (λ s, float64_of (s_vibration_peak_mps2 s)) segment in
  let crest := map (λ s, float64_of (s_vibration_crest_factor s)) segment in
  let current_mean := mean current in
  [ default S754_nan (last temperature);
    slope_per_minute times temperature;
    std temperature;
    current_mean;
    std current;
    mean vibration_rms;
    amax vibration_peak;
    mean crest;
    mean vibration_rms ⊘ fmax (fabs current_mean) (lit 5 2) ].

Context (window_size minimum_window : Z) (maximum_gap_s : float) (healthy_windows_only : bool).

(** The row of the last sample of a window, unless the loop [continue]s. *)
Definition feature_row (segment : list TelemetrySample) (sample : TelemetrySample) : option FeatureRow :=
  if (Z.of_nat (length segment) <? minimum_window) || negb (all measurements_are_finite segment)
  then None
  else if healthy_windows_only && negb (all is_healthy segment) then None
  else
    let values := window_values segment in
    if all is_finite values
    then Some {| w_sample_id := s_sample_id sample; w_timestamp := s_timestamp sample;
                 w_regime := s_regime sample; w_values := values |}
    else None.

(** The variables of the loop. *)
Record Scan := {
  segment : list TelemetrySample; previous_time : option Z; feature_rows : list FeatureRow }.

Definition too_late (previous : option Z) (now : Z) : bool :=
  match previous with Some t => fltb maximum_gap_s (elapsed t now) | None => false end.

Definition scan_sample (st : Scan) (sample : TelemetrySample) : Scan :=
  let kept := if too_late (previous_time st) (s_timestamp sample) then [] else segment st in
  let grown := kept ++ [sample] in
  let window := if window_size <? Z.of_nat (length grown) then drop 1 grown else grown in
  {| segment := window; previous_time := Some (s_timestamp sample);
     feature_rows := feature_rows st ++ option_list (feature_row window sample) |}.

Definition scan_start : Scan := {| segment := []; previous_time := None; feature_rows := [] |}.

Definition generate_features (samples : list TelemetrySample) : result (list FeatureRow) :=
  if (window_size <? minimum_window) || (minimum_window <? 2)
  then Raise (ValueError "window_size must be at least minimum_window >= 2")
  else Ok (feature_rows (fold_left scan_sample (ordered_samples samples) scan_start)).
End Features.
