(* ===== verification/FeatureProps.v ===== *)
(** What [generate_features] computes: the windows it evaluates are exactly the
    maximal gap-free trailing windows, and no row depends on a later sample. *)
From S2P Require Import Prelude PyStr Float64 PyTime Features.
Local Open Scope py_scope.

Section Windows.
Context (mean std amax : list float → float) (dot : list float → list float → float).
Context (window_size minimum_window : Z) (maximum_gap_s : float) (healthy_windows_only : bool).

Abbreviation sample_row := (feature_row mean std amax dot minimum_window healthy_windows_only).
Abbreviation scan := (scan_sample mean std amax dot window_size minimum_window maximum_gap_s healthy_windows_only).
Abbreviation features := (generate_features mean std amax dot window_size minimum_window maximum_gap_s healthy_windows_only).

(** A pause longer than [maximum_gap_s] between two samples. *)
Definition gap (a b : TelemetrySample) : bool :=
  fltb maximum_gap_s (elapsed (s_timestamp a) (s_timestamp b)).
Definition gap_free (w : list TelemetrySample) : Prop :=
  ∀ l1 a b l2, w = l1 ++ a :: b :: l2 → gap a b = false.

(** [w], which follows [before], is the trailing window that ends with its last
    sample: gap-free, of at most [window_size] samples, and not extensible. *)
Record is_window (before w : list TelemetrySample) : Prop := {
  window_nonempty : w ≠ [];
  window_bounded : Z.of_nat (length w) <= window_size;
  window_gap_free : gap_free w;
  window_maximal : before = [] ∨ Z.of_nat (length w) = window_size
    ∨ ∃ a b, last before = Some a ∧ head w = Some b ∧ gap a b = true }.

Lemma gap_free_snoc w a x : gap_free (w ++ [a]) → gap a x = false → gap_free (w ++ [a; x]).
Proof.
  intros Hw Hx l1 b c l2 E.
  destruct (exists_last (l := c :: l2)) as (m & z & Ez); [done|].
  assert (E' : w ++ [a; x] = (l1 ++ b :: m) ++ [z]).
  { rewrite E, <- app_assoc. simpl. by rewrite <- Ez. }
  assert (E'' : (w ++ [a]) ++ [x] = (l1 ++ b :: m) ++ [z]) by by rewrite <- app_assoc.
  apply app_inj_tail in E'' as [E1 ->].
  destruct m as [|c' m].
  - injection Ez as -> _. apply app_inj_tail in E1 as [_ <-]. done.
  - injection Ez as <- _. by eapply (Hw l1).
Qed.
Lemma gap_free_tail y w : gap_free (y :: w) → gap_free w.
Proof. intros H l1 a b l2 E. apply (H (y :: l1) a b l2). simpl. by rewrite E. Qed.

(** The samples that end a list determine their window. *)
Lemma window_unique before1 w1 before2 w2 :
  is_window before1 w1 → is_window before2 w2 → before1 ++ w1 = before2 ++ w2 →
  before1 = before2 ∧ w1 = w2.
Proof.
  assert (Hwlog : ∀ b1 v1 b2 v2 m, is_window b1 v1 → is_window b2 v2 → b1 = b2 ++ m → v2 = m ++ v1 → m = []).
  { intros b1 v1 b2 v2 m [Hne _ _ Hmax] [_ Hb Hg _] -> ->. destruct m as [|y m _] using rev_ind; [done|].
    rewrite !length_app in Hb; simpl in Hb. destruct Hmax as [E|[E|(a & b & Ha & Hh & Hgap)]].
    - by destruct b2, m.
    - lia.
    - rewrite app_assoc, last_snoc in Ha. injection Ha as ->.
      destruct v1 as [|b' v1]; [done|]. injection Hh as ->.
      rewrite (Hg m a b v1) in Hgap; [done|by rewrite <- app_assoc]. }
  intros W1 W2 E. apply app_eq_inv in E as [(k & -> & ->)|(k & -> & ->)].
  - rewrite (Hwlog _ _ _ _ k W1 W2 eq_refl eq_refl). by rewrite app_nil_r.
  - rewrite (Hwlog _ _ _ _ k W2 W1 eq_refl eq_refl). by rewrite app_nil_r.
Qed.

(** The state of the loop after the samples [p]. *)
Record scanned (p : list TelemetrySample) (st : Scan) : Prop := {
  scanned_start : p = [] → st = scan_start;
  scanned_time : previous_time st = s_timestamp <$> last p;
  scanned_window : p ≠ [] → ∃ before, p = before ++ segment st ∧ is_window before (segment st);
  scanned_rows : ∀ row, row ∈ feature_rows st ↔
    ∃ before w sample after, p = before ++ w ++ after ∧ is_window before w
      ∧ last w = Some sample ∧ sample_row w sample = Some row }.

Context (Hsize : minimum_window <= window_size) (Hmin : 2 <= minimum_window).

(** The window after one more sample. *)
Lemma next_window p st x :
  scanned p st → ∃ before, p ++ [x] = before ++ segment (scan st x) ∧ is_window before (segment (scan st x))
    ∧ last (segment (scan st x)) = Some x.
Proof.
  intros [Hstart Htime Hwin _]. unfold scan_sample; simpl.
  assert (Hone : ∀ before, (before = [] ∨ ∃ a, last before = Some a ∧ gap a x = true) → is_window before [x]).
  { intros before Hb. split; [done|simpl; lia| |].
    - intros l1 a b l2 E. destruct l1 as [|? [|? ?]]; simplify_eq.
    - destruct Hb as [->|(a & Ha & Hg)]; [by left|]. right; right. by exists a, x. }
  assert (Hdrop1 : (window_size <? Z.of_nat 1) = false) by (apply Z.ltb_ge; lia).
  destruct p as [|y p _] using rev_ind.
  { rewrite (Hstart eq_refl). simpl. rewrite Hdrop1. exists []. split; [done|]. split; [apply Hone; by left|done]. }
  rewrite last_snoc in Htime. simpl in Htime. rewrite Htime. unfold too_late.
  change (fltb maximum_gap_s (elapsed (s_timestamp y) (s_timestamp x))) with (gap y x).
  destruct (gap y x) eqn:Hg.
  { simpl. rewrite Hdrop1. exists (p ++ [y]). split; [done|]. split; [|done].
    apply Hone. right. exists y. by rewrite last_snoc. }
  destruct Hwin as (before & E & [Hne Hb Hfree Hmax]); [by destruct p|].
  destruct (segment st) as [|z w _] eqn:Es using rev_ind; [done|].
  rewrite app_assoc in E. apply app_inj_tail in E as [-> <-].
  rewrite length_app in Hb; simpl in Hb.
  assert (Hfree' : gap_free (w ++ [y; x])) by by apply gap_free_snoc.
  rewrite <- !app_assoc. simpl. rewrite length_app. simpl.
  destruct (window_size <? Z.of_nat (length w + 2)) eqn:Hcut.
  - b2p. destruct w as [|h w].
    + exists (before ++ [y]). split; [by rewrite <- app_assoc|]. simpl. split; [|done]. split; [done|simpl in *; lia| |].
      * by apply gap_free_tail in Hfree'.
      * right; left. simpl in *. lia.
    + exists (before ++ [h]). split; [by rewrite <- !app_assoc|]. simpl. rewrite ?drop_0.
      split; [split|].
      * by destruct w.
      * rewrite length_app. simpl in *. lia.
      * by apply gap_free_tail in Hfree'.
      * right; left. rewrite length_app. simpl in *. lia.
      * change (w ++ [y; x]) with (w ++ [y] ++ [x]). by rewrite app_assoc, last_snoc.
  - b2p. exists before. split; [done|]. split; [split|].
    + by destruct w.
    + rewrite length_app. simpl in *. lia.
    + done.
    + destruct Hmax as [->|[Hlen|(a & b & Ha & Hh & Hgap)]]; [by left| |].
      * rewrite length_app in Hlen. simpl in *. lia.
      * right; right. exists a, b. split; [done|]. split; [by destruct w|done].
    + change (w ++ [y; x]) with (w ++ [y] ++ [x]). by rewrite app_assoc, last_snoc.
Qed.

Lemma scan_step p st x : scanned p st → scanned (p ++ [x]) (scan st x).
Proof.
  intros Hp. destruct (next_window p st x Hp) as (before & E & Hw & Hlast).
  split.
  - by destruct p.
  - by rewrite last_snoc.
  - intros _. by exists before.
  - intros row. unfold scan_sample at 1; simpl. rewrite elem_of_app, (scanned_rows _ _ Hp).
    unfold scan_sample in E, Hw, Hlast; simpl in E, Hw, Hlast.
    set (w := if window_size <? _ then _ else _) in *. split.
    + intros [(b & v & s & after & -> & Hv & Hs & Hr)|Hr].
      * exists b, v, s, (after ++ [x]). by rewrite <- !app_assoc.
      * exists before, w, x, []. rewrite app_nil_r. destruct (sample_row w x) eqn:Hx; simpl in Hr.
        -- apply list_elem_of_singleton in Hr as ->. done.
        -- by apply elem_of_nil in Hr.
    + intros (b & v & s & after & Ep & Hv & Hs & Hr). destruct after as [|z after _] using rev_ind.
      * rewrite app_nil_r in Ep. rewrite E in Ep. destruct (window_unique _ _ _ _ Hw Hv Ep) as [<- <-].
        rewrite Hlast in Hs. injection Hs as <-. right. rewrite Hr. simpl. by apply list_elem_of_singleton.
      * rewrite !app_assoc in Ep. apply app_inj_tail in Ep as [-> <-]. left.
        exists b, v, s, after. by rewrite <- !app_assoc.
Qed.

Lemma scan_all p : scanned p (fold_left scan p scan_start).
Proof.
  induction p as [|x p IH] using rev_ind.
  - split; [done..|]. intros row. simpl. split; [intros H; by apply elem_of_nil in H|].
    intros (b & w & s & after & E & [Hne _ _ _] & _). destruct b; [|done]. by destruct w.
  - rewrite fold_left_app. by apply scan_step.
Qed.
End Windows.

Lemma generate_features_ok mean std amax dot W m g h samples rows :
  generate_features mean std amax dot W m g h samples = Ok rows →
  m <= W ∧ 2 <= m
  ∧ rows = feature_rows (fold_left (scan_sample mean std amax dot W m g h) (ordered_samples samples) scan_start).
Proof. unfold generate_features. destruct (_ || _) eqn:E; [done|]. intros [= <-]. b2p. done. Qed.

Lemma feature_row_some mean std amax dot m h w s row :
  feature_row mean std amax dot m h w s = Some row ↔
  m <= Z.of_nat (length w) ∧ (∀ x, x ∈ w → measurements_are_finite x = true)
  ∧ (h = true → ∀ x, x ∈ w → is_healthy x = true)
  ∧ (∀ v, v ∈ window_values mean std amax dot w → is_finite v = true)
  ∧ row = {| w_sample_id := s_sample_id s; w_timestamp := s_timestamp s; w_regime := s_regime s;
             w_values := window_values mean std amax dot w |}.
Proof.
  unfold feature_row, all. rewrite <- !forallb_elem.
  destruct (Z.ltb_spec (Z.of_nat (length w)) m) as [Hl|Hl]; cbn [orb]; [split; [done|intros [? _]; lia]|].
  destruct (forallb measurements_are_finite w), h, (forallb is_healthy w),
    (forallb is_finite (window_values mean std amax dot w)); cbn [negb andb]; split; intros; intuition congruence.
Qed.

(** C20: the feature rows are exactly the rows of the evaluable trailing
    windows of the ordered samples: a sample has a row when the longest
    gap-free run of at most [window_size] samples that ends with it has at
    least [minimum_window] samples, all complete and finite (and all healthy
    when training), and its nine features are finite. *)
Theorem features_are_windows mean std amax dot W m g h samples rows row :
  generate_features mean std amax dot W m g h samples = Ok rows →
  row ∈ rows ↔
  ∃ before window sample after,
    ordered_samples samples = before ++ window ++ after ∧ is_window W g before window
    ∧ last window = Some sample ∧ m <= Z.of_nat (length window)
    ∧ (∀ s, s ∈ window → measurements_are_finite s = true)
    ∧ (h = true → ∀ s, s ∈ window → is_healthy s = true)
    ∧ (∀ v, v ∈ window_values mean std amax dot window → is_finite v = true)
    ∧ row = {| w_sample_id := s_sample_id sample; w_timestamp := s_timestamp sample;
               w_regime := s_regime sample; w_values := window_values mean std amax dot window |}.
Proof.
  intros (HW & Hm & ->)%generate_features_ok.
  rewrite (scanned_rows _ _ _ _ _ _ _ _ _ _ (scan_all mean std amax dot W m g h HW Hm _)).
  setoid_rewrite feature_row_some. done.
Qed.

Lemma scan_rows_grow mean std amax dot W m g h l st :
  ∃ more, feature_rows (fold_left (scan_sample mean std amax dot W m g h) l st) = feature_rows st ++ more
    ∧ ∀ row, row ∈ more → ∃ s, s ∈ l ∧ w_sample_id row = s_sample_id s ∧ w_timestamp row = s_timestamp s.
Proof.
  revert st. induction l as [|x l IH]; intros st; simpl.
  - exists []. rewrite app_nil_r. split; [done|]. intros row H. by apply elem_of_nil in H.
  - destruct (IH (scan_sample mean std amax dot W m g h st x)) as (more & -> & Hmore).
    simpl. rewrite <- app_assoc. eexists. split; [done|]. intros row. rewrite elem_of_app. intros [H|H].
    + exists x. split; [by left|]. destruct (feature_row _ _ _ _ _ _ _ x) as [r|] eqn:E; simpl in H.
      * apply list_elem_of_singleton in H as ->. apply feature_row_some in E as (_ & _ & _ & _ & ->). done.
      * by apply elem_of_nil in H.
    + destruct (Hmore row H) as (s & Hs & ?). exists s. split; [by right|done].
Qed.

(** At most one row per sample, in the order of the samples. *)
Lemma rows_in_order mean std amax dot W m g h samples rows :
  generate_features mean std amax dot W m g h samples = Ok rows →
  map w_sample_id rows `sublist_of` map s_sample_id (ordered_samples samples).
Proof.
  intros (_ & _ & ->)%generate_features_ok.
  assert (H : ∀ l st, ∃ more, feature_rows (fold_left (scan_sample mean std amax dot W m g h) l st) = feature_rows st ++ more
    ∧ map w_sample_id more `sublist_of` map s_sample_id l).
  { induction l as [|x l IH]; intros st; simpl; [exists []; by rewrite app_nil_r|].
    destruct (IH (scan_sample mean std amax dot W m g h st x)) as (more & -> & Hmore).
    simpl. rewrite <- app_assoc. eexists. split; [done|]. rewrite map_app.
    destruct (feature_row _ _ _ _ _ _ _ x) as [r|] eqn:E; simpl; [|by constructor].
    apply feature_row_some in E as (_ & _ & _ & _ & ->). by constructor. }
  destruct (H (ordered_samples samples) scan_start) as (more & -> & Hmore). exact Hmore.
Qed.

(** C21: the features are causal: samples that are not ordered before any known
    one never change a row already produced, they only add rows of their own. *)
Theorem features_are_causal mean std amax dot W m g h samples later rows :
  (∀ a b, a ∈ samples → b ∈ later → sample_ltb b a = false) →
  generate_features mean std amax dot W m g h (samples ++ later) = Ok rows →
  ∃ known more, generate_features mean std amax dot W m g h samples = Ok known ∧ rows = known ++ more
    ∧ ∀ row, row ∈ more → ∃ s, s ∈ later ∧ w_sample_id row = s_sample_id s ∧ w_timestamp row = s_timestamp s.
Proof.
  intros Hlater H. pose proof (generate_features_ok _ _ _ _ _ _ _ _ _ _ H) as (HW & Hm & ->).
  unfold generate_features, ordered_samples in *. rewrite py_sorted_app by done. rewrite fold_left_app.
  destruct (scan_rows_grow mean std amax dot W m g h (py_sorted sample_ltb later)
    (fold_left (scan_sample mean std amax dot W m g h) (py_sorted sample_ltb samples) scan_start)) as (more & -> & Hmore).
  destruct (_ || _); [done|]. eexists _, more. split; [done|]. split; [done|].
  intros row Hrow. destruct (Hmore row Hrow) as (s & Hs & ?). exists s. by rewrite py_sorted_perm in Hs.
Qed.

(** ** Witnesses *)

(** Reductions by sequential sums, and the standard deviation as zero. *)
Definition sum_mean (l : list float) : float := fold_left fadd l (of_int 0) ⊘ of_int (Z.of_nat (length l)).
Definition no_spread (l : list float) : float := of_int 0.
Definition list_max (l : list float) : float := match l with x :: l => fold_left fmax l x | [] => S754_nan end.
Definition sum_dot (a b : list float) : float := fold_left fadd (zip_with fmul a b) (of_int 0).

Definition sample_at (i : Z) : TelemetrySample := {|
  s_sample_id := i; s_timestamp := seconds (10 * i); s_temperature_c := Some (of_int (40 + i));
  s_vibration_rms_mps2 := Some (of_int 1); s_vibration_peak_mps2 := Some (of_int 2);
  s_vibration_crest_factor := Some (of_int 2); s_current_a := Some (lit 6 1);
  s_quality := "good"; s_fault_flags := []; s_regime := "normal" |}.
Definition known_samples : list TelemetrySample := map sample_at [0; 1; 2; 3; 4; 5; 6].

Lemma features_are_causal_witness :
  let features := generate_features sum_mean no_spread list_max sum_dot 12 6 (of_int 30) true in
  ∃ known more, features known_samples = Ok known ∧ length known = 2%nat
    ∧ features (known_samples ++ [sample_at 7]) = Ok (known ++ more) ∧ length more = 1%nat.
Proof.
  cbv zeta.
  pose proof (features_are_causal sum_mean no_spread list_max sum_dot 12 6 (of_int 30) true known_samples [sample_at 7]) as H.
  destruct (generate_features _ _ _ _ _ _ _ _ (known_samples ++ [sample_at 7])) as [rows|] eqn:E; [|vm_compute in E; discriminate].
  destruct (H rows) as (known & more & Hk & -> & _).
  - assert (Hall : forallb (λ a, negb (sample_ltb (sample_at 7) a)) known_samples = true) by (vm_compute; reflexivity).
    intros a b Ha Hb. apply list_elem_of_singleton in Hb as ->. rewrite forallb_elem in Hall.
    apply negb_true_iff. exact (Hall a Ha).
  - reflexivity.
  - exists known, more. split; [exact Hk|]. vm_compute in Hk. injection Hk as <-. split; [reflexivity|].
    split; [reflexivity|]. vm_compute in E. injection E as <-. reflexivity.
Defined.

Lemma features_are_windows_witness :
  ∃ rows row, generate_features sum_mean no_spread list_max sum_dot 12 6 (of_int 30) true known_samples = Ok rows
    ∧ row ∈ rows ∧ ∃ before window after, ordered_samples known_samples = before ++ window ++ after
    ∧ is_window 12 (of_int 30) before window ∧ last window = Some (sample_at (w_sample_id row)).
Proof.
  destruct (generate_features sum_mean no_spread list_max sum_dot 12 6 (of_int 30) true known_samples) as [rows|] eqn:E;
    [|vm_compute in E; discriminate].
  pose proof (features_are_windows sum_mean no_spread list_max sum_dot 12 6 (of_int 30) true known_samples rows) as H.
  destruct rows as [|row rows]; [vm_compute in E; discriminate|]. exists (row :: rows), row. split; [reflexivity|].
  split; [left|]. destruct (proj1 (H row E)) as (before & window & s & after & Ho & Hw & Hl & _ & _ & _ & _ & ->).
  - left.
  - exists before, window, after. split; [exact Ho|]. split; [exact Hw|]. rewrite Hl. f_equal. simpl.
    assert (Hs : s ∈ ordered_samples known_samples).
    { rewrite Ho. rewrite !elem_of_app. right; left. apply last_Some in Hl as [w ->]. rewrite elem_of_app. right. left. }
    unfold ordered_samples in Hs. rewrite py_sorted_perm in Hs.
    unfold known_samples in Hs. apply list_elem_of_In, in_map_iff in Hs as (i & <- & _). reflexivity.
Defined.
