(* ===== verification/SensorRules.v ===== *)
(** Deterministic sensor-failure rules: [services/anomaly_worker/sensor_rules.py],
    with the parts of [statistics] they use. *)
From S2P Require Import Prelude PyStr Float64 PyFormat PyTime Features.
Local Open Scope py_scope.

(** ** [statistics.pstdev]

    The sums are exact fractions; the square root is rounded once. *)
Definition bit_length (n : Z) : Z := if n =? 0 then 0 else Z.log2 n + 1.
(** The square root of [n / m], rounded to odd. *)
Definition integer_sqrt_of_frac_rto (n m : Z) : Z :=
  let a := Z.sqrt (n / m) in Z.lor a (if a * a * m =? n then 0 else 1).
Definition float_sqrt_of_frac (n m : Z) : float :=
  let q := (bit_length n - bit_length m - 109) / 2 in
  if 0 <=? q
  then int_div (Z.shiftl (integer_sqrt_of_frac_rto n (Z.shiftl m (2 * q))) q) 1
  else int_div (integer_sqrt_of_frac_rto (Z.shiftl n (-2 * q)) m) (Z.shiftl 1 (- q)).

Definition sum_Z (l : list Z) : Z := fold_left Z.add l 0.
Definition pstdev (data : list float) : result float :=
  if bool_decide (data = []) then Raise (ValueError "pstdev requires at least one data point")
  else if negb (all is_finite data) then Raise (ValueError "inf or nan encountered in data")
  else
    let keys := map fkey data in
    let count := Z.of_nat (length data) in
    let n := count * sum_Z (map (λ k, k * k) keys) - sum_Z keys * sum_Z keys in
    let m := count * count * 2 ^ 2148 in
    let g := Z.gcd n m in
    Ok (float_sqrt_of_frac (n / g) (m / g)).

Example pstdev_examples :
  pstdev (map of_int [1; 2; 3; 4]) = Ok (lit 1118033988749895 15)
  ∧ pstdev (map of_int [5; 5; 5]) = Ok (of_int 0)
  ∧ pstdev [lit 1 1; lit 2 1; lit 3 1] = Ok (lit 816496580927726 16).
Proof. vm_compute. done. Qed.

(** [max(values)] and [min(values)] of a non-empty list. *)
Definition py_max (values : list float) : float :=
  match values with x :: l => fold_left (λ m v, if fltb m v then v else m) l x | [] => S754_nan end.
Definition py_min (values : list float) : float :=
  match values with x :: l => fold_left (λ m v, if fltb v m then v else m) l x | [] => S754_nan end.

(** ** The rules *)

Record SensorDiagnostic := { g_code : string; g_metric : string; g_reason : string }.

(** The dict [bounds]: metric, value, minimum, maximum, unit. *)
Record Bound := { b_metric : string; b_value : option float; b_minimum : float; b_maximum : float; b_unit : string }.
Definition bounds (current : TelemetrySample) : list Bound := [
  Build_Bound "temperature" (s_temperature_c current) (lit (-800) 1) (lit 2000 1) "°C";
  Build_Bound "current" (s_current_a current) (lit (-1) 1) (lit 100 1) "A";
  Build_Bound "vibration_rms" (s_vibration_rms_mps2 current) (lit 0 1) (lit 20000 1) "m/s²";
  Build_Bound "vibration_peak" (s_vibration_peak_mps2 current) (lit 0 1) (lit 40000 1) "m/s²";
  Build_Bound "crest_factor" (s_vibration_crest_factor current) (lit 0 1) (lit 1000 1) "ratio" ].

Definition out_of_range (value minimum maximum : float) : bool := fltb value minimum || fltb maximum value.
Definition range_rule (b : Bound) : option SensorDiagnostic :=
  match b_value b with
  | None => Some (Build_SensorDiagnostic "SENSOR_MISSING" (b_metric b) (b_metric b +:+ " sample is missing"))
  | Some value =>
      if out_of_range value (b_minimum b) (b_maximum b)
      then Some (Build_SensorDiagnostic "SENSOR_IMPOSSIBLE_RANGE" (b_metric b)
             (b_metric b +:+ " is " +:+ fmt_g 3 value +:+ " " +:+ b_unit b +:+ ", outside ["
              +:+ fmt_g 6 (b_minimum b) +:+ ", " +:+ fmt_g 6 (b_maximum b) +:+ "]"))
      else None
  end.

Definition gap_rule (maximum_gap_s : float) (previous current : TelemetrySample) : option SensorDiagnostic :=
  let gap_s := elapsed (s_timestamp previous) (s_timestamp current) in
  if fltb maximum_gap_s gap_s
  then Some (Build_SensorDiagnostic "SAMPLES_MISSING" "all"
         ("sample gap is " +:+ fmt_f 1 gap_s +:+ " s, above the " +:+ fmt_f 1 maximum_gap_s +:+ " s limit"))
  else None.

Definition peak_below_rms (current : TelemetrySample) : bool :=
  match s_vibration_peak_mps2 current, s_vibration_rms_mps2 current with
  | Some peak, Some rms => fltb (peak ⊕ lit 1 9) rms
  | _, _ => false
  end.
Definition relation_rule (current : TelemetrySample) : option SensorDiagnostic :=
  if peak_below_rms current
  then Some (Build_SensorDiagnostic "SENSOR_RELATION_INVALID" "vibration"
         "vibration peak is below vibration RMS for the same aggregation window")
  else None.

(** The dicts [sequences], [stuck_tolerances] and [noise_limits]. *)
Record Sequence := {
  q_metric : string; q_values : list (option float); q_tolerance : float; q_noise_limit : float }.
Definition sequences (recent : list TelemetrySample) : list Sequence := [
  Build_Sequence "temperature" (map s_temperature_c recent) (lit 1 3) (lit 50 1);
  Build_Sequence "current" (map s_current_a recent) (lit 1 4) (lit 8 1);
  Build_Sequence "vibration_rms" (map s_vibration_rms_mps2 recent) (lit 1 4) (lit 120 1) ].

Definition is_stuck (values : list float) (tolerance : float) : bool :=
  fleb (py_max values ⊖ py_min values) tolerance.
Definition spread_rule (q : Sequence) : result (option SensorDiagnostic) :=
  match mapM id (q_values q) with
  | None => mret None
  | Some values =>
      if is_stuck values (q_tolerance q)
      then mret (Some (Build_SensorDiagnostic "SENSOR_STUCK" (q_metric q)
             (q_metric q +:+ " changed by no more than " +:+ fmt_g 6 (q_tolerance q)
              +:+ " across " +:+ str_of_Z (Z.of_nat (length values)) +:+ " samples")))
      else
        deviation ← pstdev values;
        mret (if fltb (q_noise_limit q) deviation
              then Some (Build_SensorDiagnostic "SENSOR_EXCESSIVE_NOISE" (q_metric q)
                     (q_metric q +:+ " standard deviation is " +:+ fmt_g 3 deviation
                      +:+ ", above " +:+ fmt_g 6 (q_noise_limit q)))
              else None)
  end.

(** The dict [rates]. *)
Record Rate := {
  z_metric : string; z_before : option float; z_after : option float; z_limit : float; z_unit : string }.
Definition rates (previous current : TelemetrySample) : list Rate := [
  Build_Rate "temperature" (s_temperature_c previous) (s_temperature_c current) (lit 100 1) "°C/s";
  Build_Rate "current" (s_current_a previous) (s_current_a current) (lit 30 1) "A/s";
  Build_Rate "vibration_rms" (s_vibration_rms_mps2 previous) (s_vibration_rms_mps2 current) (lit 1000 1) "m/s²/s" ].
Definition elapsed_floor (previous current : TelemetrySample) : float :=
  fmax (elapsed (s_timestamp previous) (s_timestamp current)) (lit 1 6).
Definition rate_of (before after elapsed_s : float) : float := fabs (after ⊖ before) ⊘ elapsed_s.
Definition rate_rule (elapsed_s : float) (z : Rate) : option SensorDiagnostic :=
  match z_before z, z_after z with
  | Some before, Some after =>
      let rate := rate_of before after elapsed_s in
      if fltb (z_limit z) rate
      then Some (Build_SensorDiagnostic "SENSOR_RATE_INVALID" (z_metric z)
             (z_metric z +:+ " rate is " +:+ fmt_g 3 rate +:+ " " +:+ z_unit z +:+ ", above " +:+ fmt_g 6 (z_limit z)))
      else None
  | _, _ => None
  end.

(** [unique.setdefault((item.code, item.metric), item)] for every item: the
    first diagnostic of each key, in order. *)
Definition diagnostic_key (d : SensorDiagnostic) : string * string := (g_code d, g_metric d).
Definition setdefault (unique : list SensorDiagnostic) (d : SensorDiagnostic) : list SensorDiagnostic :=
  if existsb (λ u, bool_decide (diagnostic_key u = diagnostic_key d)) unique then unique else unique ++ [d].
Definition first_of_each (diagnostics : list SensorDiagnostic) : list SensorDiagnostic :=
  fold_left setdefault diagnostics [].

Definition detect_sensor_failures (maximum_gap_s : float) (history : list TelemetrySample) :
    result (list SensorDiagnostic) :=
  let ordered := ordered_samples history in
  match rev ordered with
  | [] => mret [Build_SensorDiagnostic "SAMPLES_MISSING" "all" "no telemetry samples are available"]
  | current :: earlier =>
      let previous := head earlier in
      let gaps := match previous with Some p => option_list (gap_rule maximum_gap_s p current) | None => [] end in
      let ranges := omap range_rule (bounds current) in
      let relation := option_list (relation_rule current) in
      let recent := last_n 12 ordered in
      spreads ← (if (8 <=? length recent)%nat then mapM spread_rule (sequences recent) else mret []);
      let speeds := match previous with
                    | Some p => omap (rate_rule (elapsed_floor p current)) (rates p current)
                    | None => []
                    end in
      mret (first_of_each (gaps ++ ranges ++ relation ++ omap id spreads ++ speeds))
  end.
