(* ===== verification/SensorProps.v ===== *)
(** The sensor rules against their declarative reading: a diagnostic is
    reported, once, exactly when its condition holds on the ordered history. *)
From S2P Require Import Prelude PyStr Float64 PyFormat PyTime Features SensorRules.
Local Open Scope py_scope.

(** [fires g ordered code metric]: the rule [code] applies to [metric]. *)
Inductive fires (g : float) (ordered : list TelemetrySample) : string → string → Prop :=
  | fires_empty : ordered = [] → fires g ordered "SAMPLES_MISSING" "all"
  | fires_gap l p c :
      ordered = l ++ [p; c] → fltb g (elapsed (s_timestamp p) (s_timestamp c)) = true →
      fires g ordered "SAMPLES_MISSING" "all"
  | fires_missing l c b :
      ordered = l ++ [c] → b ∈ bounds c → b_value b = None →
      fires g ordered "SENSOR_MISSING" (b_metric b)
  | fires_range l c b x :
      ordered = l ++ [c] → b ∈ bounds c → b_value b = Some x →
      out_of_range x (b_minimum b) (b_maximum b) = true →
      fires g ordered "SENSOR_IMPOSSIBLE_RANGE" (b_metric b)
  | fires_relation l c :
      ordered = l ++ [c] → peak_below_rms c = true →
      fires g ordered "SENSOR_RELATION_INVALID" "vibration"
  | fires_stuck q xs :
      (8 <= length ordered)%nat → q ∈ sequences (last_n 12 ordered) → q_values q = map Some xs →
      is_stuck xs (q_tolerance q) = true → fires g ordered "SENSOR_STUCK" (q_metric q)
  | fires_noise q xs deviation :
      (8 <= length ordered)%nat → q ∈ sequences (last_n 12 ordered) → q_values q = map Some xs →
      is_stuck xs (q_tolerance q) = false → pstdev xs = Ok deviation →
      fltb (q_noise_limit q) deviation = true → fires g ordered "SENSOR_EXCESSIVE_NOISE" (q_metric q)
  | fires_rate l p c z before after :
      ordered = l ++ [p; c] → z ∈ rates p c → z_before z = Some before → z_after z = Some after →
      fltb (z_limit z) (rate_of before after (elapsed_floor p c)) = true →
      fires g ordered "SENSOR_RATE_INVALID" (z_metric z).

(** Every measurement present is a finite number, as the contract requires. *)
Definition finite_sample (s : TelemetrySample) : Prop :=
  ∀ x, s_temperature_c s = Some x ∨ s_current_a s = Some x ∨ s_vibration_rms_mps2 s = Some x →
  is_finite x = true.

(** ** The dict of first diagnostics *)

Definition reported (ds : list SensorDiagnostic) (code metric : string) : Prop :=
  (code, metric) ∈ map diagnostic_key ds.

Lemma setdefault_keys u d :
  NoDup (map diagnostic_key u) →
  NoDup (map diagnostic_key (setdefault u d))
  ∧ ∀ k, k ∈ map diagnostic_key (setdefault u d) ↔ k ∈ map diagnostic_key u ∨ k = diagnostic_key d.
Proof.
  intros Hu. unfold setdefault. destruct (existsb _ u) eqn:E.
  - split; [done|]. intros k. split; [by left|]. intros [H| ->]; [done|].
    apply existsb_exists in E as (x & Hx & E). apply bool_decide_eq_true in E. rewrite <- E.
    apply list_elem_of_In, in_map. done.
  - rewrite map_app; simpl. split.
    + apply NoDup_app. split; [done|]. split; [|apply NoDup_singleton].
      intros k Hk Hd. apply list_elem_of_singleton in Hd as ->.
      apply list_elem_of_In, in_map_iff in Hk as (x & Hk & Hx).
      rewrite (proj2 (existsb_exists _ u)) in E; [done|]. exists x. split; [done|]. by apply bool_decide_eq_true.
    + intros k. rewrite elem_of_app, list_elem_of_singleton. done.
Qed.

Lemma first_of_each_keys l :
  NoDup (map diagnostic_key (first_of_each l))
  ∧ ∀ code metric, reported (first_of_each l) code metric ↔ reported l code metric.
Proof.
  unfold first_of_each, reported.
  assert (H : ∀ u, NoDup (map diagnostic_key u) → NoDup (map diagnostic_key (fold_left setdefault l u))
    ∧ ∀ k, k ∈ map diagnostic_key (fold_left setdefault l u) ↔ k ∈ map diagnostic_key u ∨ k ∈ map diagnostic_key l).
  { induction l as [|d l IH]; intros u Hu; simpl.
    - split; [done|]. intros k. rewrite elem_of_nil. tauto.
    - destruct (setdefault_keys u d Hu) as [Hn Hk]. destruct (IH _ Hn) as [Hn' Hk']. split; [done|].
      intros k. rewrite Hk', Hk, elem_of_cons. tauto. }
  destruct (H [] ltac:(constructor)) as [Hn Hk]. split; [done|]. intros code metric.
  rewrite Hk, elem_of_nil. tauto.
Qed.

Lemma reported_app l1 l2 code metric :
  reported (l1 ++ l2) code metric ↔ reported l1 code metric ∨ reported l2 code metric.
Proof. unfold reported. by rewrite map_app, elem_of_app. Qed.
Lemma reported_omap {A} (f : A → option SensorDiagnostic) l code metric :
  reported (omap f l) code metric ↔ ∃ x d, x ∈ l ∧ f x = Some d ∧ diagnostic_key d = (code, metric).
Proof.
  unfold reported. rewrite list_elem_of_In, in_map_iff. setoid_rewrite <- list_elem_of_In.
  setoid_rewrite list_elem_of_omap. naive_solver.
Qed.
Lemma reported_option o code metric :
  reported (option_list o) code metric ↔ ∃ d, o = Some d ∧ diagnostic_key d = (code, metric).
Proof.
  destruct o as [d|]; unfold reported; simpl.
  - rewrite list_elem_of_singleton. naive_solver.
  - rewrite elem_of_nil. naive_solver.
Qed.

(** ** The statistical rules *)

Lemma mapM_id_Some {A} (l : list (option A)) xs : mapM id l = Some xs ↔ l = map Some xs.
Proof.
  split.
  - intros H%mapM_Some_1. induction H as [|o x l xs Ho _ IH]; [done|]. simpl. unfold id in Ho. by rewrite Ho, IH.
  - intros ->. apply mapM_Some_2. induction xs; simpl; by constructor.
Qed.

Definition spread_fires (q : Sequence) (code : string) : Prop :=
  ∃ xs, q_values q = map Some xs ∧
    ((is_stuck xs (q_tolerance q) = true ∧ code = "SENSOR_STUCK")
     ∨ (is_stuck xs (q_tolerance q) = false
        ∧ (∃ deviation, pstdev xs = Ok deviation ∧ fltb (q_noise_limit q) deviation = true)
        ∧ code = "SENSOR_EXCESSIVE_NOISE")).

Lemma spread_rule_fires q o code metric :
  spread_rule q = Ok o →
  (∃ d, o = Some d ∧ diagnostic_key d = (code, metric)) ↔ metric = q_metric q ∧ spread_fires q code.
Proof.
  unfold spread_rule, spread_fires. destruct (mapM id (q_values q)) as [xs|] eqn:E.
  - apply mapM_id_Some in E. rewrite E.
    assert (Hinj : ∀ ys, map Some xs = map Some ys → ys = xs).
    { intros ys Hy. apply (list_fmap_eq_inj Some) in Hy; [done|]. by intros ? ? [=]. }
    destruct (is_stuck xs (q_tolerance q)) eqn:Es.
    + intros [= <-]. split; [|intros (-> & ys & <-%Hinj & [[_ ->]|(? & _)]); [by eexists|congruence]].
      intros (d & [= <-] & [= <- <-]). split; [done|]. exists xs. auto.
    + unfold mbind, result_bind. destruct (pstdev xs) as [v|] eqn:Ep; [|done]. intros [= <-].
      destruct (fltb (q_noise_limit q) v) eqn:Ev.
      * split; [|intros (-> & ys & <-%Hinj & [[? _]|(_ & _ & ->)]); [congruence|by eexists]].
        intros (d & [= <-] & [= <- <-]). split; [done|]. exists xs. split; [done|]. right. split; [done|]. split; [by exists v|done].
      * split; [by intros (d & ? & _)|].
        intros (-> & ys & <-%Hinj & [[? _]|(_ & (w & Hw & Hf) & _)]); congruence.
  - intros [= <-]. split; [by intros (? & ? & _)|]. intros (_ & xs & Hx & _). apply mapM_id_Some in Hx. congruence.
Qed.

Lemma spread_rule_total q :
  (∀ xs, q_values q = map Some xs → xs ≠ [] ∧ all is_finite xs = true) → ∃ o, spread_rule q = Ok o.
Proof.
  intros H. unfold spread_rule. destruct (mapM id (q_values q)) as [xs|] eqn:E; [|by eexists].
  destruct (H xs) as [Hne Hf]; [by apply mapM_id_Some|]. destruct (is_stuck _ _); [by eexists|].
  unfold pstdev. rewrite bool_decide_eq_false_2, Hf by done. by eexists.
Qed.

Lemma last_n_subset {A} n (l : list A) x : x ∈ last_n n l → x ∈ l.
Proof. unfold last_n. intros H. rewrite <- (take_drop (length l - n) l), elem_of_app. by right. Qed.

(** Every window of finite samples can be judged. *)
Lemma spreads_total recent :
  recent ≠ [] → (∀ s, s ∈ recent → finite_sample s) →
  ∃ os, mapM spread_rule (sequences recent) = Ok os ∧ Forall2 (λ q o, spread_rule q = Ok o) (sequences recent) os.
Proof.
  intros Hne Hfin. apply mapM_result_ok. intros q Hq. apply spread_rule_total. intros xs Hx.
  assert (Hsome : ∀ (f : TelemetrySample → option float), (∀ s x, f s = Some x → s ∈ recent → is_finite x = true) →
    map f recent = map Some xs → xs ≠ [] ∧ all is_finite xs = true).
  { intros f Hf Heq. split; [intros ->; by destruct recent|]. apply forallb_elem. intros x Hin.
    assert (H : Some x ∈ map f recent) by (rewrite Heq; by apply list_elem_of_fmap_2).
    apply list_elem_of_In, in_map_iff in H as (s & Hs & Hin'). apply (Hf s x Hs). by apply list_elem_of_In. }
  unfold sequences in Hq. rewrite !elem_of_cons, elem_of_nil in Hq.
  destruct Hq as [->|[->|[->|[]]]]; simpl in Hx; (eapply Hsome; [|exact Hx]);
    intros s x Hs Hin; apply (Hfin s Hin x); tauto.
Qed.

Lemma spreads_reported recent os code metric :
  Forall2 (λ q o, spread_rule q = Ok o) (sequences recent) os →
  reported (omap id os) code metric ↔ ∃ q, q ∈ sequences recent ∧ metric = q_metric q ∧ spread_fires q code.
Proof.
  intros H. rewrite reported_omap. split.
  - intros (o & d & Ho & Hd & Hk). apply list_elem_of_lookup in Ho as [i Hi].
    destruct (Forall2_lookup_r _ _ _ _ _ H Hi) as (q & Hq & Hr). exists q.
    split; [by eapply list_elem_of_lookup_2|]. apply (spread_rule_fires q o code metric Hr). by exists d.
  - intros (q & Hq & Hm). apply list_elem_of_lookup in Hq as [i Hi].
    destruct (Forall2_lookup_l _ _ _ _ _ H Hi) as (o & Ho & Hr).
    pose proof (proj2 (spread_rule_fires q o code metric Hr) Hm) as (d & -> & Hk).
    exists (Some d), d. split; [by eapply list_elem_of_lookup_2|]. done.
Qed.

(** ** The whole rule set *)

Definition gap_reports (g : float) (l : list TelemetrySample) (c : TelemetrySample) : list SensorDiagnostic :=
  match last l with Some p => option_list (gap_rule g p c) | None => [] end.
Definition rate_reports (l : list TelemetrySample) (c : TelemetrySample) : list SensorDiagnostic :=
  match last l with Some p => omap (rate_rule (elapsed_floor p c)) (rates p c) | None => [] end.

Lemma detect_unfold g history l c :
  ordered_samples history = l ++ [c] →
  detect_sensor_failures g history
  = (spreads ← (if (8 <=? length (last_n 12 (l ++ [c])))%nat
                then mapM spread_rule (sequences (last_n 12 (l ++ [c]))) else mret []);
     mret (first_of_each (gap_reports g l c ++ omap range_rule (bounds c) ++ option_list (relation_rule c)
             ++ omap id spreads ++ rate_reports l c))).
Proof.
  intros E. unfold detect_sensor_failures, gap_reports, rate_reports. rewrite E, rev_unit.
  rewrite <- head_reverse. unfold reverse. by rewrite <- rev_alt.
Qed.

Lemma gap_reported g l c code metric :
  reported (gap_reports g l c) code metric ↔
  ∃ l' p, l = l' ++ [p] ∧ fltb g (elapsed (s_timestamp p) (s_timestamp c)) = true
    ∧ code = "SAMPLES_MISSING" ∧ metric = "all".
Proof.
  unfold gap_reports. destruct l as [|p l _] using rev_ind.
  - simpl. unfold reported; simpl. rewrite elem_of_nil. split; [done|]. intros (l' & p & E & _). by destruct l'.
  - rewrite last_snoc, reported_option. unfold gap_rule. split.
    + intros (d & Hd & Hk). destruct (fltb _ _) eqn:E; [|done]. exists l, p. injection Hd as <-. by injection Hk as <- <-.
    + intros (l' & p' & [-> ->]%app_inj_tail & -> & -> & ->). by eexists.
Qed.

Lemma rate_reported l c code metric :
  reported (rate_reports l c) code metric ↔
  ∃ l' p z before after, l = l' ++ [p] ∧ z ∈ rates p c ∧ z_before z = Some before ∧ z_after z = Some after
    ∧ fltb (z_limit z) (rate_of before after (elapsed_floor p c)) = true
    ∧ code = "SENSOR_RATE_INVALID" ∧ metric = z_metric z.
Proof.
  unfold rate_reports. destruct l as [|p l _] using rev_ind.
  - simpl. unfold reported; simpl. rewrite elem_of_nil. split; [done|]. intros (l' & ? & ? & ? & ? & E & _). by destruct l'.
  - rewrite last_snoc, reported_omap. unfold rate_rule. split.
    + intros (z & d & Hz & Hd & Hk). destruct (z_before z) as [b|] eqn:Eb; [|done].
      destruct (z_after z) as [a|] eqn:Ea; [|done]. destruct (fltb _ _) eqn:E; [|done].
      exists l, p, z, b, a. injection Hd as <-. injection Hk as <- <-. auto 8.
    + intros (l' & p' & z & b & a & [-> ->]%app_inj_tail & Hz & Eb & Ea & E & -> & ->). exists z.
      rewrite Eb, Ea, E. by eexists.
Qed.

Lemma range_reported c code metric :
  reported (omap range_rule (bounds c)) code metric ↔
  ∃ b, b ∈ bounds c ∧ metric = b_metric b ∧
    ((b_value b = None ∧ code = "SENSOR_MISSING")
     ∨ ∃ x, b_value b = Some x ∧ out_of_range x (b_minimum b) (b_maximum b) = true ∧ code = "SENSOR_IMPOSSIBLE_RANGE").
Proof.
  rewrite reported_omap. unfold range_rule. split.
  - intros (b & d & Hb & Hd & Hk). exists b. split; [done|]. destruct (b_value b) as [x|] eqn:E.
    + destruct (out_of_range _ _ _) eqn:Er; [|done]. injection Hd as <-. injection Hk as <- <-. split; [done|].
      right. by exists x.
    + injection Hd as <-. injection Hk as <- <-. split; [done|]. by left.
  - intros (b & Hb & -> & [[E ->]|(x & E & Er & ->)]); exists b; rewrite E; [by eexists|]. rewrite Er. by eexists.
Qed.

Lemma relation_reported c code metric :
  reported (option_list (relation_rule c)) code metric ↔
  peak_below_rms c = true ∧ code = "SENSOR_RELATION_INVALID" ∧ metric = "vibration".
Proof.
  rewrite reported_option. unfold relation_rule. destruct (peak_below_rms c).
  - split; [intros (d & [= <-] & [= <- <-]); done|]. intros (_ & -> & ->). by eexists.
  - split; [intros (d & [=] & _)|by intros (? & _)].
Qed.

(** The reports of a non-empty history are the rules that fire on it. *)
Lemma reports_fire g l c os code metric :
  ((8 <= length (l ++ [c]))%nat → Forall2 (λ q o, spread_rule q = Ok o) (sequences (last_n 12 (l ++ [c]))) os) →
  (¬ (8 <= length (l ++ [c]))%nat → os = []) →
  reported (gap_reports g l c ++ omap range_rule (bounds c) ++ option_list (relation_rule c)
            ++ omap id os ++ rate_reports l c) code metric ↔ fires g (l ++ [c]) code metric.
Proof.
  intros Hlong Hshort.
  rewrite !reported_app, gap_reported, rate_reported, range_reported, relation_reported.
  assert (Hspread : reported (omap id os) code metric ↔ (8 <= length (l ++ [c]))%nat
    ∧ ∃ q, q ∈ sequences (last_n 12 (l ++ [c])) ∧ metric = q_metric q ∧ spread_fires q code).
  { destruct (decide (8 <= length (l ++ [c]))%nat) as [H8|H8].
    - rewrite (spreads_reported _ _ _ _ (Hlong H8)). tauto.
    - rewrite (Hshort H8). unfold reported; simpl. rewrite elem_of_nil. tauto. }
  rewrite Hspread. split.
  - intros [(l' & p & -> & E & -> & ->)|[(b & Hb & -> & [[E ->]|(x & E & Er & ->)])|[(E & -> & ->)|[(H8 & q & Hq & -> & xs & Hx & [[Es ->]|(Es & (d & Hd & Hf) & ->)])|(l' & p & z & b & a & -> & Hz & Eb & Ea & E & -> & ->)]]]].
    + eapply fires_gap; [by rewrite <- app_assoc|done].
    + by eapply fires_missing.
    + by eapply fires_range.
    + by eapply fires_relation.
    + by eapply fires_stuck.
    + by eapply fires_noise.
    + eapply fires_rate; [by rewrite <- app_assoc|done..].
  - intros H. destruct H as [E|l' p c' E Hg|l' c' b E Hb Hv|l' c' b x E Hb Hv Hr|l' c' E Hp|q xs H8 Hq Hx Hs|q xs d H8 Hq Hx Hs Hp Hf|l' p c' z b a E Hz Hb Ha Hf].
    + by destruct l.
    + left. change (l' ++ [p; c']) with (l' ++ [p] ++ [c']) in E. rewrite app_assoc in E.
      apply app_inj_tail in E as [-> ->]. by exists l', p.
    + apply app_inj_tail in E as [-> ->]. right; left. exists b. auto.
    + apply app_inj_tail in E as [-> ->]. right; left. exists b. split; [done|]. split; [done|]. right. by exists x.
    + apply app_inj_tail in E as [-> ->]. right; right; left. done.
    + right; right; right; left. split; [done|]. exists q. split; [done|]. split; [done|]. exists xs. auto.
    + right; right; right; left. split; [done|]. exists q. split; [done|]. split; [done|]. exists xs.
      split; [done|]. right. split; [done|]. split; [by exists d|done].
    + right; right; right; right. change (l' ++ [p; c']) with (l' ++ [p] ++ [c']) in E. rewrite app_assoc in E.
      apply app_inj_tail in E as [-> ->]. by exists l', p, z, b, a.
Qed.

Lemma spreads_run history l c :
  ordered_samples history = l ++ [c] → (∀ s, s ∈ history → finite_sample s) →
  let recent := last_n 12 (l ++ [c]) in
  ∃ os, (if (8 <=? length recent)%nat then mapM spread_rule (sequences recent) else mret []) = Ok os
    ∧ ((8 <= length (l ++ [c]))%nat → Forall2 (λ q o, spread_rule q = Ok o) (sequences recent) os)
    ∧ (¬ (8 <= length (l ++ [c]))%nat → os = []).
Proof.
  intros E Hfin. cbv zeta. rewrite length_last_n.
  destruct (Nat.leb_spec 8 (12 `min` length (l ++ [c]))) as [H8|H8];
    [|exists []; split; [done|]; split; [|done]; intros Hn; lia].
  destruct (spreads_total (last_n 12 (l ++ [c]))) as (os & Hos & HF).
  - intros Hnil. pose proof (length_last_n 12 (l ++ [c])) as Hl. rewrite Hnil in Hl. cbn [length] in Hl. lia.
  - intros s Hs. apply Hfin. apply last_n_subset in Hs. rewrite <- E in Hs.
    unfold ordered_samples in Hs. by rewrite py_sorted_perm in Hs.
  - exists os. split; [done|]. split; [done|]. intros Hn. lia.
Qed.

Lemma detect_total g history :
  (∀ s, s ∈ history → finite_sample s) → ∃ ds, detect_sensor_failures g history = Ok ds.
Proof.
  intros Hfin. destruct (ordered_samples history) as [|c l _] eqn:E using rev_ind.
  - unfold detect_sensor_failures. rewrite E. by eexists.
  - destruct (spreads_run history l c E Hfin) as (os & Hos & _). rewrite (detect_unfold g history l c E), Hos. by eexists.
Qed.

(** C17: on samples whose measurements are finite the sensor rules never raise;
    they report each (code, metric) at most once, and report it exactly when
    its rule holds: missing or late samples, impossible values, a peak below
    the RMS, a stuck or noisy series over the last twelve samples, or an
    impossible rate of change. *)
Theorem sensor_rules_complete g history :
  (∀ s, s ∈ history → finite_sample s) →
  ∃ ds, detect_sensor_failures g history = Ok ds ∧ NoDup (map diagnostic_key ds)
    ∧ ∀ code metric, (code, metric) ∈ map diagnostic_key ds ↔ fires g (ordered_samples history) code metric.
Proof.
  intros Hfin. destruct (ordered_samples history) as [|c l _] eqn:E using rev_ind.
  - unfold detect_sensor_failures. rewrite E. simpl. eexists. split; [done|]. split; [apply NoDup_singleton|].
    intros code metric. simpl. rewrite list_elem_of_singleton. split.
    + intros [= -> ->]. by apply fires_empty.
    + intros H. destruct H; try done; try match goal with E : [] = ?l ++ _ |- _ => by destruct l end; simpl in *; lia.
  - rewrite (detect_unfold g history l c E).
    destruct (spreads_run history l c E Hfin) as (os & Hos & Hlong & Hshort). rewrite Hos.
    unfold mbind, result_bind, mret, result_ret.
    eexists. split; [done|]. destruct (first_of_each_keys (gap_reports g l c ++ omap range_rule (bounds c)
      ++ option_list (relation_rule c) ++ omap id os ++ rate_reports l c)) as [Hn Hk]. split; [done|].
    intros code metric. rewrite <- (reports_fire g l c os code metric Hlong Hshort). apply Hk.
Qed.

(** Twelve samples of a temperature sensor stuck at 41 degrees, the last after
    a pause of two minutes. *)
Definition stuck_at (i : Z) : TelemetrySample := {|
  s_sample_id := i; s_timestamp := seconds (if i =? 11 then 230 else 10 * i);
  s_temperature_c := Some (of_int 41); s_vibration_rms_mps2 := Some (of_int i);
  s_vibration_peak_mps2 := Some (of_int (2 * i)); s_vibration_crest_factor := Some (of_int 2);
  s_current_a := if i =? 11 then None else Some (lit 6 1);
  s_quality := "good"; s_fault_flags := []; s_regime := "normal" |}.
Definition stuck_history : list TelemetrySample := map stuck_at [0; 1; 2; 3; 4; 5; 6; 7; 8; 9; 10; 11].

Lemma sensor_rules_complete_witness :
  ∃ ds, detect_sensor_failures (of_int 30) stuck_history = Ok ds
    ∧ map diagnostic_key ds = [("SAMPLES_MISSING", "all"); ("SENSOR_MISSING", "current"); ("SENSOR_STUCK", "temperature")]
    ∧ fires (of_int 30) (ordered_samples stuck_history) "SENSOR_STUCK" "temperature".
Proof.
  destruct (sensor_rules_complete (of_int 30) stuck_history) as (ds & E & _ & Hk).
  - assert (Hall : forallb (λ s, all (λ o, match o with Some x => is_finite x | None => true end)
        [s_temperature_c s; s_current_a s; s_vibration_rms_mps2 s]) stuck_history = true) by (vm_compute; reflexivity).
    rewrite forallb_elem in Hall. intros s Hs x Hx. specialize (Hall s Hs).
    unfold all in Hall. cbn [forallb] in Hall. rewrite !andb_true_iff in Hall. destruct Hall as (H1 & H2 & H3 & _).
    destruct Hx as [Hx|[Hx|Hx]]; rewrite Hx in *; assumption.
  - exists ds. split; [exact E|]. rewrite <- Hk. vm_compute in E. injection E as <-. split; [reflexivity|].
    vm_compute. right. right. left.
Defined.

(** ** The texts of the diagnostics hold no NUL, so that they can be stored *)

Definition plain (d : SensorDiagnostic) : Prop := no_nul (g_code d +:+ ": " +:+ g_reason d) = true.

Lemma first_of_each_plain l : Forall plain l → Forall plain (first_of_each l).
Proof.
  unfold first_of_each. assert (H : ∀ u, Forall plain u → Forall plain l → Forall plain (fold_left setdefault l u)); [|auto].
  induction l as [|d l IH]; intros u Hu Hl; [done|]. inversion Hl as [|? ? Hd Hl']; subst. simpl. apply IH; [|done].
  unfold setdefault. destruct (existsb _ u); [done|]. apply Forall_app. by repeat constructor.
Qed.
Lemma plain_omap {A} (f : A → option SensorDiagnostic) l :
  (∀ x d, x ∈ l → f x = Some d → plain d) → Forall plain (omap f l).
Proof. intros H. apply Forall_forall. intros d (x & Hx & Hd)%list_elem_of_omap. by eapply H. Qed.

(** One text: literals, numbers and the constants of a table row. *)
Ltac plain_text :=
  unfold plain; cbn [g_code g_reason b_metric b_unit b_minimum b_maximum q_metric q_tolerance q_noise_limit
    z_metric z_unit z_limit];
  rewrite ?no_nul_app, ?no_nul_g, ?no_nul_f, ?no_nul_Z; reflexivity.

Lemma gap_plain g p c d : gap_rule g p c = Some d → plain d.
Proof. unfold gap_rule. cbv zeta. destruct (fltb _ _); [|done]. intros [= <-]. plain_text. Qed.
Lemma range_plain c b d : b ∈ bounds c → range_rule b = Some d → plain d.
Proof.
  unfold bounds. rewrite !elem_of_cons, elem_of_nil. intros [->|[->|[->|[->|[->|[]]]]]]; unfold range_rule; cbn [b_value];
    (case_match; [destruct (out_of_range _ _ _); [|done]|]); intros [= <-]; plain_text.
Qed.
Lemma relation_plain c d : relation_rule c = Some d → plain d.
Proof. unfold relation_rule. destruct (peak_below_rms c); [|done]. intros [= <-]. plain_text. Qed.
Lemma spread_plain recent q d : q ∈ sequences recent → spread_rule q = Ok (Some d) → plain d.
Proof.
  unfold sequences. rewrite !elem_of_cons, elem_of_nil. intros [->|[->|[->|[]]]]; unfold spread_rule; cbn [q_values];
    (destruct (mapM id _); [|done]); (destruct (is_stuck _ _); [intros [= <-]; plain_text|]);
    (destruct (pstdev _) as [v|]; [|done]); unfold mbind, result_bind; destruct (fltb _ v); try done;
    intros [= <-]; plain_text.
Qed.
Lemma rate_plain p c z d : z ∈ rates p c → rate_rule (elapsed_floor p c) z = Some d → plain d.
Proof.
  unfold rates. rewrite !elem_of_cons, elem_of_nil. intros [->|[->|[->|[]]]]; unfold rate_rule; cbn [z_before z_after];
    (do 2 (case_match; [|done])); cbv zeta; (destruct (fltb _ _); [|done]); intros [= <-]; plain_text.
Qed.

Lemma spreads_plain recent os : mapM spread_rule (sequences recent) = Ok os → Forall plain (omap id os).
Proof.
  intros H. apply plain_omap. intros o d Ho Hd. simpl in Hd. subst o.
  apply mapM_forall2 in H. destruct (Forall2_elem_r _ _ _ _ H Ho) as (q & Hq & E). by eapply spread_plain.
Qed.

Lemma detect_plain g history ds : detect_sensor_failures g history = Ok ds → Forall plain ds.
Proof.
  unfold detect_sensor_failures. destruct (rev (ordered_samples history)) as [|c earlier].
  - intros [= <-]. by repeat constructor.
  - cbv zeta. unfold mbind, result_bind.
    destruct (if (8 <=? _)%nat then _ else _) as [os|] eqn:E; [|done]. intros [= <-].
    assert (Hos : Forall plain (omap id os)) by (destruct (8 <=? _)%nat; [by eapply spreads_plain|by injection E as <-]).
    apply first_of_each_plain. rewrite !Forall_app. split; [|split; [|split; [|split; [done|]]]].
    + destruct (head earlier); [|done]. unfold option_list. destruct (gap_rule _ _ _) eqn:Hg; [|done].
      repeat constructor. by eapply gap_plain.
    + apply (plain_omap range_rule (bounds c)). intros b d. apply range_plain.
    + unfold option_list. destruct (relation_rule c) eqn:Hr; [|done]. repeat constructor. by eapply relation_plain.
    + destruct (head earlier); [|done]. apply (plain_omap _ (rates _ c)). intros z d. apply rate_plain.
Qed.
