(* ===== verification/Modeling.v ===== *)
(** Isolation Forest training and scoring:
    [services/anomaly_worker/modeling.py] up to the artifacts.

    The estimator, numpy's reductions and SHA-256 are parameters; their calls,
    the gates around them and everything computed from their results are
    modelled. *)
From S2P Require Import Prelude PyStr Float64 PyFormat Json JsonValues PyTime Features.
Local Open Scope py_scope.

Definition DEFAULT_RANDOM_SEED := 20260811.

(** ** Metadata *)

Record ModelMetadata := {
  md_device_id : string; md_asset_class : string; md_model_version : string;
  md_feature_schema_version : Z; md_feature_names : list string; md_training_start : string;
  md_training_end : string; md_training_sample_count : Z; md_validation_sample_count : Z;
  md_contamination : float; md_random_seed : Z; md_sklearn_version : string;
  md_created_at : string; md_score_direction : string; md_baseline_policy : string;
  md_artifact_checksum : string }.

(** [asdict(metadata)] *)
Definition metadata_fields (m : ModelMetadata) : list (string * json) := [
  ("device_id", JStr (md_device_id m)); ("asset_class", JStr (md_asset_class m));
  ("model_version", JStr (md_model_version m));
  ("feature_schema_version", JInt (md_feature_schema_version m));
  ("feature_names", jstrs (md_feature_names m));
  ("training_start", JStr (md_training_start m)); ("training_end", JStr (md_training_end m));
  ("training_sample_count", JInt (md_training_sample_count m));
  ("validation_sample_count", JInt (md_validation_sample_count m));
  ("contamination", JFloat (md_contamination m)); ("random_seed", JInt (md_random_seed m));
  ("sklearn_version", JStr (md_sklearn_version m)); ("created_at", JStr (md_created_at m));
  ("score_direction", JStr (md_score_direction m)); ("baseline_policy", JStr (md_baseline_policy m));
  ("artifact_checksum", JStr (md_artifact_checksum m)) ].

Section Metadata.
(** [str] of lists and dicts, [int] and [float] of text. *)
Context (str_container : json → string).
Context (int_of_str : string → result Z) (float_of_str : string → result float).

Definition str_field (key : string) (value : json) : result string :=
  v ← subscript key value; mret (py_str str_container v).
Definition int_field (key : string) (value : json) : result Z := v ← subscript key value; to_int int_of_str v.

(** The [try] block of [from_dict]. *)
Definition read_metadata (value : json) : result ModelMetadata :=
  device_id ← str_field "device_id" value;
  asset_class ← str_field "asset_class" value;
  model_version ← str_field "model_version" value;
  feature_schema_version ← int_field "feature_schema_version" value;
  names ← (v ← subscript "feature_names" value; iterate v);
  training_start ← str_field "training_start" value;
  training_end ← str_field "training_end" value;
  training_sample_count ← int_field "training_sample_count" value;
  validation_sample_count ← int_field "validation_sample_count" value;
  contamination ← (v ← subscript "contamination" value; to_float float_of_str v);
  random_seed ← int_field "random_seed" value;
  sklearn_version ← str_field "sklearn_version" value;
  created_at ← str_field "created_at" value;
  score_direction ← str_field "score_direction" value;
  baseline_policy ← str_field "baseline_policy" value;
  artifact_checksum ← str_field "artifact_checksum" value;
  mret (Build_ModelMetadata device_id asset_class model_version feature_schema_version
    (map (py_str str_container) names) training_start training_end training_sample_count
    validation_sample_count contamination random_seed sklearn_version created_at score_direction
    baseline_policy artifact_checksum).

(** [0.001 <= contamination <= 0.2] *)
Definition contamination_ok (c : float) : bool := fleb (lit 1 3) c && fleb c (lit 2 1).
Definition metadata_invalid (m : ModelMetadata) : bool :=
  String.eqb (md_device_id m) "" || String.eqb (md_model_version m) ""
  || (md_training_sample_count m <? 1) || (md_validation_sample_count m <? 20)
  || negb (contamination_ok (md_contamination m))
  || negb (startswith "sha256:" (md_artifact_checksum m)).

Definition from_dict (value : json) : result ModelMetadata :=
  match read_metadata value with
  | Raise e =>
      match e with
      | KeyError | TypeError => Raise (ArtifactError "MODEL_METADATA_INVALID")
      | _ => if is_value_error e then Raise (ArtifactError "MODEL_METADATA_INVALID") else Raise e
      end
  | Ok metadata =>
      if metadata_invalid metadata then Raise (ArtifactError "MODEL_METADATA_INVALID") else Ok metadata
  end.
End Metadata.

(** ** Training *)

Record Quantiles := { low : float; median : float; high : float }.

Record ModelBundle (Estimator : Type) := {
  estimator : Estimator; reference_scores : list float;
  feature_quantiles : list (string * Quantiles); metadata : ModelMetadata }.
Arguments Build_ModelBundle {Estimator}.
Arguments estimator {Estimator}. Arguments reference_scores {Estimator}.
Arguments feature_quantiles {Estimator}. Arguments metadata {Estimator}.

Record ScoreResult := {
  sr_sample_id : Z; sr_raw_anomaly_score : float; sr_empirical_percentile : float;
  sr_anomalous : bool; sr_reason : string }.

Definition isoformat (value : datetime) : result string :=
  match offset value with
  | None => Raise (TrainingError "TRAINING_WINDOW_MUST_BE_TIMEZONE_AWARE")
  | Some _ => d ← astimezone_utc value; mret (iso_z (wall d))
  end.

Section Training.
Context {Estimator : Type}.
(** [hashlib.sha256(text).hexdigest()] *)
Context (sha256 : string → string).
Context (mean std amax : list float → float) (dot : list float → list float → float).
(** [np.quantile(column, q)], [IsolationForest(...).fit(matrix)] for a
    contamination and a seed, and [estimator.score_samples(matrix)]. *)
Context (quantile : list float → float → float).
Context (fit : float → Z → list (list float) → result Estimator).
Context (score_samples : Estimator → list (list float) → list float).
Context (sklearn_version : string).

Definition model_version (device_id : string) (start stop : datetime) (contamination : float)
    (random_seed : Z) : result string :=
  start_text ← isoformat start;
  end_text ← isoformat stop;
  let value := device_id +:+ "|" +:+ start_text +:+ "|" +:+ end_text +:+ "|"
    +:+ str_of_Z FEATURE_SCHEMA_VERSION +:+ "|" +:+ fmt_g 8 contamination +:+ "|" +:+ str_of_Z random_seed in
  mret ("iforest-v1-" +:+ py_take 12 (sha256 value)).

(** [feature_matrix(rows)] and one of its columns. *)
Definition feature_matrix (rows : list FeatureRow) : list (list float) := map w_values rows.
Definition column (i : nat) (matrix : list (list float)) : list float :=
  map (λ row, default S754_nan (row !! i)) matrix.

(** [[item for item in samples if baseline_start <= item.timestamp <= baseline_end]] *)
Fixpoint select_window (start stop : datetime) (samples : list TelemetrySample) :
    result (list TelemetrySample) :=
  match samples with
  | [] => Ok []
  | s :: samples =>
      after_start ← dt_leb start (utc (s_timestamp s));
      inside ← (if after_start : bool then dt_leb (utc (s_timestamp s)) stop else Ok false);
      rest ← select_window start stop samples;
      mret (if inside : bool then s :: rest else rest)
  end.

Definition training_features : list TelemetrySample → result (list FeatureRow) :=
  generate_features mean std amax dot 12 6 (lit 300 1) true.

(** [max(int(len(rows) * 0.8), minimum_feature_rows * 3 // 4)] *)
Definition split_point (count minimum_feature_rows : Z) : result Z :=
  eighty ← py_int (of_int count ⊗ lit 8 1);
  mret (Z.max eighty (minimum_feature_rows * 3 / 4)).

Definition quantiles_of (training_matrix : list (list float)) : list (string * Quantiles) :=
  imap (λ i name,
    let q := quantile (column i training_matrix) in
    (name, Build_Quantiles (q (lit 1 2)) (q (lit 5 1)) (q (lit 99 2)))) FEATURE_NAMES.

Definition not_enough_rows (count minimum : Z) : string :=
  "MODEL_NOT_READY: " +:+ str_of_Z count +:+ " healthy feature rows; minimum is " +:+ str_of_Z minimum.

Definition train_model (samples : list TelemetrySample) (device_id asset_class : string)
    (baseline_start baseline_end : datetime) (minimum_feature_rows : Z) (contamination : float)
    (random_seed : Z) (created_at : option datetime) (now : Z) : result (ModelBundle Estimator) :=
  empty ← dt_leb baseline_end baseline_start;
  if empty : bool then Raise (TrainingError "TRAINING_WINDOW_INVALID")
  else if negb (contamination_ok contamination) then Raise (TrainingError "CONTAMINATION_OUT_OF_RANGE")
  else
    selected ← select_window baseline_start baseline_end samples;
    rows ← training_features selected;
    let count := Z.of_nat (length rows) in
    if count <? minimum_feature_rows
    then Raise (TrainingError (not_enough_rows count minimum_feature_rows))
    else
      split ← split_point count minimum_feature_rows;
      if count - split <? Z.max 20 (minimum_feature_rows / 10)
      then Raise (TrainingError "MODEL_NOT_READY: healthy validation split is too small")
      else
        let training_matrix := feature_matrix (take (Z.to_nat split) rows) in
        let validation_matrix := feature_matrix (drop (Z.to_nat split) rows) in
        estimator ← fit contamination random_seed training_matrix;
        let reference_scores := map fneg (score_samples estimator validation_matrix) in
        let quantiles := quantiles_of training_matrix in
        let created := match created_at with Some t => t | None => utc now end in
        version ← model_version device_id baseline_start baseline_end contamination random_seed;
        start_text ← isoformat baseline_start;
        end_text ← isoformat baseline_end;
        created_text ← isoformat created;
        mret (Build_ModelBundle estimator reference_scores quantiles
          (Build_ModelMetadata device_id asset_class version FEATURE_SCHEMA_VERSION FEATURE_NAMES
             start_text end_text (Z.of_nat (length training_matrix)) (Z.of_nat (length validation_matrix))
             contamination random_seed sklearn_version created_text
             "higher_is_more_anomalous; not a probability"
             "quality=good, no fault flags, causal healthy-only rolling windows" "")).
End Training.

(** ** Scoring *)

Section Scoring.
Context {Estimator : Type}.
(** [np.sort(a)] and [np.searchsorted(a, x, side="right")]. *)
Context (np_sort : list float → list float) (searchsorted_right : list float → float → Z).
Context (score_samples : Estimator → list (list float) → list float).
Context (predict : Estimator → list (list float) → list Z).

Definition percentile (reference : list float) (score : float) : float :=
  let ordered := np_sort reference in
  of_int (searchsorted_right ordered score) ⊘ of_int (Z.of_nat (length ordered)) ⊗ of_int 100.

Definition FEATURE_LABELS : list (string * (string * string)) := [
  ("temperature_level_c", ("temperature level", "°C"));
  ("temperature_slope_c_per_min", ("temperature slope", "°C/min"));
  ("temperature_std_c", ("temperature variation", "°C"));
  ("current_mean_a", ("current mean", "A"));
  ("current_std_a", ("current variation", "A"));
  ("vibration_rms_mean_mps2", ("vibration RMS", "m/s²"));
  ("vibration_peak_max_mps2", ("vibration peak", "m/s²"));
  ("vibration_crest_mean", ("crest factor", "ratio"));
  ("vibration_to_current_ratio", ("vibration/current ratio", "m/s²/A")) ].

(** [d[key]] *)
Fixpoint item {A} (key : string) (d : list (string * A)) : result A :=
  match d with
  | [] => Raise KeyError
  | (k, v) :: d => if String.eqb k key then Ok v else item key d
  end.

(** One turn of the loop of [_reason]: the evidence it appends. *)
Definition feature_evidence (bundle : ModelBundle Estimator) (name : string) (value : float) :
    result (option (float * string)) :=
  q ← item name (feature_quantiles bundle);
  let span := fmax (fmax (high q ⊖ low q) (fabs (median q) ⊗ lit 5 2)) (lit 1 6) in
  names ← item name FEATURE_LABELS;
  let '(label, unit) := names in
  mret (if fltb (high q) value
        then Some ((value ⊖ high q) ⊘ span,
                   label +:+ " " +:+ fmt_g 3 value +:+ " " +:+ unit
                   +:+ " is above its healthy 99th percentile " +:+ fmt_g 3 (high q) +:+ " " +:+ unit)
        else if fltb value (low q)
        then Some ((low q ⊖ value) ⊘ span,
                   label +:+ " " +:+ fmt_g 3 value +:+ " " +:+ unit
                   +:+ " is below its healthy 1st percentile " +:+ fmt_g 3 (low q) +:+ " " +:+ unit)
        else None).

(** [a < b] on the tuples of the evidence, and [sorted(evidence, reverse=True)]. *)
Definition evidence_ltb (a b : float * string) : bool :=
  if feqb a.1 b.1 then String.ltb a.2 b.2 else fltb a.1 b.1.
Definition strongest : list (float * string) → list (float * string) :=
  py_sorted (λ a b, evidence_ltb b a).

Definition reason (row : FeatureRow) (bundle : ModelBundle Estimator) (anomalous : bool) : result string :=
  found ← mapM (λ iv, feature_evidence bundle iv.2 (default S754_nan (w_values row !! iv.1)))
            (imap (λ i name, (i, name)) FEATURE_NAMES);
  let evidence := omap id found in
  mret (if bool_decide (evidence = []) then
          (if anomalous
           then "multivariate feature combination is outside the healthy model region"
           else "features remain within the healthy validation-score distribution")
        else py_take 300 (join "; " (map snd (take 2 (strongest evidence))))).

(** [bool(prediction == -1 or percentile >= 99.0)] *)
Definition is_anomalous (prediction : Z) (p : float) : bool := (prediction =? -1) || fleb (lit 990 1) p.

Definition score_row (bundle : ModelBundle Estimator) (row : FeatureRow) (score : float) (prediction : Z) :
    result ScoreResult :=
  let p := percentile (reference_scores bundle) score in
  let anomalous := is_anomalous prediction p in
  text ← reason row bundle anomalous;
  mret (Build_ScoreResult (w_sample_id row) score p anomalous text).

(** [for row, score, prediction in zip(rows, raw_scores, predictions, strict=True)] *)
Fixpoint score_zip (bundle : ModelBundle Estimator) (rows : list FeatureRow) (scores : list float)
    (predictions : list Z) : result (list ScoreResult) :=
  match rows, scores, predictions with
  | [], [], [] => Ok []
  | row :: rows, score :: scores, prediction :: predictions =>
      r ← score_row bundle row score prediction;
      rest ← score_zip bundle rows scores predictions;
      mret (r :: rest)
  | _, _, _ => Raise (ValueError "zip() arguments have different lengths")
  end.

Definition schema_mismatch (m : ModelMetadata) : bool :=
  negb (md_feature_schema_version m =? FEATURE_SCHEMA_VERSION)
  || negb (bool_decide (md_feature_names m = FEATURE_NAMES)).

Definition score_rows (bundle : ModelBundle Estimator) (rows : list FeatureRow) : result (list ScoreResult) :=
  if schema_mismatch (metadata bundle) then Raise (ArtifactError "MODEL_FEATURE_SCHEMA_MISMATCH")
  else
    let matrix := feature_matrix rows in
    if bool_decide (matrix = []) then Ok []
    else score_zip bundle rows (map fneg (score_samples (estimator bundle) matrix))
           (predict (estimator bundle) matrix).
End Scoring.
