(* ===== verification/Artifacts.v ===== *)
(** Model artifacts on disk: [save_bundle], [load_bundle] and
    [model_is_stale] of [services/anomaly_worker/modeling.py].

    Joblib and SHA-256 are parameters; a pickled object is a [PyObj]. *)
From S2P Require Import Prelude PyStr Float64 Json JsonParse JsonValues Files PyTime Features Modeling.
Local Open Scope py_scope.

Definition ARTIFACT_FILENAME := "model.joblib".
Definition METADATA_FILENAME := "metadata.json".

(** The objects the artifact holds. *)
Inductive PyObj (Estimator : Type) :=
  | PEstimator (e : Estimator)
  | PArray (l : list float)
  | PFloat (x : float)
  | PInt (z : Z)
  | PStr (s : string)
  | PTuple (l : list (PyObj Estimator))
  | PDict (fields : list (string * PyObj Estimator)).
Arguments PEstimator {Estimator}. Arguments PArray {Estimator}. Arguments PFloat {Estimator}.
Arguments PInt {Estimator}. Arguments PStr {Estimator}. Arguments PTuple {Estimator}.
Arguments PDict {Estimator}.

Section Artifacts.
Context {Estimator : Type}.
Context (resolve : path → path).
Context (sha256 : string → string).
Context (joblib_dump : PyObj Estimator → string) (joblib_load : string → result (PyObj Estimator)).
Context (sklearn_version : string).
Context (str_container : json → string).
Context (int_of_str : string → result Z) (float_of_str : string → result float).
(** The text of a [UnicodeDecodeError]. *)
Context (decode_error : string → string).

#[local] Abbreviation is_dir := (is_dir resolve).
#[local] Abbreviation is_file := (is_file resolve).
#[local] Abbreviation read_file := (read_file resolve).
#[local] Abbreviation write_file := (write_file resolve).
#[local] Abbreviation replace_file := (replace_file resolve).
#[local] Abbreviation mkdir := (mkdir resolve).

(** ** Saving *)

Definition dump_quantiles (q : Quantiles) : PyObj Estimator :=
  PTuple [PFloat (low q); PFloat (median q); PFloat (high q)].
Definition payload (bundle : ModelBundle Estimator) : PyObj Estimator := PDict [
  ("estimator", PEstimator (estimator bundle));
  ("reference_scores", PArray (reference_scores bundle));
  ("feature_quantiles", PDict (map (λ kv, (kv.1, dump_quantiles kv.2)) (feature_quantiles bundle)));
  ("feature_schema_version", PInt FEATURE_SCHEMA_VERSION);
  ("feature_names", PTuple (map PStr FEATURE_NAMES)) ].

Definition with_checksum (checksum : string) (m : ModelMetadata) : ModelMetadata :=
  Build_ModelMetadata (md_device_id m) (md_asset_class m) (md_model_version m)
    (md_feature_schema_version m) (md_feature_names m) (md_training_start m) (md_training_end m)
    (md_training_sample_count m) (md_validation_sample_count m) (md_contamination m)
    (md_random_seed m) (md_sklearn_version m) (md_created_at m) (md_score_direction m)
    (md_baseline_policy m) checksum.
Definition with_metadata (m : ModelMetadata) (b : ModelBundle Estimator) : ModelBundle Estimator :=
  Build_ModelBundle (estimator b) (reference_scores b) (feature_quantiles b) m.
Definition metadata_text (m : ModelMetadata) : string :=
  dumps_indented 0 (JObj (metadata_fields m)) +:+ newline.
(** [f"sha256:{_checksum(artifact)}"] of the bytes read. *)
Definition checksum_text (content : string) : string := "sha256:" +:+ sha256 content.

Definition bundle_directory (root : path) (m : ModelMetadata) : path :=
  path_of (path_of root (md_device_id m)) (md_model_version m).
Definition in_directory (directory : path) (name : string) : path := directory ++ [name].

(** The effects of [save_bundle] on the disk, in order; the content of a file
    is computed when it is written. *)
Inductive DiskStep :=
  | Mkdir (directory : path)
  | Write (target : path) (content : FS → result string)
  | Replace (source target : path).
Definition perform (step : DiskStep) (fs : FS) : result FS :=
  match step with
  | Mkdir directory => mkdir directory fs
  | Write target content => c ← content fs; write_file target c fs
  | Replace source target => replace_file source target fs
  end.

Definition final_metadata (bundle : ModelBundle Estimator) (content : string) : ModelMetadata :=
  with_checksum (checksum_text content) (metadata bundle).
Definition save_steps (bundle : ModelBundle Estimator) (directory : path) : list DiskStep :=
  let artifact := in_directory directory ARTIFACT_FILENAME in
  let artifact_temporary := in_directory directory (ARTIFACT_FILENAME +:+ ".tmp") in
  let metadata_path := in_directory directory METADATA_FILENAME in
  let metadata_temporary := in_directory directory (METADATA_FILENAME +:+ ".tmp") in
  [ Mkdir directory;
    Write artifact_temporary (λ _, Ok (joblib_dump (payload bundle)));
    Replace artifact_temporary artifact;
    Write metadata_temporary (λ fs, content ← read_file artifact fs;
                                    Ok (metadata_text (final_metadata bundle content)));
    Replace metadata_temporary metadata_path ].
Fixpoint run_steps (steps : list DiskStep) : M FS unit := λ fs,
  match steps with
  | [] => (Ok tt, fs)
  | step :: steps =>
      match perform step fs with
      | Ok fs' => run_steps steps fs'
      | Raise e => (Raise e, fs)
      end
  end.

Definition save_bundle (bundle : ModelBundle Estimator) (root : path) : M FS (path * ModelBundle Estimator) :=
  let directory := bundle_directory root (metadata bundle) in
  run_steps (save_steps bundle directory);;
  content ← ((λ fs, (read_file (in_directory directory ARTIFACT_FILENAME) fs, fs)) : M FS string);
  mret (directory, with_metadata (final_metadata bundle content) bundle).

(** The disk left by a process killed before the last step has completed; a
    file being written holds anything. *)
Inductive crash : list DiskStep → FS → FS → Prop :=
  | crash_before step steps fs : crash (step :: steps) fs fs
  | crash_writing target content steps torn fs fs' :
      write_file target torn fs = Ok fs' → crash (Write target content :: steps) fs fs'
  | crash_later step steps fs fs1 fs' :
      perform step fs = Ok fs1 → crash steps fs1 fs' → crash (step :: steps) fs fs'.

(** ** Loading *)

(** [json.loads(path.read_text(encoding="utf-8"))] in its [try] block.  The
    translation of line ends does not change what the decoder reads. *)
Definition read_json (p : path) (fs : FS) : result json :=
  match read_file p fs with
  | Raise _ => Raise (ArtifactError "MODEL_METADATA_UNREADABLE")
  | Ok bytes =>
      if negb (strict_utf8 bytes) then Raise (ValueError (decode_error bytes))
      else match loads_text bytes with
           | inr j => Ok j
           | inl NotJson => Raise (ArtifactError "MODEL_METADATA_UNREADABLE")
           | inl (DigitLimit n) => Raise (ValueError (digit_limit_message n))
           end
  end.

(** [payload[key]] *)
Definition obj_item (key : string) (o : PyObj Estimator) : result (PyObj Estimator) :=
  match o with
  | PDict fields => item key fields
  | PArray _ => Raise IndexError
  | _ => Raise TypeError
  end.
(** [float(value)] *)
Definition obj_float (o : PyObj Estimator) : result float :=
  match o with
  | PFloat x => Ok x
  | PInt z => float_of_Z z
  | PStr s => float_of_str s
  | _ => Raise TypeError
  end.
(** [np.asarray(value, dtype=np.float64)] *)
Definition as_array (o : PyObj Estimator) : result (list float) :=
  match o with
  | PArray l => Ok l
  | PTuple l => mapM obj_float l
  | PDict _ => Raise TypeError
  | _ => x ← obj_float o; mret [x]
  end.
(** [for value in values] *)
Definition obj_items (o : PyObj Estimator) : result (list (PyObj Estimator)) :=
  match o with
  | PTuple l => Ok l
  | PArray l => Ok (map PFloat l)
  | PStr s => Ok (map PStr (chars s))
  | PDict fields => Ok (map (λ kv, PStr kv.1) fields)
  | _ => Raise TypeError
  end.

(** The [except] clause around [joblib.load]. *)
Definition artifact_invalid {A} : result A := Raise (ArtifactError "MODEL_ARTIFACT_INVALID").
Definition is_load_error (e : exn) : bool :=
  match e with
  | OSError _ | URLError _ | TimeoutError _ | FileExistsError | KeyError | TypeError | EOFError | AttributeError | ImportError
  | UnpicklingError => true
  | _ => is_value_error e
  end.
Definition open_payload (content : string) : result (PyObj Estimator * list float * PyObj Estimator) :=
  match (payload ← joblib_load content;
         estimator ← obj_item "estimator" payload;
         scores ← (v ← obj_item "reference_scores" payload; as_array v);
         quantiles ← obj_item "feature_quantiles" payload;
         mret (estimator, scores, quantiles)) with
  | Raise e => if is_load_error e then artifact_invalid else Raise e
  | r => r
  end.

Definition parse_quantiles (name : string) (values : PyObj Estimator) : result (string * Quantiles) :=
  items ← obj_items values;
  parsed ← mapM obj_float items;
  match parsed with
  | [a; b; c] => if all is_finite parsed then Ok (name, Build_Quantiles a b c) else artifact_invalid
  | _ => artifact_invalid
  end.
(** [set(quantiles) != set(FEATURE_NAMES)] is the negation of this test. *)
Definition same_names (keys : list string) : bool :=
  all (λ k, existsb (String.eqb k) FEATURE_NAMES) keys && all (λ k, existsb (String.eqb k) keys) FEATURE_NAMES.

Definition check_payload (parts : PyObj Estimator * list float * PyObj Estimator) (m : ModelMetadata) :
    result (ModelBundle Estimator) :=
  match parts with
  | (PEstimator e, scores, PDict quantiles) =>
      if (length scores <? 20)%nat then artifact_invalid
      else if negb (all is_finite scores) || negb (same_names (map fst quantiles)) then artifact_invalid
      else
        parsed ← mapM (λ kv, parse_quantiles kv.1 kv.2) quantiles;
        mret (Build_ModelBundle e scores parsed m)
  | _ => artifact_invalid
  end.

Definition load_bundle (directory : path) (fs : FS) : result (ModelBundle Estimator) :=
  raw_metadata ← read_json (in_directory directory METADATA_FILENAME) fs;
  match raw_metadata with
  | JObj _ =>
      metadata ← from_dict str_container int_of_str float_of_str raw_metadata;
      if schema_mismatch metadata then Raise (ArtifactError "MODEL_FEATURE_SCHEMA_MISMATCH")
      else if negb (String.eqb (md_sklearn_version metadata) sklearn_version)
      then Raise (ArtifactError "MODEL_LIBRARY_VERSION_MISMATCH")
      else
        match read_file (in_directory directory ARTIFACT_FILENAME) fs with
        | Raise _ => Raise (ArtifactError "MODEL_ARTIFACT_UNREADABLE")
        | Ok content =>
            if negb (String.eqb (checksum_text content) (md_artifact_checksum metadata))
            then Raise (ArtifactError "MODEL_ARTIFACT_CHECKSUM_MISMATCH")
            else parts ← open_payload content; check_payload parts metadata
        end
  | _ => Raise (ArtifactError "MODEL_METADATA_INVALID")
  end.
End Artifacts.

(** ** Age *)

Section Age.
Context (fromisoformat : string → result datetime).
(** The offset of the system's time zone at a naive local time. *)
Context (local_offset : Z → Z).

(** [value.astimezone(UTC)] *)
Definition astimezone (d : datetime) : result datetime :=
  astimezone_utc {| wall := wall d; offset := Some (default (local_offset (wall d)) (offset d)) |}.

Definition model_is_stale (m : ModelMetadata) (now : datetime) (maximum_age_days : Z) : result bool :=
  created ← fromisoformat (replace_z (md_created_at m));
  reference ← astimezone now;
  created_utc ← astimezone created;
  age ← dt_sub reference created_utc;
  mret (days maximum_age_days <? age).
End Age.
