(* ===== verification/ArtifactProps.v ===== *)
(** Trust and crash safety of model artifacts: what [load_bundle] accepts, that
    it never unpickles unverified bytes, and that [save_bundle] publishes a
    bundle in its last step. *)
From S2P Require Import Prelude PyStr Float64 PyFormat Json JsonParse JsonRoundTrip JsonIndent PyTime Features Modeling.
From S2P Require Import JsonValues Files Artifacts.
Local Open Scope py_scope.

Section Loading.
Context {Estimator : Type} (resolve : path → path) (sha256 : string → string) (sklearn_version : string).
Context (str_container : json → string).
Context (int_of_str : string → result Z) (float_of_str : string → result float) (decode_error : string → string).

Abbreviation load := (λ joblib_load : string → result (PyObj Estimator),
  load_bundle resolve sha256 joblib_load sklearn_version str_container int_of_str float_of_str decode_error).
Abbreviation metadata_at := (λ directory fs, read_json resolve decode_error (in_directory directory METADATA_FILENAME) fs).
Abbreviation artifact_at := (λ directory fs, read_file resolve (in_directory directory ARTIFACT_FILENAME) fs).
Abbreviation parse := (from_dict str_container int_of_str float_of_str).

Lemma mapM_result_inv {A B} (f : A → result B) l k : mapM f l = Ok k → Forall2 (λ x y, f x = Ok y) l k.
Proof.
  revert k. induction l as [|x l IH]; intros k; simpl; [by intros [= <-]|].
  unfold mbind, result_bind. destruct (f x) as [y|] eqn:Hy; [|done].
  destruct (mapM f l) as [k'|] eqn:Hk; [|done]. intros [= <-]. constructor; [done|]. by apply IH.
Qed.

(** What the payload checks leave. *)
Record trusted_payload (scores : list float) (quantiles : list (string * Quantiles)) : Prop := {
  trusted_size : (20 <= length scores)%nat;
  trusted_finite : ∀ x, x ∈ scores → is_finite x = true;
  trusted_names : same_names (map fst quantiles) = true;
  trusted_quantiles : ∀ name q, (name, q) ∈ quantiles →
    is_finite (low q) = true ∧ is_finite (median q) = true ∧ is_finite (high q) = true }.

Lemma parse_quantiles_ok name (o : PyObj Estimator) n q :
  parse_quantiles float_of_str name o = Ok (n, q) →
  n = name ∧ is_finite (low q) = true ∧ is_finite (median q) = true ∧ is_finite (high q) = true.
Proof.
  unfold parse_quantiles, mbind, result_bind. destruct (obj_items o) as [items|]; [|done].
  destruct (mapM _ items) as [parsed|]; [|done]. destruct parsed as [|a [|b [|c [|]]]]; try done.
  destruct (all _ _) eqn:E; [|done]. intros [= <- <-]. unfold all in E; cbn [forallb] in E.
  rewrite !andb_true_iff in E. simpl. tauto.
Qed.

Lemma check_payload_ok (parts : PyObj Estimator * list float * PyObj Estimator) m b :
  check_payload float_of_str parts m = Ok b →
  metadata b = m ∧ parts.1.1 = PEstimator (estimator b) ∧ parts.1.2 = reference_scores b
  ∧ trusted_payload (reference_scores b) (feature_quantiles b).
Proof.
  destruct parts as [[o scores] qs]. unfold check_payload. destruct o; try done. destruct qs as [| | | | | |fields]; try done.
  destruct (Nat.ltb_spec (length scores) 20) as [|Hlen]; [done|].
  destruct (all is_finite scores) eqn:Hfin; simpl; [|done].
  destruct (same_names _) eqn:Hn; simpl; [|done]. unfold mbind, result_bind.
  destruct (mapM _ fields) as [parsed|] eqn:Hp; [|done]. intros [= <-]. simpl.
  do 3 (split; [done|]). apply mapM_result_inv in Hp. split.
  - lia.
  - by apply forallb_elem.
  - replace (map fst parsed) with (map fst fields); [done|].
    clear Hn. induction Hp as [|[k o] [n q] l l' Hq _ IH]; [done|]. simpl.
    apply parse_quantiles_ok in Hq as [-> _]. by rewrite IH.
  - intros name q Hin. apply list_elem_of_lookup in Hin as [i Hi].
    destruct (Forall2_lookup_r _ _ _ _ _ Hp Hi) as ([k o] & _ & Hq). by apply parse_quantiles_ok in Hq as [_ ?].
Qed.

(** C15: a bundle is only ever built from an artifact whose checksum is the one
    recorded beside it, whose metadata is valid and of this feature schema and
    library version, with at least twenty finite reference scores and finite
    quantiles for exactly the nine features; and when the checksum does not
    match, the artifact is not even unpickled: the outcome, an
    [ArtifactError], does not depend on what [joblib.load] would do. *)
Theorem only_verified_artifacts directory fs :
  (∀ joblib_load b, load joblib_load directory fs = Ok b →
     ∃ raw content o,
       metadata_at directory fs = Ok raw ∧ parse raw = Ok (metadata b)
       ∧ artifact_at directory fs = Ok content
       ∧ checksum_text sha256 content = md_artifact_checksum (metadata b)
       ∧ schema_mismatch (metadata b) = false ∧ md_sklearn_version (metadata b) = sklearn_version
       ∧ open_payload joblib_load float_of_str content = Ok (PEstimator (estimator b), reference_scores b, o)
       ∧ trusted_payload (reference_scores b) (feature_quantiles b))
  ∧ (∀ raw m content, metadata_at directory fs = Ok raw → parse raw = Ok m →
       artifact_at directory fs = Ok content → checksum_text sha256 content ≠ md_artifact_checksum m →
       ∃ code, ∀ joblib_load, load joblib_load directory fs = Raise (ArtifactError code)).
Proof.
  split.
  - intros joblib_load b. unfold load_bundle. destruct (metadata_at directory fs) as [raw|] eqn:Hraw; [|done].
    unfold mbind at 1, result_bind. destruct raw as [| | | | | |fields]; try done.
    unfold mbind at 1, result_bind. destruct (parse (JObj fields)) as [m|] eqn:Hm; [|done].
    destruct (schema_mismatch m) eqn:Hs; [done|]. destruct (String.eqb_spec (md_sklearn_version m) sklearn_version) as [Hv|]; cbn [negb]; [|done].
    destruct (artifact_at directory fs) as [content|] eqn:Hc; [|done].
    destruct (String.eqb_spec (checksum_text sha256 content) (md_artifact_checksum m)) as [Hsum|]; cbn [negb]; [|done].
    unfold mbind, result_bind. destruct (open_payload _ _ _) as [[[o scores] qs]|] eqn:Ho; [|done].
    intros Hb. apply check_payload_ok in Hb as (Hmd & He & Hsc & Ht). simpl in He, Hsc.
    exists (JObj fields), content, qs. subst. done.
  - intros raw m content Hraw Hm Hc Hne.
    assert (Hd : ∃ fields, raw = JObj fields).
    { destruct raw; try discriminate Hm. by eexists. }
    destruct Hd as [fields ->]. unfold load_bundle. rewrite Hraw, Hc. unfold mbind, result_bind. rewrite Hm.
    apply String.eqb_neq in Hne. rewrite Hne. cbn [negb].
    destruct (schema_mismatch m); [by eexists|].
    destruct (String.eqb (md_sklearn_version m) sklearn_version); cbn [negb]; by eexists.
Qed.
End Loading.

(** ** Saving *)

Section Saving.
Context {Estimator : Type} (resolve : path → path) (sha256 : string → string) (sklearn_version : string).
Context (joblib_dump : PyObj Estimator → string) (joblib_load : string → result (PyObj Estimator)).
Context (str_container : json → string).
Context (int_of_str : string → result Z) (float_of_str : string → result float) (decode_error : string → string).

Abbreviation load := (load_bundle resolve sha256 joblib_load sklearn_version str_container int_of_str float_of_str decode_error).
Abbreviation save := (save_bundle resolve sha256 joblib_dump).
Abbreviation steps := (save_steps resolve sha256 joblib_dump).

(** The only step that creates [metadata.json] is the last one. *)
Definition touches (step : DiskStep) (p : path) : Prop :=
  match step with Mkdir _ => False | Write target _ | Replace _ target => resolve target = p end.

Lemma perform_keeps step fs fs' p :
  ¬ touches step p → perform resolve step fs = Ok fs' → files fs !! p = None → files fs' !! p = None.
Proof.
  intros Hn. destruct step as [d|t c|a b]; simpl in *.
  - unfold mkdir. destruct (_ || _); [done|]. destruct (existsb _ _); [done|]. by intros [= <-].
  - unfold mbind, result_bind. destruct (c fs) as [x|]; [|done]. intros [= <-] H. simpl. by rewrite lookup_insert_ne.
  - unfold replace_file, mbind, result_bind. destruct (read_file resolve a fs); [|done]. intros [= <-] H. simpl.
    rewrite lookup_insert_ne by done. by apply lookup_delete_None; right.
Qed.

Lemma crash_keeps early source target fs fs' p :
  (∀ step, step ∈ early → ¬ touches step p) → files fs !! p = None →
  crash resolve (early ++ [Replace source target]) fs fs' → files fs' !! p = None.
Proof.
  revert fs. induction early as [|step early IH]; intros fs Hn Hp Hc; simpl in Hc.
  - inversion Hc as [| |? ? ? ? ? _ Hc']; subst; [done|inversion Hc'].
  - inversion Hc as [|t c ? torn ? ? Ht|? ? ? fs1 ? Hs Hc']; subst; [done| |].
    + injection Ht as <-. simpl. rewrite lookup_insert_ne; [done|]. apply (Hn (Write t c)). by left.
    + apply (IH fs1); [intros st Hst; apply Hn; by right| |done].
      eapply perform_keeps; [|done|done]. apply Hn. by left.
Qed.

(** Metadata written by [asdict] is read back by [from_dict]. *)
Lemma from_dict_fields m :
  metadata_invalid m = false →
  from_dict str_container int_of_str float_of_str (JObj (sorted_members (metadata_fields m))) = Ok m.
Proof.
  intros Hm. unfold from_dict.
  assert (Hr : read_metadata str_container int_of_str float_of_str (JObj (sorted_members (metadata_fields m))) = Ok m).
  { destruct m. cbv -[map py_str jstrs]. unfold jstrs. rewrite map_map. simpl. by rewrite map_id. }
  rewrite Hr, Hm. done.
Qed.

(** The text of the metadata is read back as the metadata. *)
Lemma metadata_sorted m : sort_keys (JObj (metadata_fields m)) = JObj (sorted_members (metadata_fields m)).
Proof. destruct m. cbv -[map sorted_members jstrs sort_keys]. simpl. by rewrite map_map. Qed.
Lemma metadata_text_reads m : portable (JObj (metadata_fields m)) = true →
  strict_utf8 (metadata_text m) = true ∧ loads_text (metadata_text m) = inr (JObj (sorted_members (metadata_fields m))).
Proof.
  intros Hp. unfold metadata_text. split.
  - apply ascii_strict. by rewrite ascii_text_app, indented_ascii.
  - by rewrite loads_indented, metadata_sorted.
Qed.

Context (b : ModelBundle Estimator) (root : path) (fs : FS).
Abbreviation directory := (bundle_directory root (metadata b)).
Abbreviation content := (joblib_dump (payload b)).
Abbreviation saved := (with_metadata (final_metadata sha256 b content) b).

(** Nothing is at the directory yet, and its files are not links. *)
Record fresh_directory : Prop := {
  fresh_names : ∀ n, resolve (in_directory directory n) = resolve directory ++ [n];
  fresh_dir : is_dir resolve fs directory = false;
  fresh_file : existsb (is_file resolve fs) (directory :: ancestors directory) = false;
  fresh_files : ∀ n, files fs !! resolve (in_directory directory n) = None }.

(** Joblib reads back what it wrote; the metadata are JSON values. *)
Record readable : Prop := {
  reads_payload : joblib_load content = Ok (payload b);
  reads_metadata : portable (JObj (metadata_fields (final_metadata sha256 b content))) = true }.

(** The bundle passes the gates of [load_bundle]. *)
Record loadable : Prop := {
  loadable_metadata : metadata_invalid (final_metadata sha256 b content) = false;
  loadable_schema : schema_mismatch (metadata b) = false;
  loadable_version : md_sklearn_version (metadata b) = sklearn_version;
  loadable_payload : trusted_payload (reference_scores b) (feature_quantiles b) }.

Lemma names_differ d (n1 n2 : string) : n1 ≠ n2 → d ++ [n1] ≠ d ++ [n2].
Proof. intros Hn [_ E]%app_inj_tail. done. Qed.

(** The disk after a complete save. *)
Lemma run_save_steps :
  fresh_directory →
  ∃ fs', run_steps resolve (steps b directory) fs = (Ok tt, fs')
    ∧ files fs' !! resolve (in_directory directory ARTIFACT_FILENAME) = Some content
    ∧ files fs' !! resolve (in_directory directory METADATA_FILENAME)
      = Some (metadata_text (final_metadata sha256 b content)).
Proof.
  intros [Hname Hdir Hfile Hnone]. simpl in Hfile. apply orb_false_iff in Hfile as [Hfile Hanc].
  unfold save_steps, run_steps, perform.
  unfold mkdir at 1. rewrite Hdir, Hfile, Hanc. cbn [orb]. unfold mbind, result_bind, write_file, replace_file, read_file.
  cbn [files dirs]. rewrite !Hname. rewrite lookup_insert_eq. cbn [mret result_ret mbind result_bind files dirs].
  unfold mret, result_ret, mbind, result_bind. cbn [files dirs]. rewrite lookup_insert_eq. cbn [files dirs].
  rewrite lookup_insert_eq.
  eexists. split; [reflexivity|]. cbn [files]. split.
  - rewrite lookup_insert_ne by by apply names_differ.
    rewrite lookup_delete_ne by by apply names_differ.
    rewrite lookup_insert_ne by by apply names_differ. by rewrite lookup_insert_eq.
  - by rewrite lookup_insert_eq.
Qed.

Lemma open_payload_dump :
  joblib_load content = Ok (payload b) →
  open_payload joblib_load float_of_str content
  = Ok (PEstimator (estimator b), reference_scores b,
        PDict (map (λ kv, (kv.1, dump_quantiles kv.2)) (feature_quantiles b))).
Proof. intros H. unfold open_payload. by rewrite H. Qed.

Lemma check_payload_dump m :
  trusted_payload (reference_scores b) (feature_quantiles b) →
  check_payload float_of_str
    (PEstimator (estimator b), reference_scores b,
     PDict (map (λ kv, (kv.1, dump_quantiles kv.2)) (feature_quantiles b))) m
  = Ok (with_metadata m b).
Proof.
  intros [Hlen Hfin Hnames Hq]. unfold check_payload.
  destruct (Nat.ltb_spec (length (reference_scores b)) 20) as [|_]; [lia|].
  assert (Hall : all is_finite (reference_scores b) = true) by by apply forallb_elem.
  rewrite map_map. cbn [fst]. change (map (λ x, x.1) (feature_quantiles b)) with (map fst (feature_quantiles b)).
  rewrite Hall, Hnames. cbn [negb orb].
  assert (Hp : mapM (λ kv : string * PyObj Estimator, parse_quantiles float_of_str kv.1 kv.2)
    (map (λ kv, (kv.1, dump_quantiles kv.2)) (feature_quantiles b)) = Ok (feature_quantiles b)).
  { revert Hq. generalize (feature_quantiles b) as l. induction l as [|[k [a x c]] l IH]; intros Hq; [done|].
    cbn [map mapM fst snd]. unfold mbind, result_bind.
    destruct (Hq k (Build_Quantiles a x c)) as (Ha & Hx & Hc); [by left|]. simpl in Ha, Hx, Hc.
    unfold parse_quantiles at 1. cbn. unfold mbind, result_bind in IH |- *. unfold all; cbn. rewrite Ha, Hx, Hc. cbn.
    rewrite IH; [done|]. intros name q Hin. apply (Hq name). by right. }
  rewrite Hp. done.
Qed.

(** C16: saving a bundle is crash-safe and publishes it last: a process killed
    before its final step, even in the middle of a write, leaves a directory
    that [load_bundle] refuses as unreadable, and a complete save is read back
    as exactly the bundle returned.  (After a crash the directory stays, so the
    same version cannot be saved again.) *)
Theorem save_is_crash_safe :
  fresh_directory → readable → loadable →
  (∀ fs', crash resolve (steps b directory) fs fs' →
     load directory fs' = Raise (ArtifactError "MODEL_METADATA_UNREADABLE")
     ∧ (is_dir resolve fs' directory = true → save b root fs' = (Raise FileExistsError, fs')))
  ∧ ∃ fs', save b root fs = (Ok (directory, saved), fs') ∧ load directory fs' = Ok saved.
Proof.
  intros Hf [Hpay [Htext Hjson]%metadata_text_reads] [Hinv Hschema Hversion Htrust]. split.
  - intros fs' Hc. split.
    + assert (Hnone : files fs' !! resolve (in_directory directory METADATA_FILENAME) = None).
      { unfold save_steps in Hc.
        match type of Hc with crash _ [?a; ?b1; ?c; ?d; Replace ?s ?t] _ _ =>
          change [a; b1; c; d; Replace s t] with ([a; b1; c; d] ++ [Replace s t]) in Hc end.
        eapply crash_keeps; [|apply (fresh_files Hf)|exact Hc].
        intros step Hs. rewrite !elem_of_cons, elem_of_nil in Hs.
        destruct Hs as [->|[->|[->|[->|[]]]]]; cbn [touches]; [tauto|..];
          rewrite !(fresh_names Hf); by apply names_differ. }
      unfold load_bundle, read_json, read_file. by rewrite Hnone.
    + intros Hd. unfold save_bundle, save_steps. unfold mbind, M_bind. cbn [run_steps perform]. unfold mkdir.
      by rewrite Hd.
  - destruct (run_save_steps Hf) as (fs' & Hrun & Ha & Hm). exists fs'.
    split.
    + unfold save_bundle. unfold mbind, M_bind. rewrite Hrun. unfold read_file. by rewrite Ha.
    + unfold load_bundle, read_json, read_file. rewrite Hm, Ha, Htext, Hjson. cbn [negb].
      unfold mbind, result_bind. rewrite from_dict_fields by done.
      assert (Hs : schema_mismatch (final_metadata sha256 b content) = false) by exact Hschema.
      rewrite Hs. change (md_sklearn_version (final_metadata sha256 b content)) with (md_sklearn_version (metadata b)).
      rewrite Hversion, String.eqb_refl. cbn [negb].
      change (md_artifact_checksum (final_metadata sha256 b content)) with (checksum_text sha256 content).
      rewrite String.eqb_refl. cbn [negb]. rewrite open_payload_dump by done. by apply check_payload_dump.
Qed.
End Saving.

(** ** Witness *)

Definition sample_metadata : ModelMetadata := {|
  md_device_id := "motor-01"; md_asset_class := "dc-motor"; md_model_version := "iforest-v1-0123456789ab";
  md_feature_schema_version := 1; md_feature_names := FEATURE_NAMES;
  md_training_start := "2026-08-10T08:00:00Z"; md_training_end := "2026-08-10T09:00:00Z";
  md_training_sample_count := 280; md_validation_sample_count := 70; md_contamination := lit 2 2;
  md_random_seed := DEFAULT_RANDOM_SEED; md_sklearn_version := "1.8.0";
  md_created_at := "2026-08-11T00:00:00Z"; md_score_direction := "higher_is_more_anomalous; not a probability";
  md_baseline_policy := "quality=good, no fault flags, causal healthy-only rolling windows";
  md_artifact_checksum := "" |}.
Definition sample_bundle : ModelBundle unit :=
  Build_ModelBundle tt (repeat (lit 45 2) 20)
    (map (λ name, (name, Build_Quantiles (of_int 0) (of_int 1) (of_int 2))) FEATURE_NAMES) sample_metadata.
Definition empty_disk : FS := {| files := ∅; dirs := ∅ |}.
Definition sample_hash (content : string) : string := "00ff".

Lemma save_is_crash_safe_witness :
  ∃ fs' saved,
    save_bundle id sample_hash (λ _, "pickle") sample_bundle ["models"] empty_disk
      = (Ok (["models"; "motor-01"; "iforest-v1-0123456789ab"], saved), fs')
    ∧ load_bundle id sample_hash (λ _, Ok (payload sample_bundle)) "1.8.0" (λ _, "") (λ _, Raise TypeError)
        (λ _, Raise TypeError) id ["models"; "motor-01"; "iforest-v1-0123456789ab"] fs' = Ok saved
    ∧ md_artifact_checksum (metadata saved) = "sha256:00ff".
Proof.
  pose proof (save_is_crash_safe id sample_hash "1.8.0" (λ _, "pickle") (λ _, Ok (payload sample_bundle)) (λ _, "")
    (λ _, Raise TypeError) (λ _, Raise TypeError) id sample_bundle ["models"] empty_disk) as H.
  destruct H as (_ & fs' & Hs & Hl).
  - split; [intros n; reflexivity|vm_compute; reflexivity|vm_compute; reflexivity|intros n; reflexivity].
  - split; vm_compute; reflexivity.
  - split; [vm_compute; reflexivity|vm_compute; reflexivity|reflexivity|].
    assert (Hfin : forallb is_finite (reference_scores sample_bundle) = true) by (vm_compute; reflexivity).
    assert (Hq : forallb (λ nq, is_finite (low nq.2) && is_finite (median nq.2) && is_finite (high nq.2))
      (feature_quantiles sample_bundle) = true) by (vm_compute; reflexivity).
    split; [vm_compute; lia|by apply forallb_elem|vm_compute; reflexivity|].
    intros name q Hin. rewrite forallb_elem in Hq. specialize (Hq (name, q) Hin).
    rewrite !andb_true_iff in Hq. simpl in Hq. tauto.
  - eexists fs', _. split; [exact Hs|]. split; [exact Hl|reflexivity].
Defined.
