(* ===== verification/TrainingProps.v ===== *)
(** The gates of [train_model]: what a trained bundle guarantees. *)
From S2P Require Import Prelude PyStr Float64 PyFormat Json JsonParse PyTime Features.
From S2P Require Import FeatureProps.
From S2P Require Import Modeling JsonValues Files Artifacts.
Local Open Scope py_scope.

Section Training.
Context {Estimator : Type} (sha256 : string → string).
Context (mean std amax : list float → float) (dot : list float → list float → float).
Context (quantile : list float → float → float) (fit : float → Z → list (list float) → result Estimator).
Context (score_samples : Estimator → list (list float) → list float) (sklearn_version : string).

Abbreviation train := (train_model sha256 mean std amax dot quantile fit score_samples sklearn_version).

(** The samples of the baseline window, by instant. *)
Definition in_baseline (start stop : datetime) (s : TelemetrySample) : bool :=
  (wall start - default 0 (offset start) <=? s_timestamp s)
  && (s_timestamp s <=? wall stop - default 0 (offset stop)).

Lemma select_window_baseline start stop samples :
  is_Some (offset start) → is_Some (offset stop) →
  select_window start stop samples = Ok (List.filter (in_baseline start stop) samples).
Proof.
  intros [a Ha] [b Hb].
  assert (H1 : ∀ t, dt_leb start (utc t) = Ok (wall start - a <=? t)).
  { intros t. unfold dt_leb. rewrite (dt_sub_aware _ _ a 0) by done. unfold mbind, result_bind, mret, result_ret.
    f_equal. simpl. destruct (Z.leb_spec (wall start - a) t); [apply Z.leb_le|apply Z.leb_gt]; lia. }
  assert (H2 : ∀ t, dt_leb (utc t) stop = Ok (t <=? wall stop - b)).
  { intros t. unfold dt_leb. rewrite (dt_sub_aware _ _ 0 b) by done. unfold mbind, result_bind, mret, result_ret.
    f_equal. simpl. destruct (Z.leb_spec t (wall stop - b)); [apply Z.leb_le|apply Z.leb_gt]; lia. }
  induction samples as [|s samples IH]; [done|]. simpl. unfold mbind, result_bind. rewrite H1, IH.
  unfold in_baseline. rewrite Ha, Hb. simpl. destruct (_ <=? s_timestamp s); simpl; [|done]. rewrite H2.
  by destruct (s_timestamp s <=? _).
Qed.

(** The row of a window that may train: the longest gap-free run of at most
    twelve samples that ends with its sample, at least six, all healthy. *)
Definition healthy_row (ordered : list TelemetrySample) (row : FeatureRow) : Prop :=
  ∃ before window sample after,
    ordered = before ++ window ++ after ∧ is_window 12 (lit 300 1) before window
    ∧ last window = Some sample ∧ 6 <= Z.of_nat (length window)
    ∧ (∀ s, s ∈ window → is_healthy s = true)
    ∧ (∀ v, v ∈ window_values mean std amax dot window → is_finite v = true)
    ∧ row = {| w_sample_id := s_sample_id sample; w_timestamp := s_timestamp sample;
               w_regime := s_regime sample; w_values := window_values mean std amax dot window |}.

Lemma healthy_finite s : is_healthy s = true → measurements_are_finite s = true.
Proof. unfold is_healthy. by intros [_ H]%andb_true_iff. Qed.

Lemma training_rows samples rows :
  training_features mean std amax dot samples = Ok rows →
  (∀ row, row ∈ rows ↔ healthy_row (ordered_samples samples) row)
  ∧ map w_sample_id rows `sublist_of` map s_sample_id (ordered_samples samples).
Proof.
  intros H. unfold training_features in H. split; [|by eapply rows_in_order]. intros row.
  pose proof (generate_features_ok _ _ _ _ _ _ _ _ _ _ H) as (HW & Hm & ->).
  rewrite (scanned_rows _ _ _ _ _ _ _ _ _ _ (scan_all mean std amax dot _ _ _ _ HW Hm _)).
  setoid_rewrite feature_row_some. unfold healthy_row. split.
  - intros (b & w & x & l & E & Hw & Hl & Hn & _ & Hh & Hv & Hr). exists b, w, x, l. by auto 10.
  - intros (b & w & x & l & E & Hw & Hl & Hn & Hh & Hv & Hr). exists b, w, x, l. do 4 (split; [done|]).
    split; [intros y Hy; by apply healthy_finite, Hh|]. auto.
Qed.

(** Metadata with these counts passes the gates of [from_dict], whatever the
    checksum of the artifact. *)
Lemma metadata_accepted m content :
  md_device_id m ≠ "" → md_model_version m ≠ "" → 1 <= md_training_sample_count m →
  20 <= md_validation_sample_count m → contamination_ok (md_contamination m) = true →
  metadata_invalid (with_checksum (checksum_text sha256 content) m) = false.
Proof.
  intros Hd Hv Ht Hval Hc. unfold metadata_invalid, with_checksum.
  cbn [md_device_id md_model_version md_training_sample_count md_validation_sample_count
       md_contamination md_artifact_checksum].
  apply String.eqb_neq in Hd, Hv. rewrite Hd, Hv, Hc.
  destruct (Z.ltb_spec (md_training_sample_count m) 1); [lia|].
  destruct (Z.ltb_spec (md_validation_sample_count m) 20); [lia|]. unfold checksum_text. by destruct (sha256 content).
Qed.

Lemma model_version_nonempty device_id start stop contamination seed version :
  model_version sha256 device_id start stop contamination seed = Ok version → version ≠ "".
Proof.
  unfold model_version, mbind, result_bind. destruct (isoformat start); [|done]. destruct (isoformat stop); [|done].
  by intros [= <-].
Qed.

(** C22: a model is trained only on enough healthy data.  The baseline window
    is timezone-aware and not empty and the contamination between 0.1% and 20%;
    the feature rows are exactly those of the healthy windows (every sample of
    good quality, without faults and finite) of the samples inside the baseline
    window, at most one per sample and in time order; there are at least
    [minimum] of them, split chronologically into a training part of at least
    three quarters of that minimum, on which the estimator is fitted, and a
    validation part of at least twenty rows, which gives the reference scores.
    For a device with a name and a minimum of at least two, the metadata
    recorded passes the gates of [load_bundle]. *)
Theorem training_gates samples device_id asset_class start stop minimum contamination seed created now b :
  0 <= minimum →
  train samples device_id asset_class start stop minimum contamination seed created now = Ok b →
  ∃ rows,
    let baseline := ordered_samples (List.filter (in_baseline start stop) samples) in
    is_Some (offset start) ∧ is_Some (offset stop) ∧ dt_leb stop start = Ok false
    ∧ contamination_ok contamination = true
    ∧ (∀ row, row ∈ rows ↔ healthy_row baseline row)
    ∧ map w_sample_id rows `sublist_of` map s_sample_id baseline
    ∧ minimum <= Z.of_nat (length rows)
    ∧ let training := md_training_sample_count (metadata b) in
      let validation := md_validation_sample_count (metadata b) in
      training + validation = Z.of_nat (length rows) ∧ minimum * 3 / 4 <= training
      ∧ 20 <= validation ∧ minimum / 10 <= validation
      ∧ fit contamination seed (feature_matrix (take (Z.to_nat training) rows)) = Ok (estimator b)
      ∧ reference_scores b
        = map fneg (score_samples (estimator b) (feature_matrix (drop (Z.to_nat training) rows)))
      ∧ schema_mismatch (metadata b) = false ∧ md_sklearn_version (metadata b) = sklearn_version
      ∧ map fst (feature_quantiles b) = FEATURE_NAMES
      ∧ (device_id ≠ "" → 2 <= minimum → ∀ content, metadata_invalid (final_metadata sha256 b content) = false).
Proof.
  intros Hmin. unfold train_model, mbind, result_bind.
  destruct (dt_leb stop start) as [[]|] eqn:Hwin; [done| |done].
  destruct (contamination_ok contamination) eqn:Hcont; cbn [negb]; [|done].
  destruct (select_window start stop samples) as [selected|] eqn:Hsel; [|done].
  destruct (training_features mean std amax dot selected) as [rows|] eqn:Hrows; [|done].
  destruct (Z.ltb_spec (Z.of_nat (length rows)) minimum) as [|Hcount]; [done|].
  destruct (split_point (Z.of_nat (length rows)) minimum) as [split|] eqn:Hsplit; [|done].
  destruct (Z.ltb_spec (Z.of_nat (length rows) - split) (Z.max 20 (minimum / 10))) as [|Hval]; [done|].
  assert (Hs : minimum * 3 / 4 <= split).
  { unfold split_point, mbind, result_bind in Hsplit. destruct (py_int _) as [n|]; [|done]. injection Hsplit as <-. lia. }
  assert (H0 : 0 <= minimum * 3 / 4) by (apply Z.div_pos; lia).
  destruct (fit contamination seed _) as [e|] eqn:Hfit; [|done].
  destruct (model_version sha256 device_id start stop contamination seed) as [version|] eqn:Hversion; [|done].
  destruct (isoformat start) as [start_text|] eqn:Hstart; [|done].
  destruct (isoformat stop) as [stop_text|] eqn:Hstop; [|done].
  destruct (isoformat (match created with Some t => t | None => utc now end)) as [created_text|]; [|done].
  intros [= <-]. cbn [metadata estimator reference_scores feature_quantiles md_training_sample_count
    md_validation_sample_count md_sklearn_version].
  assert (Htrain : Z.of_nat (length (feature_matrix (take (Z.to_nat split) rows))) = split)
    by (unfold feature_matrix; rewrite length_map, length_take; lia).
  assert (Hvalid : Z.of_nat (length (feature_matrix (drop (Z.to_nat split) rows))) = Z.of_nat (length rows) - split)
    by (unfold feature_matrix; rewrite length_map, length_drop; lia).
  assert (Ha : is_Some (offset start)) by (unfold isoformat in Hstart; by destruct (offset start)).
  assert (Hb : is_Some (offset stop)) by (unfold isoformat in Hstop; by destruct (offset stop)).
  rewrite select_window_baseline in Hsel by done. injection Hsel as <-. apply training_rows in Hrows as [Hrows Horder].
  exists rows. cbv zeta. do 7 (split; [done|]). rewrite Htrain, Hvalid.
  split; [lia|]. split; [done|]. split; [lia|]. split; [lia|]. split; [done|]. split; [done|]. do 3 (split; [done|]).
  intros Hid Hmin2 content. apply metadata_accepted; cbn [metadata md_device_id md_model_version
    md_training_sample_count md_validation_sample_count md_contamination]; [done|by eapply model_version_nonempty|..].
  - assert (1 <= minimum * 3 / 4) by (apply Z.div_le_lower_bound; lia). lia.
  - lia.
  - done.
Qed.
End Training.

(** ** Witness *)

(** Eighty healthy samples, ten seconds apart, and a stub estimator. *)
Definition healthy_at (i : Z) : TelemetrySample := {|
  s_sample_id := i; s_timestamp := seconds (10 * i); s_temperature_c := Some (of_int (40 + i mod 3));
  s_vibration_rms_mps2 := Some (of_int 1); s_vibration_peak_mps2 := Some (of_int 2);
  s_vibration_crest_factor := Some (of_int 2); s_current_a := Some (lit 6 1);
  s_quality := "good"; s_fault_flags := []; s_regime := "normal" |}.
Definition healthy_samples : list TelemetrySample := map healthy_at (seqZ 0 115).
Definition stub_hash (text : string) : string := "0123456789abcdef".
Definition stub_quantile (l : list float) (q : float) : float := default S754_nan (head l).
Definition stub_fit (contamination : float) (seed : Z) (m : list (list float)) : result unit := Ok tt.
Definition stub_scores (e : unit) (m : list (list float)) : list float := map (λ _, lit 45 2) m.
Abbreviation stub_train :=
  (train_model stub_hash sum_mean no_spread list_max sum_dot stub_quantile stub_fit stub_scores "1.8.0"
    healthy_samples "motor-01" "dc-motor" (utc 0) (utc (seconds 2000)) 50 (lit 2 2) DEFAULT_RANDOM_SEED None 0).

Lemma training_gates_witness :
  ∃ b, stub_train = Ok b ∧ md_training_sample_count (metadata b) = 88 ∧ md_validation_sample_count (metadata b) = 22
    ∧ md_model_version (metadata b) = "iforest-v1-0123456789ab"
    ∧ metadata_invalid (final_metadata stub_hash b "pickle") = false.
Proof.
  assert (Hc : match stub_train with
    | Ok b => (md_training_sample_count (metadata b) =? 88) && (md_validation_sample_count (metadata b) =? 22)
              && String.eqb (md_model_version (metadata b)) "iforest-v1-0123456789ab"
    | Raise _ => false end = true) by (vm_compute; reflexivity).
  destruct stub_train as [b|] eqn:E; [|discriminate Hc].
  apply andb_true_iff in Hc as [[H1 H2]%andb_true_iff H3].
  apply Z.eqb_eq in H1, H2. apply String.eqb_eq in H3. exists b. split; [reflexivity|].
  pose proof (training_gates stub_hash sum_mean no_spread list_max sum_dot stub_quantile stub_fit stub_scores "1.8.0"
    healthy_samples "motor-01" "dc-motor" (utc 0) (utc (seconds 2000)) 50 (lit 2 2) DEFAULT_RANDOM_SEED None 0 b) as H.
  specialize (H ltac:(lia) E).
  destruct H as (rows & _ & _ & _ & _ & _ & _ & _ & H). do 3 (split; [assumption|]).
  destruct H as (_ & _ & _ & _ & _ & _ & _ & _ & _ & H). apply H; [discriminate|lia].
Defined.
