(* ===== verification/Worker.v ===== *)
(** Training and scoring against the database:
    [services/anomaly_worker/worker.py].

    The session is the one of [Session.v], the disk the one of [Artifacts.v];
    a row attribute assignment is a pending write. *)
From S2P Require Import Prelude PyStr Float64 Json PyTime Models Tables Session Settings.
From S2P Require Import Features SensorRules Modeling JsonValues Files Artifacts.
Local Open Scope py_scope.

Definition MAX_BATCH_ROWS : nat := Z.to_nat 500.
Definition CONTEXT_ROWS : nat := 12.
Definition DIAGNOSTIC_INTERVAL : Z := hours 1.

(** ** Rows and samples *)

Definition aware (value : datetime) : result datetime :=
  match offset value with None => Ok (replace_utc value) | Some _ => astimezone_utc value end.

Definition telemetry_sample (row : Telemetry) : result TelemetrySample :=
  timestamp ← aware (match t_device_time row with Some d => d | None => utc (t_received_at row) end);
  mret (Build_TelemetrySample (t_id row) (wall timestamp) (t_temperature_c row)
    (t_vibration_rms_mps2 row) (t_vibration_peak_mps2 row) (t_vibration_crest_factor row)
    (t_current_a row) (t_quality row) (t_fault_flags row) "unknown").

(** The anomaly columns of a row. *)
Definition with_anomaly (score percentile : option float) (reason : option string) (t : Telemetry) : Telemetry :=
  Build_Telemetry (t_id t) (t_message_id t) (t_device_id t) (t_site_id t) (t_sequence t)
    (t_device_time t) (t_received_at t) (t_clock_synchronized t) (t_uptime_ms t)
    (t_firmware_version t) (t_quality t) (t_replayed t) (t_temperature_c t)
    (t_vibration_rms_mps2 t) (t_vibration_peak_mps2 t) (t_vibration_crest_factor t)
    (t_current_a t) (t_sample_quality t) (t_fault_flags t) score percentile reason.
Definition explain (reason : string) (t : Telemetry) : Telemetry :=
  with_anomaly (t_anomaly_score t) (t_anomaly_percentile t) (Some reason) t.

(** [ORDER BY received_at, id] *)
Definition row_before (a b : Telemetry) : bool :=
  (t_received_at a <? t_received_at b)
  || ((t_received_at a =? t_received_at b) && (t_id a <? t_id b)).

(** [column.startswith(prefix)]: [LIKE], where an underscore is any character. *)
Fixpoint like_prefix (pattern text : list string) : bool :=
  match pattern, text with
  | [], _ => true
  | p :: pattern, c :: text => (String.eqb p "_" || String.eqb p c) && like_prefix pattern text
  | _ :: _, [] => false
  end.
Definition window_not_ready (reason : string) : bool :=
  like_prefix (chars "FEATURE_WINDOW_NOT_READY") (chars reason).

(** The rows [_targets] selects. *)
Definition is_target (device_id : string) (model_ready : bool) (t : Telemetry) : bool :=
  String.eqb (t_device_id t) device_id
  && match t_anomaly_score t with Some _ => false | None => true end
  && match t_anomaly_reason t with
     | None => true
     | Some reason => model_ready && negb (window_not_ready reason)
     end.
Definition targets_of (device_id : string) (model_ready : bool) (d : DB) : list Telemetry :=
  take MAX_BATCH_ROWS (order_by row_before (List.filter (is_target device_id model_ready) (telemetry d))).

Definition context_rows (device_id : string) (first last : Telemetry) (d : DB) : list Telemetry :=
  let before := take (CONTEXT_ROWS - 1) (order_by (λ a b, row_before b a)
    (List.filter (λ t, String.eqb (t_device_id t) device_id && (t_received_at t <? t_received_at first))
       (telemetry d))) in
  let batch := order_by row_before
    (List.filter (λ t, String.eqb (t_device_id t) device_id && (t_received_at first <=? t_received_at t)
                       && (t_received_at t <=? t_received_at last)) (telemetry d)) in
  rev before ++ batch.

(** ** Diagnostics and alarms *)

Definition diagnostic_reason (diagnostics : list SensorDiagnostic) : string :=
  py_take 300 (join "; " (map (λ d, g_code d +:+ ": " +:+ g_reason d) diagnostics)).

(** [diagnostics_by_id]: the rules applied to each target and up to eleven
    samples before it. *)
Fixpoint diagnose (target_ids : list Z) (earlier samples : list TelemetrySample) :
    result (list (Z * list SensorDiagnostic)) :=
  match samples with
  | [] => Ok []
  | s :: samples =>
      let history := last_n CONTEXT_ROWS (earlier ++ [s]) in
      if existsb (Z.eqb (s_sample_id s)) target_ids
      then found ← detect_sensor_failures (lit 300 1) history;
           rest ← diagnose target_ids (earlier ++ [s]) samples;
           mret ((s_sample_id s, found) :: rest)
      else diagnose target_ids (earlier ++ [s]) samples
  end.
Definition diagnostics_of (id : Z) (d : list (Z * list SensorDiagnostic)) : result (list SensorDiagnostic) :=
  match by_key id d with Some l => Ok l | None => Raise KeyError end.

Definition log_diagnostic (device_id code severity detail : string) : DBM () :=
  now ← utc_now;
  recent ← query (λ d, List.find (λ l,
    String.eqb (l_component l) "anomaly-worker" && bool_decide (l_device_id l = Some device_id)
    && String.eqb (l_error_code l) code && (now - DIAGNOSTIC_INTERVAL <=? l_created_at l)) (error_logs d));
  match recent with
  | Some _ => mret tt
  | None =>
      created ← utc_now;
      add (insert_error_log
             (new_error_log created "anomaly-worker" code severity (Some device_id) (py_take 300 detail)))
  end.

Definition with_summary (summary : string) (a : Alarm) : Alarm :=
  Build_Alarm (a_id a) (a_device_id a) (a_code a) (a_severity a) (a_source a) (a_state a) summary
    (a_opened_at a) (a_cleared_at a) (a_acknowledged_at a) (a_acknowledged_by a).
Definition cleared_alarm (now : Z) (a : Alarm) : Alarm :=
  Build_Alarm (a_id a) (a_device_id a) (a_code a) (a_severity a) (a_source a) "cleared" (a_summary a)
    (a_opened_at a) (Some now) (a_acknowledged_at a) (a_acknowledged_by a).
Definition active_of_source (device_id code source : string) (d : DB) : option Alarm :=
  List.find (λ a, String.eqb (a_device_id a) device_id && String.eqb (a_code a) code
                  && String.eqb (a_source a) source && String.eqb (a_state a) "active") (alarms d).

Definition set_alarm (device_id code source : string) (active : bool) (summary : string) : DBM () :=
  alarm ← query (active_of_source device_id code source);
  match active, alarm with
  | true, None =>
      opened ← utc_now;
      add (insert_alarm (new_alarm opened device_id code "warning" source (py_take 240 summary)))
  | true, Some a => add (update_alarm (a_id a) (with_summary (py_take 240 summary)))
  | false, Some a => now ← utc_now; add (update_alarm (a_id a) (cleared_alarm now))
  | false, None => mret tt
  end.

(** ** The registry *)

(** The columns [_register_bundle] assigns. *)
Definition registered (m : ModelMetadata) (training_start training_end created_at : datetime)
    (relative_path : string) (last_scored_at : option Z) (id : Z) : AnomalyModel :=
  Build_AnomalyModel id (md_device_id m) (md_model_version m) "ready"
    (JObj [("version", JInt (md_feature_schema_version m)); ("names", jstrs (md_feature_names m))])
    training_start training_end (md_training_sample_count m) (md_validation_sample_count m)
    (md_contamination m) (md_random_seed m) (md_sklearn_version m) relative_path
    (md_artifact_checksum m) created_at last_scored_at None.
Definition with_status (status : string) (diagnostic : option string) (m : AnomalyModel) : AnomalyModel :=
  Build_AnomalyModel (m_id m) (m_device_id m) (m_model_version m) status (m_feature_schema m)
    (m_training_start m) (m_training_end m) (m_training_sample_count m)
    (m_validation_sample_count m) (m_contamination m) (m_random_seed m) (m_sklearn_version m)
    (m_artifact_path m) (m_artifact_checksum m) (m_created_at m) (m_last_scored_at m) diagnostic.
Definition scored_at (now : Z) (m : AnomalyModel) : AnomalyModel :=
  Build_AnomalyModel (m_id m) (m_device_id m) (m_model_version m) (m_status m) (m_feature_schema m)
    (m_training_start m) (m_training_end m) (m_training_sample_count m)
    (m_validation_sample_count m) (m_contamination m) (m_random_seed m) (m_sklearn_version m)
    (m_artifact_path m) (m_artifact_checksum m) (m_created_at m) (Some now) (m_diagnostic m).

Definition latest_registry (device_id : string) (d : DB) : option AnomalyModel :=
  head (order_by (λ a b, (db_instant (m_created_at b) <? db_instant (m_created_at a))
                         || ((db_instant (m_created_at b) =? db_instant (m_created_at a)) && (m_id b <? m_id a)))
    (List.filter (λ m, String.eqb (m_device_id m) device_id) (anomaly_models d))).
Definition registry_of (device_id version : string) (d : DB) : option AnomalyModel :=
  List.find (same_version device_id version) (anomaly_models d).

(** The effects on the database and on the disk are independent. *)
Definition World : Type := Session * FS.
Definition in_session {A} (m : DBM A) : M World A := λ w, let '(r, s) := m w.1 in (r, (s, w.2)).
Definition on_disk {A} (m : M FS A) : M World A := λ w, let '(r, fs) := m w.2 in (r, (w.1, fs)).

Section Worker.
Context {Estimator : Type}.
Context (fromisoformat : string → result datetime) (local_offset : Z → Z).
Context (sha256 : string → string).
Context (mean std amax : list float → float) (dot : list float → list float → float).
Context (quantile : list float → float → float) (fit : float → Z → list (list float) → result Estimator).
Context (score_samples : Estimator → list (list float) → list float).
Context (predict : Estimator → list (list float) → list Z).
Context (np_sort : list float → list float) (searchsorted_right : list float → float → Z).
Context (joblib_dump : PyObj Estimator → string) (joblib_load : string → result (PyObj Estimator)).
Context (sklearn_version : string) (str_container : json → string).
Context (int_of_str : string → result Z) (float_of_str : string → result float) (decode_error : string → string).
(** The working directory, links, and the settings. *)
Context (cwd : path) (resolve : path → path) (settings : Settings).

Definition root : path := path_of cwd (model_root settings).
Definition load : path → FS → result (ModelBundle Estimator) :=
  load_bundle resolve sha256 joblib_load sklearn_version str_container int_of_str float_of_str decode_error.
Definition parse_utc (value : string) : result datetime :=
  d ← fromisoformat (replace_z value); astimezone local_offset d.

Definition trusted_artifact_directory (model : AnomalyModel) : result path :=
  let resolved_root := resolve root in
  let candidate := resolve (path_of resolved_root (m_artifact_path model)) in
  if negb (is_relative_to resolved_root candidate)
  then Raise (ArtifactError "MODEL_ARTIFACT_PATH_INVALID") else Ok candidate.

(** [str(path)] of a relative path. *)
Definition path_text (p : path) : string := match p with [] => "." | _ => join "/" p end.

Definition register_bundle (bundle : ModelBundle Estimator) (directory : path) : DBM (option AnomalyModel) :=
  let m := metadata bundle in
  relative ← lift (match relative_to (resolve root) (resolve directory) with
                   | Some p => Ok (path_text p)
                   | None => Raise (ValueError "path is not in the subpath of the model root")
                   end);
  found ← query (registry_of (md_device_id m) (md_model_version m));
  training_start ← lift (parse_utc (md_training_start m));
  training_end ← lift (parse_utc (md_training_end m));
  created_at ← lift (parse_utc (md_created_at m));
  let row := registered m training_start training_end created_at relative in
  match found with
  | None => add (insert_model (row None 0))
  | Some r => add (update_model (m_id r) (λ r, row (m_last_scored_at r) (m_id r)))
  end;;
  commit;;
  query (registry_of (md_device_id m) (md_model_version m)).

Definition baseline_rows (device_id : string) (start stop : datetime) (d : DB) : list Telemetry :=
  order_by row_before (List.filter (λ t, String.eqb (t_device_id t) device_id
    && (db_instant start <=? t_received_at t) && (t_received_at t <=? db_instant stop)) (telemetry d)).

Definition train_and_register (device_id : string) (baseline_start baseline_end : datetime)
    (contamination : float) : M World (option AnomalyModel) :=
  found ← in_session (query (get_device device_id));
  match found with
  | None => raise (ValueError "DEVICE_NOT_FOUND")
  | Some device =>
      rows ← in_session (query (baseline_rows device_id baseline_start baseline_end));
      samples ← lift (mapM telemetry_sample rows);
      now ← in_session utc_now;
      bundle ← lift (train_model sha256 mean std amax dot quantile fit score_samples sklearn_version samples
        (d_id device) (d_asset_class device) baseline_start baseline_end (anomaly_minimum_feature_rows settings)
        contamination DEFAULT_RANDOM_SEED None now);
      saved ← try_except (on_disk (save_bundle resolve sha256 joblib_dump bundle root))
        (λ e, match e with
              | FileExistsError => Some (
                  let directory := path_of (path_of root device_id) (md_model_version (metadata bundle)) in
                  existing ← ((λ w, (load directory w.2, w)) : M World (ModelBundle Estimator));
                  if negb (String.eqb (md_device_id (metadata existing)) device_id)
                     || negb (String.eqb (md_model_version (metadata existing)) (md_model_version (metadata bundle)))
                  then raise (ArtifactError "MODEL_EXISTING_ARTIFACT_MISMATCH")
                  else mret (directory, existing))
              | _ => None
              end);
      in_session (register_bundle saved.2 saved.1)
  end.

(** ** Scoring *)

(** The exceptions [_load_ready_bundle] catches. *)
Definition is_artifact_failure (e : exn) : bool :=
  match e with OSError _ | URLError _ | TimeoutError _ | FileExistsError => true | _ => is_value_error e end.
Definition failure_code (e : exn) : string :=
  let code := py_take 48 (exn_text e) in if String.eqb code "" then "MODEL_ARTIFACT_INVALID" else code.

Record Loaded := {
  registry : option AnomalyModel; ready_bundle : option (ModelBundle Estimator); model_error : option string }.

Definition set_status (r : AnomalyModel) (status : string) (diagnostic : option string) : DBM AnomalyModel :=
  add (update_model (m_id r) (with_status status diagnostic));;
  mret (with_status status diagnostic r).

Definition check_bundle (bundle : ModelBundle Estimator) (r : AnomalyModel) (device_id : string) : result () :=
  if negb (String.eqb (md_device_id (metadata bundle)) device_id)
     || negb (String.eqb (md_model_version (metadata bundle)) (m_model_version r))
  then Raise (ArtifactError "MODEL_REGISTRY_MISMATCH")
  else if negb (String.eqb (md_artifact_checksum (metadata bundle)) (m_artifact_checksum r))
  then Raise (ArtifactError "MODEL_REGISTRY_CHECKSUM_MISMATCH")
  else Ok ().

Definition load_ready_bundle (fs : FS) (device_id : string) : DBM Loaded :=
  found ← query (latest_registry device_id);
  match found with
  | None => mret (Build_Loaded None None (Some "MODEL_NOT_READY"))
  | Some r =>
      try_except
        (directory ← lift (trusted_artifact_directory r);
         bundle ← lift (load directory fs);
         lift (check_bundle bundle r device_id);;
         now ← utc_now;
         stale ← lift (model_is_stale fromisoformat local_offset (metadata bundle) (utc now)
                         (model_stale_after_days settings));
         if stale : bool
         then r ← set_status r "stale" (Some "MODEL_STALE: retraining is required");
              mret (Build_Loaded (Some r) None (Some "MODEL_STALE"))
         else r ← set_status r "ready" None;
              mret (Build_Loaded (Some r) (Some bundle) None))
        (λ e, if is_artifact_failure e
              then Some (let code := failure_code e in
                         r ← set_status r "error" (Some (py_take 300 (code +:+ ": deterministic rules remain active")));
                         mret (Build_Loaded (Some r) None (Some code)))
              else None)
  end.

Definition fallback_detail (code : string) : string :=
  code +:+ ": deterministic sensor and threshold rules remain active".

(** The loop over the targets without a bundle. *)
Definition explain_row (diagnostics_by_id : list (Z * list SensorDiagnostic)) (detail : string)
    (row : Telemetry) : DBM () :=
  diagnostics ← lift (diagnostics_of (t_id row) diagnostics_by_id);
  add (update_telemetry (t_id row)
         (explain (if bool_decide (diagnostics = []) then detail else diagnostic_reason diagnostics))).

(** The loop over the targets with a bundle. *)
Definition waiting : string := "FEATURE_WINDOW_NOT_READY: waiting for causal context".
Definition score_telemetry (diagnostics_by_id : list (Z * list SensorDiagnostic))
    (results : list (Z * ScoreResult)) (row : Telemetry) : DBM () :=
  diagnostics ← lift (diagnostics_of (t_id row) diagnostics_by_id);
  match by_key (t_id row) results with
  | None => add (update_telemetry (t_id row) (explain waiting))
  | Some r =>
      add (update_telemetry (t_id row)
        (with_anomaly (Some (sr_raw_anomaly_score r)) (Some (sr_empirical_percentile r))
           (Some (if bool_decide (diagnostics = []) then sr_reason r else diagnostic_reason diagnostics))))
  end.

Definition live_features : list TelemetrySample → result (list FeatureRow) :=
  generate_features mean std amax dot 12 6 (lit 300 1) false.
(** The dict [results]: the scores of the targets. *)
Definition score_targets (bundle : ModelBundle Estimator) (samples : list TelemetrySample) (target_ids : list Z) :
    result (list (Z * ScoreResult)) :=
  rows ← live_features samples;
  results ← score_rows np_sort searchsorted_right score_samples predict bundle rows;
  mret (map (λ r, (sr_sample_id r, r)) (List.filter (λ r, existsb (Z.eqb (sr_sample_id r)) target_ids) results)).

Definition no_anomaly : string := "No model anomaly in the latest scored batch".
Definition scoring_event (device_id : string) (processed : Z) (registry : option AnomalyModel) : json := JObj [
  ("type", JStr "anomaly_scoring"); ("device_id", JStr device_id); ("processed", JInt processed);
  ("model_version", jopt (λ r, JStr (m_model_version r)) registry);
  ("model_status", JStr (match registry with Some r => m_status r | None => "model_not_ready" end)) ].

(** What scoring a batch yields: the number processed, whether the latest
    target is anomalous and why, and the registry row. *)
Record Batch := { processed : Z; anomaly_active : bool; latest_reason : string; batch_registry : option AnomalyModel }.

Definition run_fallback (device_id code : string) (targets : list Telemetry)
    (diagnostics_by_id : list (Z * list SensorDiagnostic)) (r : option AnomalyModel) : DBM Batch :=
  let detail := fallback_detail code in
  log_diagnostic device_id code (if String.eqb code "MODEL_NOT_READY" then "info" else "warning") detail;;
  for_each (explain_row diagnostics_by_id detail) targets;;
  mret (Build_Batch (Z.of_nat (length targets)) false no_anomaly r).

Definition run_model (bundle : ModelBundle Estimator) (samples : list TelemetrySample) (targets : list Telemetry)
    (latest : Telemetry) (diagnostics_by_id : list (Z * list SensorDiagnostic)) (r : option AnomalyModel) : DBM Batch :=
  results ← lift (score_targets bundle samples (map t_id targets));
  for_each (score_telemetry diagnostics_by_id results) targets;;
  r ← match r with
      | Some r => now ← utc_now; add (update_model (m_id r) (scored_at now));; mret (Some (scored_at now r))
      | None => mret None
      end;
  let scored := List.filter (λ t, bool_decide (is_Some (by_key (t_id t) results))) targets in
  mret (match by_key (t_id latest) results with
        | Some result => Build_Batch (Z.of_nat (length scored)) (sr_anomalous result) (sr_reason result) r
        | None => Build_Batch (Z.of_nat (length scored)) false no_anomaly r
        end).

(** A non-empty batch up to the notification. *)
Definition score_batch (loaded : Loaded) (device_id : string) (targets : list Telemetry)
    (first latest : Telemetry) : DBM Batch :=
  context ← query (context_rows device_id first latest);
  samples ← lift (mapM telemetry_sample context);
  diagnostics_by_id ← lift (diagnose (map t_id targets) [] samples);
  batch ← match ready_bundle loaded with
          | None => run_fallback device_id (default "MODEL_NOT_READY" (model_error loaded)) targets
                      diagnostics_by_id (registry loaded)
          | Some bundle => run_model bundle samples targets latest diagnostics_by_id (registry loaded)
          end;
  latest_diagnostics ← lift (diagnostics_of (t_id latest) diagnostics_by_id);
  let text := diagnostic_reason latest_diagnostics in
  set_alarm device_id "SENSOR_DIAGNOSTIC" "sensor_rule" (negb (bool_decide (latest_diagnostics = [])))
    (if String.eqb text "" then "Sensor diagnostics cleared" else text);;
  match ready_bundle loaded with
  | Some _ => set_alarm device_id "ANOMALY_DETECTED" "anomaly" (anomaly_active batch)
                ("Isolation Forest: " +:+ latest_reason batch)
  | None => mret tt
  end;;
  mret batch.

Definition is_ready (loaded : Loaded) : bool := bool_decide (is_Some (ready_bundle loaded)).

Definition score_device_once (fs : FS) (device_id : string) : DBM Z :=
  loaded ← load_ready_bundle fs device_id;
  targets ← query (targets_of device_id (is_ready loaded));
  match head targets, last targets with
  | Some first, Some latest =>
      batch ← score_batch loaded device_id targets first latest;
      notify_after_commit (scoring_event device_id (processed batch) (batch_registry batch));;
      commit;;
      mret (processed batch)
  | _, _ => commit;; mret 0
  end.

(** [run_once]: every device, in the order of the identifiers read first. *)
Fixpoint score_devices (fs : FS) (ids : list string) (count : Z) : DBM Z :=
  match ids with
  | [] => mret count
  | id :: ids => n ← score_device_once fs id; score_devices fs ids (count + n)
  end.
Definition run_once (fs : FS) : DBM Z :=
  ids ← query (λ d, map d_id (order_by (λ a b, String.ltb (d_id a) (d_id b)) (devices d)));
  score_devices fs ids 0.
End Worker.
