(* ===== verification/WorkerFacts.v ===== *)
(** The writes a scoring transaction accumulates, and what they do to the
    telemetry table. *)
From S2P Require Import Prelude PyStr Float64 Json PyTime Models Tables Session Settings.
From S2P Require Import AlarmFacts Keys Features SensorRules Modeling JsonValues Files Artifacts Worker.

(** ** Blocks that only stage writes

    [stages Q m]: [m] neither flushes nor commits; with the outcome [r] it adds
    writes [ws] to the unit of work such that [Q d r ws] for the rows [d] the
    session sees. *)
Definition stages {A} (Q : DB → result A → list write → Prop) (m : DBM A) : Prop :=
  ∀ s r s', m s = (r, s') →
  keeps s s' ∧ db s' = db s ∧ notes s' = notes s ∧ ∃ ws, pending s' = pending s ++ ws ∧ Q (db s) r ws.

Lemma stages_weaken {A} (Q Q' : DB → result A → list write → Prop) m :
  (∀ d r ws, Q d r ws → Q' d r ws) → stages Q m → stages Q' m.
Proof. intros HQ Hm s r s' H. destruct (Hm s r s' H) as (? & ? & ? & ws & ? & ?). eauto 10. Qed.

Lemma stages_pure {A} (Q : DB → result A → list write → Prop) (m : DBM A) :
  (∀ s, ∃ r, m s = (r, s) ∧ Q (db s) r []) → stages Q m.
Proof.
  intros Hm s r s' H. destruct (Hm s) as (r0 & E & HQ). rewrite E in H. injection H as <- <-.
  split; [apply keeps_refl|]. do 2 (split; [done|]). exists []. by rewrite app_nil_r.
Qed.
Lemma stages_ret {A} (Q : DB → result A → list write → Prop) a : (∀ d, Q d (Ok a) []) → stages Q (mret a).
Proof. intros H. apply stages_pure. intros s. by eexists. Qed.
Lemma stages_lift {A} (Q : DB → result A → list write → Prop) r : (∀ d, Q d r []) → stages Q (lift r).
Proof. intros H. apply stages_pure. intros s. by eexists. Qed.
Lemma stages_query {A} (Q : DB → result A → list write → Prop) f : (∀ d, Q d (Ok (f d)) []) → stages Q (query f).
Proof. intros H. apply stages_pure. intros s. by eexists. Qed.
Lemma stages_now (Q : DB → result Z → list write → Prop) : (∀ d t, Q d (Ok t) []) → stages Q utc_now.
Proof.
  intros H s r s' [= <- <-]. split; [done|]. do 2 (split; [done|]). exists []. by rewrite app_nil_r.
Qed.
Lemma stages_add (Q : DB → result () → list write → Prop) w : (∀ d, Q d (Ok ()) [w]) → stages Q (add w).
Proof. intros H s r s' [= <- <-]. split; [done|]. do 2 (split; [done|]). by exists [w]. Qed.

Lemma stages_bind {A B} (Q1 : DB → result A → list write → Prop) (Q : DB → result B → list write → Prop) m f :
  stages Q1 m →
  (∀ d e ws, Q1 d (Raise e) ws → Q d (Raise e) ws) →
  (∀ a, stages (λ d r ws2, ∀ ws1, Q1 d (Ok a) ws1 → Q d r (ws1 ++ ws2)) (f a)) →
  stages Q (m ≫= f).
Proof.
  intros Hm Hraise Hf s r s'. unfold mbind, M_bind. destruct (m s) as [r1 s1] eqn:E.
  destruct (Hm s r1 s1 E) as (K1 & D1 & N1 & ws1 & P1 & H1). destruct r1 as [a|e].
  - intros H. destruct (Hf a s1 r s' H) as (K2 & D2 & N2 & ws2 & P2 & H2).
    split; [by eapply keeps_trans|]. split; [congruence|]. split; [congruence|].
    exists (ws1 ++ ws2). split; [by rewrite P2, P1, app_assoc|]. rewrite <- D1. apply H2. by rewrite D1.
  - intros [= <- <-]. do 3 (split; [done|]). exists ws1. auto.
Qed.

(** Only the kind of the writes matters. *)
Definition stages_only {A} (P : write → Prop) (m : DBM A) : Prop := stages (λ _ _ ws, Forall P ws) m.
Lemma stages_only_bind {A B} P (m : DBM A) (f : A → DBM B) :
  stages_only P m → (∀ a, stages_only P (f a)) → stages_only P (m ≫= f).
Proof.
  intros Hm Hf. eapply stages_bind; [exact Hm|auto|]. intros a. eapply stages_weaken; [|apply Hf].
  intros d r ws2 H2 ws1 H1. apply Forall_app. auto.
Qed.
Lemma stages_only_ret {A} P (a : A) : stages_only P (mret a).
Proof. by apply stages_ret. Qed.
Lemma stages_only_lift {A} P (r : result A) : stages_only P (lift r).
Proof. by apply stages_lift. Qed.
Lemma stages_only_query {A} P (f : DB → A) : stages_only P (query f).
Proof. by apply stages_query. Qed.
Lemma stages_only_now P : stages_only P utc_now.
Proof. by apply stages_now. Qed.
Lemma stages_only_add (P : write → Prop) w : P w → stages_only P (add w).
Proof. intros H. apply stages_add. intros _. by repeat constructor. Qed.
Lemma stages_only_try {A} P (m : DBM A) h :
  stages_only P m → (∀ e k, h e = Some k → stages_only P k) → stages_only P (try_except m h).
Proof.
  intros Hm Hh s r s'. unfold try_except. destruct (m s) as [r1 s1] eqn:E.
  destruct (Hm s r1 s1 E) as (K1 & D1 & N1 & ws1 & P1 & H1).
  assert (Hsame : r1 = r ∧ s1 = s' → keeps s s' ∧ db s' = db s ∧ notes s' = notes s
    ∧ ∃ ws, pending s' = pending s ++ ws ∧ Forall P ws) by (intros [_ <-]; eauto 10).
  destruct r1 as [a|e]; [intros [= <- <-]; by apply Hsame|].
  destruct (h e) as [k|] eqn:He; [|intros [= <- <-]; by apply Hsame].
  intros H. destruct (Hh e k He s1 r s' H) as (K2 & D2 & N2 & ws2 & P2 & H2).
  split; [by eapply keeps_trans|]. split; [congruence|]. split; [congruence|].
  exists (ws1 ++ ws2). split; [by rewrite P2, P1, app_assoc|]. by apply Forall_app.
Qed.
Create HintDb stages.
#[export] Hint Resolve stages_only_bind stages_only_ret stages_only_lift stages_only_query
  stages_only_now stages_only_add stages_only_try : stages.

(** [for x in l: f(x)] when every turn stages one write. *)
Lemma for_each_stages {A} (R : A → write → Prop) (f : A → DBM ()) l :
  (∀ x, stages (λ _ r ws, r = Ok () → ∃ w, ws = [w] ∧ R x w) (f x)) →
  stages (λ _ r ws, r = Ok () → Forall2 R l ws) (for_each f l).
Proof.
  intros Hf. induction l as [|x l IH]; simpl.
  - apply stages_ret. intros _ _. constructor.
  - eapply stages_bind; [apply Hf|done|]. intros []. eapply stages_weaken; [|apply IH].
    intros d r ws2 H2 ws1 H1 Hr. destruct (H1 eq_refl) as (w & -> & Hw). constructor; auto.
Qed.

(** ** The writes of a batch *)

(** Writes on the registry and on the error log. *)
Inductive bookkeeping : write → Prop :=
  | Book_model id f :
      (∀ m, m_device_id (f m) = m_device_id m ∧ m_model_version (f m) = m_model_version m) →
      bookkeeping (update_model id f)
  | Book_log l : bookkeeping (insert_error_log l).

(** The update of one target: anomaly columns only, after which the row is no
    target any more; without a model the score is left alone. *)
Record row_update (device_id : string) (ready : bool) (f : Telemetry → Telemetry) : Prop := {
  update_columns : ∀ t, ∃ score percentile reason, f t = with_anomaly score percentile reason t;
  update_settles : ∀ t, is_target device_id ready (f t) = false;
  update_no_score : ready = false → ∀ t, t_anomaly_score (f t) = t_anomaly_score t }.
Definition row_write (device_id : string) (ready : bool) (row : Telemetry) (w : write) : Prop :=
  ∃ f, w = update_telemetry (t_id row) f ∧ row_update device_id ready f.

Lemma explain_update device_id ready reason :
  (ready = true → window_not_ready reason = true) → row_update device_id ready (explain reason).
Proof.
  intros H. split.
  - intros t. unfold explain. by do 3 eexists.
  - intros t. unfold is_target, explain, with_anomaly; cbn [t_device_id t_anomaly_score t_anomaly_reason].
    destruct (String.eqb _ _), (t_anomaly_score t), ready; cbn [andb]; try done. by rewrite H.
  - done.
Qed.
Lemma scored_update device_id x p reason : row_update device_id true (with_anomaly (Some x) p reason).
Proof.
  split; [intros t; by do 3 eexists| |done]. intros t. unfold is_target, with_anomaly; cbn [t_device_id t_anomaly_score t_anomaly_reason].
  by rewrite andb_false_r.
Qed.

Definition alarm_writes (device_id code source : string) (active : bool) (summary : string) (now : Z) (d : DB) : list write :=
  match active, active_of_source device_id code source d with
  | true, None => [insert_alarm (new_alarm now device_id code "warning" source (py_take 240 summary))]
  | true, Some a => [update_alarm (a_id a) (with_summary (py_take 240 summary))]
  | false, Some a => [update_alarm (a_id a) (cleared_alarm now)]
  | false, None => []
  end.
Lemma set_alarm_stages device_id code source active summary :
  stages (λ d r ws, r = Ok () ∧ ∃ now, ws = alarm_writes device_id code source active summary now d)
    (set_alarm device_id code source active summary).
Proof.
  intros s r s'. unfold set_alarm, alarm_writes, mbind, M_bind, query, get, utc_now.
  destruct active, (active_of_source _ _ _ (db s)); intros [= <- <-]; (split; [done|]); (split; [done|]); (split; [done|]);
    eexists; (split; [|split; [done|by exists (clock s (ticks s))]]); cbn; by rewrite ?app_nil_r.
Qed.
Lemma log_diagnostic_stages device_id code severity detail :
  stages_only bookkeeping (log_diagnostic device_id code severity detail).
Proof.
  apply stages_only_bind; [apply stages_only_now|intros now].
  apply stages_only_bind; [apply stages_only_query|intros [l|]]; [apply stages_only_ret|].
  apply stages_only_bind; [apply stages_only_now|intros created]. apply stages_only_add. constructor.
Qed.

Section Batch.
Context {Estimator : Type} (fromisoformat : string → result datetime) (local_offset : Z → Z) (sha256 : string → string).
Context (mean std amax : list float → float) (dot : list float → list float → float).
Context (score_samples : Estimator → list (list float) → list float) (predict : Estimator → list (list float) → list Z).
Context (np_sort : list float → list float) (searchsorted_right : list float → float → Z).
Context (joblib_load : string → result (PyObj Estimator)) (sklearn_version : string) (str_container : json → string).
Context (int_of_str : string → result Z) (float_of_str : string → result float) (decode_error : string → string).
Context (cwd : path) (resolve : path → path) (settings : Settings).

Abbreviation load_ready := (load_ready_bundle fromisoformat local_offset sha256 joblib_load sklearn_version
  str_container int_of_str float_of_str decode_error cwd resolve settings).
Abbreviation fallback := (run_fallback).
Abbreviation with_model := (run_model mean std amax dot score_samples predict np_sort searchsorted_right).
Abbreviation batch_of := (score_batch mean std amax dot score_samples predict np_sort searchsorted_right).

Lemma set_status_stages r status diagnostic :
  stages_only bookkeeping (set_status r status diagnostic).
Proof.
  apply stages_only_bind; [|intros; apply stages_only_ret]. apply stages_only_add. by constructor.
Qed.

Lemma load_ready_stages fs device_id : stages_only bookkeeping (load_ready fs device_id).
Proof.
  apply stages_only_bind; [apply stages_only_query|intros [r|]; [|apply stages_only_ret]].
  apply stages_only_try.
  - apply stages_only_bind; [apply stages_only_lift|intros directory].
    apply stages_only_bind; [apply stages_only_lift|intros bundle].
    apply stages_only_bind; [apply stages_only_lift|intros _].
    apply stages_only_bind; [apply stages_only_now|intros now].
    apply stages_only_bind; [apply stages_only_lift|intros []];
      (apply stages_only_bind; [apply set_status_stages|intros; apply stages_only_ret]).
  - intros e k. destruct (is_artifact_failure e); [|done]. intros [= <-].
    apply stages_only_bind; [apply set_status_stages|intros; apply stages_only_ret].
Qed.

(** ws = bookkeeping, one update per target, bookkeeping. *)
Definition target_writes (device_id : string) (ready : bool) (targets : list Telemetry) (ws : list write) : Prop :=
  ∃ before rows after, ws = before ++ rows ++ after ∧ Forall bookkeeping before
    ∧ Forall2 (row_write device_id ready) targets rows ∧ Forall bookkeeping after.

Lemma explain_row_stages device_id by_id code row :
  stages (λ _ r ws, r = Ok () → ∃ w, ws = [w] ∧ row_write device_id false row w)
    (explain_row by_id (fallback_detail code) row).
Proof.
  eapply stages_bind; [apply (stages_lift (λ _ _ ws, ws = [])); done|done|].
  intros diagnostics. apply stages_add. intros _ ws1 -> _. eexists. split; [done|].
  eexists. split; [done|]. by apply explain_update.
Qed.

Lemma score_telemetry_stages device_id by_id results row :
  stages (λ _ r ws, r = Ok () → ∃ w, ws = [w] ∧ row_write device_id true row w)
    (score_telemetry by_id results row).
Proof.
  eapply stages_bind; [apply (stages_lift (λ _ _ ws, ws = [])); done|done|].
  intros diagnostics. destruct (by_key (t_id row) results) as [r|]; apply stages_add; intros _ ws1 -> _;
    (eexists; split; [done|]; eexists; split; [done|]).
  - apply scored_update.
  - apply explain_update. intros _. vm_compute. done.
Qed.

Lemma run_fallback_stages device_id code targets by_id r0 :
  stages (λ _ r ws, ∀ b, r = Ok b →
      processed b = Z.of_nat (length targets) ∧ target_writes device_id false targets ws)
    (run_fallback device_id code targets by_id r0).
Proof.
  eapply stages_bind; [apply log_diagnostic_stages|done|]. intros [].
  eapply stages_bind; [apply for_each_stages, (λ row, explain_row_stages device_id by_id code row)|done|]. intros [].
  apply stages_ret. intros d rows Hrows before Hb b [= <-]. split; [done|].
  exists before, rows, []. auto.
Qed.

Lemma run_model_stages device_id bundle samples targets latest by_id r0 :
  stages (λ _ r ws, ∀ b, r = Ok b →
      0 <= processed b <= Z.of_nat (length targets) ∧ target_writes device_id true targets ws)
    (with_model bundle samples targets latest by_id r0).
Proof.
  eapply stages_bind; [apply (stages_lift (λ _ _ ws, ws = [])); done|done|]. intros results.
  eapply stages_bind; [apply for_each_stages, (λ row, score_telemetry_stages device_id by_id results row)|done|]. intros [].
  eapply (stages_bind (λ _ _ ws, Forall bookkeeping ws)); [|done|].
  - destruct r0 as [r0|]; [|apply stages_ret; constructor].
    apply stages_only_bind; [apply stages_only_now|intros now].
    apply stages_only_bind; [apply stages_only_add; by constructor|intros; apply stages_only_ret].
  - intros r1. apply stages_ret. intros d after Ha rows Hrows ws0 -> b Hb. split.
    + pose proof (length_filter_le (λ t, bool_decide (is_Some (by_key (t_id t) results))) targets) as Hlen.
      destruct (by_key (t_id latest) results); injection Hb as <-; simpl;
        lia.
    + exists [], rows, after. simpl. rewrite app_nil_r. auto.
Qed.

(** What a batch adds to the unit of work. *)
Definition batch_writes (device_id : string) (loaded : @Loaded Estimator) (targets : list Telemetry)
    (first latest : Telemetry) (d : DB) (b : Batch) (ws : list write) : Prop :=
  0 <= processed b <= Z.of_nat (length targets)
  ∧ ∃ samples by_id diagnostics scoring now1 summary1 alarm2,
      mapM telemetry_sample (context_rows device_id first latest d) = Ok samples
      ∧ diagnose (map t_id targets) [] samples = Ok by_id
      ∧ diagnostics_of (t_id latest) by_id = Ok diagnostics
      ∧ ws = scoring ++ alarm_writes device_id "SENSOR_DIAGNOSTIC" "sensor_rule"
                          (negb (bool_decide (diagnostics = []))) summary1 now1 d ++ alarm2
      ∧ target_writes device_id (is_ready loaded) targets scoring
      ∧ (if is_ready loaded
         then ∃ summary2 now2, alarm2 = alarm_writes device_id "ANOMALY_DETECTED" "anomaly" (anomaly_active b) summary2 now2 d
         else alarm2 = []).

Lemma batch_stages loaded device_id targets first latest :
  stages (λ d r ws, ∀ b, r = Ok b → batch_writes device_id loaded targets first latest d b ws)
    (batch_of loaded device_id targets first latest).
Proof.
  eapply (stages_bind (λ d r ws, r = Ok (context_rows device_id first latest d) ∧ ws = []));
    [by apply stages_query|done|intros context].
  eapply (stages_bind (λ d r ws, r = mapM telemetry_sample context ∧ ws = [])); [by apply stages_lift|done|intros samples].
  eapply (stages_bind (λ d r ws, r = diagnose (map t_id targets) [] samples ∧ ws = [])); [by apply stages_lift|done|intros by_id].
  eapply (stages_bind (λ d r ws, ∀ b, r = Ok b → 0 <= processed b <= Z.of_nat (length targets)
      ∧ target_writes device_id (is_ready loaded) targets ws)); [|done|intros batch].
  { unfold is_ready. destruct (ready_bundle loaded) as [bundle|].
    - rewrite bool_decide_eq_true_2 by done. apply run_model_stages.
    - rewrite bool_decide_eq_false_2 by by intros []. eapply stages_weaken; [|apply run_fallback_stages].
      intros d r ws H b Hb. destruct (H b Hb) as [-> Hw]. split; [lia|done]. }
  eapply (stages_bind (λ d r ws, r = diagnostics_of (t_id latest) by_id ∧ ws = [])); [by apply stages_lift|done|intros diagnostics].
  cbv zeta. eapply stages_bind; [apply set_alarm_stages|by intros ? ? ? []|intros []].
  eapply (stages_bind (λ d r ws, r = Ok () ∧ if is_ready loaded
         then ∃ summary2 now2, ws = alarm_writes device_id "ANOMALY_DETECTED" "anomaly" (anomaly_active batch) summary2 now2 d
         else ws = [])); [|by intros ? ? ? []|intros []].
  { unfold is_ready. destruct (ready_bundle loaded) as [bundle|].
    - rewrite bool_decide_eq_true_2 by done. eapply stages_weaken; [|apply set_alarm_stages].
      intros d r ws (-> & now & ->). split; [done|]. by do 2 eexists.
    - rewrite bool_decide_eq_false_2 by by intros []. by apply stages_ret. }
  apply stages_ret. intros d alarm2 [_ H2] ws3 [_ [now1 ->]] ws4 [Hd ->] scoring Hs ws5 [Hby ->] ws6 [Hsamples ->] ws7 [Hc ->] b [= <-].
  destruct (Hs batch eq_refl) as [Hp Hw]. split; [done|]. injection Hc as ->.
  eexists samples, by_id, diagnostics, scoring, now1, _, alarm2. simpl. rewrite app_nil_r. eauto 10.
Qed.
End Batch.
