(* ===== verification/WorkerProps.v ===== *)
(** What scoring a device does to the database: the effect of one pass,
    and the backlog that passes leave. *)
From S2P Require Import Prelude PyStr Float64 Json PyTime Models Tables Session Settings.
From S2P Require Import Schemas Ingestion AlarmFacts Keys Transactions.
From S2P Require Import IngestionProps Features SensorRules Modeling JsonValues Files Artifacts Worker WorkerFacts.

(** ** Effects of the staged writes *)

(** The tables the worker never touches. *)
Definition untouched (d d' : DB) : Prop :=
  users d' = users d ∧ devices d' = devices d ∧ threshold_configs d' = threshold_configs d
  ∧ health_snapshots d' = health_snapshots d ∧ calibrations d' = calibrations d
  ∧ maintenance_records d' = maintenance_records d ∧ audit_events d' = audit_events d
  ∧ device_commands d' = device_commands d.
Lemma untouched_refl d : untouched d d.
Proof. by repeat split. Qed.
Lemma untouched_trans d1 d2 d3 : untouched d1 d2 → untouched d2 d3 → untouched d1 d3.
Proof. unfold untouched. intuition congruence. Qed.

Lemma bookkeeping_effect ws d d' :
  Forall bookkeeping ws → run_writes ws d = Ok d' →
  untouched d d' ∧ telemetry d' = telemetry d ∧ alarms d' = alarms d.
Proof.
  intros Hws. revert d. induction Hws as [|w ws Hw Hws IH]; intros d; [by intros [= <-]|].
  rewrite run_writes_cons_ok. intros (d1 & H1 & (U & T & A)%IH). rewrite T, A.
  destruct Hw as [id f Hf|l]; [unfold update_model in H1|unfold insert_error_log in H1];
    open_write H1; (split; [by eapply untouched_trans|done]).
Qed.

Section Rows.
Context (device_id : string) (ready : bool).

(** A telemetry row after scoring the rows [ids]. *)
Record row_scored (ids : list Z) (t t' : Telemetry) : Prop := {
  scored_columns : ∃ score percentile reason, t' = with_anomaly score percentile reason t;
  scored_outside : t_id t ∉ ids → t' = t;
  scored_inside : t_id t ∈ ids → is_target device_id ready t' = false;
  scored_fallback : ready = false → t_anomaly_score t' = t_anomaly_score t }.

Lemma row_scored_id ids t t' : row_scored ids t t' → t_id t' = t_id t.
Proof. intros [(x & p & r & ->) _ _ _]. done. Qed.

Lemma row_scored_refl t : row_scored [] t t.
Proof. split; [|done|by intros H%elem_of_nil|done]. exists (t_anomaly_score t), (t_anomaly_percentile t), (t_anomaly_reason t). by destruct t. Qed.

Lemma row_scored_trans ids1 ids2 t1 t2 t3 :
  row_scored ids1 t1 t2 → row_scored ids2 t2 t3 → row_scored (ids1 ++ ids2) t1 t3.
Proof.
  intros H1 H2. pose proof (row_scored_id _ _ _ H1) as E. destruct H1 as [(x & p & r & E2) O1 I1 F1].
  destruct H2 as [(x' & p' & r' & E3) O2 I2 F2]. rewrite E in O2, I2. split.
  - exists x', p', r'. rewrite E3, E2. done.
  - rewrite not_elem_of_app. intros [N1 N2]. rewrite O2, O1 by done. done.
  - rewrite elem_of_app. intros H. destruct (decide (t_id t1 ∈ ids2)) as [Hin|Hout]; [auto|].
    rewrite O2 by done. apply I1. tauto.
  - intros Hr. by rewrite F2, F1.
Qed.

Lemma rows_effect targets ws d d' :
  Forall2 (row_write device_id ready) targets ws → run_writes ws d = Ok d' →
  untouched d d' ∧ alarms d' = alarms d
  ∧ Forall2 (row_scored (map t_id targets)) (telemetry d) (telemetry d').
Proof.
  intros Hws. revert d. induction Hws as [|row w targets ws (f & -> & Hf) Hws IH]; intros d.
  - intros [= <-]. split; [apply untouched_refl|]. split; [done|].
    induction (telemetry d); constructor; [apply row_scored_refl|done].
  - rewrite run_writes_cons_ok. intros (d1 & H1 & (U & A & F)%IH). unfold update_telemetry in H1. open_write H1.
    split; [by eapply untouched_trans|]. split; [done|]. simpl in F.
    change (map t_id (row :: targets)) with ([t_id row] ++ map t_id targets).
    clear U A IH Hws H. revert F. generalize (telemetry d') as l', (telemetry d) as l. intros l' l; revert l'. induction l as [|t l IHl]; intros l' F; simpl in F.
    + apply Forall2_nil_inv_l in F as ->. constructor.
    + apply Forall2_cons_inv_l in F as (t' & l2 & Ht & Hl & ->). constructor; [|by apply IHl].
      eapply row_scored_trans; [|exact Ht]. destruct (Z.eqb_spec (t_id t) (t_id row)) as [E|E].
      * destruct Hf as [Hcol Hset Hno]. split; [apply Hcol| |intros _; apply Hset|intros Hr; by apply Hno].
        rewrite list_elem_of_singleton. done.
      * split; [| done| |done].
        -- exists (t_anomaly_score t), (t_anomaly_percentile t), (t_anomaly_reason t). by destruct t.
        -- rewrite list_elem_of_singleton. done.
Qed.
End Rows.

Lemma target_writes_effect device_id ready targets ws d d' :
  target_writes device_id ready targets ws → run_writes ws d = Ok d' →
  untouched d d' ∧ alarms d' = alarms d
  ∧ Forall2 (row_scored device_id ready (map t_id targets)) (telemetry d) (telemetry d').
Proof.
  intros (before & rows & after & -> & Hb & Hr & Ha). setoid_rewrite run_writes_app_ok. setoid_rewrite run_writes_app_ok.
  intros (d1 & H1 & d2 & H2 & H3). apply (bookkeeping_effect _ _ _ Hb) in H1 as (U1 & T1 & A1).
  apply (bookkeeping_effect _ _ _ Ha) in H3 as (U3 & T3 & A3). apply (rows_effect _ _ _ _ _ _ Hr) in H2 as (U2 & A2 & F2).
  split; [by do 2 (eapply untouched_trans; [eassumption|])|]. split; [congruence|]. by rewrite T3, <- T1.
Qed.

(** Alarm writes touch the alarm table only. *)
Lemma alarm_writes_effect device_id code source active summary now d0 d d' :
  run_writes (alarm_writes device_id code source active summary now d0) d = Ok d' →
  untouched d d' ∧ telemetry d' = telemetry d.
Proof.
  unfold alarm_writes. destruct active, (active_of_source _ _ _ d0);
    rewrite ?run_writes_cons_ok; try (intros [= <-]; done);
    intros (d1 & H1 & [= <-]); [unfold update_alarm in H1|unfold insert_alarm in H1|unfold update_alarm in H1];
    open_write H1; done.
Qed.

Section Scoring.
Context {Estimator : Type} (fromisoformat : string → result datetime) (local_offset : Z → Z) (sha256 : string → string).
Context (mean std amax : list float → float) (dot : list float → list float → float).
Context (score_samples : Estimator → list (list float) → list float) (predict : Estimator → list (list float) → list Z).
Context (np_sort : list float → list float) (searchsorted_right : list float → float → Z).
Context (joblib_load : string → result (PyObj Estimator)) (sklearn_version : string) (str_container : json → string).
Context (int_of_str : string → result Z) (float_of_str : string → result float) (decode_error : string → string).
Context (cwd : path) (resolve : path → path) (settings : Settings).

Abbreviation load_ready := (load_ready_bundle fromisoformat local_offset sha256 joblib_load sklearn_version
  str_container int_of_str float_of_str decode_error cwd resolve settings).
Abbreviation score_once := (score_device_once fromisoformat local_offset sha256 mean std amax dot score_samples predict
  np_sort searchsorted_right joblib_load sklearn_version str_container int_of_str float_of_str decode_error cwd resolve settings).

(** A committed pass over a device. *)
Record scored (device_id : string) (loaded : @Loaded Estimator) (s s' : Session) (n : Z) : Prop := {
  scored_clean : clean s';
  scored_batch :
    let targets := targets_of device_id (is_ready loaded) (db s) in
    (targets = [] ∧ n = 0 ∧ published s' = published s
     ∧ ∃ ws, Forall bookkeeping ws ∧ run_writes ws (db s) = Ok (saved s'))
    ∨ ∃ first latest b ws0 ws,
        head targets = Some first ∧ last targets = Some latest ∧ n = processed b
        ∧ Forall bookkeeping ws0 ∧ batch_writes device_id loaded targets first latest (db s) b ws
        ∧ run_writes (ws0 ++ ws) (db s) = Ok (saved s')
        ∧ published s' = published s ++ notified (postgres s) (scoring_event device_id n (batch_registry b)) }.

Lemma staged_effective s s1 ws :
  clean s → db s1 = db s → pending s1 = pending s ++ ws → effective s1 = run_writes ws (db s).
Proof. intros (_ & Hp & _) Hd E. unfold effective. by rewrite E, Hp, Hd. Qed.

Lemma score_run fs device_id s r s' :
  clean s → score_once fs device_id s = (r, s') →
  (∃ e, r = Raise e ∧ keeps s s')
  ∨ ∃ loaded n, (load_ready fs device_id s).1 = Ok loaded ∧ r = Ok n ∧ scored device_id loaded s s' n.
Proof.
  intros Hs. pose proof Hs as (Hdb & Hp0 & Hn0). unfold score_device_once, mbind, M_bind at 1.
  destruct (load_ready fs device_id s) as [r1 s1] eqn:E1.
  destruct (load_ready_stages _ _ _ _ _ _ _ _ _ _ _ _ fs device_id s r1 s1 E1) as (K1 & D1 & N1 & ws0 & P1 & W1).
  destruct r1 as [loaded|e]; [|intros [= <- <-]; left; by exists e].
  unfold query, get at 1. unfold mbind, M_bind at 1. rewrite D1.
  set (targets := targets_of device_id (is_ready loaded) (db s)).
  assert (Hnil : (commit;; mret 0) s1 = (r, s') → targets = [] →
    (∃ e, r = Raise e ∧ keeps s s') ∨ ∃ loaded0 n, Ok loaded = Ok loaded0 ∧ r = Ok n ∧ scored device_id loaded0 s s' n).
  { intros H Ht. unfold mbind, M_bind in H. destruct (commit s1) as [r2 s2] eqn:E2.
    apply commit_run in E2 as [(d & Hd & -> & ->)|(e & _ & -> & ->)]; injection H as <- <-; [|left; by exists e].
    right. exists loaded, 0. do 2 (split; [done|]). split; [done|]. left. fold targets. split; [done|]. split; [done|].
    rewrite (staged_effective s s1 ws0) in Hd by done. destruct K1 as (_ & Kp & _). simpl.
    split; [by rewrite Kp, N1, Hn0, app_nil_r|]. by exists ws0. }
  destruct (head targets) as [first|] eqn:Hhead; [|intros H; apply (Hnil H); by destruct targets].
  destruct (last targets) as [latest|] eqn:Hlast; [|intros H; apply (Hnil H); by apply last_None].
  clear Hnil. unfold mbind, M_bind at 1.
  destruct (score_batch _ _ _ _ _ _ _ _ loaded device_id targets first latest s1) as [r2 s2] eqn:E2.
  destruct (batch_stages mean std amax dot score_samples predict np_sort searchsorted_right loaded device_id targets first latest s1 r2 s2 E2)
    as (K2 & D2 & N2 & ws & P2 & W2).
  pose proof (keeps_trans _ _ _ K1 K2) as K. destruct r2 as [b|e]; [|intros [= <- <-]; left; by exists e].
  unfold mbind, M_bind at 1. destruct (notify_after_commit _ s2) as [r3 s3] eqn:E3.
  apply notify_run in E3 as [(-> & (K3 & N3 & H3) & _)|(-> & -> & _)]; [|intros [= <- <-]; left; by eexists].
  unfold mbind, M_bind. destruct (commit s3) as [r4 s4] eqn:E4.
  apply commit_run in E4 as [(d & Hd & -> & ->)|(e & _ & -> & ->)]; intros [= <- <-];
    [|left; exists e; split; [done|by eapply keeps_trans]].
  right. exists loaded, (processed b). do 2 (split; [done|]). split; [done|]. right. fold targets.
  exists first, latest, b, ws0, ws. do 4 (split; [done|]). rewrite <- D1. split; [by apply W2|].
  assert (Hd2 : effective s2 = run_writes (ws0 ++ ws) (db s)).
  { apply staged_effective; [done|congruence|]. by rewrite P2, P1, app_assoc. }
  rewrite H3, bind_run_nil, Hd2 in Hd. rewrite D1. split; [done|]. simpl.
  destruct K as (_ & Kp & Kg & _), K3 as (_ & Kp3 & _). by rewrite Kp3, Kp, N3, N2, N1, Hn0, Kg.
Qed.

(** The rows a pass considers, and what is left of them. *)
Definition batch_ids (device_id : string) (loaded : @Loaded Estimator) (d : DB) : list Z :=
  map t_id (targets_of device_id (is_ready loaded) d).
Definition backlog (device_id : string) (ready : bool) (d : DB) : list Telemetry :=
  List.filter (is_target device_id ready) (telemetry d).

Lemma scored_effect device_id loaded s s' n :
  scored device_id loaded s s' n →
  untouched (db s) (saved s') ∧ 0 <= n <= Z.of_nat (length (batch_ids device_id loaded (db s)))
  ∧ Forall2 (row_scored device_id (is_ready loaded) (batch_ids device_id loaded (db s)))
      (telemetry (db s)) (telemetry (saved s')).
Proof.
  unfold batch_ids. intros [_ [(Ht & -> & _ & ws & Hws & Hrun)|(first & latest & b & ws0 & ws & _ & _ & -> & H0 & Hb & Hrun & _)]];
    cbv zeta in *.
  - apply (bookkeeping_effect _ _ _ Hws) in Hrun as (U & T & _). split; [done|]. rewrite Ht, T.
    split; [simpl; lia|]. clear. induction (telemetry (db s)); constructor; [apply row_scored_refl|done].
  - destruct Hb as (Hn & samples & by_id & diags & scoring & now1 & sum1 & alarm2 & _ & _ & _ & -> & Hw & Ha).
    apply run_writes_app_ok in Hrun as (d1 & (U1 & T1 & _)%(bookkeeping_effect _ _ _ H0) & Hrun).
    apply run_writes_app_ok in Hrun as (d2 & (U2 & _ & F)%(target_writes_effect _ _ _ _ _ _ Hw) & Hrun).
    apply run_writes_app_ok in Hrun as (d3 & (U3 & T3)%alarm_writes_effect & Hrun).
    assert (H4 : untouched d3 (saved s') ∧ telemetry (saved s') = telemetry d3).
    { destruct (is_ready loaded); [destruct Ha as (sum2 & now2 & ->); by apply alarm_writes_effect in Hrun|].
      subst alarm2. by injection Hrun as <-. }
    destruct H4 as [U4 T4]. rewrite length_map. split; [by do 3 (eapply untouched_trans; [eassumption|])|].
    split; [done|]. by rewrite T4, T3, <- T1.
Qed.

Lemma scored_ids device_id ready ids l l' :
  Forall2 (row_scored device_id ready ids) l l' →
  List.filter (is_target device_id ready) l'
  = List.filter (λ t, is_target device_id ready t && negb (existsb (Z.eqb (t_id t)) ids)) l.
Proof.
  induction 1 as [|t t' l l' Ht Hl IH]; [done|]. simpl.
  destruct (existsb (Z.eqb (t_id t)) ids) eqn:E.
  - apply existsb_exists in E as (i & Hi & <-%Z.eqb_eq). apply list_elem_of_In in Hi.
    rewrite (scored_inside _ _ _ _ _ Ht Hi), andb_false_r. done.
  - rewrite (scored_outside _ _ _ _ _ Ht).
    + rewrite andb_true_r. by destruct (is_target device_id ready t); rewrite IH.
    + intros Hin. rewrite (proj2 (existsb_exists _ ids)) in E; [done|]. exists (t_id t). rewrite Z.eqb_refl.
      split; [by apply list_elem_of_In|done].
Qed.

(** Removing a batch chosen among distinct rows leaves the others. *)
Lemma batch_removed (p : Telemetry → bool) l k :
  NoDup (map t_id l) →
  let batch := take k (order_by row_before (List.filter p l)) in
  length (List.filter (λ t, p t && negb (existsb (Z.eqb (t_id t)) (map t_id batch))) l)
  = (length (List.filter p l) - length batch)%nat.
Proof.
  intros Hnd. cbv zeta. rewrite filter_both.
  pose proof (order_by_perm row_before (List.filter p l)) as Hperm.
  apply (filter_NoDup t_id p) in Hnd. rewrite <- Hperm in Hnd.
  rewrite (Permutation_length (filter_perm _ _ _ (symmetry Hperm))), <- (Permutation_length Hperm).
  revert Hnd. generalize (order_by row_before (List.filter p l)) as sorted. intros sorted Hnd.
  assert (E : sorted = take k sorted ++ drop k sorted) by by rewrite take_drop.
  revert E. generalize (take k sorted) as b, (drop k sorted) as rest. intros b rest ->.
  rewrite map_app in Hnd. apply NoDup_app in Hnd as (_ & Hd & _).
  rewrite List.filter_app, (filter_none _ b), (filter_all _ rest); simpl.
  - rewrite length_app. lia.
  - intros x Hx. apply negb_true_iff, not_true_iff_false. rewrite existsb_exists. intros (i & Hi & <-%Z.eqb_eq).
    apply list_elem_of_In in Hi. apply (Hd _ Hi). by apply list_elem_of_fmap_2.
  - intros x Hx. apply negb_false_iff, existsb_exists. exists (t_id x). rewrite Z.eqb_refl.
    split; [|done]. apply list_elem_of_In. by apply list_elem_of_fmap_2.
Qed.

(** C12: a scoring pass is atomic and stays in its lane: if it raises, nothing
    is committed; otherwise no table outside telemetry, alarms, error log and
    model registry changes, at most 500 rows of the backlog are considered,
    every one of them leaves the backlog, only their anomaly columns change,
    every other row is as before, and without a usable model no score is
    written. *)
Theorem scoring_effect fs device_id s r s' :
  clean s → score_once fs device_id s = (r, s') →
  match r with
  | Raise _ => saved s' = saved s ∧ published s' = published s
  | Ok n =>
      clean s' ∧ untouched (saved s) (saved s')
      ∧ ∃ loaded, (load_ready fs device_id s).1 = Ok loaded
          ∧ let ids := batch_ids device_id loaded (saved s) in
            0 <= n <= Z.of_nat (length ids) ∧ (length ids <= MAX_BATCH_ROWS)%nat
            ∧ Forall2 (row_scored device_id (is_ready loaded) ids) (telemetry (saved s)) (telemetry (saved s'))
  end.
Proof.
  intros Hs H. apply score_run in H as [(e & -> & K)|(loaded & n & Hl & -> & Hsc)]; [|..|done].
  - by destruct K as (? & ? & _).
  - destruct (scored_effect _ _ _ _ _ Hsc) as (U & Hn & F). destruct Hs as [Hdb _]. rewrite Hdb in U, Hn, F.
    split; [apply Hsc|]. split; [done|]. exists loaded. split; [done|]. split; [done|]. split; [|done].
    unfold batch_ids, targets_of. rewrite length_map, length_take. lia.
Qed.

(** Passes that find the model in the same readiness. *)
Inductive passes (fs : FS) (device_id : string) (ready : bool) : nat → Session → Session → Prop :=
  | passes_done s : passes fs device_id ready 0 s s
  | passes_one k s loaded n s1 s2 :
      score_once fs device_id s = (Ok n, s1) → (load_ready fs device_id s).1 = Ok loaded →
      is_ready loaded = ready → passes fs device_id ready k s1 s2 →
      passes fs device_id ready (S k) s s2.

Lemma pass_backlog device_id loaded s s' n :
  NoDup (map t_id (telemetry (db s))) → scored device_id loaded s s' n →
  NoDup (map t_id (telemetry (saved s')))
  ∧ length (backlog device_id (is_ready loaded) (saved s'))
    = (length (backlog device_id (is_ready loaded) (db s)) - MAX_BATCH_ROWS)%nat.
Proof.
  intros Hnd Hsc. destruct (scored_effect _ _ _ _ _ Hsc) as (_ & _ & F). split.
  - replace (map t_id (telemetry (saved s'))) with (map t_id (telemetry (db s))); [done|].
    clear Hnd. induction F as [|t t' l l' Ht _ IH]; [done|]. simpl. by rewrite IH, (row_scored_id _ _ _ _ _ Ht).
  - unfold backlog. rewrite (scored_ids _ _ _ _ _ F). unfold batch_ids, targets_of. rewrite batch_removed by done.
    rewrite length_take, (Permutation_length (order_by_perm _ _)). lia.
Qed.

(** Repeated passes drain the backlog: every pass takes 500 rows off it
    (or all that are left), so after enough passes over a device whose model
    stays in the same state nothing is left to score or explain. *)
Lemma passes_backlog fs device_id ready k s s' :
  clean s → NoDup (map t_id (telemetry (saved s))) → passes fs device_id ready k s s' →
  length (backlog device_id ready (saved s'))
  = (length (backlog device_id ready (saved s)) - k * MAX_BATCH_ROWS)%nat.
Proof.
  intros Hs Hnd Hp. induction Hp as [s|k s loaded n s1 s2 Hrun Hl Hr _ IH]; [lia|].
  pose proof Hs as [Hdb _]. apply score_run in Hrun as [(e & [=] & _)|(loaded' & n' & Hl' & _ & Hsc)]; [|done].
  rewrite Hl in Hl'. injection Hl' as <-. rewrite <- Hdb in Hnd.
  destruct (pass_backlog _ _ _ _ _ Hnd Hsc) as [Hnd1 Hlen]. rewrite Hr in Hlen. rewrite IH; [|apply Hsc|done].
  rewrite Hlen, Hdb. lia.
Qed.
End Scoring.

(** ** A concrete pass: one telemetry row and no model *)

Definition demo_disk : FS := {| files := ∅; dirs := ∅ |}.
Definition demo_pass : DBM Z := score_device_once (Estimator := unit) (λ _, Raise TypeError) id id
  (λ _, of_int 0) (λ _, of_int 0) (λ _, of_int 0) (λ _ _, of_int 0)
  (λ _ l, map (λ _, of_int 0) l) (λ _ l, map (λ _, 1) l) id (λ _ _, 0) (λ _, Raise TypeError) "" (λ _, "")
  (λ _, Raise TypeError) (λ _, Raise TypeError) id [] id sample_settings demo_disk "motor-1".
Definition demo_session : Session := Eval vm_compute in after (persist_telemetry sample_envelope sample_session).

Lemma demo_clean : clean demo_session.
Proof. by repeat split. Qed.

Lemma scoring_effect_witness :
  ∃ s', demo_pass demo_session = (Ok 1, s') ∧ untouched (saved demo_session) (saved s')
    ∧ map t_anomaly_reason (telemetry (saved s'))
      = [Some "SENSOR_MISSING: current sample is missing; SENSOR_MISSING: vibration_peak sample is missing; SENSOR_MISSING: crest_factor sample is missing"].
Proof.
  assert (Hr : (demo_pass demo_session).1 = Ok 1) by (vm_compute; reflexivity).
  assert (Hm : map t_anomaly_reason (telemetry (saved (demo_pass demo_session).2))
      = [Some "SENSOR_MISSING: current sample is missing; SENSOR_MISSING: vibration_peak sample is missing; SENSOR_MISSING: crest_factor sample is missing"])
    by (vm_compute; reflexivity).
  destruct (demo_pass demo_session) as [r s'] eqn:E. cbn [fst snd] in Hr, Hm. subst r.
  unfold demo_pass in E. apply scoring_effect in E as (_ & U & _); [|exact demo_clean].
  exists s'. split; [reflexivity|]. split; [exact U|exact Hm].
Defined.
