(* ===== verification/WorkerProgress.v ===== *)
(** Progress of the anomaly worker on a device that has no model: every pass
    over readable rows commits, and repeated passes empty the backlog. *)
From S2P Require Import Prelude PyStr Float64 Json PyTime Models Tables Session Settings.
From S2P Require Import Ingestion AlarmFacts Keys Transactions Features SensorRules SensorProps.
From S2P Require Import Modeling JsonValues Files Artifacts Worker WorkerFacts WorkerProps.

(** ** Rows the worker can read *)

(** The times are representable in UTC and the measurements finite. *)
Definition readable (t : Telemetry) : Prop := ∃ s, telemetry_sample t = Ok s ∧ finite_sample s.

Lemma explain_readable reason t : readable t → readable (explain reason t).
Proof. done. Qed.
Lemma sample_id t s : telemetry_sample t = Ok s → s_sample_id s = t_id t.
Proof.
  unfold telemetry_sample, mbind, result_bind. destruct (aware _); [|done]. by intros [= <-].
Qed.

(** A database in which the rows of a device can be scored without a model. *)
Record serviceable (device_id : string) (d : DB) : Prop := {
  sv_device : has_device device_id d = true;
  sv_name : varchar 63 device_id = true;
  sv_unmodelled : latest_registry device_id d = None;
  sv_ids : NoDup (map t_id (telemetry d));
  sv_rows : forallb telemetry_fits (telemetry d) = true;
  sv_alarms : forallb alarm_fits (alarms d) = true;
  sv_readable : ∀ t, t ∈ telemetry d → t_device_id t = device_id → readable t }.

(** Writes that succeed on such a database and keep it so. *)
Definition safe (device_id : string) (w : write) : Prop :=
  ∀ d, serviceable device_id d → ∃ d', w d = Ok d' ∧ serviceable device_id d'.

Lemma run_safe device_id ws d :
  Forall (safe device_id) ws → serviceable device_id d →
  ∃ d', run_writes ws d = Ok d' ∧ serviceable device_id d'.
Proof.
  intros Hws. revert d. induction Hws as [|w ws Hw _ IH]; intros d Hd; [by exists d|].
  destruct (Hw d Hd) as (d1 & E & Hd1). simpl. rewrite E. by apply IH.
Qed.

Lemma safe_error_log device_id l : error_log_fits l = true → safe device_id (insert_error_log l).
Proof.
  intros Hl d Hd. unfold insert_error_log, guard_data. rewrite Hl. eexists. split; [done|]. by destruct Hd.
Qed.

Lemma safe_new_alarm device_id now code source summary :
  varchar 48 code && varchar 24 source = true → no_nul summary = true →
  safe device_id (insert_alarm (new_alarm now device_id code "warning" source (py_take 240 summary))).
Proof.
  intros [Hc Hsrc]%andb_true_iff Hn d Hd.
  assert (Hfit : alarm_fits (new_alarm now device_id code "warning" source (py_take 240 summary)) = true).
  { unfold alarm_fits; simpl. by rewrite Hc, Hsrc, varchar_take by done. }
  unfold insert_alarm, guard_data, guard_integrity. rewrite Hfit. simpl. destruct Hd as [Hdev ? ? ? ? Ha ?].
  rewrite Hdev. eexists. split; [done|]. constructor; try done. simpl.
  rewrite forallb_app, Ha. simpl. rewrite andb_true_r. exact Hfit.
Qed.

Lemma forallb_update {A} (p q : A → bool) f l :
  forallb p l = true → (∀ x, p x = true → p (f x) = true) → forallb p (update_where q f l) = true.
Proof.
  intros Hl Hf. apply forallb_elem. intros x Hx. unfold update_where in Hx.
  apply list_elem_of_In, in_map_iff in Hx as (y & <- & Hy). apply list_elem_of_In in Hy.
  rewrite forallb_elem in Hl. specialize (Hl y Hy). destruct (q y); auto.
Qed.

Lemma safe_update_alarm device_id id f :
  (∀ a, alarm_fits a = true → alarm_fits (f a) = true) → safe device_id (update_alarm id f).
Proof.
  intros Hf d []. unfold update_alarm, guard_data.
  assert (H : forallb alarm_fits (update_where (λ a, a_id a =? id) f (alarms d)) = true) by by apply forallb_update.
  rewrite H. eexists. split; [done|]. by constructor.
Qed.

Lemma with_summary_fits summary a :
  no_nul summary = true → alarm_fits a = true → alarm_fits (with_summary (py_take 240 summary) a) = true.
Proof. intros Hn. unfold alarm_fits; simpl. rewrite varchar_take, !andb_true_iff by done. tauto. Qed.
Lemma cleared_fits now a : alarm_fits a = true → alarm_fits (cleared_alarm now a) = true.
Proof. unfold alarm_fits. cbn -[varchar]. rewrite !andb_true_iff. intros (((((? & ?) & ?) & ?) & ?) & ?). repeat split; done. Qed.

Lemma safe_explain device_id id reason :
  varchar 300 reason = true → safe device_id (update_telemetry id (explain reason)).
Proof.
  intros Hr d []. unfold update_telemetry, guard_data.
  assert (H : forallb telemetry_fits (update_where (λ t, t_id t =? id) (explain reason) (telemetry d)) = true).
  { apply forallb_update; [done|]. unfold telemetry_fits; cbn -[varchar]. intros t. rewrite !andb_true_iff. tauto. }
  rewrite H. eexists. split; [done|]. constructor; try done; simpl.
  - unfold update_where. rewrite map_map. erewrite map_ext; [done|]. intros t. by destruct (t_id t =? id).
  - intros t Ht Hdev. unfold update_where in Ht. apply list_elem_of_In, in_map_iff in Ht as (y & <- & Hy).
    apply list_elem_of_In in Hy. destruct (t_id y =? id); [apply explain_readable|]; by auto.
Qed.
#[export] Hint Resolve safe_error_log safe_new_alarm safe_update_alarm with_summary_fits cleared_fits safe_explain : stages.

(** ** A pass stages safe writes only *)

Lemma set_alarm_safe device_id code source active summary :
  varchar 48 code && varchar 24 source = true → no_nul summary = true →
  stages_only (safe device_id) (set_alarm device_id code source active summary).
Proof.
  intros Hc Hn. apply stages_only_bind; [apply stages_only_query|intros alarm].
  destruct active, alarm; repeat (apply stages_only_bind; [apply stages_only_now|intros]);
    first [apply stages_only_ret|apply stages_only_add; eauto with stages].
Qed.

Lemma log_diagnostic_safe device_id code severity detail :
  varchar 63 device_id = true → varchar 48 code && varchar 16 severity = true → no_nul detail = true →
  stages_only (safe device_id) (log_diagnostic device_id code severity detail).
Proof.
  intros Hd [Hc Hs]%andb_true_iff Hn.
  apply stages_only_bind; [apply stages_only_now|intros now].
  apply stages_only_bind; [apply stages_only_query|intros [l|]]; [apply stages_only_ret|].
  apply stages_only_bind; [apply stages_only_now|intros created]. apply stages_only_add, safe_error_log.
  unfold error_log_fits; cbn [l_component l_error_code l_severity l_device_id l_detail new_error_log nullable].
  by rewrite Hc, Hs, Hd, varchar_take.
Qed.

Lemma for_each_only {A} P (f : A → DBM ()) l : (∀ x, stages_only P (f x)) → stages_only P (for_each f l).
Proof.
  intros Hf. induction l as [|x l IH]; simpl; [apply stages_only_ret|].
  by apply stages_only_bind; [|intros []].
Qed.

Lemma reasons_no_nul diagnostics :
  Forall plain diagnostics → no_nul (join "; " (map (λ d, g_code d +:+ ": " +:+ g_reason d) diagnostics)) = true.
Proof. intros H. apply no_nul_join; [done|]. by apply Forall_map. Qed.
Lemma diagnostic_reason_no_nul diagnostics : Forall plain diagnostics → no_nul (diagnostic_reason diagnostics) = true.
Proof. intros H. by apply no_nul_take, reasons_no_nul. Qed.
Lemma diagnostic_reason_fits diagnostics : Forall plain diagnostics → varchar 300 (diagnostic_reason diagnostics) = true.
Proof. intros H. by apply varchar_take, reasons_no_nul. Qed.

(** The texts of every diagnostic of a batch. *)
Definition plain_batch (by_id : list (Z * list SensorDiagnostic)) : Prop := Forall (λ e, Forall plain e.2) by_id.
Lemma diagnose_plain ids earlier samples by_id : diagnose ids earlier samples = Ok by_id → plain_batch by_id.
Proof.
  unfold plain_batch. revert earlier by_id. induction samples as [|x samples IH]; intros earlier by_id; simpl; [by intros [= <-]|].
  destruct (existsb _ ids); [|apply IH]. unfold mbind, result_bind.
  destruct (detect_sensor_failures _ _) as [found|] eqn:Ef; [|done].
  destruct (diagnose _ _ samples) as [rest|] eqn:Er; [|done]. intros [= <-].
  constructor; [by apply detect_plain in Ef|by eapply IH].
Qed.
Lemma diagnostics_of_plain id by_id ds : plain_batch by_id → diagnostics_of id by_id = Ok ds → Forall plain ds.
Proof.
  unfold plain_batch, diagnostics_of, by_key. rewrite Forall_forall. intros H.
  destruct (List.find _ _) as [[k v]|] eqn:E; [|done]. intros [= <-].
  apply List.find_some in E as [Hin%in_rev _]. apply (H (k, v)). by apply list_elem_of_In.
Qed.
Lemma stages_only_known {A B} P (r : result A) (f : A → DBM B) :
  (∀ a, r = Ok a → stages_only P (f a)) → stages_only P (lift r ≫= f).
Proof.
  destruct r as [a|e]; intros H; [by apply H|].
  intros s r' s' [= <- <-]. split; [apply keeps_refl|]. do 2 (split; [done|]). exists []. by rewrite app_nil_r.
Qed.

Lemma explain_row_safe device_id by_id detail row :
  plain_batch by_id → varchar 300 detail = true → stages_only (safe device_id) (explain_row by_id detail row).
Proof.
  intros Hb Hd. apply stages_only_known. intros diagnostics Hds.
  apply stages_only_add, safe_explain. case_bool_decide; [done|]. by eapply diagnostic_reason_fits, diagnostics_of_plain.
Qed.

(** ** What a pass reads *)

Definition returns {A} (m : DBM A) (s : Session) : Prop := ∃ a s', m s = (Ok a, s').

Lemma returns_bind {A B} Q (m : DBM A) (f : A → DBM B) s :
  stages Q m → returns m s →
  (∀ a s', m s = (Ok a, s') → db s' = db s → returns (f a) s') → returns (m ≫= f) s.
Proof.
  intros Hm (a & s1 & E) Hf. destruct (Hm s _ _ E) as (_ & Hdb & _).
  destruct (Hf a s1 E Hdb) as (b & s2 & E2). exists b, s2. unfold mbind, M_bind. by rewrite E.
Qed.
Lemma returns_lift {A B} (r : result A) (f : A → DBM B) a s :
  r = Ok a → returns (f a) s → returns (lift r ≫= f) s.
Proof. intros -> (b & s2 & E). by exists b, s2. Qed.
Lemma returns_query {A B} (q : DB → A) (f : A → DBM B) s :
  returns (f (q (db s))) s → returns (query q ≫= f) s.
Proof. intros (b & s2 & E). by exists b, s2. Qed.

Lemma set_alarm_returns device_id code source active summary s :
  returns (set_alarm device_id code source active summary) s.
Proof.
  unfold set_alarm. apply returns_query. destruct active, (active_of_source _ _ _ (db s)); by do 2 eexists.
Qed.
Lemma log_diagnostic_returns device_id code severity detail s :
  returns (log_diagnostic device_id code severity detail) s.
Proof.
  unfold log_diagnostic. unfold returns, mbind, M_bind, utc_now, query, get.
  destruct (List.find _ _); by do 2 eexists.
Qed.

Lemma diagnose_total ids earlier samples :
  (∀ s, s ∈ earlier ++ samples → finite_sample s) →
  ∃ found, diagnose ids earlier samples = Ok found
    ∧ map fst found = List.filter (λ i, existsb (Z.eqb i) ids) (map s_sample_id samples).
Proof.
  revert earlier. induction samples as [|s samples IH]; intros earlier Hfin; [by exists []|]. simpl.
  destruct (IH (earlier ++ [s])) as (rest & Hrest & Hkeys); [by rewrite <- app_assoc|].
  destruct (existsb _ ids); [|by exists rest].
  destruct (detect_total (lit 300 1) (last_n CONTEXT_ROWS (earlier ++ [s]))) as [ds Hds].
  { intros x Hx%last_n_subset. apply Hfin. rewrite elem_of_app in *. rewrite elem_of_cons.
    rewrite list_elem_of_singleton in Hx. tauto. }
  exists ((s_sample_id s, ds) :: rest). rewrite Hds. unfold mbind, result_bind. rewrite Hrest.
  split; [done|]. simpl. by rewrite Hkeys.
Qed.

Lemma row_before_trans a b c : row_before b a = false → row_before c b = false → row_before c a = false.
Proof. unfold row_before. intros; b2p. rewrite orb_false_iff, andb_false_iff in *; b2p. lia. Qed.

Lemma take_ordered {A} (R : A → A → Prop) n l : StronglySorted R l → StronglySorted R (take n l).
Proof.
  intros Hl. revert n. induction Hl as [|y l Hl IH Hy]; intros [|n]; simpl; try constructor; [by apply IH|].
  by apply Forall_take.
Qed.

Lemma targets_between device_id ready d first latest t :
  head (targets_of device_id ready d) = Some first → last (targets_of device_id ready d) = Some latest →
  t ∈ targets_of device_id ready d → t_received_at first <= t_received_at t <= t_received_at latest.
Proof.
  assert (Hs : StronglySorted (λ a b, row_before b a = false) (targets_of device_id ready d)).
  { apply take_ordered, order_by_sorted; [apply row_before_trans|].
    intros a b. unfold row_before. rewrite orb_true_iff, andb_true_iff, orb_false_iff, andb_false_iff.
    rewrite !Z.ltb_lt, !Z.ltb_ge, Z.eqb_eq, Z.eqb_neq. lia. }
  assert (Hle : ∀ a b, row_before b a = false → t_received_at a <= t_received_at b).
  { intros a b. unfold row_before. rewrite orb_false_iff, Z.ltb_ge. by intros [? _]. }
  revert Hs. generalize (targets_of device_id ready d) as l. intros l Hs Hh Hl Ht. split.
  - destruct Hs as [|x l _ Hx]; [done|]. injection Hh as ->. apply elem_of_cons in Ht as [->|Ht]; [lia|].
    rewrite Forall_forall in Hx. by apply Hle, Hx.
  - clear Hh. apply last_Some in Hl as [k ->]. rewrite elem_of_app, list_elem_of_singleton in Ht.
    destruct Ht as [Ht| ->]; [|lia]. apply Hle.
    eapply (StronglySorted_app_1_elem_of _ _ _ _ _ Hs Ht). by left.
Qed.

Lemma elem_of_order_by {A} (before : A → A → bool) l x : x ∈ order_by before l ↔ x ∈ l.
Proof. by rewrite order_by_perm. Qed.

Lemma is_target_device device_id ready t : is_target device_id ready t = true → t_device_id t = device_id.
Proof. unfold is_target. rewrite !andb_true_iff. intros [[H _] _]. by b2p. Qed.

Lemma targets_elem device_id ready d t :
  t ∈ targets_of device_id ready d → t ∈ telemetry d ∧ is_target device_id ready t = true.
Proof.
  intros Ht. unfold targets_of in Ht. apply elem_of_take in Ht as (i & Ht & _).
  apply list_elem_of_lookup_2 in Ht. by apply elem_of_order_by, elem_of_filter_bool in Ht.
Qed.

(** Every target is in the context, and every context row is of the device. *)
Lemma context_elem device_id first latest d t :
  t ∈ context_rows device_id first latest d → t ∈ telemetry d ∧ t_device_id t = device_id.
Proof.
  unfold context_rows. rewrite elem_of_app. intros [Ht|Ht].
  - apply list_elem_of_In, in_rev, list_elem_of_In in Ht. apply elem_of_take in Ht as (i & Ht & _).
    apply list_elem_of_lookup_2 in Ht. apply elem_of_order_by, elem_of_filter_bool in Ht as [? H]. by b2p.
  - apply elem_of_order_by, elem_of_filter_bool in Ht as [? H]. by b2p.
Qed.
Lemma target_in_context device_id ready d first latest t :
  head (targets_of device_id ready d) = Some first → last (targets_of device_id ready d) = Some latest →
  t ∈ targets_of device_id ready d → t ∈ context_rows device_id first latest d.
Proof.
  intros Hh Hl Ht. destruct (targets_between _ _ _ _ _ _ Hh Hl Ht) as [H1 H2].
  apply targets_elem in Ht as [Hin Hdev%is_target_device]. unfold context_rows. rewrite elem_of_app. right.
  apply elem_of_order_by, elem_of_filter_bool. split; [done|]. rewrite Hdev, String.eqb_refl. simpl.
  apply andb_true_iff. rewrite !Z.leb_le. lia.
Qed.

(** ** A pass returns *)

Section Fallback.
Context {Estimator : Type} (fromisoformat : string → result datetime) (local_offset : Z → Z) (sha256 : string → string).
Context (mean std amax : list float → float) (dot : list float → list float → float).
Context (score_samples : Estimator → list (list float) → list float) (predict : Estimator → list (list float) → list Z).
Context (np_sort : list float → list float) (searchsorted_right : list float → float → Z).
Context (joblib_load : string → result (PyObj Estimator)) (sklearn_version : string) (str_container : json → string).
Context (int_of_str : string → result Z) (float_of_str : string → result float) (decode_error : string → string).
Context (cwd : path) (resolve : path → path) (settings : Settings).

Abbreviation load_ready := (load_ready_bundle fromisoformat local_offset sha256 joblib_load sklearn_version
  str_container int_of_str float_of_str decode_error cwd resolve settings).
Abbreviation score_once := (score_device_once fromisoformat local_offset sha256 mean std amax dot score_samples predict
  np_sort searchsorted_right joblib_load sklearn_version str_container int_of_str float_of_str decode_error cwd resolve settings).
Abbreviation many := (passes fromisoformat local_offset sha256 mean std amax dot score_samples predict
  np_sort searchsorted_right joblib_load sklearn_version str_container int_of_str float_of_str decode_error cwd resolve settings).
Abbreviation batch_of := (score_batch mean std amax dot score_samples predict np_sort searchsorted_right).

Definition no_model : @Loaded Estimator := Build_Loaded None None (Some "MODEL_NOT_READY").

Lemma load_unmodelled fs device_id s :
  latest_registry device_id (db s) = None → load_ready fs device_id s = (Ok no_model, s).
Proof. intros H. unfold load_ready_bundle, mbind, M_bind, query, get. by rewrite H. Qed.

Lemma fallback_batch_safe device_id targets first latest :
  varchar 63 device_id = true → stages_only (safe device_id) (batch_of no_model device_id targets first latest).
Proof.
  intros Hd. unfold score_batch. cbn [no_model ready_bundle model_error registry default].
  apply stages_only_bind; [apply stages_only_query|intros context].
  apply stages_only_bind; [apply stages_only_lift|intros samples].
  apply stages_only_known. intros by_id Hb%diagnose_plain.
  apply stages_only_bind.
  - apply stages_only_bind; [by apply log_diagnostic_safe|intros _].
    apply stages_only_bind; [|intros _; apply stages_only_ret]. apply for_each_only. intros row.
    by apply explain_row_safe.
  - intros batch. apply stages_only_known. intros diagnostics Hds. cbv zeta.
    apply stages_only_bind; [apply set_alarm_safe; [done|]|intros _].
    { destruct (String.eqb _ ""); [done|]. by eapply diagnostic_reason_no_nul, diagnostics_of_plain. }
    apply stages_only_bind; [apply stages_only_ret|intros _; apply stages_only_ret].
Qed.

Lemma explain_rows_return by_id detail targets s :
  (∀ t, t ∈ targets → ∃ ds, diagnostics_of (t_id t) by_id = Ok ds) → returns (for_each (explain_row by_id detail) targets) s.
Proof.
  revert s. induction targets as [|t targets IH]; intros s Hd; [by do 2 eexists|]. simpl.
  destruct (Hd t) as [ds E]; [by left|].
  assert (Hrow : ∃ s1, explain_row by_id detail t s = (Ok tt, s1)).
  { unfold explain_row, mbind, M_bind, lift. rewrite E. by eexists. }
  destruct Hrow as [s1 Hrow]. unfold returns, mbind, M_bind. rewrite Hrow.
  apply IH. intros x Hx. apply Hd. by right.
Qed.

Lemma fallback_returns device_id code targets by_id r s :
  (∀ t, t ∈ targets → ∃ ds, diagnostics_of (t_id t) by_id = Ok ds) →
  ∃ s', run_fallback device_id code targets by_id r s
        = (Ok (Build_Batch (Z.of_nat (length targets)) false no_anomaly r), s').
Proof.
  intros H. unfold run_fallback, mbind, M_bind.
  match goal with |- context [log_diagnostic ?a ?b ?c ?d s] => destruct (log_diagnostic_returns a b c d s) as (u & s1 & ->) end.
  destruct (explain_rows_return by_id (fallback_detail code) targets s1 H) as (v & s2 & ->). by eexists.
Qed.

(** The diagnostics of a batch of readable rows. *)
Lemma batch_diagnostics device_id d first latest :
  (∀ t, t ∈ telemetry d → t_device_id t = device_id → readable t) →
  let targets := targets_of device_id false d in
  head targets = Some first → last targets = Some latest →
  ∃ samples by_id, mapM telemetry_sample (context_rows device_id first latest d) = Ok samples
    ∧ diagnose (map t_id targets) [] samples = Ok by_id
    ∧ ∀ t, t ∈ targets → ∃ ds, diagnostics_of (t_id t) by_id = Ok ds.
Proof.
  intros Hr targets Hh Hl. set (context := context_rows device_id first latest d).
  destruct (mapM_result_ok telemetry_sample context) as (samples & E & HF).
  { intros t Ht%context_elem. destruct (Hr t) as (x & Hx & _); [tauto..|]. by exists x. }
  destruct (diagnose_total (map t_id targets) [] samples) as (by_id & Hd & Hkeys).
  { simpl. intros x Hx. destruct (Forall2_elem_r _ _ _ _ HF Hx) as (t & Ht%context_elem & Et).
    destruct (Hr t) as (y & Hy & Hfin); [tauto..|]. by replace x with y by congruence. }
  exists samples, by_id. do 2 (split; [done|]). intros t Ht.
  pose proof (target_in_context _ _ _ _ _ _ Hh Hl Ht) as Hc. fold context in Hc.
  destruct (Forall2_elem_l _ _ _ _ HF Hc) as (x & Hx & Et). apply sample_id in Et.
  destruct (by_key_some (t_id t) by_id) as [ds Eds].
  - rewrite Hkeys. apply elem_of_filter_bool. split; [rewrite <- Et; by apply list_elem_of_fmap_2|].
    apply existsb_exists. exists (t_id t). rewrite Z.eqb_refl. split; [|done].
    apply list_elem_of_In. by apply list_elem_of_fmap_2.
  - exists ds. unfold diagnostics_of. by rewrite Eds.
Qed.

Lemma last_elem {A} (l : list A) x : last l = Some x → x ∈ l.
Proof. intros [k ->]%last_Some. apply elem_of_app. right. by left. Qed.

Lemma fallback_batch_returns device_id s first latest :
  serviceable device_id (db s) →
  let targets := targets_of device_id false (db s) in
  head targets = Some first → last targets = Some latest →
  ∃ b s', batch_of no_model device_id targets first latest s = (Ok b, s')
    ∧ processed b = Z.of_nat (length targets) ∧ batch_registry b = None.
Proof.
  intros Hs targets Hh Hl.
  destruct (batch_diagnostics device_id (db s) first latest (sv_readable _ _ Hs) Hh Hl) as (samples & by_id & E1 & E2 & E3).
  fold targets in E2, E3. unfold score_batch, mbind, M_bind, query, get, lift.
  rewrite E1, E2. cbn [no_model ready_bundle model_error registry default id].
  destruct (fallback_returns device_id "MODEL_NOT_READY" targets by_id None s E3) as [s2 ->]. simpl.
  destruct (E3 latest (last_elem _ _ Hl)) as [ds ->].
  match goal with |- context [set_alarm ?a ?b ?c ?d ?e s2] => destruct (set_alarm_returns a b c d e s2) as (w & s3 & ->) end.
  by do 2 eexists.
Qed.

(** The event fits one PostgreSQL notification, whatever the number of rows. *)
Definition announceable (device_id : string) : Prop :=
  ∀ n, 0 <= n <= Z.of_nat MAX_BATCH_ROWS → event_fits (scoring_event device_id n None) = true.

Lemma fallback_pass fs device_id s :
  clean s → serviceable device_id (saved s) → announceable device_id →
  ∃ n s', score_once fs device_id s = (Ok n, s') ∧ n = Z.of_nat (length (targets_of device_id false (saved s)))
    ∧ serviceable device_id (saved s').
Proof.
  intros (Hdb & Hp & Hn) Hs He. rewrite <- Hdb in Hs |- *.
  unfold score_device_once, mbind, M_bind. rewrite (load_unmodelled fs _ _ (sv_unmodelled _ _ Hs)).
  unfold query, get. change (is_ready no_model) with false. set (targets := targets_of device_id false (db s)).
  assert (Hnil : targets = [] → ∃ n s', match commit s with (Ok _, s') => (mret 0 : DBM Z) s' | (Raise e, s') => (Raise e, s') end = (Ok n, s')
      ∧ n = Z.of_nat (length targets) ∧ serviceable device_id (saved s')).
  { intros ->. unfold commit. rewrite Hp. by do 2 eexists. }
  destruct (head targets) as [first|] eqn:Hh; [|apply Hnil; by destruct targets].
  destruct (last targets) as [latest|] eqn:Hl; [|apply Hnil; by apply last_None]. clear Hnil.
  destruct (fallback_batch_returns device_id s first latest Hs Hh Hl) as (b & s1 & E & Hb & Hr).
  fold targets in E, Hb. rewrite E.
  destruct (fallback_batch_safe device_id targets first latest (sv_name _ _ Hs) s _ _ E) as (K & D & _ & ws & Hws & Hsafe).
  destruct (run_safe _ _ _ Hsafe Hs) as (d & Hd & Hsd).
  assert (Hev : event_fits (scoring_event device_id (processed b) (batch_registry b)) = true).
  { rewrite Hr, Hb. apply He. unfold targets, targets_of. rewrite length_take. lia. }
  unfold notify_after_commit. rewrite Hev. cbn [negb].
  destruct (postgres s1); cbn [negb]; unfold commit; cbn [pending db add_note]; rewrite Hws, Hp, D; cbn [app]; rewrite Hd;
    do 2 eexists; (split; [done|]); by split.
Qed.

(** C13: the worker drains the backlog of a device that has no model: from any
    database whose rows fit their columns and can be read, every pass returns
    and commits, leaves such a database behind, and takes 500 rows off the
    backlog, so that after one pass per 500 rows nothing is left to explain. *)
Theorem backlog_drained fs device_id s :
  clean s → serviceable device_id (saved s) → announceable device_id →
  ∀ k, ∃ s',
    many fs device_id false k s s' ∧ clean s' ∧ serviceable device_id (saved s')
    ∧ length (backlog device_id false (saved s'))
      = (length (backlog device_id false (saved s)) - k * MAX_BATCH_ROWS)%nat
    ∧ ((length (backlog device_id false (saved s)) <= k * MAX_BATCH_ROWS)%nat →
       backlog device_id false (saved s') = []).
Proof.
  intros Hc Hs He k.
  assert (H : ∃ s', many fs device_id false k s s' ∧ clean s' ∧ serviceable device_id (saved s')).
  { revert s Hc Hs. induction k as [|k IH]; intros s Hc Hs; [exists s; split; [constructor|done]|].
    destruct (fallback_pass fs device_id s Hc Hs He) as (n & s1 & E & _ & Hs1).
    assert (Hl : load_ready fs device_id s = (Ok no_model, s)).
    { apply load_unmodelled. destruct Hc as [-> _]. apply Hs. }
    pose proof E as Hrun. apply score_run in Hrun as [(e & [=] & _)|(loaded & m & _ & _ & Hsc)]; [|done].
    destruct (IH s1) as (s2 & H2 & Hrest); [apply Hsc|done|]. exists s2. split; [|done].
    eapply passes_one; [exact E|by rewrite Hl|done|done]. }
  destruct H as (s' & Hm & Hc' & Hs'). exists s'. do 3 (split; [done|]).
  pose proof Hm as Hlen. apply passes_backlog in Hlen; [|done|by apply sv_ids with device_id].
  split; [exact Hlen|]. intros Hk. apply length_zero_iff_nil. rewrite Hlen. lia.
Qed.
End Fallback.

Lemma demo_readable t : t ∈ telemetry (saved demo_session) → t_device_id t = "motor-1" → readable t.
Proof.
  intros Ht _. apply list_elem_of_singleton in Ht as ->. eexists. split; [reflexivity|].
  intros x [Hx|[Hx|Hx]]; try discriminate Hx; injection Hx as <-; reflexivity.
Qed.

Lemma backlog_drained_witness :
  ∃ s', clean s' ∧ length (backlog "motor-1" false (saved demo_session)) = 1%nat
    ∧ backlog "motor-1" false (saved s') = [].
Proof.
  pose proof (backlog_drained (Estimator := unit) (λ _, Raise TypeError) id id
    (λ _, of_int 0) (λ _, of_int 0) (λ _, of_int 0) (λ _ _, of_int 0)
    (λ _ l, map (λ _, of_int 0) l) (λ _ l, map (λ _, 1) l) id (λ _ _, 0) (λ _, Raise TypeError) "" (λ _, "")
    (λ _, Raise TypeError) (λ _, Raise TypeError) id [] id sample_settings demo_disk "motor-1" demo_session) as H.
  assert (Hs : serviceable "motor-1" (saved demo_session)).
  { split; [vm_compute; reflexivity..| |vm_compute; reflexivity|vm_compute; reflexivity|].
    - vm_compute. apply NoDup_singleton.
    - apply demo_readable. }
  assert (He : announceable "motor-1").
  { assert (Hall : forallb (λ n, event_fits (scoring_event "motor-1" (Z.of_nat n) None)) (seq 0 501) = true)
      by (vm_compute; reflexivity).
    intros n Hn. rewrite forallb_elem in Hall. rewrite <- (Z2Nat.id n) by lia. apply Hall, elem_of_seq.
    unfold MAX_BATCH_ROWS in Hn. lia. }
  destruct (H demo_clean Hs He 1%nat) as (s' & _ & Hc & _ & _ & Hnil). exists s'. split; [exact Hc|].
  split; [vm_compute; reflexivity|]. apply Hnil. apply Nat.leb_le. vm_compute. reflexivity.
Defined.
