(* ===== verification/WorkerAlarms.v ===== *)
(** The alarms the anomaly worker raises and clears: one lifecycle per device,
    code and source, driven by the newest row of each batch. *)
From S2P Require Import Prelude PyStr Float64 Json PyTime Models Tables Session Settings.
From S2P Require Import Ingestion AlarmFacts Keys Transactions IngestionProps Features.
From S2P Require Import SensorRules.
From S2P Require Import Modeling JsonValues Files Artifacts Worker WorkerFacts WorkerProps WorkerProgress.

(** ** The table, by device, code and source *)

Definition is_of (device_id code source : string) (a : Alarm) : bool :=
  String.eqb (a_device_id a) device_id && String.eqb (a_code a) code && String.eqb (a_source a) source.
Definition active_of (device_id code source : string) (a : Alarm) : bool :=
  is_of device_id code source a && String.eqb (a_state a) "active".
Definition find_of (device_id code source : string) (l : list Alarm) : option Alarm :=
  List.find (active_of device_id code source) l.

(** Keys are 1, 2, ...; at most one alarm per device, code and source is
    active; every alarm is active or cleared with a time. *)
Record alarm_table (l : list Alarm) : Prop := {
  table_keyed : keyed l;
  table_single : ∀ device_id code source, (length (List.filter (active_of device_id code source) l) <= 1)%nat;
  table_lifecycle : Forall lifecycle l }.

(** Updates that keep the key columns. *)
Definition keeps_source (f : Alarm → Alarm) : Prop :=
  ∀ a, a_id (f a) = a_id a ∧ ∀ d c s, is_of d c s (f a) = is_of d c s a.

Lemma find_of_eq d c s db : active_of_source d c s db = find_of d c s (alarms db).
Proof. done. Qed.

Lemma filter_find_none {A} (p : A → bool) l : List.find p l = None → List.filter p l = [].
Proof. intros H. apply filter_none. intros x Hx. apply list_elem_of_In in Hx. by eapply find_none. Qed.
Lemma filter_empty_find {A} (p : A → bool) l : length (List.filter p l) = 0%nat → List.find p l = None.
Proof. induction l as [|x l IH]; simpl; [done|]. by destruct (p x). Qed.

Lemma single_split d c s l1 a l2 :
  alarm_table (l1 ++ a :: l2) → active_of d c s a = true → find_of d c s l1 = None ∧ find_of d c s l2 = None.
Proof.
  intros [_ Hone _] Ha. specialize (Hone d c s). rewrite List.filter_app, length_app in Hone. simpl in Hone.
  rewrite Ha in Hone. simpl in Hone. split; apply filter_empty_find; lia.
Qed.

Lemma table_update l1 a l2 f :
  keeps_source f → (∀ x, lifecycle x → lifecycle (f x)) →
  (∀ x d c s, active_of d c s (f x) = true → active_of d c s x = true) →
  alarm_table (l1 ++ a :: l2) → alarm_table (l1 ++ f a :: l2).
Proof.
  intros Hf Hl Hact [Hk Hone Hlc]. split.
  - unfold keyed in *. rewrite !map_app, !length_app in *. simpl in *. by destruct (Hf a) as [-> _].
  - intros d c s. specialize (Hone d c s). rewrite List.filter_app, length_app in *. simpl in *.
    specialize (Hact a d c s). destruct (active_of d c s (f a)).
    + by rewrite Hact in Hone.
    + destruct (active_of d c s a); simpl in *; lia.
  - rewrite Forall_app, Forall_cons in *. intuition.
Qed.

Lemma table_insert l d c s summary now :
  find_of d c s l = None → alarm_table l →
  alarm_table (l ++ [with_a_id (next_id l) (new_alarm now d c "warning" s summary)]).
Proof.
  intros Hn [Hk Hone Hlc]. split.
  - by apply keyed_app.
  - intros d' c' s'. rewrite List.filter_app, length_app. cbn [List.filter].
    match goal with |- context [active_of d' c' s' ?a] => destruct (active_of d' c' s' a) eqn:E end;
      cbn [length]; [|specialize (Hone d' c' s'); lia].
    unfold active_of, is_of in E. simpl in E. b2p. subst. unfold find_of in Hn.
    by rewrite (filter_find_none _ _ Hn).
  - apply Forall_app. split; [done|]. constructor; [by left|constructor].
Qed.

(** ** The effect of setting an alarm *)

Definition source_effect (d c s : string) (active : bool) (summary : string) (now : Z) (l : list Alarm) : list Alarm :=
  match active, find_of d c s l with
  | true, None => l ++ [with_a_id (next_id l) (new_alarm now d c "warning" s (py_take 240 summary))]
  | true, Some a => update_where (λ r, a_id r =? a_id a) (with_summary (py_take 240 summary)) l
  | false, Some a => update_where (λ r, a_id r =? a_id a) (cleared_alarm now) l
  | false, None => l
  end.

Lemma alarm_writes_run d c s active summary now d0 db d' :
  find_of d c s (alarms db) = find_of d c s (alarms d0) →
  run_writes (alarm_writes d c s active summary now d0) db = Ok d' →
  alarms d' = source_effect d c s active summary now (alarms db).
Proof.
  unfold alarm_writes, source_effect. rewrite find_of_eq. intros ->.
  destruct active, (find_of d c s (alarms d0)); rewrite ?run_writes_cons_ok; try (by intros [= <-]);
    intros (d1 & H1 & [= <-]); [unfold update_alarm in H1|unfold insert_alarm in H1|unfold update_alarm in H1];
    by open_write H1.
Qed.

Lemma with_summary_source summary : keeps_source (with_summary summary).
Proof. done. Qed.
Lemma cleared_source now : keeps_source (cleared_alarm now).
Proof. done. Qed.
Lemma with_summary_lifecycle summary x : lifecycle x → lifecycle (with_summary summary x).
Proof. done. Qed.
Lemma cleared_lifecycle now x : lifecycle (cleared_alarm now x).
Proof. right. by split; [|eexists]. Qed.
Lemma cleared_inactive now d c s x : active_of d c s (cleared_alarm now x) = false.
Proof. unfold active_of. by rewrite andb_false_r. Qed.

(** What [_set_alarm] does to a well-formed table: it stays well-formed; the
    alarm is active exactly when asked; no alarm of another key changes. *)
Lemma source_effect_spec d c s active summary now l :
  alarm_table l →
  let l' := source_effect d c s active summary now l in
  alarm_table l'
  ∧ (is_Some (find_of d c s l') ↔ active = true)
  ∧ List.filter (λ a, negb (is_of d c s a)) l' = List.filter (λ a, negb (is_of d c s a)) l.
Proof.
  intros Hl. unfold source_effect. destruct (find_of d c s l) as [a|] eqn:E.
  - apply find_split in E as (l1 & l2 & -> & Ha & Hn). destruct (single_split _ _ _ _ _ _ Hl Ha) as [_ Hn2].
    pose proof Ha as [Hkey _]%andb_true_iff. pose proof (keyed_nodup _ (table_keyed _ Hl)) as Hnd.
    destruct active; rewrite update_where_split by done.
    + split; [by apply table_update; [apply with_summary_source|apply with_summary_lifecycle|..]|]. split.
      * unfold find_of. rewrite find_app, Hn. simpl.
        change (active_of d c s (with_summary (py_take 240 summary) a)) with (active_of d c s a). rewrite Ha. done.
      * rewrite !List.filter_app. simpl.
        change (is_of d c s (with_summary (py_take 240 summary) a)) with (is_of d c s a). by rewrite Hkey.
    + split; [apply table_update; [apply cleared_source|intros; apply cleared_lifecycle| |done]|].
      { intros x d' c' s'. by rewrite cleared_inactive. }
      split.
      * unfold find_of. rewrite find_app, Hn. simpl. rewrite cleared_inactive. unfold find_of in Hn2. rewrite Hn2.
        split; [by intros [? [=]]|done].
      * rewrite !List.filter_app. simpl. change (is_of d c s (cleared_alarm now a)) with (is_of d c s a). by rewrite Hkey.
  - destruct active.
    + split; [by apply table_insert|]. split.
      * unfold find_of in *. rewrite find_app, E. cbn [List.find].
        unfold active_of, is_of; simpl. rewrite !String.eqb_refl. done.
      * rewrite List.filter_app. cbn [List.filter]. unfold is_of at 2; simpl. rewrite !String.eqb_refl. simpl.
        by rewrite app_nil_r.
    + split; [done|]. split; [|done]. rewrite E. split; [by intros [? [=]]|done].
Qed.

(** Finding another key only looks at the other rows. *)
Lemma find_of_other d c s d' c' s' l :
  (d', c', s') ≠ (d, c, s) → find_of d' c' s' (List.filter (λ a, negb (is_of d c s a)) l) = find_of d' c' s' l.
Proof.
  intros Hne. unfold find_of. induction l as [|a l IH]; [done|]. cbn [List.filter List.find].
  destruct (is_of d c s a) eqn:E; cbn [negb List.find].
  - rewrite IH. destruct (active_of d' c' s' a) eqn:E2; [|done].
    exfalso. apply Hne. unfold active_of, is_of in *. b2p. congruence.
  - by rewrite IH.
Qed.

(** ** The history the rules see *)

(** The entry of a target is what the rules say of it and of up to eleven
    samples before it. *)
Lemma diagnose_entry ids earlier pre x post found :
  NoDup (map s_sample_id (pre ++ x :: post)) → s_sample_id x ∈ ids →
  diagnose ids earlier (pre ++ x :: post) = Ok found →
  ∃ ds, by_key (s_sample_id x) found = Some ds
    ∧ detect_sensor_failures (lit 300 1) (last_n CONTEXT_ROWS (earlier ++ pre ++ [x])) = Ok ds.
Proof.
  intros Hnd Hin. assert (Hkeys : ∀ samples e f, diagnose ids e samples = Ok f → ∀ i, i ∈ map fst f → i ∈ map s_sample_id samples).
  { induction samples as [|s samples IH]; intros e f; simpl; [by intros [= <-]|].
    destruct (existsb _ ids).
    - unfold mbind, result_bind. destruct (detect_sensor_failures _ _); [|done].
      destruct (diagnose ids (e ++ [s]) samples) as [rest|] eqn:Hr; [|done]. intros [= <-] i.
      simpl. rewrite !elem_of_cons. intros [->|Hi]; [by left|right; by eapply IH].
    - intros H i Hi. apply elem_of_cons. right. by eapply IH. }
  assert (Hex : existsb (Z.eqb (s_sample_id x)) ids = true).
  { apply existsb_exists. exists (s_sample_id x). rewrite Z.eqb_refl. split; [by apply list_elem_of_In|done]. }
  revert earlier found. induction pre as [|p pre IH]; intros earlier found; simpl.
  - rewrite Hex. unfold mbind, result_bind. destruct (detect_sensor_failures _ _) as [ds|]; [|done].
    destruct (diagnose ids (earlier ++ [x]) post) as [rest|] eqn:Hr; [|done]. intros [= <-]. exists ds. split; [|done].
    apply (by_key_unique _ _ []). intros Hi. apply (Hkeys _ _ _ Hr) in Hi. simpl in Hnd. by apply NoDup_cons in Hnd as [? _].
  - simpl in Hnd. apply NoDup_cons in Hnd as [Hp Hnd]. intros Hd.
    assert (Hrest : ∃ rest, diagnose ids (earlier ++ [p]) (pre ++ x :: post) = Ok rest
      ∧ ∃ front, found = front ++ rest ∧ s_sample_id x ∉ map fst front).
    { destruct (existsb (Z.eqb (s_sample_id p)) ids); [|exists found; split; [done|]; exists []; split; [done|by intros ?%elem_of_nil]].
      unfold mbind, result_bind in Hd. destruct (detect_sensor_failures _ _) as [ds|]; [|done].
      destruct (diagnose ids (earlier ++ [p]) (pre ++ x :: post)) as [rest|]; [|done]. injection Hd as <-.
      exists rest. split; [done|]. exists [(s_sample_id p, ds)]. split; [done|]. simpl. rewrite list_elem_of_singleton.
      intros E. apply Hp. rewrite <- E, map_app. apply elem_of_app. right. by left. }
    destruct Hrest as (rest & Hrest & front & -> & Hfront).
    destruct (IH Hnd _ _ Hrest) as (ds & Hk & Hd2). exists ds. rewrite <- app_assoc in Hd2. split; [|done].
    unfold by_key in *. rewrite rev_app_distr, find_app. destruct (List.find _ (rev rest)); done.
Qed.

Lemma NoDup_take_map {A B} (key : A → B) n l : NoDup (map key l) → NoDup (map key (take n l)).
Proof.
  intros H. rewrite <- (take_drop n l), map_app in H. by apply NoDup_app in H as [? _].
Qed.

Lemma context_NoDup device_id first latest d :
  NoDup (map t_id (telemetry d)) → NoDup (map t_id (context_rows device_id first latest d)).
Proof.
  intros Hnd. assert (Hsel : ∀ before p, NoDup (map t_id (order_by before (List.filter p (telemetry d))))).
  { intros before p. rewrite order_by_perm. by apply filter_NoDup. }
  unfold context_rows. set (old := take _ _). set (batch := order_by row_before _).
  assert (Hold : ∀ t, t ∈ old → t_received_at t < t_received_at first).
  { intros t Ht. apply elem_of_take in Ht as (i & Ht & _). apply list_elem_of_lookup_2 in Ht.
    apply elem_of_order_by, elem_of_filter_bool in Ht as [_ H]. by b2p. }
  assert (Hbatch : ∀ t, t ∈ batch → t_received_at first <= t_received_at t).
  { intros t Ht. apply elem_of_order_by, elem_of_filter_bool in Ht as [_ H]. by b2p. }
  rewrite map_app. apply NoDup_app. rewrite <- Permutation_rev.
  split; [apply NoDup_take_map, Hsel|]. split; [|apply Hsel].
  intros i Hi Hj. apply list_elem_of_fmap in Hi as (t & -> & Ht), Hj as (u & E & Hu).
  apply list_elem_of_In, in_rev, list_elem_of_In in Ht. specialize (Hold t Ht). specialize (Hbatch u Hu).
  assert (t = u); [|subst; lia].
  assert (Hin : ∀ x, x ∈ old ∨ x ∈ batch → x ∈ telemetry d).
  { intros x Hx. apply (context_elem device_id first latest d x). unfold context_rows. rewrite elem_of_app.
    rewrite <- Permutation_rev. done. }
  eapply (key_inj t_id); [exact Hnd| | |exact E]; apply Hin; auto.
Qed.

(** The rules on the newest target of a batch: its sample and up to eleven
    rows before it in the context. *)
Definition rules_on (device_id : string) (first latest : Telemetry) (d : DB) (diagnostics : list SensorDiagnostic) : Prop :=
  ∃ pre post history,
    context_rows device_id first latest d = pre ++ latest :: post
    ∧ mapM telemetry_sample (last_n CONTEXT_ROWS (pre ++ [latest])) = Ok history
    ∧ detect_sensor_failures (lit 300 1) history = Ok diagnostics.

Lemma rules_on_intro device_id ready d first latest samples by_id diagnostics :
  NoDup (map t_id (telemetry d)) →
  head (targets_of device_id ready d) = Some first → last (targets_of device_id ready d) = Some latest →
  mapM telemetry_sample (context_rows device_id first latest d) = Ok samples →
  diagnose (map t_id (targets_of device_id ready d)) [] samples = Ok by_id →
  diagnostics_of (t_id latest) by_id = Ok diagnostics →
  rules_on device_id first latest d diagnostics.
Proof.
  intros Hnd Hh Hl Hs Hd Hdiag. pose proof (last_elem _ _ Hl) as Hlatest.
  pose proof (target_in_context _ _ _ _ _ _ Hh Hl Hlatest) as Hc.
  pose proof (context_NoDup device_id first latest d Hnd) as Hcn.
  apply list_elem_of_split in Hc as (pre & post & E). rewrite E in Hs, Hcn.
  apply mapM_forall2 in Hs. assert (Hids : map s_sample_id samples = map t_id (pre ++ latest :: post)).
  { clear -Hs. induction Hs as [|t x l k Ht _ IH]; [done|]. simpl. by rewrite IH, (sample_id _ _ Ht). }
  apply Forall2_app_inv_l in Hs as (k1 & k & Hpre & Hk & ->). apply Forall2_cons_inv_l in Hk as (x & k2 & Hx & _ & ->).
  rewrite <- Hids in Hcn. rewrite <- (sample_id _ _ Hx) in Hdiag.
  destruct (diagnose_entry (map t_id (targets_of device_id ready d)) [] k1 x k2 by_id Hcn) as (ds & Hb & Hdetect); [|done|].
  { rewrite (sample_id _ _ Hx). by apply list_elem_of_fmap_2. }
  unfold diagnostics_of in Hdiag. rewrite Hb in Hdiag. injection Hdiag as <-.
  exists pre, post, (last_n CONTEXT_ROWS (k1 ++ [x])). split; [done|]. split; [|done].
  apply mapM_forall2. unfold last_n. rewrite !length_app, (Forall2_length _ _ _ Hpre). apply Forall2_drop.
  apply Forall2_app; [done|]. by constructor.
Qed.

(** ** The alarms after a pass *)

(** The alarms that are not the worker's for this device. *)
Definition foreign (device_id : string) (a : Alarm) : bool :=
  negb (is_of device_id "SENSOR_DIAGNOSTIC" "sensor_rule" a) && negb (is_of device_id "ANOMALY_DETECTED" "anomaly" a).

Section Alarms.
Context {Estimator : Type} (fromisoformat : string → result datetime) (local_offset : Z → Z) (sha256 : string → string).
Context (mean std amax : list float → float) (dot : list float → list float → float).
Context (score_samples : Estimator → list (list float) → list float) (predict : Estimator → list (list float) → list Z).
Context (np_sort : list float → list float) (searchsorted_right : list float → float → Z).
Context (joblib_load : string → result (PyObj Estimator)) (sklearn_version : string) (str_container : json → string).
Context (int_of_str : string → result Z) (float_of_str : string → result float) (decode_error : string → string).
Context (cwd : path) (resolve : path → path) (settings : Settings).

Abbreviation load_ready := (load_ready_bundle fromisoformat local_offset sha256 joblib_load sklearn_version
  str_container int_of_str float_of_str decode_error cwd resolve settings).
Abbreviation score_once := (score_device_once fromisoformat local_offset sha256 mean std amax dot score_samples predict
  np_sort searchsorted_right joblib_load sklearn_version str_container int_of_str float_of_str decode_error cwd resolve settings).

Lemma bookkeeping_alarms ws d d' : Forall bookkeeping ws → run_writes ws d = Ok d' → alarms d' = alarms d.
Proof. intros Hb H. by apply (bookkeeping_effect _ _ _ Hb) in H as (_ & _ & ?). Qed.

(** The alarm table of a committed batch, as the composition of its effects. *)
Lemma batch_alarms device_id (loaded : @Loaded Estimator) targets first latest d b ws0 ws d' :
  Forall bookkeeping ws0 → batch_writes device_id loaded targets first latest d b ws →
  run_writes (ws0 ++ ws) d = Ok d' →
  ∃ samples by_id diagnostics sum1 now1 rest,
    mapM telemetry_sample (context_rows device_id first latest d) = Ok samples
    ∧ diagnose (map t_id targets) [] samples = Ok by_id
    ∧ diagnostics_of (t_id latest) by_id = Ok diagnostics
    ∧ (rest = id ∨ ∃ active sum2 now2, rest = source_effect device_id "ANOMALY_DETECTED" "anomaly" active sum2 now2)
    ∧ (∀ l1, l1 = source_effect device_id "SENSOR_DIAGNOSTIC" "sensor_rule" (negb (bool_decide (diagnostics = []))) sum1 now1 (alarms d) →
        find_of device_id "ANOMALY_DETECTED" "anomaly" l1 = find_of device_id "ANOMALY_DETECTED" "anomaly" (alarms d) →
        alarms d' = rest l1).
Proof.
  intros H0 (_ & samples & by_id & ds & scoring & now1 & sum1 & alarm2 & Hs & Hd & Hdiag & -> & Hw & Ha) Hrun.
  apply run_writes_app_ok in Hrun as (d1 & A1%(bookkeeping_alarms _ _ _ H0) & Hrun).
  apply run_writes_app_ok in Hrun as (d2 & (_ & A2 & _)%(target_writes_effect _ _ _ _ _ _ Hw) & Hrun).
  apply run_writes_app_ok in Hrun as (d3 & H3 & Hrun). rewrite A1 in A2.
  apply alarm_writes_run in H3; [|by rewrite A2]. rewrite A2 in H3.
  destruct (is_ready loaded).
  - destruct Ha as (sum2 & now2 & ->).
    exists samples, by_id, ds, sum1, now1, (source_effect device_id "ANOMALY_DETECTED" "anomaly" (anomaly_active b) sum2 now2).
    do 3 (split; [done|]). split; [right; by do 3 eexists|]. intros l1 -> Hf.
    apply alarm_writes_run in Hrun; [|by rewrite H3]. by rewrite Hrun, H3.
  - subst alarm2. injection Hrun as <-. exists samples, by_id, ds, sum1, now1, id.
    do 3 (split; [done|]). split; [by left|]. intros l1 -> _. exact H3.
Qed.

(** C14: after a pass the sensor alarm of the device is active exactly when the
    deterministic rules report something on the newest row of the batch; the
    table keeps one active alarm per device, code and source; and no alarm of
    another device or another source is touched. *)
Theorem sensor_alarm_tracks fs device_id s n s' :
  clean s → alarm_table (alarms (saved s)) → NoDup (map t_id (telemetry (saved s))) →
  score_once fs device_id s = (Ok n, s') →
  alarm_table (alarms (saved s'))
  ∧ List.filter (foreign device_id) (alarms (saved s')) = List.filter (foreign device_id) (alarms (saved s))
  ∧ ∃ loaded, (load_ready fs device_id s).1 = Ok loaded
      ∧ let targets := targets_of device_id (is_ready loaded) (saved s) in
        match head targets, last targets with
        | Some first, Some latest =>
            ∃ diagnostics, rules_on device_id first latest (saved s) diagnostics
              ∧ (is_Some (active_of_source device_id "SENSOR_DIAGNOSTIC" "sensor_rule" (saved s')) ↔ diagnostics ≠ [])
        | _, _ => alarms (saved s') = alarms (saved s)
        end.
Proof.
  intros Hs Ht Hnd Hrun. apply score_run in Hrun as [(e & [=] & _)|(loaded & m & Hl & _ & [_ Hb])]; [|done].
  destruct Hs as [Hdb _]. rewrite Hdb in Hb. cbv zeta in Hb.
  destruct Hb as [(Hnil & _ & _ & ws & Hws & Hw)|(first & latest & b & ws0 & ws & Hh & Hla & _ & H0 & Hbw & Hw & _)].
  { rewrite (bookkeeping_alarms _ _ _ Hws Hw). split; [done|]. split; [done|]. exists loaded. split; [done|]. by rewrite Hnil. }
  destruct (batch_alarms _ _ _ _ _ _ _ _ _ _ H0 Hbw Hw) as (samples & by_id & ds & sum1 & now1 & rest & E1 & E2 & E3 & Hrest & Ha).
  set (l1 := source_effect device_id "SENSOR_DIAGNOSTIC" "sensor_rule" (negb (bool_decide (ds = []))) sum1 now1 (alarms (saved s))) in *.
  destruct (source_effect_spec device_id "SENSOR_DIAGNOSTIC" "sensor_rule" (negb (bool_decide (ds = []))) sum1 now1 _ Ht)
    as (T1 & A1 & F1). fold l1 in T1, A1, F1.
  assert (Hfind : find_of device_id "ANOMALY_DETECTED" "anomaly" l1 = find_of device_id "ANOMALY_DETECTED" "anomaly" (alarms (saved s))).
  { by rewrite <- (find_of_other device_id "SENSOR_DIAGNOSTIC" "sensor_rule"), F1, find_of_other. }
  rewrite (Ha l1 eq_refl Hfind), find_of_eq, (Ha l1 eq_refl Hfind).
  assert (Hafter : alarm_table (rest l1)
    ∧ List.filter (foreign device_id) (rest l1) = List.filter (foreign device_id) (alarms (saved s))
    ∧ find_of device_id "SENSOR_DIAGNOSTIC" "sensor_rule" (rest l1) = find_of device_id "SENSOR_DIAGNOSTIC" "sensor_rule" l1).
  { unfold foreign. rewrite !filter_both, <- F1, <- !filter_both. destruct Hrest as [->|(active & sum2 & now2 & ->)]; [done|].
    destruct (source_effect_spec device_id "ANOMALY_DETECTED" "anomaly" active sum2 now2 _ T1) as (T2 & _ & F2).
    split; [done|]. split.
    - rewrite (filter_ext _ _ (λ a, andb_comm _ _)), filter_both, F2, <- filter_both.
      apply filter_ext. intros a. apply andb_comm.
    - by rewrite <- (find_of_other device_id "ANOMALY_DETECTED" "anomaly"), F2, find_of_other. }
  destruct Hafter as (T2 & F2 & Hsame). split; [done|]. split; [done|]. exists loaded. split; [done|].
  cbv zeta. rewrite Hh, Hla. exists ds. split; [by eapply rules_on_intro|]. rewrite Hsame, A1.
  rewrite negb_true_iff. by rewrite bool_decide_eq_false.
Qed.
End Alarms.

Lemma sensor_alarm_tracks_witness :
  ∃ s', demo_pass demo_session = (Ok 1, s') ∧ alarm_table (alarms (saved s'))
    ∧ map a_code (alarms (saved s')) = ["TEMPERATURE_THRESHOLD"; "SENSOR_DIAGNOSTIC"].
Proof.
  assert (Hr : (demo_pass demo_session).1 = Ok 1) by (vm_compute; reflexivity).
  assert (Hm : map a_code (alarms (saved (demo_pass demo_session).2)) = ["TEMPERATURE_THRESHOLD"; "SENSOR_DIAGNOSTIC"])
    by (vm_compute; reflexivity).
  destruct (demo_pass demo_session) as [r s'] eqn:E. cbn [fst snd] in Hr, Hm. subst r.
  unfold demo_pass in E. apply sensor_alarm_tracks in E as (T & _).
  - exists s'. split; [reflexivity|]. split; [exact T|exact Hm].
  - exact demo_clean.
  - split; [vm_compute; reflexivity| |].
    + intros d c s. etransitivity; [apply length_filter_le|]. apply Nat.leb_le. vm_compute. reflexivity.
    + apply Forall_singleton. left. split; reflexivity.
  - vm_compute. apply NoDup_singleton.
Defined.
