(* ===== verification/AnomalyMain.v ===== *)
(** [services/anomaly_worker/main.py]: the commands [train] and [run] around the
    worker.

    The parsed arguments are arguments; other processes act between the turns of
    the loop.  The names and texts of exceptions are arguments. *)
From S2P Require Import Prelude PyStr Float64 Json PyTime Models Tables Session Settings.
From S2P Require Import Features Modeling JsonValues Files Artifacts Worker.
Local Open Scope py_scope.

Section Main.
Context {Estimator : Type}.
Context (fromisoformat : string → result datetime) (local_offset : Z → Z).
Context (sha256 : string → string).
Context (mean std amax : list float → float) (dot : list float → list float → float).
Context (quantile : list float → float → float) (fit : float → Z → list (list float) → result Estimator).
Context (score_samples : Estimator → list (list float) → list float).
Context (predict : Estimator → list (list float) → list Z).
Context (np_sort : list float → list float) (searchsorted_right : list float → float → Z).
Context (joblib_dump : PyObj Estimator → string) (joblib_load : string → result (PyObj Estimator)).
Context (sklearn_version : string) (str_container : json → string).
Context (int_of_str : string → result Z) (float_of_str : string → result float) (decode_error : string → string).
Context (cwd : path) (resolve : path → path) (settings : Settings).
Context (type_name exn_str : exn → string).

(** [_timestamp] *)
Definition timestamp (value : string) : result datetime :=
  parsed ← fromisoformat (replace_z value);
  match offset parsed with
  | None => Raise (ArgumentTypeError "timestamp must include an offset or Z")
  | Some _ => astimezone_utc parsed
  end.

(** [_train]: the line it prints. *)
Definition registry_line (registry : AnomalyModel) : json := JObj [
  ("device_id", JStr (m_device_id registry)); ("model_version", JStr (m_model_version registry));
  ("status", JStr (m_status registry)); ("training_sample_count", JInt (m_training_sample_count registry));
  ("validation_sample_count", JInt (m_validation_sample_count registry)) ].
Definition train (device_id : string) (start stop : datetime) (contamination : float) : M World string := λ w,
  let '(r, w) := train_and_register fromisoformat local_offset sha256 mean std amax dot quantile fit score_samples
    joblib_dump joblib_load sklearn_version str_container int_of_str float_of_str decode_error cwd resolve settings
    device_id start stop contamination w in
  (registry ← r;
   match registry with Some m => mret (dumps_spaced (registry_line m)) | None => Raise AttributeError end,
   (set_rolled_back w.1, w.2)).

(** ** The polling loop *)

Definition READY : path := path_of cwd "run/anomaly-worker-ready".
(** What the process keeps between turns, and the lines it has printed. *)
Record Process := { marked_ready : bool; disk : FS; printed : list json }.
Definition pass (fs : FS) : DBM Z :=
  closing (run_once fromisoformat local_offset sha256 mean std amax dot score_samples predict np_sort searchsorted_right
    joblib_load sklearn_version str_container int_of_str float_of_str decode_error cwd resolve settings fs).
Definition error_line (e : exn) : json := JObj [
  ("level", JStr "error"); ("error", JStr (type_name e)); ("detail", JStr (exn_str e)) ].
(** The [try] of a turn on a new session: the outcome, the disk and the session. *)
Definition turn_body (p : Process) (s : Session) : result bool * FS * Session :=
  match pass (disk p) s with
  | (Raise e, s') => (Raise e, disk p, s')
  | (Ok _, s') =>
      if marked_ready p then (Ok true, disk p, s')
      else let '(r, fs) := write_text id resolve READY ("ready" +:+ newline) (disk p) in
           (r ≫= λ _, Ok true, fs, s')
  end.
Definition poll_turn (p : Process) (s : Session) : Process * Session :=
  match turn_body p s with
  | (Ok marked, fs, s') => ({| marked_ready := marked; disk := fs; printed := printed p |}, s')
  | (Raise e, fs, s') => ({| marked_ready := marked_ready p; disk := fs; printed := printed p ++ [error_line e] |}, s')
  end.

(** ** When the process is ready *)

Definition marker (fs : FS) : option string := files fs !! resolve READY.
(** A pass that returned. *)
Definition passed (p : Process) (s : Session) : Prop := ∃ n, (pass (disk p) s).1 = Ok n.
(** The processes reached after some turns and passes that returned, from a disk
    without a marker that nobody else writes. *)
Inductive lives : Process → nat → nat → Prop :=
  | lives_start fs : marker fs = None → lives {| marked_ready := false; disk := fs; printed := [] |} 0 0
  | lives_passed p turns passes s : lives p turns passes → passed p s → lives (poll_turn p s).1 (S turns) (S passes)
  | lives_failed p turns passes s : lives p turns passes → ¬ passed p s → lives (poll_turn p s).1 (S turns) passes
  | lives_others p turns passes fs : lives p turns passes → marker fs = marker (disk p) →
      lives {| marked_ready := marked_ready p; disk := fs; printed := printed p |} turns passes.

Lemma turn_fails p s : ¬ passed p s →
  ∃ e, (poll_turn p s).1 = {| marked_ready := marked_ready p; disk := disk p; printed := printed p ++ [error_line e] |}.
Proof.
  intros Hn. unfold poll_turn, turn_body, passed in *. destruct (pass (disk p) s) as [[n|e] s']; [|by exists e].
  destruct Hn. by exists n.
Qed.
(** The marker after an attempt to write it. *)
Lemma write_marker fs : let '(r, fs') := write_text id resolve READY ("ready" +:+ newline) fs in
  match r with Ok _ => marker fs' = Some ("ready" +:+ newline) | Raise _ => marker fs' = marker fs end.
Proof.
  destruct (write_text id resolve READY ("ready" +:+ newline) fs) as [[u|e] fs'] eqn:E; [by apply write_ok in E as [_ E]|].
  unfold write_text in E. unfold mbind, M_bind in E. destruct (make_dirs resolve (parent READY) fs) as [[[]|e1] fs1] eqn:E1.
  - pose proof (make_dirs_holds resolve (parent READY) (resolve READY) (marker fs) fs eq_refl) as H1. rewrite E1 in H1.
    destruct (open_writing resolve READY fs1) as [[[]|e2] fs2] eqn:E2; [done|]. injection E as _ <-.
    unfold open_writing in E2. destruct (is_dir _ _ _); [|destruct (negb _); [|done]]; injection E2 as _ <-; exact H1.
  - injection E as _ <-. pose proof (make_dirs_holds resolve (parent READY) (resolve READY) (marker fs) fs eq_refl) as H1.
    by rewrite E1 in H1.
Qed.

(** The readiness file is there exactly when the process has marked itself
    ready, with its content, and only after a pass over the devices returned;
    every turn without a printed error leaves it there, so the file is missing only as
    long as every turn has printed one. *)
Theorem ready_after_pass p turns passes : lives p turns passes →
  marker (disk p) = (if marked_ready p then Some ("ready" +:+ newline) else None)
  ∧ (marked_ready p = true → (0 < passes)%nat)
  ∧ (marked_ready p = false → length (printed p) = turns)
  ∧ (turns ≤ passes + length (printed p))%nat.
Proof.
  induction 1 as [fs Hm|p turns passes s _ (H1 & H2 & H3 & H4) [n Hp]|p turns passes s _ (H1 & H2 & H3 & H4) Hf
    |p turns passes fs _ (H1 & H2 & H3 & H4) Hm].
  - done.
  - unfold poll_turn, turn_body. destruct (pass (disk p) s) as [r s']. cbn [fst] in Hp. subst r.
    destruct (marked_ready p) eqn:Em; [cbn [fst marked_ready disk printed]; split_and!; first [done|lia]|].
    pose proof (write_marker (disk p)) as Hw. destruct (write_text _ _ _ _ _) as [[u|e] fs']; cbn -[Nat.add].
    + split_and!; first [done|lia].
    + rewrite length_app. cbn [length]. rewrite Hw. specialize (H3 eq_refl). split_and!; first [done|lia].
  - destruct (turn_fails p s Hf) as [e ->]. cbn [marked_ready disk printed]. rewrite length_app. cbn [length].
    split_and!; [done|done|intros Hm; rewrite (H3 Hm); lia|lia].
  - cbn [marked_ready disk printed]. by rewrite Hm.
Qed.
End Main.

(** A worker whose pass finds no device marks itself ready; one that cannot make
    the directory of the marker prints an error and does not. *)
Module Sample.
Definition empty_session : Session := open_session empty_db [] true (λ _, 9) 0.
Definition start (fs : FS) : Process := {| marked_ready := false; disk := fs; printed := [] |}.
Definition free : FS := {| files := ∅; dirs := ∅ |}.
Definition blocked : FS := {| files := {[ ["run"] := "a file" ]}; dirs := ∅ |}.
Abbreviation sample_turn := (poll_turn (λ _, Raise TypeError) (λ _, 0) id (λ _, of_int 0) (λ _, of_int 0)
  (λ _, of_int 0) (λ _ _, of_int 0)  (λ _ _, []) (λ (_ : ()) _, []) id (λ _ _, 0) (λ _, Raise TypeError) "" (λ _, "") (λ _, Raise TypeError) (λ _, Raise TypeError)
  id [] id sample_settings (λ _, "FileExistsError") exn_text).
Abbreviation sample_lives := (lives (λ _, Raise TypeError) (λ _, 0) id (λ _, of_int 0) (λ _, of_int 0)
  (λ _, of_int 0) (λ _ _, of_int 0)  (λ _ _, []) (λ (_ : ()) _, []) id (λ _ _, 0) (λ _, Raise TypeError) "" (λ _, "") (λ _, Raise TypeError) (λ _, Raise TypeError)
  id [] id sample_settings (λ _, "FileExistsError") exn_text).
Lemma blocked_turn : marked_ready (sample_turn (start blocked) empty_session).1 = false
  ∧ length (printed (sample_turn (start blocked) empty_session).1) = 1%nat.
Proof. vm_compute. done. Qed.
Lemma one_turn fs : marker [] id fs = None → sample_lives (sample_turn (start fs) empty_session).1 1 1.
Proof. intros Hm. apply lives_passed; [by apply lives_start|]. exists 0. vm_compute. done. Qed.
End Sample.

Import Sample.
Lemma ready_after_pass_witness :
  marker [] id (disk (sample_turn (start free) empty_session).1) = Some ("ready" +:+ newline)
  ∧ marker [] id (disk (sample_turn (start blocked) empty_session).1) = None.
Proof.
  split.
  - refine (eq_trans (proj1 (ready_after_pass _ _ _ _ _ _ _ _ _ _ _ _ _ _ _ _ _ _ _ _ _ _ _ _ _ (one_turn free _))) _); vm_compute; done.
  - refine (eq_trans (proj1 (ready_after_pass _ _ _ _ _ _ _ _ _ _ _ _ _ _ _ _ _ _ _ _ _ _ _ _ _ (one_turn blocked _))) _); vm_compute; done.
Defined.
