(* ===== verification/Integrity.v ===== *)
(** The integrity of the whole database, kept by every block of code that
    writes to it: the keys, and the values the API's response models demand.

    The proof is compositional: a block preserves the integrity of its session
    ([held]) because each write it stages keeps it, so each operation is
    discharged by its structure ([solve_held]). *)
From S2P Require Import Prelude PyStr Float64 PyFormat Json JsonParse PyTime Models Tables Session Topics Schemas.
From S2P Require Import Settings Ingestion AlarmFacts Keys Transactions Ingestor Gateway Commands ApiViews Api.
From S2P Require Import Features SensorRules Modeling JsonValues Files Artifacts Worker.

(** ** The invariant *)

Definition alarm_typed (a : Alarm) : Prop :=
  lifecycle a ∧ literal ["warning"; "critical"] (a_severity a) = true.
(** The thresholds of a row pass the checks of [ThresholdConfigUpdate]. *)
Definition config_valid (c : ThresholdConfig) : Prop :=
  threshold_validate (cv_thresholds (to_threshold_view c)) = Ok (cv_thresholds (to_threshold_view c)).
Definition version_key (m : AnomalyModel) : string * string := (m_device_id m, m_model_version m).

Record integrity (d : DB) : Prop := {
  in_keys : keys_wf d;
  in_users : NoDup (map u_username (users d));
  in_versions : NoDup (map version_key (anomaly_models d));
  in_model_ids : map m_id (anomaly_models d) = seqZ 1 (Z.of_nat (length (anomaly_models d)));
  in_model_fk : Forall (λ m, m_device_id m ∈ device_ids d) (anomaly_models d);
  in_alarms : Forall alarm_typed (alarms d);
  in_configs : Forall config_valid (threshold_configs d) }.

Lemma empty_integrity : integrity empty_db.
Proof. constructor; try apply empty_keys_wf; try apply NoDup_nil_2; try apply List.Forall_nil. reflexivity. Qed.

Definition keeps (w : write) : Prop := ∀ d d', w d = Ok d' → integrity d → integrity d'.

(** A write that leaves the tables of the other conditions alone. *)
Definition frame (d d' : DB) : Prop :=
  users d' = users d ∧ anomaly_models d' = anomaly_models d ∧ alarms d' = alarms d
  ∧ threshold_configs d' = threshold_configs d ∧ device_ids d ⊆ device_ids d'.
Lemma keeps_frame w : keeps_keys w → (∀ d d', w d = Ok d' → frame d d') → keeps w.
Proof.
  intros Hk Hf d d' H [Kk Ku Kv Ki Km Ka Kc]. destruct (Hf d d' H) as (Eu & Em & Ea & Ec & Hd).
  constructor; rewrite ?Eu, ?Em, ?Ea, ?Ec; try done; [by eapply Hk|].
  eapply Forall_impl; [exact Km|]. intros m. apply Hd.
Qed.

Ltac frame_write w :=
  apply keeps_frame; [|intros d d' H; unfold w in H; open_write H; unfold frame, device_ids; simpl; split_and!; try done].

Lemma insert_device_keeps x : keeps (insert_device x).
Proof. frame_write insert_device; [apply insert_device_keys|]. rewrite map_app. intros i Hi. apply elem_of_app. by left. Qed.
Lemma update_device_keeps id f : (∀ x, d_id (f x) = d_id x) → keeps (update_device id f).
Proof. intros Hf. frame_write update_device; [by apply update_device_keys|]. by rewrite map_update_where. Qed.
Lemma insert_telemetry_keeps t : keeps (insert_telemetry t).
Proof. frame_write insert_telemetry. apply insert_telemetry_keys. Qed.
Lemma insert_health_keeps h : keeps (insert_health h).
Proof. frame_write insert_health. apply insert_health_keys. Qed.
Lemma insert_command_keeps x : keeps (insert_command x).
Proof. frame_write insert_command. apply insert_command_keys. Qed.
Lemma update_command_keeps id f :
  (∀ x, x_command_id (f x) = x_command_id x ∧ x_device_id (f x) = x_device_id x) → keeps (update_command id f).
Proof. intros Hf. frame_write update_command. by apply update_command_keys. Qed.
Lemma insert_audit_keeps e : keeps (insert_audit e).
Proof. frame_write insert_audit. apply insert_audit_keys. Qed.
Lemma insert_error_log_keeps l : keeps (insert_error_log l).
Proof. frame_write insert_error_log. apply insert_error_log_keys. Qed.
Lemma insert_calibration_keeps k : keeps (insert_calibration k).
Proof. frame_write insert_calibration. apply insert_calibration_keys. Qed.
Lemma insert_maintenance_keeps r : keeps (insert_maintenance r).
Proof. frame_write insert_maintenance. apply insert_maintenance_keys. Qed.
Lemma update_maintenance_keeps i f : keeps (update_maintenance i f).
Proof. frame_write update_maintenance. apply update_maintenance_keys. Qed.

Lemma update_telemetry_keeps id f :
  (∀ t, t_message_id (f t) = t_message_id t ∧ seq_key (f t) = seq_key t) → keeps (update_telemetry id f).
Proof.
  intros Hf. frame_write update_telemetry. intros d d' H [? ? ? ? ? ? ? ? ? ? ?]. unfold update_telemetry in H. open_write H.
  constructor; try done; simpl.
  - rewrite map_update_where; [done|]. intros t. by destruct (Hf t).
  - rewrite map_update_where; [done|]. intros t. by destruct (Hf t).
  - apply Forall_update_where; [|done]. intros t Ht. destruct (Hf t) as [_ [= -> _]]. done.
Qed.

Lemma insert_user_keeps u : keeps (insert_user u).
Proof.
  intros d d' H [[? ? ? ? ? ? ? ? ? ? ?] ? ? ? ? ? ?]. unfold insert_user in H. open_write H. constructor; try done; simpl.
  apply nodup_snoc; [done|]. eapply existsb_false_notin; [|eassumption]. intros y Hy. by apply String.eqb_eq.
Qed.

(** The two tables with typed columns. *)
Lemma insert_alarm_keeps a : alarm_typed a → keeps (insert_alarm a).
Proof.
  intros Ha d d' H [Kk ? ? ? ? ? ?]. pose proof (insert_alarm_keys a d d' H Kk) as Kk'. unfold insert_alarm in H. open_write H.
  constructor; try done; simpl. by apply Forall_snoc.
Qed.
Lemma update_alarm_keeps id f : keeps_key f → (∀ a, alarm_typed a → alarm_typed (f a)) → keeps (update_alarm id f).
Proof.
  intros Hk Hf d d' H [Kk ? ? ? ? ? ?]. pose proof (update_alarm_keys id f Hk d d' H Kk) as Kk'. unfold update_alarm in H.
  open_write H. constructor; try done; simpl. by apply Forall_update_where.
Qed.
Lemma insert_threshold_config_keeps c : config_valid c → keeps (insert_threshold_config c).
Proof.
  intros Hc d d' H [Kk ? ? ? ? ? ?]. pose proof (insert_threshold_config_keys c d d' H Kk) as Kk'.
  unfold insert_threshold_config in H. open_write H. constructor; try done; simpl. by apply Forall_snoc.
Qed.
Lemma update_threshold_config_keeps id f :
  (∀ c, c_device_id (f c) = c_device_id c) → (∀ c, config_valid (f c)) → keeps (update_threshold_config id f).
Proof.
  intros Hk Hf d d' H [Kk ? ? ? ? ? ?]. pose proof (update_threshold_config_keys id f Hk d d' H Kk) as Kk'.
  unfold update_threshold_config in H. open_write H. constructor; try done; simpl. apply Forall_update_where; [|done]. auto.
Qed.

(** The registry of models. *)
Lemma insert_model_keeps m : keeps (insert_model m).
Proof.
  intros d d' H [[? ? ? ? ? ? ? ? ? ? ?] ? ? Ki ? ? ?]. unfold insert_model in H. open_write H. constructor; try done; simpl.
  - apply nodup_snoc; [done|]. eapply existsb_false_notin; [|eassumption]. intros y [= E1 E2]. unfold same_version.
    by rewrite E1, E2, !String.eqb_refl.
  - rewrite map_app, length_app, Ki. simpl. unfold next_id. rewrite Nat2Z.inj_add, seqZ_app by lia. f_equal.
    unfold seqZ. simpl. f_equal. lia.
  - apply Forall_snoc; [done|]. by apply has_device_elem.
Qed.
Lemma update_model_keeps id f :
  (∀ m, m_id (f m) = m_id m ∧ version_key (f m) = version_key m) → keeps (update_model id f).
Proof.
  intros Hf d d' H [[? ? ? ? ? ? ? ? ? ? ?] ? ? Ki ? ? ?]. unfold update_model in H. open_write H. constructor; try done; simpl.
  - rewrite map_update_where; [done|]. intros m. by destruct (Hf m).
  - rewrite map_update_where by (intros m; by destruct (Hf m)). unfold update_where. by rewrite length_map.
  - apply Forall_update_where; [|done]. intros m Hm. destruct (Hf m) as [_ [= -> _]]. done.
Qed.

Create HintDb keeps.
#[export] Hint Resolve insert_device_keeps insert_telemetry_keeps insert_health_keeps insert_command_keeps
  insert_audit_keeps insert_error_log_keeps insert_calibration_keeps insert_maintenance_keeps update_maintenance_keeps
  insert_user_keeps insert_model_keeps : keeps.

(** ** Sessions *)

(** What the session sees, what is committed and what is staged. *)
Definition held (s : Session) : Prop := integrity (db s) ∧ integrity (saved s) ∧ Forall keeps (pending s).

Lemma run_writes_integrity ws d d' : Forall keeps ws → run_writes ws d = Ok d' → integrity d → integrity d'.
Proof.
  intros Hws. revert d. induction Hws as [|w ws Hw _ IH]; intros d; simpl; [by intros [= ->]|].
  unfold mbind, result_bind. destruct (w d) as [d1|] eqn:H1; [|done]. intros H2 Hd. eapply IH; [exact H2|by eapply Hw].
Qed.

Lemma held_clean s : clean s → integrity (saved s) → held s.
Proof. intros (Hd & Hp & _) Hi. unfold held. rewrite Hd, Hp. split_and!; [done|done|constructor]. Qed.

Lemma held_now : preserves held utc_now.
Proof. by intros s Hs. Qed.
Lemma held_query {A} (f : DB → A) : preserves held (query f).
Proof. by intros s Hs. Qed.
Lemma held_add w : keeps w → preserves held (add w).
Proof. intros Hw s (H1 & H2 & H3). split_and!; [done|done|]. simpl. by apply Forall_snoc. Qed.
Lemma held_flush : preserves held flush.
Proof.
  intros s (H1 & H2 & H3). unfold flush. destruct (run_writes _ _) as [d|] eqn:E; [|by split_and!].
  split_and!; simpl; [by eapply run_writes_integrity|done|constructor].
Qed.
Lemma held_commit : preserves held commit.
Proof.
  intros s (H1 & H2 & H3). unfold commit. destruct (run_writes _ _) as [d|] eqn:E; [|by split_and!].
  split_and!; simpl; [by eapply run_writes_integrity..|constructor].
Qed.
Lemma held_rolled_back s : held s → held (set_rolled_back s).
Proof. intros (_ & H & _). split_and!; [done|done|constructor]. Qed.
Lemma held_rollback : preserves held rollback.
Proof. intros s. apply held_rolled_back. Qed.
Lemma held_notify e : preserves held (notify_after_commit e).
Proof. intros s Hs. unfold notify_after_commit. by destruct (negb (postgres s)), (negb (event_fits e)). Qed.
Lemma held_closing {A} (m : DBM A) : preserves held m → preserves held (closing m).
Proof. intros Hm s Hs. specialize (Hm s Hs). unfold closing. destruct (m s). by apply held_rolled_back. Qed.

#[export] Hint Resolve held_now held_query held_add held_flush held_commit held_rollback held_notify held_closing : preserves.

(** Discharge [preserves held] along the structure of a block. *)
Ltac held_step :=
  match goal with
  | |- preserves _ (match ?x with _ => _ end) => destruct x eqn:?
  | |- preserves _ (_ ≫= _) => apply preserves_bind; [|intros ?]
  | |- preserves _ (try_except _ _) => apply preserves_try; [|intros ? ?; repeat case_match; intros ?; simplify_eq]
  | |- preserves _ (add _) => apply held_add
  | |- preserves _ (closing _) => apply held_closing
  | |- preserves _ _ => solve [eauto with preserves]
  | |- keeps _ => solve [eauto with keeps]
  end.
Ltac solve_held := cbv zeta; repeat (held_step; cbv zeta).

(** ** Ingestion *)

Lemma desired_literal value warning critical severity :
  desired_severity value warning critical = Some severity → literal ["warning"; "critical"] severity = true.
Proof. unfold desired_severity. destruct (fleb critical value); [by intros [= <-]|]. destruct (fleb warning value); [by intros [= <-]|done]. Qed.
Lemma new_alarm_typed now device code severity source summary :
  literal ["warning"; "critical"] severity = true → alarm_typed (new_alarm now device code severity source summary).
Proof. intros Hs. split; [by left|done]. Qed.
Lemma escalate_keeps id severity summary :
  literal ["warning"; "critical"] severity = true → keeps (update_alarm id (escalate severity summary)).
Proof. intros Hs. apply update_alarm_keeps; [done|]. intros a [H _]. by split. Qed.
Lemma clear_keeps id now : keeps (update_alarm id (clear now)).
Proof. apply update_alarm_keeps; [done|]. intros a [H1 H2]. split; [|done]. right. by split; [|eexists]. Qed.
Lemma default_config_valid now device : config_valid (new_threshold_config now device).
Proof. vm_compute. reflexivity. Qed.

Lemma apply_metric_alarm_held device code metric unit value warning critical h :
  preserves held (apply_metric_alarm device code metric unit value warning critical h).
Proof.
  unfold apply_metric_alarm. solve_held.
  - apply escalate_keeps. by eapply desired_literal.
  - apply insert_alarm_keeps, new_alarm_typed. by eapply desired_literal.
  - apply clear_keeps.
Qed.
Lemma apply_threshold_alarms_held device values : preserves held (apply_threshold_alarms device values).
Proof.
  unfold apply_threshold_alarms. solve_held; try apply apply_metric_alarm_held.
  apply insert_threshold_config_keeps, default_config_valid.
Qed.
Lemma touch_device_held device site now seen found :
  (∀ x, d_id (seen x) = d_id x) → preserves held (touch_device device site now seen found).
Proof. intros Hs. unfold touch_device. solve_held. by apply update_device_keeps. Qed.

Lemma persist_telemetry_held e : preserves held (persist_telemetry e).
Proof.
  unfold persist_telemetry, stage_telemetry, finish_telemetry. solve_held;
    try (by apply touch_device_held); try apply apply_threshold_alarms_held.
Qed.
Lemma persist_health_held iso e : preserves held (persist_health iso e).
Proof. unfold persist_health. solve_held; by apply touch_device_held. Qed.
Lemma persist_command_ack_held e : preserves held (persist_command_ack e).
Proof. unfold persist_command_ack. solve_held. by apply update_command_keeps. Qed.

Lemma reject_held code detail : preserves held (reject code detail).
Proof. unfold reject, record_error. solve_held. Qed.
Lemma on_error_held err h : on_error err = Some h → preserves held h.
Proof.
  unfold on_error. destruct err; try (destruct (is_value_error _) eqn:?; [|done]); intros [= <-]; try apply reject_held; done.
Qed.
Lemma handle_message_held wide mv hv av iso topic payload : preserves held (handle_message wide mv hv av iso topic payload).
Proof.
  unfold handle_message, persist_message. apply preserves_try; [|intros ? ?; apply on_error_held].
  solve_held; first [apply persist_telemetry_held|apply persist_health_held|apply persist_command_ack_held].
Qed.

(** ** The API *)

Lemma require_device_held id : preserves held (require_device id).
Proof. unfold require_device. solve_held. Qed.
#[local] Hint Resolve require_device_held : preserves.

Lemma acknowledge_alarm_held user id : preserves held (acknowledge_alarm user id).
Proof. unfold acknowledge_alarm. solve_held. by apply update_alarm_keeps. Qed.
Lemma create_calibration_held user device r : preserves held (create_calibration user device r).
Proof. unfold create_calibration. solve_held. Qed.
Lemma create_maintenance_held user device r : preserves held (create_maintenance user device r).
Proof. unfold create_maintenance. solve_held. Qed.
Lemma update_maintenance_held user id r : preserves held (update_maintenance_endpoint user id r).
Proof. unfold update_maintenance_endpoint. solve_held. Qed.
Lemma get_thresholds_held device : preserves held (get_thresholds device).
Proof. unfold get_thresholds. solve_held. apply insert_threshold_config_keeps, default_config_valid. Qed.
Lemma update_thresholds_held user device r : threshold_validate r = Ok r → preserves held (update_thresholds user device r).
Proof.
  intros Hr. assert (Hv : ∀ who now c, config_valid (with_thresholds r who now c)) by (intros; by destruct r).
  unfold update_thresholds. solve_held; [apply update_threshold_config_keeps|apply insert_threshold_config_keeps]; auto.
Qed.
Lemma issue_relay_command_held uuid broker meanwhile device actor r s :
  (∀ d, integrity d → integrity (meanwhile d)) →
  preserves held (issue_relay_command uuid broker meanwhile device actor r s).
Proof.
  intros Hm. unfold issue_relay_command. solve_held.
  - apply preserves_modify. intros ses (H1 & H2 & H3). split_and!; simpl; auto.
  - apply update_command_keeps. unfold publish_command in *. intros x. repeat case_match; simplify_eq; done.
Qed.
Lemma create_relay_command_held s uuid broker meanwhile user device r :
  (∀ d, integrity d → integrity (meanwhile d)) →
  preserves held (create_relay_command s uuid broker meanwhile user device r).
Proof. intros Hm. unfold create_relay_command. solve_held. by apply issue_relay_command_held. Qed.
Lemma ingest_telemetry_held s token e : preserves held (ingest_telemetry s token e).
Proof. unfold ingest_telemetry. solve_held. apply persist_telemetry_held. Qed.
Lemma seed_held hash s : preserves held (seed hash s).
Proof. unfold seed. solve_held. apply insert_threshold_config_keeps, default_config_valid. Qed.

(** ** The anomaly worker *)

Lemma log_diagnostic_held device code severity detail : preserves held (log_diagnostic device code severity detail).
Proof. unfold log_diagnostic. solve_held. Qed.
Lemma set_alarm_held device code source active summary : preserves held (set_alarm device code source active summary).
Proof.
  unfold set_alarm. solve_held.
  - by apply update_alarm_keeps.
  - by apply insert_alarm_keeps, new_alarm_typed.
  - apply update_alarm_keeps; [done|]. intros x [_ H2]. split; [|done]. right. by split; [|eexists].
Qed.
Lemma for_each_held {A} (f : A → DBM ()) l : (∀ x, preserves held (f x)) → preserves held (for_each f l).
Proof. intros Hf. induction l; simpl; solve_held; auto. Qed.

Section Scoring.
Context {Estimator : Type}.
Context (fromisoformat : string → result datetime) (local_offset : Z → Z) (sha256 : string → string).
Context (mean std amax : list float → float) (dot : list float → list float → float).
Context (quantile : list float → float → float) (fit : float → Z → list (list float) → result Estimator).
Context (score_samples : Estimator → list (list float) → list float) (predict : Estimator → list (list float) → list Z).
Context (np_sort : list float → list float) (searchsorted_right : list float → float → Z).
Context (joblib_dump : PyObj Estimator → string) (joblib_load : string → result (PyObj Estimator)).
Context (sklearn_version : string) (str_container : json → string).
Context (int_of_str : string → result Z) (float_of_str : string → result float) (decode_error : string → string).
Context (cwd : path) (resolve : path → path) (settings : Settings).

Lemma with_status_held id status diagnostic : keeps (update_model id (with_status status diagnostic)).
Proof. by apply update_model_keeps. Qed.
#[local] Hint Resolve with_status_held : keeps.

Lemma load_ready_bundle_held fs device :
  preserves held (load_ready_bundle (Estimator := Estimator) fromisoformat local_offset sha256 joblib_load sklearn_version
    str_container int_of_str float_of_str decode_error cwd resolve settings fs device).
Proof. unfold load_ready_bundle, set_status. solve_held. Qed.

Lemma explain_row_held diagnostics detail row : preserves held (explain_row diagnostics detail row).
Proof. unfold explain_row. solve_held; by apply update_telemetry_keeps. Qed.
Lemma score_telemetry_held diagnostics results row : preserves held (score_telemetry diagnostics results row).
Proof. unfold score_telemetry. solve_held; by apply update_telemetry_keeps. Qed.

Lemma score_batch_held (loaded : Loaded (Estimator := Estimator)) device targets first latest :
  preserves held (score_batch mean std amax dot score_samples predict np_sort searchsorted_right loaded device targets first latest).
Proof.
  unfold score_batch, run_fallback, run_model. solve_held;
    first [apply set_alarm_held | apply log_diagnostic_held | by apply update_model_keeps
          | apply for_each_held; intros; first [apply explain_row_held|apply score_telemetry_held]].
Qed.

Lemma score_device_once_held fs device :
  preserves held (score_device_once fromisoformat local_offset sha256 mean std amax dot score_samples predict np_sort
    searchsorted_right joblib_load sklearn_version str_container int_of_str float_of_str decode_error cwd resolve settings
    fs device).
Proof. unfold score_device_once. solve_held; first [apply load_ready_bundle_held | apply score_batch_held]. Qed.

Lemma run_once_held fs :
  preserves held (run_once fromisoformat local_offset sha256 mean std amax dot score_samples predict np_sort
    searchsorted_right joblib_load sklearn_version str_container int_of_str float_of_str decode_error cwd resolve settings fs).
Proof.
  unfold run_once. apply preserves_bind; [apply held_query|]. intros ids. generalize 0 as n.
  induction ids as [|id ids IH]; intros n; simpl; solve_held. apply score_device_once_held.
Qed.

(** Training replaces the row of a version it registers again: no other row
    has its identifier. *)
Lemma replace_model_integrity d r f d' :
  integrity d → r ∈ anomaly_models d → (∀ m, m_id (f m) = m_id m ∧ version_key (f m) = version_key r) →
  update_model (m_id r) f d = Ok d' → integrity d'.
Proof.
  intros [[? ? ? ? ? ? ? ? ? ? ?] ? Kv Ki Kf ? ?] Hr Hf H. unfold update_model in H. open_write H.
  assert (Hid : ∀ x, x ∈ anomaly_models d → m_id x = m_id r → x = r).
  { intros x Hx E. apply (key_inj m_id (anomaly_models d)); [|done..]. rewrite Ki. apply NoDup_seqZ. }
  assert (Hkey : map version_key (update_where (λ m, m_id m =? m_id r) f (anomaly_models d)) = map version_key (anomaly_models d)).
  { unfold update_where. rewrite map_map. apply map_ext_in. intros x Hx%list_elem_of_In.
    destruct (Z.eqb_spec (m_id x) (m_id r)) as [E|]; [|done]. rewrite (Hid x Hx E). by destruct (Hf r). }
  constructor; try done; simpl.
  - by rewrite Hkey.
  - rewrite map_update_where by (intros m; by destruct (Hf m)). unfold update_where. by rewrite length_map.
  - apply Forall_forall. intros m (x & -> & Hx)%list_elem_of_fmap. pose proof (proj1 (Forall_forall _ _) Kf x Hx).
    destruct (m_id x =? m_id r); [|done]. destruct (Hf x) as [_ [= -> _]]. by apply (proj1 (Forall_forall _ _) Kf).
Qed.

Lemma registry_found device version d r : registry_of device version d = Some r →
  r ∈ anomaly_models d ∧ version_key r = (device, version).
Proof.
  intros H. apply List.find_some in H as [Hin Hs]. split; [by apply list_elem_of_In|]. unfold same_version in Hs. b2p.
  unfold version_key. congruence.
Qed.

Lemma register_bundle_integrity bundle directory s :
  clean s → integrity (saved s) →
  integrity (saved (register_bundle (Estimator := Estimator) fromisoformat local_offset cwd resolve settings bundle directory s).2).
Proof.
  intros Hs Hi. pose proof Hs as (Hd & Hp & _).
  set (Q := λ s' : Session, integrity (saved s')).
  assert (Hlift : ∀ A B (r : result A) (f : A → DBM B) s', Q s' → (∀ a, r = Ok a → Q (f a s').2) → Q ((lift r ≫= f) s').2)
    by (intros A B [a|e] f s' Hq Hf; [by apply Hf|done]).
  change (Q (register_bundle (Estimator := Estimator) fromisoformat local_offset cwd resolve settings bundle directory s).2).
  unfold register_bundle. cbv zeta. apply Hlift; [done|]. intros relative _. rewrite query_step.
  do 3 (apply Hlift; [done|]; intros ? _). destruct (registry_of _ _ (db s)) as [r|] eqn:Hr.
  - rewrite add_step. unfold mbind, M_bind, commit. simpl. rewrite Hp. simpl. unfold mbind, result_bind.
    destruct (update_model _ _ (db s)) as [d'|] eqn:Hw; [|done]. apply registry_found in Hr as [Hin Hkey].
    eapply (replace_model_integrity (db s) r); [by rewrite Hd|done| |exact Hw]. intros m. by rewrite Hkey.
  - rewrite add_step. unfold mbind, M_bind, commit. simpl. rewrite Hp. simpl. unfold mbind, result_bind.
    destruct (insert_model _ (db s)) as [d'|] eqn:Hw; [|done].
    apply (insert_model_keeps _ _ _ Hw). by rewrite Hd.
Qed.

(** The disk and the clean session of a training. *)
Definition training (w : World) : Prop := clean w.1 ∧ integrity (saved w.1).
Lemma training_query {A} (f : DB → A) : preserves training (in_session (query f)).
Proof. by intros w Hw. Qed.
Lemma training_now : preserves training (in_session utc_now).
Proof. by intros w [(H1 & H2 & H3) H4]. Qed.
Lemma training_disk {A} (m : M FS A) : preserves training (on_disk m).
Proof. intros w Hw. unfold on_disk. by destruct (m w.2). Qed.
Lemma training_state {A} (f : World → result A) : preserves training (λ w, (f w, w)).
Proof. by intros w Hw. Qed.
Lemma after_training {A B} (m : M World A) (f : A → M World B) w :
  preserves training m → (∀ a w, training w → integrity (saved (f a w).2.1)) → training w →
  integrity (saved ((m ≫= f) w).2.1).
Proof.
  intros Hm Hf Hw. specialize (Hm w Hw). unfold mbind, M_bind. destruct (m w) as [[a|e] w']; [by apply Hf|apply Hm].
Qed.
#[local] Hint Resolve training_query training_now training_disk training_state : preserves.

Lemma train_and_register_integrity device start stop contamination w :
  clean w.1 → integrity (saved w.1) →
  integrity (saved (train_and_register fromisoformat local_offset sha256 mean std amax dot quantile fit score_samples
    joblib_dump joblib_load sklearn_version str_container int_of_str float_of_str decode_error cwd resolve settings device
    start stop contamination w).2.1).
Proof.
  intros Hs Hi. assert (Hw : training w) by done. unfold train_and_register.
  apply after_training; [apply training_query| |done]. clear w Hs Hi Hw. intros found w Hw.
  destruct found as [d|]; [|apply Hw].
  repeat (apply after_training; [|intros ? ? ?|done]); try solve [eauto with preserves].
  - apply preserves_try; [auto with preserves|]. intros e k. destruct e; try done. intros [= <-].
    apply preserves_bind; [apply training_state|]. intros existing. destruct (_ || _); auto with preserves.
  - match goal with H : training ?w |- _ => destruct H as [Hc Hi]; pose proof (register_bundle_integrity a3.2 a3.1 w.1 Hc Hi) as H end.
    unfold in_session. by destruct (register_bundle _ _ _ _ _ _ _ _).
Qed.
End Scoring.
