(* ===== verification/Platform.v ===== *)
(** The whole platform as one transition system on the database: the API, the
    ingestion worker, the anomaly worker and the seed take turns, one
    transaction block at a time, with anything running between the two commits
    of a relay command.  Its reachable databases have integrity, and every
    response the API builds from them passes its response model. *)
From S2P Require Import Prelude PyStr Float64 PyFormat Json JsonParse PyTime Models Tables Session Topics Schemas.
From S2P Require Import Settings Ingestion AlarmFacts Keys Transactions Ingestor Gateway Commands ApiViews Api ApiProps.
From S2P Require Import Features SensorRules Modeling JsonValues Files Artifacts Worker Integrity.

(** A block run in a session of its own. *)
Record Turn := {
  tn_block : DBM (); tn_published : list json; tn_postgres : bool; tn_clock : nat → Z; tn_ticks : nat }.
Definition turn_session (t : Turn) (d : DB) : Session :=
  open_session d (tn_published t) (tn_postgres t) (tn_clock t) (tn_ticks t).
Definition run_turn (t : Turn) (d : DB) : DB := saved (tn_block t (turn_session t d)).2.
Definition run_turns (l : list Turn) (d : DB) : DB := fold_left (λ d t, run_turn t d) l d.

(** The request body of an operation has been validated. *)
Definition request_valid (op : operation) : Prop :=
  match op with Update_thresholds _ r => threshold_validate r = Ok r | _ => True end.

Section Platform.
Context {Estimator : Type}.
Context (wide : string → option string) (model_validate : json → result TelemetryEnvelope).
Context (health_validate_json : string → result HealthEnvelope) (ack_validate_json : string → result CommandAckEnvelope).
Context (iso : datetime → string) (hash_password : string → string).
Context (fromisoformat : string → result datetime) (local_offset : Z → Z) (sha256 : string → string).
Context (mean std amax : list float → float) (dot : list float → list float → float).
Context (quantile : list float → float → float) (fit : float → Z → list (list float) → result Estimator).
Context (score_samples : Estimator → list (list float) → list float) (predict : Estimator → list (list float) → list Z).
Context (np_sort : list float → list float) (searchsorted_right : list float → float → Z).
Context (joblib_dump : PyObj Estimator → string) (joblib_load : string → result (PyObj Estimator)).
Context (sklearn_version : string) (str_container : json → string).
Context (int_of_str : string → result Z) (float_of_str : string → result float) (decode_error : string → string).
Context (cwd : path) (resolve : path → path) (settings : Settings).

(** The blocks with one transaction, or several by the same process. *)
Inductive block : DBM () → Prop :=
  | Message topic payload :
      block (discard (handle_message wide model_validate health_validate_json ack_validate_json iso topic payload))
  | Http_telemetry token e : block (discard (ingest_telemetry settings token e))
  | Operation user op : request_valid op → block (run_operation user op)
  | Thresholds device : block (discard (get_thresholds device))
  | Scoring fs : block (discard (closing (run_once fromisoformat local_offset sha256 mean std amax dot score_samples
      predict np_sort searchsorted_right joblib_load sklearn_version str_container int_of_str float_of_str decode_error
      cwd resolve settings fs)))
  | Seeding : block (seed hash_password settings).

Inductive platform_step (d : DB) : DB → Prop :=
  | Block_step t : block (tn_block t) → platform_step d (run_turn t d)
  | Relay_step t uuid broker between user device r :
      Forall (λ t, block (tn_block t)) between →
      tn_block t = discard (create_relay_command settings uuid broker (run_turns between) user device r) →
      platform_step d (run_turn t d)
  | Training_step t fs device start stop contamination :
      platform_step d (saved (train_and_register fromisoformat local_offset sha256 mean std amax dot quantile fit
        score_samples joblib_dump joblib_load sklearn_version str_container int_of_str float_of_str decode_error cwd
        resolve settings device start stop contamination (turn_session t d, fs)).2.1).
Definition reachable : DB → Prop := rtc platform_step empty_db.

Lemma discard_held {A} (m : DBM A) : preserves held m → preserves held (discard m).
Proof. intros Hm. unfold discard. solve_held. Qed.

Lemma block_held m : block m → preserves held m.
Proof.
  intros [topic payload|token e|user op Hop|device|fs|].
  - apply discard_held, handle_message_held.
  - apply discard_held, ingest_telemetry_held.
  - destruct op; apply discard_held;
      [apply acknowledge_alarm_held|apply create_calibration_held|apply create_maintenance_held
      |apply update_maintenance_held|by apply update_thresholds_held].
  - apply discard_held, get_thresholds_held.
  - apply discard_held, held_closing, run_once_held.
  - apply seed_held.
Qed.

Lemma turn_integrity t d : preserves held (tn_block t) → integrity d → integrity (run_turn t d).
Proof. intros Hm Hd. unfold run_turn. by apply Hm, held_clean. Qed.

Lemma turns_integrity l d : Forall (λ t, block (tn_block t)) l → integrity d → integrity (run_turns l d).
Proof.
  intros Hl. revert d. induction Hl as [|t l Ht _ IH]; intros d Hd; [done|]. apply IH, turn_integrity; [by apply block_held|done].
Qed.

Lemma step_integrity d d' : platform_step d d' → integrity d → integrity d'.
Proof.
  intros [t Ht|t uuid broker between user device r Hb Ht|t fs device start stop contamination] Hd.
  - apply turn_integrity; [by apply block_held|done].
  - apply turn_integrity; [|done]. rewrite Ht. apply discard_held, create_relay_command_held. intros d0. by apply turns_integrity.
  - by apply train_and_register_integrity.
Qed.

Lemma reachable_integrity d : reachable d → integrity d.
Proof.
  assert (Hrun : ∀ d0, rtc platform_step d0 d → integrity d0 → integrity d).
  { induction 1 as [|d0 d1 d' Hstep _ IH]; intros Hd; [done|]. by apply IH, (step_integrity d0). }
  intros H. by apply (Hrun _ H), empty_integrity.
Qed.

(** ** Responses *)

(** Every response of the endpoints whose model constrains it passes. *)
Definition responses_valid (s : Session) : Prop :=
  (∀ site views, (list_devices settings site s).1 = Ok views → Forall (λ v, device_view_errors v = 0%nat) views)
  ∧ (∀ device view, (get_device_endpoint settings device s).1 = Ok view → device_view_errors view = 0%nat)
  ∧ (∀ device view, (get_anomaly_model settings str_container device s).1 = Ok view → anomaly_view_errors view = 0%nat)
  ∧ (∀ device state lim views, (list_alarms device state lim s).1 = Ok views →
       Forall (λ v, alarm_view_errors v = 0%nat) views)
  ∧ (∀ device view, (get_thresholds device s).1 = Ok view → threshold_view_validate view = Ok view).

Lemma device_view_valid d now : device_view_errors (to_device_view d settings now) = 0%nat.
Proof.
  unfold device_view_errors. cbn [dv_status to_device_view]. unfold device_status. by repeat case_match.
Qed.
Lemma alarm_view_valid a : alarm_typed a → alarm_view_errors (to_alarm_view a) = 0%nat.
Proof.
  intros [Hl Hs]. unfold alarm_view_errors. cbn [to_alarm_view av_severity av_state]. rewrite Hs.
  by destruct Hl as [[-> _]|[-> _]].
Qed.
Lemma threshold_view_valid c : config_valid c → threshold_view_validate (to_threshold_view c) = Ok (to_threshold_view c).
Proof. unfold config_valid, threshold_view_validate. by intros ->. Qed.

Lemma status_literal m now st :
  model_status m settings now = Ok st → literal ["model_not_ready"; "ready"; "stale"; "error"] st = true.
Proof.
  unfold model_status, mbind, result_bind. destruct (dt_sub _ _); [|done]. intros [= <-]. by repeat case_match.
Qed.
Lemma require_device_ok {B} device (f : Device → DBM B) s b :
  ((require_device device ≫= f) s).1 = Ok b → ∃ d, (f d s).1 = Ok b.
Proof. unfold require_device, mbind, M_bind, query. simpl. destruct (get_device device (db s)) as [d|]; [|done]. by exists d. Qed.

Lemma list_alarms_valid device state lim s views :
  Forall alarm_typed (alarms (db s)) → (list_alarms device state lim s).1 = Ok views →
  Forall (λ v, alarm_view_errors v = 0%nat) views.
Proof.
  intros Ha [= <-]. apply Forall_forall. intros v (a & -> & Hin)%list_elem_of_fmap. apply alarm_view_valid.
  apply (proj1 (Forall_forall _ _) Ha). apply elem_of_take in Hin as (i & Hin & _).
  apply list_elem_of_lookup_2 in Hin. rewrite order_by_perm in Hin. by apply elem_of_filter_bool in Hin as [? _].
Qed.
Lemma get_anomaly_model_valid device s view :
  (get_anomaly_model settings str_container device s).1 = Ok view → anomaly_view_errors view = 0%nat.
Proof.
  intros [_ H]%require_device_ok. revert H. unfold query, utc_now, lift, mbind, M_bind. simpl.
  destruct (to_anomaly_model_view _ _ _ _ _) as [v|] eqn:Hv; [|done]. intros [= <-]. revert Hv. unfold to_anomaly_model_view.
  destruct (latest_model device _) as [m|]; [|by intros [= <-]]. unfold mbind, result_bind.
  destruct (model_status m settings _) as [st|] eqn:Hst; [|done]. intros [= <-]. unfold anomaly_view_errors. cbn [mv_status mv_field_performance_claimed].
  by rewrite (status_literal _ _ _ Hst).
Qed.
Lemma get_thresholds_valid device s view :
  Forall config_valid (threshold_configs (db s)) → (get_thresholds device s).1 = Ok view →
  threshold_view_validate view = Ok view.
Proof.
  intros Hc [_ H]%require_device_ok. revert H. unfold query, mbind, M_bind. simpl.
  destruct (get_threshold_config device (db s)) as [c|] eqn:Hf.
  - intros [= <-]. apply threshold_view_valid. apply (proj1 (Forall_forall _ _) Hc). apply List.find_some in Hf as [Hin _].
    by apply list_elem_of_In.
  - unfold utc_now, add, commit. simpl. destruct (run_writes _ _); [|done]. intros [= <-]. vm_compute. reflexivity.
Qed.

Lemma integrity_responses s : clean s → integrity (saved s) → responses_valid s.
Proof.
  intros (Hdb & _) Hi. rewrite <- Hdb in Hi. destruct Hi as [_ _ _ _ _ Ha Hc]. split_and!.
  - intros site views [= <-]. apply Forall_forall. intros v (d & -> & _)%list_elem_of_fmap. apply device_view_valid.
  - intros device view [d H]%require_device_ok. injection H as <-. apply device_view_valid.
  - intros device view. by apply get_anomaly_model_valid.
  - intros device state lim views. by apply list_alarms_valid.
  - intros device view. by apply get_thresholds_valid.
Qed.

(** C1: the platform never corrupts its database: in every state reached from
    the empty database by any sequence of messages, requests, relay commands
    (with anything in between their two commits), scoring passes, trainings and
    seedings, whatever fails on the way, the unique, primary and foreign keys
    hold, every alarm is in its life cycle with a known severity, every
    threshold row is ordered and bounded, and every response the API builds
    passes its response model. *)
Theorem platform_integrity d published postgres clock ticks :
  reachable d → integrity d ∧ responses_valid (open_session d published postgres clock ticks).
Proof.
  intros Hi%reachable_integrity. split; [done|by apply integrity_responses].
Qed.
End Platform.

(** A seeded platform whose administrator then lowers a threshold. *)
Definition demo_turn (m : DBM ()) (clock : Z) : Turn := {|
  tn_block := m; tn_published := []; tn_postgres := true; tn_clock := λ _, clock; tn_ticks := 0 |}.
Definition lowered : ThresholdConfigUpdate := {|
  tu_temperature_warning_c := of_int 50; tu_temperature_critical_c := of_int 70;
  tu_vibration_warning_mps2 := of_int 2; tu_vibration_critical_mps2 := of_int 4;
  tu_current_warning_a := of_int 3; tu_current_critical_a := of_int 5; tu_hysteresis_percent := of_int 10 |}.
Definition seeding : Turn := demo_turn (seed id sample_settings) 1000000.
Definition lowering : Turn :=
  demo_turn (run_operation (sample_user "operator" "admin") (Update_thresholds "motor-01" lowered)) 2000000.
Definition demo_platform : DB := run_turns [seeding; lowering] empty_db.

Lemma platform_integrity_witness :
  (length (devices demo_platform) = 1%nat
   ∧ map c_updated_by (threshold_configs demo_platform) = ["operator"])
  ∧ integrity demo_platform
  ∧ responses_valid (λ _, "") sample_settings (open_session demo_platform [] true (λ _, 3000000) 0).
Proof.
  split; [by vm_compute|].
  apply (platform_integrity (Estimator := unit) (λ _, None) (λ _, Raise TypeError) (λ _, Raise TypeError)
    (λ _, Raise TypeError) (λ _, "") id (λ _, Raise TypeError) id id (λ _, of_int 0) (λ _, of_int 0) (λ _, of_int 0)
    (λ _ _, of_int 0) (λ _ _, of_int 0) (λ _ _ _, Raise TypeError) (λ _ l, map (λ _, of_int 0) l)
    (λ _ l, map (λ _, 1) l) id (λ _ _, 0) (λ _, "") (λ _, Raise TypeError) "" (λ _, "") (λ _, Raise TypeError)
    (λ _, Raise TypeError) id [] id sample_settings).
  apply (rtc_l _ _ (run_turn seeding empty_db)); [apply (Block_step _ _ _ _ _ _), Seeding|].
  apply rtc_once. apply (Block_step _ _ _ _ _ _), Operation. vm_compute. reflexivity.
Defined.
