(* ===== verification/Evaluation.v ===== *)
(** The synthetic comparison of the deterministic rules with the model:
    [services/anomaly_worker/demo_data.py], [evaluation.py] and the
    [evaluate-demo] command of [main.py].

    [random seed i k] is the [k]-th number drawn for sample [i] by the
    generator seeded with [seed]; NumPy, scikit-learn and the disk are those of
    [Features.v], [Modeling.v] and [Artifacts.v]. *)
From S2P Require Import Prelude PyStr Float64 Json PyTime Generator Features SensorRules Modeling.
From S2P Require Import JsonValues Files Artifacts.
Local Open Scope py_scope.

(** ** Demonstration data *)

Section Demo.
Context (sin : float → float) (random : Z → nat → nat → float).

(** [TelemetrySample(...)] of the item at [offset]. *)
Definition sample_of (name : string) (sample_id_start start : Z) (offset : nat) (values : Values) :
    result TelemetrySample :=
  timestamp ← dt_add (utc start) (seconds (10 * Z.of_nat offset));
  mret (Build_TelemetrySample (sample_id_start + Z.of_nat offset) (wall timestamp)
    (Some (v_temperature_c values)) (Some (v_vibration_rms_mps2 values)) (Some (v_vibration_peak_mps2 values))
    (Some (v_vibration_crest_factor values)) (Some (v_current_a values)) (v_quality values)
    (v_fault_flags values) name).

(** [for offset, values in enumerate(items)]: an exception of the iterator
    surfaces after the items before it. *)
Fixpoint samples_from (name : string) (sample_id_start start : Z) (offset : nat) (items : list Values)
    (end_error : option exn) : result (list TelemetrySample) :=
  match items with
  | [] => match end_error with Some e => Raise e | None => Ok [] end
  | values :: items =>
      s ← sample_of name sample_id_start start offset values;
      rest ← samples_from name sample_id_start start (S offset) items end_error;
      mret (s :: rest)
  end.
Definition scenario_samples (name : string) (count : nat) (sample_id_start start seed : Z) :
    result (list TelemetrySample) :=
  let '(items, end_error) := scenario_values sin (random seed) name count in
  samples_from name sample_id_start start 0 items end_error.

(** [datetime(2026, 8, day, 8, 0, tzinfo=UTC)] *)
Definition august (day : Z) : Z := 1786435200000000 + days (day - 11).
Example august_examples : map (λ d, iso_z (august d)) [1; 2; 6] =
  ["2026-08-01T08:00:00Z"; "2026-08-02T08:00:00Z"; "2026-08-06T08:00:00Z"].
Proof. vm_compute. done. Qed.

Definition demo_training_samples : result (list TelemetrySample) :=
  scenario_samples "normal" (Z.to_nat 360) 1 (august 1) 20260811.

Definition scenarios : list string :=
  ["normal"; "rising-temperature"; "vibration-imbalance"; "current-overload"; "sensor-stuck"].
(** The loop of [demo_evaluation_samples] from position [index]. *)
Fixpoint evaluation_from (index : Z) (names : list string) : result (list TelemetrySample) :=
  match names with
  | [] => Ok []
  | name :: names =>
      block ← scenario_samples name 60 (10000 + index * 1000) (august (2 + index)) (20260811 + index);
      rest ← evaluation_from (index + 1) names;
      mret (block ++ rest)
  end.
Definition demo_evaluation_samples : result (list TelemetrySample) := evaluation_from 0 scenarios.
End Demo.

(** ** Metrics *)

Record DetectorMetrics := {
  true_positive : Z; false_positive : Z; true_negative : Z; false_negative : Z;
  precision : float; recall : float; f1 : float; false_positive_rate : float }.
Record ScenarioOutcome := {
  scenario : string; evaluated_samples : Z;
  first_deterministic_detection_delay_s : option float; first_model_detection_delay_s : option float }.

(** [sum(test(expected, actual) for expected, actual in zip(..., strict=True))] *)
Definition count_pairs (test : bool → bool → bool) (truth predictions : list bool) : Z :=
  Z.of_nat (length (List.filter (λ p, test p.1 p.2) (combine truth predictions))).

Definition metrics_of (tp fp tn fn : Z) : DetectorMetrics :=
  let precision := int_div tp (Z.max (tp + fp) 1) in
  let recall := int_div tp (Z.max (tp + fn) 1) in
  {| true_positive := tp; false_positive := fp; true_negative := tn; false_negative := fn;
     precision := precision; recall := recall;
     f1 := of_int 2 ⊗ precision ⊗ recall ⊘ fmax (precision ⊕ recall) (lit 1 12);
     false_positive_rate := int_div fp (Z.max (fp + tn) 1) |}.
Definition metrics (truth predictions : list bool) : result DetectorMetrics :=
  if (length predictions <? length truth)%nat then Raise (ValueError "zip() argument 2 is shorter than argument 1")
  else if (length truth <? length predictions)%nat then Raise (ValueError "zip() argument 2 is longer than argument 1")
  else Ok (metrics_of (count_pairs andb truth predictions)
             (count_pairs (λ expected actual, negb expected && actual) truth predictions)
             (count_pairs (λ expected actual, negb expected && negb actual) truth predictions)
             (count_pairs (λ expected actual, expected && negb actual) truth predictions)).

Definition at_least (limit : float) (o : option float) : bool :=
  match o with Some x => fleb limit x | None => false end.
Definition threshold_or_sensor_rule (history : list TelemetrySample) : result bool :=
  match last history with
  | None => Raise IndexError
  | Some current =>
      if at_least (of_int 65) (s_temperature_c current)
         || at_least (lit 45 1) (s_vibration_rms_mps2 current)
         || at_least (lit 14 1) (s_current_a current)
      then Ok true
      else diagnostics ← detect_sensor_failures (lit 300 1) (last_n 12 history);
           mret (negb (bool_decide (diagnostics = [])))
  end.

(** [by_id[id]] for the dict of the samples by identifier. *)
Definition sample_by_id (id : Z) (samples : list TelemetrySample) : result TelemetrySample :=
  match by_key id (map (λ s, (s_sample_id s, s)) samples) with Some s => Ok s | None => Raise KeyError end.
Fixpoint first_detection (samples : list TelemetrySample) (start : Z) (ids : list Z)
    (predictions : list (Z * bool)) : result (option float) :=
  match ids with
  | [] => Ok None
  | id :: ids =>
      if default false (by_key id predictions)
      then s ← sample_by_id id samples; mret (Some (elapsed start (s_timestamp s)))
      else first_detection samples start ids predictions
  end.
Definition delay (samples : list TelemetrySample) (ids : list Z) (predictions : list (Z * bool)) :
    result (option float) :=
  match ids with
  | [] => Ok None
  | id :: _ =>
      first ← sample_by_id id samples;
      first_detection samples (s_timestamp first) ids predictions
  end.

(** ** The report *)

(** [d.setdefault(key, []).append(value)] *)
Fixpoint append_to {A} (key : string) (value : A) (d : list (string * list A)) : list (string * list A) :=
  match d with
  | [] => [(key, [value])]
  | (k, values) :: d =>
      if String.eqb k key then (k, values ++ [value]) :: d else (k, values) :: append_to key value d
  end.
(** [list(dict.fromkeys(values))]: the distinct values, in order. *)
Definition dict_fromkeys (values : list string) : list string :=
  fold_left (λ ks v, if existsb (String.eqb v) ks then ks else ks ++ [v]) values [].
Definition group_by_regime (samples : list TelemetrySample) : list (string * list TelemetrySample) :=
  fold_left (λ d s, append_to (s_regime s) s d) (ordered_samples samples) [].

(** The variables of [evaluate_detectors]: the lists that grow over all
    regimes, and the dictionaries of the current one. *)
Record Tally := {
  truth : list bool; deterministic_predictions : list bool; model_predictions : list bool;
  reasons : list (string * list string) }.
Record Regime := {
  tally : Tally; deterministic_by_id : list (Z * bool); model_by_id : list (Z * bool) }.

Section Evaluate.
Context {Estimator : Type} (mean std amax : list float → float) (dot : list float → list float → float).
Context (score_samples : Estimator → list (list float) → list float).
Context (predict : Estimator → list (list float) → list Z).
Context (np_sort : list float → list float) (searchsorted_right : list float → float → Z).

Definition evaluate_sample (regime : string) (scores : list (Z * ScoreResult)) (history : list TelemetrySample)
    (sample : TelemetrySample) (st : Regime) : result Regime :=
  match by_key (s_sample_id sample) scores with
  | None => Ok st
  | Some score =>
      deterministic ← threshold_or_sensor_rule history;
      let t := tally st in
      let id := s_sample_id sample in
      mret {| tally := {|
                truth := truth t ++ [negb (String.eqb regime "normal")];
                deterministic_predictions := deterministic_predictions t ++ [deterministic];
                model_predictions := model_predictions t ++ [sr_anomalous score];
                reasons := if sr_anomalous score then append_to regime (sr_reason score) (reasons t) else reasons t |};
              deterministic_by_id := deterministic_by_id st ++ [(id, deterministic)];
              model_by_id := model_by_id st ++ [(id, sr_anomalous score)] |}
  end.
(** [for index, sample in enumerate(regime_samples)]: [earlier] are the samples
    before [index]. *)
Fixpoint evaluate_samples (regime : string) (scores : list (Z * ScoreResult))
    (earlier rest : list TelemetrySample) (st : Regime) : result Regime :=
  match rest with
  | [] => Ok st
  | sample :: rest =>
      st ← evaluate_sample regime scores (earlier ++ [sample]) sample st;
      evaluate_samples regime scores (earlier ++ [sample]) rest st
  end.

Definition evaluation_features : list TelemetrySample → result (list FeatureRow) :=
  generate_features mean std amax dot 12 6 (lit 300 1) false.
Definition evaluate_regime (bundle : ModelBundle Estimator) (regime : string) (samples : list TelemetrySample)
    (t : Tally) : result (Tally * ScenarioOutcome) :=
  rows ← evaluation_features samples;
  results ← score_rows np_sort searchsorted_right score_samples predict bundle rows;
  let row_ids := map w_sample_id rows in
  st ← evaluate_samples regime (map (λ r, (sr_sample_id r, r)) results) [] samples (Build_Regime t [] []);
  deterministic ← delay samples row_ids (deterministic_by_id st);
  model ← delay samples row_ids (model_by_id st);
  mret (tally st, Build_ScenarioOutcome regime (Z.of_nat (length row_ids)) deterministic model).
Fixpoint evaluate_regimes (bundle : ModelBundle Estimator) (grouped : list (string * list TelemetrySample))
    (t : Tally) : result (Tally * list ScenarioOutcome) :=
  match grouped with
  | [] => Ok (t, [])
  | (regime, samples) :: grouped =>
      '(t, outcome) ← evaluate_regime bundle regime samples t;
      '(t, outcomes) ← evaluate_regimes bundle grouped t;
      mret (t, outcome :: outcomes)
  end.

Record Evaluation := {
  e_model_version : string; e_score_interpretation : string;
  e_deterministic : DetectorMetrics; e_isolation_forest : DetectorMetrics;
  e_scenarios : list ScenarioOutcome; e_reasons : list (string * list string) }.

Definition evaluate_detectors (bundle : ModelBundle Estimator) (samples : list TelemetrySample) : result Evaluation :=
  '(t, outcomes) ← evaluate_regimes bundle (group_by_regime samples) (Build_Tally [] [] [] []);
  deterministic ← metrics (truth t) (deterministic_predictions t);
  model ← metrics (truth t) (model_predictions t);
  mret (Build_Evaluation (md_model_version (metadata bundle)) (md_score_direction (metadata bundle))
    deterministic model outcomes
    (map (λ kv, (kv.1, take 3 (dict_fromkeys kv.2))) (reasons t))).

(** The dictionary [evaluate_detectors] returns. *)
Definition metrics_json (m : DetectorMetrics) : json := JObj [
  ("true_positive", JInt (true_positive m)); ("false_positive", JInt (false_positive m));
  ("true_negative", JInt (true_negative m)); ("false_negative", JInt (false_negative m));
  ("precision", JFloat (precision m)); ("recall", JFloat (recall m)); ("f1", JFloat (f1 m));
  ("false_positive_rate", JFloat (false_positive_rate m)) ].
Definition outcome_json (o : ScenarioOutcome) : json := JObj [
  ("scenario", JStr (scenario o)); ("evaluated_samples", JInt (evaluated_samples o));
  ("first_deterministic_detection_delay_s", jopt JFloat (first_deterministic_detection_delay_s o));
  ("first_model_detection_delay_s", jopt JFloat (first_model_detection_delay_s o)) ].
Definition report_json (e : Evaluation) : json := JObj [
  ("schema_version", JInt 1); ("data_kind", JStr "synthetic"); ("field_performance_claimed", JBool false);
  ("model_version", JStr (e_model_version e)); ("score_interpretation", JStr (e_score_interpretation e));
  ("deterministic_detector", metrics_json (e_deterministic e));
  ("isolation_forest", metrics_json (e_isolation_forest e));
  ("scenarios", JArr (map outcome_json (e_scenarios e)));
  ("example_model_reasons", JObj (map (λ kv, (kv.1, jstrs kv.2)) (e_reasons e))) ].
End Evaluate.

(** ** Writing the report *)

Section Write.
Context (resolve : path → path).

(** [directory.mkdir(parents=True, exist_ok=True)] *)
Definition ensure_dir (directory : path) (fs : FS) : result FS :=
  match directory with
  | [] => Ok fs
  | _ => if is_dir resolve fs directory then Ok fs else mkdir resolve directory fs
  end.
(** [output.with_suffix(f"{output.suffix}.tmp")] *)
Definition temporary_name (output : path) : result path :=
  match last output with
  | None => Raise (ValueError "PosixPath('.') has an empty name")
  | Some name => Ok (removelast output ++ [name +:+ ".tmp"])
  end.
Definition write_evaluation (report : json) (output : path) : M FS unit :=
  fs ← get (λ fs, fs);
  fs ← lift (ensure_dir (removelast output) fs);
  modify (λ _, fs);;
  temporary ← lift (temporary_name output);
  fs ← lift (write_file resolve temporary (dumps_indented 0 report +:+ newline) fs);
  modify (λ _, fs);;
  fs ← lift (replace_file resolve temporary output fs);
  modify (λ _, fs).
End Write.

(** ** [_evaluate_demo] of [main.py] *)

Section Main.
Context {Estimator : Type} (sin : float → float) (random : Z → nat → nat → float) (resolve : path → path).
Context (sha256 : string → string) (mean std amax : list float → float) (dot : list float → list float → float).
Context (quantile : list float → float → float) (fit : float → Z → list (list float) → result Estimator).
Context (score_samples : Estimator → list (list float) → list float).
Context (predict : Estimator → list (list float) → list Z).
Context (np_sort : list float → list float) (searchsorted_right : list float → float → Z) (sklearn_version : string).

(** The model trained on the demonstration baseline. *)
Definition demo_bundle (training : list TelemetrySample) : result (ModelBundle Estimator) :=
  match head training, last training with
  | Some first, Some final =>
      train_model sha256 mean std amax dot quantile fit score_samples sklearn_version training "motor-01" "dc-motor"
        (utc (s_timestamp first)) (utc (s_timestamp final)) 200 (lit 2 2) DEFAULT_RANDOM_SEED
        (Some (utc (august 11 - hours 8))) 0
  | _, _ => Raise IndexError
  end.
Definition evaluate_demo (output : path) : M FS unit :=
  training ← lift (demo_training_samples sin random);
  bundle ← lift (demo_bundle training);
  samples ← lift (demo_evaluation_samples sin random);
  report ← lift (evaluate_detectors mean std amax dot score_samples predict np_sort searchsorted_right bundle samples);
  write_evaluation resolve (report_json report) output.
End Main.
