(* ===== verification/EvaluationProps.v ===== *)
(** What the evaluation report accounts for: every evaluated sample once, for
    both detectors, under the scenario it belongs to. *)
From S2P Require Import Prelude PyStr Float64 Json PyTime Generator Features FeatureProps.
From S2P Require Import SensorRules Modeling JsonValues Files Artifacts ArtifactProps Evaluation.
Local Open Scope py_scope.

(** ** Confusion counts *)

Definition positives (l : list bool) : Z := Z.of_nat (length (List.filter id l)).
Definition negatives (l : list bool) : Z := Z.of_nat (length (List.filter negb l)).

Lemma count_pairs_cons test e es p ps :
  count_pairs test (e :: es) (p :: ps) = (if test e p then 1 else 0) + count_pairs test es ps.
Proof. unfold count_pairs. simpl. destruct (test e p); simpl; lia. Qed.

(** The four counts partition the samples by the truth. *)
Lemma metrics_partition truth predictions m :
  metrics truth predictions = Ok m →
  length predictions = length truth
  ∧ true_positive m + false_negative m = positives truth
  ∧ false_positive m + true_negative m = negatives truth
  ∧ 0 <= true_positive m ∧ 0 <= false_negative m ∧ 0 <= false_positive m ∧ 0 <= true_negative m.
Proof.
  unfold metrics. destruct (Nat.ltb_spec (length predictions) (length truth)); [done|].
  destruct (Nat.ltb_spec (length truth) (length predictions)); [done|]. intros [= <-]. simpl.
  assert (Hlen : length truth = length predictions) by lia. split; [done|]. clear - Hlen.
  unfold positives, negatives. revert predictions Hlen.
  induction truth as [|e es IH]; intros [|p ps] Hlen; simpl in Hlen; try done.
  injection Hlen as Hlen. rewrite !count_pairs_cons. specialize (IH ps Hlen). destruct e, p; simpl; lia.
Qed.

Lemma positives_app l k : positives (l ++ k) = positives l + positives k.
Proof. unfold positives. rewrite List.filter_app, length_app. lia. Qed.
Lemma negatives_app l k : negatives (l ++ k) = negatives l + negatives k.
Proof. unfold negatives. rewrite List.filter_app, length_app. lia. Qed.
Lemma positives_repeat b n : positives (repeat b n) = if b then Z.of_nat n else 0.
Proof. unfold positives. induction n as [|n IH]; [by destruct b|]. destruct b; simpl in *; lia. Qed.
Lemma negatives_repeat b n : negatives (repeat b n) = if b then 0 else Z.of_nat n.
Proof. unfold negatives. induction n as [|n IH]; [by destruct b|]. destruct b; simpl in *; lia. Qed.

(** ** Grouping *)

Definition of_regime (regime : string) (s : TelemetrySample) : bool := String.eqb (s_regime s) regime.

Lemma append_to_keys {A} key (v : A) d :
  map fst (append_to key v d) = if existsb (String.eqb key) (map fst d) then map fst d else map fst d ++ [key].
Proof.
  induction d as [|[k l] d IH]; [done|]. simpl. rewrite (String.eqb_sym key k).
  destruct (String.eqb k key); [done|]. simpl. rewrite IH. by destruct (existsb _ _).
Qed.
Lemma append_to_elem {A} key (v : A) d k l :
  NoDup (map fst d) → (k, l) ∈ append_to key v d →
  (k ≠ key ∧ (k, l) ∈ d) ∨ (k = key ∧ ((∃ l0, (k, l0) ∈ d ∧ l = l0 ++ [v]) ∨ (k ∉ map fst d ∧ l = [v]))).
Proof.
  induction d as [|[k0 l0] d IH]; simpl.
  - intros _ [= -> ->]%list_elem_of_singleton. right. split; [done|]. right. split; [apply not_elem_of_nil|done].
  - intros [Hk0 Hnd]%NoDup_cons. destruct (String.eqb_spec k0 key) as [->|Hne]; rewrite !elem_of_cons.
    + intros [[= -> ->]|Hin].
      * right. split; [done|]. left. exists l0. by split; [left|].
      * left. split; [|by right]. intros ->. apply Hk0. by apply (list_elem_of_fmap_2 fst) in Hin.
    + intros [[= -> ->]|Hin]; [left; by split; [|left]|].
      destruct (IH Hnd Hin) as [[? ?]|(-> & [(l1 & ? & ?)|[? ?]])]; [left; by split; [|right]| |];
        right; (split; [done|]); [left; exists l1; by split; [right|]|right].
      split; [|done]. intros [->|?]; done.
Qed.

Lemma grouped_spec samples :
  NoDup (map fst (group_by_regime samples))
  ∧ ∀ regime l, (regime, l) ∈ group_by_regime samples → l = List.filter (of_regime regime) (ordered_samples samples).
Proof.
  unfold group_by_regime. generalize (ordered_samples samples) as ordered. intros ordered.
  set (d := λ o, fold_left (λ d s, append_to (s_regime s) s d) o ([] : list (string * list TelemetrySample))).
  fold (d ordered). assert (H : NoDup (map fst (d ordered))
    ∧ (∀ k l, (k, l) ∈ d ordered → l = List.filter (of_regime k) ordered)
    ∧ ∀ s, s ∈ ordered → s_regime s ∈ map fst (d ordered)).
  { induction ordered as [|s ordered IH] using rev_ind.
    - split; [constructor|]. split; [intros ? ? H; by apply elem_of_nil in H|intros ? H; by apply elem_of_nil in H].
    - unfold d in *. rewrite fold_left_app. simpl. set (d0 := fold_left _ ordered []) in *.
      destruct IH as (Hnd & Hl & Hall). split; [|split].
      + rewrite append_to_keys. destruct (existsb _ _) eqn:E; [done|]. apply NoDup_app. split; [done|].
        split; [|apply NoDup_singleton]. intros k Hk ->%list_elem_of_singleton.
        rewrite (proj2 (existsb_exists _ _)) in E; [done|]. exists (s_regime s).
        split; [by apply list_elem_of_In|apply String.eqb_refl].
      + intros k l Hin. rewrite List.filter_app. simpl. unfold of_regime at 2.
        apply append_to_elem in Hin as [[Hk Hin]|(-> & [(l0 & Hin & ->)|[Hk ->]])]; [|..|done].
        * apply Hl in Hin as ->. destruct (String.eqb_spec (s_regime s) k); [done|]. by rewrite app_nil_r.
        * apply Hl in Hin as ->. by rewrite String.eqb_refl.
        * rewrite String.eqb_refl, filter_none; [done|]. intros x Hx. unfold of_regime.
          apply String.eqb_neq. intros E. apply Hk. rewrite <- E. by apply Hall.
      + intros x. rewrite append_to_keys, elem_of_app, list_elem_of_singleton. intros [Hx| ->].
        * apply Hall in Hx. destruct (existsb _ _); [done|]. apply elem_of_app. by left.
        * destruct (existsb _ _) eqn:E; [|apply elem_of_app; right; by left].
          apply existsb_exists in E as (k & Hk & ->%String.eqb_eq). by apply list_elem_of_In. }
  destruct H as (? & ? & _). done.
Qed.

(** ** One regime *)

(** A list of keys picked in order from distinct keys selects itself. *)
Lemma sublist_select (k l : list Z) :
  k `sublist_of` l → NoDup l → List.filter (λ i, existsb (Z.eqb i) k) l = k.
Proof.
  induction 1 as [|x k l Hs IH|x k l Hs IH]; intros Hnd; [done|..]; apply NoDup_cons in Hnd as [Hx Hnd]; simpl.
  - rewrite Z.eqb_refl. simpl. f_equal. etransitivity; [|exact (IH Hnd)]. apply List.filter_ext_in. intros i Hi.
    destruct (Z.eqb_spec i x) as [->|]; [|done]. exfalso. apply Hx. by apply list_elem_of_In.
  - destruct (existsb (Z.eqb x) k) eqn:E; [|by apply IH]. exfalso. apply Hx.
    apply existsb_exists in E as (i & Hi & ->%Z.eqb_eq). apply list_elem_of_In in Hi. by eapply elem_of_sublist.
Qed.

Lemma scan_sublist mean std amax dot W m g h l st :
  ∃ ids, map w_sample_id (feature_rows (fold_left (scan_sample mean std amax dot W m g h) l st))
    = map w_sample_id (feature_rows st) ++ ids ∧ ids `sublist_of` map s_sample_id l.
Proof.
  revert st. induction l as [|x l IH]; intros st; simpl; [exists []; by rewrite app_nil_r|].
  destruct (IH (scan_sample mean std amax dot W m g h st x)) as (ids & -> & Hs).
  simpl. rewrite map_app, <- app_assoc. eexists. split; [done|].
  destruct (feature_row _ _ _ _ _ _ _ x) as [r|] eqn:E; simpl; [|by constructor].
  apply feature_row_some in E as (_ & _ & _ & _ & ->). by constructor.
Qed.
Lemma feature_ids mean std amax dot W m g h samples rows :
  generate_features mean std amax dot W m g h samples = Ok rows →
  map w_sample_id rows `sublist_of` map s_sample_id (ordered_samples samples).
Proof.
  intros (_ & _ & ->)%generate_features_ok.
  by destruct (scan_sublist mean std amax dot W m g h (ordered_samples samples) scan_start) as (ids & -> & Hs).
Qed.

Lemma by_key_none {A} key (d : list (Z * A)) : key ∉ map fst d → by_key key d = None.
Proof.
  intros Hn. unfold by_key. rewrite <- (app_nil_r (rev d)), find_app_none; [done|].
  intros [k v] Hin. apply Z.eqb_neq. simpl. intros ->. apply Hn.
  apply list_elem_of_In, in_rev in Hin. apply list_elem_of_In, in_map_iff. by exists (key, v).
Qed.

Section Regime.
Context {Estimator : Type} (mean std amax : list float → float) (dot : list float → list float → float).
Context (score_samples : Estimator → list (list float) → list float).
Context (predict : Estimator → list (list float) → list Z).
Context (np_sort : list float → list float) (searchsorted_right : list float → float → Z).

Abbreviation scored_rows := (score_rows np_sort searchsorted_right score_samples predict).
Abbreviation one_regime := (evaluate_regime mean std amax dot score_samples predict np_sort searchsorted_right).
Abbreviation all_regimes := (evaluate_regimes mean std amax dot score_samples predict np_sort searchsorted_right).

Lemma score_zip_ids (bundle : ModelBundle Estimator) rows scores predictions results :
  score_zip np_sort searchsorted_right bundle rows scores predictions = Ok results →
  map sr_sample_id results = map w_sample_id rows.
Proof.
  revert scores predictions results. induction rows as [|row rows IH]; intros [|x scores] [|p predictions] results; simpl; try done.
  - by intros [= <-].
  - unfold score_row, mbind, result_bind. destruct (reason _ _ _) as [text|]; [|done]. simpl.
    destruct (score_zip _ _ bundle rows scores predictions) as [rest|] eqn:E; [|done]. intros [= <-]. simpl.
    by rewrite (IH _ _ _ E).
Qed.
Lemma score_rows_ids (bundle : ModelBundle Estimator) rows results :
  scored_rows bundle rows = Ok results → map sr_sample_id results = map w_sample_id rows.
Proof.
  unfold score_rows. destruct (schema_mismatch _); [done|]. case_bool_decide as E.
  - intros [= <-]. by destruct rows.
  - apply score_zip_ids.
Qed.

(** The lists after a regime: its evaluated samples are appended to each. *)
Definition extended (t t' : Tally) (label : bool) (n : nat) : Prop :=
  truth t' = truth t ++ repeat label n
  ∧ length (deterministic_predictions t') = (length (deterministic_predictions t) + n)%nat
  ∧ length (model_predictions t') = (length (model_predictions t) + n)%nat.

Lemma evaluate_samples_extend regime scores earlier rest st st' :
  evaluate_samples regime scores earlier rest st = Ok st' →
  extended (tally st) (tally st') (negb (String.eqb regime "normal"))
    (length (List.filter (λ i, existsb (Z.eqb i) (map fst scores)) (map s_sample_id rest))).
Proof.
  revert earlier st. induction rest as [|x rest IH]; intros earlier st; simpl.
  - intros [= <-]. split; [by rewrite app_nil_r|]. simpl. lia.
  - unfold mbind, result_bind, evaluate_sample. destruct (existsb _ (map fst scores)) eqn:E.
    + destruct (by_key_some (s_sample_id x) scores) as [score ->].
      { apply existsb_exists in E as (i & Hi & ->%Z.eqb_eq). by apply list_elem_of_In. }
      unfold mbind, result_bind. destruct (threshold_or_sensor_rule _) as [b|]; [|done]. simpl.
      intros (Ht & Hd & Hm)%IH. simpl in *. unfold extended. rewrite Ht, Hd, Hm, !length_app, <- app_assoc.
      split; [done|]. simpl. lia.
    + rewrite by_key_none; [by intros ?%IH|]. intros Hin.
      rewrite (proj2 (existsb_exists _ _)) in E; [done|]. exists (s_sample_id x).
      rewrite Z.eqb_refl. split; [by apply list_elem_of_In|done].
Qed.

Lemma evaluate_regime_extend (bundle : ModelBundle Estimator) regime samples t t' o :
  NoDup (map s_sample_id samples) →
  one_regime bundle regime samples t = Ok (t', o) →
  scenario o = regime ∧ 0 <= evaluated_samples o <= Z.of_nat (length samples)
  ∧ extended t t' (negb (String.eqb regime "normal")) (Z.to_nat (evaluated_samples o)).
Proof.
  intros Hnd. unfold evaluate_regime, mbind, result_bind.
  destruct (evaluation_features _ _ _ _ samples) as [rows|] eqn:Hf; [|done].
  destruct (score_rows _ _ _ _ bundle rows) as [results|] eqn:Hs; [|done].
  destruct (evaluate_samples _ _ _ _ _) as [st|] eqn:He; [|done].
  destruct (delay samples _ (deterministic_by_id st)) as [d1|]; [|done].
  destruct (delay samples _ (model_by_id st)) as [d2|]; [|done]. intros [= <- <-]. simpl.
  apply evaluate_samples_extend in He. rewrite map_map in He.
  change (map (λ x, (sr_sample_id x, x).1) results) with (map sr_sample_id results) in He.
  rewrite (score_rows_ids _ _ _ Hs) in He. apply feature_ids in Hf.
  assert (Hperm : map s_sample_id (ordered_samples samples) ≡ₚ map s_sample_id samples) by (unfold ordered_samples; by rewrite py_sorted_perm).
  rewrite <- (Permutation_length (filter_perm _ _ _ Hperm)), sublist_select in He; [|done|by rewrite Hperm].
  rewrite Nat2Z.id. split; [done|]. split; [|done].
  apply sublist_length in Hf. rewrite (Permutation_length Hperm), !length_map in Hf. rewrite length_map. lia.
Qed.
End Regime.

(** ** The whole report *)

(** The evaluated samples of the scenarios that pass a test. *)
Definition evaluated (test : string → bool) (outcomes : list ScenarioOutcome) : Z :=
  sum_Z (map evaluated_samples (List.filter (λ o, test (scenario o)) outcomes)).
Definition is_normal (regime : string) : bool := String.eqb regime "normal".

Lemma sum_Z_cons x l : sum_Z (x :: l) = x + sum_Z l.
Proof.
  unfold sum_Z. simpl. assert (H : ∀ l a, fold_left Z.add l a = a + fold_left Z.add l 0).
  { clear. induction l as [|y l IH]; intros a; simpl; [lia|]. rewrite (IH (a + y)), (IH (0 + y)). lia. }
  rewrite (H l (0 + x)). lia.
Qed.
Lemma evaluated_cons test o outcomes :
  evaluated test (o :: outcomes) = (if test (scenario o) then evaluated_samples o else 0) + evaluated test outcomes.
Proof. unfold evaluated. simpl. destruct (test (scenario o)); [apply sum_Z_cons|done]. Qed.

Section Report.
Context {Estimator : Type} (mean std amax : list float → float) (dot : list float → list float → float).
Context (score_samples : Estimator → list (list float) → list float).
Context (predict : Estimator → list (list float) → list Z).
Context (np_sort : list float → list float) (searchsorted_right : list float → float → Z).
Abbreviation all_regimes := (evaluate_regimes mean std amax dot score_samples predict np_sort searchsorted_right).
Abbreviation evaluation := (evaluate_detectors mean std amax dot score_samples predict np_sort searchsorted_right).

Lemma evaluate_regimes_extend (bundle : ModelBundle Estimator) grouped t t' outcomes :
  (∀ regime samples, (regime, samples) ∈ grouped → NoDup (map s_sample_id samples)) →
  all_regimes bundle grouped t = Ok (t', outcomes) →
  Forall2 (λ g o, scenario o = g.1 ∧ 0 <= evaluated_samples o <= Z.of_nat (length g.2)) grouped outcomes
  ∧ positives (truth t') = positives (truth t) + evaluated (λ r, negb (is_normal r)) outcomes
  ∧ negatives (truth t') = negatives (truth t) + evaluated is_normal outcomes.
Proof.
  revert t outcomes. induction grouped as [|[regime samples] grouped IH]; intros t outcomes Hnd; simpl.
  - intros [= <- <-]. split; [constructor|]. unfold evaluated, sum_Z. simpl. lia.
  - unfold mbind, result_bind. destruct (evaluate_regime _ _ _ _ _ _ _ _ bundle regime samples t) as [[t1 o]|] eqn:E1; [|done].
    destruct (all_regimes bundle grouped t1) as [[t2 os]|] eqn:E2; [|done]. intros [= <- <-].
    apply evaluate_regime_extend in E1 as (Ho & Hb & Ht & _); [|apply (Hnd regime); by left].
    apply IH in E2 as (HF & Hp & Hn); [|intros r l Hin; apply (Hnd r); by right].
    split; [by constructor|]. rewrite !evaluated_cons, Hp, Hn, Ht, positives_app, negatives_app, positives_repeat, negatives_repeat, Ho.
    fold (is_normal regime). destruct (is_normal regime); simpl; lia.
Qed.

(** C23: the report of the detector comparison accounts for every evaluated
    sample exactly once: it has one outcome per regime, in the order the
    regimes start; the samples counted by the two detectors are the same, are
    those evaluated in the scenarios, and their truth is the scenario's: the
    positives are the evaluated samples of the scenarios other than
    [normal], the negatives those of [normal]. *)
Theorem evaluation_accounts (bundle : ModelBundle Estimator) samples e :
  NoDup (map s_sample_id samples) →
  evaluation bundle samples = Ok e →
  map scenario (e_scenarios e) = map fst (group_by_regime samples)
  ∧ NoDup (map scenario (e_scenarios e))
  ∧ (∀ o, o ∈ e_scenarios e →
       0 <= evaluated_samples o
       <= Z.of_nat (length (List.filter (of_regime (scenario o)) samples)))
  ∧ ∀ m, m = e_deterministic e ∨ m = e_isolation_forest e →
      true_positive m + false_negative m = evaluated (λ r, negb (is_normal r)) (e_scenarios e)
      ∧ false_positive m + true_negative m = evaluated is_normal (e_scenarios e)
      ∧ 0 <= true_positive m ∧ 0 <= false_negative m ∧ 0 <= false_positive m ∧ 0 <= true_negative m.
Proof.
  intros Hnd. unfold evaluate_detectors, mbind, result_bind.
  destruct (all_regimes bundle (group_by_regime samples) _) as [[t outcomes]|] eqn:E; [|done].
  destruct (metrics (truth t) (deterministic_predictions t)) as [m1|] eqn:E1; [|done].
  destruct (metrics (truth t) (model_predictions t)) as [m2|] eqn:E2; [|done]. intros [= <-]. simpl.
  destruct (grouped_spec samples) as [Hkeys Hgroups].
  assert (Hperm : ordered_samples samples ≡ₚ samples) by apply py_sorted_perm.
  apply evaluate_regimes_extend in E as (HF & Hp & Hn).
  2:{ intros regime l ->%Hgroups. apply filter_NoDup. by rewrite Hperm. }
  assert (Hnames : map scenario outcomes = map fst (group_by_regime samples)).
  { clear -HF. induction HF as [|g o l k [Ho _] _ IH]; [done|]. simpl. by rewrite Ho, IH. }
  split; [done|]. split; [by rewrite Hnames|]. split.
  - intros o Ho. destruct (Forall2_elem_r _ _ _ _ HF Ho) as ([regime l] & Hin & Hs & Hb). simpl in *.
    apply Hgroups in Hin as ->. rewrite (Permutation_length (filter_perm _ _ _ Hperm)) in Hb. by rewrite Hs.
  - change (positives (truth (Build_Tally [] [] [] []))) with 0 in Hp. change (negatives (truth (Build_Tally [] [] [] []))) with 0 in Hn.
    rewrite Z.add_0_l in Hp, Hn. rewrite <- Hp, <- Hn. intros m [->| ->];
      [apply metrics_partition in E1 as (_ & ? & ? & ?)|apply metrics_partition in E2 as (_ & ? & ? & ?)]; auto.
Qed.
End Report.

(** ** A concrete comparison: eight normal and eight overloaded samples *)

Definition regime_sample (i : Z) : TelemetrySample := {|
  s_sample_id := i; s_timestamp := seconds (10 * i); s_temperature_c := Some (of_int 40 ⊕ int_div i 10);
  s_vibration_rms_mps2 := Some (of_int 1); s_vibration_peak_mps2 := Some (of_int 2);
  s_vibration_crest_factor := Some (of_int 2); s_current_a := Some (if i <? 8 then lit 6 1 else of_int 2);
  s_quality := "good"; s_fault_flags := []; s_regime := if i <? 8 then "normal" else "current-overload" |}.
Definition regime_samples : list TelemetrySample := map (λ i, regime_sample (Z.of_nat i)) (seq 0 16).
Abbreviation stub_evaluation := (evaluate_detectors sum_mean no_spread list_max sum_dot
  (λ _ l, map (λ _, of_int 0) l) (λ _ l, map (λ _, 1) l) id (λ _ _, 0) sample_bundle regime_samples).

Lemma regime_ids : NoDup (map s_sample_id regime_samples).
Proof.
  assert (Hids : map s_sample_id regime_samples = map Z.of_nat (seq 0 16)) by (vm_compute; reflexivity).
  rewrite Hids. apply (NoDup_fmap_2 Z.of_nat), NoDup_seq.
Qed.
Lemma stub_report :
  ∃ e, stub_evaluation = Ok e ∧ map scenario (e_scenarios e) = ["normal"; "current-overload"]
    ∧ map evaluated_samples (e_scenarios e) = [3; 3] ∧ true_positive (e_deterministic e) = 3
    ∧ evaluated (λ r, negb (is_normal r)) (e_scenarios e) = 3.
Proof. eexists. split; [vm_compute; reflexivity|]. by repeat split. Qed.

Lemma evaluation_accounts_witness :
  ∃ e, stub_evaluation = Ok e ∧ map scenario (e_scenarios e) = ["normal"; "current-overload"]
    ∧ map evaluated_samples (e_scenarios e) = [3; 3]
    ∧ true_positive (e_deterministic e) + false_negative (e_deterministic e) = 3
    ∧ true_positive (e_deterministic e) = 3.
Proof.
  destruct stub_report as (e & E & H1 & H2 & H3 & H4).
  pose proof (evaluation_accounts sum_mean no_spread list_max sum_dot (λ _ l, map (λ _, of_int 0) l)
    (λ _ l, map (λ _, 1) l) id (λ _ _, 0) sample_bundle regime_samples e regime_ids E) as (_ & _ & _ & Hm).
  exists e. split; [exact E|]. split; [exact H1|]. split; [exact H2|].
  destruct (Hm (e_deterministic e) (or_introl eq_refl)) as (Hp & _). split; [|exact H3]. rewrite Hp. exact H4.
Defined.
