(* ===== verification/Migrations.v ===== *)
(** The schema migrations of [services/api/alembic/versions] as operations on
    a schema, and the schema the mapped classes of [models.py] declare.

    A DDL statement that PostgreSQL refuses is [None].  The statements are the
    ones the migrations use: [create_table], [create_index], [drop_table] and
    [alter_column]. *)
From S2P Require Import Prelude PyStr Float64 Json PyTime Models Tables.

(** ** Schemas *)

Inductive ColumnType := TInteger | TBigInteger | TString (n : nat) | TText | TBoolean | TFloat | TDateTime | TJSON.
#[export] Instance column_type_eq_dec : EqDecision ColumnType.
Proof. solve_decision. Defined.

(** Every foreign key is [ForeignKey("table.column", ondelete="CASCADE")]. *)
Record Column := {
  col_name : string; col_type : ColumnType; col_null : bool; col_primary : bool;
  col_unique : bool; col_references : option (string * string) }.
#[export] Instance column_eq_dec : EqDecision Column.
Proof. solve_decision. Defined.
Record Index := { ix_name : string; ix_columns : list string; ix_unique : bool }.
#[export] Instance index_eq_dec : EqDecision Index.
Proof. solve_decision. Defined.
(** A [UniqueConstraint] with its name, if given. *)
Record Unique := { uq_name : option string; uq_columns : list string }.
#[export] Instance unique_eq_dec : EqDecision Unique.
Proof. solve_decision. Defined.
Record Table := {
  tab_name : string; tab_columns : list Column; tab_uniques : list Unique; tab_indexes : list Index }.
#[export] Instance table_eq_dec : EqDecision Table.
Proof. solve_decision. Defined.
Definition Schema := list Table.

(** [Column(name, type, nullable=False)], [Column(name, type)] (nullable), a
    primary key, and a cascading reference to [devices.id]. *)
Definition required (name : string) (type : ColumnType) : Column := Build_Column name type false false false None.
Definition optional (name : string) (type : ColumnType) : Column := Build_Column name type true false false None.
Definition primary (name : string) (type : ColumnType) : Column := Build_Column name type false true false None.
Definition of_device (primary_key : bool) : Column :=
  Build_Column "device_id" (TString 63) false primary_key false (Some ("devices", "id")).
Definition unique_column (name : string) (type : ColumnType) : Column := Build_Column name type false false true None.

(** ** DDL *)

Definition find_table (name : string) (s : Schema) : option Table :=
  List.find (λ t, String.eqb (tab_name t) name) s.
Definition has_column (name : string) (t : Table) : bool :=
  existsb (λ c, String.eqb (col_name c) name) (tab_columns t).
Definition resolves (s : Schema) (r : string * string) : bool :=
  match find_table r.1 s with Some t => has_column r.2 t | None => false end.

Definition create_table (name : string) (columns : list Column) (uniques : list Unique) (s : Schema) : option Schema :=
  let t := {| tab_name := name; tab_columns := columns; tab_uniques := uniques; tab_indexes := [] |} in
  if bool_decide (is_Some (find_table name s)) then None
  else if forallb (λ c, match col_references c with Some r => resolves s r | None => true end) columns
          && forallb (λ u, forallb (λ c, has_column c t) (uq_columns u)) uniques
  then Some (s ++ [t]) else None.

Definition with_index (i : Index) (t : Table) : Table :=
  {| tab_name := tab_name t; tab_columns := tab_columns t; tab_uniques := tab_uniques t;
     tab_indexes := tab_indexes t ++ [i] |}.
Definition update_table (name : string) (f : Table → Table) (s : Schema) : Schema :=
  map (λ t, if String.eqb (tab_name t) name then f t else t) s.
(** The names of the indexes share one name space. *)
Definition index_names (s : Schema) : list string := concat (map (λ t, map ix_name (tab_indexes t)) s).
Definition create_index (name table : string) (columns : list string) (unique : bool) (s : Schema) : option Schema :=
  match find_table table s with
  | None => None
  | Some t =>
      if existsb (String.eqb name) (index_names s) || negb (forallb (λ c, has_column c t) columns) then None
      else Some (update_table table (with_index (Build_Index name columns unique)) s)
  end.

(** A table another one references cannot be dropped. *)
Definition references_table (name : string) (t : Table) : bool :=
  existsb (λ c, match col_references c with Some r => String.eqb r.1 name | None => false end) (tab_columns t).
Definition drop_table (name : string) (s : Schema) : option Schema :=
  match find_table name s with
  | None => None
  | Some _ =>
      let rest := List.filter (λ t, negb (String.eqb (tab_name t) name)) s in
      if existsb (references_table name) rest then None else Some rest
  end.

Definition retype (column : string) (type : ColumnType) (t : Table) : Table :=
  {| tab_name := tab_name t;
     tab_columns := map (λ c, if String.eqb (col_name c) column
                              then Build_Column (col_name c) type (col_null c) (col_primary c) (col_unique c) (col_references c)
                              else c) (tab_columns t);
     tab_uniques := tab_uniques t; tab_indexes := tab_indexes t |}.
Definition alter_column (table column : string) (type : ColumnType) (s : Schema) : option Schema :=
  match find_table table s with
  | Some t => if has_column column t then Some (update_table table (retype column type) s) else None
  | None => None
  end.

(** ** The revisions *)

Definition Step : Type := Schema → option Schema.
Definition run_ddl (steps : list Step) (s : Schema) : option Schema :=
  fold_left (λ acc step, acc ≫= step) steps (Some s).

Definition users_columns : list Column := [
  primary "id" TInteger; required "username" (TString 80); required "password_hash" (TString 255);
  required "role" (TString 32); required "active" TBoolean; required "created_at" TDateTime ].
Definition devices_columns : list Column := [
  primary "id" (TString 63); required "site_id" (TString 63); required "display_name" (TString 120);
  required "asset_class" (TString 80); required "simulated" TBoolean; optional "firmware_version" (TString 48);
  required "reported_status" (TString 20); optional "last_seen_at" TDateTime; optional "rssi_dbm" TInteger;
  optional "reset_reason" (TString 48); required "reset_count" TInteger; required "queue_depth" TInteger;
  required "queue_capacity" TInteger; required "dropped_message_count" TInteger;
  required "modbus_status" (TString 20); required "active_faults" TJSON; required "created_at" TDateTime ].
Definition telemetry_columns : list Column := [
  primary "id" TInteger; required "message_id" (TString 36); of_device false; required "site_id" (TString 63);
  required "sequence" TBigInteger; optional "device_time" TDateTime; required "received_at" TDateTime;
  required "clock_synchronized" TBoolean; required "uptime_ms" TBigInteger; required "firmware_version" (TString 48);
  required "quality" (TString 20); required "replayed" TBoolean; optional "temperature_c" TFloat;
  optional "vibration_rms_mps2" TFloat; optional "vibration_peak_mps2" TFloat;
  optional "vibration_crest_factor" TFloat; optional "current_a" TFloat; required "sample_quality" TJSON;
  required "fault_flags" TJSON; optional "anomaly_score" TFloat; optional "anomaly_percentile" TFloat;
  optional "anomaly_reason" (TString 300) ].
Definition health_columns : list Column := [
  primary "id" TInteger; unique_column "message_id" (TString 36); of_device false;
  required "received_at" TDateTime; required "payload" TJSON ].
Definition alarms_columns : list Column := [
  primary "id" TInteger; of_device false; required "code" (TString 48); required "severity" (TString 16);
  required "source" (TString 24); required "state" (TString 16); required "summary" (TString 240);
  required "opened_at" TDateTime; optional "cleared_at" TDateTime; optional "acknowledged_at" TDateTime;
  optional "acknowledged_by" (TString 80) ].
Definition calibrations_columns : list Column := [
  primary "id" TInteger; of_device false; required "sensor" (TString 32); required "previous_coefficients" TJSON;
  required "new_coefficients" TJSON; required "reason" (TString 240); required "operator" (TString 80);
  required "performed_at" TDateTime ].
Definition maintenance_columns : list Column := [
  primary "id" TInteger; of_device false; required "status" (TString 24); required "notes" TText;
  required "performed_at" TDateTime; optional "next_due_at" TDateTime; required "created_by" (TString 80);
  required "updated_at" TDateTime ].
Definition audit_columns : list Column := [
  primary "id" TInteger; required "actor" (TString 80); required "action" (TString 80);
  required "target_type" (TString 48); required "target_id" (TString 80); required "details" TJSON;
  required "created_at" TDateTime ].
Definition error_columns : list Column := [
  primary "id" TInteger; required "component" (TString 48); required "error_code" (TString 48);
  required "severity" (TString 16); optional "device_id" (TString 63); required "detail" (TString 300);
  required "created_at" TDateTime ].

Definition upgrade_0001 : Schema → option Schema := run_ddl [
  create_table "users" users_columns [Build_Unique None ["username"]];
  create_index "ix_users_username" "users" ["username"] true;
  create_table "devices" devices_columns [];
  create_index "ix_devices_site_id" "devices" ["site_id"] false;
  create_index "ix_devices_last_seen_at" "devices" ["last_seen_at"] false;
  create_table "telemetry" telemetry_columns
    [Build_Unique None ["message_id"]; Build_Unique (Some "uq_telemetry_device_sequence") ["device_id"; "sequence"]];
  create_index "ix_telemetry_message_id" "telemetry" ["message_id"] true;
  create_index "ix_telemetry_site_id" "telemetry" ["site_id"] false;
  create_index "ix_telemetry_device_received" "telemetry" ["device_id"; "received_at"] false;
  create_index "ix_telemetry_device_device_time" "telemetry" ["device_id"; "device_time"] false;
  create_table "health_snapshots" health_columns [];
  create_index "ix_health_device_received" "health_snapshots" ["device_id"; "received_at"] false;
  create_table "alarms" alarms_columns [];
  create_index "ix_alarm_device_opened" "alarms" ["device_id"; "opened_at"] false;
  create_table "calibrations" calibrations_columns [];
  create_index "ix_calibrations_device_id" "calibrations" ["device_id"] false;
  create_table "maintenance_records" maintenance_columns [];
  create_index "ix_maintenance_records_device_id" "maintenance_records" ["device_id"] false;
  create_table "audit_events" audit_columns [];
  create_index "ix_audit_actor_created" "audit_events" ["actor"; "created_at"] false;
  create_table "error_logs" error_columns [];
  create_index "ix_error_component_created" "error_logs" ["component"; "created_at"] false ].
Definition downgrade_0001 : Schema → option Schema := run_ddl (map drop_table
  ["error_logs"; "audit_events"; "maintenance_records"; "calibrations"; "alarms"; "health_snapshots";
   "telemetry"; "devices"; "users"]).

Definition threshold_columns : list Column := [
  of_device true; required "temperature_warning_c" TFloat; required "temperature_critical_c" TFloat;
  required "vibration_warning_mps2" TFloat; required "vibration_critical_mps2" TFloat;
  required "current_warning_a" TFloat; required "current_critical_a" TFloat; required "hysteresis_percent" TFloat;
  required "updated_by" (TString 80); required "updated_at" TDateTime ].
Definition command_columns : list Column := [
  primary "command_id" (TString 36); of_device false; required "kind" (TString 48); required "parameters" TJSON;
  required "status" (TString 24); optional "result_code" (TString 48); optional "detail" (TString 240);
  required "issued_by" (TString 80); required "issued_at" TDateTime; required "expires_at" TDateTime;
  optional "acknowledged_at" TDateTime ].
Definition upgrade_0002 : Schema → option Schema := run_ddl [
  create_table "threshold_configs" threshold_columns [];
  create_table "device_commands" command_columns [];
  create_index "ix_command_device_issued" "device_commands" ["device_id"; "issued_at"] false ].
Definition downgrade_0002 : Schema → option Schema := run_ddl (map drop_table ["device_commands"; "threshold_configs"]).

Definition upgrade_0003 : Schema → option Schema := run_ddl [
  alter_column "telemetry" "sequence" TBigInteger; alter_column "telemetry" "uptime_ms" TBigInteger ].
Definition downgrade_0003 : Schema → option Schema := run_ddl [
  alter_column "telemetry" "uptime_ms" TInteger; alter_column "telemetry" "sequence" TInteger ].

Definition model_columns : list Column := [
  primary "id" TInteger; of_device false; required "model_version" (TString 80); required "status" (TString 24);
  required "feature_schema" TJSON; required "training_start" TDateTime; required "training_end" TDateTime;
  required "training_sample_count" TInteger; required "validation_sample_count" TInteger;
  required "contamination" TFloat; required "random_seed" TInteger; required "sklearn_version" (TString 32);
  required "artifact_path" (TString 300); required "artifact_checksum" (TString 80); required "created_at" TDateTime;
  optional "last_scored_at" TDateTime; optional "diagnostic" (TString 300) ].
Definition upgrade_0004 : Schema → option Schema := run_ddl [
  create_table "anomaly_models" model_columns
    [Build_Unique (Some "uq_anomaly_device_version") ["device_id"; "model_version"]];
  create_index "ix_anomaly_device_created" "anomaly_models" ["device_id"; "created_at"] false ].
Definition downgrade_0004 : Schema → option Schema := run_ddl [drop_table "anomaly_models"].

(** A migration script: its [revision] and [down_revision]. *)
Record Revision := {
  revision : string; down_revision : option string; upgrade : Schema → option Schema; downgrade : Schema → option Schema }.
Definition revisions : list Revision := [
  Build_Revision "20260811_0001" None upgrade_0001 downgrade_0001;
  Build_Revision "20260811_0002" (Some "20260811_0001") upgrade_0002 downgrade_0002;
  Build_Revision "20260811_0003" (Some "20260811_0002") upgrade_0003 downgrade_0003;
  Build_Revision "20260811_0004" (Some "20260811_0003") upgrade_0004 downgrade_0004 ].

(** [alembic upgrade head] follows the [down_revision] links from the current
    revision; one step per script is enough. *)
Definition next_revision (current : option string) : option Revision :=
  List.find (λ r, bool_decide (down_revision r = current)) revisions.
Fixpoint upgrade_head (fuel : nat) (current : option string) (s : Schema) : option (option string * Schema) :=
  match fuel, next_revision current with
  | S fuel, Some r => match upgrade r s with Some s => upgrade_head fuel (Some (revision r)) s | None => None end
  | _, _ => Some (current, s)
  end.

(** ** The mapped classes

    [mapped_column] by [mapped_column]: an optional annotation makes a column
    nullable, a column with a foreign key has the type of the column it names,
    [index=True] declares the index [ix_<table>_<column>] and with
    [unique=True] a unique one, [unique=True] alone a constraint. *)
Definition declared_index (table column : string) (unique : bool) : Index :=
  Build_Index ("ix_" +:+ table +:+ "_" +:+ column) [column] unique.
Definition User_table : Table := {|
  tab_name := "users"; tab_columns := [
    primary "id" TInteger; required "username" (TString 80); required "password_hash" (TString 255);
    required "role" (TString 32); required "active" TBoolean; required "created_at" TDateTime ];
  tab_uniques := []; tab_indexes := [declared_index "users" "username" true] |}.
Definition Device_table : Table := {|
  tab_name := "devices"; tab_columns := [
    primary "id" (TString 63); required "site_id" (TString 63); required "display_name" (TString 120);
    required "asset_class" (TString 80); required "simulated" TBoolean; optional "firmware_version" (TString 48);
    required "reported_status" (TString 20); optional "last_seen_at" TDateTime; optional "rssi_dbm" TInteger;
    optional "reset_reason" (TString 48); required "reset_count" TInteger; required "queue_depth" TInteger;
    required "queue_capacity" TInteger; required "dropped_message_count" TInteger;
    required "modbus_status" (TString 20); required "active_faults" TJSON; required "created_at" TDateTime ];
  tab_uniques := [];
  tab_indexes := [declared_index "devices" "site_id" false; declared_index "devices" "last_seen_at" false] |}.
Definition AnomalyModel_table : Table := {|
  tab_name := "anomaly_models"; tab_columns := [
    primary "id" TInteger; of_device false; required "model_version" (TString 80); required "status" (TString 24);
    required "feature_schema" TJSON; required "training_start" TDateTime; required "training_end" TDateTime;
    required "training_sample_count" TInteger; required "validation_sample_count" TInteger;
    required "contamination" TFloat; required "random_seed" TInteger; required "sklearn_version" (TString 32);
    required "artifact_path" (TString 300); required "artifact_checksum" (TString 80);
    required "created_at" TDateTime; optional "last_scored_at" TDateTime; optional "diagnostic" (TString 300) ];
  tab_uniques := [Build_Unique (Some "uq_anomaly_device_version") ["device_id"; "model_version"]];
  tab_indexes := [Build_Index "ix_anomaly_device_created" ["device_id"; "created_at"] false] |}.
Definition ThresholdConfig_table : Table := {|
  tab_name := "threshold_configs"; tab_columns := [
    of_device true; required "temperature_warning_c" TFloat; required "temperature_critical_c" TFloat;
    required "vibration_warning_mps2" TFloat; required "vibration_critical_mps2" TFloat;
    required "current_warning_a" TFloat; required "current_critical_a" TFloat;
    required "hysteresis_percent" TFloat; required "updated_by" (TString 80); required "updated_at" TDateTime ];
  tab_uniques := []; tab_indexes := [] |}.
Definition Telemetry_table : Table := {|
  tab_name := "telemetry"; tab_columns := [
    primary "id" TInteger; required "message_id" (TString 36); of_device false; required "site_id" (TString 63);
    required "sequence" TBigInteger; optional "device_time" TDateTime; required "received_at" TDateTime;
    required "clock_synchronized" TBoolean; required "uptime_ms" TBigInteger;
    required "firmware_version" (TString 48); required "quality" (TString 20); required "replayed" TBoolean;
    optional "temperature_c" TFloat; optional "vibration_rms_mps2" TFloat; optional "vibration_peak_mps2" TFloat;
    optional "vibration_crest_factor" TFloat; optional "current_a" TFloat; required "sample_quality" TJSON;
    required "fault_flags" TJSON; optional "anomaly_score" TFloat; optional "anomaly_percentile" TFloat;
    optional "anomaly_reason" (TString 300) ];
  tab_uniques := [Build_Unique (Some "uq_telemetry_device_sequence") ["device_id"; "sequence"]];
  tab_indexes := [
    Build_Index "ix_telemetry_device_received" ["device_id"; "received_at"] false;
    Build_Index "ix_telemetry_device_device_time" ["device_id"; "device_time"] false;
    declared_index "telemetry" "message_id" true; declared_index "telemetry" "site_id" false ] |}.
Definition HealthSnapshot_table : Table := {|
  tab_name := "health_snapshots"; tab_columns := [
    primary "id" TInteger; required "message_id" (TString 36); of_device false; required "received_at" TDateTime;
    required "payload" TJSON ];
  tab_uniques := [Build_Unique None ["message_id"]];
  tab_indexes := [Build_Index "ix_health_device_received" ["device_id"; "received_at"] false] |}.
Definition Alarm_table : Table := {|
  tab_name := "alarms"; tab_columns := [
    primary "id" TInteger; of_device false; required "code" (TString 48); required "severity" (TString 16);
    required "source" (TString 24); required "state" (TString 16); required "summary" (TString 240);
    required "opened_at" TDateTime; optional "cleared_at" TDateTime; optional "acknowledged_at" TDateTime;
    optional "acknowledged_by" (TString 80) ];
  tab_uniques := []; tab_indexes := [Build_Index "ix_alarm_device_opened" ["device_id"; "opened_at"] false] |}.
Definition Calibration_table : Table := {|
  tab_name := "calibrations"; tab_columns := [
    primary "id" TInteger; of_device false; required "sensor" (TString 32); required "previous_coefficients" TJSON;
    required "new_coefficients" TJSON; required "reason" (TString 240); required "operator" (TString 80);
    required "performed_at" TDateTime ];
  tab_uniques := []; tab_indexes := [declared_index "calibrations" "device_id" false] |}.
Definition MaintenanceRecord_table : Table := {|
  tab_name := "maintenance_records"; tab_columns := [
    primary "id" TInteger; of_device false; required "status" (TString 24); required "notes" TText;
    required "performed_at" TDateTime; optional "next_due_at" TDateTime; required "created_by" (TString 80);
    required "updated_at" TDateTime ];
  tab_uniques := []; tab_indexes := [declared_index "maintenance_records" "device_id" false] |}.
Definition AuditEvent_table : Table := {|
  tab_name := "audit_events"; tab_columns := [
    primary "id" TInteger; required "actor" (TString 80); required "action" (TString 80);
    required "target_type" (TString 48); required "target_id" (TString 80); required "details" TJSON;
    required "created_at" TDateTime ];
  tab_uniques := []; tab_indexes := [Build_Index "ix_audit_actor_created" ["actor"; "created_at"] false] |}.
Definition ErrorLog_table : Table := {|
  tab_name := "error_logs"; tab_columns := [
    primary "id" TInteger; required "component" (TString 48); required "error_code" (TString 48);
    required "severity" (TString 16); optional "device_id" (TString 63); required "detail" (TString 300);
    required "created_at" TDateTime ];
  tab_uniques := []; tab_indexes := [Build_Index "ix_error_component_created" ["component"; "created_at"] false] |}.
Definition DeviceCommand_table : Table := {|
  tab_name := "device_commands"; tab_columns := [
    primary "command_id" (TString 36); of_device false; required "kind" (TString 48); required "parameters" TJSON;
    required "status" (TString 24); optional "result_code" (TString 48); optional "detail" (TString 240);
    required "issued_by" (TString 80); required "issued_at" TDateTime; required "expires_at" TDateTime;
    optional "acknowledged_at" TDateTime ];
  tab_uniques := []; tab_indexes := [Build_Index "ix_command_device_issued" ["device_id"; "issued_at"] false] |}.
(** [Base.metadata] *)
Definition metadata_tables : Schema := [
  User_table; Device_table; AnomalyModel_table; ThresholdConfig_table; Telemetry_table; HealthSnapshot_table;
  Alarm_table; Calibration_table; MaintenanceRecord_table; AuditEvent_table; ErrorLog_table; DeviceCommand_table ].
