(* ===== verification/MigrationProps.v ===== *)
(** The migrated schema is the one the mapped classes declare, the column
    checks of [Tables.v] are those of that schema, and downgrades undo
    upgrades, except where a script narrows what an earlier one created. *)
From S2P Require Import Prelude PyStr Float64 Json PyTime Models Tables Settings Api Migrations.

(** ** Comparing schemas *)

(** The column sets on which a table refuses duplicates, its primary key aside. *)
Definition enforced_keys (t : Table) : list (list string) :=
  map uq_columns (tab_uniques t) ++ map (λ c, [col_name c]) (List.filter col_unique (tab_columns t))
  ++ map ix_columns (List.filter ix_unique (tab_indexes t)).
Definition shape (c : Column) : string * ColumnType * bool * bool * option (string * string) :=
  (col_name c, col_type c, col_null c, col_primary c, col_references c).
Definition subset_of {A} `{EqDecision A} (l k : list A) : bool := forallb (λ x, bool_decide (x ∈ k)) l.
Definition same_members {A} `{EqDecision A} (l k : list A) : bool := subset_of l k && subset_of k l.
(** Equal columns in order; the same keys and indexes, in any order. *)
Definition same_table (t u : Table) : bool :=
  bool_decide (map shape (tab_columns t) = map shape (tab_columns u))
  && same_members (enforced_keys t) (enforced_keys u) && same_members (tab_indexes t) (tab_indexes u).
Definition same_schema (s1 s2 : Schema) : bool :=
  bool_decide (length s1 = length s2)
  && forallb (λ t, match find_table (tab_name t) s2 with Some u => same_table t u | None => false end) s1.

(** The schema at the head revision. *)
Definition head_schema : Schema := Eval vm_compute in
  match upgrade_head 5 None [] with Some (_, s) => s | None => [] end.

(** C31: on an empty database the migrations run through to the last script
    and produce exactly the tables the mapped classes declare: the same columns
    with the same types, nullability, primary and foreign keys, the same
    column sets kept unique, and the same indexes. *)
Theorem migrations_build_models :
  ∃ s, upgrade_head (S (length revisions)) None [] = Some (Some "20260811_0004", s)
    ∧ length s = length metadata_tables
    ∧ ∀ t, t ∈ metadata_tables → ∃ u, find_table (tab_name t) s = Some u
        ∧ map shape (tab_columns u) = map shape (tab_columns t)
        ∧ (∀ k, k ∈ enforced_keys u ↔ k ∈ enforced_keys t) ∧ (∀ i, i ∈ tab_indexes u ↔ i ∈ tab_indexes t).
Proof.
  exists head_schema. split; [vm_compute; done|]. split; [vm_compute; done|].
  assert (H : forallb (λ t, match find_table (tab_name t) head_schema with
      | Some u => same_table u t | None => false end) metadata_tables = true) by (vm_compute; done).
  intros t Ht. rewrite forallb_elem in H. specialize (H t Ht).
  destruct (find_table (tab_name t) head_schema) as [u|]; [|done]. exists u. split; [done|].
  assert (Hset : ∀ {A} `{EqDecision A} (l k : list A), same_members l k = true → ∀ x, x ∈ l ↔ x ∈ k).
  { intros A ? l k [H1 H2]%andb_true_iff x. unfold subset_of in H1, H2. rewrite forallb_elem in H1, H2.
    split; intros Hx; [apply H1 in Hx|apply H2 in Hx]; by apply bool_decide_eq_true in Hx. }
  unfold same_table in H. b2p. split; [done|]. split; eapply Hset; eassumption.
Qed.

(** ** Undoing a revision *)

(** References name existing tables, and table names are distinct. *)
Record schema_wf (s : Schema) : Prop := {
  names_distinct : NoDup (map tab_name s);
  references_resolve : ∀ t name, t ∈ s → references_table name t = true → name ∈ map tab_name s }.

Lemma find_table_none name s : find_table name s = None ↔ name ∉ map tab_name s.
Proof.
  unfold find_table. rewrite find_none_iff. split.
  - intros H (t & -> & Ht)%list_elem_of_fmap. specialize (H t Ht). by rewrite String.eqb_refl in H.
  - intros H t Ht. apply String.eqb_neq. intros <-. apply H. by apply list_elem_of_fmap_2.
Qed.

(** What building one table adds at the end of the schema. *)
Definition build (name : string) (columns : list Column) (uniques : list Unique)
    (indexes : list (string * list string * bool)) (s : Schema) : option Schema :=
  run_ddl (create_table name columns uniques :: map (λ i, create_index i.1.1 name i.1.2 i.2) indexes) s.

Lemma run_ddl_cons step steps s : run_ddl (step :: steps) s = step s ≫= run_ddl steps.
Proof.
  unfold run_ddl. simpl. destruct (step s) as [s'|]; simpl; [done|].
  induction steps as [|st steps IH]; [done|]. simpl. exact IH.
Qed.
Lemma run_ddl_app l1 l2 s : run_ddl (l1 ++ l2) s = run_ddl l1 s ≫= run_ddl l2.
Proof.
  revert s. induction l1 as [|step l1 IH]; intros s; [done|]. simpl. rewrite !run_ddl_cons.
  destruct (step s); simpl; [apply IH|done].
Qed.

Lemma update_table_last name f s t :
  name ∉ map tab_name s → tab_name t = name → update_table name f (s ++ [t]) = s ++ [f t].
Proof.
  intros Hn Ht. unfold update_table. rewrite map_app. simpl. rewrite Ht, String.eqb_refl. f_equal.
  rewrite <- (map_id s) at 2. apply List.map_ext_in. intros u Hu.
  destruct (String.eqb_spec (tab_name u) name) as [E|]; [|done]. exfalso. apply Hn. rewrite <- E.
  apply list_elem_of_fmap_2. by apply list_elem_of_In.
Qed.
Lemma find_table_last name s t : name ∉ map tab_name s → tab_name t = name → find_table name (s ++ [t]) = Some t.
Proof.
  intros Hn Ht. unfold find_table. rewrite find_app.
  apply find_table_none in Hn. unfold find_table in Hn. rewrite Hn. simpl. by rewrite Ht, String.eqb_refl.
Qed.

Lemma create_index_last ix name columns unique s t :
  name ∉ map tab_name s → tab_name t = name →
  create_index ix name columns unique (s ++ [t])
  = if existsb (String.eqb ix) (index_names (s ++ [t])) || negb (forallb (λ c, has_column c t) columns) then None
    else Some (s ++ [with_index (Build_Index ix columns unique) t]).
Proof. intros Hn Ht. unfold create_index. by rewrite find_table_last, update_table_last. Qed.

Lemma build_appends name columns uniques indexes s s' :
  build name columns uniques indexes s = Some s' →
  name ∉ map tab_name s ∧ ∃ t, s' = s ++ [t] ∧ tab_name t = name ∧ tab_columns t = columns
    ∧ ∀ c r, c ∈ columns → col_references c = Some r → resolves s r = true.
Proof.
  unfold build. rewrite run_ddl_cons. unfold create_table at 1. case_bool_decide as Hnone; [done|].
  assert (Hn : name ∉ map tab_name s).
  { apply find_table_none. destruct (find_table name s); [|done]. exfalso. apply Hnone. by eexists. }
  destruct (forallb _ columns && _) eqn:Hok; [|done]. apply andb_true_iff in Hok as [Href _].
  cbn [mbind option_bind]. set (t0 := Build_Table name columns uniques []).
  assert (H : ∀ t, tab_name t = name → tab_columns t = columns →
    run_ddl (map (λ i, create_index i.1.1 name i.1.2 i.2) indexes) (s ++ [t]) = Some s' →
    ∃ u, s' = s ++ [u] ∧ tab_name u = name ∧ tab_columns u = columns).
  { clear t0. induction indexes as [|[[ix cs] un] indexes IH]; intros t Ht Hc; simpl.
    - intros [= <-]. by exists t.
    - rewrite run_ddl_cons, create_index_last by done.
      destruct (_ || _); [done|]. by apply IH. }
  intros (u & -> & Hu & Hcu)%H; [|done..]. split; [done|]. exists u. do 3 (split; [done|]).
  intros c r Hin Hr. rewrite forallb_elem in Href. specialize (Href c Hin). by rewrite Hr in Href.
Qed.

(** Dropping the table that was built last restores the schema. *)
Lemma build_undo name columns uniques indexes s s' :
  schema_wf s → build name columns uniques indexes s = Some s' →
  schema_wf s' ∧ drop_table name s' = Some s.
Proof.
  intros [Hnd Hres] (Hn & t & -> & Ht & Hc & Hr)%build_appends. split; [split|].
  - rewrite map_app. apply NoDup_app. split; [done|]. split; [|apply NoDup_singleton].
    intros x Hx ->%list_elem_of_singleton. by rewrite Ht in Hx.
  - intros u n. rewrite map_app, !elem_of_app, list_elem_of_singleton. intros [Hu| ->] Href; left.
    + by eapply Hres.
    + unfold references_table in Href. rewrite Hc in Href. apply existsb_exists in Href as (c & Hin & Hcol).
      destruct (col_references c) as [r|] eqn:E; [|done]. apply String.eqb_eq in Hcol as <-.
      apply list_elem_of_In in Hin. specialize (Hr c r Hin E). unfold resolves in Hr.
      destruct (find_table r.1 s) eqn:Ef; [|done]. destruct (decide (r.1 ∈ map tab_name s)) as [|Hno]; [done|].
      apply find_table_none in Hno. congruence.
  - unfold drop_table. rewrite find_table_last by done. rewrite List.filter_app. simpl. rewrite Ht, String.eqb_refl. simpl.
    rewrite app_nil_r, filter_all.
    + destruct (existsb (references_table name) s) eqn:E; [|done]. exfalso.
      apply existsb_exists in E as (u & Hu & Href). apply list_elem_of_In in Hu. by eapply Hn, Hres.
    + intros u Hu. apply negb_true_iff, String.eqb_neq. intros E. apply Hn. rewrite <- E. by apply list_elem_of_fmap_2.
Qed.

(** A script that builds tables one after the other. *)
Definition Block : Type := string * list Column * list Unique * list (string * list string * bool).
Definition block_name (b : Block) : string := b.1.1.1.
Definition block_steps (b : Block) : list Step :=
  create_table b.1.1.1 b.1.1.2 b.1.2 :: map (λ i, create_index i.1.1 b.1.1.1 i.1.2 i.2) b.2.

Lemma blocks_undo bs s s' :
  schema_wf s → run_ddl (concat (map block_steps bs)) s = Some s' →
  schema_wf s' ∧ run_ddl (map drop_table (rev (map block_name bs))) s' = Some s.
Proof.
  revert s. induction bs as [|[[[name columns] uniques] indexes] bs IH]; intros s Hs; simpl; [by intros [= <-]|].
  change (create_table name columns uniques :: ?l ++ ?k) with ((create_table name columns uniques :: l) ++ k).
  rewrite run_ddl_app. destruct (run_ddl (create_table name columns uniques :: _) s) as [s1|] eqn:E; [|done].
  cbn [mbind option_bind]. intros H. destruct (build_undo name columns uniques indexes s s1 Hs E) as [Hs1 Hd].
  destruct (IH s1 Hs1 H) as [Hs' Hdrop]. split; [done|].
  rewrite map_app, run_ddl_app, Hdrop. cbn [mbind option_bind map]. rewrite run_ddl_cons.
  change (block_name (name, columns, uniques, indexes)) with name. by rewrite Hd.
Qed.

Definition baseline_blocks : list Block := [
  ("users", users_columns, [Build_Unique None ["username"]], [("ix_users_username", ["username"], true)]);
  ("devices", devices_columns, [],
   [("ix_devices_site_id", ["site_id"], false); ("ix_devices_last_seen_at", ["last_seen_at"], false)]);
  ("telemetry", telemetry_columns,
   [Build_Unique None ["message_id"]; Build_Unique (Some "uq_telemetry_device_sequence") ["device_id"; "sequence"]],
   [("ix_telemetry_message_id", ["message_id"], true); ("ix_telemetry_site_id", ["site_id"], false);
    ("ix_telemetry_device_received", ["device_id"; "received_at"], false);
    ("ix_telemetry_device_device_time", ["device_id"; "device_time"], false)]);
  ("health_snapshots", health_columns, [], [("ix_health_device_received", ["device_id"; "received_at"], false)]);
  ("alarms", alarms_columns, [], [("ix_alarm_device_opened", ["device_id"; "opened_at"], false)]);
  ("calibrations", calibrations_columns, [], [("ix_calibrations_device_id", ["device_id"], false)]);
  ("maintenance_records", maintenance_columns, [], [("ix_maintenance_records_device_id", ["device_id"], false)]);
  ("audit_events", audit_columns, [], [("ix_audit_actor_created", ["actor"; "created_at"], false)]);
  ("error_logs", error_columns, [], [("ix_error_component_created", ["component"; "created_at"], false)]) ].
Definition operations_blocks : list Block := [
  ("threshold_configs", threshold_columns, [], []);
  ("device_commands", command_columns, [], [("ix_command_device_issued", ["device_id"; "issued_at"], false)]) ].
Definition models_blocks : list Block := [
  ("anomaly_models", model_columns, [Build_Unique (Some "uq_anomaly_device_version") ["device_id"; "model_version"]],
   [("ix_anomaly_device_created", ["device_id"; "created_at"], false)]) ].

(** The type of a column. *)
Definition type_of (table column : string) (s : Schema) : option ColumnType :=
  t ← find_table table s; col_type <$> List.find (λ c, String.eqb (col_name c) column) (tab_columns t).

(** C33: on any well-formed schema a revision that goes through is undone
    exactly by its downgrade, the widening of the counters excepted: there the
    upgrade of a freshly migrated database changes nothing, because the baseline
    already creates 64-bit counters, and the downgrade leaves both counters at
    32 bits, narrower than at the revision it returns to. *)
Theorem migrations_reversible :
  (∀ r s s', r ∈ revisions → revision r ≠ "20260811_0003" → schema_wf s →
     upgrade r s = Some s' → schema_wf s' ∧ downgrade r s' = Some s)
  ∧ ∃ before narrowed,
      run_ddl [upgrade_0001; upgrade_0002] [] = Some before
      ∧ upgrade_0003 before = Some before ∧ downgrade_0003 before = Some narrowed
      ∧ type_of "telemetry" "sequence" before = Some TBigInteger ∧ type_of "telemetry" "sequence" narrowed = Some TInteger
      ∧ type_of "telemetry" "uptime_ms" before = Some TBigInteger ∧ type_of "telemetry" "uptime_ms" narrowed = Some TInteger.
Proof.
  split.
  - intros r s s' Hr Hne Hs. unfold revisions in Hr. rewrite !elem_of_cons, elem_of_nil in Hr.
    destruct Hr as [->|[->|[->|[->|[]]]]]; [|..|done|]; simpl.
    + apply (blocks_undo baseline_blocks s s' Hs).
    + apply (blocks_undo operations_blocks s s' Hs).
    + apply (blocks_undo models_blocks s s' Hs).
  - assert (H : match run_ddl [upgrade_0001; upgrade_0002] [] with
      | Some b => match upgrade_0003 b, downgrade_0003 b with
          | Some u, Some n => bool_decide (u = b) && bool_decide (type_of "telemetry" "sequence" b = Some TBigInteger)
              && bool_decide (type_of "telemetry" "sequence" n = Some TInteger)
              && bool_decide (type_of "telemetry" "uptime_ms" b = Some TBigInteger)
              && bool_decide (type_of "telemetry" "uptime_ms" n = Some TInteger)
          | _, _ => false end
      | None => false end = true) by (vm_compute; done).
    destruct (run_ddl [upgrade_0001; upgrade_0002] []) as [b|]; [|done].
    destruct (upgrade_0003 b) as [u|] eqn:Eu, (downgrade_0003 b) as [n|] eqn:En; try done.
    b2p. subst u. by exists b, n.
Qed.

Lemma migrations_reversible_witness :
  ∃ s, upgrade_0001 [] = Some s ∧ length s = 9%nat ∧ downgrade_0001 s = Some [].
Proof.
  assert (H : match upgrade_0001 [] with Some s => (length s =? 9)%nat | None => false end = true) by (vm_compute; reflexivity).
  destruct (upgrade_0001 []) as [s|] eqn:E; [|discriminate H]. apply Nat.eqb_eq in H.
  exists s. split; [reflexivity|]. split; [exact H|].
  destruct migrations_reversible as [Hundo _].
  apply (Hundo (Build_Revision "20260811_0001" None upgrade_0001 downgrade_0001) [] s); [left|discriminate| |exact E].
  split; [apply NoDup_nil_2|]. intros t name Ht. apply elem_of_nil in Ht. destruct Ht.
Defined.

(** ** Column checks *)

(** The value a row gives to a column. *)
Inductive Cell :=
  | CInt (z : Z) | CStr (s : string) | CBool (b : bool) | CFloat (x : float) | CTime | CJson | CNull.
Definition cell {A} (f : A → Cell) (o : option A) : Cell := match o with Some a => f a | None => CNull end.
Definition accepts (c : Column) (v : Cell) : bool :=
  match v, col_type c with
  | CNull, _ => col_null c
  | CInt z, TInteger => integer z
  | CInt z, TBigInteger => big_integer z
  | CStr s, TString n => varchar n s
  | CStr s, TText => text s
  | CBool _, TBoolean | CFloat _, TFloat | CTime, TDateTime | CJson, TJSON => true
  | _, _ => false
  end.
Fixpoint accepts_row (columns : list Column) (row : list Cell) : bool :=
  match columns, row with
  | [], [] => true
  | c :: columns, v :: row => accepts c v && accepts_row columns row
  | _, _ => false
  end.
(** The columns of a table at the head revision. *)
Definition columns_of (table : string) : list Column :=
  match find_table table head_schema with Some t => tab_columns t | None => [] end.

(** The rows, in the order of the columns.  The client times of a row are
    times; a generated key is a small integer. *)
Definition user_cells (u : User) : list Cell :=
  [CInt (u_id u); CStr (u_username u); CStr (u_password_hash u); CStr (u_role u); CBool (u_active u); CTime].
Definition device_cells (d : Device) : list Cell :=
  [CStr (d_id d); CStr (d_site_id d); CStr (d_display_name d); CStr (d_asset_class d); CBool (d_simulated d);
   cell CStr (d_firmware_version d); CStr (d_reported_status d); cell (λ _, CTime) (d_last_seen_at d);
   cell CInt (d_rssi_dbm d); cell CStr (d_reset_reason d); CInt (d_reset_count d); CInt (d_queue_depth d);
   CInt (d_queue_capacity d); CInt (d_dropped_message_count d); CStr (d_modbus_status d); CJson; CTime].
Definition telemetry_cells (t : Telemetry) : list Cell :=
  [CInt (t_id t); CStr (t_message_id t); CStr (t_device_id t); CStr (t_site_id t); CInt (t_sequence t);
   cell (λ _, CTime) (t_device_time t); CTime; CBool (t_clock_synchronized t); CInt (t_uptime_ms t);
   CStr (t_firmware_version t); CStr (t_quality t); CBool (t_replayed t); cell CFloat (t_temperature_c t);
   cell CFloat (t_vibration_rms_mps2 t); cell CFloat (t_vibration_peak_mps2 t);
   cell CFloat (t_vibration_crest_factor t); cell CFloat (t_current_a t); CJson; CJson;
   cell CFloat (t_anomaly_score t); cell CFloat (t_anomaly_percentile t); cell CStr (t_anomaly_reason t)].
Definition health_cells (h : HealthSnapshot) : list Cell :=
  [CInt (h_id h); CStr (h_message_id h); CStr (h_device_id h); CTime; CJson].
Definition alarm_cells (a : Alarm) : list Cell :=
  [CInt (a_id a); CStr (a_device_id a); CStr (a_code a); CStr (a_severity a); CStr (a_source a); CStr (a_state a);
   CStr (a_summary a); CTime; cell (λ _, CTime) (a_cleared_at a); cell (λ _, CTime) (a_acknowledged_at a);
   cell CStr (a_acknowledged_by a)].
Definition calibration_cells (k : Calibration) : list Cell :=
  [CInt (k_id k); CStr (k_device_id k); CStr (k_sensor k); CJson; CJson; CStr (k_reason k); CStr (k_operator k); CTime].
Definition maintenance_cells (r : MaintenanceRecord) : list Cell :=
  [CInt (r_id r); CStr (r_device_id r); CStr (r_status r); CStr (r_notes r); CTime;
   cell (λ _, CTime) (r_next_due_at r); CStr (r_created_by r); CTime].
Definition audit_cells (e : AuditEvent) : list Cell :=
  [CInt (e_id e); CStr (e_actor e); CStr (e_action e); CStr (e_target_type e); CStr (e_target_id e); CJson; CTime].
Definition error_cells (l : ErrorLog) : list Cell :=
  [CInt (l_id l); CStr (l_component l); CStr (l_error_code l); CStr (l_severity l); cell CStr (l_device_id l);
   CStr (l_detail l); CTime].
Definition threshold_cells (c : ThresholdConfig) : list Cell :=
  [CStr (c_device_id c); CFloat (c_temperature_warning_c c); CFloat (c_temperature_critical_c c);
   CFloat (c_vibration_warning_mps2 c); CFloat (c_vibration_critical_mps2 c); CFloat (c_current_warning_a c);
   CFloat (c_current_critical_a c); CFloat (c_hysteresis_percent c); CStr (c_updated_by c); CTime].
Definition command_cells (x : DeviceCommand) : list Cell :=
  [CStr (x_command_id x); CStr (x_device_id x); CStr (x_kind x); CJson; CStr (x_status x);
   cell CStr (x_result_code x); cell CStr (x_detail x); CStr (x_issued_by x); CTime; CTime;
   cell (λ _, CTime) (x_acknowledged_at x)].
Definition model_cells (m : AnomalyModel) : list Cell :=
  [CInt (m_id m); CStr (m_device_id m); CStr (m_model_version m); CStr (m_status m); CJson; CTime; CTime;
   CInt (m_training_sample_count m); CInt (m_validation_sample_count m); CFloat (m_contamination m);
   CInt (m_random_seed m); CStr (m_sklearn_version m); CStr (m_artifact_path m); CStr (m_artifact_checksum m);
   CTime; cell (λ _, CTime) (m_last_scored_at m); cell CStr (m_diagnostic m)].

Lemma accepts_optional_string name n o : accepts (optional name (TString n)) (cell CStr o) = nullable (varchar n) o.
Proof. by destruct o. Qed.
Lemma accepts_optional_integer name o : accepts (optional name TInteger) (cell CInt o) = nullable integer o.
Proof. by destruct o. Qed.
Lemma accepts_optional_float name o : accepts (optional name TFloat) (cell CFloat o) = true.
Proof. by destruct o. Qed.
Lemma accepts_optional_time {A} name (o : option A) : accepts (optional name TDateTime) (cell (λ _, CTime) o) = true.
Proof. by destruct o. Qed.

(** Unfold the checks of a row and compare them one by one, in order. *)
Ltac column_checks columns fits cells :=
  match goal with |- _ = accepts_row ?c _ => replace c with columns by (vm_compute; reflexivity) end;
  unfold fits, cells, columns; cbn [accepts_row];
  rewrite ?accepts_optional_string, ?accepts_optional_integer, ?accepts_optional_float, ?accepts_optional_time;
  cbn [accepts required primary of_device unique_column col_type]; b2p;
  repeat match goal with H : _ = true |- _ => rewrite H; clear H end;
  rewrite ?andb_true_l, ?andb_true_r, ?andb_assoc; reflexivity.

(** A row passes the checks of its [insert] and [update] exactly when
    every column of the migrated schema accepts its value: the declared string
    lengths, the 32- and 64-bit integers and the mandatory columns of the twelve
    tables are the ones the development checks (the generated key and the
    reference to an existing device are supplied by the database). *)
Theorem fits_are_columns :
  (∀ u, integer (u_id u) = true → user_fits u = accepts_row (columns_of "users") (user_cells u))
  ∧ (∀ d, device_fits d = accepts_row (columns_of "devices") (device_cells d))
  ∧ (∀ t, integer (t_id t) && varchar 63 (t_device_id t) = true →
       telemetry_fits t = accepts_row (columns_of "telemetry") (telemetry_cells t))
  ∧ (∀ h, integer (h_id h) && varchar 63 (h_device_id h) = true →
       health_fits h = accepts_row (columns_of "health_snapshots") (health_cells h))
  ∧ (∀ a, integer (a_id a) && varchar 63 (a_device_id a) = true →
       alarm_fits a = accepts_row (columns_of "alarms") (alarm_cells a))
  ∧ (∀ k, integer (k_id k) && varchar 63 (k_device_id k) = true →
       calibration_fits k = accepts_row (columns_of "calibrations") (calibration_cells k))
  ∧ (∀ r, integer (r_id r) && varchar 63 (r_device_id r) = true →
       maintenance_fits r = accepts_row (columns_of "maintenance_records") (maintenance_cells r))
  ∧ (∀ e, integer (e_id e) = true → audit_fits e = accepts_row (columns_of "audit_events") (audit_cells e))
  ∧ (∀ l, integer (l_id l) = true → error_log_fits l = accepts_row (columns_of "error_logs") (error_cells l))
  ∧ (∀ c, varchar 63 (c_device_id c) = true →
       threshold_fits c = accepts_row (columns_of "threshold_configs") (threshold_cells c))
  ∧ (∀ x, varchar 63 (x_device_id x) = true →
       command_fits x = accepts_row (columns_of "device_commands") (command_cells x))
  ∧ (∀ m, integer (m_id m) && varchar 63 (m_device_id m) = true →
       model_fits m = accepts_row (columns_of "anomaly_models") (model_cells m)).
Proof.
  repeat split; intros.
  - column_checks users_columns user_fits user_cells.
  - column_checks devices_columns device_fits device_cells.
  - column_checks telemetry_columns telemetry_fits telemetry_cells.
  - column_checks health_columns health_fits health_cells.
  - column_checks alarms_columns alarm_fits alarm_cells.
  - column_checks calibrations_columns calibration_fits calibration_cells.
  - column_checks maintenance_columns maintenance_fits maintenance_cells.
  - column_checks audit_columns audit_fits audit_cells.
  - column_checks error_columns error_log_fits error_cells.
  - column_checks threshold_columns threshold_fits threshold_cells.
  - column_checks command_columns command_fits command_cells.
  - column_checks model_columns model_fits model_cells.
Qed.

Lemma fits_are_columns_witness :
  accepts_row (columns_of "alarms") (alarm_cells (new_alarm 0 "motor-1" "SENSOR_DIAGNOSTIC" "warning" "sensor_rule" "stuck")) = true
  ∧ accepts_row (columns_of "devices") (device_cells (new_device 0 "motor-1" "site-a" "motor-1" "dc-motor" true)) = true.
Proof.
  destruct fits_are_columns as (_ & Hd & _ & _ & Ha & _). split.
  - rewrite <- Ha by (vm_compute; reflexivity). vm_compute. reflexivity.
  - rewrite <- Hd. vm_compute. reflexivity.
Defined.
