(* ===== verification/Smoke.v ===== *)
(** [scripts/compose_smoke.py]: the requests that show a running stack, and the
    wait for it.

    The network and the clocks are an interface, [Network]; [os.getenv] and the
    text the interpreter gives its own errors are arguments. *)
From S2P Require Import Prelude PyStr Float64 Json JsonParse JsonValues Files.
Local Open Scope py_scope.

(** ** The world outside *)

(** [urllib.request.Request] *)
Record Request := { url : string; data : option string; headers : list (string * string); method : string }.

(** [time.monotonic], [time.sleep], [urlopen] with a timeout of five seconds, and
    the status and body of its answer. *)
Class Network (World Response : Type) := {
  monotonic : World → float;
  sleep : Z → World → World;
  urlopen : Request → M World Response;
  status : Response → Z;
  body : Response → M World string }.

(** What the standard library documents of the clock and of [sleep]: a reading is
    a float, never before an earlier one, and, as long as it stays below 2^41
    seconds, two seconds of sleep are seen on it up to 2^-10 seconds.  A key
    counts 2^-1074 seconds. *)
Definition second : Z := 2 ^ 1074.
Class NetworkLaws (World Response : Type) `{Network World Response} := {
  reading_float : ∀ w : World, fvalid (monotonic w) = true ∧ is_finite (monotonic w) = true;
  reading_positive : ∀ w : World, 0 ≤ fkey (monotonic w);
  urlopen_later : ∀ request (w : World), fkey (monotonic w) ≤ fkey (monotonic (urlopen request w).2);
  body_later : ∀ response (w : World), fkey (monotonic w) ≤ fkey (monotonic (body response w).2);
  sleep_never_back : ∀ n (w : World), fkey (monotonic w) ≤ fkey (monotonic (sleep n w));
  sleep_later : ∀ w : World, fkey (monotonic w) < 2 ^ 41 * second →
    fkey (monotonic w) + 2047 * 2 ^ 1064 ≤ fkey (monotonic (sleep 2 w)) }.

(** ** Forms *)

(** [urllib.parse.quote_plus]: letters, digits and [_.-~] as they are, a blank as a
    plus sign, other bytes in hexadecimal. *)
Definition unreserved (c : ascii) : bool :=
  let n := N_of_ascii c in
  ((48 <=? n) && (n <=? 57) || (65 <=? n) && (n <=? 90) || (97 <=? n) && (n <=? 122))%N
  || existsb (Ascii.eqb c) ["_"; "."; "-"; "~"]%char.
Definition upper_hex (n : N) : ascii := ascii_of_N (if (n <? 10)%N then 48 + n else 55 + n).
Fixpoint quote_plus (s : string) : string :=
  match s with
  | EmptyString => EmptyString
  | String c s =>
      if unreserved c then String c (quote_plus s)
      else if Ascii.eqb c " " then String "+" (quote_plus s)
      else String "%" (String (upper_hex (N_of_ascii c / 16)) (String (upper_hex (N_of_ascii c mod 16)) (quote_plus s)))
  end.
(** [urllib.parse.urlencode(fields)] *)
Definition urlencode (fields : list (string * string)) : string :=
  join "&" (map (λ kv, join_chars [quote_plus kv.1; "="; quote_plus kv.2]) fields).

(** ** JSON answers *)

(** [bool(value)] *)
Definition truthy (j : json) : bool :=
  match j with
  | JNull => false
  | JBool b => b
  | JInt z => negb (z =? 0)
  | JFloat x => negb (feqb x (S754_zero false))
  | JStr s => negb (String.eqb s "")
  | JArr l => match l with [] => false | _ => true end
  | JObj fields => match fields with [] => false | _ => true end
  end.
(** [value == text] *)
Definition equals_text (text : string) (j : json) : bool :=
  match j with JStr s => String.eqb s text | _ => false end.
(** [value.get(key)] *)
Definition member_or_null (key : string) (j : json) : result json :=
  match j with JObj fields => Ok (default JNull (jget key fields)) | _ => Raise AttributeError end.

Section Smoke.
Context {World Response : Type} `{Network World Response}.
Context (getenv : string → option string) (wide : string → option string).
Context (str_container : json → string) (decode_message encode_message : string → string) (raised_text : exn → string).

Definition rstrip_slash (s : string) : string := join_chars (rev (drop_while (String.eqb "/") (rev (chars s)))).
Definition API_URL : string := rstrip_slash (default "http://127.0.0.1:8000" (getenv "IIOT_SMOKE_API_URL")).
Definition WEB_URL : string := rstrip_slash (default "http://127.0.0.1:3000" (getenv "IIOT_SMOKE_WEB_URL")).
Definition USERNAME : string := default "demo-admin" (getenv "IIOT_DEMO_ADMIN_USERNAME").
Definition PASSWORD : string := default "local-demo-admin-password" (getenv "IIOT_DEMO_ADMIN_PASSWORD").
Definition TIMEOUT_S : Z := 120.

(** [json.load(response)] on the bytes read *)
Definition load_response (payload : string) : result json :=
  match loads wide payload with
  | inr j => Ok (canonical j)
  | inl NotJson => Raise (ValueError (decode_message payload))
  | inl (DigitLimit n) => Raise (ValueError (digit_limit_message n))
  end.
(** [request_json]; the token [None] is the JSON value null. *)
Definition request_json (method url : string) (form : option string) (token : json) : M World json :=
  let headers := [("Accept", "application/json")]
    ++ match form with Some _ => [("Content-Type", "application/x-www-form-urlencoded")] | None => [] end
    ++ match token with JNull => [] | _ => [("Authorization", "Bearer " +:+ py_str str_container token)] end in
  response ← urlopen {| url := url; data := form; headers := headers; method := method |};
  payload ← body response;
  lift (load_response payload).

(** The steps of one attempt. *)
Definition check_health : M World () :=
  health ← request_json "GET" (API_URL +:+ "/healthz") None JNull;
  state ← lift (member_or_null "status" health);
  if equals_text "ok" state then mret tt
  else raise (ValueError ("unexpected health response: " +:+ py_str str_container health)).
Definition check_dashboard : M World () :=
  response ← urlopen {| url := WEB_URL +:+ "/api/health"; data := None; headers := []; method := "GET" |};
  if status response =? 200 then mret tt
  else raise (ValueError ("dashboard health returned " +:+ str_of_Z (status response))).
Definition obtain_token : M World json :=
  form ← lift (if strict_utf8 USERNAME && strict_utf8 PASSWORD
               then Ok (urlencode [("username", USERNAME); ("password", PASSWORD)])
               else Raise (ValueError (encode_message (USERNAME +:+ PASSWORD))));
  login ← request_json "POST" (API_URL +:+ "/api/v1/auth/token") (Some form) JNull;
  lift (subscript "access_token" login).
(** [any(device.get("id") == "motor-01" for device in devices)] *)
Fixpoint lists_motor (devices : list json) : result bool :=
  match devices with
  | [] => Ok false
  | device :: devices =>
      id ← member_or_null "id" device;
      if equals_text "motor-01" id then Ok true else lists_motor devices
  end.
Definition check_devices (token : json) : M World () :=
  devices ← request_json "GET" (API_URL +:+ "/api/v1/devices") None token;
  seeded ← lift (devices ← iterate devices; lists_motor devices);
  if (seeded : bool) then mret tt else raise (ValueError "seeded motor-01 is absent").
Definition check_telemetry (token : json) : M World () :=
  telemetry ← request_json "GET" (API_URL +:+ "/api/v1/devices/motor-01/telemetry?limit=5") None token;
  items ← lift (member_or_null "items" telemetry);
  if truthy items then mret tt
  else raise (ValueError "simulated gateway telemetry has not been persisted yet").
(** The body of the [try]. *)
Definition attempt : M World json :=
  check_health;;
  check_dashboard;;
  token ← obtain_token;
  check_devices token;;
  check_telemetry token;;
  mret token.

(** [except (KeyError, TypeError, ValueError, urllib.error.URLError)] *)
Definition retried (e : exn) : bool :=
  match e with KeyError | TypeError | URLError _ => true | _ => is_value_error e end.
(** [str(error)] *)
Definition error_text (e : exn) : string :=
  match e with KeyError | TypeError => raised_text e | _ => exn_text e end.

Definition not_ready (last_error : string) : exn := TimeoutError ("Compose smoke did not become ready: " +:+ last_error).
(** The loop of [wait_for_stack]; [fuel] bounds the turns. *)
Fixpoint wait (fuel : nat) (deadline : float) (last_error : string) (w : World) : option (result json * World) :=
  match fuel with
  | O => None
  | S fuel =>
      if monotonic w <.? deadline then
        match attempt w with
        | (Raise e, w1) =>
            if retried e then wait fuel deadline (error_text e) (sleep 2 w1) else Some (Raise e, w1)
        | done => Some done
        end
      else Some (Raise (not_ready last_error), w)
  end.
Definition deadline_at (w : World) : float := monotonic w ⊕ of_int TIMEOUT_S.
Definition wait_for_stack (fuel : nat) (w : World) : option (result json * World) :=
  wait fuel (deadline_at w) "not attempted" w.
End Smoke.
