(* ===== verification/SmokeProps.v ===== *)
(** The wait of [scripts/compose_smoke.py] ends: proofs over [Smoke]. *)
From S2P Require Import Prelude PyStr Float64 FloatBounds Json JsonParse JsonValues JsonRoundTrip Files Api Smoke.
Local Open Scope py_scope.

(** ** The clock *)

Section Clock.
Context {World Response : Type} `{Laws : NetworkLaws World Response}.
Context (getenv : string → option string) (wide : string → option string).
Context (str_container : json → string) (decode_message encode_message : string → string) (raised_text : exn → string).
Abbreviation attempt := (attempt getenv wide str_container decode_message encode_message).
Abbreviation wait := (wait getenv wide str_container decode_message encode_message raised_text).
Abbreviation clock w := (fkey (monotonic w)).

(** Not before [k]. *)
Definition since (k : Z) (w : World) : Prop := k ≤ clock w.
Lemma urlopen_since k request : preserves (since k) (urlopen request).
Proof. intros w Hw. unfold since in *. pose proof (urlopen_later request w). lia. Qed.
Lemma body_since k response : preserves (since k) (body response).
Proof. intros w Hw. unfold since in *. pose proof (body_later response w). lia. Qed.
Lemma request_since k method url form token :
  preserves (since k) (request_json wide str_container decode_message method url form token).
Proof.
  unfold request_json. apply preserves_bind; [apply urlopen_since|intros r].
  apply preserves_bind; [apply body_since|intros p; apply preserves_lift].
Qed.
#[local] Hint Resolve urlopen_since body_since request_since : preserves.
Lemma attempt_since k : preserves (since k) attempt.
Proof.
  unfold Smoke.attempt, check_health, check_dashboard, obtain_token, check_devices, check_telemetry.
  repeat (lazymatch goal with
          | |- preserves _ (_ ≫= _) => apply preserves_bind
          | |- preserves _ (if _ then _ else _) => apply preserves_if
          | |- preserves _ _ => auto with preserves
          | |- ∀ _, preserves _ _ => intros ?
          end).
Qed.
Lemma attempt_later w : clock w ≤ clock (attempt w).2.
Proof. by apply (attempt_since (clock w)); unfold since. Qed.

(** The API's health endpoint is what the first step asks for. *)
Lemma api_health_accepted w response w1 w2 :
  urlopen {| url := API_URL getenv +:+ "/healthz"; data := None; headers := [("Accept", "application/json")]; method := "GET" |} w
    = (Ok response, w1) →
  body response w1 = (Ok (dumps healthz), w2) →
  check_health getenv wide str_container decode_message w = (Ok tt, w2).
Proof.
  intros Hu Hb. unfold check_health, request_json. cbn [app]. unfold mbind, M_bind, lift, load_response. rewrite Hu, Hb.
  by rewrite loads_dumps.
Qed.

(** ** The deadline *)

Lemma timeout_key : fkey (of_int TIMEOUT_S) = 120 * second.
Proof. vm_compute. done. Qed.
Lemma deadline_bounds w : clock w < 2 ^ 40 * second →
  fvalid (deadline_at w) = true ∧ is_nan (deadline_at w) = false
  ∧ Z.abs (fkey (deadline_at w) - (clock w + 120 * second)) ≤ 2 ^ 1063.
Proof.
  intros Hw. destruct (reading_float w) as [V F]. pose proof (reading_positive w) as Hp.
  assert (Vt : fvalid (of_int TIMEOUT_S) = true) by done. assert (Ft : is_finite (of_int TIMEOUT_S) = true) by done.
  unfold deadline_at. destruct (fadd_valid _ _ V Vt F Ft) as [H1 H2]. split; [done|]. split; [done|].
  pose proof (fadd_finite _ _ V Vt F Ft) as HF. pose proof (fadd_bounds _ _ V Vt F Ft) as HB.
  rewrite timeout_key in HF, HB. unfold second in *. change (2 ^ 2096) with (2 ^ 1022 * 2 ^ 1074) in HF.
  change (2 ^ 1074) with (2 ^ 11 * 2 ^ 1063) in *. set (u := 2 ^ 1063) in *. assert (0 < u) by done. clearbody u.
  specialize (HB (HF ltac:(lia))). lia.
Qed.
Lemma before_deadline w w1 : clock w < 2 ^ 40 * second →
  (monotonic w1 <.? deadline_at w) = (clock w1 <? fkey (deadline_at w)).
Proof.
  intros Hw. destruct (reading_float w1) as [V F], (deadline_bounds w Hw) as (V' & N & _). apply fltb_key; try done.
  by destruct (monotonic w1).
Qed.

(** ** Turns of the loop *)

(** [retries deadline n last w last' w']: [n] turns that failed and slept. *)
Inductive retries (deadline : float) : nat → string → World → string → World → Prop :=
  | retries_none last w : retries deadline 0 last w last w
  | retries_more n last w e w1 last' w' :
      monotonic w <.? deadline = true → attempt w = (Raise e, w1) → retried e = true →
      retries deadline n (error_text raised_text e) (sleep 2 w1) last' w' →
      retries deadline (S n) last w last' w'.
(** The turn that ends the loop: an attempt that succeeds or raises what is not
    retried, or a clock past the deadline. *)
Inductive settles (deadline : float) (last : string) (w : World) : result json * World → Prop :=
  | settled_attempt outcome :
      monotonic w <.? deadline = true → attempt w = outcome →
      (∀ e, outcome.1 = Raise e → retried e = false) → settles deadline last w outcome
  | settled_timeout : monotonic w <.? deadline = false → settles deadline last w (Raise (not_ready last), w).

Lemma wait_follows deadline n last w last' w' outcome :
  retries deadline n last w last' w' → settles deadline last' w' outcome →
  ∀ fuel, (n < fuel)%nat → wait fuel deadline last w = Some outcome.
Proof.
  intros Hr Hs. induction Hr as [last w|n last w e w1 last' w' Hc Ha He Hr IH]; intros [|fuel] Hf; try lia; cbn [Smoke.wait].
  - destruct Hs as [[[t|e] w1] Hc Ha He|Hc]; rewrite Hc; [by rewrite Ha| |done]. rewrite Ha. by rewrite (He e eq_refl).
  - rewrite Hc, Ha, He. apply IH; [done|lia].
Qed.
(** Every turn takes two seconds: from a clock [k] turns short of the deadline. *)
Lemma wait_settles deadline w0 k : clock w0 < 2 ^ 40 * second → deadline = deadline_at w0 →
  ∀ w last, fkey deadline ≤ clock w + Z.of_nat k * (2047 * 2 ^ 1064) →
  ∃ n last' w' outcome, (n ≤ k)%nat ∧ retries deadline n last w last' w' ∧ settles deadline last' w' outcome ∧ clock w ≤ clock w'.
Proof.
  intros H0 ->. assert (Hd : fkey (deadline_at w0) < 2 ^ 41 * second).
  { destruct (deadline_bounds w0 H0) as (_ & _ & Hb). unfold second in *. change (2 ^ 1074) with (2 ^ 11 * 2 ^ 1063) in *.
    set (u := 2 ^ 1063) in *. assert (0 < u) by done. clearbody u. lia. }
  induction k as [|k IH]; intros w last Hk.
  - exists O, last, w. eexists. split; [done|]. split; [constructor|]. split; [|done]. apply settled_timeout.
    rewrite before_deadline by done. apply Z.ltb_ge. lia.
  - destruct (monotonic w <.? deadline_at w0) eqn:Hc.
    2:{ exists O, last, w. eexists. split; [lia|]. split; [constructor|]. split; [|done]. by apply settled_timeout. }
    destruct (attempt w) as [[t|e] w1] eqn:Ha; [|destruct (retried e) eqn:He].
    + exists O, last, w, (Ok t, w1). split; [lia|]. split; [constructor|]. split; [|done]. by apply settled_attempt.
    + pose proof (attempt_later w) as Hw. rewrite Ha in Hw. cbn [snd] in Hw.
      pose proof (sleep_never_back 2 w1) as Hn. destruct (IH (sleep 2 w1) (error_text raised_text e)) as
        (n & last' & w' & outcome & Hle & Hr & Hs & Hc').
      { destruct (Z.lt_ge_cases (clock w1) (2 ^ 41 * second)) as [Hlt|Hge]; [pose proof (sleep_later w1 Hlt)|];
          set (u := 2 ^ 1064) in *; assert (0 < u) by done; clearbody u; nia. }
      exists (S n), last', w', outcome. split; [lia|]. split; [by eapply retries_more|]. split; [done|lia].
    + exists O, last, w, (Raise e, w1). split; [lia|]. split; [constructor|]. split; [|done]. apply settled_attempt; [done..|].
      by intros e' [= <-].
Qed.
End Clock.

(** ** Forms *)

(** Reading a form: what [quote_plus] and [urlencode] are the inverse of. *)
Definition hex_value (c : ascii) : N :=
  let n := N_of_ascii c in (if n <? 65 then n - 48 else n - 55)%N.
Fixpoint unquote_plus (s : string) : string :=
  match s with
  | EmptyString => EmptyString
  | String c rest =>
      if Ascii.eqb c "+" then String " " (unquote_plus rest)
      else match rest with
           | String h (String l rest') =>
               if Ascii.eqb c "%" then String (ascii_of_N (16 * hex_value h + hex_value l)) (unquote_plus rest')
               else String c (unquote_plus rest)
           | _ => String c (unquote_plus rest)
           end
  end.
Definition parse_field (s : string) : option (string * string) :=
  match split_on "=" s with [k; v] => Some (unquote_plus k, unquote_plus v) | _ => None end.
Definition parse_form (s : string) : option (list (string * string)) := mapM parse_field (split_on "&" s).

(** A byte is kept, is the plus sign, or is two hexadecimal digits. *)
Definition quoted_byte (c : ascii) : bool :=
  let h := upper_hex (N_of_ascii c / 16) in
  let l := upper_hex (N_of_ascii c mod 16) in
  negb (unreserved c && existsb (Ascii.eqb c) ["+"; "%"; "&"; "="]%char)
  && forallb (λ d, negb (existsb (Ascii.eqb d) ["&"; "="]%char)) [h; l]
  && Ascii.eqb (ascii_of_N (16 * hex_value h + hex_value l)) c.
Lemma quoted_bytes c : quoted_byte c = true.
Proof. destruct c as [[] [] [] [] [] [] [] []]; vm_compute; done. Qed.
Lemma quote_inert sep s : sep = "&"%char ∨ sep = "="%char → contains_char sep (quote_plus s) = false.
Proof.
  intros Hs. induction s as [|c s IH]; [done|]. cbn [quote_plus]. pose proof (quoted_bytes c) as H.
  unfold quoted_byte in H. apply andb_true_iff in H as [[H1 H2]%andb_true_iff _]. cbn [forallb existsb] in H1, H2.
  destruct (unreserved c); [|destruct (Ascii.eqb c " ")]; cbn [contains_char]; rewrite IH.
  - apply negb_true_iff in H1. cbn [andb] in H1. rewrite !orb_false_iff in H1. destruct H1 as (_ & _ & H3 & H4 & _).
    rewrite orb_false_r, Ascii.eqb_sym. by destruct Hs as [-> | ->].
  - by destruct Hs as [-> | ->].
  - rewrite !andb_true_iff, !negb_true_iff, !orb_false_iff in H2. destruct H2 as ((H3 & H4 & _) & (H5 & H6 & _) & _).
    rewrite !(Ascii.eqb_sym sep). by destruct Hs as [-> | ->]; rewrite ?H3, ?H4, ?H5, ?H6.
Qed.
Lemma unquote_quote s : unquote_plus (quote_plus s) = s.
Proof.
  induction s as [|c s IH]; [done|]. cbn [quote_plus]. pose proof (quoted_bytes c) as H. unfold quoted_byte in H.
  apply andb_true_iff in H as [[H _]%andb_true_iff Hh]. apply Ascii.eqb_eq in Hh.
  destruct (unreserved c) eqn:Hu; [|destruct (Ascii.eqb_spec c " ") as [->|]].
  - cbn [andb existsb] in H. apply negb_true_iff in H. rewrite !orb_false_iff in H. destruct H as (H1 & H2 & _).
    cbn [unquote_plus]. rewrite H1, H2, IH. by destruct (quote_plus s) as [|? []].
  - cbn [unquote_plus]. simpl. by rewrite IH.
  - cbn [unquote_plus]. simpl Ascii.eqb. cbv iota. by rewrite Hh, IH.
Qed.
Lemma parse_field_quoted k v : parse_field (join_chars [quote_plus k; "="; quote_plus v]) = Some (k, v).
Proof.
  unfold parse_field, join_chars. cbn [foldr]. rewrite app_nil_r_str. change ("=" +:+ ?x) with (String "=" x).
  rewrite split_on_app, split_on_single by (apply quote_inert; auto). by rewrite !unquote_quote.
Qed.
Lemma field_inert k v : contains_char "&" (join_chars [quote_plus k; "="; quote_plus v]) = false.
Proof.
  unfold join_chars. cbn [foldr]. rewrite app_nil_r_str, !contains_char_app, !quote_inert by auto. done.
Qed.
Lemma parse_urlencode fields : fields ≠ [] → parse_form (urlencode fields) = Some fields.
Proof.
  unfold parse_form, urlencode. induction fields as [|[k v] fields IH]; [done|]. intros _. destruct fields as [|f fields].
  - cbn [map join fst snd]. rewrite split_on_single by apply field_inert. cbn [mapM]. by rewrite parse_field_quoted.
  - cbn [map join fst snd] in *. change ("&" +:+ ?x) with (String "&" x). rewrite split_on_app by apply field_inert. cbn [mapM].
    rewrite parse_field_quoted, IH by done. done.
Qed.

(** ** The wait *)

Section Wait.
Context {World Response : Type} `{Laws : NetworkLaws World Response}.
Context (getenv : string → option string) (wide : string → option string).
Context (str_container : json → string) (decode_message encode_message : string → string) (raised_text : exn → string).
Abbreviation retries := (retries getenv wide str_container decode_message encode_message raised_text).
Abbreviation settles := (settles getenv wide str_container decode_message encode_message).
Abbreviation wait_for_stack := (wait_for_stack getenv wide str_container decode_message encode_message raised_text).

(** C30: [wait_for_stack] ends: after at most 61 failed attempts that are
    retried comes an attempt that succeeds or raises an exception the loop does
    not catch, or the clock has passed the deadline and [TimeoutError] carries
    the text of the last failure; in the last case two minutes have passed, up to
    half a millisecond of rounding. *)
Theorem wait_ends (w : World) : fkey (monotonic w) < 2 ^ 40 * second →
  ∃ n last w' outcome,
    (n ≤ 61)%nat ∧ retries (deadline_at w) n "not attempted" w last w' ∧ settles (deadline_at w) last w' outcome
    ∧ (∀ fuel, (n < fuel)%nat → wait_for_stack fuel w = Some outcome)
    ∧ (monotonic w' <.? deadline_at w = false →
       120 * second - 2 ^ 1063 ≤ fkey (monotonic w') - fkey (monotonic w)).
Proof.
  intros Hw. destruct (deadline_bounds w Hw) as (_ & _ & Hd).
  destruct (wait_settles getenv wide str_container decode_message encode_message raised_text (deadline_at w) w 61 Hw eq_refl w
    "not attempted") as (n & last & w' & outcome & Hn & Hr & Hs & _).
  { change second with (2 ^ 10 * 2 ^ 1064) in Hd. change (2 ^ 1063) with (1 * 2 ^ 1063) in Hd.
    change (2 ^ 1064) with (2 * 2 ^ 1063) in *. set (u := 2 ^ 1063) in *. assert (0 < u) by done. clearbody u. lia. }
  exists n, last, w', outcome. split; [done|]. split; [done|]. split; [done|]. split; [by apply wait_follows with last w'|].
  intros Hc. rewrite before_deadline in Hc by done. apply Z.ltb_ge in Hc. lia.
Qed.
End Wait.

(** The form of the login carries the credentials, whatever bytes they hold. *)
Theorem credentials_arrive getenv :
  parse_form (urlencode [("username", USERNAME getenv); ("password", PASSWORD getenv)])
  = Some [("username", USERNAME getenv); ("password", PASSWORD getenv)].
Proof. by apply parse_urlencode. Qed.

(** ** A stack that comes up *)

Module Sample.

(** Seconds, the second the stack is up from, and the exception before it. *)
Record Net := { now : N; up : N; down : exn }.
Definition horizon : Z := 2 ^ 42.
Definition reading (w : Net) : float := of_int (Z.min (Z.of_N (now w)) horizon).
Definition later (n : Z) (w : Net) : Net := {| now := now w + Z.to_N n; up := up w; down := down w |}.
Definition answer (url : string) : json :=
  if String.eqb url "http://127.0.0.1:8000/healthz" then healthz
  else if String.eqb url "http://127.0.0.1:8000/api/v1/auth/token" then JObj [("access_token", JStr "t"); ("token_type", JStr "bearer")]
  else if String.eqb url "http://127.0.0.1:8000/api/v1/devices" then JArr [JObj [("id", JStr "pump-01")]; JObj [("id", JStr "motor-01")]]
  else JObj [("items", JArr [JObj []]); ("count", JInt 1)].
#[export] Instance net : Network Net string := {
  monotonic := reading; sleep := later;
  urlopen r w := (if (now w <? up w)%N then Raise (down w) else Ok (dumps (answer (url r))), later 1 w);
  status _ := 200;
  body text w := (Ok text, w) }.

Lemma reading_key w : fvalid (reading w) = true ∧ is_finite (reading w) = true
  ∧ fkey (reading w) = Z.min (Z.of_N (now w)) horizon * 2 ^ 1074.
Proof. apply of_int_exact. unfold horizon. lia. Qed.
Lemma later_key n w : fkey (reading w) ≤ fkey (reading (later n w)).
Proof.
  destruct (reading_key w) as (_ & _ & ->), (reading_key (later n w)) as (_ & _ & ->). simpl now.
  apply Z.mul_le_mono_nonneg_r; [done|lia].
Qed.
#[export] Instance net_laws : NetworkLaws Net string.
Proof.
  split.
  - intros w. by destruct (reading_key w) as (? & ? & _).
  - intros w. simpl. destruct (reading_key w) as (_ & _ & ->). unfold horizon. apply Z.mul_nonneg_nonneg; [lia|done].
  - intros r w. apply later_key.
  - intros r w. done.
  - intros n w. apply later_key.
  - intros w. cbn [monotonic sleep net]. destruct (reading_key w) as (_ & _ & ->), (reading_key (later 2 w)) as (_ & _ & ->).
    simpl now. unfold second, horizon. change (2 ^ 1074) with (2 ^ 10 * 2 ^ 1064).
    set (u := 2 ^ 1064). assert (0 < u) by done. clearbody u. rewrite N2Z.inj_add. simpl (Z.of_N (Z.to_N 2)). nia.
Qed.

Abbreviation waits := (wait_for_stack (λ _, None) (λ _, None) (λ _, "") id id (λ _, "KeyError")).
Abbreviation starting e := {| now := 1000; up := 1007; down := e |}.

(** A refused connection is tried again, a reset one ends the wait although the
    stack would have been up in time. *)
Lemma refused_then_ready :
  waits 62 (starting (URLError "refused")) = Some (Ok (JStr "t"), {| now := 1014; up := 1007; down := URLError "refused" |}).
Proof. vm_compute. done. Qed.
Lemma reset_ends_wait :
  waits 62 (starting (OSError "Connection reset by peer"))
  = Some (Raise (OSError "Connection reset by peer"), {| now := 1001; up := 1007; down := OSError "Connection reset by peer" |}).
Proof. vm_compute. done. Qed.
End Sample.

Import Sample.
(** The clock and a stack that never comes up. *)
Lemma wait_ends_witness :
  (∃ n last w' outcome, (n ≤ 61)%nat
     ∧ waits (S n) {| now := 5; up := 500; down := URLError "refused" |} = Some outcome
     ∧ settles (λ _, None) (λ _, None) (λ _, "") id id (deadline_at {| now := 5; up := 500; down := URLError "refused" |})
         last w' outcome)
  ∧ waits 62 {| now := 5; up := 500; down := URLError "refused" |}
    = Some (Raise (TimeoutError "Compose smoke did not become ready: refused"), {| now := 125; up := 500; down := URLError "refused" |}).
Proof.
  split; [|vm_compute; done].
  destruct (wait_ends (λ _, None) (λ _, None) (λ _, "") id id (λ _, "KeyError") {| now := 5; up := 500; down := URLError "refused" |})
    as (n & last & w' & outcome & Hn & _ & Hs & Hf & _); [apply Z.ltb_lt; vm_compute; done|].
  exists n, last, w', outcome. split; [done|]. split; [apply Hf; lia|done].
Defined.
