(* ===== verification/Licenses.v ===== *)
(** [scripts/check_dependency_licenses.py]: the inventory of locked
    dependencies and its licence policy, and the comparison with the committed
    file.

    The four input files are their texts, as [Path.read_text] returns them
    ([csv_text]: as [open(newline="")] does).  [repr] is the text of a [str]
    inside an error message. *)
From S2P Require Import Prelude PyStr Float64 Json JsonParse Csv.
Local Open Scope py_scope.

(** ** Text *)

(** [s.rsplit(marker, 1)[1]] when [marker] occurs. *)
Fixpoint after_last (marker s : string) : option string :=
  match s with
  | EmptyString => after_prefix marker s
  | String _ s' => match after_last marker s' with Some r => Some r | None => after_prefix marker s end
  end.

(** [s.upper()]: ASCII letters, and the other characters whose upper case
    contains ASCII letters; the rest are left alone, which is enough to look
    for ASCII words. *)
Definition upper_ascii (c : ascii) : ascii :=
  if (97 <=? N_of_ascii c)%N && (N_of_ascii c <=? 122)%N then ascii_of_N (N_of_ascii c - 32) else c.
Definition special_upper : list (string * string) := [
  ("ß", "SS"); ("ı", "I"); ("ſ", "S"); ("ŉ", "ʼN"); ("ǰ", "J̌"); ("ẖ", "H̱"); ("ẗ", "T̈"); ("ẘ", "W̊"); ("ẙ", "Y̊");
  ("ẚ", "Aʾ"); ("ﬀ", "FF"); ("ﬁ", "FI"); ("ﬂ", "FL"); ("ﬃ", "FFI"); ("ﬄ", "FFL"); ("ﬅ", "ST"); ("ﬆ", "ST") ].
Definition upper_char (c : string) : string :=
  match List.find (λ kv, String.eqb kv.1 c) special_upper with
  | Some kv => kv.2
  | None => match c with String a EmptyString => String (upper_ascii a) "" | _ => c end
  end.
Definition upper (s : string) : string := join_chars (map upper_char (chars s)).

(** [re.sub(r"[-_.]+", "-", name).lower()] *)
Definition is_separator (c : ascii) : bool := Ascii.eqb c "-" || Ascii.eqb c "_" || Ascii.eqb c ".".
Fixpoint squeeze (inside : bool) (s : string) : string :=
  match s with
  | EmptyString => EmptyString
  | String c s' =>
      if is_separator c then (if inside then squeeze true s' else String "-" (squeeze true s'))
      else String c (squeeze false s')
  end.
Definition normalize_package (name : string) : string := lower (squeeze false name).

(** ** Licences *)

(** [(?<!L)GPL-(?:2|3)\.0] found somewhere; [prev] is the character before. *)
Fixpoint strong_copyleft (prev : option ascii) (s : string) : bool :=
  (negb (bool_decide (prev = Some "L"%char)) && (String.prefix "GPL-2.0" s || String.prefix "GPL-3.0" s))
  || match s with String c s' => strong_copyleft (Some c) s' | EmptyString => false end.
Definition INVALID_LICENSE_MARKERS : list string := ["UNKNOWN"; "UNLICENSED"; "SEE LICENSE IN"].
Definition POLICY_DISPOSITIONS : list string := ["accepted"; "reviewed"].
Definition DOCUMENTATION_PACKAGES : list string := [
  "charset-normalizer"; "cryptography"; "pdfminer-six"; "pdfplumber"; "pillow"; "pypdf"; "pypdfium2"; "reportlab" ].

Section Licenses.
Context (repr : string → string).
(** [f"{l}"] of a list of strings. *)
Definition repr_list (l : list string) : string := "[" +:+ join ", " (map repr l) +:+ "]".

Definition validate_license (expression package : string) : result () :=
  let u := upper expression in
  if String.eqb expression "" || any (λ marker, occurs marker u) INVALID_LICENSE_MARKERS
  then Raise (ValueError ("missing or non-specific license for " +:+ package +:+ ": " +:+ repr expression))
  else if occurs "AGPL" u || strong_copyleft None u
  then Raise (ValueError ("strong-copyleft dependency requires an explicit policy change: " +:+ package))
  else Ok tt.

(** ** Python locks *)

(** A dict from normalized names, in insertion order. *)
Definition Packages : Type := list (string * (string * string)).
Definition names {A} (d : list (string * A)) : list string := map fst d.
Definition dict_get {A} (key : string) (d : list (string * A)) : option A :=
  snd <$> List.find (λ kv, String.eqb kv.1 key) d.

Definition name_char (c : ascii) : bool :=
  let n := N_of_ascii c in
  ((65 <=? n) && (n <=? 90) || (97 <=? n) && (n <=? 122) || (48 <=? n) && (n <=? 57) || (n =? 95) || (n =? 46) || (n =? 45))%N.
Fixpoint span_name (s : string) : string * string :=
  match s with
  | String c s' => if name_char c then let '(w, r) := span_name s' in (String c w, r) else ("", s)
  | EmptyString => ("", "")
  end.
(** [PIN.fullmatch(line)]: the name and the version. *)
Definition parse_pin (line : string) : option (string * string) :=
  let '(name, rest) := span_name line in
  match after_prefix "==" rest with
  | Some version =>
      if String.eqb name "" || String.eqb version "" || existsb is_space (chars version)
      then None else Some (name, version)
  | None => None
  end.

Definition skipped (allow_runtime_include : bool) (line : string) : bool :=
  String.eqb line "" || startswith "#" line || (allow_runtime_include && String.eqb line "-r runtime.lock").
Fixpoint read_lines (path : string) (allow_runtime_include : bool) (line_number : Z) (lines : list string)
    (packages : Packages) : result Packages :=
  match lines with
  | [] => Ok packages
  | raw :: lines =>
      let line := strip raw in
      if skipped allow_runtime_include line
      then read_lines path allow_runtime_include (line_number + 1) lines packages
      else match parse_pin line with
           | None => Raise (ValueError (path +:+ ":" +:+ str_of_Z line_number +:+ ": dependency must be exactly pinned"))
           | Some (display_name, version) =>
               let normalized := normalize_package display_name in
               if member normalized (names packages)
               then Raise (ValueError ("duplicate Python dependency: " +:+ display_name))
               else read_lines path allow_runtime_include (line_number + 1) lines
                      (packages ++ [(normalized, (display_name, version))])
           end
  end.
Definition read_python_lock (path text : string) (allow_runtime_include : bool) : result Packages :=
  read_lines path allow_runtime_include 1 (splitlines text) [].

(** ** CSV *)

(** [row[key].strip()] *)
Definition stripped (key : string) (header row : list string) : result string :=
  match cell key header row with
  | Some (Some v) => Ok (strip v)
  | Some None => Raise AttributeError
  | None => Raise KeyError
  end.

(** ** The policy *)

Record PolicyRow := {
  po_package : string; po_license_expression : string; po_disposition : string; po_notes : string }.

Definition policy_columns : list string := ["package"; "license_expression"; "disposition"; "notes"].
Definition same_set (l k : list string) : bool := forallb (λ x, member x k) l && forallb (λ x, member x l) k.

Definition policy_row (header row : list string) : result PolicyRow :=
  package ← stripped "package" header row;
  expression ← stripped "license_expression" header row;
  disposition ← stripped "disposition" header row;
  notes ← stripped "notes" header row;
  mret (Build_PolicyRow package expression disposition notes).

Fixpoint read_rows (header : list string) (rows : list (list string)) (policy : list (string * PolicyRow)) :
    result (list (string * PolicyRow)) :=
  match rows with
  | [] => Ok policy
  | row :: rows =>
      typed ← policy_row header row;
      let normalized := normalize_package (po_package typed) in
      if member normalized (names policy)
      then Raise (ValueError ("duplicate Python policy row: " +:+ po_package typed))
      else
        validate_license (po_license_expression typed) (po_package typed);;
        if negb (member (po_disposition typed) POLICY_DISPOSITIONS)
        then Raise (ValueError ("unapproved disposition for " +:+ po_package typed))
        else read_rows header rows (policy ++ [(normalized, typed)])
  end.
Definition read_python_policy (path csv_text : string) : result (list (string * PolicyRow)) :=
  let '(header, rows) := dict_reader csv_text in
  if negb (same_set header policy_columns)
  then Raise (ValueError ("unexpected columns in " +:+ path))
  else read_rows header rows [].

(** ** The inventory *)

Record InventoryRow := {
  iv_ecosystem : string; iv_locked_path : string; iv_package : string; iv_version : string;
  iv_license_expression : string; iv_scope : string; iv_disposition : string; iv_notes : string }.

Definition sorted_items {A} (d : list (string * A)) : list (string * A) := py_sorted (λ a b, String.ltb a.1 b.1) d.
Definition sorted_names (l : list string) : list string := py_sorted String.ltb l.

(** One iteration of the first loop of [build_inventory]. *)
Definition python_row (runtime_packages : Packages) (python_policy : list (string * PolicyRow))
    (kv : string * (string * string)) : result InventoryRow :=
  let '(normalized, (display_name, version)) := kv in
  match dict_get normalized python_policy with
  | None => Raise KeyError
  | Some policy =>
      let '(locked_path, scope) :=
        if member normalized (names runtime_packages) then ("requirements/runtime.lock", "runtime")
        else if member normalized DOCUMENTATION_PACKAGES then ("requirements/ci.lock", "documentation")
        else ("requirements/ci.lock", "development") in
      Ok {| iv_ecosystem := "python"; iv_locked_path := locked_path; iv_package := display_name;
            iv_version := version; iv_license_expression := po_license_expression policy; iv_scope := scope;
            iv_disposition := po_disposition policy; iv_notes := po_notes policy |}
  end.

Definition node_package_name (path : string) : result string :=
  match after_last "node_modules/" path with
  | Some name => Ok name
  | None => Raise (ValueError ("unexpected npm package path: " +:+ path))
  end.

(** The items of the dict a JSON object becomes: the last value of a key. *)
Fixpoint dict_items (fields : list (string * json)) : list (string * json) :=
  match fields with
  | [] => []
  | (k, v) :: rest => if member k (names rest) then dict_items rest else (k, v) :: dict_items rest
  end.

(** One iteration of the second loop, for a path that is not empty. *)
Definition node_row (item : string * json) : result InventoryRow :=
  let '(package_path, metadata) := item in
  match metadata with
  | JObj fields =>
      match jget "version" fields, jget "license" fields with
      | Some (JStr version), Some (JStr expression) =>
          package_name ← node_package_name package_path;
          validate_license expression package_name;;
          let is_true key := match jget key fields with Some (JBool true) => true | _ => false end in
          let scope := (if is_true "dev" then "development" else "runtime")
                       +:+ (if is_true "optional" then "+optional" else "") in
          let disposition := if any (λ x, occurs x expression) ["LGPL"; "MPL"] then "reviewed" else "accepted" in
          mret {| iv_ecosystem := "javascript"; iv_locked_path := package_path; iv_package := package_name;
                  iv_version := version; iv_license_expression := expression; iv_scope := scope;
                  iv_disposition := disposition; iv_notes := "License metadata recorded in npm lockfile." |}
      | _, _ => Raise (ValueError ("npm package lacks version/license metadata: " +:+ package_path))
      end
  | _ => Raise (ValueError ("invalid npm metadata for " +:+ package_path))
  end.

(** [lock.get("lockfileVersion") != 3] fails. *)
Definition is_three (j : option json) : bool :=
  match j with
  | Some (JInt 3) => true
  | Some (JFloat x) => fleb x (of_int 3) && fleb (of_int 3) x
  | _ => false
  end.
Definition node_items (node_text : string) : result (list (string * json)) :=
  match loads_text node_text with
  | inl _ => Raise (ValueError "package-lock.json is not JSON")
  | inr (JObj lock) =>
      if negb (is_three (jget "lockfileVersion" lock))
      then Raise (ValueError "web/package-lock.json must use lockfileVersion 3")
      else match jget "packages" lock with
           | Some (JObj packages) =>
               Ok (List.filter (λ kv, negb (String.eqb kv.1 "")) (sorted_items (dict_items packages)))
           | _ => Raise (ValueError "web/package-lock.json has no packages object")
           end
  | inr _ => Raise AttributeError
  end.

Definition python_rows (runtime_packages ci_packages : Packages) (read_policy : result (list (string * PolicyRow))) :
    result (list InventoryRow) :=
  let overlap := sorted_names (List.filter (λ n, member n (names ci_packages)) (names runtime_packages)) in
  if negb (bool_decide (overlap = []))
  then Raise (ValueError ("CI-only lock duplicates runtime dependencies: " +:+ repr_list overlap))
  else
    let python_packages := runtime_packages ++ ci_packages in
    python_policy ← read_policy;
    let missing := sorted_names (List.filter (λ n, negb (member n (names python_policy))) (names python_packages)) in
    let stale := sorted_names (List.filter (λ n, negb (member n (names python_packages))) (names python_policy)) in
    if negb (bool_decide (missing = [] ∧ stale = []))
    then Raise (ValueError ("Python license policy mismatch; missing=" +:+ repr_list missing
                            +:+ ", stale=" +:+ repr_list stale))
    else mapM (python_row runtime_packages python_policy) (sorted_items python_packages).

(** The files [build_inventory] reads, with the paths its messages name. *)
Record Inputs := {
  runtime_lock : string; ci_lock : string; policy_csv : string; node_lock : string;
  runtime_path : string; ci_path : string; policy_path : string }.

Definition inventory_rows (i : Inputs) : result (list InventoryRow) :=
  runtime_packages ← read_python_lock (runtime_path i) (runtime_lock i) false;
  ci_packages ← read_python_lock (ci_path i) (ci_lock i) true;
  python ← python_rows runtime_packages ci_packages (read_python_policy (policy_path i) (policy_csv i));
  items ← node_items (node_lock i);
  node ← mapM node_row items;
  mret (python ++ node).

Definition inventory_header : list string :=
  ["ecosystem"; "locked_path"; "package"; "version"; "license_expression"; "scope"; "disposition"; "notes"].
Definition inventory_cells (r : InventoryRow) : list string :=
  [iv_ecosystem r; iv_locked_path r; iv_package r; iv_version r; iv_license_expression r; iv_scope r;
   iv_disposition r; iv_notes r].
Definition inventory_text (rows : list InventoryRow) : string :=
  join_chars (map csv_row (inventory_header :: map inventory_cells rows)).
Definition build_inventory (i : Inputs) : result string :=
  rows ← inventory_rows i; mret (inventory_text rows).

(** ** The command *)

(** What [main] ends with: [inventory] is the committed file, if any. *)
Inductive Outcome := Wrote (file : string) | Current (row_count : Z) | Stale.
Definition main (write : bool) (inventory : option string) (i : Inputs) : result Outcome :=
  generated ← build_inventory i;
  if write then mret (Wrote generated)
  else match inventory with
       | Some file =>
           if String.eqb (universal_newlines file) generated
           then mret (Current (count_char (ascii_of_N 10) generated - 1)) else mret Stale
       | None => mret Stale
       end.
End Licenses.

#[local] Abbreviation sample_node := (JObj [("lockfileVersion", JInt 3); ("packages", JObj [
  ("", JObj [("name", JStr "web")]);
  ("node_modules/a/node_modules/@s/b", JObj [("version", JStr "2.1.0"); ("license", JStr "MPL-2.0"); ("dev", JBool true)]);
  ("node_modules/a", JObj [("version", JStr "1.0.0"); ("license", JStr "MIT"); ("optional", JBool true)])])]).
Definition sample_inputs : Inputs := {|
  runtime_lock := "# exact" +:+ lf +:+ "SQLAlchemy==2.0.1" +:+ lf +:+ "a_b==1" +:+ lf;
  ci_lock := "-r runtime.lock" +:+ lf +:+ "pillow==9" +:+ lf;
  policy_csv := join lf ["package,license_expression,disposition,notes"; "sqlalchemy,MIT,accepted,"; "A.B,MIT-0,accepted,";
                         "Pillow,HPND,reviewed," +:+ csv_field "fonts, images"];
  node_lock := dumps sample_node; runtime_path := "runtime.lock"; ci_path := "ci.lock"; policy_path := "policy.csv" |}.
