(* ===== verification/LicenseProps.v ===== *)
(** What the licence check guarantees: no dependency outside the policy, no
    dependency forgotten, an inventory that does not depend on the order of the
    locks, and a committed file that stays current. *)
From Stdlib Require Permutation.
From S2P Require Import Prelude PyStr Float64 Json JsonParse JsonRoundTrip Csv Licenses.

(** Sorting a dict by its keys forgets the order of insertion. *)
Lemma sorted_items_perm {A} (d d' : list (string * A)) :
  NoDup (names d) → d ≡ₚ d' → sorted_items d = sorted_items d'.
Proof.
  intros Hn Hp. apply (StronglySorted_unique_strong (λ a b : string * A, String.ltb b.1 a.1 = false)).
  - intros x y Hx Hy Hxy Hyx. unfold sorted_items in *. rewrite py_sorted_perm in Hx, Hy. rewrite <- Hp in Hy.
    eapply (key_inj fst d); try done. by apply ltb_antisym.
  - apply py_sorted_sorted; [intros a b c; apply ltb_negtrans|intros a b; apply ltb_asym].
  - apply py_sorted_sorted; [intros a b c; apply ltb_negtrans|intros a b; apply ltb_asym].
  - unfold sorted_items. by rewrite !py_sorted_perm.
Qed.

Lemma member_perm x l l' : l ≡ₚ l' → member x l = member x l'.
Proof. intros H. apply eq_true_iff_eq. by rewrite !member_elem, H. Qed.

(** ** Reading a lock *)

(** The pins of a lock, in order, when every line is one. *)
Definition lock_lines (allow : bool) (lines : list string) : list string :=
  List.filter (λ l, negb (skipped allow l)) (map strip lines).
Definition entry (pin : string * string) : string * (string * string) := (normalize_package pin.1, pin).

Lemma read_lines_ok path allow n lines d p :
  NoDup (names d) →
  read_lines path allow n lines d = Ok p ↔
  ∃ pins, mapM parse_pin (lock_lines allow lines) = Some pins ∧ p = d ++ map entry pins ∧ NoDup (names p).
Proof.
  revert n d. induction lines as [|raw lines IH]; intros n d Hd.
  - simpl. split; [intros [= <-]; exists []; by rewrite app_nil_r|]. intros (pins & [= <-] & -> & _). by rewrite app_nil_r.
  - cbn [read_lines]. unfold lock_lines. cbn [map List.filter]. destruct (skipped allow (strip raw)); [by apply IH|].
    cbn [negb mapM]. unfold mbind at 1, option_bind at 1. destruct (parse_pin (strip raw)) as [[name version]|]; [|split; [done|naive_solver]].
    destruct (member (normalize_package name) (names d)) eqn:Hm.
    + split; [done|]. intros (pins & Hpins & -> & Hnd). exfalso.
      destruct (mapM parse_pin _) as [pins'|] eqn:E; [|done]. simpl in Hpins. injection Hpins as <-.
      unfold names in Hnd. rewrite map_app, NoDup_app in Hnd. destruct Hnd as (_ & Hnd & _).
      apply (Hnd (normalize_package name)); [by apply member_elem|by left].
    + assert (Hd' : NoDup (names (d ++ [(normalize_package name, (name, version))]))).
      { unfold names. rewrite map_app. apply NoDup_app. split; [done|]. split; [|apply NoDup_singleton].
        intros x Hx ->%list_elem_of_singleton. by apply member_false in Hm. }
      rewrite IH by done. change (List.filter _ (map strip lines)) with (lock_lines allow lines). split.
      * intros (pins & -> & -> & Hp). exists ((name, version) :: pins). rewrite <- app_assoc in *. done.
      * intros (pins' & Hpins & -> & Hp). destruct (mapM parse_pin (lock_lines allow lines)) as [pins|]; [|done].
        simpl in Hpins. injection Hpins as <-. exists pins. rewrite <- app_assoc. done.
Qed.

Lemma mapM_option_perm {A B} (f : A → option B) l l' k :
  l ≡ₚ l' → mapM f l = Some k → ∃ k', mapM f l' = Some k' ∧ k ≡ₚ k'.
Proof.
  intros Hp. rewrite mapM_Some. intros HF. destruct (Permutation.Permutation_Forall2 Hp HF) as (k' & Hk & HF').
  exists k'. by rewrite mapM_Some.
Qed.

Lemma filter_map_perm {A} (f : A → A) (p : A → bool) l l' : l ≡ₚ l' → List.filter p (map f l) ≡ₚ List.filter p (map f l').
Proof. intros H. apply filter_perm. by apply Permutation_map. Qed.

(** Two locks with the same lines hold the same packages. *)
Lemma read_lock_perm path path' text text' allow p :
  splitlines text ≡ₚ splitlines text' → read_python_lock path text allow = Ok p →
  ∃ p', read_python_lock path' text' allow = Ok p' ∧ p ≡ₚ p' ∧ NoDup (names p).
Proof.
  unfold read_python_lock. intros Hl Hr. apply read_lines_ok in Hr as (pins & Hpins & -> & Hn); [|apply NoDup_nil_2].
  apply (mapM_option_perm parse_pin _ (lock_lines allow (splitlines text'))) in Hpins as (pins' & Hpins' & Hp);
    [|by apply filter_map_perm].
  exists (map entry pins'). rewrite read_lines_ok by apply NoDup_nil_2. split; [|split; [by apply Permutation_map|done]].
  exists pins'. split; [done|]. split; [done|]. unfold names in *. simpl in *. by rewrite <- Hp.
Qed.

(** What a requirements text pins, said without the reader: every line, once
    trimmed, is empty, a comment, (in the second file) the inclusion of the
    first, or a name, [==] and a version without white space. *)
Definition name_alphabet : string := "ABCDEFGHIJKLMNOPQRSTUVWXYZabcdefghijklmnopqrstuvwxyz0123456789_.-".
Definition is_name (name : string) : Prop :=
  name ≠ "" ∧ ∀ c, c ∈ String.list_ascii_of_string name → c ∈ String.list_ascii_of_string name_alphabet.
Definition is_version (version : string) : Prop := version ≠ "" ∧ ∀ c, c ∈ chars version → is_space c = false.
Inductive pinned (include : bool) : list string → list (string * string) → Prop :=
  | pinned_end : pinned include [] []
  | pinned_blank l lines pins :
      strip l = "" ∨ (∃ comment, strip l = "#" +:+ comment) ∨ (include = true ∧ strip l = "-r runtime.lock") →
      pinned include lines pins → pinned include (l :: lines) pins
  | pinned_package l lines name version pins :
      strip l = name +:+ "==" +:+ version → is_name name → is_version version →
      pinned include lines pins → pinned include (l :: lines) ((name, version) :: pins).

Lemma after_prefix_split p s r : after_prefix p s = Some r → s = p +:+ r.
Proof.
  revert s. induction p as [|a p IH]; intros s; unfold after_prefix.
  - destruct s as [|b s]; simpl; [by intros [= <-]|]. intros [= <-].
    change (String b s) with ("" +:+ String b s) at 1. symmetry. exact (f_equal (String b) (substring_drop "" s _ eq_refl)).
  - destruct s as [|b s]; [done|]. cbn [String.prefix String.length String.substring Nat.sub].
    destruct (ascii_dec a b) as [<-|]; [|done]. intros H. change (String a p +:+ r) with (String a (p +:+ r)).
    f_equal. by apply IH.
Qed.
Lemma name_char_alphabet c : name_char c = true → c ∈ String.list_ascii_of_string name_alphabet.
Proof.
  intros H. apply (bool_decide_unpack _). revert H. by destruct c as [[] [] [] [] [] [] [] []]; vm_compute.
Qed.
Lemma span_name_split s w r : span_name s = (w, r) →
  s = w +:+ r ∧ ∀ c, c ∈ String.list_ascii_of_string w → c ∈ String.list_ascii_of_string name_alphabet.
Proof.
  revert w. induction s as [|c s IH]; intros w; cbn [span_name].
  - intros [= <- <-]. split; [done|]. intros c Hc. by apply elem_of_nil in Hc.
  - destruct (name_char c) eqn:Hc.
    + destruct (span_name s) as [w' r'] eqn:E. intros [= <- <-]. destruct (IH w' eq_refl) as [-> Hw]. split; [done|].
      intros d [->|Hd]%elem_of_cons; [by apply name_char_alphabet|by apply Hw].
    + intros [= <- <-]. split; [done|]. intros d Hd. by apply elem_of_nil in Hd.
Qed.
Lemma parse_pin_split line name version : parse_pin line = Some (name, version) →
  line = name +:+ "==" +:+ version ∧ is_name name ∧ is_version version.
Proof.
  unfold parse_pin. destruct (span_name line) as [w r] eqn:E. apply span_name_split in E as [-> Hw].
  destruct (after_prefix "==" r) as [v|] eqn:Er; [|done]. apply after_prefix_split in Er as ->.
  destruct (String.eqb_spec w ""), (String.eqb_spec v ""); try done. cbn [orb].
  destruct (existsb is_space (chars v)) eqn:Hv; [done|]. intros [= <- <-]. split; [done|]. split; [done|]. split; [done|].
  intros c Hc. destruct (is_space c) eqn:Hs; [|done].
  assert (existsb is_space (chars v) = true); [|congruence]. apply existsb_exists. exists c. by rewrite <- list_elem_of_In.
Qed.

Lemma lock_pinned include lines pins :
  mapM parse_pin (lock_lines include lines) = Some pins → pinned include lines pins.
Proof.
  revert pins. induction lines as [|l lines IH]; intros pins; unfold lock_lines; cbn [map List.filter].
  - intros [= <-]. constructor.
  - destruct (skipped include (strip l)) eqn:Hs; cbn [negb].
    + intros H. apply pinned_blank; [|by apply IH]. unfold skipped in Hs. rewrite !orb_true_iff, andb_true_iff, !String.eqb_eq in Hs.
      destruct Hs as [[->|Hs]|[-> ->]]; [by left|right; left|by right; right].
      unfold startswith in Hs. exists (String.substring 1 (String.length (strip l) - 1) (strip l)).
      apply after_prefix_split. unfold after_prefix. by rewrite Hs.
    + cbn [mapM]. unfold mbind, option_bind. destruct (parse_pin (strip l)) as [[name version]|] eqn:E; [|done].
      destruct (mapM parse_pin _) as [pins'|] eqn:E'; [|done]. intros [= <-].
      apply parse_pin_split in E as (? & ? & ?). by eapply pinned_package; [done..|by apply IH].
Qed.
Lemma read_lock_pinned path text include p : read_python_lock path text include = Ok p →
  pinned include (splitlines text) (map snd p) ∧ map fst p = map (λ pin, normalize_package pin.1) (map snd p)
  ∧ NoDup (names p).
Proof.
  unfold read_python_lock. intros H. apply read_lines_ok in H as (pins & Hp & -> & Hn); [|apply NoDup_nil_2].
  cbn [app] in *. split; [|split; [|done]].
  - rewrite map_map. unfold entry. cbn [snd]. rewrite map_id. by apply lock_pinned.
  - rewrite !map_map. done.
Qed.

(** ** The npm lock *)

(** The members of a JSON object, as a dict. *)
Lemma dict_items_names fields : NoDup (names (dict_items fields)) ∧ ∀ k, k ∈ names (dict_items fields) ↔ k ∈ map fst fields.
Proof.
  induction fields as [|[k v] fields [IH1 IH2]]; [split; [apply NoDup_nil_2|done]|]. cbn [dict_items].
  destruct (member k (names fields)) eqn:Hm.
  - split; [done|]. intros k'. rewrite IH2. cbn [map fst]. rewrite elem_of_cons. split; [by right|].
    intros [->|?]; [by apply member_elem|done].
  - apply member_false in Hm. split.
    + cbn [names map fst]. apply NoDup_cons. split; [|done]. by rewrite IH2.
    + intros k'. cbn [names map fst]. rewrite !elem_of_cons. by rewrite IH2.
Qed.
Lemma dict_items_value fields k v : (k, v) ∈ dict_items fields → jget k fields = Some v.
Proof.
  induction fields as [|[k' v'] fields IH]; cbn [dict_items jget]; [intros H; by apply elem_of_nil in H|].
  destruct (member k' (names fields)) eqn:Hm; [intros H; by rewrite IH|]. rewrite elem_of_cons.
  intros [[= <- <-]|H]; [|by rewrite IH]. apply member_false in Hm.
  replace (jget k fields) with (@None json); [by rewrite String.eqb_refl|]. symmetry.
  clear -Hm. induction fields as [|[k' v'] fields IH]; [done|]. cbn [jget names map fst] in *.
  rewrite not_elem_of_cons in Hm. destruct Hm as [Hne Hm]. rewrite (IH Hm). by destruct (String.eqb_spec k' k).
Qed.

(** What an npm lock locks: the members of its [packages] but the project. *)
Definition npm_packages (text : string) (packages : list (string * json)) : Prop :=
  ∃ lock, loads_text text = inr (JObj lock) ∧ jget "packages" lock = Some (JObj packages).

Lemma filter_names {A} (p : string * A → bool) l : NoDup (names l) → NoDup (names (List.filter p l)).
Proof.
  unfold names. induction l as [|[k v] l IH]; [done|]. cbn [map fst List.filter]. intros [Hk Hl]%NoDup_cons.
  destruct (p (k, v)); [|by apply IH]. cbn [map fst]. apply NoDup_cons. split; [|by apply IH].
  intros (kv & -> & [Hin _]%elem_of_filter_bool)%list_elem_of_fmap. apply Hk. by apply list_elem_of_fmap_2.
Qed.
Lemma node_items_packages text items : node_items text = Ok items →
  ∃ packages, npm_packages text packages ∧ NoDup (names items)
    ∧ (∀ path, path ∈ names items ↔ path ≠ "" ∧ path ∈ map fst packages)
    ∧ ∀ path v, (path, v) ∈ items → jget path packages = Some v.
Proof.
  unfold node_items. destruct (loads_text text) as [|[| | | | | |lock]] eqn:Hl; try done.
  destruct (is_three _); [|done]. cbn [negb]. destruct (jget "packages" lock) as [[| | | | | |packages]|] eqn:Hp; try done.
  intros [= <-]. exists packages. destruct (dict_items_names packages) as [Hn Hk]. split; [by exists lock|].
  assert (Hs : names (sorted_items (dict_items packages)) ≡ₚ names (dict_items packages))
    by (apply Permutation_map, py_sorted_perm).
  split; [|split].
  - rewrite <- Hs in Hn. by apply filter_names.
  - intros path. rewrite <- Hk, <- Hs. unfold names. rewrite !list_elem_of_fmap. setoid_rewrite elem_of_filter_bool.
    setoid_rewrite negb_true_iff. setoid_rewrite String.eqb_neq. naive_solver.
  - intros path v [Hin _]%elem_of_filter_bool. apply dict_items_value.
    unfold sorted_items in Hin. by rewrite py_sorted_perm in Hin.
Qed.

(** ** The Python part *)

Lemma sorted_names_nil l : sorted_names l = [] ↔ l = [].
Proof.
  unfold sorted_names. split; [|by intros ->]. intros H.
  apply Permutation_nil_r. rewrite <- H. symmetry. apply py_sorted_perm.
Qed.
Lemma filter_nil {A} (p : A → bool) l : List.filter p l = [] ↔ ∀ x, x ∈ l → p x = false.
Proof.
  split; [|apply filter_none]. intros H x Hx. destruct (p x) eqn:Hp; [|done].
  assert (Hin : x ∈ List.filter p l) by (by apply elem_of_filter_bool). rewrite H in Hin. by apply elem_of_nil in Hin.
Qed.
Lemma all_members l k : List.filter (λ n, negb (member n k)) l = [] ↔ l ⊆ k.
Proof. rewrite filter_nil. setoid_rewrite negb_false_iff. setoid_rewrite member_elem. done. Qed.

Lemma mapM_result_ext {A B} (f g : A → result B) l : (∀ x, f x = g x) → mapM f l = mapM g l.
Proof. intros H. induction l as [|x l IH]; [done|]. cbn [mapM]. by rewrite H, IH. Qed.

Section Rows.
Context (repr : string → string).

(** The rows exist exactly when the locks are disjoint and the policy lists
    the same packages. *)
Lemma python_rows_ok a b read rows :
  python_rows repr a b read = Ok rows ↔
  (∀ n, n ∈ names a → n ∉ names b) ∧
  ∃ policy, read = Ok policy ∧ names (a ++ b) ⊆ names policy ∧ names policy ⊆ names (a ++ b)
    ∧ mapM (python_row a policy) (sorted_items (a ++ b)) = Ok rows.
Proof.
  unfold python_rows. cbv zeta.
  destruct (bool_decide_reflect (sorted_names (List.filter (λ n, member n (names b)) (names a)) = [])) as [Ho|Ho]; cbn [negb].
  - rewrite sorted_names_nil, filter_nil in Ho. setoid_rewrite member_false in Ho.
    destruct read as [policy|e]; [|split; [done|naive_solver]]. unfold mbind at 1, result_bind at 1.
    destruct (bool_decide_reflect (sorted_names (List.filter (λ n, negb (member n (names policy))) (names (a ++ b))) = []
      ∧ sorted_names (List.filter (λ n, negb (member n (names (a ++ b)))) (names policy)) = [])) as [Hm|Hm]; cbn [negb].
    + rewrite !sorted_names_nil, !all_members in Hm. split; [intros H; split; [done|]; exists policy; tauto|]. naive_solver.
    + split; [done|]. intros (_ & policy' & [= <-] & H1 & H2 & _). exfalso. apply Hm. by rewrite !sorted_names_nil, !all_members.
  - split; [done|]. intros (H & _). exfalso. apply Ho. apply sorted_names_nil, filter_nil. intros x Hx. by apply member_false, H.
Qed.

Lemma names_disjoint (a b : Packages) :
  NoDup (names a) → NoDup (names b) → (∀ n, n ∈ names a → n ∉ names b) → NoDup (names (a ++ b)).
Proof. intros. unfold names. rewrite map_app. by apply NoDup_app. Qed.

Lemma python_rows_perm a b a' b' read rows :
  NoDup (names a) → NoDup (names b) → a ≡ₚ a' → b ≡ₚ b' →
  python_rows repr a b read = Ok rows → python_rows repr a' b' read = Ok rows.
Proof.
  intros Ha Hb Pa Pb. rewrite !python_rows_ok. intros (Hd & policy & -> & H1 & H2 & H3).
  assert (Ea : names a ≡ₚ names a') by (by apply Permutation_map).
  assert (Eb : names b ≡ₚ names b') by (by apply Permutation_map).
  assert (Eab : names (a ++ b) ≡ₚ names (a' ++ b')) by (unfold names; rewrite !map_app; by apply Permutation_app).
  split; [intros n; rewrite <- Ea, <- Eb; apply Hd|]. exists policy. split; [done|].
  split; [intros n; rewrite <- Eab; apply H1|]. split; [intros n Hn; rewrite <- Eab; by apply H2|].
  rewrite <- (sorted_items_perm (a ++ b)); [|by apply names_disjoint|by apply Permutation_app].
  rewrite <- H3. apply mapM_result_ext. intros [n [disp v]]. unfold python_row. by rewrite (member_perm n _ _ Ea).
Qed.
End Rows.

(** ** The order of the locks *)

Definition with_locks (runtime ci : string) (i : Inputs) : Inputs := {|
  runtime_lock := runtime; ci_lock := ci; policy_csv := policy_csv i; node_lock := node_lock i;
  runtime_path := runtime_path i; ci_path := ci_path i; policy_path := policy_path i |}.

(** The inventory does not depend on the order of the locks: whatever the
    order of their lines (comments and blank lines included), the same
    inventory is built, character for character. *)
Theorem inventory_order_free repr i runtime ci text :
  splitlines (runtime_lock i) ≡ₚ splitlines runtime → splitlines (ci_lock i) ≡ₚ splitlines ci →
  build_inventory repr i = Ok text → build_inventory repr (with_locks runtime ci i) = Ok text.
Proof.
  intros Hr Hc. unfold build_inventory, inventory_rows. unfold mbind, result_bind.
  destruct (read_python_lock (runtime_path i) _ _) as [a|] eqn:Ea; [|done].
  destruct (read_python_lock (ci_path i) _ _) as [b|] eqn:Eb; [|done].
  destruct (read_lock_perm _ (runtime_path i) _ runtime _ _ Hr Ea) as (a' & Ea' & Pa & Na).
  destruct (read_lock_perm _ (ci_path i) _ ci _ _ Hc Eb) as (b' & Eb' & Pb & Nb).
  cbn [with_locks runtime_path ci_path runtime_lock ci_lock policy_path policy_csv node_lock]. rewrite Ea', Eb'.
  destruct (python_rows repr a b _) as [rows|] eqn:Ep; [|done]. by rewrite (python_rows_perm _ _ _ _ _ _ _ Na Nb Pa Pb Ep).
Qed.

Lemma inventory_order_free_witness :
  build_inventory (λ s, s) (with_locks ("a_b==1" +:+ lf +:+ "SQLAlchemy==2.0.1" +:+ lf +:+ "# exact")
    ("pillow==9" +:+ lf +:+ "-r runtime.lock") sample_inputs) = build_inventory (λ s, s) sample_inputs.
Proof.
  destruct (build_inventory (λ s, s) sample_inputs) as [text|e] eqn:E.
  - apply inventory_order_free; [| |exact E].
    + apply (bool_decide_unpack _). vm_compute. exact I.
    + apply (bool_decide_unpack _). vm_compute. exact I.
  - apply (f_equal (λ r, match r with Ok _ => true | Raise _ => false end)) in E. vm_compute in E. discriminate E.
Defined.

(** ** The licence gate *)

Lemma strong_copyleft_eq prev s :
  strong_copyleft prev s
  = (negb (bool_decide (prev = Some "L"%char)) && (String.prefix "GPL-2.0" s || String.prefix "GPL-3.0" s))
    || match s with String c s' => strong_copyleft (Some c) s' | EmptyString => false end.
Proof. by destruct s. Qed.
Lemma copyleft_behind prev s a v b :
  strong_copyleft prev s = false → v = "GPL-2.0" ∨ v = "GPL-3.0" → s = a +:+ v +:+ b →
  (a = "" ∧ prev = Some "L"%char) ∨ ∃ a', a = a' +:+ "L".
Proof.
  intros Hs Hv ->. revert prev Hs. induction a as [|c a IH]; intros prev Hs.
  - left. split; [done|]. change ("" +:+ ?x) with x in Hs.
    assert (Hp : String.prefix "GPL-2.0" (v +:+ b) || String.prefix "GPL-3.0" (v +:+ b) = true).
    { apply orb_true_iff. destruct Hv as [->| ->]; [left|right]; apply prefix_app. }
    rewrite strong_copyleft_eq, Hp, andb_true_r in Hs. apply orb_false_iff in Hs as [Hs _].
    by apply negb_false_iff, bool_decide_eq_true in Hs.
  - right. change (String c a +:+ ?x) with (String c (a +:+ x)) in Hs. rewrite strong_copyleft_eq in Hs.
    apply orb_false_iff in Hs as [_ Hs]. destruct (IH _ Hs) as [[-> [= ->]]|[a' ->]]; [by exists ""|by exists (String c a')].
Qed.

(** A licence the policy admits: stated, specific, and without the identifiers
    [AGPL], or [GPL-2.0] and [GPL-3.0] not preceded by [L] (the SPDX spellings:
    see [license_examples] for others). *)
Definition approved (e : string) : Prop :=
  e ≠ "" ∧ (∀ m a b, m ∈ "AGPL" :: INVALID_LICENSE_MARKERS → upper e ≠ a +:+ m +:+ b)
  ∧ ∀ v a b, v = "GPL-2.0" ∨ v = "GPL-3.0" → upper e = a +:+ v +:+ b → ∃ a', a = a' +:+ "L".

Lemma validate_approves repr e package : validate_license repr e package = Ok tt → approved e.
Proof.
  unfold validate_license. cbv zeta.
  destruct (String.eqb_spec e "") as [|He]; [done|]. cbn [orb].
  destruct (any (λ marker, occurs marker (upper e)) INVALID_LICENSE_MARKERS) eqn:Hm; [done|].
  destruct (occurs "AGPL" (upper e)) eqn:Ha; [done|]. cbn [orb]. destruct (strong_copyleft None (upper e)) eqn:Hs; [done|].
  intros _. split; [done|]. split.
  - intros m a b Hin Heq. assert (Ho : occurs m (upper e) = true) by (apply occurs_split; eauto).
    apply elem_of_cons in Hin as [->|Hin]; [congruence|].
    assert (H : any (λ marker, occurs marker (upper e)) INVALID_LICENSE_MARKERS = true); [|congruence].
    apply existsb_exists. exists m. by rewrite <- list_elem_of_In.
  - intros v a b Hv Heq. by destruct (copyleft_behind _ _ _ _ _ Hs Hv Heq) as [[_ ?]|].
Qed.

Lemma read_rows_approved repr header rows d policy :
  Forall (λ kv, approved (po_license_expression kv.2) ∧ po_disposition kv.2 ∈ POLICY_DISPOSITIONS) d →
  read_rows repr header rows d = Ok policy →
  Forall (λ kv, approved (po_license_expression kv.2) ∧ po_disposition kv.2 ∈ POLICY_DISPOSITIONS) policy.
Proof.
  revert d. induction rows as [|row rows IH]; intros d Hd; cbn [read_rows]; [by intros [= <-]|].
  unfold mbind, result_bind. destruct (policy_row header row) as [typed|]; [|done].
  destruct (member _ (names d)); [done|]. destruct (validate_license _ _ _) as [[]|] eqn:Hv; [|done].
  destruct (member (po_disposition typed) _) eqn:Hdis; [|done]. cbn [negb]. apply IH.
  apply Forall_app. split; [done|]. apply Forall_singleton. split; [by eapply validate_approves|by apply member_elem].
Qed.

(** The row written for a package, and for an entry of the npm lock. *)
Lemma python_row_ok a policy kv r :
  Forall (λ kv, approved (po_license_expression kv.2) ∧ po_disposition kv.2 ∈ POLICY_DISPOSITIONS) policy →
  python_row a policy kv = Ok r →
  (iv_package r, iv_version r) = kv.2 ∧ approved (iv_license_expression r) ∧ iv_disposition r ∈ POLICY_DISPOSITIONS.
Proof.
  intros HP. destruct kv as [n [disp v]]. unfold python_row, dict_get.
  destruct (List.find _ policy) as [p|] eqn:Hf; [|done]. change (snd <$> Some p) with (Some p.2). cbv iota. intros Hr.
  assert (Hin : p ∈ policy) by (apply list_elem_of_In; by eapply List.find_some).
  rewrite Forall_forall in HP. destruct (HP p Hin) as [H1 H2].
  destruct (member n (names a)); [|destruct (member n DOCUMENTATION_PACKAGES)]; injection Hr as <-; done.
Qed.
Lemma node_row_ok repr item r :
  node_row repr item = Ok r →
  (∃ fields, item = (iv_locked_path r, JObj fields) ∧ jget "version" fields = Some (JStr (iv_version r))
     ∧ jget "license" fields = Some (JStr (iv_license_expression r)))
  ∧ approved (iv_license_expression r) ∧ iv_disposition r ∈ POLICY_DISPOSITIONS.
Proof.
  destruct item as [path metadata]. unfold node_row. destruct metadata; try done.
  destruct (jget "version" fields) as [[]|] eqn:Ev; try done. destruct (jget "license" fields) as [[]|] eqn:El; try done.
  unfold mbind, result_bind. destruct (node_package_name path) as [name|]; [|done].
  destruct (validate_license _ _ _) as [[]|] eqn:Hv; [|done]. cbv zeta. unfold mret, result_ret.
  intros E. injection E as <-. cbn.
  split; [by exists fields|]. split; [by eapply validate_approves|].
  unfold POLICY_DISPOSITIONS. rewrite !elem_of_cons. destruct (occurs "LGPL" _ || _); tauto.
Qed.

(** C34: the licence gate: when an inventory is built, every line of the two
    requirements texts was a pin, a comment or the inclusion, and the inventory
    has exactly one row for every pinned Python package, with its version, and
    one for every entry of the npm lock but the project itself, with the
    version and the licence the lock records; every row, whatever its origin,
    carries a stated and specific licence without the identifiers AGPL,
    GPL-2.0 or GPL-3.0 (LGPL apart), and a reviewed or accepted disposition. *)
Theorem license_gate repr i rows :
  inventory_rows repr i = Ok rows →
  (∃ runtime ci packages python node,
     pinned false (splitlines (runtime_lock i)) runtime ∧ pinned true (splitlines (ci_lock i)) ci
     ∧ NoDup (map (λ pin, normalize_package pin.1) (runtime ++ ci))
     ∧ npm_packages (node_lock i) packages
     ∧ rows = python ++ node
     ∧ map (λ r, (iv_package r, iv_version r)) python ≡ₚ runtime ++ ci
     ∧ NoDup (map iv_locked_path node)
     ∧ (∀ path, path ∈ map iv_locked_path node ↔ path ≠ "" ∧ path ∈ map fst packages)
     ∧ (∀ r, r ∈ node → ∃ fields, jget (iv_locked_path r) packages = Some (JObj fields)
          ∧ jget "version" fields = Some (JStr (iv_version r))
          ∧ jget "license" fields = Some (JStr (iv_license_expression r))))
  ∧ ∀ r, r ∈ rows → approved (iv_license_expression r) ∧ iv_disposition r ∈ POLICY_DISPOSITIONS.
Proof.
  unfold inventory_rows, mbind, result_bind.
  destruct (read_python_lock (runtime_path i) _ _) as [a|] eqn:Ea; [|done].
  destruct (read_python_lock (ci_path i) _ _) as [b|] eqn:Eb; [|done].
  destruct (python_rows repr a b _) as [python|] eqn:Ep; [|done].
  destruct (node_items (node_lock i)) as [items|] eqn:Ei; [|done].
  destruct (mapM (node_row repr) items) as [node|] eqn:En; [|done]. intros [= <-].
  apply python_rows_ok in Ep as (Hdis & policy & Hpol & _ & _ & Hrows).
  apply mapM_forall2 in Hrows, En.
  assert (Hgood : Forall (λ kv, approved (po_license_expression kv.2) ∧ po_disposition kv.2 ∈ POLICY_DISPOSITIONS) policy).
  { unfold read_python_policy in Hpol. destruct (dict_reader _) as [header rows]. destruct (negb _); [done|].
    by eapply read_rows_approved; [|exact Hpol]. }
  split.
  - apply read_lock_pinned in Ea as (Pa & Fa & Na), Eb as (Pb & Fb & Nb).
    apply node_items_packages in Ei as (packages & Hpk & Hn & Hpaths & Hval).
    assert (Hnode : map iv_locked_path node = names items).
    { clear -En. unfold names. induction En as [|kv r l k Hr _ IH]; [done|]. simpl. rewrite IH. f_equal.
      by apply node_row_ok in Hr as [(fields & -> & _) _]. }
    exists (map snd a), (map snd b), packages, python, node. do 2 (split; [done|]).
    split; [rewrite map_app, <- Fa, <- Fb, <- map_app; by apply names_disjoint|]. do 2 (split; [done|]). split.
    + rewrite <- map_app. trans (map snd (sorted_items (a ++ b))); [|apply Permutation_map, py_sorted_perm].
      apply Permutation_refl'. clear -Hrows Hgood. induction Hrows as [|kv r l k Hr _ IH]; [done|]. simpl. rewrite IH. f_equal.
      by apply (python_row_ok _ _ _ _ Hgood) in Hr as [-> _].
    + rewrite Hnode. do 2 (split; [done|]). intros r Hr.
      destruct (Forall2_elem_r _ _ _ _ En Hr) as (kv & Hkv & [(fields & -> & Hv & Hlic) _]%node_row_ok).
      exists fields. split; [|done]. by apply Hval.
  - intros r [Hr|Hr]%elem_of_app.
    + destruct (Forall2_elem_r _ _ _ _ Hrows Hr) as (kv & _ & H). by apply (python_row_ok _ _ _ _ Hgood) in H as [_ H].
    + destruct (Forall2_elem_r _ _ _ _ En Hr) as (kv & _ & H). by apply node_row_ok in H as [_ H].
Qed.

Lemma license_gate_witness :
  ∃ rows, inventory_rows (λ s, s) sample_inputs = Ok rows ∧ length rows = 5%nat
    ∧ ∀ r, r ∈ rows → approved (iv_license_expression r).
Proof.
  destruct (inventory_rows (λ s, s) sample_inputs) as [rows|e] eqn:E.
  - exists rows. split; [done|]. split.
    + apply (f_equal (λ r, match r with Ok l => length l | Raise _ => 0%nat end)) in E. vm_compute in E. by symmetry.
    + intros r Hr. by apply (license_gate _ _ _ E).
  - apply (f_equal (λ r, match r with Ok _ => true | Raise _ => false end)) in E. vm_compute in E. discriminate E.
Defined.

(** ** The committed file *)

Lemma inventory_reads rows : csv_records (inventory_text rows) = inventory_header :: map inventory_cells rows.
Proof.
  apply csv_rows_read. constructor; [simpl; lia|]. apply Forall_forall. intros c (r & -> & _)%list_elem_of_fmap. simpl. lia.
Qed.

(** The committed inventory is faithful: read back as CSV, it is the header
    and exactly the cells of the rows, whatever characters they hold; and once
    [--write] has stored it the check passes, unless a cell holds a carriage
    return, which the check would read as a line feed. *)
Theorem inventory_faithful repr i rows file inventory :
  inventory_rows repr i = Ok rows → main repr true inventory i = Ok (Wrote file) →
  csv_records file = inventory_header :: map inventory_cells rows
  ∧ (contains_char (ascii_of_N 13) file = false →
     main repr false (Some file) i = Ok (Current (count_char (ascii_of_N 10) file - 1))).
Proof.
  intros Hr. unfold main, build_inventory. rewrite Hr. unfold mbind, result_bind, mret, result_ret. intros [= <-].
  split; [apply inventory_reads|]. intros Hc. by rewrite universal_plain, String.eqb_refl.
Qed.

Lemma inventory_faithful_witness :
  ∃ file, main (λ s, s) true None sample_inputs = Ok (Wrote file)
    ∧ main (λ s, s) false (Some file) sample_inputs = Ok (Current 5).
Proof.
  destruct (inventory_rows (λ s, s) sample_inputs) as [rows|e] eqn:E.
  - destruct (inventory_faithful (λ s, s) sample_inputs rows (inventory_text rows) None E) as [_ H].
    { unfold main, build_inventory. rewrite E. reflexivity. }
    exists (inventory_text rows). split; [unfold main, build_inventory; rewrite E; reflexivity|].
    rewrite H; apply (f_equal (λ r, match r with Ok l => inventory_text l | Raise _ => "" end)) in E; rewrite <- E;
      vm_compute; reflexivity.
  - apply (f_equal (λ r, match r with Ok _ => true | Raise _ => false end)) in E. vm_compute in E. discriminate E.
Defined.

(** ** Examples *)

Example inventory_example :
  build_inventory (λ s, s) sample_inputs = Ok (join lf [
    "ecosystem,locked_path,package,version,license_expression,scope,disposition,notes";
    "python,requirements/runtime.lock,a_b,1,MIT-0,runtime,accepted,";
    "python,requirements/ci.lock,pillow,9,HPND,documentation,reviewed," +:+ csv_field "fonts, images";
    "python,requirements/runtime.lock,SQLAlchemy,2.0.1,MIT,runtime,accepted,";
    "javascript,node_modules/a,a,1.0.0,MIT,runtime+optional,accepted,License metadata recorded in npm lockfile.";
    "javascript,node_modules/a/node_modules/@s/b,@s/b,2.1.0,MPL-2.0,development,reviewed,License metadata recorded in npm lockfile.";
    ""]).
Proof. vm_compute. reflexivity. Qed.
Example license_examples :
  map (λ e, match validate_license (λ s, s) e "p" with Ok _ => true | Raise _ => false end)
    ["MIT"; "LGPL-3.0-or-later"; "GPL-3.0-only"; "MIT OR gpl-2.0"; "AGPL-1.0"; ""; "unknown"; "GPL-1.0"; "UNLıCENSED";
     "GPLv3"; "GPL-2"]
  = [true; true; false; false; false; false; false; true; false; true; true].
Proof. vm_compute. reflexivity. Qed.
