(* ===== verification/Regex.v ===== *)
(** Python's [re] on the constructs the scripts use: character sets, groups,
    greedy repetition, zero-width assertions on the neighbouring characters,
    [search], and the leftmost matches of [finditer] and [sub].

    A text is the list of its characters.  The matcher backtracks in Python's
    order, with continuations; [matches] is its declarative reading. *)
From S2P Require Import Prelude PyStr.

(** ** Patterns *)

Inductive regex :=
  | REps
  | RChar (p : string → bool)
  | RCat (r1 r2 : regex)
  | RAlt (r1 r2 : regex)
  | RStar (r : regex)
  | RGroup (r : regex)
  | RAssert (a : option string → option string → bool).

Definition RPlus (r : regex) : regex := RCat r (RStar r).
Definition ROpt (r : regex) : regex := RAlt r REps.
(** A literal text, its characters compared by [eq]. *)
Definition RText (eq : string → string → bool) (s : string) : regex :=
  foldr (λ c r, RCat (RChar (eq c)) r) REps (chars s).
(** [r1|r2|...]: nothing matches the empty choice. *)
Definition RChoice (l : list regex) : regex := foldr RAlt (RChar (λ _, false)) l.
(** The set of the characters between two bounds of one byte. *)
Definition code (c : string) : option N :=
  match c with String a EmptyString => Some (N_of_ascii a) | _ => None end.
Definition between (lo hi : ascii) (c : string) : bool :=
  match code c with Some n => (N_of_ascii lo <=? n)%N && (n <=? N_of_ascii hi)%N | None => false end.
Definition one_of (s : string) (c : string) : bool := existsb (String.eqb c) (chars s).

(** ** Matching *)

Section Matching.
Context {X : Type}.

(** The rest of the match: the character before the position, the text from
    it, and the text of the last closed group. *)
Definition Rest : Type := option string → list string → list string → option X.
Definition or_else (o : option X) (o' : option X) : option X := match o with Some x => Some x | None => o' end.

(** [r*]: one more non-empty round if possible; [n] bounds the rounds. *)
Fixpoint star (step : option string → list string → list string → Rest → option X) (n : nat)
    (prev : option string) (s cap : list string) (k : Rest) : option X :=
  match n with
  | O => k prev s cap
  | S n =>
      or_else (step prev s cap (λ prev' s' cap',
                 if (length s' <? length s)%nat then star step n prev' s' cap' k else None))
              (k prev s cap)
  end.
Fixpoint go (r : regex) (prev : option string) (s cap : list string) (k : Rest) : option X :=
  match r with
  | REps => k prev s cap
  | RChar p => match s with c :: s' => if p c then k (Some c) s' cap else None | [] => None end
  | RCat r1 r2 => go r1 prev s cap (λ prev' s' cap', go r2 prev' s' cap' k)
  | RAlt r1 r2 => or_else (go r1 prev s cap k) (go r2 prev s cap k)
  | RStar r => star (go r) (length s) prev s cap k
  | RGroup r => go r prev s cap (λ prev' s' _, k prev' s' (take (length s - length s') s))
  | RAssert a => if a prev (head s) then k prev s cap else None
  end.
End Matching.
Arguments Rest X : clear implicits.

(** The match at a position: what is left, with its preceding character, and
    the group. *)
Definition match_at (r : regex) (prev : option string) (s : list string) : option (option string * list string * list string) :=
  go r prev s [] (λ prev' s' cap, Some (prev', s', cap)).
Definition starts (r : regex) (prev : option string) (s : list string) : bool := bool_decide (is_Some (match_at r prev s)).
(** [re.search(r, s) is not None] *)
Fixpoint search_from (r : regex) (prev : option string) (s : list string) : bool :=
  starts r prev s || match s with c :: s' => search_from r (Some c) s' | [] => false end.
Definition search (r : regex) (text : string) : bool := search_from r None (chars text).
(** [re.fullmatch(r, s) is not None] *)
Definition fullmatch (r : regex) (text : string) : bool :=
  bool_decide (is_Some (go r None (chars text) [] (λ _ s' _, match s' with [] => Some tt | _ => None end))).

(** A text cut into its leftmost matches and the characters between them; for
    a pattern that matches no empty text. *)
Inductive piece :=
  | Gap (c : string)
  | Found (text group : list string).
Fixpoint scan_from (n : nat) (r : regex) (prev : option string) (s : list string) : list piece :=
  match n, s with
  | S n, c :: s' =>
      match match_at r prev s with
      | Some (prev', rest, cap) =>
          if (length rest <? length s)%nat
          then Found (take (length s - length rest) s) cap :: scan_from n r prev' rest
          else Gap c :: scan_from n r (Some c) s'
      | None => Gap c :: scan_from n r (Some c) s'
      end
  | _, _ => []
  end.
Definition scan (r : regex) (text : string) : list piece := scan_from (length (chars text)) r None (chars text).
(** [[m.group(1) for m in r.finditer(text)]] *)
Definition find_groups (r : regex) (text : string) : list string :=
  omap (λ p, match p with Found _ cap => Some (join_chars cap) | Gap _ => None end) (scan r text).

(** ** What a pattern matches *)

(** The character before the position that follows [u]. *)
Definition after (prev : option string) (u : list string) : option string :=
  match last u with Some c => Some c | None => prev end.

(** [matches r prev u v cap cap']: between the character [prev] and the text
    [v], [r] matches [u]; the group holds [cap] before and [cap'] after. *)
Inductive matches : regex → option string → list string → list string → list string → list string → Prop :=
  | m_eps prev v cap : matches REps prev [] v cap cap
  | m_char p c prev v cap : p c = true → matches (RChar p) prev [c] v cap cap
  | m_cat r1 r2 prev u w v cap cap1 cap2 :
      matches r1 prev u (w ++ v) cap cap1 → matches r2 (after prev u) w v cap1 cap2 →
      matches (RCat r1 r2) prev (u ++ w) v cap cap2
  | m_left r1 r2 prev u v cap cap' : matches r1 prev u v cap cap' → matches (RAlt r1 r2) prev u v cap cap'
  | m_right r1 r2 prev u v cap cap' : matches r2 prev u v cap cap' → matches (RAlt r1 r2) prev u v cap cap'
  | m_stop r prev v cap : matches (RStar r) prev [] v cap cap
  | m_round r prev u w v cap cap1 cap2 :
      u ≠ [] → matches r prev u (w ++ v) cap cap1 → matches (RStar r) (after prev u) w v cap1 cap2 →
      matches (RStar r) prev (u ++ w) v cap cap2
  | m_group r prev u v cap cap' : matches r prev u v cap cap' → matches (RGroup r) prev u v cap u
  | m_assert a prev v cap : a prev (head v) = true → matches (RAssert a) prev [] v cap cap.

Lemma after_app prev u w : after prev (u ++ w) = after (after prev u) w.
Proof. unfold after. rewrite last_app. by destruct (last w). Qed.

Lemma or_else_some {X} (a b : option X) x : or_else a b = Some x → a = Some x ∨ b = Some x.
Proof. destruct a as [y|]; simpl; auto. Qed.

(** ** The matcher finds matches only *)

Definition sound (r : regex) : Prop := ∀ X prev s cap (k : Rest X) x,
  go r prev s cap k = Some x →
  ∃ u v cap', s = u ++ v ∧ matches r prev u v cap cap' ∧ k (after prev u) v cap' = Some x.

Lemma star_sound r : sound r → ∀ X n prev s cap (k : Rest X) x,
  star (go r) n prev s cap k = Some x →
  ∃ u v cap', s = u ++ v ∧ matches (RStar r) prev u v cap cap' ∧ k (after prev u) v cap' = Some x.
Proof.
  intros Hr X n. induction n as [|n IH]; intros prev s cap k x H.
  - exists [], s, cap. split_and!; [done|constructor|done].
  - apply or_else_some in H as [H|H]; [|by exists [], s, cap; split_and!; [done|constructor|]].
    destruct (Hr _ _ _ _ _ _ H) as (u & v & cap1 & -> & Hm & Hk).
    destruct (Nat.ltb_spec (length v) (length (u ++ v))) as [Hlt|]; [|done].
    destruct (IH _ _ _ _ _ Hk) as (w & v' & cap2 & -> & Hs & Hx). exists (u ++ w), v', cap2.
    rewrite <- app_assoc, after_app. split_and!; [done| |done]. eapply m_round; [|exact Hm|exact Hs].
    intros ->. cbn [app] in Hlt. lia.
Qed.

Lemma go_sound r : sound r.
Proof.
  induction r as [|p|r1 IH1 r2 IH2|r1 IH1 r2 IH2|r IH|r IH|a]; intros X prev s cap k x H; cbn [go] in H.
  - exists [], s, cap. split_and!; [done|constructor|done].
  - destruct s as [|c s]; [done|]. destruct (p c) eqn:Hp; [|done].
    exists [c], s, cap. split_and!; [done|by constructor|done].
  - destruct (IH1 _ _ _ _ _ _ H) as (u & v & cap1 & -> & H1 & Hk).
    destruct (IH2 _ _ _ _ _ _ Hk) as (w & v' & cap2 & -> & H2 & Hx). exists (u ++ w), v', cap2.
    rewrite <- app_assoc, after_app. split_and!; [done|by eapply m_cat|done].
  - apply or_else_some in H as [H|H]; [destruct (IH1 _ _ _ _ _ _ H) as (u & v & c' & -> & Hm & Hk)
                                      |destruct (IH2 _ _ _ _ _ _ H) as (u & v & c' & -> & Hm & Hk)];
      exists u, v, c'; split_and!; [done|by constructor|done..|by constructor|done].
  - by eapply star_sound.
  - destruct (IH _ _ _ _ _ _ H) as (u & v & cap1 & -> & H1 & Hk). exists u, v, u.
    rewrite length_app, Nat.add_sub, take_app_length in Hk. split_and!; [done|by eapply m_group|done].
  - destruct (a prev (head s)) eqn:Ha; [|done]. exists [], s, cap. split_and!; [done|by constructor|done].
Qed.

(** ** The matcher finds every match *)

Lemma or_else_left {X} (a b : option X) : a ≠ None → or_else a b ≠ None.
Proof. by destruct a. Qed.
Lemma or_else_right {X} (a b : option X) : b ≠ None → or_else a b ≠ None.
Proof. by destruct a. Qed.

Lemma matches_found r prev u v cap cap' : matches r prev u v cap cap' →
  ∀ X (k : Rest X), k (after prev u) v cap' ≠ None →
    go r prev (u ++ v) cap k ≠ None
    ∧ ∀ r0 n, r = RStar r0 → (length (u ++ v) ≤ n)%nat → star (go r0) n prev (u ++ v) cap k ≠ None.
Proof.
  intros Hm X.
  induction Hm as [prev v cap|p c prev v cap Hp|r1 r2 prev u w v cap cap1 cap2 _ IH1 _ IH2|r1 r2 prev u v cap cap' _ IH
    |r1 r2 prev u v cap cap' _ IH|r prev v cap|r prev u w v cap cap1 cap2 Hu _ IH1 _ IH2|r prev u v cap cap' _ IH|a prev v cap Ha];
    intros k Hk.
  - by split.
  - split; [|done]. cbn [app go]. by rewrite Hp.
  - split; [|done]. rewrite after_app in Hk. cbn [go]. rewrite <- app_assoc. by apply IH1, IH2.
  - split; [|done]. by apply or_else_left, IH.
  - split; [|done]. by apply or_else_right, IH.
  - assert (Hs : ∀ n, star (go r) n prev ([] ++ v) cap k ≠ None) by (intros [|n]; [done|by apply or_else_right]).
    split; [by apply Hs|]. by intros r0 n [= <-] _.
  - rewrite after_app in Hk.
    assert (Hs : ∀ n, (length ((u ++ w) ++ v) ≤ n)%nat → star (go r) n prev ((u ++ w) ++ v) cap k ≠ None).
    { intros n Hn. rewrite <- app_assoc in *. rewrite length_app in Hn.
      assert (0 < length u)%nat by (destruct u; [done|simpl; lia]). destruct n as [|n]; [lia|].
      apply or_else_left, IH1. cbv beta. rewrite (proj2 (Nat.ltb_lt _ _)) by (rewrite (length_app u); lia).
      apply (proj2 (IH2 k Hk) r n eq_refl). lia. }
    split; [by apply Hs|]. by intros r0 n [= <-] Hn; apply Hs.
  - split; [|done]. cbn [go]. apply IH. by rewrite length_app, Nat.add_sub, take_app_length.
  - split; [|done]. cbn [app go]. by rewrite Ha.
Qed.

Lemma match_at_sound r prev s prev' rest cap :
  match_at r prev s = Some (prev', rest, cap) →
  ∃ u, s = u ++ rest ∧ matches r prev u rest [] cap ∧ prev' = after prev u.
Proof. intros (u & v & c & -> & Hm & [= <- <- <-])%go_sound. by exists u. Qed.
Lemma starts_spec r prev s : starts r prev s = true ↔ ∃ u v cap, s = u ++ v ∧ matches r prev u v [] cap.
Proof.
  unfold starts. rewrite bool_decide_eq_true. split.
  - intros [[[prev' rest] cap] (u & -> & Hm & _)%match_at_sound]. eauto.
  - intros (u & v & cap & -> & Hm). apply not_eq_None_Some. by apply (matches_found _ _ _ _ _ _ Hm).
Qed.

(** [search] finds a match wherever there is one. *)
Lemma search_from_spec r prev s :
  search_from r prev s = true ↔ ∃ a u b cap, s = a ++ u ++ b ∧ matches r (after prev a) u b [] cap.
Proof.
  split.
  - revert prev. induction s as [|c s IH]; intros prev; cbn [search_from]; rewrite orb_true_iff, starts_spec.
    + intros [(u & v & cap & E & Hm)|]; [by exists [], u, v, cap|done].
    + intros [(u & v & cap & E & Hm)|H]; [by exists [], u, v, cap|].
      destruct (IH _ H) as (a & u & b & cap & -> & Hm). exists (c :: a), u, b, cap. split; [done|].
      by change (c :: a) with ([c] ++ a); rewrite after_app.
  - intros (a & u & b & cap & -> & Hm). revert prev Hm. induction a as [|c a IH]; intros prev Hm.
    + assert (starts r prev (u ++ b) = true) as E by (apply starts_spec; by exists u, b, cap).
      cbn [app]. destruct (u ++ b); cbn [search_from]; by rewrite E.
    + cbn [app search_from]. rewrite IH; [by rewrite orb_true_r|]. change (c :: a) with ([c] ++ a) in Hm. by rewrite after_app in Hm.
Qed.
Lemma search_spec r text :
  search r text = true ↔ ∃ a u b cap, chars text = a ++ u ++ b ∧ matches r (after None a) u b [] cap.
Proof. apply search_from_spec. Qed.
Lemma fullmatch_spec r text : fullmatch r text = true ↔ ∃ cap, matches r None (chars text) [] [] cap.
Proof.
  unfold fullmatch. rewrite bool_decide_eq_true. split.
  - intros [x (u & [|c v] & cap & E & Hm & Hx)%go_sound]; [|done]. rewrite app_nil_r in E. exists cap. by rewrite E.
  - intros [cap Hm]. apply not_eq_None_Some. rewrite <- (app_nil_r (chars text)). by apply (matches_found _ _ _ _ _ _ Hm).
Qed.

(** ** Leftmost matches *)

(** A text cut into matches and characters at which no match starts. *)
Inductive scanned (r : regex) : option string → list string → list piece → Prop :=
  | scanned_end prev : scanned r prev [] []
  | scanned_gap prev c s l :
      (∀ u v cap, c :: s = u ++ v → u ≠ [] → ¬ matches r prev u v [] cap) →
      scanned r (Some c) s l → scanned r prev (c :: s) (Gap c :: l)
  | scanned_match prev u v cap l :
      u ≠ [] → matches r prev u v [] cap → scanned r (after prev u) v l → scanned r prev (u ++ v) (Found u cap :: l).

(** A pattern that matches no empty text. *)
Fixpoint consuming (r : regex) : bool :=
  match r with
  | REps | RStar _ | RAssert _ => false
  | RChar _ => true
  | RCat r1 r2 => consuming r1 || consuming r2
  | RAlt r1 r2 => consuming r1 && consuming r2
  | RGroup r => consuming r
  end.
Lemma consuming_spec r prev u v cap cap' : matches r prev u v cap cap' → consuming r = true → u ≠ [].
Proof.
  induction 1; cbn [consuming]; try done; rewrite ?orb_true_iff, ?andb_true_iff.
  - intros [?|?] [-> ->]%app_nil; naive_solver.
  - intros [? _]. auto.
  - intros [_ ?]. auto.
Qed.

Lemma scan_from_scanned n r prev s :
  consuming r = true → (length s ≤ n)%nat → scanned r prev s (scan_from n r prev s).
Proof.
  intros Hc. revert prev s. induction n as [|n IH]; intros prev [|c s] Hn; cbn [length] in Hn; [constructor|lia|constructor|].
  cbn [scan_from]. destruct (match_at r prev (c :: s)) as [[[prev' rest] cap]|] eqn:E.
  - destruct (match_at_sound _ _ _ _ _ _ E) as (u & Es & Hm & ->). pose proof (consuming_spec _ _ _ _ _ _ Hm Hc) as Hu.
    assert (Hl : (length rest < length (c :: s))%nat) by (rewrite Es, length_app; destruct u; [done|simpl; lia]).
    rewrite (proj2 (Nat.ltb_lt _ _) Hl). rewrite Es, length_app, Nat.add_sub, take_app_length. constructor; [done|done|].
    apply IH. simpl in Hl. lia.
  - constructor; [|apply IH; lia]. intros u v cap Es _ Hm. rewrite Es in E.
    by apply (proj1 (matches_found _ _ _ _ _ _ Hm _ (λ p s c, Some (p, s, c)) ltac:(done))).
Qed.
(** The pieces of [scan] are the leftmost matches, and cover the text. *)
Lemma scan_scanned r text : consuming r = true → scanned r None (chars text) (scan r text).
Proof. intros. by apply scan_from_scanned. Qed.

Definition piece_text (p : piece) : list string := match p with Gap c => [c] | Found u _ => u end.
Lemma scanned_text r prev s l : scanned r prev s l → flat_map piece_text l = s.
Proof. induction 1; simpl; congruence. Qed.
Lemma scanned_found r prev s l u cap :
  scanned r prev s l → Found u cap ∈ l → ∃ a b, s = a ++ u ++ b ∧ matches r (after prev a) u b [] cap.
Proof.
  induction 1 as [prev|prev c s l _ _ IH|prev w v cap' l _ Hm _ IH]; [by intros ?%elem_of_nil|..].
  - intros [[=]|Hin]%elem_of_cons. destruct (IH Hin) as (a & b & -> & Ha). exists (c :: a), b. split; [done|].
    by change (c :: a) with ([c] ++ a); rewrite after_app.
  - intros [[= -> ->]|Hin]%elem_of_cons; [by exists [], v|]. destruct (IH Hin) as (a & b & -> & Ha).
    exists (w ++ a), b. by rewrite <- app_assoc, after_app.
Qed.

(** ** The characters of a match *)

(** Some set of the pattern has the character. *)
Fixpoint may (r : regex) (c : string) : bool :=
  match r with
  | RChar p => p c
  | RCat r1 r2 | RAlt r1 r2 => may r1 c || may r2 c
  | RStar r | RGroup r => may r c
  | REps | RAssert _ => false
  end.
Lemma matches_may r prev u v cap cap' : matches r prev u v cap cap' → Forall (λ c, may r c = true) u.
Proof.
  assert (Hl : ∀ (a b : string → bool) l, Forall (λ c, a c = true) l → Forall (λ c, a c || b c = true) l)
    by (intros a b l H; eapply Forall_impl; [exact H|]; by intros c ->).
  assert (Hr : ∀ (a b : string → bool) l, Forall (λ c, b c = true) l → Forall (λ c, a c || b c = true) l)
    by (intros a b l H; eapply Forall_impl; [exact H|]; intros c ->; by rewrite orb_true_r).
  induction 1; cbn [may]; auto; apply Forall_app; auto.
Qed.

(** ** Texts a pattern cannot tell apart *)

Section Related.
Context (R : string → string → Prop).

(** The sets of the pattern treat related characters alike, and so do its
    assertions. *)
Fixpoint respects (r : regex) : Prop :=
  match r with
  | REps => True
  | RChar p => ∀ c d, R c d → p c = p d
  | RCat r1 r2 | RAlt r1 r2 => respects r1 ∧ respects r2
  | RStar r | RGroup r => respects r
  | RAssert a => ∀ o o' n n', option_Forall2 R o o' → option_Forall2 R n n' → a o n = a o' n'
  end.

Definition rest_related {X} (Q : X → X → Prop) (k k' : Rest X) : Prop :=
  ∀ o o' s s' c c', option_Forall2 R o o' → Forall2 R s s' → Forall2 R c c' → option_Forall2 Q (k o s c) (k' o' s' c').
Lemma or_else_related {X} (Q : X → X → Prop) a a' b b' :
  option_Forall2 Q a a' → option_Forall2 Q b b' → option_Forall2 Q (or_else a b) (or_else a' b').
Proof. by intros [x y Hq|] Hb; simpl; [constructor|]. Qed.

Lemma go_related r : respects r → ∀ X (Q : X → X → Prop) o o' s s' c c' k k',
  option_Forall2 R o o' → Forall2 R s s' → Forall2 R c c' → rest_related Q k k' →
  option_Forall2 Q (go r o s c k) (go r o' s' c' k').
Proof.
  induction r as [|p|r1 IH1 r2 IH2|r1 IH1 r2 IH2|r IH|r IH|a]; cbn [respects];
    intros Hr X Q o o' s s' c c' k k' Ho Hs Hc Hk; cbn [go].
  - by apply Hk.
  - destruct Hs as [|d d' s s' Hd Hs]; [constructor|]. rewrite (Hr _ _ Hd). destruct (p d'); [|constructor].
    apply Hk; [by constructor|done..].
  - destruct Hr as [H1 H2]. apply IH1; [done..|]. intros ?????????. by apply IH2.
  - destruct Hr as [H1 H2]. apply or_else_related; auto.
  - rewrite (Forall2_length _ _ _ Hs). generalize (length s') as n. intros n. revert o o' s s' c c' Ho Hs Hc.
    induction n as [|n IHn]; intros o o' s s' c c' Ho Hs Hc; cbn [star]; [by apply Hk|].
    apply or_else_related; [|by apply Hk]. apply IH; [done..|]. intros p p' t t' e e' Hp Ht He.
    rewrite (Forall2_length _ _ _ Hs), (Forall2_length _ _ _ Ht). destruct (_ <? _)%nat; [|constructor]. by apply IHn.
  - apply IH; [done..|]. intros p p' t t' e e' Hp Ht He. apply Hk; [done..|].
    rewrite (Forall2_length _ _ _ Hs), (Forall2_length _ _ _ Ht). by apply Forall2_take.
  - rewrite (Hr o o' (head s) (head s') Ho); [|destruct Hs; by constructor].
    destruct (a o' (head s')); [by apply Hk|constructor].
Qed.

Definition piece_related (p p' : piece) : Prop :=
  match p, p' with
  | Gap c, Gap d => R c d
  | Found u _, Found u' _ => Forall2 R u u'
  | _, _ => False
  end.
(** Related texts are cut at the same places. *)
Lemma scan_related r n o o' s s' :
  respects r → option_Forall2 R o o' → Forall2 R s s' → Forall2 piece_related (scan_from n r o s) (scan_from n r o' s').
Proof.
  intros Hr. revert o o' s s'. induction n as [|n IH]; intros o o' s s' Ho Hs; [constructor|].
  destruct Hs as [|c c' s s' Hc Hs]; [constructor|].
  set (Q := λ x y : option string * list string * list string, option_Forall2 R x.1.1 y.1.1 ∧ Forall2 R x.1.2 y.1.2 ∧ Forall2 R x.2 y.2).
  assert (Hm : option_Forall2 Q (match_at r o (c :: s)) (match_at r o' (c' :: s'))).
  { apply go_related; [done..|by constructor|constructor|]. intros ?????????. by constructor. }
  assert (Hnext : Forall2 piece_related (Gap c :: scan_from n r (Some c) s) (Gap c' :: scan_from n r (Some c') s')).
  { constructor; [done|]. apply IH; [by constructor|done]. }
  cbn [scan_from]. destruct Hm as [[[p t] e] [[p' t'] e'] (Hp & Ht & He)|]; [|done]. cbn [fst snd] in *.
  pose proof (Forall2_length _ _ _ Ht) as Hlt. pose proof (Forall2_length _ _ _ Hs) as Hls. cbn [length].
  rewrite Hlt, Hls. destruct (length t' <? S (length s'))%nat; [|done]. constructor; [|by apply IH].
  cbn [piece_related]. apply Forall2_take. by constructor.
Qed.
End Related.
