(* ===== verification/Hygiene.v ===== *)
(** [scripts/check_repository_hygiene.py]: required files, identity, forbidden
    text, Markdown links, pinned actions and font checksums of a checkout.

    The walk of the directory tree and the digest are arguments, and so is
    [str.isalnum] outside ASCII, which decides where a word ends.  Paths hold
    no null character. *)
From S2P Require Import Prelude PyStr Csv Files Regex.
Local Open Scope py_scope.

(** ** Constants *)

Definition IGNORED_PARTS : list string := [
  ".git"; ".mypy_cache"; ".next"; ".pytest_cache"; ".ruff_cache"; ".venv"; "build"; "node_modules"; "tmp" ].
Definition TEXT_SUFFIXES : list string := [
  ".c"; ".cff"; ".cmake"; ".conf"; ".csv"; ".h"; ".html"; ".json"; ".md"; ".mjs"; ".py"; ".sch"; ".sh"; ".toml"; ".ts";
  ".tsx"; ".txt"; ".yaml"; ".yml" ].
Definition SOURCE_SUFFIXES : list string := [".c"; ".h"; ".mjs"; ".py"; ".sh"; ".ts"; ".tsx"].
Definition SPDX_COPYRIGHT : string := "SPDX-FileCopyrightText: 2026 Amin Zoroufi <aminn.zoroufi@gmail.com>".
Definition REQUIRED_FILES : list string := [
  "AUTHORS.md"; "CITATION.cff"; "CONTRIBUTING.md"; "LICENSE.md"; "NOTICE.md"; "SECURITY.md"; "THIRD_PARTY_NOTICES.md";
  "compose.yaml"; "docs/dependency-license-inventory.csv";
  "docs/report/Intelligent_Industrial_IoT_Monitoring_Platform_EN.pdf";
  "docs/report/Intelligent_Industrial_IoT_Monitoring_Platform_FA.pdf"; "docs/report/checksums.sha256";
  "hardware/model-provenance.csv"; "web/app/fonts/OFL.txt"; "web/app/fonts/provenance.csv"; "web/package-lock.json" ].
Definition dq (s : string) : string := join_chars [String (ascii_of_N 34) ""; s; String (ascii_of_N 34) ""].
Definition IDENTITY_SNIPPETS : list (string * string) := [
  ("AUTHORS.md", "Amin Zoroufi <aminn.zoroufi@gmail.com>");
  ("CITATION.cff", "email: " +:+ dq "aminn.zoroufi@gmail.com");
  ("LICENSE.md", "Copyright (c) 2026 Amin Zoroufi <aminn.zoroufi@gmail.com>");
  ("NOTICE.md", "Copyright (c) 2026 Amin Zoroufi <aminn.zoroufi@gmail.com>");
  ("README.md", "Amin Zoroufi");
  ("pyproject.toml", "name = " +:+ dq "Amin Zoroufi");
  ("web/package.json", dq "name" +:+ ": " +:+ dq "Amin Zoroufi") ].

(** ** Patterns *)

Definition RSeq (l : list regex) : regex := foldr RCat REps l.
Definition lit (s : string) : regex := RText String.eqb s.
Definition none_of (s : string) : regex := RChar (λ c, negb (one_of s c)).
Definition blanks : regex := RStar (RChar is_space).

(** [(?<!!)\[[^]]*]\((?P<target>[^)]+)\)] *)
Definition MARKDOWN_LINK : regex := RSeq [
  RAssert (λ prev _, negb (bool_decide (prev = Some "!"))); lit "["; RStar (none_of "]"); lit "](";
  RGroup (RPlus (none_of ")")); lit ")" ].
(** [^\s*-?\s*uses:\s*[^@\s]+@(?P<revision>[^\s#]+)] on any line *)
Definition line_start (prev _ : option string) : bool := match prev with Some c => String.eqb c lf | None => true end.
Definition ACTION_USE : regex := RSeq [
  RAssert line_start; blanks; ROpt (lit "-"); blanks; lit "uses:"; blanks;
  RPlus (RChar (λ c, negb (String.eqb c "@" || is_space c))); lit "@";
  RGroup (RPlus (RChar (λ c, negb (String.eqb c "#" || is_space c)))) ].
Definition commit_digit (c : string) : bool := between "0" "9" c || between "a" "f" c.
(** [[0-9a-f]{40}] *)
Definition COMMIT : regex := RSeq (repeat (RChar commit_digit) 40).

(** [re.IGNORECASE]: letters of the same case fold, which for [i], [k] and [s]
    includes four characters outside ASCII. *)
Definition fold_case (c : string) : string :=
  if member c ["İ"; "ı"] then "i" else if String.eqb c "ſ" then "s" else if String.eqb c "K" then "k" else lower c.
Definition any_case (s : string) : regex := RText (λ a b, String.eqb (fold_case a) (fold_case b)) s.
Definition upper_letter (c : string) : bool := between "A" "Z" c.
Definition letter (c : string) : bool := between "A" "Z" c || between "a" "z" c.
Definition digit (c : string) : bool := between "0" "9" c.

Section Hygiene.
Context (alnum : string → bool) (sha256 : string → string) (decode_error : string → string).
Context (root : path) (resolve : path → path) (rglob : FS → list path).

(** [\b]: a word character on one side only. *)
Definition is_word (c : string) : bool :=
  match code c with Some n => letter c || digit c || String.eqb c "_" | None => alnum c end.
Definition boundary (prev next : option string) : bool :=
  let word o := match o with Some c => is_word c | None => false end in xorb (word prev) (word next).

Definition FORBIDDEN : list (string * regex) := [
  ("unresolved identity placeholder", RChoice [
     RSeq [lit "["; RChoice [RSeq [lit "REQUIRED"; RStar (none_of "]")]; RSeq [lit "AUTHOR"; RStar (none_of "]")];
                             RSeq [lit "GITHUB_USERNAME"; RStar (none_of "]")]]; lit "]"];
     lit "AUTHOR_FULL_LEGAL_NAME"; lit "AUTHOR_PUBLIC_EMAIL"]);
  ("machine-specific absolute path", RChoice [
     lit "/Users/"; lit "/home/runner/work/"; RSeq [RChar letter; lit ":\Users\"]]);
  ("private-key material", RSeq [
     lit "-----BEGIN "; RStar (RChar (λ c, upper_letter c || String.eqb c " ")); lit "PRIVATE KEY-----"]);
  ("GitHub credential", RSeq (
     [RChoice [lit "ghp_"; lit "github_pat_"]]
     ++ repeat (RChar (λ c, letter c || digit c || String.eqb c "_")) 16
     ++ [RStar (RChar (λ c, letter c || digit c || String.eqb c "_"))]));
  ("unfinished implementation marker", RSeq [
     RAssert boundary; RChoice [lit "TODO"; lit "FIXME"; lit "TBD"]; RAssert boundary]);
  ("prompt or assistant residue", RChoice [
     any_case "master build prompt";
     RSeq [any_case "chain"; RChar (one_of "- "); any_case "of"; RChar (one_of "- "); any_case "thought"];
     RSeq [any_case "generated by "; RChoice [any_case "ChatGPT"; any_case "Codex"]];
     any_case "AI assistance"]) ].

(** ** The files *)

Abbreviation read_text := (Files.read_text resolve decode_error).
Abbreviation is_file := (Files.is_file resolve).
Definition under (text : string) : path := path_of root text.

(** [path.name], [path.suffix] *)
Definition name (p : path) : string := List.last p "".
Definition suffix (p : path) : string :=
  match rev (split_on "." (name p)) with
  | ext :: (_ :: _) as rest => if String.eqb ext "" || String.eqb (join "." (rev rest)) "" then "" else "." +:+ ext
  | _ => ""
  end.

Definition ignored (p : path) : result bool :=
  match relative_to root p with
  | None => Raise (ValueError "the path is not in the subpath of the root")
  | Some relative =>
      Ok (existsb (λ part, member part IGNORED_PARTS) relative || bool_decide (take 2 relative = ["data"; "models"]))
  end.
Definition is_text_file (fs : FS) (p : path) : result bool :=
  if negb (is_file fs p) then Ok false
  else skip ← ignored p; mret (negb skip && member (suffix p) TEXT_SUFFIXES).
Definition text_files (fs : FS) : result (list path) :=
  kept ← mapM (λ p, keep ← is_text_file fs p; mret (if (keep : bool) then [p] else [])) (rglob fs);
  mret (py_sorted path_ltb (concat kept)).

(** ** The checks *)

Definition check_required_files (fs : FS) : list string :=
  map (λ relative, "missing required public artifact: " +:+ relative)
    (List.filter (λ relative, negb (is_file fs (under relative))) REQUIRED_FILES).

Definition identity_errors (fs : FS) (entry : string * string) : result (list string) :=
  let '(relative, snippet) := entry in
  let missing := ["identity metadata missing from " +:+ relative] in
  if negb (is_file fs (under relative)) then Ok missing
  else content ← read_text (under relative) fs; mret (if occurs snippet content then [] else missing).
Definition check_identity (fs : FS) : result (list string) :=
  found ← mapM (identity_errors fs) IDENTITY_SNIPPETS; mret (concat found).

(** The first lines, joined. *)
Definition first_lines (content : string) : string := join lf (take 6 (splitlines content)).
Definition has_header (p : path) (content : string) : bool :=
  negb (member (suffix p) SOURCE_SUFFIXES) || String.eqb (name p) "next-env.d.ts"
  || occurs SPDX_COPYRIGHT (first_lines content).
Definition text_errors (fs : FS) (p : path) : result (list string) :=
  relative ← relative_text root p;
  content ← read_replaced resolve p fs;
  mret (map (λ kv, join_chars [kv.1; ": "; relative]) (List.filter (λ kv, search kv.2 content) FORBIDDEN)
        ++ (if has_header p content then [] else ["missing project SPDX copyright header: " +:+ relative])).
Definition check_text (fs : FS) (files : list path) : result (list string) :=
  found ← mapM (text_errors fs) files; mret (concat found).

(** [s.strip("<>")] *)
Definition is_angle (c : string) : bool := one_of "<>" c.
Definition strip_angle (s : string) : string :=
  join_chars (rev (drop_while is_angle (rev (drop_while is_angle (chars s))))).
(** [s.split(maxsplit=1)[0]] *)
Fixpoint word_prefix (l : list string) : list string :=
  match l with c :: l => if is_space c then [] else c :: word_prefix l | [] => [] end.
Definition first_word (s : string) : result string :=
  match word_prefix (drop_while is_space (chars s)) with [] => Raise IndexError | w => Ok (join_chars w) end.
Definition link_errors (fs : FS) (p : path) (group : string) : result (list string) :=
  target ← first_word (strip_angle (strip group));
  relative ← relative_text root p;
  mret (
    if existsb (λ scheme, startswith scheme target) ["#"; "http://"; "https://"; "mailto:"] then []
    else
      let local_target := List.hd "" (split_on "#" target) in
      if String.eqb local_target "" then []
      else if startswith "/" local_target
      then [join_chars ["absolute local Markdown link in "; relative; ": "; target]]
      else
        let resolved := resolve (path_of (parent p) local_target) in
        match relative_to root resolved with
        | None => [join_chars ["Markdown link escapes repository in "; relative; ": "; target]]
        | Some _ =>
            if exists_path resolve resolved fs then []
            else [join_chars ["broken Markdown link in "; relative; ": "; target]]
        end).
Definition markdown_errors (fs : FS) (p : path) : result (list string) :=
  if negb (String.eqb (suffix p) ".md") then Ok []
  else content ← read_text p fs; found ← mapM (link_errors fs p) (find_groups MARKDOWN_LINK content); mret (concat found).
Definition check_markdown_links (fs : FS) (files : list path) : result (list string) :=
  found ← mapM (markdown_errors fs) files; mret (concat found).

Definition is_workflow (p : path) : bool :=
  bool_decide (parent p = under ".github/workflows") && String.eqb (suffix p) ".yml".
Definition pin_errors (fs : FS) (p : path) : result (list string) :=
  content ← read_text p fs;
  relative ← relative_text root p;
  mret (map (λ _, "GitHub Action is not pinned to a full commit SHA: " +:+ relative)
          (List.filter (λ revision, negb (fullmatch COMMIT revision)) (find_groups ACTION_USE content))).
Definition check_action_pins (fs : FS) (files : list path) : result (list string) :=
  match List.filter is_workflow files with
  | [] => Ok ["no GitHub Actions workflows found"]
  | workflow_files => found ← mapM (pin_errors fs) workflow_files; mret (concat found)
  end.

(** [row.get(key)] *)
Definition row_get (header : list string) (key : string) (row : list string) : option string := mjoin (cell key header row).
Definition font_provenance : path := under "web/app/fonts/provenance.csv".
Definition expected_names : list string := ["geist-latin.woff2"; "geist-mono-latin.woff2"].
Definition font_errors (fs : FS) (header row : list string) : result (list string) :=
  match row_get header "file" row with
  | None => Raise TypeError
  | Some filename =>
      let font_path := path_of (parent font_provenance) filename in
      if negb (is_file fs font_path) then Ok ["missing dashboard font binary: " +:+ filename]
      else
        digest ← checksum sha256 resolve font_path fs;
        mret ((if bool_decide (row_get header "sha256" row = Some digest) then []
               else ["dashboard font checksum mismatch: " +:+ filename])
              ++ (if bool_decide (row_get header "license" row = Some "SIL-OFL-1.1") then []
                  else ["unexpected dashboard font license: " +:+ filename]))
  end.
(** [set(names) == set(expected)] *)
Definition exact_names (l k : list (option string)) : bool :=
  forallb (λ x, bool_decide (x ∈ k)) l && forallb (λ x, bool_decide (x ∈ l)) k.
Definition check_font_provenance (fs : FS) : result (list string) :=
  if negb (is_file fs font_provenance) then Ok []
  else
    content ← read_file resolve font_provenance fs;
    if negb (strict_utf8 content) then Raise (ValueError (decode_error content))
    else
      let '(header, rows) := dict_reader content in
      if negb (exact_names (map (row_get header "file") rows) (map Some expected_names))
      then Ok ["dashboard font provenance does not list the exact bundled font set"]
      else found ← mapM (font_errors fs header) rows; mret (concat found).

(** The errors printed; the process succeeds when there is none. *)
Definition main (fs : FS) : result (list string) :=
  files ← text_files fs;
  let required := check_required_files fs in
  identity ← check_identity fs;
  text ← check_text fs files;
  links ← check_markdown_links fs files;
  pins ← check_action_pins fs files;
  fonts ← check_font_provenance fs;
  mret (py_sorted String.ltb (remove_dups (required ++ identity ++ text ++ links ++ pins ++ fonts))).
End Hygiene.

Example link_example :
  find_groups MARKDOWN_LINK "see [a](docs/a.md), ![img](x.png) and [b]( <c d.md#e> )"
  = ["docs/a.md"; " <c d.md#e> "]
  ∧ first_word (strip_angle (strip " <c d.md#e> ")) = Ok "c" ∧ first_word (strip_angle (strip " ")) = Raise IndexError.
Proof. vm_compute. done. Qed.
Example action_example :
  find_groups ACTION_USE ("jobs:" +:+ lf +:+ "  - uses: actions/checkout@v4 # x" +:+ lf +:+ "    uses: ./local" +:+ lf +:+ "uses: a/b@ff")
  = ["v4"; "ff"].
Proof. vm_compute. done. Qed.
Example forbidden_example :
  map (λ text, map fst (List.filter (λ kv, search kv.2 text) (FORBIDDEN (λ c, String.eqb c "é"))))
    ["a TODO: b"; "éTODO"; "TODOS"; "[AUTHOR NAME]"; "Aı Assiſtance"; "C:\Users\x"; "ghp_0123456789abcdef"; "plain"]
  = [["unfinished implementation marker"]; []; []; ["unresolved identity placeholder"]; ["prompt or assistant residue"];
     ["machine-specific absolute path"]; ["GitHub credential"]; []].
Proof. vm_compute. done. Qed.
