(* ===== verification/HygieneProps.v ===== *)
(** What a passing hygiene check means: the check succeeds exactly on the
    checkouts that satisfy its declarative reading. *)
From S2P Require Import Prelude PyStr Csv Files Regex Hygiene.
Local Open Scope py_scope.

(** ** Errors of several checks *)

Lemma no_errors {A} (f : A → result (list string)) l :
  (found ← mapM f l; mret (concat found)) = Ok [] ↔ ∀ x, x ∈ l → f x = Ok [].
Proof.
  induction l as [|x l IH]; cbn [mapM]; unfold mbind, result_bind, mret, result_ret in *.
  - split; [intros _ x ?%elem_of_nil; done|done].
  - destruct (f x) as [e|e] eqn:Hx; [|split; [done|intros H; by rewrite <- Hx, (H x) by left]].
    destruct (mapM f l) as [es|e'] eqn:Hl.
    + cbn [concat]. split.
      * intros [= [-> He]%app_nil]. rewrite He in IH. intros y [->|Hy]%elem_of_cons; [done|by apply IH].
      * intros H. assert (e = []) as -> by (specialize (H x); rewrite Hx in H; by injection H; [|left]).
        apply IH. intros y Hy. apply H. by right.
    + split; [done|]. intros H. assert (E : Raise e' = Ok []) by (apply IH; intros y Hy; apply H; by right). done.
Qed.
Lemma none_kept {A B} (f : A → bool) (g : A → B) l :
  map g (List.filter f l) = [] ↔ ∀ x, x ∈ l → f x = false.
Proof.
  induction l as [|x l IH]; simpl; [split; [intros _ x ?%elem_of_nil; done|done]|]. destruct (f x) eqn:Hx; simpl.
  - split; [done|]. intros H. rewrite (H x) in Hx by left. done.
  - rewrite IH. split; [intros H y [->|Hy]%elem_of_cons; auto|]. intros H y Hy. apply H. by right.
Qed.
Lemma sorted_errors l : py_sorted String.ltb (remove_dups l) = [] ↔ l = [].
Proof.
  split; [|by intros ->]. intros H. destruct l as [|x l]; [done|exfalso].
  assert (x ∈ py_sorted String.ltb (remove_dups (x :: l))) as Hx by (rewrite py_sorted_perm; apply elem_of_remove_dups; left).
  rewrite H in Hx. by apply elem_of_nil in Hx.
Qed.
Lemma guarded {A} (b : bool) (e : A) : (if b then [] else [e]) = [] ↔ b = true.
Proof. by destruct b. Qed.
Lemma ok_nil (l : list string) : Ok l = Ok [] ↔ l = [].
Proof. split; congruence. Qed.

(** ** A sequence of characters of one set *)

Lemma set_sequence p n prev u v cap cap' :
  matches (RSeq (repeat (RChar p) n)) prev u v cap cap' → length u = n ∧ Forall (λ c, p c = true) u.
Proof.
  revert prev u v cap cap'. induction n as [|n IH]; intros prev u v cap cap' H; cbn [repeat RSeq foldr] in H.
  - inversion H; subst. by split.
  - inversion H; subst. match goal with H1 : matches (RChar _) _ _ _ _ _ |- _ => inversion H1; subst end.
    match goal with H2 : matches (foldr _ _ _) _ _ _ _ _ |- _ => apply IH in H2 as [<- Hf] end. split; [done|by constructor].
Qed.
Lemma sequence_matches p u prev v cap : Forall (λ c, p c = true) u → matches (RSeq (repeat (RChar p) (length u))) prev u v cap cap.
Proof.
  intros H. revert prev. induction H as [|c u Hc _ IH]; intros prev; [constructor|].
  change (c :: u) with ([c] ++ u). eapply m_cat; [by constructor|apply IH].
Qed.
Lemma commit_spec revision :
  fullmatch COMMIT revision = true ↔ length (chars revision) = 40%nat ∧ Forall (λ c, commit_digit c = true) (chars revision).
Proof.
  rewrite fullmatch_spec. split; [intros [cap H]; by apply set_sequence in H|].
  intros [Hn Hf]. exists []. unfold COMMIT. rewrite <- Hn. by apply sequence_matches.
Qed.

(** ** A clean checkout *)

Section Clean.
Context (alnum : string → bool) (sha256 : string → string) (decode_error : string → string).
Context (root : path) (resolve : path → path) (rglob : FS → list path).
Abbreviation under := (under root).
Abbreviation read_text := (read_text resolve decode_error).
Abbreviation is_file := (is_file resolve).

(** A text file the checks look at. *)
Definition inspected (fs : FS) (p : path) : Prop :=
  p ∈ rglob fs ∧ is_file fs p = true ∧ ignored root p = Ok false ∧ suffix p ∈ TEXT_SUFFIXES.
Definition contains (text sub : string) : Prop := ∃ a b, text = a +:+ sub +:+ b.
(** A text with a part that a pattern matches. *)
Definition mentions (r : regex) (text : string) : Prop :=
  ∃ a u b cap, chars text = a ++ u ++ b ∧ matches r (after None a) u b [] cap.

Definition clean_text (fs : FS) (p : path) : Prop := ∃ content,
  read_replaced resolve p fs = Ok content
  ∧ (∀ label r, (label, r) ∈ FORBIDDEN alnum → ¬ mentions r content)
  ∧ (suffix p ∈ SOURCE_SUFFIXES → name p ≠ "next-env.d.ts" → contains (first_lines content) SPDX_COPYRIGHT).

(** A link target that is external, or an existing file or directory below the root. *)
Definition good_link (fs : FS) (p : path) (group : string) : Prop := ∃ target,
  first_word (strip_angle (strip group)) = Ok target
  ∧ ((∃ scheme, scheme ∈ ["#"; "http://"; "https://"; "mailto:"] ∧ startswith scheme target = true)
     ∨ (let local_target := List.hd "" (split_on "#" target) in
        local_target = "" ∨
        startswith "/" local_target = false ∧ ∃ inside, resolve (path_of (parent p) local_target) = root ++ inside
          ∧ exists_path resolve (root ++ inside) fs = true)).
Definition clean_links (fs : FS) (p : path) : Prop := suffix p = ".md" → ∃ content,
  read_text p fs = Ok content ∧ ∀ group, group ∈ find_groups MARKDOWN_LINK content → good_link fs p group.

Definition clean_pins (fs : FS) (p : path) : Prop := ∃ content,
  read_text p fs = Ok content
  ∧ ∀ revision, revision ∈ find_groups ACTION_USE content →
      length (chars revision) = 40%nat ∧ Forall (λ c, commit_digit c = true) (chars revision).

Definition clean_font (fs : FS) (header row : list string) : Prop := ∃ filename content,
  row_get header "file" row = Some filename
  ∧ read_file resolve (path_of (parent (font_provenance root)) filename) fs = Ok content
  ∧ row_get header "sha256" row = Some (sha256 content) ∧ row_get header "license" row = Some "SIL-OFL-1.1".
Definition clean_fonts (fs : FS) : Prop := ∃ content header rows,
  read_file resolve (font_provenance root) fs = Ok content ∧ strict_utf8 content = true ∧ dict_reader content = (header, rows)
  ∧ (∀ f, f ∈ map (row_get header "file") rows ↔ f ∈ map Some expected_names) ∧ ∀ row, row ∈ rows → clean_font fs header row.

Definition clean (fs : FS) : Prop :=
  (∀ relative, relative ∈ REQUIRED_FILES → is_file fs (under relative) = true)
  ∧ (∀ relative snippet, (relative, snippet) ∈ IDENTITY_SNIPPETS → ∃ content,
       read_text (under relative) fs = Ok content ∧ contains content snippet)
  ∧ (∀ p, inspected fs p → clean_text fs p ∧ clean_links fs p)
  ∧ (∃ p, inspected fs p ∧ is_workflow root p = true)
  ∧ (∀ p, inspected fs p → is_workflow root p = true → clean_pins fs p)
  ∧ clean_fonts fs.

(** ** The files *)

Lemma text_files_spec fs files : text_files root resolve rglob fs = Ok files → ∀ p, p ∈ files ↔ inspected fs p.
Proof.
  unfold text_files. intros H p. assert (∃ kept, mapM (λ p, keep ← is_text_file root resolve fs p; mret (if (keep : bool) then [p] else []))
    (rglob fs) = Ok kept ∧ files = py_sorted path_ltb (concat kept)) as (kept & Hk & ->).
  { revert H. unfold mbind, result_bind, mret, result_ret. destruct (mapM _ _) as [kept|]; [|done]. intros [= <-]. by exists kept. }
  clear H. rewrite py_sorted_perm. unfold inspected. apply mapM_forall2 in Hk. induction Hk as [|q k qs ks Hq _ IH]; simpl.
  - split; [by intros ?%elem_of_nil|by intros [?%elem_of_nil _]].
  - assert (Hk : p ∈ k ↔ p = q ∧ is_file fs q = true ∧ ignored root q = Ok false ∧ suffix q ∈ TEXT_SUFFIXES).
    { revert Hq. unfold is_text_file, mbind, result_bind, mret, result_ret. destruct (is_file fs q) eqn:Hf; cbn [negb].
      - destruct (ignored root q) as [[]|e] eqn:Hi; [..|done]; cbn [negb andb].
        + intros [= <-]. rewrite elem_of_nil. split; [done|by intros (_ & _ & [=] & _)].
        + destruct (member (suffix q) TEXT_SUFFIXES) eqn:Hm; intros [= <-].
          * apply member_elem in Hm. rewrite list_elem_of_singleton. naive_solver.
          * apply member_false in Hm. rewrite elem_of_nil. naive_solver.
      - intros [= <-]. rewrite elem_of_nil. naive_solver. }
    rewrite elem_of_app, Hk, IH, elem_of_cons. naive_solver.
Qed.

(** [rglob] yields paths below the root. *)
Context (below : ∀ fs p, p ∈ rglob fs → ∃ l, p = root ++ l).
Lemma below_relative fs p : inspected fs p → ∃ text, relative_text root p = Ok text.
Proof.
  intros (Hp & _). destruct (below fs p Hp) as [l ->]. unfold relative_text. rewrite relative_to_app. destruct l; eauto.
Qed.
Lemma text_files_ok fs : ∃ files, text_files root resolve rglob fs = Ok files.
Proof.
  unfold text_files. assert (∃ kept, mapM (λ p, keep ← is_text_file root resolve fs p; mret (if (keep : bool) then [p] else []))
    (rglob fs) = Ok kept) as [kept E]; [|rewrite E; eauto].
  pose proof (below fs) as Hb. induction (rglob fs) as [|p l IH]; [by exists []|].
  destruct IH as [kept E]; [intros q Hq; apply Hb; by right|]. destruct (Hb p) as [q ->]; [by left|].
  cbn [mapM]. rewrite E. unfold is_text_file, ignored. rewrite relative_to_app. unfold mbind, result_bind, mret, result_ret.
  destruct (is_file fs (root ++ q)); cbn [negb]; eauto.
Qed.

(** ** Each check *)

Lemma contains_spec text sub : occurs sub text = true ↔ contains text sub.
Proof. apply occurs_split. Qed.
Lemma required_spec fs :
  check_required_files root resolve fs = [] ↔ ∀ relative, relative ∈ REQUIRED_FILES → is_file fs (under relative) = true.
Proof.
  unfold check_required_files. rewrite none_kept. by setoid_rewrite negb_false_iff.
Qed.
Lemma read_text_file p fs content : read_text p fs = Ok content → is_file fs p = true.
Proof.
  unfold Files.read_text, read_file, Files.is_file, mbind, result_bind. destruct (files fs !! resolve p); [|done]. intros _.
  by apply bool_decide_eq_true.
Qed.
Lemma identity_spec fs :
  check_identity decode_error root resolve fs = Ok [] ↔
  ∀ relative snippet, (relative, snippet) ∈ IDENTITY_SNIPPETS → ∃ content,
    read_text (under relative) fs = Ok content ∧ contains content snippet.
Proof.
  unfold check_identity. rewrite no_errors.
  assert (Hone : ∀ relative snippet, identity_errors decode_error root resolve fs (relative, snippet) = Ok [] ↔
    ∃ content, read_text (under relative) fs = Ok content ∧ contains content snippet).
  { intros relative snippet. unfold identity_errors. setoid_rewrite <- contains_spec. split.
    - destruct (is_file fs (under relative)); [|done]. cbn [negb]. unfold mbind, result_bind, mret, result_ret.
      destruct (read_text (under relative) fs) as [content|]; [|done]. intros H%ok_nil%guarded. eauto.
    - intros (content & Hr & Ho). rewrite (read_text_file _ _ _ Hr). cbn [negb]. by rewrite Hr; simpl; rewrite Ho. }
  setoid_rewrite <- Hone. split; [intros H relative snippet; apply H|]. intros H [relative snippet]. apply H.
Qed.

Lemma text_spec fs p : inspected fs p → text_errors alnum root resolve fs p = Ok [] ↔ clean_text fs p.
Proof.
  intros Hp. destruct (below_relative fs p Hp) as [relative Hr]. unfold text_errors, clean_text. rewrite Hr.
  unfold mbind, result_bind, mret, result_ret.
  destruct (read_replaced resolve p fs) as [content|]; [|split; [done|by intros (content & [=] & _)]].
  rewrite ok_nil. split.
  - intros [H1 H2%guarded]%app_nil. exists content. split; [done|]. rewrite none_kept in H1. split.
    + intros label r Hin (a & u & b & cap & E & Hm). specialize (H1 _ Hin). cbn [snd] in H1. apply not_true_iff_false in H1.
      apply H1, search_spec. eauto 10.
    + intros Hs Hn. apply contains_spec. unfold has_header in H2. rewrite (proj2 (member_elem _ _) Hs) in H2.
      by rewrite (proj2 (String.eqb_neq _ _) Hn) in H2.
  - intros (content' & [= <-] & Hf & Hh). apply app_nil. rewrite none_kept, guarded. split.
    + intros [label r] Hin. apply not_true_iff_false. cbn [snd]. rewrite search_spec. by apply (Hf label r).
    + unfold has_header. destruct (member (suffix p) SOURCE_SUFFIXES) eqn:Hs; [|done]. cbn [negb orb].
      destruct (String.eqb_spec (name p) "next-env.d.ts") as [|Hn]; [done|]. apply member_elem in Hs. cbn [orb].
      apply contains_spec. auto.
Qed.

Lemma split_head sep s : ∃ w, hd_error (split_on sep s) = Some w.
Proof. pose proof (split_on_nonempty sep s). destruct (split_on sep s); [done|]. simpl. eauto. Qed.
Lemma link_spec fs p group : inspected fs p → link_errors root resolve fs p group = Ok [] ↔ good_link fs p group.
Proof.
  intros Hp. destruct (below_relative fs p Hp) as [relative Hr]. unfold link_errors, good_link. rewrite Hr.
  unfold mbind, result_bind, mret, result_ret.
  destruct (first_word (strip_angle (strip group))) as [target|]; [|split; [done|by intros (t & [=] & _)]].
  rewrite ok_nil. set (schemes := ["#"; "http://"; "https://"; "mailto:"]).
  destruct (existsb (λ scheme, startswith scheme target) schemes) eqn:Hs.
  { split; [|done]. intros _. exists target. split; [done|]. left. apply existsb_exists in Hs as (scheme & Hin & Ht).
    exists scheme. by rewrite list_elem_of_In. }
  assert (Hno : ¬ ∃ scheme, scheme ∈ schemes ∧ startswith scheme target = true).
  { intros (scheme & Hin & Ht). apply not_true_iff_false in Hs. apply Hs, existsb_exists. exists scheme. by rewrite <- list_elem_of_In. }
  cbv zeta. set (local_target := List.hd "" (split_on "#" target)). split.
  - intros H. exists target. split; [done|]. right. fold local_target.
    destruct (String.eqb_spec local_target "") as [|_]; [by left|]. right. destruct (startswith "/" local_target); [done|].
    split; [done|]. destruct (relative_to root (resolve (path_of (parent p) local_target))) as [inside|] eqn:Hi; [|done].
    apply relative_to_spec in Hi. exists inside. rewrite Hi in H. by apply guarded in H.
  - intros (t & [= <-] & [?|H]); [done|]. fold local_target in H. destruct (String.eqb_spec local_target "") as [|Hne]; [done|].
    destruct H as [?|(Habs & inside & Hi & He)]; [done|]. by rewrite Habs, Hi, relative_to_app, He.
Qed.
Lemma links_spec fs p : inspected fs p → markdown_errors decode_error root resolve fs p = Ok [] ↔ clean_links fs p.
Proof.
  intros Hp. unfold markdown_errors, clean_links. destruct (String.eqb_spec (suffix p) ".md") as [Hs|Hs]; cbn [negb]; [|naive_solver].
  unfold mbind at 1, result_bind at 1. destruct (read_text p fs) as [content|]; [|split; [done|intros H; by destruct (H Hs) as (? & [=] & _)]].
  rewrite no_errors. setoid_rewrite link_spec; [|exact Hp]. naive_solver.
Qed.
Lemma pins_spec fs p : inspected fs p → pin_errors decode_error root resolve fs p = Ok [] ↔ clean_pins fs p.
Proof.
  intros Hp. destruct (below_relative fs p Hp) as [relative Hr]. unfold pin_errors, clean_pins. rewrite Hr.
  unfold mbind, result_bind, mret, result_ret. destruct (read_text p fs) as [content|]; [|split; [done|by intros (? & [=] & _)]].
  rewrite ok_nil, none_kept. setoid_rewrite negb_false_iff. setoid_rewrite commit_spec. naive_solver.
Qed.
Lemma actions_spec fs files :
  (∀ p, p ∈ files ↔ inspected fs p) →
  check_action_pins decode_error root resolve fs files = Ok [] ↔
  (∃ p, inspected fs p ∧ is_workflow root p = true) ∧ ∀ p, inspected fs p → is_workflow root p = true → clean_pins fs p.
Proof.
  intros Hfiles. unfold check_action_pins.
  assert (Hin : ∀ p, p ∈ List.filter (is_workflow root) files ↔ inspected fs p ∧ is_workflow root p = true).
  { intros p. by rewrite list_elem_of_In, filter_In, <- list_elem_of_In, Hfiles. }
  destruct (List.filter (is_workflow root) files) as [|w ws] eqn:E.
  - split; [done|]. intros [[p Hp] _]. apply Hin in Hp. by apply elem_of_nil in Hp.
  - rewrite no_errors. setoid_rewrite Hin. split.
    + intros H. split; [exists w; apply Hin; left|]. intros p Hp Hw. by apply pins_spec; [|apply H].
    + intros [_ H] p [Hp Hw]. apply pins_spec; auto.
Qed.

Lemma exact_names_spec l k : exact_names l k = true ↔ ∀ x, x ∈ l ↔ x ∈ k.
Proof.
  unfold exact_names. rewrite andb_true_iff, !forallb_forall. setoid_rewrite bool_decide_eq_true. setoid_rewrite <- list_elem_of_In.
  naive_solver.
Qed.
Lemma font_spec fs header row :
  font_errors sha256 root resolve fs header row = Ok [] ↔ clean_font fs header row.
Proof.
  unfold font_errors, clean_font. destruct (row_get header "file" row) as [filename|]; [|split; [done|by intros (? & ? & [=] & _)]].
  unfold Files.is_file, checksum, read_file. destruct (files fs !! _) as [content|] eqn:Hf; cbn [negb].
  - rewrite bool_decide_eq_true_2 by eauto. cbn [negb]. unfold mbind, result_bind, mret, result_ret.
    rewrite ok_nil. split.
    + intros [H1%guarded H2%guarded]%app_nil. apply bool_decide_eq_true in H1, H2. exists filename, content. by rewrite Hf.
    + intros (f & c & [= <-] & Hc & H1 & H2). rewrite Hf in Hc. injection Hc as <-.
      by rewrite !bool_decide_eq_true_2 by done.
  - rewrite bool_decide_eq_false_2 by (intros [? ?]; done). split; [done|]. intros (f & c & [= <-] & Hc & _). by rewrite Hf in Hc.
Qed.
Lemma fonts_spec fs :
  is_file fs (font_provenance root) = true →
  check_font_provenance sha256 decode_error root resolve fs = Ok [] ↔ clean_fonts fs.
Proof.
  intros Hfile. unfold check_font_provenance, clean_fonts. rewrite Hfile. cbn [negb]. unfold mbind at 1, result_bind at 1.
  destruct (read_file resolve (font_provenance root) fs) as [content|]; [|split; [done|by intros (? & ? & ? & [=] & _)]].
  destruct (strict_utf8 content) eqn:Hs; cbn [negb]; [|split; [done|intros (c & h & r & [= <-] & E & _); congruence]].
  destruct (dict_reader content) as [header rows] eqn:Hd.
  destruct (exact_names (map (row_get header "file") rows) (map Some expected_names)) eqn:Hset; cbn [negb].
  - rewrite no_errors. setoid_rewrite font_spec. split.
    + intros H. exists content, header, rows. split_and!; try done. by apply exact_names_spec.
    + intros (c & h & r & [= <-] & _ & E & _ & H). rewrite Hd in E. by injection E as <- <-.
  - split; [done|]. intros (c & h & r & [= <-] & _ & E & H & _). rewrite Hd in E. injection E as <- <-.
    apply exact_names_spec in H. congruence.
Qed.

(** C37: the check succeeds exactly on clean checkouts: every required file is
    there and the identity files name the author; no inspected text (every text
    file outside the ignored directories) has a part that a forbidden pattern
    matches, whatever surrounds it, and the source files carry the copyright
    header; every link a Markdown file makes is external or leads to something
    that exists below the root; there is a workflow, and every action a workflow
    uses is pinned to forty hexadecimal digits; and the font table lists exactly
    the two fonts with the digests of the files and their licence.  On any other
    checkout it reports an error or ends with an exception. *)
Theorem hygiene_gate fs : main alnum sha256 decode_error root resolve rglob fs = Ok [] ↔ clean fs.
Proof.
  destruct (text_files_ok fs) as [files Hf]. pose proof (text_files_spec fs files Hf) as Hfiles.
  assert (Hmain : main alnum sha256 decode_error root resolve rglob fs = Ok [] ↔
    check_required_files root resolve fs = [] ∧ check_identity decode_error root resolve fs = Ok []
    ∧ check_text alnum root resolve fs files = Ok [] ∧ check_markdown_links decode_error root resolve fs files = Ok []
    ∧ check_action_pins decode_error root resolve fs files = Ok []
    ∧ check_font_provenance sha256 decode_error root resolve fs = Ok []).
  { unfold main. rewrite Hf. unfold mbind, result_bind, mret, result_ret.
    destruct (check_identity _ _ _ fs) as [e1|]; [|naive_solver]. destruct (check_text _ _ _ fs files) as [e2|]; [|naive_solver].
    destruct (check_markdown_links _ _ _ fs files) as [e3|]; [|naive_solver].
    destruct (check_action_pins _ _ _ fs files) as [e4|]; [|naive_solver].
    destruct (check_font_provenance _ _ _ _ fs) as [e5|]; [|naive_solver].
    rewrite ok_nil, sorted_errors, !app_nil, !ok_nil. done. }
  rewrite Hmain, required_spec, identity_spec, (actions_spec fs files Hfiles). unfold check_text, check_markdown_links, clean.
  rewrite !no_errors. setoid_rewrite Hfiles. split.
  - intros (H1 & H2 & H3 & H4 & [H5 H6] & H7). split_and!; try done.
    + intros p Hp. split; [by apply text_spec; [|apply H3]|by apply links_spec; [|apply H4]].
    + apply fonts_spec; [|done]. apply H1. by apply member_elem.
  - intros (H1 & H2 & H3 & H5 & H6 & H7). split_and!; try done.
    + intros p Hp. apply text_spec; [done|]. by apply H3.
    + intros p Hp. apply links_spec; [done|]. by apply H3.
    + apply fonts_spec; [|done]. apply H1. by apply member_elem.
Qed.
End Clean.

(** ** A small checkout *)

Definition sample_root : path := ["r"].
Definition walk (fs : FS) : list path := List.filter (is_relative_to sample_root) (map fst (map_to_list (files fs))).
Lemma walk_below fs p : p ∈ walk fs → ∃ l, p = sample_root ++ l.
Proof.
  unfold walk. rewrite list_elem_of_In, filter_In. intros [_ H]. unfold is_relative_to in H. apply bool_decide_eq_true in H as [l H].
  exists l. by apply relative_to_spec.
Qed.
Definition sample_digest (content : string) : string := str_of_Z (Z.of_nat (String.length content)).
Definition sample_fonts : string := join_chars (map csv_row [
  ["file"; "license"; "sha256"]; ["geist-latin.woff2"; "SIL-OFL-1.1"; "4"]; ["geist-mono-latin.woff2"; "SIL-OFL-1.1"; "5"] ]).
Definition sample_files (readme : string) : list (string * string) :=
  map (λ f, (f, "Copyright (c) 2026 Amin Zoroufi <aminn.zoroufi@gmail.com>")) REQUIRED_FILES
  ++ IDENTITY_SNIPPETS
  ++ [ ("web/app/fonts/provenance.csv", sample_fonts); ("web/app/fonts/geist-latin.woff2", "0123");
       ("web/app/fonts/geist-mono-latin.woff2", "01234"); ("README.md", "Amin Zoroufi " +:+ readme);
       ("src/main.py", "# " +:+ SPDX_COPYRIGHT +:+ lf +:+ "print()"); ("tmp/notes.md", "TODO");
       (".github/workflows/ci.yml", "- uses: actions/checkout@0123456789abcdef0123456789abcdef01234567 # v4") ].
Definition sample_checkout (readme : string) : FS :=
  {| files := fold_left (λ m kv, <[path_of sample_root kv.1 := kv.2]> m) (sample_files readme) ∅;
     dirs := {[ ["r"; "docs"] ]} |}.
Definition check_sample (readme : string) : result (list string) :=
  main (λ _, false) sample_digest id sample_root id walk (sample_checkout readme).

Example sample_errors :
  check_sample "[z](z.png)" = Ok ["broken Markdown link in README.md: z.png"]
  ∧ check_sample "[x]( )" = Raise IndexError
  ∧ check_sample "TODO [x](/etc) [y](LICENSE.md#a)"
    = Ok ["absolute local Markdown link in README.md: /etc"; "unfinished implementation marker: README.md"].
Proof. vm_compute. done. Qed.

Lemma hygiene_gate_witness :
  clean (λ _, false) sample_digest id sample_root id walk
    (sample_checkout "[x](docs) [y](https://a.b/c) ![z](z.png) TODOS")
  ∧ ¬ clean (λ _, false) sample_digest id sample_root id walk (sample_checkout "[x]( )").
Proof.
  rewrite <- !(hygiene_gate (λ _, false) sample_digest id sample_root id walk walk_below).
  split; [vm_compute; reflexivity|]. intros H. vm_compute in H. discriminate H.
Defined.
