(* ===== verification/ReportText.v ===== *)
(** The text side of [scripts/build_reports.py]: shaping of Arabic letters,
    right-to-left order, the segments of a line, wrapping, and the Markdown
    subset a report is written in.  A text is the list of its characters. *)
From S2P Require Import Prelude PyStr Float64 Json JsonParse Csv Files Regex.
Local Open Scope py_scope.

(** ** Arabic letters *)

(** The four shapes of a letter; the last three may be missing. *)
Record Forms := { isolated : string; final : option string; initial : option string; medial : option string }.
Definition alone (n : N) : Forms := Build_Forms (encode n) None None None.
Definition right_joining (n : N) : Forms := Build_Forms (encode n) (Some (encode (n + 1))) None None.
Definition dual_joining (n : N) : Forms :=
  Build_Forms (encode n) (Some (encode (n + 1))) (Some (encode (n + 2))) (Some (encode (n + 3))).
Definition ARABIC_FORMS : list (string * Forms) :=
  [ ("ء", alone 0xFE80); ("آ", right_joining 0xFE81); ("أ", right_joining 0xFE83); ("ؤ", right_joining 0xFE85);
    ("إ", right_joining 0xFE87); ("ئ", dual_joining 0xFE89); ("ا", right_joining 0xFE8D); ("ب", dual_joining 0xFE8F);
    ("پ", dual_joining 0xFB56); ("ت", dual_joining 0xFE95); ("ث", dual_joining 0xFE99); ("ج", dual_joining 0xFE9D);
    ("چ", dual_joining 0xFB7A); ("ح", dual_joining 0xFEA1); ("خ", dual_joining 0xFEA5); ("د", right_joining 0xFEA9);
    ("ذ", right_joining 0xFEAB); ("ر", right_joining 0xFEAD); ("ز", right_joining 0xFEAF); ("ژ", right_joining 0xFB8A);
    ("س", dual_joining 0xFEB1); ("ش", dual_joining 0xFEB5); ("ص", dual_joining 0xFEB9); ("ض", dual_joining 0xFEBD);
    ("ط", dual_joining 0xFEC1); ("ظ", dual_joining 0xFEC5); ("ع", dual_joining 0xFEC9); ("غ", dual_joining 0xFECD);
    ("ف", dual_joining 0xFED1); ("ق", dual_joining 0xFED5); ("ك", dual_joining 0xFED9); ("ک", dual_joining 0xFB8E);
    ("گ", dual_joining 0xFB92); ("ل", dual_joining 0xFEDD); ("م", dual_joining 0xFEE1); ("ن", dual_joining 0xFEE5);
    ("ه", dual_joining 0xFEE9); ("و", right_joining 0xFEED); ("ى", right_joining 0xFEEF); ("ي", dual_joining 0xFEF1);
    ("ی", dual_joining 0xFBFC) ]%N.
Definition forms_of (c : string) : option Forms :=
  option_map snd (List.find (λ kv, String.eqb kv.1 c) ARABIC_FORMS).

(** [bool(before and before[2] and after[1])]: two letters in a row join. *)
Definition joins (before after : option Forms) : bool :=
  match before, after with
  | Some b, Some a => bool_decide (is_Some (initial b)) && bool_decide (is_Some (final a))
  | _, _ => false
  end.
Definition shape (previous : option Forms) (forms : Forms) (following : option Forms) : string :=
  match joins previous (Some forms), joins (Some forms) following, medial forms, final forms, initial forms with
  | true, true, Some m, _, _ => m
  | true, _, _, Some f, _ => f
  | _, true, _, _, Some i => i
  | _, _, _, _, _ => isolated forms
  end.
Fixpoint shape_from (previous : option Forms) (text : list string) : list string :=
  match text with
  | [] => []
  | c :: rest =>
      match forms_of c with
      | None => c
      | Some forms => shape previous forms (head rest ≫= forms_of)
      end :: shape_from (forms_of c) rest
  end.
Definition shape_arabic (text : list string) : list string := shape_from None text.

(** ** Right-to-left order *)

Definition eastern_digit (c : string) : bool := one_of "۰۱۲۳۴۵۶۷۸۹٠١٢٣٤٥٦٧٨٩" c.
Definition ltr_char (c : string) : bool :=
  between "A" "Z" c || between "a" "z" c || between "0" "9" c || eastern_digit c || one_of "_.:/+@#=-" c.
Definition LTR_RUN : regex :=
  RCat (RPlus (RChar ltr_char)) (RStar (RCat (RChar (String.eqb " ")) (RPlus (RChar ltr_char)))).
Definition runs (text : list string) : list piece := scan_from (length text) LTR_RUN None text.

(** [str.maketrans("()[]{}<>", ")(][}{><")] *)
Definition mirror (c : string) : string :=
  match List.find (λ kv, String.eqb kv.1 c)
    [("(", ")"); (")", "("); ("[", "]"); ("]", "["); ("{", "}"); ("}", "{"); ("<", ">"); (">", "<")] with
  | Some kv => kv.2 | None => c
  end.
Definition rtl_visual (text : list string) : list string :=
  let protected := flat_map (λ p, match p with Gap c => [c] | Found run _ => rev run end) (runs (shape_arabic text)) in
  map mirror (rev protected).

(** The parts of a line in reading order: runs, and what lies between them. *)
Inductive Part := Rtl (text : list string) | Latin (text : list string) | Protected (text : list string).
Fixpoint logical_parts (gap : list string) (l : list piece) : list Part :=
  let pending := match gap with [] => [] | _ => [Rtl gap] end in
  match l with
  | [] => pending
  | Gap c :: l => logical_parts (gap ++ [c]) l
  | Found run _ :: l =>
      pending ++ (if existsb eastern_digit run then Protected run else Latin run) :: logical_parts [] l
  end.
Definition latin_font (font : string) : string := if occurs "Bold" font then "Helvetica-Bold" else "Helvetica".
Definition segment (font : string) (p : Part) : list string * string :=
  match p with
  | Latin text => (text, latin_font font)
  | Protected text => (text, font)
  | Rtl text => (rtl_visual text, font)
  end.
Definition rtl_segments (value : list string) (font : string) : list (list string * string) :=
  map (segment font) (rev (logical_parts [] (runs value))).

(** ** Wrapping *)

(** [text.split()] *)
Fixpoint split_words (word text : list string) : list (list string) :=
  match text with
  | [] => match word with [] => [] | _ => [word] end
  | c :: text =>
      if is_space c then match word with [] => split_words [] text | _ => word :: split_words [] text end
      else split_words (word ++ [c]) text
  end.
Definition words (text : list string) : list (list string) := split_words [] text.

Section Wrap.
Context (fits : list string → bool).
Fixpoint wrap_from (current : list string) (rest : list (list string)) : list (list string) :=
  match rest with
  | [] => [current]
  | word :: rest =>
      let candidate := current ++ [" "] ++ word in
      if fits candidate then wrap_from candidate rest else current :: wrap_from word rest
  end.
Definition wrap (text : list string) : list (list string) :=
  match words text with [] => [] | word :: rest => wrap_from word rest end.
End Wrap.

(** ** Markdown *)

Inductive BlockKind := KParagraph | KBullet | KDirective.
Record Block := { k_kind : BlockKind; k_value : string }.
Record Section_ := { sc_title : string; sc_blocks : list Block }.
Record DocumentSource := { ds_title : string; ds_metadata : list string; ds_sections : list Section_ }.

(** The variables of the loop over the lines. *)
Record Parsing := {
  pg_metadata : list string; pg_sections : list Section_; pg_title : option string;
  pg_blocks : list Block; pg_paragraph : list string }.
Definition flush_paragraph (st : Parsing) : Parsing :=
  match pg_paragraph st with
  | [] => st
  | paragraph => {| pg_metadata := pg_metadata st; pg_sections := pg_sections st; pg_title := pg_title st;
                    pg_blocks := pg_blocks st ++ [Build_Block KParagraph (join " " paragraph)]; pg_paragraph := [] |}
  end.
Definition add_block (b : Block) (st : Parsing) : Parsing :=
  let st := flush_paragraph st in
  {| pg_metadata := pg_metadata st; pg_sections := pg_sections st; pg_title := pg_title st;
     pg_blocks := pg_blocks st ++ [b]; pg_paragraph := pg_paragraph st |}.
Definition close_section (st : Parsing) : list Section_ :=
  pg_sections st ++ match pg_title st with Some title => [Build_Section_ title (pg_blocks st)] | None => [] end.
(** [s[n:]], and [s[2:-2]] *)
Definition drop_chars (n : nat) (s : string) : string := join_chars (drop n (chars s)).
Definition inner (s : string) : string := join_chars (drop 2 (take (length (chars s) - 2) (chars s))).
Definition endswith (e s : string) : bool :=
  bool_decide (chars e = drop (length (chars s) - length (chars e)) (chars s)).
Definition parse_line (st : Parsing) (line : string) : Parsing :=
  let stripped := strip line in
  if startswith "## " stripped then
    let st := flush_paragraph st in
    {| pg_metadata := pg_metadata st; pg_sections := close_section st; pg_title := Some (drop_chars 3 stripped);
       pg_blocks := []; pg_paragraph := pg_paragraph st |}
  else match pg_title st with
  | None =>
      if String.eqb stripped "" then st
      else {| pg_metadata := pg_metadata st ++ [stripped]; pg_sections := pg_sections st; pg_title := None;
              pg_blocks := pg_blocks st; pg_paragraph := pg_paragraph st |}
  | Some _ =>
      if String.eqb stripped "" then flush_paragraph st
      else if startswith "[[" stripped && endswith "]]" stripped then add_block (Build_Block KDirective (inner stripped)) st
      else if startswith "- " stripped then add_block (Build_Block KBullet (drop_chars 2 stripped)) st
      else {| pg_metadata := pg_metadata st; pg_sections := pg_sections st; pg_title := pg_title st;
              pg_blocks := pg_blocks st; pg_paragraph := pg_paragraph st ++ [stripped] |}
  end.
Definition parse_start : Parsing := Build_Parsing [] [] None [] [].
(** [path] is the text of the source's path. *)
Definition parse_markdown (path content : string) : result DocumentSource :=
  match splitlines content with
  | first :: lines =>
      if negb (startswith "# " first) then Raise (ValueError ("missing report title: " +:+ path))
      else
        let st := flush_paragraph (fold_left parse_line lines parse_start) in
        let sections := close_section st in
        if negb (length sections =? 17)%nat
        then Raise (ValueError (join_chars ["expected 17 report sections, found "; str_of_Z (Z.of_nat (length sections)); " in "; path]))
        else Ok (Build_DocumentSource (strip (drop_chars 2 first)) (pg_metadata st) sections)
  | [] => Raise (ValueError ("missing report title: " +:+ path))
  end.

Example rtl_example :
  join_chars (rtl_visual (chars "سلام (ESP32 v2) ۱۲")) = join_chars (map encode [0x6F1; 0x6F2; 32]%N) +:+ "(ESP32 v2)"
    +:+ join_chars (map encode [32; 0xFEE1; 0xFE8E; 0xFEE0; 0xFEB3]%N).
Proof. vm_compute. reflexivity. Qed.
Example segments_example :
  map (λ s, (join_chars s.1, s.2)) (rtl_segments (chars "ab [۱]") "NotoArabicBold")
  = [("[", "NotoArabicBold"); ("۱", "NotoArabicBold"); ("] ", "NotoArabicBold"); ("ab", "Helvetica-Bold")].
Proof. vm_compute. reflexivity. Qed.
