(* ===== verification/ReportTextProps.v ===== *)
(** What the text side of the report builder guarantees: shaping loses no
    letter, the segments of a line are its visual order, wrapping keeps every
    word within the width, and a report reads back as it was written. *)
From Stdlib Require Import Wf_nat.
From S2P Require Import Prelude PyStr Float64 Json JsonParse Csv Files Regex ReportText.
Local Open Scope py_scope.

(** ** Letters and their shapes *)

Definition all_forms (f : Forms) : list string :=
  isolated f :: option_list (final f) ++ option_list (initial f) ++ option_list (medial f).
(** The letter of a shape. *)
Definition unshape (d : string) : string :=
  match List.find (λ kv, member d (all_forms kv.2)) ARABIC_FORMS with Some kv => kv.1 | None => d end.
(** The shape of the character at some place of a text. *)
Definition shapes (c d : string) : Prop :=
  match forms_of c with Some f => d ∈ all_forms f | None => d = c end.

Lemma forms_table : forallb (λ kv : string * Forms,
  forallb (λ d, String.eqb (unshape d) kv.1 && negb (ltr_char d) && negb (String.eqb " " d)) (all_forms kv.2)
  && negb (ltr_char kv.1) && negb (String.eqb " " kv.1)) ARABIC_FORMS = true.
Proof. vm_compute. reflexivity. Qed.
Lemma forms_of_elem c f : forms_of c = Some f → (c, f) ∈ ARABIC_FORMS.
Proof.
  unfold forms_of. destruct (List.find _ _) as [[k g]|] eqn:E; [|done]. intros [= <-]. apply find_some in E as [Hin Hk].
  apply String.eqb_eq in Hk as <-. by apply list_elem_of_In.
Qed.
Lemma letter_facts c f : forms_of c = Some f →
  ltr_char c = false ∧ String.eqb " " c = false
  ∧ ∀ d, d ∈ all_forms f → unshape d = c ∧ ltr_char d = false ∧ String.eqb " " d = false.
Proof.
  intros Hin%forms_of_elem%list_elem_of_In. pose proof (proj1 (forallb_forall _ _) forms_table _ Hin) as H. cbn [fst snd] in H.
  apply andb_true_iff in H as [[H Hc%negb_true_iff]%andb_true_iff Hs%negb_true_iff]. split_and!; [done|done|].
  intros d Hd%list_elem_of_In. pose proof (proj1 (forallb_forall _ _) H _ Hd) as Hf. cbv beta in Hf.
  apply andb_true_iff in Hf as [[Hu%String.eqb_eq Hl%negb_true_iff]%andb_true_iff Hb%negb_true_iff]. done.
Qed.

Lemma shape_form p f n : shape p f n ∈ all_forms f.
Proof.
  unfold shape, all_forms. destruct (joins p (Some f)), (joins (Some f) n), (medial f), (final f), (initial f); simpl; set_solver.
Qed.
Lemma shape_related p text : Forall2 shapes text (shape_from p text).
Proof.
  revert p. induction text as [|c text IH]; intros p; [constructor|]. cbn [shape_from]. constructor; [|apply IH].
  unfold shapes. destruct (forms_of c); [apply shape_form|done].
Qed.
Lemma shape_length p text : length (shape_from p text) = length text.
Proof. symmetry. eapply Forall2_length, shape_related. Qed.

(** Shaping does not change what is a run. *)
Lemma shapes_same c d : shapes c d → ltr_char c = ltr_char d ∧ String.eqb " " c = String.eqb " " d.
Proof.
  unfold shapes. destruct (forms_of c) as [f|] eqn:E; [|by intros ->]. intros Hd. destruct (letter_facts _ _ E) as (-> & -> & H).
  by destruct (H d Hd) as (_ & -> & ->).
Qed.
Lemma shapes_respected : respects shapes LTR_RUN.
Proof. cbn. by repeat split; intros c d [? ?]%shapes_same. Qed.

(** Every shape tells its letter: a text without presentation forms of its own
    can be recovered from its shaped form. *)
Lemma shaping_lossless text : Forall (λ c, unshape c = c) text → map unshape (shape_arabic text) = text.
Proof.
  intros H. unfold shape_arabic. generalize (None : option Forms) as p. induction H as [|c text Hc _ IH]; intros p; [done|].
  cbn [shape_from map]. rewrite IH. f_equal. destruct (forms_of c) as [f|] eqn:E; [|done].
  destruct (letter_facts _ _ E) as (_ & _ & Hd). by apply Hd, shape_form.
Qed.

(** ** Runs *)

Definition run_char (c : string) : bool := ltr_char c || String.eqb " " c.
Lemma run_chars prev u v cap cap' :
  matches LTR_RUN prev u v cap cap' → Forall (λ c, run_char c = true) u ∧ ∃ c w, u = c :: w ∧ ltr_char c = true.
Proof.
  intros Hm. split.
  - eapply Forall_impl; [exact (matches_may _ _ _ _ _ _ Hm)|]. cbn [may LTR_RUN RPlus]. unfold run_char. intros c.
    destruct (ltr_char c); [done|]. rewrite !orb_false_r. by intros ->.
  - inversion Hm as [| |? ? ? u1 ? ? ? ? ? H1 _ | | | | | |]; subst. inversion H1 as [| |? ? ? u2 ? ? ? ? ? H2 _| | | | | |]; subst.
    inversion H2; subst. cbn. eauto.
Qed.
Lemma run_here prev c v cap : ltr_char c = true → matches LTR_RUN prev [c] v cap cap.
Proof.
  intros Hc. change [c] with (([c] ++ []) ++ [] : list string). eapply m_cat; [eapply m_cat|]; constructor. done.
Qed.

Definition good_piece (p : piece) : Prop :=
  match p with
  | Gap c => ltr_char c = false
  | Found u _ => u ≠ [] ∧ Forall (λ c, run_char c = true) u
  end.
Lemma runs_good text : Forall good_piece (runs text) ∧ flat_map piece_text (runs text) = text.
Proof.
  assert (H : scanned LTR_RUN None text (runs text)) by (by apply scan_from_scanned).
  split; [|by eapply scanned_text]. induction H as [|prev c s l Hno _ IH|prev u v cap l Hu Hm _ IH]; constructor; try done.
  - cbn. apply not_true_iff_false. intros Hc. apply (Hno [c] s []); [done|done|by apply run_here].
  - split; [done|]. by apply run_chars in Hm as [Hm _].
Qed.
Lemma runs_none text : Forall (λ c, ltr_char c = false) text → runs text = map Gap text.
Proof.
  intros H. unfold runs. generalize (None : option string) as prev. induction H as [|c text Hc _ IH]; intros prev; [done|].
  cbn [length scan_from map]. destruct (match_at LTR_RUN prev (c :: text)) as [[[p t] e]|] eqn:E; [|by rewrite IH].
  apply match_at_sound in E as (u & E & Hm & _). apply run_chars in Hm as [_ (d & w & -> & Hd)]. injection E as -> _. congruence.
Qed.
Lemma run_plain c : run_char c = true → forms_of c = None ∧ mirror c = c.
Proof.
  unfold run_char. intros H. split.
  - destruct (forms_of c) as [f|] eqn:E; [|done]. destruct (letter_facts _ _ E) as (H1 & H2 & _). by rewrite H1, H2 in H.
  - unfold mirror. destruct (List.find _ _) as [[k d]|] eqn:E; [|done]. apply find_some in E as [Hin Hk].
    apply String.eqb_eq in Hk as <-. cbn [fst] in H.
    repeat (destruct Hin as [[= <- <-]|Hin]; [by vm_compute in H|]). by destruct Hin.
Qed.
Lemma run_mirror u : Forall (λ c, run_char c = true) u → map mirror u = u.
Proof. induction 1 as [|c u Hc _ IH]; [done|]. cbn [map]. rewrite IH. f_equal. by apply run_plain. Qed.

(** A run separates what is shaped before it from what is shaped after. *)
Lemma shape_run u t p : Forall (λ c, run_char c = true) u → u ≠ [] ∨ p = None → shape_from p (u ++ t) = u ++ shape_from None t.
Proof.
  intros Hu. revert p. induction Hu as [|c u Hc _ IH]; intros p Hp; [by destruct Hp as [?| ->]|].
  cbn [app shape_from]. rewrite (proj1 (run_plain c Hc)). f_equal. apply IH. by right.
Qed.
Lemma shape_app g u t :
  Forall (λ c, run_char c = true) u → u ≠ [] → shape_arabic (g ++ u ++ t) = shape_arabic g ++ u ++ shape_arabic t.
Proof.
  intros Hu Hne. unfold shape_arabic. generalize (None : option Forms) at 1 2 as p. induction g as [|c g IH]; intros p.
  - cbn [app shape_from]. apply shape_run; auto.
  - cbn [app shape_from]. rewrite IH. f_equal. destruct (forms_of c); [|done]. f_equal. destruct g; [|done].
    destruct u as [|d u]; [done|]. apply Forall_cons in Hu as [Hd _]. exact (proj1 (run_plain d Hd)).
Qed.

(** ** Segments *)

Definition part_visual (p : Part) : list string :=
  match p with Latin text | Protected text => text | Rtl text => rtl_visual text end.
Lemma segment_visual font p : (segment font p).1 = part_visual p.
Proof. by destruct p. Qed.
Lemma visual_pieces text : rtl_visual text = map mirror (flat_map piece_text (rev (runs (shape_arabic text)))).
Proof.
  unfold rtl_visual. f_equal. induction (runs (shape_arabic text)) as [|p l IH]; [done|].
  cbn [flat_map rev]. rewrite rev_app_distr, IH, flat_map_app. f_equal. destruct p; simpl; by rewrite ?rev_involutive, ?app_nil_r.
Qed.
Lemma gaps_visual g : Forall (λ c, ltr_char c = false) g → rtl_visual g = map mirror (rev (shape_arabic g)).
Proof.
  intros Hg. rewrite visual_pieces, runs_none.
  - f_equal. rewrite <- map_rev. induction (rev (shape_arabic g)) as [|c l IH]; [done|]. cbn. by rewrite IH.
  - pose proof (shape_related None g) as H. fold (shape_arabic g) in H. revert H. generalize (shape_arabic g) as l. intros l H.
    induction H as [|c d g l Hd _ IH]; [constructor|].
    apply Forall_cons in Hg as [Hc Hg]. constructor; [|by apply IH]. by rewrite <- (proj1 (shapes_same _ _ Hd)).
Qed.

Lemma logical_gaps gap g l : logical_parts gap (map Gap g ++ l) = logical_parts (gap ++ g) l.
Proof. revert gap. induction g as [|c g IH]; intros gap; cbn; [by rewrite app_nil_r|]. by rewrite IH, <- app_assoc. Qed.
(** The characters before the first run. *)
Lemma first_run l : Forall good_piece l → ∃ g, Forall (λ c, ltr_char c = false) g
  ∧ (l = map Gap g ∨ ∃ u cap rest, l = map Gap g ++ Found u cap :: rest ∧ u ≠ [] ∧ Forall (λ c, run_char c = true) u
                     ∧ Forall good_piece rest).
Proof.
  induction 1 as [|[c|u cap] l Hp Hl IH]; [by exists []; split; [|left]|..].
  - destruct IH as (g & Hg & [->|(u & cap & rest & -> & Hu)]); exists (c :: g); (split; [by constructor|]); [by left|right].
    by exists u, cap, rest.
  - exists []. split; [done|]. right. destruct Hp as [Hu Hf]. by exists u, cap, l.
Qed.
Lemma gaps_related g l : Forall2 (piece_related shapes) (map Gap g) l → ∃ g', l = map Gap g' ∧ Forall2 shapes g g'.
Proof.
  revert l. induction g as [|c g IH]; intros l H; cbn [map] in H; [inversion H; by exists []|].
  inversion H as [|? [d|] ? k Hd Hk]; subst; [|done]. destruct (IH _ Hk) as (g' & -> & Hg). exists (d :: g'). by split; [|constructor].
Qed.
Lemma gap_text g : flat_map piece_text (map Gap g) = g.
Proof. induction g; simpl; congruence. Qed.
Lemma run_related u u' : Forall (λ c, run_char c = true) u → Forall2 shapes u u' → u' = u.
Proof.
  intros Hu H. induction H as [|c d u u' Hd _ IH]; [done|]. apply Forall_cons in Hu as [Hc Hu]. rewrite IH by done. f_equal.
  unfold shapes in Hd. by rewrite (proj1 (run_plain c Hc)) in Hd.
Qed.

Lemma parts_visual l l' :
  Forall good_piece l → Forall2 (piece_related shapes) l l' → flat_map piece_text l' = shape_arabic (flat_map piece_text l) →
  flat_map part_visual (rev (logical_parts [] l)) = map mirror (flat_map piece_text (rev l')).
Proof.
  revert l'. induction l as [l IH] using (induction_ltof1 _ length). unfold ltof in IH. intros l' Hl Hrel Htext.
  destruct (first_run l Hl) as (g & Hg & [->|(u & cap & rest & -> & Hu & Hf & Hrest)]).
  - destruct (gaps_related _ _ Hrel) as (g' & -> & Hg'). rewrite !gap_text in Htext. subst g'.
    rewrite <- (app_nil_r (map Gap g)), logical_gaps, <- map_rev, gap_text. destruct g as [|c g]; [done|].
    cbn [app logical_parts rev flat_map part_visual]. rewrite app_nil_r. by rewrite gaps_visual.
  - apply Forall2_app_inv_l in Hrel as (k1 & k2 & Hk1 & Hk2 & ->). destruct (gaps_related _ _ Hk1) as (g' & -> & Hg').
    inversion Hk2 as [|? [|u' cap'] ? rest' Hu' Hrest']; subst; [done|]. cbn [piece_related] in Hu'.
    pose proof (run_related _ _ Hf Hu') as ->. rewrite !flat_map_app, !gap_text in Htext. cbn [flat_map piece_text] in Htext.
    rewrite shape_app in Htext by done.
    apply app_inj_1 in Htext as [-> Htext]; [|unfold shape_arabic; by rewrite shape_length, (Forall2_length _ _ _ Hg')].
    apply app_inv_head in Htext.
    assert (IHr := IH rest ltac:(rewrite length_app; simpl; lia) rest' Hrest Hrest' Htext).
    rewrite logical_gaps. cbn [app logical_parts]. rewrite !rev_app_distr, flat_map_app. cbn [rev]. rewrite !flat_map_app, IHr.
    rewrite <- map_rev, gap_text, !map_app. cbn [flat_map piece_text]. rewrite app_nil_r, <- !app_assoc. f_equal.
    assert (Hrun : part_visual (if existsb eastern_digit u then Protected u else Latin u) = map mirror (u ++ [])).
    { rewrite app_nil_r, run_mirror by done. by destruct (existsb eastern_digit u). }
    rewrite Hrun. f_equal. destruct g as [|c g]; [done|]. cbn [rev app flat_map part_visual]. by rewrite app_nil_r, gaps_visual.
Qed.
Lemma segments_visual value font : flat_map fst (rtl_segments value font) = rtl_visual value.
Proof.
  destruct (runs_good value) as [Hgood Htext].
  assert (Hrel : Forall2 (piece_related shapes) (runs value) (runs (shape_arabic value))).
  { unfold runs, shape_arabic. rewrite shape_length. apply scan_related; [exact shapes_respected|constructor|apply shape_related]. }
  rewrite visual_pieces, <- (parts_visual (runs value)); [|done|done|].
  - unfold rtl_segments. induction (rev (logical_parts [] (runs value))) as [|p k IH]; [done|].
    cbn [map flat_map]. by rewrite segment_visual, IH.
  - by rewrite Htext, (proj2 (runs_good _)).
Qed.

(** C39: bidirectional text is drawn as it is read: the segments of a line, from
    left to right, are its visual order; that order is the reverse of the
    shaped text, in which numbers and Latin words keep their own direction and
    brackets are mirrored; and shaping loses no letter: the text can be
    recovered from its shaped form unless it held presentation forms itself. *)
Theorem right_to_left value font :
  flat_map fst (rtl_segments value font) = rtl_visual value
  ∧ rtl_visual value = map mirror (flat_map piece_text (rev (runs (shape_arabic value))))
  ∧ (Forall (λ c, unshape c = c) value → map unshape (shape_arabic value) = value).
Proof. split_and!; [apply segments_visual|apply visual_pieces|apply shaping_lossless]. Qed.

Lemma right_to_left_witness :
  let value := chars "پایش ۱۲ (ESP32 edge)" in
  map unshape (shape_arabic value) = value ∧ length (rtl_segments value "NotoArabic") = 5%nat
  ∧ flat_map fst (rtl_segments value "NotoArabic") = rtl_visual value.
Proof.
  intros value. destruct (right_to_left value "NotoArabic") as (H1 & _ & H2).
  split; [|split; [vm_compute; reflexivity|exact H1]]. apply H2. apply (bool_decide_unpack _). vm_compute. exact I.
Defined.

(** ** Wrapping *)

Definition joined (g : list (list string)) : list string :=
  match g with [] => [] | w :: g => w ++ flat_map (cons " ") g end.
Lemma joined_snoc g w : g ≠ [] → joined (g ++ [w]) = joined g ++ [" "] ++ w.
Proof.
  destruct g as [|v g]; [done|]. intros _. cbn [joined app]. rewrite flat_map_app. cbn [flat_map]. by rewrite app_nil_r, <- app_assoc.
Qed.

(** The lines from a started line on. *)
Lemma wrap_from_groups fits g rest :
  g ≠ [] → (length g = 1%nat ∨ fits (joined g) = true) →
  ∃ g' gs, wrap_from fits (joined g) rest = map joined ((g ++ g') :: gs)
    ∧ g' ++ concat gs = rest
    ∧ Forall (λ g, g ≠ [] ∧ (length g = 1%nat ∨ fits (joined g) = true)) ((g ++ g') :: gs)
    ∧ ∀ i a w b, ((g ++ g') :: gs) !! i = Some a → ((g ++ g') :: gs) !! S i = Some (w :: b) →
        fits (joined a ++ [" "] ++ w) = false.
Proof.
  revert g. induction rest as [|word rest IH]; intros g Hg Hf; cbn [wrap_from].
  - exists [], []. rewrite app_nil_r. split_and!; [done|done|constructor; [done|constructor]|]. by intros [|i] a w b _.
  - destruct (fits (joined g ++ [" "] ++ word)) eqn:Hfit.
    + rewrite <- joined_snoc in Hfit |- * by done.
      destruct (IH (g ++ [word])) as (g' & gs & E & Hw & Hall & Hgreedy); [by destruct g|by right|].
      exists (word :: g'), gs. rewrite <- app_assoc in E, Hall, Hgreedy. cbn [app] in *. split_and!; [done|by rewrite Hw|done|done].
    + destruct (IH [word]) as (g' & gs & E & Hw & Hall & Hgreedy); [done|by left|].
      assert (joined [word] = word) as Hword by (cbn; by rewrite app_nil_r). rewrite Hword in E. cbn [app] in *.
      exists [], ((word :: g') :: gs). rewrite app_nil_r. cbn [map concat app] in *. rewrite E.
      split_and!; [done|by rewrite Hw|by constructor|].
      intros [|i] a w b Ha Hb; [|by eapply Hgreedy]. cbn in Ha, Hb. injection Ha as <-. by injection Hb as <- <-.
Qed.

(** Wrapping is greedy and loses nothing: the lines are the words of the text,
    in order and joined by blanks; a line of more than one word fits, and the
    first word of a line would not have fitted on the line before it. *)
Theorem wrap_greedy fits text : ∃ lines : list (list (list string)),
  wrap fits text = map joined lines ∧ concat lines = words text
  ∧ Forall (λ g, g ≠ [] ∧ (length g = 1%nat ∨ fits (joined g) = true)) lines
  ∧ ∀ i a w b, lines !! i = Some a → lines !! S i = Some (w :: b) → fits (joined a ++ [" "] ++ w) = false.
Proof.
  unfold wrap. destruct (words text) as [|w ws]; [by exists []; split_and!|].
  destruct (wrap_from_groups fits [w] ws) as (g' & gs & E & Hw & Hall & Hgreedy); [done|by left|].
  cbn [joined flat_map] in E. rewrite app_nil_r in E. exists (([w] ++ g') :: gs). split_and!; [done|cbn; by rewrite Hw|done|done].
Qed.

(** ** Markdown *)

(** A line of text: trimmed, not empty, without a line break inside. *)
Record plain (v : string) : Prop := {
  plain_strip : strip v = v; plain_filled : v ≠ ""; plain_line : unbroken v = true; plain_start : starts_cont v = false }.

Lemma unbroken_app s t : starts_cont t = false → unbroken (s +:+ t) = unbroken s && unbroken t.
Proof. intros Ht. unfold unbroken. by rewrite chars_app, forallb_app by done. Qed.
Lemma plain_chars v : plain v → chars v ≠ [] ∧ bare (chars v) ∧ bare (rev (chars v)).
Proof.
  intros [Hs Hne _ _]. pose proof (strip_ends v) as [H1 H2]. rewrite Hs in H1, H2. split_and!; [|done|done].
  intros E. apply Hne. by rewrite <- (join_chars_chars v), E.
Qed.
Lemma bare_app l k : l ≠ [] → bare (l ++ k) ↔ bare l.
Proof. by destruct l. Qed.

(** A marker in front of a plain text, and one behind it. *)
Lemma strip_marked m v : bare (chars m) → m ≠ "" → plain v → strip (m +:+ v) = m +:+ v.
Proof.
  intros Hm Hne Hv. destruct (plain_chars v Hv) as (Hv1 & _ & Hv2). destruct Hv as [_ _ _ Hc].
  assert (chars m ≠ []) as Hm' by (intros E; apply Hne; by rewrite <- (join_chars_chars m), E).
  apply strip_bare; rewrite chars_app by done; [by rewrite bare_app|]. rewrite rev_app_distr, bare_app; [done|].
  intros E. apply Hv1. by rewrite <- (rev_involutive (chars v)), E.
Qed.
Lemma drop_marker m v : starts_cont v = false → drop_chars (length (chars m)) (m +:+ v) = v.
Proof. intros Hv. unfold drop_chars. by rewrite chars_app, drop_app_length, join_chars_chars. Qed.
Lemma directive_chars v : starts_cont v = false → chars ("[[" +:+ v +:+ "]]") = ["["; "["] ++ chars v ++ ["]"; "]"].
Proof. intros Hv. rewrite !chars_app; [done|done|by destruct v]. Qed.
Lemma directive_text v : starts_cont v = false →
  strip ("[[" +:+ v +:+ "]]") = "[[" +:+ v +:+ "]]" ∧ inner ("[[" +:+ v +:+ "]]") = v
  ∧ endswith "]]" ("[[" +:+ v +:+ "]]") = true.
Proof.
  intros Hv. pose proof (directive_chars v Hv) as E. split_and!.
  - apply strip_bare; rewrite E; [done|]. rewrite !rev_app_distr. done.
  - unfold inner. rewrite E, !length_app, app_assoc. cbn [length].
    replace (2 + (length (chars v) + 2) - 2)%nat with (length (["["; "["] ++ chars v)) by (rewrite length_app; simpl; lia).
    by rewrite take_app_length, (drop_app_length ["["; "["]), join_chars_chars.
  - unfold endswith. apply bool_decide_eq_true. rewrite E, !length_app, app_assoc. cbn [length].
    change (length (chars "]]")) with 2%nat.
    replace (2 + (length (chars v) + 2) - 2)%nat with (length (["["; "["] ++ chars v)) by (rewrite length_app; simpl; lia).
    by rewrite drop_app_length.
Qed.

(** A report as it is written. *)
Definition render_block (b : Block) : list string :=
  match k_kind b with
  | KParagraph => [k_value b; ""]
  | KBullet => ["- " +:+ k_value b]
  | KDirective => ["[[" +:+ k_value b +:+ "]]"]
  end.
Definition render_section (s : Section_) : list string := ("## " +:+ sc_title s) :: flat_map render_block (sc_blocks s).
Definition render (d : DocumentSource) : string :=
  join_chars (map (λ l, l +:+ lf) (("# " +:+ ds_title d) :: ds_metadata d ++ flat_map render_section (ds_sections d))).

Definition good_block (b : Block) : Prop :=
  plain (k_value b)
  ∧ (k_kind b = KParagraph → startswith "## " (k_value b) = false ∧ startswith "- " (k_value b) = false
       ∧ startswith "[[" (k_value b) && endswith "]]" (k_value b) = false).
Definition good_document (d : DocumentSource) : Prop :=
  plain (ds_title d) ∧ Forall (λ m, plain m ∧ startswith "## " m = false) (ds_metadata d)
  ∧ Forall (λ s, plain (sc_title s) ∧ Forall good_block (sc_blocks s)) (ds_sections d)
  ∧ length (ds_sections d) = 17%nat.

(** The state of the loop inside a section. *)
Definition within (metadata : list string) (sections : list Section_) (title : string) (blocks : list Block) : Parsing :=
  Build_Parsing metadata sections (Some title) blocks [].

Lemma marker_prefix m v : startswith m (m +:+ v) = true.
Proof. apply prefix_split. by exists v. Qed.
Lemma parse_block md ss t bs b :
  good_block b → fold_left parse_line (render_block b) (within md ss t bs) = within md ss t (bs ++ [b]).
Proof.
  intros [Hv Hp]. destruct b as [[] v]; unfold render_block; cbn [k_kind k_value fold_left] in *.
  - destruct (Hp eq_refl) as (H1 & H2 & H3). unfold parse_line at 2. rewrite (plain_strip v Hv), H1. cbn [pg_title within].
    destruct (String.eqb_spec v "") as [E|_]; [by destruct (plain_filled v Hv)|]. by rewrite H2, H3.
  - unfold parse_line. rewrite (strip_marked "- " v) by (done || exact Hv).
    change (startswith "## " ("- " +:+ v)) with false. cbn [pg_title within]. change (String.eqb ("- " +:+ v) "") with false.
    change (startswith "[[" ("- " +:+ v)) with false. cbn [andb]. rewrite marker_prefix.
    change 2%nat with (length (chars "- ")). by rewrite (drop_marker "- ") by apply Hv.
  - destruct (directive_text v) as (H1 & H2 & H3); [apply Hv|]. unfold parse_line. rewrite H1, H2, H3, marker_prefix.
    change (startswith "## " ("[[" +:+ v +:+ "]]")) with false. by change (String.eqb ("[[" +:+ v +:+ "]]") "") with false.
Qed.
Lemma parse_blocks md ss t bs l :
  Forall good_block l → fold_left parse_line (flat_map render_block l) (within md ss t bs) = within md ss t (bs ++ l).
Proof.
  intros H. revert bs. induction H as [|b l Hb _ IH]; intros bs; [by rewrite app_nil_r|].
  cbn [flat_map]. rewrite fold_left_app, parse_block, IH by done. by rewrite <- app_assoc.
Qed.
Lemma parse_section s st :
  plain (sc_title s) → Forall good_block (sc_blocks s) → pg_paragraph st = [] →
  fold_left parse_line (render_section s) st = within (pg_metadata st) (close_section st) (sc_title s) (sc_blocks s).
Proof.
  intros Ht Hb Hp. destruct s as [t bs]. unfold render_section. cbn [sc_title sc_blocks fold_left] in *.
  assert (E : parse_line st ("## " +:+ t) = within (pg_metadata st) (close_section st) t []).
  { unfold parse_line. rewrite (strip_marked "## " t), marker_prefix by (done || exact Ht).
    change 3%nat with (length (chars "## ")). rewrite (drop_marker "## ") by apply Ht.
    destruct st as [md ss ti bl pa]. cbn in Hp. by subst. }
  rewrite E, parse_blocks by done. done.
Qed.
Lemma parse_sections l st :
  Forall (λ s, plain (sc_title s) ∧ Forall good_block (sc_blocks s)) l → pg_paragraph st = [] → l ≠ [] →
  ∃ t bs, fold_left parse_line (flat_map render_section l) st
    = within (pg_metadata st) (removelast (close_section st ++ l)) t bs ∧ last (close_section st ++ l) = Some (Build_Section_ t bs).
Proof.
  intros Hl. revert st. induction Hl as [|[t bs] l [Ht Hb] Hl IH]; intros st Hp Hne; [done|].
  cbn [flat_map]. rewrite fold_left_app, parse_section by done. cbn [sc_title sc_blocks] in *.
  destruct l as [|s l].
  - exists t, bs. cbn [flat_map fold_left]. rewrite removelast_last, last_snoc. done.
  - destruct (IH (within (pg_metadata st) (close_section st) t bs)) as (t' & bs' & E & El); [done|done|].
    change (close_section (within ?m ?ss t bs)) with (ss ++ [Build_Section_ t bs]) in E, El. cbn [pg_metadata within] in E.
    rewrite <- app_assoc in E, El. exists t', bs'. by split.
Qed.
Lemma parse_metadata md l : Forall (λ m, plain m ∧ startswith "## " m = false) l →
  fold_left parse_line l (Build_Parsing md [] None [] []) = Build_Parsing (md ++ l) [] None [] [].
Proof.
  intros H. revert md. induction H as [|m l [Hm Hs] _ IH]; intros md; [by rewrite app_nil_r|]. cbn [fold_left].
  unfold parse_line at 2. rewrite (plain_strip m Hm), Hs. cbn [pg_title pg_metadata pg_sections pg_blocks pg_paragraph].
  destruct (String.eqb_spec m "") as [E|_]; [by destruct (plain_filled m Hm)|]. rewrite IH. by rewrite <- app_assoc.
Qed.

Definition whole_line (l : string) : Prop := unbroken l = true ∧ starts_cont l = false.
Lemma marked_line m v : whole_line m → m ≠ "" → plain v → whole_line (m +:+ v).
Proof.
  intros [H1 H2] Hne [_ _ H3 H4]. split; [by rewrite unbroken_app, H1, H3 by done|]. by destruct m.
Qed.
Lemma block_lines b : good_block b → Forall whole_line (render_block b).
Proof.
  intros [Hv _]. destruct b as [[] v]; unfold render_block; cbn [k_kind k_value] in *; repeat constructor; try apply Hv.
  - by rewrite unbroken_app, (plain_line _ Hv) by apply Hv.
  - rewrite !unbroken_app, (plain_line _ Hv); [done|done|]. pose proof (plain_filled _ Hv). pose proof (plain_start _ Hv). by destruct v.
Qed.
Lemma section_lines s : plain (sc_title s) → Forall good_block (sc_blocks s) → Forall whole_line (render_section s).
Proof.
  intros Ht Hb. constructor; [by apply marked_line|]. induction Hb as [|b l Hb _ IH]; [constructor|].
  cbn [flat_map]. apply Forall_app. split; [by apply block_lines|done].
Qed.

(** A report reads back as it was written: parsing the rendering of a document
    with 17 sections whose texts are trimmed lines, and whose paragraphs do not
    begin like another kind of line, gives the document. *)
Theorem report_round_trip path d : good_document d → parse_markdown path (render d) = Ok d.
Proof.
  intros (Ht & Hm & Hs & Hn). destruct d as [title md ss]. cbn [ds_title ds_metadata ds_sections] in *.
  unfold parse_markdown, render. cbn [ds_title ds_metadata ds_sections]. rewrite splitlines_lines.
  2: { constructor; [by apply (marked_line "# ")|]. apply Forall_app. split.
       - eapply Forall_impl; [exact Hm|]. by intros m [[_ _ H1 H2] _].
       - clear - Hs. induction Hs as [|s ss [H1 H2] _ IH]; [constructor|]. cbn [flat_map]. apply Forall_app.
         split; [by apply section_lines|done]. }
  rewrite marker_prefix. cbn [negb].
  rewrite fold_left_app. unfold parse_start. rewrite parse_metadata by done.
  destruct (parse_sections ss (Build_Parsing ([] ++ md) [] None [] [])) as (t & bs & E & El); [done|done|by destruct ss|].
  rewrite E. change (close_section (Build_Parsing ([] ++ md) [] None [] []) ++ ss) with ss in *.
  change (flush_paragraph (within ?m ?l t bs)) with (within m l t bs).
  change (close_section (within ?m ?l t bs)) with (l ++ [Build_Section_ t bs]).
  assert (El' : removelast ss ++ [Build_Section_ t bs] = ss).
  { destruct ss as [|s0 ss] using rev_ind; [done|]. rewrite removelast_last. rewrite last_snoc in El. congruence. }
  cbn [pg_metadata app within]. rewrite El', Hn. cbn [Nat.eqb negb].
  change 2%nat with (length (chars "# ")). rewrite (drop_marker "# ") by apply Ht. by rewrite (plain_strip _ Ht).
Qed.

Definition sample_report : DocumentSource := {|
  ds_title := "Monitoring platform"; ds_metadata := ["Author: A"; "Revision A0"];
  ds_sections := Build_Section_ "Summary" [
      Build_Block KParagraph "One line of text."; Build_Block KBullet "- nested"; Build_Block KDirective "BOARD";
      Build_Block KParagraph "پایش صنعتی" ]
    :: repeat (Build_Section_ "Empty" []) 16 |}.
Lemma report_round_trip_witness : parse_markdown "report_en.md" (render sample_report) = Ok sample_report.
Proof.
  apply report_round_trip.
  split_and!; [split; reflexivity || discriminate| | |reflexivity].
  - repeat constructor; try reflexivity; discriminate.
  - repeat constructor; try reflexivity; discriminate.
Defined.
