(* ===== verification/ReportPages.v ===== *)
(** The pages of [scripts/build_reports.py]: the [Report] class, the hardware
    review, the checksum manifest and the command.

    A canvas is the list of the drawing operations it received; the PDF text of
    such a list, the width of a text in a font, the page size and the digest
    are arguments.  A coordinate is a float, also where the script passes an
    [int].  Files are read and written as UTF-8. *)
From S2P Require Import Prelude PyStr Float64 PyFormat Json JsonParse Csv JsonValues Files Regex ReportText.
Local Open Scope py_scope.

(** ** The canvas *)

Inductive Op :=
  | SetFillColor (color : string)
  | SetStrokeColor (color : string)
  | SetFont (font : string) (size : float)
  | Line (x1 y1 x2 y2 : float)
  | Rect (x y width height : float) (fill stroke : bool)
  | RoundRect (x y width height radius : float) (fill stroke : bool)
  | Circle (x y radius : float) (fill stroke : bool)
  | DrawString (x y : float) (text : string)
  | DrawRightString (x y : float) (text : string)
  | ShowPage.

Definition INK : string := "#102027".
Definition MUTED : string := "#52636B".
Definition ACCENT : string := "#087E8B".
Definition ACCENT_DARK : string := "#075866".
Definition PALE : string := "#E8F3F4".
Definition WARNING : string := "#B45309".
Definition RED : string := "#A73434".
Definition GREEN : string := "#18734B".

(** ** [sum] of floats: compensated, as CPython has it since 3.12 *)
Fixpoint compensated (total c : float) (l : list float) : float :=
  match l with
  | [] => if negb (feqb c (of_int 0)) && is_finite c then total ⊕ c else total
  | x :: l =>
      let t := total ⊕ x in
      let lost := if fleb (fabs x) (fabs total) then (total ⊖ t) ⊕ x else (x ⊖ t) ⊕ total in
      compensated t (c ⊕ lost) l
  end.
Definition py_sum (l : list float) : float :=
  match l with [] => of_int 0 | x :: l => compensated (of_int 0 ⊕ x) (of_int 0) l end.

(** ** The [Report] class *)

Record Report := { rp_ops : list Op; rp_page : Z; rp_y : float; rp_section_title : string }.
Definition R : Type → Type := M Report.
Definition draw (op : Op) : R () := modify (λ r, Build_Report (rp_ops r ++ [op]) (rp_page r) (rp_y r) (rp_section_title r)).
Definition move_to (y : float) : R () := modify (λ r, Build_Report (rp_ops r) (rp_page r) y (rp_section_title r)).
Definition move (f : float → float) : R () := y ← get rp_y; move_to (f y).

Section Pages.
Context (stringWidth : string → string → float → float) (PAGE_WIDTH PAGE_HEIGHT : float).
Context (float_of_str : string → result float) (str_container : json → string) (decode_error : string → string).
Context (root : path) (resolve : path → path).
(** The files as they are while the report is built, its source and direction. *)
Context (fs : FS) (source : DocumentSource) (rtl : bool).

Definition n (z : Z) : float := of_int z.
Definition MARGIN : float := n 46.
Definition CONTENT_WIDTH : float := PAGE_WIDTH ⊖ n 92.
Definition right_edge : float := PAGE_WIDTH ⊖ MARGIN.
(** The English or the Persian text; the side at which a text begins. *)
Definition either (english persian : string) : string := if rtl then persian else english.
Definition edge : float := if rtl then right_edge else MARGIN.

Definition regular : string := either "Helvetica" "NotoArabic".
Definition bold : string := either "Helvetica-Bold" "NotoArabicBold".

Definition text_width (value : string) (font : string) (size : float) : float :=
  if rtl then py_sum (map (λ s, stringWidth (join_chars s.1) s.2 size) (rtl_segments (chars value) font))
  else stringWidth value font size.
Fixpoint draw_segments (segments : list (list string * string)) (cursor y size : float) : R () :=
  match segments with
  | [] => mret tt
  | (text, segment_font) :: segments =>
      let text := join_chars text in
      draw (SetFont segment_font size);;
      draw (DrawString cursor y text);;
      draw_segments segments (cursor ⊕ stringWidth text segment_font size) y size
  end.
Definition draw_text (value : string) (x y : float) (font : string) (size : float) (right : bool) : R () :=
  if rtl then
    let segments := rtl_segments (chars value) font in
    let cursor := if right then x ⊖ text_width value font size else x in
    draw_segments segments cursor y size
  else
    draw (SetFont font size);;
    draw (if right then DrawRightString x y value else DrawString x y value).

Definition finish_page : R () :=
  page ← get rp_page;
  if page =? 0 then mret tt
  else
    draw (SetStrokeColor "#D5E1E4");;
    draw (Line MARGIN (n 31) right_edge (n 31));;
    draw_text (either (str_of_Z page) ("صفحه " +:+ str_of_Z page)) right_edge (n 17) regular (n 8) true;;
    draw_text (either "SIMULATED - NOT FIELD VALIDATED" "شبیه سازی شده - فاقد اعتبار میدانی") MARGIN (n 17) regular (lit 75 1) false;;
    draw ShowPage.

Definition new_page (section_title : string) : R () :=
  finish_page;;
  modify (λ r, Build_Report (rp_ops r) (rp_page r + 1) (PAGE_HEIGHT ⊖ MARGIN) section_title);;
  draw (SetFillColor ACCENT);;
  draw (Rect (n 0) (PAGE_HEIGHT ⊖ n 12) PAGE_WIDTH (n 12) true false);;
  if String.eqb section_title "" then mret tt
  else
    draw (SetFillColor MUTED);;
    draw_text (ds_title source) edge (PAGE_HEIGHT ⊖ n 31) regular (lit 75 1) rtl;;
    move_to (PAGE_HEIGHT ⊖ n 63).

Definition wrap_text (text font : string) (size width : float) : list string :=
  map join_chars (wrap (λ candidate, fleb (text_width (join_chars candidate) font size) width) (chars text)).

(** [for line in lines: draw_text(line, ...); y -= step] with a local [y]. *)
Fixpoint draw_column (lines : list string) (x y : float) (font : string) (size step : float) : R float :=
  match lines with
  | [] => mret y
  | line :: lines => draw_text line x y font size rtl;; draw_column lines x (y ⊖ step) font size step
  end.
Fixpoint draw_metadata (items : list string) (y : float) : R float :=
  match items with
  | [] => mret y
  | item :: items =>
      y ← draw_column (wrap_text item regular (lit 95 1) (CONTENT_WIDTH ⊖ n 36))
            (if rtl then right_edge ⊖ n 18 else n 64) y regular (lit 95 1) (n 15);
      draw_metadata items (y ⊖ n 2)
  end.
Definition cover : R () :=
  new_page "";;
  draw (SetFillColor ACCENT_DARK);;
  draw (Rect (n 0) (PAGE_HEIGHT ⊗ lit 56 2) PAGE_WIDTH (PAGE_HEIGHT ⊗ lit 44 2) true false);;
  draw (SetFillColor "white");;
  y ← draw_column (wrap_text (ds_title source) bold (n 27) CONTENT_WIDTH) edge (PAGE_HEIGHT ⊖ n 145) bold (n 27) (n 38);
  draw_text (either "Engineering portfolio report" "گزارش مهندسی نمونه کار") edge (y ⊖ n 8) regular (n 14) rtl;;
  draw (SetFillColor INK);;
  let box_y := PAGE_HEIGHT ⊗ lit 46 2 in
  draw (SetFillColor PALE);;
  draw (RoundRect MARGIN (n 90) CONTENT_WIDTH (box_y ⊖ n 62) (n 12) true false);;
  draw (SetFillColor INK);;
  draw_metadata (ds_metadata source) (box_y ⊖ n 20);;
  draw (SetFillColor RED);;
  draw_text (either "Low-voltage demonstrator only. No safety, bench, or field certification."
               "فقط نمایش کم ولتاژ؛ فاقد گواهی ایمنی، کارگاهی یا میدانی") edge (n 61) bold (n 9) rtl.

(** Lines drawn down the page. *)
Fixpoint draw_down (before : R ()) (lines : list string) (x : float) (font : string) (size step : float) : R () :=
  match lines with
  | [] => mret tt
  | line :: lines =>
      before;;
      y ← get rp_y;
      draw_text line x y font size rtl;;
      move (λ y, y ⊖ step);;
      draw_down before lines x font size step
  end.
Definition section_heading (title : string) (continuation : bool) : R () :=
  draw (SetFillColor INK);;
  let size := if continuation then 14 else 18 in
  draw_down (mret tt) (wrap_text title bold (n size) CONTENT_WIDTH) edge bold (n size) (n (size + 6));;
  draw (SetFillColor ACCENT);;
  y ← get rp_y;
  draw (Rect (if rtl then right_edge ⊖ n 72 else MARGIN) (y ⊖ n 2) (n 72) (n 3) true false);;
  move (λ y, y ⊖ n 20).

Definition ensure (required : float) : R () :=
  y ← get rp_y;
  if fltb (y ⊖ required) (n 48) then
    title ← get rp_section_title;
    let continuation := either (title +:+ " (continued)") ("ادامه " +:+ title) in
    new_page continuation;;
    section_heading continuation true
  else mret tt.

Definition paragraph (value : string) (bullet : bool) : R () :=
  let size := lit 93 1 in
  let leading := lit 143 1 in
  let lines := wrap_text value regular size (if bullet then CONTENT_WIDTH ⊖ n 18 else CONTENT_WIDTH) in
  ensure (n (Z.of_nat (length lines)) ⊗ leading ⊕ n 14);;
  draw (SetFillColor INK);;
  (if bullet then
     draw (SetFillColor ACCENT);;
     y ← get rp_y;
     draw (Circle (if rtl then right_edge ⊖ n 4 else n 50) (y ⊕ n 3) (lit 22 1) true false)
   else mret tt);;
  let indent := if bullet then 14 else 0 in
  draw_down (draw (SetFillColor INK)) lines (if rtl then right_edge ⊖ n indent else n (46 + indent)) regular size leading;;
  move (λ y, y ⊖ n 8).

Definition figure_caption (english persian : string) : R () :=
  move (λ y, y ⊖ n 5);;
  draw (SetFillColor MUTED);;
  y ← get rp_y;
  draw_text (either english persian) edge y regular (lit 78 1) rtl;;
  move (λ y, y ⊖ n 18).
Definition label (text_en text_fa : string) (x y : float) : R () :=
  draw_text (either text_en text_fa) x y bold (lit 75 1) false.

(** ** Figures *)

Definition architecture_labels : list (string * string) := [
  ("Sensors", "حسگرها"); ("ESP32 edge", "لبه ESP32"); ("MQTT broker", "کارگزار MQTT"); ("Ingest + DB", "دریافت و داده");
  ("API + Web", "API و داشبورد") ].
Definition architecture_box (top : float) (entry : Z * (string * string)) : R () :=
  let '(index, (english, persian)) := entry in
  let x := 46 + index * 104 in
  draw (SetFillColor (if index mod 2 =? 0 then PALE else "#D9ECEE"));;
  draw (SetStrokeColor ACCENT);;
  draw (RoundRect (n x) (top ⊖ n 42) (n 88) (n 42) (n 7) true true);;
  draw (SetFillColor INK);;
  let text := either english persian in
  let tw := text_width text bold (lit 75 1) in
  draw_text text (n x ⊕ (n 88 ⊖ tw) ⊘ n 2) (top ⊖ n 25) bold (lit 75 1) false;;
  if index <? 4 then
    let x1 := n (x + 90) in
    let x2 := n (x + 101) in
    let x3 := n (x + 96) in
    draw (SetStrokeColor ACCENT_DARK);;
    draw (Line x1 (top ⊖ n 21) x2 (top ⊖ n 21));;
    draw (Line x3 (top ⊖ n 17) x2 (top ⊖ n 21));;
    draw (Line x3 (top ⊖ n 25) x2 (top ⊖ n 21))
  else mret tt.
Definition architecture : R () :=
  ensure (n 195);;
  top ← get rp_y;
  for_each (architecture_box top) (enumerate architecture_labels);;
  draw (SetStrokeColor WARNING);;
  draw (Line (n 156) (top ⊖ n 68) (n 156) (top ⊖ n 107));;
  draw (RoundRect (n 101) (top ⊖ n 147) (n 110) (n 40) (n 7) false true);;
  label "STM32 / Modbus" "STM32 و Modbus" (n 113) (top ⊖ n 132);;
  draw (SetFillColor "#FFF7E6");;
  draw (RoundRect MARGIN (top ⊖ n 185) CONTENT_WIDTH (n 24) (n 6) true false);;
  draw (SetFillColor WARNING);;
  draw_text (either "Explicit boundaries: SPI / I2C / UART - MQTT - SQL - REST / WebSocket"
               "مرزهای صریح: SPI و I2C و UART - MQTT - SQL - REST و WebSocket")
    (if rtl then right_edge ⊖ n 10 else n 56) (top ⊖ n 177) regular (lit 75 1) rtl;;
  move_to (top ⊖ n 195);;
  figure_caption "Figure 1. End-to-end architecture generated from the implemented repository boundaries."
    "شکل ۱. معماری سراسری بر پایه مرزهای پیاده سازی شده مخزن.".

(** [json.loads((ROOT / text).read_text())] *)
Definition load_json (text : string) : R json :=
  lift (content ← read_text resolve decode_error (path_of root text) fs; parse_json content).
Definition metric_keys : list (string * string) :=
  [("precision", "P"); ("recall", "R"); ("f1", "F1"); ("false_positive_rate", "FPR")].
Definition metric_bar (values : json) (y : float) (entry : Z * (string * string)) : R () :=
  let '(metric_index, (key, short)) := entry in
  let x := n (144 + metric_index * 98) in
  value ← lift (float_field float_of_str key values);
  draw (SetFillColor "#DDE7E9");;
  draw (RoundRect x (y ⊖ n 8) (n 74) (n 10) (n 4) true false);;
  draw (SetFillColor (if String.eqb key "false_positive_rate" then RED else ACCENT));;
  draw (RoundRect x (y ⊖ n 8) (fmax (n 2) (n 74 ⊗ value)) (n 10) (n 4) true false);;
  draw (SetFillColor MUTED);;
  draw_text (join_chars [short; " "; fmt_f 1 (value ⊗ n 100); "%"]) x (y ⊖ n 23) regular (n 7) false.
Definition detector_metrics (top : float) (entry : Z * (string * string * json)) : R () :=
  let '(index, (english, persian, values)) := entry in
  let y := top ⊖ n (index * 65) in
  draw (SetFillColor INK);;
  draw_text (either english persian) MARGIN y bold (n 9) false;;
  for_each (metric_bar values y) (enumerate metric_keys).
Definition detection_metrics : R () :=
  ensure (n 170);;
  report ← load_json "data/demo/anomaly-evaluation.v1.json";
  top ← get rp_y;
  deterministic ← lift (subscript "deterministic_detector" report);
  forest ← lift (subscript "isolation_forest" report);
  for_each (detector_metrics top)
    (enumerate [("Rules", "قواعد", deterministic); ("Isolation Forest", "Isolation Forest", forest)]);;
  draw (SetFillColor "#FFF7E6");;
  draw (RoundRect MARGIN (top ⊖ n 144) CONTENT_WIDTH (n 30) (n 6) true false);;
  draw (SetFillColor WARNING);;
  draw_text (either "Synthetic fixture metrics - not probability and not field performance"
               "معیار داده مصنوعی - نه احتمال و نه کارایی میدانی")
    (if rtl then right_edge ⊖ n 10 else n 56) (top ⊖ n 134) bold (n 8) rtl;;
  move_to (top ⊖ n 162);;
  figure_caption "Figure 2. Reproducible detector comparison from the versioned synthetic report."
    "شکل ۲. مقایسه بازتولیدپذیر آشکارسازها در گزارش مصنوعی نسخه دار.".

Definition scale : float := lit 435 2.
Definition board_component (x0 y0 : float) (board component : json) : R () :=
  cx ← lift (float_field float_of_str "x" component);
  cw ← lift (float_field float_of_str "width" component);
  bh ← lift (float_field float_of_str "height" board);
  cy ← lift (float_field float_of_str "y" component);
  ch ← lift (float_field float_of_str "height" component);
  let x := x0 ⊕ (cx ⊖ cw ⊘ n 2) ⊗ scale in
  let y := y0 ⊕ (bh ⊖ cy ⊖ ch ⊘ n 2) ⊗ scale in
  let width := fmax (cw ⊗ scale) (n 5) in
  let height := fmax (ch ⊗ scale) (n 4) in
  draw (SetFillColor "#D8E7DD");;
  draw (SetStrokeColor INK);;
  draw (Rect x y width height true true);;
  if fltb (n 13) width && fltb (n 8) height then
    draw (SetFillColor INK);;
    ref ← lift (text_field str_container "ref" component);
    draw_text ref (x ⊕ lit 15 1) (y ⊕ lit 25 1) bold (lit 47 1) false
  else mret tt.
Definition board_figure : R () :=
  ensure (n 245);;
  design ← load_json "hardware/design.json";
  board ← lift (subscript "board" design);
  top ← get rp_y;
  bh ← lift (float_field float_of_str "height" board);
  let x0 := n 76 in
  let y0 := top ⊖ bh ⊗ scale in
  draw (SetFillColor "#145B43");;
  draw (SetStrokeColor "#68C89E");;
  bw ← lift (float_field float_of_str "width" board);
  draw (RoundRect x0 y0 (bw ⊗ scale) (bh ⊗ scale) (n 6) true true);;
  components ← lift (entries "components" design);
  for_each (board_component x0 y0 board) components;;
  draw (SetFillColor RED);;
  draw_text "A0-UNVERIFIED - UNROUTED - NO MAINS" x0 (y0 ⊖ n 17) bold (n 8) false;;
  move_to (y0 ⊖ n 28);;
  figure_caption "Figure 3. Source-derived component placement; this is not a fabrication release."
    "شکل ۳. چیدمان قطعه از منبع پروژه؛ این تصویر مجوز ساخت نیست.".

Record Evidence := { ev_area : string; ev_area_fa : string; ev_text : string; ev_text_fa : string; ev_status : string }.
Definition evidence_rows : list Evidence := [
  Build_Evidence "Python" "پایتون" "47 tests" "۴۷ آزمون" "PASS";
  Build_Evidence "Typed source" "منبع نوع دار" "49 files" "۴۹ فایل" "PASS";
  Build_Evidence "Dashboard" "داشبورد" "lint/type/4 tests" "نگارش، نوع، ۴ آزمون" "PASS";
  Build_Evidence "Live backend" "پشت زنده" "earlier Compose slice" "اجرای پیشین Compose" "PASS";
  Build_Evidence "Changed Compose" "Compose تغییر یافته" "follow-up not run" "اجرای دوباره انجام نشد" "BLOCKED";
  Build_Evidence "Embedded targets" "هدف نهفته" "toolchains absent" "ابزار موجود نیست" "BLOCKED";
  Build_Evidence "CAD ERC/DRC" "ERC و DRC" "not run" "اجرا نشده" "NOT RUN";
  Build_Evidence "Bench / field" "کارگاه و میدان" "no evidence" "بدون شاهد" "NOT RUN" ].
Definition status_color (status : string) : string :=
  if String.eqb status "PASS" then GREEN else if String.eqb status "BLOCKED" then WARNING else RED.
Fixpoint evidence_table (rows : list (Z * Evidence)) (y : float) : R float :=
  match rows with
  | [] => mret y
  | (index, row) :: rows =>
      draw (SetFillColor (if index mod 2 =? 0 then "#F1F6F7" else "white"));;
      draw (Rect MARGIN (y ⊖ n 22) (n 470) (n 22) true false);;
      draw (SetFillColor INK);;
      draw_text (either (ev_area row) (ev_area_fa row)) (n (if rtl then 402 else 52)) (y ⊖ n 15) regular (lit 74 1) false;;
      draw_text (either (ev_text row) (ev_text_fa row)) (n 217) (y ⊖ n 15) regular (lit 74 1) false;;
      draw (SetFillColor (status_color (ev_status row)));;
      draw_text (ev_status row) (n (if rtl then 52 else 402)) (y ⊖ n 15) bold (lit 74 1) false;;
      evidence_table rows (y ⊖ n 22)
  end.
Definition verification_headers : list (Z * string) :=
  if rtl then [(46, "وضعیت"); (211, "شاهد"); (396, "بخش")] else [(46, "Area"); (211, "Evidence"); (396, "Status")].
Definition verification : R () :=
  ensure (n 198);;
  top ← get rp_y;
  draw (SetFillColor ACCENT_DARK);;
  draw (Rect MARGIN (top ⊖ n 25) (n 470) (n 25) true false);;
  draw (SetFillColor "white");;
  for_each (λ header, draw_text header.2 (n (header.1 + 6)) (top ⊖ n 17) bold (n 8) false) verification_headers;;
  y ← evidence_table (enumerate evidence_rows) (top ⊖ n 25);
  move_to (y ⊖ n 4);;
  figure_caption "Table 1. Verification is scoped to retained evidence; hardware skips are not passes."
    "جدول ۱. صحه گذاری فقط بر شاهد نگهداری شده است و رد شدن آزمون سخت افزار موفقیت نیست.".

Definition directive (value : string) : R () :=
  if String.eqb value "ARCHITECTURE" then architecture
  else if String.eqb value "DETECTION_METRICS" then detection_metrics
  else if String.eqb value "BOARD" then board_figure
  else if String.eqb value "VERIFICATION" then verification
  else raise (ValueError ("unsupported report directive: " +:+ value)).

(** ** The document *)

Definition draw_block (b : Block) : R () :=
  match k_kind b with
  | KParagraph => paragraph (k_value b) false
  | KBullet => paragraph (k_value b) true
  | KDirective => directive (k_value b)
  end.
Definition draw_section (s : Section_) : R () :=
  new_page (sc_title s);;
  section_heading (sc_title s) false;;
  for_each draw_block (sc_blocks s).
Definition report_start : Report := Build_Report [] 0 (PAGE_HEIGHT ⊖ MARGIN) "".
Definition build : R () :=
  cover;;
  for_each draw_section (ds_sections source);;
  finish_page.
(** The operations of the saved document. *)
Definition build_report : result (list Op) :=
  match build report_start with (Ok _, r) => Ok (rp_ops r) | (Raise e, _) => Raise e end.
End Pages.

(** ** The hardware review *)

Section Review.
Context (str_container : json → string) (width height : float).

(** [len(value)] and the pages of [value[start:start + 14]] of a list. *)
Fixpoint pages_of {A} (fuel : nat) (l : list A) : list (list A) :=
  match fuel, l with
  | S fuel, _ :: _ => take 14 l :: pages_of fuel (drop 14 l)
  | _, _ => []
  end.
Definition listed (value : json) : result (list json) :=
  match value with
  | JArr l => Ok l
  | JStr s => if String.eqb s "" then Ok [] else Raise TypeError
  | JObj fields => match fields with [] => Ok [] | _ => Raise KeyError end
  | _ => Raise TypeError
  end.
(** [[s[i:i + 95] for i in range(0, len(s), 95)]] *)
Fixpoint chunks (fuel : nat) (l : list string) : list string :=
  match fuel, l with
  | S fuel, _ :: _ => join_chars (take 95 l) :: chunks fuel (drop 95 l)
  | _, _ => []
  end.
Definition text_chunks (s : string) : list string := chunks (length (chars s)) (chars s).
Definition int_float (z : Z) : float := of_int z.

Definition review_component (y : float) (component : json) : result (list Op) :=
  ref ← text_field str_container "ref" component;
  value ← text_field str_container "value" component;
  mpn ← text_field str_container "mpn" component;
  pins ← (v ← subscript "pins" component; items v);
  let pin_text := join " | " (map (λ pin, join_chars [pin.1; ":"; py_str str_container pin.2]) pins) in
  let parts := text_chunks pin_text in
  mret ([ SetStrokeColor ACCENT; SetFillColor PALE;
          RoundRect (of_int 28) (y ⊖ of_int 28) (of_int 150) (of_int 30) (of_int 4) true true;
          SetFillColor INK; SetFont "Helvetica-Bold" (of_int 8);
          DrawString (of_int 34) (y ⊖ of_int 10) (join_chars [ref; "  "; value]);
          SetFont "Helvetica" (lit 65 1); DrawString (of_int 34) (y ⊖ of_int 22) (py_take 35 mpn);
          SetFont "Helvetica" (lit 62 1); DrawString (of_int 190) (y ⊖ of_int 10) (List.hd "" parts) ]
        ++ match parts with _ :: second :: _ => [DrawString (of_int 190) (y ⊖ of_int 21) second] | _ => [] end).
Fixpoint review_components (y : float) (l : list json) : result (list Op) :=
  match l with
  | [] => Ok []
  | component :: l =>
      ops ← review_component y component;
      rest ← review_components (y ⊖ of_int 36) l;
      mret (ops ++ rest)
  end.
Definition review_page (entry : Z * list json) : result (list Op) :=
  let '(index, components) := entry in
  ops ← review_components (height ⊖ of_int 62) components;
  mret ([ SetFillColor RED; Rect (of_int 0) (height ⊖ of_int 34) width (of_int 34) true false;
          SetFillColor "white"; SetFont "Helvetica-Bold" (of_int 13);
          DrawString (of_int 28) (height ⊖ of_int 23) "CONNECTIVITY REVIEW - NOT KICAD SCHEMATIC PDF - NOT FOR FABRICATION";
          SetFillColor INK; SetFont "Helvetica" (of_int 7);
          DrawRightString (width ⊖ of_int 28) (of_int 20) (join_chars ["A0-UNVERIFIED | page "; str_of_Z (index + 1)]) ]
        ++ ops ++ [ShowPage]).
Definition hardware_review (design : json) : result (list Op) :=
  components ← (v ← subscript "components" design; listed v);
  pages ← mapM review_page (enumerate (pages_of (length components) components));
  mret (concat pages).
End Review.

(** ** The command *)

Section Build.
Context (stringWidth : string → string → float → float) (PAGE_WIDTH PAGE_HEIGHT : float).
Context (float_of_str : string → result float) (str_container : json → string) (decode_error encode_error : string → string).
Context (root : path) (resolve : path → path) (sha256 : string → string).
(** The bytes of a document with a title. *)
Context (pdf : string → list Op → string).

Definition REPORT_DIR : path := path_of root "docs/report".
Definition in_reports (text : string) : path := path_of REPORT_DIR text.
Definition REGULAR_FONT : path := in_reports "fonts/NotoSansArabic-Regular.ttf".
Definition BOLD_FONT : path := in_reports "fonts/NotoSansArabic-Bold.ttf".
Definition EN_SOURCE : path := in_reports "src/report_en.md".
Definition FA_SOURCE : path := in_reports "src/report_fa.md".
Definition EN_OUTPUT : path := in_reports "Intelligent_Industrial_IoT_Monitoring_Platform_EN.pdf".
Definition FA_OUTPUT : path := in_reports "Intelligent_Industrial_IoT_Monitoring_Platform_FA.pdf".
Definition HARDWARE_REVIEW_OUTPUT : path := path_of root "hardware/fabrication/iiot-monitor-schematic-review.pdf".
Definition CHECKSUM_MANIFEST : path := in_reports "checksums.sha256".

Definition register_fonts : M FS () :=
  found ← get (λ fs : FS, is_file resolve fs REGULAR_FONT && is_file resolve fs BOLD_FONT);
  if (found : bool) then mret tt else raise (OSError "bundled Noto Sans Arabic fonts are missing").
(** [canvas.save()] *)
Definition save (p : path) (content : string) : M FS () :=
  open_writing resolve p;;
  modify (λ fs, {| files := <[resolve p := content]> (files fs); dirs := dirs fs |}).
(** [str(path)] of an absolute path. *)
Definition path_string (p : path) : string := "/" +:+ join "/" p.
Definition parse_source (p : path) (fs : FS) : result DocumentSource :=
  content ← read_text resolve decode_error p fs; parse_markdown (path_string p) content.
Definition write_report (output source_path : path) (rtl : bool) : M FS () :=
  source ← reading (parse_source source_path);
  ops ← reading (λ fs, build_report stringWidth PAGE_WIDTH PAGE_HEIGHT float_of_str str_container decode_error root resolve
                          fs source rtl);
  save output (pdf (ds_title source) ops).
Definition review_title : string := "IIoT carrier connectivity review - NOT A KICAD EXPORT".
Definition build_hardware_review_pdf : M FS () :=
  design ← reading (λ fs, content ← read_text resolve decode_error (path_of root "hardware/design.json") fs; parse_json content);
  ops ← lift (hardware_review str_container PAGE_HEIGHT PAGE_WIDTH design);
  save HARDWARE_REVIEW_OUTPUT (pdf review_title ops).

Definition manifest_line (p : path) (fs : FS) : result string :=
  digest ← checksum sha256 resolve p fs;
  relative ← relative_text root p;
  mret (join_chars [digest; "  "; relative]).
Definition manifest_text (paths : list path) (fs : FS) : result string :=
  lines ← mapM (λ p, manifest_line p fs) paths;
  mret (join lf lines +:+ lf).
Definition outputs : list path := [EN_OUTPUT; FA_OUTPUT; HARDWARE_REVIEW_OUTPUT].
Definition write_checksum_manifest : M FS () :=
  text ← reading (manifest_text outputs);
  open_writing resolve CHECKSUM_MANIFEST;;
  append_text encode_error resolve CHECKSUM_MANIFEST text.
Definition main : M FS () :=
  register_fonts;;
  make_dirs resolve REPORT_DIR;;
  write_report EN_OUTPUT EN_SOURCE false;;
  write_report FA_OUTPUT FA_SOURCE true;;
  build_hardware_review_pdf;;
  write_checksum_manifest.

(** [verify_checksum_manifest] of [scripts/verify_reports.py]. *)
Definition verify_checksum_manifest (fs : FS) : result () :=
  expected ← manifest_text outputs fs;
  let stale : result () := Raise (ValueError "report checksum manifest is absent or stale") in
  if negb (is_file resolve fs CHECKSUM_MANIFEST) then stale
  else
    written ← read_text resolve decode_error CHECKSUM_MANIFEST fs;
    if String.eqb written expected then Ok tt else stale.
End Build.
