(* ===== verification/ReportProps.v ===== *)
(** What the report builder guarantees: pages are closed and numbered, every
    line of the source is drawn in order, and the manifest it writes verifies. *)
From S2P Require Import Prelude PyStr Float64 PyFormat Json JsonParse Csv JsonValues Files Regex ReportText ReportPages.
Local Open Scope py_scope.

(** The texts drawn by operations, in order. *)
Definition texts (ops : list Op) : list string :=
  omap (λ op, match op with DrawString _ _ t | DrawRightString _ _ t => Some t | _ => None end) ops.
Lemma texts_app a b : texts (a ++ b) = texts a ++ texts b.
Proof. apply omap_app. Qed.

(** Operations that do not close the page. *)
Definition staying (ops : list Op) : bool := forallb (λ op, match op with ShowPage => false | _ => true end) ops.
Lemma staying_app a b : staying (a ++ b) = staying a && staying b.
Proof. apply forallb_app. Qed.

Section Pages.
Context (stringWidth : string → string → float → float) (PAGE_WIDTH PAGE_HEIGHT : float).
Context (float_of_str : string → result float) (str_container : json → string) (decode_error : string → string).
Context (root : path) (resolve : path → path) (fs : FS) (source : DocumentSource) (rtl : bool).

Abbreviation text_width := (text_width stringWidth rtl).
Abbreviation draw_segments := (draw_segments stringWidth).
Abbreviation draw_text := (draw_text stringWidth rtl).
Abbreviation regular := (regular rtl).
Abbreviation bold := (bold rtl).
Abbreviation right_edge := (right_edge PAGE_WIDTH).
Abbreviation wrap_text := (wrap_text stringWidth rtl).
Abbreviation width := (CONTENT_WIDTH PAGE_WIDTH).

(** ** Drawing a text *)

Fixpoint segment_ops (segments : list (list string * string)) (cursor y size : float) : list Op :=
  match segments with
  | [] => []
  | (text, font) :: segments =>
      SetFont font size :: DrawString cursor y (join_chars text)
      :: segment_ops segments (cursor ⊕ stringWidth (join_chars text) font size) y size
  end.
Definition text_ops (value : string) (x y : float) (font : string) (size : float) (right : bool) : list Op :=
  if rtl then segment_ops (rtl_segments (chars value) font) (if right then x ⊖ text_width value font size else x) y size
  else [SetFont font size; if right then DrawRightString x y value else DrawString x y value].
(** The texts drawn for a line: its segments from left to right, or itself. *)
Definition strings_of (value : string) : list string :=
  if rtl then map (λ s, join_chars s.1) (rtl_segments (chars value) "") else [value].

Definition add_ops (ops : list Op) (r : Report) : Report :=
  Build_Report (rp_ops r ++ ops) (rp_page r) (rp_y r) (rp_section_title r).
Lemma add_ops_app a b r : add_ops b (add_ops a r) = add_ops (a ++ b) r.
Proof. unfold add_ops. cbn. by rewrite <- app_assoc. Qed.
Lemma draw_segments_ops l cursor y size r : draw_segments l cursor y size r = (Ok tt, add_ops (segment_ops l cursor y size) r).
Proof.
  revert cursor r. induction l as [|[text font] l IH]; intros cursor r; cbn [ReportPages.draw_segments segment_ops].
  - unfold add_ops. destruct r. cbn. by rewrite app_nil_r.
  - unfold mbind, M_bind, draw, modify. rewrite IH. f_equal. unfold add_ops. cbn. by rewrite <- !app_assoc.
Qed.
Lemma draw_text_ops value x y font size right r :
  draw_text value x y font size right r = (Ok tt, add_ops (text_ops value x y font size right) r).
Proof.
  unfold ReportPages.draw_text, text_ops. destruct rtl; [apply draw_segments_ops|].
  unfold mbind, M_bind, draw, modify, add_ops. cbn [rp_ops rp_page rp_y rp_section_title]. by rewrite <- app_assoc.
Qed.
Lemma segment_texts l cursor y size : texts (segment_ops l cursor y size) = map (λ s, join_chars s.1) l.
Proof. revert cursor. induction l as [|[text font] l IH]; intros cursor; [done|]. cbn. f_equal. apply IH. Qed.
Lemma segments_font value font font' :
  map (λ s, join_chars s.1) (rtl_segments value font) = map (λ s : list string * string, join_chars s.1) (rtl_segments value font').
Proof. unfold rtl_segments. rewrite !map_map. apply map_ext. by intros []. Qed.
Lemma text_ops_texts value x y font size right : texts (text_ops value x y font size right) = strings_of value.
Proof.
  unfold text_ops, strings_of. destruct rtl; [by rewrite segment_texts, (segments_font _ font "")|]. by destruct right.
Qed.
Lemma text_ops_open value x y font size right : staying (text_ops value x y font size right) = true.
Proof.
  unfold text_ops. destruct rtl; [|by destruct right].
  match goal with |- staying (segment_ops _ ?c _ _) = _ => generalize c end.
  induction (rtl_segments (chars value) font) as [|[text f] l IH]; intros cursor; [done|]. apply IH.
Qed.

(** ** Pages *)

(** What closes page [k]. *)
Definition footer (k : Z) : list Op :=
  [SetStrokeColor "#D5E1E4"; Line MARGIN (n 31) right_edge (n 31)]
  ++ text_ops (either rtl (str_of_Z k) ("صفحه " +:+ str_of_Z k)) right_edge (n 17) regular (n 8) true
  ++ text_ops (either rtl "SIMULATED - NOT FIELD VALIDATED" "شبیه سازی شده - فاقد اعتبار میدانی") MARGIN (n 17) regular (lit 75 1) false
  ++ [ShowPage].
Definition closed (bodies : list (list Op)) : list Op := concat (imap (λ i body, body ++ footer (Z.of_nat i + 1)) bodies).
Lemma closed_snoc bodies body : closed (bodies ++ [body]) = closed bodies ++ body ++ footer (Z.of_nat (length bodies) + 1).
Proof. unfold closed. rewrite imap_app, concat_app. cbn. by rewrite Nat.add_0_r, app_nil_r. Qed.

(** A report under way: closed pages, then the operations of the current one. *)
Definition paged (r : Report) : Prop := ∃ bodies body,
  rp_ops r = closed bodies ++ body ∧ rp_page r = Z.of_nat (length bodies) + 1
  ∧ Forall (λ b, staying b = true) bodies ∧ staying body = true.

(** [m] keeps the pages in order, begins at least [p] more of them and draws at
    least the texts [l]. *)
Definition grows {A} (l : list string) (p : Z) (m : R A) : Prop := ∀ r a r',
  m r = (Ok a, r') → paged r →
  paged r' ∧ rp_page r + p ≤ rp_page r' ∧ ∃ drawn, texts (rp_ops r') = texts (rp_ops r) ++ drawn ∧ l `sublist_of` drawn.

Lemma grows_bind {A B} l l' p p' (m : R A) (f : A → R B) :
  grows l p m → (∀ a, grows l' p' (f a)) → grows (l ++ l') (p + p') (m ≫= f).
Proof.
  intros Hm Hf r b r' (a & r1 & H1 & H2)%bind_ok_inv Hr. destruct (Hm _ _ _ H1 Hr) as (Hr1 & Hp1 & d1 & E1 & S1).
  destruct (Hf a _ _ _ H2 Hr1) as (Hr2 & Hp2 & d2 & E2 & S2). split_and!; [done|lia|]. exists (d1 ++ d2).
  rewrite E2, E1, app_assoc. split; [done|]. by apply sublist_app.
Qed.
Lemma grows_weaken {A} l l' p p' (m : R A) : grows l p m → l' `sublist_of` l → p' ≤ p → grows l' p' m.
Proof.
  intros Hm Hl Hp r a r' H Hr. destruct (Hm _ _ _ H Hr) as (? & ? & d & ? & ?). split_and!; [done|lia|]. exists d.
  split; [done|by etransitivity].
Qed.
(** Blocks that draw nothing in particular. *)
Lemma grows_quiet {A B} l p (m : R A) (f : A → R B) : grows [] 0 m → (∀ a, grows l p (f a)) → grows l p (m ≫= f).
Proof. intros Hm Hf. exact (grows_bind [] l 0 p m f Hm Hf). Qed.
Lemma grows_first {A B} l p (m : R A) (f : A → R B) : grows l p m → (∀ a, grows [] 0 (f a)) → grows l p (m ≫= f).
Proof. intros Hm Hf. pose proof (grows_bind l [] p 0 m f Hm Hf) as H. by rewrite app_nil_r, Z.add_0_r in H. Qed.

Lemma grows_same {A} (m : R A) :
  (∀ r a r', m r = (Ok a, r') → rp_ops r' = rp_ops r ∧ rp_page r' = rp_page r) → grows [] 0 m.
Proof.
  intros H r a r' E (bodies & body & Ho & Hp & Hb). destruct (H _ _ _ E) as [Eo Ep]. split_and!; [|lia|].
  - exists bodies, body. by rewrite Eo, Ep.
  - exists []. by rewrite Eo, app_nil_r.
Qed.
Lemma grows_ret {A} (a : A) : grows [] 0 (mret a : R A).
Proof. apply grows_same. by intros r b r' [= <- <-]. Qed.
Lemma grows_lift {A} (x : result A) : grows [] 0 (lift x : R A).
Proof. apply grows_same. by intros r b r' [= _ <-]. Qed.
Lemma grows_get {A} (f : Report → A) : grows [] 0 (get f : R A).
Proof. apply grows_same. by intros r b r' [= _ <-]. Qed.
Lemma grows_raise {A} e : grows [] 0 (raise e : R A).
Proof. by intros r a r' [=]. Qed.
Lemma grows_move_to y : grows [] 0 (move_to y).
Proof. apply grows_same. by intros r b r' [= _ <-]. Qed.
Lemma grows_move f : grows [] 0 (move f).
Proof. apply grows_quiet; [apply grows_get|intros y; apply grows_move_to]. Qed.
Lemma grows_ops {A} ops (m : R A) :
  staying ops = true → (∀ r, ∃ a, m r = (a, add_ops ops r)) → grows (texts ops) 0 m.
Proof.
  intros Hops H r a r' E (bodies & body & Ho & Hp & Hb & Hbody). destruct (H r) as [x E']. rewrite E' in E. injection E as -> <-.
  split_and!; [|cbn; lia|exists (texts ops); split; [apply texts_app|done]].
  exists bodies, (body ++ ops). cbn. rewrite Ho, <- app_assoc. split_and!; try done. by rewrite staying_app, Hbody, Hops.
Qed.
Lemma grows_draw op : staying [op] = true → grows [] 0 (draw op).
Proof.
  intros Hop. eapply grows_weaken; [apply (grows_ops [op])|apply sublist_nil_l|done]; [done|]. intros r. by exists (Ok tt).
Qed.
Lemma grows_text value x y font size right : grows (strings_of value) 0 (draw_text value x y font size right).
Proof.
  rewrite <- (text_ops_texts value x y font size right). apply grows_ops; [apply text_ops_open|].
  intros r. exists (Ok tt). apply draw_text_ops.
Qed.
Lemma grows_quietly {A} l p (m : R A) : 0 ≤ p → grows l p m → grows [] 0 m.
Proof. intros Hp H. eapply grows_weaken; [exact H|apply sublist_nil_l|done]. Qed.

Lemma grows_each {A} (g : A → list string) p (f : A → R ()) l :
  (∀ x, grows (g x) p (f x)) → grows (flat_map g l) (p * Z.of_nat (length l)) (for_each f l).
Proof.
  intros H. induction l as [|x l IH]; cbn [flat_map length for_each]; [rewrite Z.mul_0_r; apply grows_ret|].
  eapply grows_weaken; [apply (grows_bind (g x) (flat_map g l)); [apply H|intros _; exact IH]|done|lia].
Qed.
Lemma grows_each_quiet {A} (f : A → R ()) l : (∀ x, grows [] 0 (f x)) → grows [] 0 (for_each f l).
Proof. intros H. eapply grows_quietly; [|apply (grows_each (λ _, []) 0 f l H)]. lia. Qed.

(** Quiet blocks, by their shape. *)
Ltac quiet :=
  repeat match goal with
  | |- grows [] 0 (draw _) => apply grows_draw; reflexivity
  | |- grows [] 0 (mret _) => apply grows_ret
  | |- grows [] 0 (lift _) => apply grows_lift
  | |- grows [] 0 (get _) => apply grows_get
  | |- grows [] 0 (raise _) => apply grows_raise
  | |- grows [] 0 (move _) => apply grows_move
  | |- grows [] 0 (move_to _) => apply grows_move_to
  | |- grows [] 0 (ReportPages.draw_text _ _ _ _ _ _ _ _) => eapply grows_quietly; [reflexivity|apply grows_text]
  | |- grows [] 0 (for_each _ _) => apply grows_each_quiet; intros ?
  | |- grows [] 0 (_ ≫= _) => apply grows_quiet; [|intros ?]
  | |- grows [] 0 (if ?b then _ else _) => destruct b
  end; try done.

Lemma finish_page_ops r : rp_page r ≠ 0 →
  finish_page stringWidth PAGE_WIDTH rtl r = (Ok tt, add_ops (footer (rp_page r)) r).
Proof.
  intros Hp. unfold finish_page, footer. unfold mbind at 1, M_bind at 1. cbn [get]. rewrite (proj2 (Z.eqb_neq _ _) Hp).
  unfold mbind, M_bind, draw, modify. cbv beta iota. rewrite draw_text_ops. rewrite draw_text_ops. cbv beta iota.
  unfold add_ops. cbn [rp_ops rp_page rp_y rp_section_title]. by rewrite <- !app_assoc.
Qed.

(** What follows the closing of a page. *)
Definition begin_page (section_title : string) : R () :=
  draw (SetFillColor ACCENT);;
  draw (Rect (n 0) (PAGE_HEIGHT ⊖ n 12) PAGE_WIDTH (n 12) true false);;
  if String.eqb section_title "" then mret tt
  else
    draw (SetFillColor MUTED);;
    draw_text (ds_title source) (edge PAGE_WIDTH rtl) (PAGE_HEIGHT ⊖ n 31) regular (lit 75 1) rtl;;
    move_to (PAGE_HEIGHT ⊖ n 63).
Lemma begin_page_grows t : grows [] 0 (begin_page t).
Proof. unfold begin_page. quiet. Qed.
Definition turned (t : string) (r : Report) : Report := Build_Report (rp_ops r) (rp_page r + 1) (PAGE_HEIGHT ⊖ MARGIN) t.
Abbreviation new_page := (new_page stringWidth PAGE_WIDTH PAGE_HEIGHT source rtl).
Lemma new_page_grows t : grows [] 1 (new_page t).
Proof.
  intros r a r' H (bodies & body & Ho & Hp & Hb & Hbody). unfold ReportPages.new_page in H.
  apply bind_ok_inv in H as (u & r1 & H1 & H). rewrite finish_page_ops in H1 by lia. injection H1 as _ <-.
  change (begin_page t (turned t (add_ops (footer (rp_page r)) r)) = (Ok a, r')) in H.
  assert (Hr1 : paged (turned t (add_ops (footer (rp_page r)) r))).
  { exists (bodies ++ [body]), []. unfold turned. cbn [add_ops rp_ops rp_page]. rewrite closed_snoc, app_nil_r, Ho, Hp, length_app, <- app_assoc.
    split_and!; [done|simpl; lia|apply Forall_app; by split; [|constructor; [|constructor]]|done]. }
  destruct (begin_page_grows t _ _ _ H Hr1) as (Hr & Hpage & d & E & _). cbn [turned add_ops rp_page rp_ops] in *.
  split_and!; [done|lia|]. exists (texts (footer (rp_page r)) ++ d). split; [by rewrite E, texts_app, <- app_assoc|apply sublist_nil_l].
Qed.

(** ** The parts of a report *)

Definition strings_of_lines (lines : list string) : list string := flat_map strings_of lines.
Lemma draw_down_grows before lines x font size step :
  grows [] 0 before → grows (strings_of_lines lines) 0 (draw_down stringWidth rtl before lines x font size step).
Proof.
  intros Hb. induction lines as [|line lines IH]; cbn [draw_down strings_of_lines flat_map]; [apply grows_ret|].
  apply grows_quiet; [done|intros _]. apply grows_quiet; [apply grows_get|intros y].
  apply (grows_bind (strings_of line) _ 0 0); [apply grows_text|intros _]. by apply grows_quiet; [apply grows_move|intros _].
Qed.
Lemma draw_column_grows lines x y font size step :
  grows (strings_of_lines lines) 0 (draw_column stringWidth rtl lines x y font size step).
Proof.
  revert y. induction lines as [|line lines IH]; intros y; cbn [draw_column strings_of_lines flat_map]; [apply grows_ret|].
  apply (grows_bind (strings_of line) _ 0 0); [apply grows_text|intros _]. apply IH.
Qed.

Definition heading_lines (title : string) (continuation : bool) : list string :=
  wrap_text title bold (n (if continuation then 14 else 18)) width.
Definition paragraph_lines (value : string) (bullet : bool) : list string :=
  wrap_text value regular (lit 93 1) (if bullet then width ⊖ n 18 else width).
Definition metadata_lines (item : string) : list string := wrap_text item regular (lit 95 1) (width ⊖ n 36).

Abbreviation section_heading := (section_heading stringWidth PAGE_WIDTH rtl).
Abbreviation ensure := (ensure stringWidth PAGE_WIDTH PAGE_HEIGHT source rtl).
Abbreviation paragraph := (paragraph stringWidth PAGE_WIDTH PAGE_HEIGHT source rtl).
Lemma section_heading_grows t c : grows (strings_of_lines (heading_lines t c)) 0 (section_heading t c).
Proof.
  unfold ReportPages.section_heading, heading_lines. apply grows_quiet; [quiet|intros _].
  apply (grows_first _ 0); [|intros _; quiet]. destruct c; apply draw_down_grows, grows_ret.
Qed.
Lemma ensure_grows required : grows [] 0 (ensure required).
Proof.
  unfold ReportPages.ensure. apply grows_quiet; [quiet|intros y]. destruct (fltb _ _); [|quiet].
  apply grows_quiet; [quiet|intros title]. cbv zeta. apply grows_quiet; [|intros _].
  - eapply grows_quietly; [|apply new_page_grows]. done.
  - eapply grows_quietly; [|apply section_heading_grows]. done.
Qed.
Lemma paragraph_grows v b : grows (strings_of_lines (paragraph_lines v b)) 0 (paragraph v b).
Proof.
  unfold ReportPages.paragraph, paragraph_lines. apply grows_quiet; [apply ensure_grows|intros _].
  apply grows_quiet; [quiet|intros _]. apply grows_quiet; [quiet|intros _].
  apply (grows_first _ 0); [|intros _; quiet]. apply draw_down_grows. quiet.
Qed.
Lemma figure_caption_grows e p : grows [] 0 (figure_caption stringWidth PAGE_WIDTH rtl e p).
Proof. unfold figure_caption. quiet. Qed.
Lemma load_json_grows t : grows [] 0 (load_json decode_error root resolve fs t).
Proof. apply grows_lift. Qed.

Ltac figure := repeat first
  [ progress quiet
  | apply ensure_grows | apply figure_caption_grows | apply load_json_grows ].
Lemma architecture_grows : grows [] 0 (architecture stringWidth PAGE_WIDTH PAGE_HEIGHT source rtl).
Proof.
  unfold architecture. figure. unfold architecture_box. destruct x as [i [e p]]. figure. all: unfold label; figure.
Qed.
Lemma detection_metrics_grows :
  grows [] 0 (detection_metrics stringWidth PAGE_WIDTH PAGE_HEIGHT float_of_str decode_error root resolve fs source rtl).
Proof.
  unfold detection_metrics. figure. destruct x as [i [[e p] values]]. unfold detector_metrics. figure.
  destruct x as [j [key short]]. unfold metric_bar. figure.
Qed.
Lemma board_grows :
  grows [] 0 (board_figure stringWidth PAGE_WIDTH PAGE_HEIGHT float_of_str str_container decode_error root resolve fs source rtl).
Proof. unfold board_figure. figure. unfold board_component. figure. Qed.
Lemma evidence_grows rows y : grows [] 0 (evidence_table stringWidth rtl rows y).
Proof. revert y. induction rows as [|[i row] rows IH]; intros y; cbn [evidence_table]; figure. Qed.
Lemma verification_grows : grows [] 0 (verification stringWidth PAGE_WIDTH PAGE_HEIGHT source rtl).
Proof. unfold verification. figure. apply evidence_grows. Qed.

Abbreviation directive := (directive stringWidth PAGE_WIDTH PAGE_HEIGHT float_of_str str_container decode_error root resolve fs source rtl).
Lemma directive_grows v : grows [] 0 (directive v).
Proof.
  unfold ReportPages.directive.
  repeat (case_match; [first [apply architecture_grows|apply detection_metrics_grows|apply board_grows|apply verification_grows]|]).
  apply grows_raise.
Qed.

(** The lines of a block, of a section and of the document, in order. *)
Definition block_lines (b : Block) : list string :=
  match k_kind b with
  | KParagraph => paragraph_lines (k_value b) false
  | KBullet => paragraph_lines (k_value b) true
  | KDirective => []
  end.
Definition section_lines (s : Section_) : list string :=
  heading_lines (sc_title s) false ++ flat_map block_lines (sc_blocks s).
Definition document_lines : list string :=
  wrap_text (ds_title source) bold (n 27) width ++ flat_map metadata_lines (ds_metadata source)
  ++ flat_map section_lines (ds_sections source).

Lemma strings_of_app a b : strings_of_lines (a ++ b) = strings_of_lines a ++ strings_of_lines b.
Proof. apply flat_map_app. Qed.
Lemma strings_of_each {A} (f : A → list string) l : strings_of_lines (flat_map f l) = flat_map (λ x, strings_of_lines (f x)) l.
Proof. induction l as [|x l IH]; [done|]. cbn [flat_map]. by rewrite strings_of_app, IH. Qed.

Abbreviation draw_block := (draw_block stringWidth PAGE_WIDTH PAGE_HEIGHT float_of_str str_container decode_error root resolve fs source rtl).
Abbreviation draw_section := (draw_section stringWidth PAGE_WIDTH PAGE_HEIGHT float_of_str str_container decode_error root resolve fs source rtl).
Lemma draw_block_grows b : grows (strings_of_lines (block_lines b)) 0 (draw_block b).
Proof.
  unfold ReportPages.draw_block, block_lines. destruct (k_kind b); [apply paragraph_grows..|apply directive_grows].
Qed.
Lemma draw_section_grows s : grows (strings_of_lines (section_lines s)) 1 (draw_section s).
Proof.
  unfold ReportPages.draw_section, section_lines. rewrite strings_of_app, strings_of_each.
  apply (grows_bind [] _ 1 0); [apply new_page_grows|intros _].
  apply (grows_bind _ _ 0 0); [apply section_heading_grows|intros _].
  eapply grows_weaken; [apply (grows_each (λ b, strings_of_lines (block_lines b)) 0), draw_block_grows|done|done].
Qed.

(** ** The whole report *)

Lemma draw_metadata_grows items y :
  grows (strings_of_lines (flat_map metadata_lines items)) 0 (draw_metadata stringWidth PAGE_WIDTH rtl items y).
Proof.
  revert y. induction items as [|item items IH]; intros y; cbn [draw_metadata flat_map]; [apply grows_ret|].
  rewrite strings_of_app. apply (grows_bind _ _ 0 0); [apply draw_column_grows|intros z; apply IH].
Qed.
(** The cover after its page has begun. *)
Definition cover_page : R () := 
  draw (SetFillColor ACCENT_DARK);;
  draw (Rect (n 0) (PAGE_HEIGHT ⊗ lit 56 2) PAGE_WIDTH (PAGE_HEIGHT ⊗ lit 44 2) true false);;
  draw (SetFillColor "white");;
  y ← draw_column stringWidth rtl (wrap_text (ds_title source) bold (n 27) width) (edge PAGE_WIDTH rtl) (PAGE_HEIGHT ⊖ n 145) bold (n 27) (n 38);
  draw_text (either rtl "Engineering portfolio report" "گزارش مهندسی نمونه کار") (edge PAGE_WIDTH rtl) (y ⊖ n 8) regular (n 14) rtl;;
  draw (SetFillColor INK);;
  let box_y := PAGE_HEIGHT ⊗ lit 46 2 in
  draw (SetFillColor PALE);;
  draw (RoundRect MARGIN (n 90) width (box_y ⊖ n 62) (n 12) true false);;
  draw (SetFillColor INK);;
  draw_metadata stringWidth PAGE_WIDTH rtl (ds_metadata source) (box_y ⊖ n 20);;
  draw (SetFillColor RED);;
  draw_text (either rtl "Low-voltage demonstrator only. No safety, bench, or field certification."
               "فقط نمایش کم ولتاژ؛ فاقد گواهی ایمنی، کارگاهی یا میدانی") (edge PAGE_WIDTH rtl) (n 61) bold (n 9) rtl.
Lemma cover_page_grows :
  grows (strings_of_lines (wrap_text (ds_title source) bold (n 27) width)
         ++ strings_of_lines (flat_map metadata_lines (ds_metadata source))) 0 cover_page.
Proof.
  unfold cover_page. do 3 (apply grows_quiet; [quiet|intros _]).
  apply (grows_bind _ _ 0 0); [apply draw_column_grows|intros y]. cbv zeta. do 5 (apply grows_quiet; [quiet|intros _]).
  apply (grows_first _ 0); [apply draw_metadata_grows|intros _; quiet].
Qed.

Abbreviation build := (build stringWidth PAGE_WIDTH PAGE_HEIGHT float_of_str str_container decode_error root resolve fs source rtl).
Definition first_page : Report := turned "" (report_start PAGE_HEIGHT).
Lemma first_page_paged : paged first_page.
Proof. by exists [], []. Qed.
(** Everything before the last page is closed. *)
Definition body_of : R () := begin_page "";; cover_page;; for_each draw_section (ds_sections source).
Lemma body_grows : grows (strings_of_lines document_lines) (Z.of_nat (length (ds_sections source))) body_of.
Proof.
  unfold body_of, document_lines. rewrite !strings_of_app, app_assoc.
  apply grows_quiet; [apply begin_page_grows|intros _]. apply (grows_bind _ _ 0 (Z.of_nat (length (ds_sections source))));
    [apply cover_page_grows|intros _].
  rewrite (strings_of_each section_lines). eapply grows_weaken; [apply (grows_each (λ s, strings_of_lines (section_lines s)) 1), draw_section_grows|done|lia].
Qed.
Lemma build_split r : build (report_start PAGE_HEIGHT) = (Ok tt, r) →
  ∃ r1, body_of first_page = (Ok tt, r1) ∧ r = add_ops (footer (rp_page r1)) r1 ∧ paged r1
    ∧ Z.of_nat (length (ds_sections source)) + 1 ≤ rp_page r1
    ∧ strings_of_lines document_lines `sublist_of` texts (rp_ops r1).
Proof.
  intros H.
  assert (E : build (report_start PAGE_HEIGHT) = (body_of ≫= λ _, finish_page stringWidth PAGE_WIDTH rtl) first_page).
  { unfold ReportPages.build, body_of, mbind, M_bind. change (cover stringWidth PAGE_WIDTH PAGE_HEIGHT source rtl (report_start PAGE_HEIGHT))
      with ((begin_page "" ≫= λ _, cover_page) first_page). unfold mbind, M_bind.
    destruct (begin_page "" first_page) as [[] r1]; [|done]. destruct (cover_page r1) as [[] r2]; [|done].
    by destruct (for_each _ _ r2) as [[] r3]. }
  rewrite E in H. apply bind_ok_inv in H as ([] & r1 & H1 & H2). exists r1.
  destruct (body_grows _ _ _ H1 first_page_paged) as (Hp & Hn & d & Ed & Hd). cbn in Hn, Ed.
  assert (Hpage : 1 ≤ rp_page r1) by lia. rewrite finish_page_ops in H2 by lia. injection H2 as <-.
  split_and!; [done|done|done|lia|]. by rewrite Ed.
Qed.

(** C38: a finished report: its operations are pages, the [k]-th of which ends with
    the footer of number [k]; there is a cover and at least a page for every
    section; and every line of the source (the wrapped title, metadata,
    headings, paragraphs and bullets) is drawn, in order: in English as it is,
    in Persian as its segments from left to right. *)
Theorem report_complete ops :
  build_report stringWidth PAGE_WIDTH PAGE_HEIGHT float_of_str str_container decode_error root resolve fs source rtl = Ok ops →
  (∃ bodies, ops = closed bodies ∧ Forall (λ b, staying b = true) bodies
     ∧ (length (ds_sections source) < length bodies)%nat)
  ∧ strings_of_lines document_lines `sublist_of` texts ops.
Proof.
  unfold build_report. destruct (build (report_start PAGE_HEIGHT)) as [[[]|e] r] eqn:E; [|done]. intros [= <-].
  apply build_split in E as (r1 & _ & -> & (bodies & body & Ho & Hp & Hb & Hbody) & Hn & Hs). cbn [add_ops rp_ops]. split.
  - exists (bodies ++ [body]). rewrite closed_snoc, Ho, Hp, <- app_assoc. split_and!; [done| |rewrite length_app; simpl; lia].
    apply Forall_app. by split; [|constructor; [|constructor]].
  - rewrite texts_app. by apply sublist_inserts_r.
Qed.
End Pages.

(** ** A small report *)

Definition sample_width (text _ : string) (size : float) : float := (of_int (Z.of_nat (py_len text)) ⊗ size)%py.
Definition sample_source : DocumentSource := {|
  ds_title := "Platform"; ds_metadata := ["Author: A"];
  ds_sections := [ Build_Section_ "Summary" [
      Build_Block KParagraph (join " " (repeat "measurements" 80)); Build_Block KBullet "one item";
      Build_Block KDirective "VERIFICATION"; Build_Block KDirective "ARCHITECTURE"; Build_Block KParagraph "The end." ] ] |}.
Definition empty_files : FS := {| files := ∅; dirs := ∅ |}.
Abbreviation sample_ops := (build_report sample_width (of_int 595) (of_int 842) (λ _, Raise TypeError) (λ _, "") id [] id
  empty_files sample_source false).
Definition shown_pages (ops : list Op) : nat := length (List.filter (λ op, match op with ShowPage => true | _ => false end) ops).
Definition sample_pages : list Op := match sample_ops with Ok ops => ops | Raise _ => [] end.
Lemma sample_pages_ok : sample_ops = Ok sample_pages.
Proof. vm_compute. reflexivity. Qed.
Lemma report_complete_witness :
  shown_pages sample_pages = 3%nat ∧ ["Platform"; "Author: A"] `sublist_of` texts sample_pages.
Proof.
  split; [vm_compute; reflexivity|].
  destruct (report_complete sample_width (of_int 595) (of_int 842) (λ _, Raise TypeError) (λ _, "") id [] id empty_files
              sample_source false sample_pages sample_pages_ok) as [_ H].
  etransitivity; [|exact H]. vm_compute. repeat constructor.
Defined.

(** ** The checksum manifest *)


Section Manifest.
Context (stringWidth : string → string → float → float) (PAGE_WIDTH PAGE_HEIGHT : float).
Context (float_of_str : string → result float) (str_container : json → string) (decode_error encode_error : string → string).
Context (root : path) (resolve : path → path) (sha256 : string → string) (pdf : string → list Op → string).
(** The root is an absolute path without links below it, and a digest is one line. *)
Context (plain : ∀ p, ".." ∉ p → resolve p = p) (root_plain : ".." ∉ root).
Context (one_line : ∀ content, contains_char (ascii_of_N 13) (sha256 content) = false).

Definition output_names : list (list string) := [
  ["docs"; "report"; "Intelligent_Industrial_IoT_Monitoring_Platform_EN.pdf"];
  ["docs"; "report"; "Intelligent_Industrial_IoT_Monitoring_Platform_FA.pdf"];
  ["hardware"; "fabrication"; "iiot-monitor-schematic-review.pdf"] ].
Definition manifest_name : list string := ["docs"; "report"; "checksums.sha256"].

Lemma root_path t l : startswith "/" t = false → path_parts t = l → path_of root t = root ++ l.
Proof. intros Ht <-. unfold path_of. by rewrite Ht. Qed.
Lemma report_path t l : startswith "/" t = false → path_parts t = l → in_reports root t = root ++ "docs" :: "report" :: l.
Proof.
  intros Ht <-. unfold in_reports, REPORT_DIR, path_of. rewrite Ht. change (startswith "/" "docs/report") with false. cbv iota.
  change (path_parts "docs/report") with ["docs"; "report"]. by rewrite <- app_assoc.
Qed.
Lemma outputs_spots : outputs root = map (app root) output_names.
Proof.
  unfold outputs, EN_OUTPUT, FA_OUTPUT, HARDWARE_REVIEW_OUTPUT, output_names. cbn [map].
  rewrite !(report_path _ [_]), (root_path _ ["hardware"; "fabrication"; "iiot-monitor-schematic-review.pdf"]) by done. done.
Qed.
Lemma manifest_spot : CHECKSUM_MANIFEST root = root ++ manifest_name.
Proof. by apply report_path. Qed.
Lemma resolve_below l : ".." ∉ l → resolve (root ++ l) = root ++ l.
Proof. intros H. apply plain. rewrite elem_of_app. by intros [?|?]. Qed.
Lemma outputs_resolved p : p ∈ outputs root → resolve p = p ∧ p ≠ root ++ manifest_name.
Proof.
  rewrite outputs_spots, list_elem_of_fmap. intros (l & -> & Hl). split.
  - apply resolve_below. unfold output_names in Hl. rewrite !elem_of_cons, elem_of_nil in Hl.
    destruct Hl as [->|[->|[->|[]]]]; by apply (bool_decide_unpack _).
  - intros E%app_inv_head. subst l. unfold output_names in Hl. rewrite !elem_of_cons, elem_of_nil in Hl. naive_solver.
Qed.

Abbreviation text_of := (manifest_text root resolve sha256 (outputs root)).
Lemma manifest_ext fs fs' :
  (∀ p, p ∈ outputs root → files fs !! p = files fs' !! p) → text_of fs = text_of fs'.
Proof.
  intros H. unfold manifest_text. assert (E : mapM (λ p, manifest_line root resolve sha256 p fs) (outputs root)
    = mapM (λ p, manifest_line root resolve sha256 p fs') (outputs root)).
  { assert (Hr : ∀ p, p ∈ outputs root → resolve p = p) by (intros p Hp; by apply outputs_resolved).
    induction (outputs root) as [|p l IH]; [done|].
    cbn [mapM]. rewrite IH by (intros q Hq; first [apply H|apply Hr]; by right).
    unfold manifest_line, checksum, read_file. by rewrite Hr, H by left. }
  by rewrite E.
Qed.
Lemma manifest_one_line fs text : text_of fs = Ok text → contains_char (ascii_of_N 13) text = false.
Proof.
  unfold manifest_text. rewrite outputs_spots. unfold output_names. cbn [map mapM]. unfold manifest_line, relative_text.
  rewrite !relative_to_app. unfold checksum, mbind, result_bind, mret, result_ret.
  repeat (destruct (read_file resolve _ fs) as [?|]; [|done]). intros [= <-]. unfold join_chars. cbn [join foldr].
  rewrite !contains_char_app, !one_line. reflexivity.
Qed.

Lemma manifest_written fs fs' :
  write_checksum_manifest encode_error root resolve sha256 fs = (Ok tt, fs') →
  verify_checksum_manifest decode_error root resolve sha256 fs' = Ok tt.
Proof.
  intros H.
  unfold write_checksum_manifest in H. apply bind_ok_inv in H as (text & fs1 & Ht & H). injection Ht as Ht <-.
  apply bind_ok_inv in H as (u & fs2 & Ho & Ha). pose proof (open_ok _ _ _ _ _ Ho) as Hempty.
  destruct (append_ok _ _ _ _ _ _ _ _ Hempty Ha) as [Hs Hf]. change ("" +:+ text) with text in *.
  assert (Hsame : ∀ p, p ∈ outputs root → files fs !! p = files fs' !! p).
  { intros p Hp. destruct (outputs_resolved p Hp) as [_ Hne].
    assert (Hm : resolve (CHECKSUM_MANIFEST root) ≠ p).
    { rewrite manifest_spot, resolve_below; [congruence|]. by apply (bool_decide_unpack _). }
    rewrite (append_only _ _ _ _ _ _ _ _ Ha Hm). symmetry. pose proof (open_holds resolve _ p _ Hm fs eq_refl) as K. by rewrite Ho in K. }
  unfold verify_checksum_manifest. rewrite <- (manifest_ext _ _ Hsame), Ht. unfold mbind, result_bind.
  unfold read_text. rewrite (is_file_holds _ _ _ _ Hf), (read_file_holds _ _ _ _ Hf). cbn [negb]. unfold mbind, result_bind.
  rewrite Hs, universal_plain by (by eapply manifest_one_line). by rewrite String.eqb_refl.
Qed.
(** The checksum manifest the command writes is the one the verification
    expects: after a complete build, on the files it left, the check passes. *)
Theorem manifest_verifies fs fs' :
  main stringWidth PAGE_WIDTH PAGE_HEIGHT float_of_str str_container decode_error encode_error root resolve sha256 pdf fs = (Ok tt, fs') →
  verify_checksum_manifest decode_error root resolve sha256 fs' = Ok tt.
Proof.
  intros H. unfold main in H.
  do 5 (let E := fresh in apply bind_ok_inv in H as (? & ? & E & H); clear E).
  by eapply manifest_written.
Qed.
End Manifest.

Definition tiny_report (title : string) : string :=
  join_chars (map (λ l, l +:+ lf) (["# " +:+ title; "by A"] ++ concat (repeat ["## S"; ""; "one two"; "- three"] 17))).
Definition report_files : FS := {|
  files := list_to_map [
    (["docs"; "report"; "fonts"; "NotoSansArabic-Regular.ttf"], "r"); (["docs"; "report"; "fonts"; "NotoSansArabic-Bold.ttf"], "b");
    (["docs"; "report"; "src"; "report_en.md"], tiny_report "Report"); (["docs"; "report"; "src"; "report_fa.md"], tiny_report "گزارش");
    (["hardware"; "design.json"], "{" +:+ quote +:+ "components" +:+ quote +:+ ": []}") ];
  dirs := {[ ["hardware"; "fabrication"] ]} |}.
Definition count_ops (title : string) (ops : list Op) : string := title +:+ str_of_Z (Z.of_nat (length ops)).
Definition sample_hash (content : string) : string := if Nat.even (String.length content) then "aa" else "bb".
Abbreviation sample_main := (main sample_width (of_int 595) (of_int 842) (λ _, Raise TypeError) (λ _, "") id id [] id
  sample_hash count_ops report_files).
Definition sample_after : FS := sample_main.2.
Lemma sample_main_ok : sample_main = (Ok tt, sample_after).
Proof.
  unfold sample_after. rewrite (surjective_pairing sample_main) at 1. apply (f_equal2 pair); [vm_compute; reflexivity|reflexivity].
Qed.
Lemma manifest_verifies_witness :
  files sample_after !! ["docs"; "report"; "Intelligent_Industrial_IoT_Monitoring_Platform_EN.pdf"] = Some "Report484"
  ∧ verify_checksum_manifest id [] id sample_hash sample_after = Ok tt.
Proof.
  split; [vm_compute; reflexivity|].
  apply (manifest_verifies sample_width (of_int 595) (of_int 842) (λ _, Raise TypeError) (λ _, "") id id [] id
           sample_hash count_ops (λ _ _, eq_refl) (not_elem_of_nil _) (λ c, match Nat.even (String.length c) as b return contains_char (ascii_of_N 13) (if b then "aa" else "bb") = false
                  with true => eq_refl | false => eq_refl end) report_files sample_after).
  exact sample_main_ok.
Defined.

(** ** The hardware review *)

Lemma chunks_two l :
  chunks (length l) l = [] ∧ l = [] ∨ ∃ rest, chunks (length l) l = join_chars (take 95 l) :: rest
    ∧ join_chars (take 1 rest) = join_chars (take 95 (drop 95 l)).
Proof.
  destruct l as [|c l]; [by left|right]. cbn [length chunks]. eexists. split; [reflexivity|].
  destruct (length l) as [|k] eqn:El; [by destruct l|]. cbn [chunks].
  destruct (drop 95 (c :: l)) as [|d k'] eqn:Ed; [done|]. cbn [take]. unfold join_chars at 1. cbn [foldr]. by rewrite app_nil_r_str.
Qed.
(** The review shows the first 190 characters of the pins of a component, and
    nothing of what follows them. *)
Theorem review_pins str_container y component ops :
  review_component str_container y component = Ok ops →
  ∃ pins, (v ← subscript "pins" component; items v) = Ok pins
    ∧ join_chars (drop 2 (texts ops))
      = py_take 190 (join " | " (map (λ pin, join_chars [pin.1; ":"; py_str str_container pin.2]) pins)).
Proof.
  unfold review_component. intros H.
  assert (Hpins : ∃ pins, (v ← subscript "pins" component; items v) = Ok pins).
  { revert H. unfold mbind, result_bind. do 3 (destruct (text_field _ _ component); [|done]).
    destruct (subscript "pins" component) as [v|]; [|done]. destruct (items v) as [pins|]; [by exists pins|done]. }
  destruct Hpins as [pins E]. exists pins. split; [done|]. rewrite E in H. revert H. unfold mbind at 1, result_bind at 1.
  destruct (text_field str_container "ref" component) as [ref|]; [|done]. unfold mbind at 1, result_bind at 1.
  destruct (text_field str_container "value" component) as [value|]; [|done]. unfold mbind at 1, result_bind at 1.
  destruct (text_field str_container "mpn" component) as [mpn|]; [|done]. unfold mbind at 1, result_bind at 1.
  cbv zeta. set (t := join " | " _). intros [= <-]. unfold text_chunks, py_take.
  destruct (chunks_two (chars t)) as [[-> ->]|(rest & -> & Hr)]; [done|].
  change 190%nat with (95 + 95)%nat. rewrite <- take_take_drop, join_chars_app, <- Hr.
  destruct rest as [|second rest]; cbn; by rewrite ?app_nil_r_str.
Qed.

(** The controller of [hardware/design.json], whose last pin is not shown. *)
Definition controller : json := JObj [
  ("ref", JStr "U1"); ("value", JStr "ESP32-WROOM-32E"); ("mpn", JStr "ESP32-WROOM-32E-N4");
  ("pins", JObj (map (λ kv : string * string, (kv.1, JStr kv.2)) [
    ("1", "GND"); ("2", "+3V3"); ("3", "ESP_EN"); ("11", "RELAY_CTRL"); ("12", "RS485_DE"); ("25", "ESP_BOOT");
    ("26", "ACCEL_INT"); ("27", "UART_RX"); ("28", "UART_TX"); ("29", "ACCEL_CS"); ("30", "SPI_SCK"); ("31", "SPI_MISO");
    ("33", "I2C_SDA"); ("36", "I2C_SCL"); ("37", "SPI_MOSI"); ("38", "GND")])) ].
Definition controller_ops : list Op :=
  match review_component (λ _, "") (of_int 500) controller with Ok ops => ops | Raise _ => [] end.
Lemma review_pins_witness :
  let shown := join_chars (drop 2 (texts controller_ops)) in
  py_len shown = 190%nat ∧ occurs "37:SPI_MOS" shown = true ∧ occurs "37:SPI_MOSI" shown = false ∧ occurs "38:GND" shown = false.
Proof.
  intros shown. assert (E : review_component (λ _, "") (of_int 500) controller = Ok controller_ops) by (vm_compute; reflexivity).
  destruct (review_pins (λ _, "") (of_int 500) controller controller_ops E) as (pins & Hp & Hs).
  subst shown. rewrite Hs. revert Hp. cbn. intros [= <-]. vm_compute. repeat split; reflexivity.
Defined.
