(* ===== verification/ReportCheck.v ===== *)
(** [scripts/verify_reports.py]: the checks of the report files and of a picture
    of every page.

    pypdf, pdfplumber, Pillow and [pdftoppm] are arguments, the first and the
    third as interfaces.  The temporary directory holds no links. *)
From S2P Require Import Prelude PyStr Float64 Csv JsonParse Files ReportText ReportPages.
Local Open Scope py_scope.

(** ** Libraries *)

(** pypdf: objects as dicts, and documents. *)
Class PdfObjects (PdfObject : Type) := {
  get_object : PdfObject → PdfObject;
  object_get : string → PdfObject → result (option PdfObject);
  object_values : PdfObject → result (list PdfObject);
  object_contains : string → PdfObject → result bool;
  object_text : PdfObject → string }.
Class PdfReader (Document PdfObject : Type) := {
  read_pdf : string → result Document;
  reader_pages : Document → list PdfObject;
  extract_text : PdfObject → result (option string);
  (* [metadata], and its [author] *)
  reader_author : Document → option (option string) }.

(** What is drawn on a contact sheet. *)
Inductive Mark (Image : Type) :=
  | Paste (page : Image) (x y : Z)
  | Label (x y : Z) (text fill : string).
Arguments Paste {Image}. Arguments Label {Image}.
(** Pillow. *)
Class Pillow (Image : Type) := {
  open_image : string → result Image;
  width : Image → Z;
  height : Image → Z;
  convert_rgb : Image → Image;
  thumbnail : Z → Z → Image → Image;
  (* the pixels after [resize] *)
  resized : Z → Z → Image → list (Z * Z * Z);
  (* the PNG bytes of a canvas of a size and a background *)
  png : Z → Z → string → list (Mark Image) → string }.

(** ** Fonts *)

Section Fonts.
Context {Document PdfObject : Type} `{PdfObjects PdfObject} `{PdfReader Document PdfObject}.

(** [dereference(value.get(key, {}))]: [None] is the empty dict. *)
Definition child (key : string) (value : option PdfObject) : result (option PdfObject) :=
  match value with
  | None => Ok None
  | Some v => found ← object_get key v; mret (option_map get_object found)
  end.
Definition is_embedded (descriptor : option PdfObject) : result bool :=
  match descriptor with
  | None => Ok false
  | Some d =>
      a ← object_contains "/FontFile" d;
      if (a : bool) then Ok true
      else b ← object_contains "/FontFile2" d;
           if (b : bool) then Ok true else object_contains "/FontFile3" d
  end.
Definition font_name (reference : PdfObject) : result (option string) :=
  let font := get_object reference in
  descriptor ← child "/FontDescriptor" (Some font);
  embedded ← is_embedded descriptor;
  if (embedded : bool)
  then base ← object_get "/BaseFont" font;
       mret (Some (match base with Some b => object_text b | None => "unknown" end))
  else Ok None.
Definition page_fonts (page : PdfObject) : result (list string) :=
  resources ← child "/Resources" (Some page);
  fonts ← child "/Font" resources;
  references ← match fonts with None => Ok [] | Some f => object_values f end;
  found ← mapM font_name references;
  mret (omap id found).
Definition embedded_fonts (reader : Document) : result (gset string) :=
  found ← mapM page_fonts (reader_pages reader);
  mret (list_to_set (concat found)).
End Fonts.

(** ** Pictures *)

Section Pictures.
Context {Image : Type} `{Pillow Image}.

(** [non_white_fraction] *)
Definition dark (pixel : Z * Z * Z) : bool := let '(red, green, blue) := pixel in Z.min (Z.min red green) blue <? 245.
Definition non_white_fraction (image : Image) : float :=
  let pixels := resized 120 170 (convert_rgb image) in
  int_div (Z.of_nat (length (List.filter dark pixels))) (120 * 170).

Definition thumb_width : Z := 190.
Definition thumb_height : Z := 269.
Definition columns : Z := 4.
Definition rows (n : Z) : Z := (n + columns - 1) / columns.
(** The page of an index on the sheet: its picture and its label. *)
Definition cell (index : Z) (source : Image) : list (Mark Image) :=
  let page := thumbnail (thumb_width - 12) (thumb_height - 12) (convert_rgb source) in
  let x := index mod columns * thumb_width + (thumb_width - width page) / 2 in
  let y := index / columns * (thumb_height + 24) + 6 in
  [Paste page x y; Label x (y + height page + 2) ("page " +:+ str_of_Z (index + 1)) "#102027"].
Definition sheet_width : Z := columns * thumb_width.
Definition sheet_height (n : Z) : Z := rows n * (thumb_height + 24).
Definition sheet_marks (pages : list Image) : list (Mark Image) :=
  concat (imap (λ i page, cell (Z.of_nat i) page) pages).
End Pictures.

(** ** The command *)

Section Verify.
Context {Document PdfObject Image : Type} `{PdfObjects PdfObject} `{PdfReader Document PdfObject} `{Pillow Image}.
Context (plumber_texts : string → result (list (option string))).
Context (pdftoppm : option string) (run_pdftoppm : string → path → path → M FS ()).
Context (repr_list : list string → string) (decode_error : string → string).
Context (root : path) (resolve : path → path) (sha256 : string → string).

Definition TMP_DIR : path := path_of root "tmp/pdfs".

(** [directory.glob(f"{name}-*.png")]: the names, in no particular order. *)
Definition picture_name (name entry : string) : bool :=
  let prefix := name +:+ "-" in
  startswith prefix entry && endswith ".png" (drop_chars (py_len prefix) entry).
Definition entries (directory : path) (fs : FS) : list string :=
  omap (λ q : path, match last q with
                    | Some n => if bool_decide (removelast q = resolve directory) then Some n else None
                    | None => None end)
       (elements (dom (files fs) ∪ dirs fs)).
Definition glob (name : string) (fs : FS) : list path :=
  map (λ n, TMP_DIR ++ [n]) (List.filter (picture_name name) (entries TMP_DIR fs)).
(** [path.unlink()] *)
Definition unlink (p : path) : M FS () := λ fs,
  if is_file resolve fs p then (Ok (), {| files := delete (resolve p) (files fs); dirs := dirs fs |})
  else (Raise (OSError "Is a directory"), fs).

Definition render (p : path) (name : string) : M FS (list path) :=
  match pdftoppm with
  | None => raise (RuntimeError "pdftoppm is required for report verification")
  | Some program =>
      stale ← get (glob name);
      for_each unlink stale;;
      run_pdftoppm program p (TMP_DIR ++ [name]);;
      pages ← get (λ fs, py_sorted path_ltb (glob name fs));
      match pages with
      | [] => raise (ValueError ("no rendered pages produced for " +:+ path_string p))
      | _ => mret pages
      end
  end.

Definition image_at (p : path) (fs : FS) : result Image := content ← read_file resolve p fs; open_image content.
Definition contact_sheet (paths : list path) (output : path) : M FS () :=
  images ← reading (λ fs, mapM (λ p, image_at p fs) paths);
  save resolve output (png sheet_width (sheet_height (Z.of_nat (length paths))) "#dce5e8" (sheet_marks images)).

(** The checks of [verify_primary]. *)
Definition check_pages (language : string) (reader : Document) : result () :=
  let n := Z.of_nat (length (reader_pages reader)) in
  if (18 <=? n) && (n <=? 30) then Ok tt
  else Raise (ValueError (join_chars ["unexpected "; language; " page count: "; str_of_Z n])).
Definition check_author (language : string) (reader : Document) : result () :=
  let named := match reader_author reader with
               | None => false
               | Some author => occurs "Amin Zoroufi" (default "None" author)
               end in
  if (named : bool) then Ok tt else Raise (ValueError (join_chars ["missing "; language; " author metadata"])).
Definition check_fonts (language : string) (fonts : gset string) : result () :=
  let names := py_sorted String.ltb (elements fonts) in
  if String.eqb language "fa" && negb (existsb (occurs "NotoSansArabic") names)
  then Raise (ValueError (join_chars ["Noto font is not embedded in "; language; " report: "; repr_list names]))
  else Ok tt.
Definition check_texts (language : string) (extracted : list string) : result () :=
  if existsb (λ text, (py_len (strip text) <? 35)%nat) extracted
  then Raise (ValueError (join_chars ["blank or nearly blank page detected in "; language; " report"])) else Ok tt.
Definition required_texts : list string := ["Executive summary"; "A0-UNVERIFIED"; "47 Python tests"].
Definition check_english (joined : string) : result () :=
  match List.find (λ required, negb (occurs required joined)) required_texts with
  | Some required => Raise (ValueError ("English report is missing required text: " +:+ required))
  | None => Ok tt
  end.
Definition persian_claim : string := "هیچ ادعای آزمون کارگاهی یا میدانی".
Definition check_persian (source : string) : result () :=
  if (py_len source <? 10000)%nat || negb (occurs persian_claim source)
  then Raise (ValueError "Persian editable source is incomplete") else Ok tt.
Definition check_picture (language : string) (index : Z) (p : path) (fs : FS) : result () :=
  image ← image_at p fs;
  if (width image <? 800) || (height image <? 1100)
  then Raise (ValueError (join_chars ["unexpected render size on "; language; " page "; str_of_Z index]))
  else if non_white_fraction image <.? lit 15 3
  then Raise (ValueError (join_chars ["visually blank "; language; " page "; str_of_Z index]))
  else Ok tt.
Fixpoint check_pictures (language : string) (index : Z) (pages : list path) (fs : FS) : result () :=
  match pages with
  | [] => Ok tt
  | p :: pages => check_picture language index p fs;; check_pictures language (index + 1) pages fs
  end.
Definition check_document (p : path) (language : string) (fs : FS) : result nat :=
  content ← read_file resolve p fs;
  reader ← read_pdf content;
  check_pages language reader;;
  check_author language reader;;
  fonts ← embedded_fonts reader;
  check_fonts language fonts;;
  extracted ← plumber_texts content;
  let texts := map (default "") extracted in
  check_texts language texts;;
  (if String.eqb language "en" then check_english (join lf texts)
   else source ← read_text resolve decode_error (FA_SOURCE root) fs; check_persian source);;
  mret (length (reader_pages reader)).
Definition verify_primary (p : path) (language : string) : M FS (list path) :=
  n ← reading (check_document p language);
  pages ← render p language;
  (if Nat.eqb (length pages) n then mret tt
   else raise (ValueError ("rendered page count differs for " +:+ language)));;
  reading (check_pictures language 1 pages);;
  contact_sheet pages (TMP_DIR ++ [language +:+ "-contact-sheet.png"]);;
  mret pages.
Definition check_review (p : path) (fs : FS) : result () :=
  content ← read_file resolve p fs;
  reader ← read_pdf content;
  texts ← mapM extract_text (reader_pages reader);
  let text := join lf (map (default "") texts) in
  if negb (occurs "NOT KICAD SCHEMATIC PDF" text) || negb (occurs "NOT FOR FABRICATION" text)
  then Raise (ValueError "hardware connectivity review lacks its non-release warning") else Ok tt.
Definition verify_hardware_review (p : path) : M FS () :=
  reading (check_review p);;
  pages ← render p "schematic-review";
  contact_sheet pages (TMP_DIR ++ ["schematic-review-contact-sheet.png"]).
Definition main : M FS () :=
  make_dirs resolve TMP_DIR;;
  for_each (λ p, found ← get (λ fs, is_file resolve fs p);
                 if (found : bool) then mret tt else raise (OSError (path_string p))) (outputs root);;
  _ ← verify_primary (EN_OUTPUT root) "en";
  _ ← verify_primary (FA_OUTPUT root) "fa";
  verify_hardware_review (HARDWARE_REVIEW_OUTPUT root);;
  reading (verify_checksum_manifest decode_error root resolve sha256).
End Verify.
