(* ===== verification/ReportCheckProps.v ===== *)
(** What the report verification checks: the pages it judges are the pictures of
    this rendering, in page order, and the contact sheet shows each of them in its
    own cell. *)
From S2P Require Import Prelude PyStr Float64 PyTime Csv JsonParse Files ReportText ReportPages ReportCheck.
Local Open Scope py_scope.

(** ** The contact sheet *)

(** A thumbnail fits the box it is made for. *)
Class PillowLaws (Image : Type) `{Pillow Image} := {
  thumbnail_fits : ∀ w h (image : Image), 0 ≤ w → 0 ≤ h →
    0 ≤ width (thumbnail w h image) ≤ w ∧ 0 ≤ height (thumbnail w h image) ≤ h }.

(** Left, top, right and bottom edges. *)
Record Rectangle := { left_edge : Z; top_edge : Z; right_edge : Z; bottom_edge : Z }.
Definition inside (a b : Rectangle) : Prop :=
  left_edge b ≤ left_edge a ∧ right_edge a ≤ right_edge b ∧ top_edge b ≤ top_edge a ∧ bottom_edge a ≤ bottom_edge b.
Definition apart (a b : Rectangle) : Prop :=
  right_edge a ≤ left_edge b ∨ right_edge b ≤ left_edge a ∨ bottom_edge a ≤ top_edge b ∨ bottom_edge b ≤ top_edge a.
Lemma apart_inside a b c d : inside a c → inside b d → apart c d → apart a b.
Proof. unfold inside, apart. lia. Qed.

Lemma length_concat_imap {A B} n (f : nat → A → list B) l :
  (∀ i x, length (f i x) = n) → length (concat (imap f l)) = (n * length l)%nat.
Proof.
  revert f. induction l as [|x l IH]; intros f Hf; [cbn; lia|]. rewrite imap_cons. cbn [concat length].
  rewrite length_app, Hf, IH by (intros; apply Hf). lia.
Qed.

Section Sheet.
Context {Image : Type} `{PillowLaws Image}.

Definition cell_box (index : Z) : Rectangle := {|
  left_edge := index mod columns * thumb_width; right_edge := (index mod columns + 1) * thumb_width;
  top_edge := index / columns * (thumb_height + 24); bottom_edge := (index / columns + 1) * (thumb_height + 24) |}.
Definition sheet_box (n : Z) : Rectangle := {| left_edge := 0; top_edge := 0; right_edge := sheet_width; bottom_edge := sheet_height n |}.
Definition paste_box (page : Image) (x y : Z) : Rectangle := {|
  left_edge := x; top_edge := y; right_edge := x + width page; bottom_edge := y + height page |}.
(** The place left for a label: to the right edge of its cell, 20 pixels high. *)
Definition label_box (index x y : Z) : Rectangle := {|
  left_edge := x; top_edge := y; right_edge := right_edge (cell_box index); bottom_edge := y + 20 |}.

Lemma cells_apart i j : 0 ≤ i → 0 ≤ j → i ≠ j → apart (cell_box i) (cell_box j).
Proof. unfold apart, cell_box, columns, thumb_width, thumb_height. simpl. intros. zdiv. Qed.
Lemma cell_inside i n : 0 ≤ i < n → inside (cell_box i) (sheet_box n).
Proof.
  unfold inside, cell_box, sheet_box, sheet_width, sheet_height, rows, columns, thumb_width, thumb_height. simpl. intros. zdiv.
Qed.

(** C40: every page of a contact sheet has one picture and, below it, one label
    with its number, both inside the cell of its index; the cells lie on the
    canvas and do not overlap. *)
Theorem contact_sheet_layout (pages : list Image) :
  (∀ i source, pages !! i = Some source → ∃ page x y,
     let index := Z.of_nat i in
     let label := y + height page + 2 in
     page = thumbnail 178 257 (convert_rgb source)
     ∧ Paste page x y ∈ sheet_marks pages
     ∧ Label x label ("page " +:+ str_of_Z (index + 1)) "#102027" ∈ sheet_marks pages
     ∧ inside (paste_box page x y) (cell_box index) ∧ inside (label_box index x label) (cell_box index)
     ∧ apart (paste_box page x y) (label_box index x label)
     ∧ inside (cell_box index) (sheet_box (Z.of_nat (length pages))))
  ∧ (∀ i j : nat, i ≠ j → apart (cell_box (Z.of_nat i)) (cell_box (Z.of_nat j)))
  ∧ length (sheet_marks pages) = (2 * length pages)%nat.
Proof.
  split; [|split].
  - intros i source Hi. set (page := thumbnail 178 257 (convert_rgb source)).
    assert (Hin : ∀ m, m ∈ cell (Z.of_nat i) source → m ∈ sheet_marks pages).
    { intros m Hm. unfold sheet_marks. apply list_elem_of_In, in_concat. exists (cell (Z.of_nat i) source).
      split; apply list_elem_of_In; [|done]. by apply (elem_of_lookup_imap_2 (λ i page, cell (Z.of_nat i) page)). }
    exists page, (Z.of_nat i mod columns * thumb_width + (thumb_width - width page) / 2), (Z.of_nat i / columns * (thumb_height + 24) + 6).
    pose proof (thumbnail_fits 178 257 (convert_rgb source) ltac:(lia) ltac:(lia)) as [Hw Hh]. fold page in Hw, Hh.
    pose proof (lookup_lt_Some _ _ _ Hi) as Hlt.
    split_and!; try done; try (apply Hin; unfold cell; fold page; set_solver);
      try (apply cell_inside; lia);
      unfold inside, apart, paste_box, label_box, cell_box, columns, thumb_width, thumb_height; simpl; zdiv.
  - intros i j Hij. apply cells_apart; lia.
  - by apply (length_concat_imap 2).
Qed.
End Sheet.

(** ** Names of pictures *)

(** [pdftoppm] numbers the pages of a document with as many digits as the number
    of its pages takes. *)
Definition picture_file (name : string) (n i : nat) : string :=
  join_chars [name; "-"; padded (String.length (str_of_Z (Z.of_nat n))) (Z.of_nat i + 1); ".png"].
Definition picture_files (name : string) (n : nat) : list string := map (picture_file name n) (seq 0 n).
Definition names : list string := ["en"; "fa"; "schematic-review"].

Fixpoint increasing (l : list string) : bool :=
  match l with [] => true | x :: l => forallb (λ y, String.ltb x y) l && increasing l end.
Lemma files_checked : forallb (λ name, forallb (λ n,
  increasing (picture_files name n) && forallb (picture_name name) (picture_files name n)) (seq 0 40)) names = true.
Proof. vm_compute. done. Qed.
Section Names.
Context (name : string) (Hname : name ∈ names) (n : nat) (Hn : (n < 40)%nat).
Lemma files_facts : increasing (picture_files name n) = true ∧ ∀ x, x ∈ picture_files name n → picture_name name x = true.
Proof.
  pose proof files_checked as H. rewrite forallb_elem in H. specialize (H name Hname). rewrite forallb_elem in H.
  specialize (H n ltac:(apply elem_of_seq; lia)). apply andb_true_iff in H as [H1 H2]. by rewrite forallb_elem in H2.
Qed.
End Names.
Lemma ltb_irrefl a : String.ltb a a = false.
Proof. destruct (String.ltb a a) eqn:E; [|done]. by pose proof (ltb_asym a a E); congruence. Qed.
Lemma increasing_sorted l : increasing l = true → StronglySorted (λ a b, String.ltb b a = false) l ∧ NoDup l.
Proof.
  induction l as [|x l IH]; [repeat constructor|]. cbn [increasing]. intros [Hx [Hs Hn]%IH]%andb_true_iff.
  rewrite forallb_elem in Hx. split; constructor; try done.
  - apply Forall_forall. intros y Hy. apply ltb_asym. by apply Hx.
  - intros Hin. specialize (Hx _ Hin). by rewrite ltb_irrefl in Hx.
Qed.
(** A directory's names, sorted, are the names in page order. *)
Lemma sorted_files l k : increasing k = true → l ≡ₚ k → py_sorted String.ltb l = k.
Proof.
  intros [Hs _]%increasing_sorted Hp. apply (StronglySorted_unique_strong (λ a b, String.ltb b a = false)).
  - intros x y _ _ Hxy Hyx. by apply ltb_antisym.
  - apply py_sorted_sorted; [intros a b c; apply ltb_negtrans|intros a b; apply ltb_asym].
  - done.
  - by rewrite py_sorted_perm.
Qed.
Lemma path_ltb_under d x y : path_ltb (d ++ [x]) (d ++ [y]) = String.ltb x y.
Proof.
  induction d as [|c d IH]; cbn [app path_ltb].
  - destruct (String.eqb x y); by rewrite ?orb_false_r.
  - by rewrite String.eqb_refl, ltb_irrefl.
Qed.
Lemma sorted_under d l : py_sorted path_ltb (map (λ n, d ++ [n]) l) = map (λ n, d ++ [n]) (py_sorted String.ltb l).
Proof.
  induction l as [|x l IH]; [done|]. cbn [map]. change (insort path_ltb (d ++ [x]) (py_sorted path_ltb (map (λ n, d ++ [n]) l))
    = map (λ n, d ++ [n]) (insort String.ltb x (py_sorted String.ltb l))). rewrite IH.
  clear IH. induction (py_sorted String.ltb l) as [|y k IHk]; [done|]. cbn [map insort]. rewrite path_ltb_under.
  destruct (String.ltb y x); [|done]. cbn [map]. by rewrite IHk.
Qed.

(** ** Rendering *)

Lemma NoDup_omap_inj {A B} (f : A → option B) l :
  (∀ a b y, f a = Some y → f b = Some y → a = b) → NoDup l → NoDup (omap f l).
Proof.
  intros Hf. induction 1 as [|a l Ha Hl IH]; [constructor|]. cbn. destruct (f a) as [y|] eqn:E; [|done]. constructor; [|done].
  intros (b & Hb & Hy)%list_elem_of_omap. by rewrite (Hf _ _ _ E Hy) in Ha.
Qed.
Lemma NoDup_map_inj {A B} (f : A → B) l : (∀ a b, f a = f b → a = b) → NoDup l → NoDup (map f l).
Proof.
  intros Hf. induction 1 as [|a l Ha Hl IH]; [constructor|]. cbn [map]. constructor; [|done].
  rewrite list_elem_of_In, in_map_iff. intros (b & E & Hb). apply Hf in E as ->. by rewrite list_elem_of_In in Ha.
Qed.
Lemma lookup_map {A B} (f : A → B) l i : map f l !! i = f <$> l !! i.
Proof. revert i. induction l as [|x l IH]; intros [|i]; try done. apply IH. Qed.
Lemma elem_of_filter_list {A} (p : A → bool) l x : x ∈ List.filter p l ↔ p x = true ∧ x ∈ l.
Proof. rewrite !list_elem_of_In, filter_In. tauto. Qed.

Section Rendering.
Context (run_pdftoppm : string → path → path → M FS ()) (program : string) (root : path) (resolve : path → path).
Abbreviation folder := (TMP_DIR root).
Abbreviation glob := (glob root resolve).
Abbreviation render := (render (Some program) run_pdftoppm root resolve).

(** A file of the temporary directory is at its own place. *)
Context (Hlinks : ∀ n, resolve (folder ++ [n]) = resolve folder ++ [n]).
(** The pictures of the pages of a document, and what [pdftoppm] does in a
    directory: it writes them under their numbers. *)
Context (pictures : string → list string).
Definition picture_entries (name : string) (l : list string) : list (path * string) :=
  imap (λ i picture, (resolve folder ++ [picture_file name (length l) i], picture)) l.
Definition drawn (name : string) (l : list string) (fs : FS) : FS :=
  {| files := list_to_map (picture_entries name l) ∪ files fs; dirs := dirs fs |}.
Context (Hrun : ∀ p name fs content, is_dir resolve fs folder = true → files fs !! resolve p = Some content →
  run_pdftoppm program p (folder ++ [name]) fs = (Ok (), drawn name (pictures content) fs)).

(** What holds of the file system before a rendering. *)
Record ready (p : path) (name : string) (content : string) (fs : FS) : Prop := {
  ready_folder : is_dir resolve fs folder = true;
  ready_content : files fs !! resolve p = Some content;
  ready_outside : removelast (resolve p) ≠ resolve folder;
  ready_entries : ∀ n, resolve folder ++ [n] ∈ dirs fs → picture_name name n = false }.

Lemma entry_of directory (q : path) n :
  match last q with Some n => if bool_decide (removelast q = resolve directory) then Some n else None | None => None end = Some n
  ↔ q = resolve directory ++ [n].
Proof.
  split.
  - destruct (last q) as [m|] eqn:Hl; [|done]. case_bool_decide as Hr; [|done]. intros [= ->].
    apply last_Some in Hl as (l & ->). by rewrite removelast_last in Hr; subst.
  - intros ->. by rewrite last_snoc, removelast_last, bool_decide_true.
Qed.
Lemma entries_elem directory fs n : n ∈ entries resolve directory fs ↔ resolve directory ++ [n] ∈ dom (files fs) ∪ dirs fs.
Proof.
  unfold entries. rewrite list_elem_of_omap. setoid_rewrite entry_of. setoid_rewrite elem_of_elements. naive_solver.
Qed.
Lemma entries_nodup directory fs : NoDup (entries resolve directory fs).
Proof.
  unfold entries. apply NoDup_omap_inj; [|apply NoDup_elements].
  intros a b n Ha Hb. apply entry_of in Ha, Hb. congruence.
Qed.
Lemma glob_elem name fs q : q ∈ glob name fs ↔
  ∃ n, q = folder ++ [n] ∧ picture_name name n = true ∧ resolve folder ++ [n] ∈ dom (files fs) ∪ dirs fs.
Proof.
  unfold ReportCheck.glob. rewrite list_elem_of_In, in_map_iff. setoid_rewrite <- list_elem_of_In.
  setoid_rewrite elem_of_filter_list. setoid_rewrite entries_elem. naive_solver.
Qed.

(** Old pictures are removed, nothing else. *)
Lemma unlink_all fs l : NoDup l → Forall (λ q, ∃ n, q = folder ++ [n]) l → (∀ q, q ∈ l → is_file resolve fs q = true) →
  ∃ fs', for_each (unlink resolve) l fs = (Ok (), fs') ∧ dirs fs' = dirs fs
    ∧ ∀ q, files fs' !! q = if bool_decide (q ∈ map resolve l) then None else files fs !! q.
Proof.
  revert fs. induction l as [|a l IH]; intros fs Hn Hf Hl.
  - exists fs. done.
  - apply NoDup_cons in Hn as [Ha Hn]. apply Forall_cons in Hf as [[x ->] Hf]. cbn [for_each map].
    unfold mbind, M_bind, unlink. rewrite Hl by left.
    destruct (IH {| files := delete (resolve (folder ++ [x])) (files fs); dirs := dirs fs |}) as (fs' & H1 & H2 & H3); [done|done| |].
    + intros q Hq. specialize (Hl q ltac:(by right)). unfold is_file in *. simpl. rewrite lookup_delete_ne; [done|].
      rewrite Forall_forall in Hf. destruct (Hf q Hq) as [y ->]. rewrite !Hlinks. intros E%app_inj_tail. destruct E as [_ ->]. done.
    + exists fs'. split; [exact H1|]. split; [exact H2|]. intros q. rewrite H3. simpl.
      destruct (decide (q = resolve (folder ++ [x]))) as [->|Hne].
      * rewrite lookup_delete_eq. rewrite (bool_decide_true (_ ∈ _ :: _)) by left. by case_bool_decide.
      * rewrite lookup_delete_ne by done. do 2 case_bool_decide; set_solver.
Qed.

Definition stale_at (name : string) (q : path) (fs : FS) : Prop :=
  ∃ n, q = resolve folder ++ [n] ∧ picture_name name n = true ∧ q ∈ dom (files fs).
(** The files without the old pictures of a name. *)
Definition without_stale (name : string) (fs fs' : FS) : Prop :=
  dirs fs' = dirs fs ∧ ∀ q, stale_at name q fs ∧ files fs' !! q = None ∨ ¬ stale_at name q fs ∧ files fs' !! q = files fs !! q.
Lemma glob_nodup name fs : NoDup (glob name fs).
Proof.
  unfold ReportCheck.glob. apply NoDup_map_inj; [by intros a b [_ ->]%app_inj_tail|].
  apply NoDup_ListNoDup, List.NoDup_filter, NoDup_ListNoDup, entries_nodup.
Qed.
Lemma clear_stale p name content fs : ready p name content fs →
  ∃ fs', for_each (unlink resolve) (glob name fs) fs = (Ok (), fs') ∧ without_stale name fs fs'.
Proof.
  intros [Hd Hc Ho He]. destruct (unlink_all fs (glob name fs)) as (fs' & H1 & H2 & H3).
  - apply glob_nodup.
  - apply Forall_forall. intros q (n & -> & _)%glob_elem. by exists n.
  - intros q (n & -> & Hp & [Hf|Hf]%elem_of_union)%glob_elem; [|by rewrite (He n Hf) in Hp].
    unfold is_file. rewrite Hlinks. apply bool_decide_eq_true. by apply elem_of_dom.
  - exists fs'. split; [exact H1|]. split; [exact H2|]. intros q. rewrite H3.
    assert (Hs : q ∈ map resolve (glob name fs) ↔ stale_at name q fs).
    { rewrite list_elem_of_In, in_map_iff. setoid_rewrite <- list_elem_of_In. setoid_rewrite glob_elem. unfold stale_at. split.
      - intros (x & <- & n & -> & Hp & Hq). exists n. rewrite Hlinks. split_and!; [done..|].
        apply elem_of_union in Hq as [|Hf]; [done|]. by rewrite (He n Hf) in Hp.
      - intros (n & -> & Hp & Hq). exists (folder ++ [n]). split; [apply Hlinks|]. exists n. set_solver. }
    case_bool_decide as Hq; rewrite Hs in Hq; [by left|by right].
Qed.
Lemma cleared_content p name content fs fs' : ready p name content fs → without_stale name fs fs' →
  files fs' !! resolve p = Some content ∧ is_dir resolve fs' folder = true.
Proof.
  intros [Hd Hc Ho He] [H1 H2]. unfold is_dir in *. rewrite H1. split; [|done].
  destruct (H2 (resolve p)) as [[(n & Hq & _) _]|[_ ->]]; [|done]. by rewrite Hq, removelast_last in Ho.
Qed.

(** The pictures drawn are the files of the directory with the name. *)
Lemma entries_fst name l :
  (picture_entries name l).*1 = (λ i, resolve folder ++ [picture_file name (length l) i]) <$> seq 0 (length l).
Proof. etransitivity; [apply fmap_imap|]. apply (imap_seq_0 l (λ i, resolve folder ++ [picture_file name (length l) i])). Qed.
Lemma picture_files_elem name n x : x ∈ picture_files name n ↔ ∃ i, (i < n)%nat ∧ x = picture_file name n i.
Proof.
  unfold picture_files. rewrite list_elem_of_In, in_map_iff. setoid_rewrite <- list_elem_of_In. setoid_rewrite elem_of_seq.
  split; intros (i & H1 & H2); exists i; [split; [lia|done]|split; [done|lia]].
Qed.
Section Drawn.
Context (name : string) (Hname : name ∈ names) (l : list string) (Hl : (length l < 40)%nat).
Lemma entries_fst_nodup : NoDup (picture_entries name l).*1.
Proof.
  rewrite entries_fst. destruct (files_facts name Hname _ Hl) as [[_ Hn]%increasing_sorted _].
  unfold picture_files in Hn. apply (NoDup_fmap_1 (λ q, default "" (last q))).
  rewrite <- list_fmap_compose. erewrite list_fmap_ext; [apply Hn|]. intros i x _. cbn. by rewrite last_snoc.
Qed.
Lemma drawn_lookup fs i picture : l !! i = Some picture →
  files (drawn name l fs) !! (resolve folder ++ [picture_file name (length l) i]) = Some picture.
Proof.
  intros Hi. simpl. apply lookup_union_Some_l, elem_of_list_to_map_1; [apply entries_fst_nodup|].
  by apply (elem_of_lookup_imap_2 (λ i picture, (resolve folder ++ [picture_file name (length l) i], picture))).
Qed.
Lemma drawn_dom fs x : resolve folder ++ [x] ∈ dom (files (drawn name l fs)) ↔
  x ∈ picture_files name (length l) ∨ resolve folder ++ [x] ∈ dom (files fs).
Proof.
  simpl. rewrite dom_union, elem_of_union, dom_list_to_map, elem_of_list_to_set, entries_fst, list_elem_of_fmap, picture_files_elem.
  setoid_rewrite elem_of_seq. split; (intros [(i & H1 & H2)|H]; [left|by right]).
  - apply app_inj_tail in H1 as [_ ->]. exists i. split; [lia|done].
  - exists i. rewrite H2. split; [done|lia].
Qed.
Lemma glob_drawn p content fs fs' : ready p name content fs → without_stale name fs fs' →
  py_sorted path_ltb (glob name (drawn name l fs')) = map (λ n, folder ++ [n]) (picture_files name (length l)).
Proof.
  intros [Hd Hc Ho He] [H1 H2]. unfold ReportCheck.glob. rewrite sorted_under. f_equal.
  destruct (files_facts name Hname _ Hl) as [Hi Hm]. apply sorted_files; [done|].
  apply NoDup_Permutation; [apply NoDup_ListNoDup, List.NoDup_filter, NoDup_ListNoDup, entries_nodup|by apply increasing_sorted|].
  intros x. rewrite elem_of_filter_list, entries_elem, elem_of_union, drawn_dom. cbn [dirs drawn]. rewrite H1. split.
  - intros [Hp [[Hx|Hx]|Hx]]; [done| |by rewrite (He x Hx) in Hp]. exfalso. apply elem_of_dom in Hx as [v Hv].
    pose (q := resolve folder ++ [x] : path). change (files fs' !! q = Some v) in Hv.
    destruct (H2 q) as [[_ Hn]|[Hs Hq]]; [by rewrite Hn in Hv|]. apply Hs. exists x. split_and!; [done..|].
    apply elem_of_dom. exists v. by rewrite <- Hq.
  - intros Hx. split; [by apply Hm|by do 2 left].
Qed.
End Drawn.

(** What a rendering returns and leaves: the pictures of every page of this
    document, in page order, and none of an older one. *)
Lemma render_pages p name content fs : name ∈ names → ready p name content fs →
  let l := pictures content in
  (length l < 40)%nat →
  ∃ fs', without_stale name fs fs' ∧ render p name fs
    = (if Nat.eqb (length l) 0 then Raise (ValueError ("no rendered pages produced for " +:+ path_string p))
       else Ok (map (λ n, folder ++ [n]) (picture_files name (length l))), drawn name l fs').
Proof.
  intros Hname Hr l Hl. destruct (clear_stale p name content fs Hr) as (fs' & Hc & Hs). exists fs'. split; [done|].
  destruct (cleared_content _ _ _ _ _ Hr Hs) as [Hp Hd].
  unfold ReportCheck.render, mbind, M_bind, get. rewrite Hc, (Hrun p name fs' content Hd Hp). fold l.
  rewrite (glob_drawn name Hname l Hl p content fs fs' Hr Hs). destruct l as [|x l']; [done|]. cbn [length Nat.eqb].
  by unfold picture_files at 1.
Qed.
End Rendering.

(** ** One report *)

Section Report.
Context {Document PdfObject Image : Type} `{PdfObjects PdfObject} `{PdfReader Document PdfObject} `{Pillow Image}.
Context (plumber_texts : string → result (list (option string))).
Context (run_pdftoppm : string → path → path → M FS ()) (program : string).
Context (repr_list : list string → string) (decode_error : string → string).
Context (root : path) (resolve : path → path).
Abbreviation folder := (TMP_DIR root).
Abbreviation check_document := (check_document plumber_texts repr_list decode_error root resolve).
Abbreviation verify_primary := (verify_primary plumber_texts (Some program) run_pdftoppm repr_list decode_error root resolve).

(** What the checks ask of the bytes of a report with [n] pages, and of a picture. *)
Definition document_ok (language content : string) (fs : FS) (n : nat) : Prop :=
  ∃ reader fonts extracted, let texts := map (default "") extracted in
    read_pdf content = Ok reader ∧ n = length (reader_pages reader) ∧ (18 ≤ n ≤ 30)%nat
    ∧ (∃ author, reader_author reader = Some (Some author) ∧ occurs "Amin Zoroufi" author = true)
    ∧ embedded_fonts reader = Ok fonts
    ∧ (language = "fa" → ∃ f, f ∈ fonts ∧ occurs "NotoSansArabic" f = true)
    ∧ plumber_texts content = Ok extracted
    ∧ (∀ text, text ∈ texts → (35 ≤ py_len (strip text))%nat)
    ∧ (language = "en" → ∀ required, required ∈ required_texts → occurs required (join lf texts) = true)
    ∧ (language ≠ "en" → ∃ source, read_text resolve decode_error (FA_SOURCE root) fs = Ok source
         ∧ (10000 ≤ py_len source)%nat ∧ occurs persian_claim source = true).
Definition picture_ok (content : string) : Prop :=
  ∃ image : Image, open_image content = Ok image ∧ 800 ≤ width image ∧ 1100 ≤ height image
    ∧ non_white_fraction image <.? lit 15 3 = false.

(** A failed check ends the sequence. *)
Lemma seq_ok {A} (m : result ()) (k : result A) a : (m ≫= λ _, k) = Ok a ↔ m = Ok tt ∧ k = Ok a.
Proof. destruct m as [[]|]; simpl; naive_solver. Qed.
Lemma bind_ok {A B} (m : result A) (k : A → result B) b : (m ≫= k) = Ok b ↔ ∃ a, m = Ok a ∧ k a = Ok b.
Proof. destruct m; simpl; naive_solver. Qed.
Lemma guard_ok (b : bool) e : (if b then Ok tt else Raise e : result ()) = Ok tt ↔ b = true.
Proof. by destruct b. Qed.
Lemma guard_not (b : bool) e : (if b then Raise e else Ok tt : result ()) = Ok tt ↔ b = false.
Proof. by destruct b. Qed.

Lemma pages_ok language (reader : Document) :
  check_pages language reader = Ok tt ↔ (18 ≤ length (reader_pages reader) ≤ 30)%nat.
Proof. unfold check_pages. rewrite guard_ok, andb_true_iff, !Z.leb_le. lia. Qed.
Lemma author_ok language (reader : Document) : check_author language reader = Ok tt ↔
  ∃ author, reader_author reader = Some (Some author) ∧ occurs "Amin Zoroufi" author = true.
Proof.
  unfold check_author. rewrite guard_ok. destruct (reader_author reader) as [[a|]|]; cbn [default]; naive_solver.
Qed.
Lemma fonts_ok language fonts : check_fonts repr_list language fonts = Ok tt ↔
  (language = "fa" → ∃ f, f ∈ fonts ∧ occurs "NotoSansArabic" f = true).
Proof.
  unfold check_fonts. rewrite guard_not, andb_false_iff, negb_false_iff, existsb_exists, String.eqb_neq.
  setoid_rewrite <- list_elem_of_In. setoid_rewrite py_sorted_perm. setoid_rewrite elem_of_elements.
  destruct (decide (language = "fa")); naive_solver.
Qed.
Lemma texts_ok language texts : check_texts language texts = Ok tt ↔ ∀ text, text ∈ texts → (35 ≤ py_len (strip text))%nat.
Proof.
  unfold check_texts. rewrite guard_not. rewrite <- not_true_iff_false, existsb_exists.
  setoid_rewrite <- list_elem_of_In. setoid_rewrite Nat.ltb_lt. split.
  - intros Hn text Ht. destruct (Nat.lt_ge_cases (py_len (strip text)) 35); [|done]. destruct Hn. eauto.
  - intros Ha (text & Ht & Hlt). specialize (Ha text Ht). lia.
Qed.
Lemma english_ok joined : check_english joined = Ok tt ↔ ∀ required, required ∈ required_texts → occurs required joined = true.
Proof.
  unfold check_english. split.
  - destruct (List.find _ _) eqn:E; [done|]. intros _ r Hr%list_elem_of_In. pose proof (find_none _ _ E r Hr) as Hn.
    by apply negb_false_iff in Hn.
  - intros Ha. destruct (List.find _ _) as [r|] eqn:E; [|done]. apply find_some in E as [Hr%list_elem_of_In Hn].
    by rewrite (Ha r Hr) in Hn.
Qed.
Lemma persian_ok source : check_persian source = Ok tt ↔ (10000 ≤ py_len source)%nat ∧ occurs persian_claim source = true.
Proof. unfold check_persian. rewrite guard_not, orb_false_iff, negb_false_iff, Nat.ltb_ge. done. Qed.
Lemma document_checked p language content fs n : files fs !! resolve p = Some content →
  check_document p language fs = Ok n ↔ document_ok language content fs n.
Proof.
  intros Hc. unfold ReportCheck.check_document. rewrite (read_file_holds _ _ _ _ Hc). cbn [mbind result_bind].
  assert (Hlang : ∀ texts, (if String.eqb language "en" then check_english (join lf texts)
      else source ← read_text resolve decode_error (FA_SOURCE root) fs; check_persian source) = Ok tt
    ↔ (language = "en" → ∀ required, required ∈ required_texts → occurs required (join lf texts) = true)
      ∧ (language ≠ "en" → ∃ source, read_text resolve decode_error (FA_SOURCE root) fs = Ok source
           ∧ (10000 ≤ py_len source)%nat ∧ occurs persian_claim source = true)).
  { intros texts. destruct (String.eqb_spec language "en"); [rewrite english_ok; naive_solver|].
    rewrite bind_ok. setoid_rewrite persian_ok. naive_solver. }
  split.
  - intros (reader & Hr & H')%bind_ok. apply seq_ok in H' as [Hp%pages_ok [Ha%author_ok H']%seq_ok].
    apply bind_ok in H' as (fonts & Hf & H'). apply seq_ok in H' as [Hn H']. pose proof (proj1 (fonts_ok _ _) Hn) as Hn'.
    apply bind_ok in H' as (extracted & He & H'). apply seq_ok in H' as [Ht [Hg [= <-]]%seq_ok].
    pose proof (proj1 (texts_ok _ _) Ht) as Ht'. apply Hlang in Hg as [L1 L2].
    exists reader, fonts, extracted. cbv zeta. tauto.
  - intros (reader & fonts & extracted & Hr & -> & Hp & Ha & Hf & Hn & He & Ht & L1 & L2).
    apply bind_ok. exists reader. split; [done|]. apply seq_ok. split; [by apply pages_ok|].
    apply seq_ok. split; [by apply author_ok|]. apply bind_ok. exists fonts. split; [done|].
    apply seq_ok. split; [by apply (proj2 (fonts_ok _ _))|]. apply bind_ok. exists extracted. split; [done|].
    apply seq_ok. split; [by apply (proj2 (texts_ok _ _))|]. apply seq_ok. split; [by apply Hlang|done].
Qed.

(** ** Its pictures *)

Lemma picture_checked language k p content fs : files fs !! resolve p = Some content →
  check_picture resolve language k p fs = Ok tt ↔ picture_ok content.
Proof.
  intros Hc. unfold check_picture, image_at, picture_ok. rewrite (read_file_holds _ _ _ _ Hc). cbn [mbind result_bind].
  destruct (open_image content) as [image|]; [|naive_solver]. cbn [mbind result_bind].
  destruct ((width image <? 800) || (height image <? 1100)) eqn:Es.
  { split; [done|]. intros (? & [= <-] & Hw & Hh & _). apply orb_true_iff in Es as [?|?]; b2p; lia. }
  b2p. rewrite guard_not. split; [eauto|]. by intros (? & [= <-] & _ & _ & ?).
Qed.
Lemma pictures_checked language fs ps contents k :
  Forall2 (λ p content, files fs !! resolve p = Some content) ps contents →
  check_pictures resolve language k ps fs = Ok tt ↔ Forall picture_ok contents.
Proof.
  intros HF. revert k. induction HF as [|p content ps contents Hp HF IH]; intros k; cbn [check_pictures]; [by split|].
  rewrite seq_ok, IH, (picture_checked _ _ _ _ _ Hp), Forall_cons. done.
Qed.
Lemma images_opened fs ps contents :
  Forall2 (λ p content, files fs !! resolve p = Some content) ps contents → Forall picture_ok contents →
  ∃ images : list Image, mapM (λ p, image_at resolve p fs) ps = Ok images ∧ mapM open_image contents = Ok images.
Proof.
  induction 1 as [|p content ps contents Hp HF IH]; [by exists []|]. intros [(image & Hi & _) Hc]%Forall_cons.
  destruct (IH Hc) as (images & H1' & H2'). exists (image :: images). unfold image_at in *. cbn [mapM].
  rewrite (read_file_holds _ _ _ _ Hp). cbn [mbind result_bind]. rewrite Hi. cbn [mbind result_bind].
  by rewrite H1', H2'.
Qed.

(** ** The gate *)

Context (Hlinks : ∀ n, resolve (folder ++ [n]) = resolve folder ++ [n]).
Context (pictures : string → list string).
Context (Hrun : ∀ p name fs content, is_dir resolve fs folder = true → files fs !! resolve p = Some content →
  run_pdftoppm program p (folder ++ [name]) fs = (Ok (), drawn root resolve name (pictures content) fs)).

Lemma pictures_at name l fs : name ∈ names → (length l < 40)%nat →
  Forall2 (λ p content, files (drawn root resolve name l fs) !! resolve p = Some content)
    (map (λ n, folder ++ [n]) (picture_files name (length l))) l.
Proof.
  intros Hname Hl. unfold picture_files. rewrite map_map. apply Forall2_same_length_lookup_2.
  { by rewrite length_map, length_seq. }
  intros i p content Hp Hi. rewrite lookup_map in Hp.
  apply fmap_Some in Hp as (k & Hk & ->). apply lookup_seq in Hk as [-> _]. rewrite Hlinks. by apply drawn_lookup.
Qed.
Lemma sheet_saved p language content fs fs' ps images : language ∈ ["en"; "fa"] →
  ready root resolve p language content fs → dirs fs' = dirs fs →
  mapM (λ p, image_at resolve p fs') ps = Ok images →
  ∃ fs'', contact_sheet resolve ps (folder ++ [language +:+ "-contact-sheet.png"]) fs' = (Ok (), fs'').
Proof.
  intros Hl [Hd Hc Ho He] Hdirs Hi. unfold contact_sheet, mbind, M_bind, reading. rewrite Hi.
  unfold save, mbind, M_bind, open_writing, is_dir, modify in *. rewrite Hdirs. unfold parent. rewrite removelast_last, Hd, Hlinks.
  rewrite bool_decide_false; [by eexists|]. intros Hin%He.
  apply elem_of_cons in Hl as [-> |[-> |[]%not_elem_of_nil]%elem_of_cons]; by vm_compute in Hin.
Qed.
(** C32: provided that fewer than 40 pages are rendered, [verify_primary]
    accepts a report exactly when its bytes have 18 to 30 pages, the author, no
    nearly blank page and what its language demands (English: the required
    texts in the document, of whatever fonts; Persian: the embedded Noto font
    and a complete editable source beside it), and the pictures of all its
    pages, as many as it has, are large and not blank.  It then returns those
    pictures in page order: pictures of an earlier rendering are never
    judged. *)
Theorem primary_gate p language content fs pages : language ∈ ["en"; "fa"] →
  ready root resolve p language content fs → (length (pictures content) < 40)%nat →
  (verify_primary p language fs).1 = Ok pages ↔
    document_ok language content fs (length (pictures content)) ∧ Forall picture_ok (pictures content)
    ∧ pages = map (λ n, folder ++ [n]) (picture_files language (length (pictures content))).
Proof.
  intros Hlang Hr Hlen. set (l := pictures content) in *. assert (Hname : language ∈ names) by set_solver.
  destruct (render_pages run_pdftoppm program root resolve Hlinks pictures Hrun p language content fs Hname Hr Hlen)
    as (fs' & [Hdirs _] & Hrender). fold l in Hrender.
  pose proof (λ n, document_checked p language content fs n (ready_content _ _ _ _ _ _ Hr)) as Hdoc.
  assert (Hn18 : ∀ n, document_ok language content fs n → n ≠ 0%nat) by (intros n (? & ? & ? & _ & -> & ? & _); lia).
  unfold ReportCheck.verify_primary, mbind, M_bind, reading.
  destruct (check_document p language fs) as [n|e] eqn:Hcd; cbn [fst].
  2:{ split; [done|]. intros [Hd _]. by apply (proj2 (Hdoc _)) in Hd. }
  assert (Hd : document_ok language content fs n) by (by apply (proj1 (Hdoc _))).
  assert (Hsame : ∀ m, document_ok language content fs m → m = n) by (intros m Hm; apply (proj2 (Hdoc _)) in Hm; congruence).
  rewrite Hrender. destruct (Nat.eqb_spec (length l) 0) as [E0|_].
  { split; [done|]. intros [H' _]. by apply Hn18 in H'. }
  rewrite length_map. unfold picture_files at 1. rewrite length_map, length_seq.
  destruct (Nat.eqb_spec (length l) n) as [<-|Hne]; [|split; [done|]; intros [H' _]; by apply Hsame in H'].
  cbn [mret M_ret]. pose proof (pictures_at language l fs' Hname Hlen) as HF.
  pose proof (pictures_checked language _ _ _ 1 HF) as Hpics.
  destruct (check_pictures _ _ _ _ _) as [[]|e] eqn:Hcp; cbn [fst].
  2:{ split; [done|]. intros (_ & H' & _). by apply Hpics in H'. }
  assert (Hok : Forall picture_ok l) by (by apply Hpics). destruct (images_opened _ _ _ HF Hok) as (images & Hi & _).
  destruct (sheet_saved p language content fs (drawn root resolve language l fs') _ images Hlang Hr Hdirs Hi) as (fs'' & Hs).
  unfold mbind, M_bind in Hs. rewrite Hs. cbn [fst mret M_ret]. split; [by intros [= <-]|by intros (_ & _ & ->)].
Qed.
End Report.

(** ** Samples *)

Module Sample.

(** A document is its number of pages, which have no fonts; a picture has the
    size its text names. *)
#[export] Instance objects : PdfObjects () := {
  get_object o := o; object_get _ _ := Ok None; object_values _ := Ok []; object_contains _ _ := Ok false; object_text _ := "" }.
#[export] Instance reader : PdfReader nat () := {
  read_pdf content := Ok (String.length content); reader_pages n := repeat () n;
  extract_text _ := Ok None; reader_author _ := Some (Some "by Amin Zoroufi") }.
Record Scanned := { scan_width : Z; scan_height : Z }.
#[export] Instance pillow : Pillow Scanned := {
  open_image content := if String.eqb content "page" then Ok {| scan_width := 910; scan_height := 1287 |} else Raise (OSError "cannot identify image file");
  width := scan_width; height := scan_height; convert_rgb image := image;
  thumbnail w h image := {| scan_width := Z.max 0 (Z.min w (scan_width image)); scan_height := Z.max 0 (Z.min h (scan_height image)) |};
  resized _ _ _ := repeat (16, 32, 39) 400;
  png _ _ _ marks := str_of_Z (Z.of_nat (length marks)) }.
#[export] Instance pillow_laws : PillowLaws Scanned.
Proof. split. intros w h image Hw Hh. simpl. lia. Qed.

Definition page_text : string := join lf ["Executive summary"; "A0-UNVERIFIED"; "47 Python tests and more words"].
Definition texts_of (content : string) : result (list (option string)) := Ok (repeat (Some page_text) (String.length content)).
Definition pictures_of (content : string) : list string := repeat "page" (String.length content).
Definition run (program : string) (p target : path) : M FS () := λ fs,
  match last target, files fs !! p with
  | Some name, Some content => (Ok (), drawn [] id name (pictures_of content) fs)
  | _, _ => (Raise (OSError "no such document"), fs)
  end.
Definition report : path := ["docs"; "report"; "en.pdf"].
Definition content : string := "eighteen-pages-pdf".
Definition checkout : FS := {|
  files := {[ report := content; ["tmp"; "pdfs"; "en-99.png"] := "stale" ]}; dirs := {[ ["tmp"]; ["tmp"; "pdfs"] ]} |}.
Abbreviation verified := (verify_primary texts_of (Some "pdftoppm") run (λ _, "") id [] id report "en" checkout).
End Sample.

Import Sample.
Lemma contact_sheet_layout_witness :
  let scan := {| scan_width := 910; scan_height := 1287 |} in
  (∃ (page : Scanned) (x y : Z), inside (paste_box page x y) (cell_box 4))
  ∧ apart (cell_box 1) (cell_box 4) ∧ length (sheet_marks [scan; scan; scan; scan; scan]) = 10%nat.
Proof.
  intros scan. destruct (contact_sheet_layout [scan; scan; scan; scan; scan]) as (H1 & H2 & H3).
  split; [|split; [apply (H2 1%nat 4%nat); lia|exact H3]].
  destruct (H1 4%nat scan eq_refl) as (page & x & y & _ & _ & _ & Hp & _). by exists page, x, y.
Defined.
Lemma primary_gate_witness : verified.1 = Ok (map (λ n, ["tmp"; "pdfs"; n]) (picture_files "en" 18)).
Proof.
  apply (primary_gate texts_of run "pdftoppm" (λ _, "") id [] id (λ _, eq_refl) pictures_of) with (content := content).
  - intros p name fs c _ Hc. unfold run. rewrite last_snoc. simpl in Hc. by rewrite Hc.
  - by left.
  - split; [vm_compute; done|done|done|].
    intros n [Hn|Hn]%elem_of_union; apply elem_of_singleton in Hn; discriminate Hn.
  - vm_compute. lia.
  - split; [|split; [|done]].
    + exists 18%nat, ∅, (repeat (Some page_text) 18). cbv zeta. split; [done|]. split; [done|]. split; [vm_compute; lia|].
      split; [by exists "by Amin Zoroufi"|]. split; [vm_compute; done|]. split; [done|]. split; [done|].
      split; [|split; [|done]].
      * intros text Ht. apply list_elem_of_In, in_map_iff in Ht as (o & <- & Ho%repeat_spec). subst o. vm_compute. lia.
      * intros _ required Hr. apply list_elem_of_In in Hr. destruct Hr as [<-|[<-|[<-|[]]]]; vm_compute; done.
    + apply Forall_forall. intros c Hc. apply list_elem_of_In, repeat_spec in Hc as ->.
      exists {| scan_width := 910; scan_height := 1287 |}. split_and!; try done; vm_compute; done.
Defined.
