(* ===== verification/Solids.v ===== *)
(** The engineering envelopes of [scripts/generate_hardware_artifacts.py]: the
    STEP builder, and the triangles and text of an STL mesh.

    A coordinate is a Python number, so the corners of a box are computed for
    any type with an addition: floats where text is written, integers where
    the geometry is exact. *)
From S2P Require Import Prelude PyStr Float64 PyFormat Json Csv.
Local Open Scope py_scope.

(** Concatenation of the parts of an f-string, and a part between quotes. *)
Definition cat (parts : list string) : string := join_chars parts.
Definition dq (s : string) : string := cat [quote; s; quote].

(** ** Boxes *)

Definition point (A : Type) : Type := A * A * A.
Record Box (A : Type) := { bx_x : A; bx_y : A; bx_z : A; bx_dx : A; bx_dy : A; bx_dz : A }.
Arguments bx_x {A}. Arguments bx_y {A}. Arguments bx_z {A}.
Arguments bx_dx {A}. Arguments bx_dy {A}. Arguments bx_dz {A}.
Arguments Build_Box {A}.

Definition corners {A} (add : A → A → A) (b : Box A) : list (point A) :=
  let '(Build_Box x y z dx dy dz) := b in [
    (x, y, z); (add x dx, y, z); (add x dx, add y dy, z); (x, add y dy, z);
    (x, y, add z dz); (add x dx, y, add z dz); (add x dx, add y dy, add z dz); (x, add y dy, add z dz) ].
(** The corners of the six faces. *)
Definition quads : list (nat * nat * nat * nat) := [
  (0, 3, 2, 1); (4, 5, 6, 7); (0, 1, 5, 4); (1, 2, 6, 5); (2, 3, 7, 6); (3, 0, 4, 7) ]%nat.

(** ** STEP *)

Definition Builder : Type → Type := M (list string).
Definition add (expression : string) : Builder Z := λ entities,
  (Ok (Z.of_nat (S (length entities))), entities ++ [expression]).

Definition hash (n : Z) : string := "#" +:+ str_of_Z n.
Definition hashes (l : list Z) : string := join "," (map hash l).
Definition cartesian_point (p : point float) : string :=
  let '(px, py, pz) := p in cat ["CARTESIAN_POINT('',("; fmt_f 4 px; ","; fmt_f 4 py; ","; fmt_f 4 pz; "))"].
Definition face (points : list Z) (q : nat * nat * nat * nat) : Builder Z :=
  let '(a, b, c, d) := q in
  loop ← add (cat ["POLY_LOOP('',("; hashes (map (λ i, nth i points 0) [a; b; c; d]); "))"]);
  bound ← add (cat ["FACE_OUTER_BOUND('',"; hash loop; ",.T.)"]);
  add (cat ["FACE('',("; hash bound; "))"]).
Definition box (name : string) (b : Box float) : Builder () :=
  points ← mapM (λ p, add (cartesian_point p)) (corners fadd b);
  faces ← mapM (face points) quads;
  shell ← add (cat ["CLOSED_SHELL('',("; hashes faces; "))"]);
  add (cat ["FACETED_BREP('"; name; "',"; hash shell; ")"]);;
  mret ().
(** The entities of a sequence of boxes. *)
Fixpoint boxes (l : list (string * Box float)) : Builder () :=
  match l with [] => mret () | (name, b) :: l => box name b;; boxes l end.
Definition entities_of (l : list (string * Box float)) : list string := (boxes l []).2.

Definition step_entity (i : nat) (value : string) : string := cat [hash (Z.of_nat (S i)); "="; value; ";"].
Definition step_content (filename : string) (entities : list string) : string :=
  cat ["ISO-10303-21;"; lf; "HEADER;"; lf;
       "FILE_DESCRIPTION(('Project-authored engineering envelope'),'2;1');"; lf;
       "FILE_NAME('"; filename; "','2026-08-11T00:00:00Z',('Amin Zoroufi'),(''),'', '', '');"; lf;
       "FILE_SCHEMA(('CONFIG_CONTROL_DESIGN'));"; lf; "ENDSEC;"; lf; "DATA;"; lf;
       join lf (imap step_entity entities); lf; "ENDSEC;"; lf; "END-ISO-10303-21;"; lf].

(** ** STL *)

Definition triangle (A : Type) : Type := point A * point A * point A.
(** The two triangles of each quad. *)
Definition fan (q : nat * nat * nat * nat) : list (nat * nat * nat) :=
  let '(a, b, c, d) := q in [(a, b, c); (a, c, d)].
Definition box_triangles {A} (add : A → A → A) (b : Box A) : list (triangle A) :=
  let p := corners add b in
  let at_ i := nth i p (bx_x b, bx_y b, bx_z b) in
  map (λ t, let '(a, b, c) := t in (at_ a, at_ b, at_ c)) (flat_map fan quads).

Definition vertex_line (p : point float) : string :=
  let '(x, y, z) := p in cat ["      vertex "; fmt_f 4 x; " "; fmt_f 4 y; " "; fmt_f 4 z].
Definition facet_lines (t : triangle float) : list string :=
  let '(a, b, c) := t in
  [ "  facet normal 0 0 0" +:+ lf +:+ "    outer loop"; vertex_line a; vertex_line b; vertex_line c;
    "    endloop" +:+ lf +:+ "  endfacet" ].
Definition stl (name : string) (l : list (Box float)) : string :=
  join lf (("solid " +:+ name) :: flat_map (λ b, flat_map facet_lines (box_triangles fadd b)) l
           ++ ["endsolid " +:+ name]) +:+ lf.

Example box_example :
  let es := entities_of [("PCB", Build_Box (of_int 0) (of_int 0) (of_int 0) (of_int 100) (of_int 70) (lit 16 1))] in
  length es = 28%nat
  ∧ nth 2 es "" = "CARTESIAN_POINT('',(100.0000,70.0000,0.0000))"
  ∧ nth 8 es "" = "POLY_LOOP('',(#1,#4,#3,#2))" ∧ nth 13 es "" = "FACE('',(#13))"
  ∧ nth 26 es "" = "CLOSED_SHELL('',(#11,#14,#17,#20,#23,#26))" ∧ nth 27 es "" = "FACETED_BREP('PCB',#27)".
Proof. vm_compute. repeat split; reflexivity. Qed.
