(* ===== verification/SolidProps.v ===== *)
(** Geometry of the generated envelopes: a mesh is a closed, consistently and
    outwardly oriented surface, and every reference of a STEP file names an
    earlier entity. *)
From Stdlib Require Permutation.
From S2P Require Import Prelude PyStr Float64 PyFormat Json JsonParse JsonRoundTrip Csv Solids.
Local Open Scope py_scope.

(** ** Meshes *)

Definition edges {A} (t : triangle A) : list (point A * point A) :=
  let '(a, b, c) := t in [(a, b); (b, c); (c, a)].
Definition mesh_edges {A} (l : list (triangle A)) : list (point A * point A) := flat_map edges l.
Definition flip {A} (e : A * A) : A * A := (e.2, e.1).

(** The edges of a box between the numbers of its corners. *)
Definition corner_edges : list (nat * nat) :=
  flat_map (λ t : nat * nat * nat, let '(a, b, c) := t in [(a, b); (b, c); (c, a)]) (flat_map fan quads).
Definition edge_ltb (e f : nat * nat) : bool := (e.1 * 8 + e.2 <? f.1 * 8 + f.2)%nat.
Lemma corner_edges_paired : map flip corner_edges ≡ₚ corner_edges.
Proof.
  etransitivity; [symmetry; apply (py_sorted_perm edge_ltb)|]. etransitivity; [|apply (py_sorted_perm edge_ltb)].
  vm_compute. reflexivity.
Qed.
(** Between two corners each direction is used once: every edge has exactly
    two triangles. *)
Lemma corner_edges_once : NoDup corner_edges.
Proof. apply (bool_decide_unpack _). vm_compute. exact I. Qed.

Lemma box_edges {A} add (b : Box A) :
  mesh_edges (box_triangles add b)
  = map (λ e, let at_ i := nth i (corners add b) (bx_x b, bx_y b, bx_z b) in (at_ e.1, at_ e.2)) corner_edges.
Proof. reflexivity. Qed.

Lemma flat_map_perm {A B} (f g : A → list B) l : (∀ x, f x ≡ₚ g x) → flat_map f l ≡ₚ flat_map g l.
Proof. intros H. induction l as [|x l IH]; [done|]. simpl. by rewrite H, IH. Qed.
Lemma mesh_edges_app {A} (l k : list (triangle A)) : mesh_edges (l ++ k) = mesh_edges l ++ mesh_edges k.
Proof. apply flat_map_app. Qed.

Lemma mesh_closed {A} add (l : list (Box A)) :
  map flip (mesh_edges (flat_map (box_triangles add) l)) ≡ₚ mesh_edges (flat_map (box_triangles add) l).
Proof.
  induction l as [|b l IH]; [done|]. cbn [flat_map]. rewrite mesh_edges_app, map_app, IH. f_equiv.
  rewrite box_edges, map_map. rewrite <- corner_edges_paired at 2. by rewrite map_map.
Qed.

(** ** Orientation, in exact arithmetic *)

Definition det (u v w : point Z) : Z :=
  let '(ux, uy, uz) := u in let '(vx, vy, vz) := v in let '(wx, wy, wz) := w in
  ux * (vy * wz - vz * wy) - uy * (vx * wz - vz * wx) + uz * (vx * wy - vy * wx).
Definition minus (p q : point Z) : point Z :=
  let '(px, py, pz) := p in let '(qx, qy, qz) := q in (px - qx, py - qy, pz - qz).
(** Six times the signed volume of the tetrahedron from the triangle to [v]:
    not positive when [v] is on the inner side. *)
Definition outside (t : triangle Z) (v : point Z) : Z :=
  let '(a, b, c) := t in det (minus b a) (minus c a) (minus v a).

Definition positive (b : Box Z) : Prop := 0 < bx_dx b ∧ 0 < bx_dy b ∧ 0 < bx_dz b.
Definition volume (b : Box Z) : Z := bx_dx b * bx_dy b * bx_dz b.
Definition signed_volume (l : list (triangle Z)) : Z :=
  fold_right (λ t n, let '(a, b, c) := t in det a b c + n) 0 l.

Lemma box_volume b : signed_volume (box_triangles Z.add b) = 6 * volume b.
Proof. destruct b as [x y z dx dy dz]. unfold volume. simpl. ring. Qed.
Lemma volume_app l k : signed_volume (l ++ k) = signed_volume l + signed_volume k.
Proof. induction l as [|[[a b] c] l IH]; [done|]. cbn [app signed_volume fold_right] in *. unfold signed_volume in *. lia. Qed.

Lemma box_outward b t v :
  positive b → t ∈ box_triangles Z.add b → v ∈ corners Z.add b → outside t v ≤ 0.
Proof.
  destruct b as [x y z dx dy dz]. intros (Hx & Hy & Hz) Ht Hv. simpl in *.
  assert (0 < dx * dy * dz) by (repeat apply Z.mul_pos_pos; done).
  repeat (apply elem_of_cons in Ht as [->|Ht]); [..|by apply elem_of_nil in Ht];
    repeat (apply elem_of_cons in Hv as [->|Hv]); try (by apply elem_of_nil in Hv); simpl; nia.
Qed.

(** C36: the meshes the generator writes are solids.  In the mesh of any boxes,
    computed in floating point, every edge is used as often in one direction as
    in the other (the surface is closed and its triangles agree on their
    orientation); in exact arithmetic the triangles of every box with positive
    dimensions face outwards, and the mesh encloses the sum of the volumes. *)
Theorem mesh_solid (rounded : list (Box float)) (exact : list (Box Z)) :
  Forall positive exact →
  map flip (mesh_edges (flat_map (box_triangles fadd) rounded)) ≡ₚ mesh_edges (flat_map (box_triangles fadd) rounded)
  ∧ signed_volume (flat_map (box_triangles Z.add) exact) = 6 * foldr (λ b n, volume b + n) 0 exact
  ∧ ∀ b t v, b ∈ exact → t ∈ box_triangles Z.add b → v ∈ corners Z.add b → outside t v ≤ 0.
Proof.
  intros Hp. split; [apply mesh_closed|]. split.
  - clear Hp. induction exact as [|b l IH]; [done|]. cbn [flat_map foldr]. rewrite volume_app, box_volume, IH. ring.
  - intros b t v Hb. apply box_outward. exact (proj1 (Forall_forall _ _) Hp b Hb).
Qed.

Lemma mesh_solid_witness :
  signed_volume (flat_map (box_triangles Z.add) [Build_Box 0 0 0 108 78 3; Build_Box 0 0 3 2 78 28]) = 6 * 29640.
Proof.
  destruct (mesh_solid [] [Build_Box 0 0 0 108 78 3; Build_Box 0 0 3 2 78 28]) as (_ & -> & _); [|reflexivity].
  repeat constructor.
Defined.

(** ** References of a STEP file *)

(** The entity numbers a text refers to. *)
Fixpoint references (s : string) : list Z :=
  match s with
  | String c s' => (if Ascii.eqb c "#" then [digits_value (span_digits s').1] else []) ++ references s'
  | EmptyString => []
  end.
Definition no_hash (s : string) : bool := negb (contains_char "#" s).
Definition no_digit_head (s : string) : bool := match s with String c _ => negb (is_digit c) | EmptyString => true end.

Lemma no_hash_app s t : no_hash (s +:+ t) = no_hash s && no_hash t.
Proof.
  unfold no_hash. rewrite <- negb_orb. f_equal. induction s as [|c s IH]; [done|].
  change (String c s +:+ t) with (String c (s +:+ t)). cbn [contains_char]. by rewrite IH, orb_assoc.
Qed.
Lemma references_app s t : no_hash s = true → references (s +:+ t) = references t.
Proof.
  unfold no_hash. rewrite negb_true_iff. induction s as [|c s IH]; [done|]. cbn [contains_char].
  rewrite orb_false_iff. intros [Hc Hs]. change (String c s +:+ t) with (String c (s +:+ t)). cbn [references].
  rewrite Ascii.eqb_sym, Hc. by apply IH.
Qed.
Lemma span_digits_end s t : span_digits s = (s, "") → no_digit_head t = true → span_digits (s +:+ t) = (s, t).
Proof.
  intros Hs Ht. induction s as [|c s IH]; [destruct t as [|c t]; [done|]; simpl in *; by destruct (is_digit c)|].
  change (String c s +:+ t) with (String c (s +:+ t)). cbn [span_digits] in *. destruct (is_digit c); [|done].
  destruct (span_digits s) as [d r]. injection Hs as -> ->. by rewrite IH.
Qed.
Lemma span_no_hash s : span_digits s = (s, "") → no_hash s = true.
Proof.
  unfold no_hash. induction s as [|c s IH]; [done|]. cbn [span_digits contains_char]. destruct (is_digit c) eqn:Hc; [|done].
  destruct (span_digits s) as [d r]. intros [= -> ->]. destruct (Ascii.eqb_spec "#" c) as [<-|]; [done|]. by apply IH.
Qed.
Lemma references_hash n t : 0 < n → no_digit_head t = true → references (hash n +:+ t) = n :: references t.
Proof.
  intros Hn Ht. destruct n as [|p|p]; [lia| |lia]. pose proof (digits_of_positive p) as H. cbv zeta in H.
  destruct H as (Hs & Hv & _).
  unfold hash. change (("#" +:+ ?x) +:+ t) with (String "#" (x +:+ t)). cbn [references].
  rewrite (span_digits_end _ _ Hs Ht). cbn [fst Ascii.eqb Bool.eqb app]. rewrite Hv. f_equal. apply references_app, span_no_hash, Hs.
Qed.
Lemma references_none t : no_hash t = true → references t = [].
Proof. intros Ht. by rewrite <- (app_nil_r_str t), references_app. Qed.
Lemma references_hashes l t :
  Forall (λ n, 0 < n) l → no_digit_head t = true → no_hash t = true → references (hashes l +:+ t) = l.
Proof.
  intros Hl Ht Hh. unfold hashes. induction Hl as [|n l Hn Hl IH]; [by apply references_none|].
  destruct l as [|m l].
  - change (join "," (map hash [n])) with (hash n). rewrite references_hash by done. f_equal. by apply references_none.
  - change (join "," (map hash (n :: m :: l))) with (hash n +:+ "," +:+ join "," (map hash (m :: l))).
    rewrite !app_assoc_str, references_hash by done. f_equal. rewrite references_app by done. apply IH.
Qed.

(** Numbers are written without a hash. *)
Lemma str_of_Z_no_hash z : no_hash (str_of_Z z) = true.
Proof.
  assert (Hp : ∀ p, no_hash (str_of_Z (Zpos p)) = true).
  { intros p. pose proof (digits_of_positive p) as H. cbv zeta in H. apply span_no_hash, H. }
  destruct z as [|p|p]; [done|apply Hp|]. change (str_of_Z (Zneg p)) with ("-" +:+ str_of_Z (Zpos p)).
  by rewrite no_hash_app, Hp.
Qed.
Lemma substring_no_hash n m s : no_hash s = true → no_hash (String.substring n m s) = true.
Proof.
  unfold no_hash. rewrite !negb_true_iff. revert n m. induction s as [|c s IH]; intros n m; [by destruct n, m|].
  cbn [contains_char]. rewrite orb_false_iff. intros [Hc Hs].
  destruct n as [|n]; [destruct m as [|m]; [done|]|]; cbn [String.substring contains_char]; [rewrite Hc|]; by apply IH.
Qed.
Lemma zeros_no_hash n : no_hash (zeros n) = true.
Proof. by induction n. Qed.
Lemma with_frac_no_hash i f : no_hash i = true → no_hash f = true → no_hash (with_frac i f) = true.
Proof. intros Hi Hf. unfold with_frac. destruct (String.eqb f ""); [done|]. by rewrite !no_hash_app, Hi, Hf. Qed.
Lemma with_sign_no_hash b t : no_hash t = true → no_hash (with_sign b t) = true.
Proof. destruct b; [|done]. cbn [with_sign]. by rewrite no_hash_app. Qed.
Lemma fmt_f_no_hash p x : no_hash (fmt_f p x) = true.
Proof.
  assert (Hfixed : ∀ q, no_hash (fixed p q) = true).
  { intros q. unfold fixed. apply with_frac_no_hash; apply substring_no_hash;
      by rewrite no_hash_app, zeros_no_hash, str_of_Z_no_hash. }
  unfold fmt_f. destruct x as [s|s| |s m e]; [|by destruct s|done|]; try destruct (frac_of m e);
    apply with_sign_no_hash, Hfixed.
Qed.

Definition earlier (n : nat) (r : Z) : Prop := 1 ≤ r ≤ Z.of_nat n.
(** Every reference of an entity names an entity before it. *)
Definition sound (es : list string) : Prop := ∀ k e, es !! k = Some e → Forall (earlier k) (references e).

Lemma earlier_mono n m l : (n <= m)%nat → Forall (earlier n) l → Forall (earlier m) l.
Proof. intros H Hl. eapply Forall_impl; [exact Hl|]. unfold earlier. lia. Qed.
Lemma earlier_pos n l : Forall (earlier n) l → Forall (λ r, 0 < r) l.
Proof. intros Hl. eapply Forall_impl; [exact Hl|]. unfold earlier. lia. Qed.
Lemma sound_snoc es e : sound es → Forall (earlier (length es)) (references e) → sound (es ++ [e]).
Proof.
  intros Hs He k x [Hk|(Hk & Hx)]%lookup_app_Some; [by eapply Hs|].
  destruct (k - length es)%nat as [|n] eqn:E; [|done]. injection Hx as <-. by replace k with (length es) by lia.
Qed.

(** [m] adds [n] entities, keeps the file sound and returns a [P]. *)
Definition builds {A} (m : Builder A) (n : nat) (P : nat → A → Prop) (es : list string) : Prop :=
  ∃ a es', m es = (Ok a, es') ∧ sound es' ∧ length es' = (length es + n)%nat ∧ P (length es') a.
Lemma add_builds e es :
  sound es → Forall (earlier (length es)) (references e) → builds (add e) 1 (λ n a, a = Z.of_nat n) es.
Proof.
  intros Hs He. exists (Z.of_nat (S (length es))), (es ++ [e]). split; [done|].
  rewrite length_app. split; [by apply sound_snoc|]. simpl. split; [done|]. f_equal. lia.
Qed.
Lemma bind_builds {A B} (m : Builder A) (f : A → Builder B) n k P Q es :
  builds m n P es →
  (∀ a es', sound es' → length es' = (length es + n)%nat → P (length es') a → builds (f a) k Q es') →
  builds (m ≫= f) (n + k) Q es.
Proof.
  intros (a & es' & Hm & Hs & Hl & Ha) Hf. destruct (Hf a es' Hs Hl Ha) as (b & es'' & Hb & Hs' & Hl' & HQ).
  exists b, es''. unfold mbind, M_bind. rewrite Hm. split; [done|]. split; [done|]. split; [lia|done].
Qed.
Lemma ret_builds {A} (a : A) (P : nat → A → Prop) es : sound es → P (length es) a → builds (mret a) 0 P es.
Proof. intros Hs Ha. exists a, es. split; [done|]. split; [done|]. split; [lia|done]. Qed.
Lemma mapM_builds {A} (f : A → Builder Z) n l es :
  sound es →
  (∀ x es', x ∈ l → sound es' → (length es <= length es')%nat → builds (f x) (S n) (λ k a, a = Z.of_nat k) es') →
  builds (mapM f l) (length l * S n) (λ k points, length points = length l ∧ Forall (earlier k) points) es.
Proof.
  revert es. induction l as [|x l IH]; intros es Hs Hf; [by apply ret_builds|]. cbn [mapM length Nat.mul].
  apply (bind_builds _ _ _ _ (λ k a, a = Z.of_nat k)); [apply Hf; [left|done|lia]|]. intros a es1 Hs1 Hl1 Ha.
  replace (length l * S n)%nat with (length l * S n + 0)%nat by lia.
  apply (bind_builds _ _ _ _ (λ k points, length points = length l ∧ Forall (earlier k) points ∧ (length es1 <= k)%nat)).
  - destruct (IH es1 Hs1) as (points & es2 & E & Hs2 & Hl2 & Hn & Hp).
    { intros y es' Hy Hs' Hle. apply Hf; [by right|done|lia]. }
    exists points, es2. split_and!; try done. lia.
  - intros points es2 Hs2 _ (Hn & Hp & Hle). apply ret_builds; [done|]. simpl. split; [lia|]. constructor; [|done].
    unfold earlier. lia.
Qed.

Lemma point_references p : references (cartesian_point p) = [].
Proof.
  destruct p as [[x y] z]. apply references_none. unfold cartesian_point, cat, join_chars. cbn [foldr].
  by rewrite !no_hash_app, !fmt_f_no_hash.
Qed.

(** An expression around references. *)
Lemma wrapped_references a l b :
  no_hash a = true → no_hash b = true → no_digit_head b = true → Forall (λ r, 0 < r) l →
  references (cat [a; hashes l; b]) = l.
Proof.
  intros Ha Hb Hd Hl. unfold cat, join_chars. cbn [foldr]. rewrite app_nil_r_str, references_app by done.
  by apply references_hashes.
Qed.
Definition corner_of (points : list Z) (i : nat) : Z := nth i points 0.
Lemma corner_earlier points n l :
  length points = 8%nat → Forall (earlier n) points → Forall (λ i, (i < 8)%nat) l →
  Forall (earlier n) (map (λ i, nth i points 0) l).
Proof.
  intros Hp Hn Hl. apply Forall_forall. intros r (i & -> & Hi)%list_elem_of_fmap.
  apply (proj1 (Forall_forall _ _) Hn), list_elem_of_In, nth_In. rewrite Hp. by apply (proj1 (Forall_forall _ _) Hl).
Qed.
Definition quad_ok (q : nat * nat * nat * nat) : Prop :=
  let '(a, b, c, d) := q in Forall (λ i, (i < 8)%nat) [a; b; c; d].

Lemma face_builds points q n es :
  length points = 8%nat → Forall (earlier n) points → quad_ok q → sound es → (n <= length es)%nat →
  builds (face points q) 3 (λ k a, a = Z.of_nat k) es.
Proof.
  destruct q as [[[a b] c] d]. intros Hp Hn Hq Hs Hle. unfold face.
  pose proof (earlier_mono _ _ _ Hle (corner_earlier _ _ _ Hp Hn Hq)) as Hr.
  apply (bind_builds _ _ 1 2 (λ k a, a = Z.of_nat k)).
  { apply add_builds; [done|]. rewrite wrapped_references; [done..|]. by eapply earlier_pos. }
  intros loop es1 Hs1 Hl1 ->. apply (bind_builds _ _ 1 1 (λ k a, a = Z.of_nat k)).
  { assert (Ho : Forall (earlier (length es1)) [Z.of_nat (length es1)]) by (constructor; [unfold earlier; lia|done]).
    apply add_builds; [done|]. rewrite (wrapped_references _ [Z.of_nat (length es1)]); [done..|by eapply earlier_pos]. }
  intros bound es2 Hs2 Hl2 ->.
  assert (Ho : Forall (earlier (length es2)) [Z.of_nat (length es2)]) by (constructor; [unfold earlier; lia|done]).
  apply add_builds; [done|]. rewrite (wrapped_references _ [Z.of_nat (length es2)]); [done..|by eapply earlier_pos].
Qed.

Lemma box_builds name b es : no_hash name = true → sound es → builds (box name b) 28 (λ _ _, True) es.
Proof.
  intros Hname Hs. unfold box.
  apply (bind_builds _ _ 8 20 (λ k points, length points = 8%nat ∧ Forall (earlier k) points)).
  { assert (Hc : length (corners fadd b) = 8%nat) by (by destruct b).
    pose proof (mapM_builds (λ p, add (cartesian_point p)) 0 (corners fadd b) es Hs) as H. rewrite Hc in H.
    apply H. intros p es' _ Hs' _. apply add_builds; [done|]. by rewrite point_references. }
  intros points es1 Hs1 Hl1 [Hp Hn].
  apply (bind_builds _ _ 18 2 (λ k faces, length faces = 6%nat ∧ Forall (earlier k) faces)).
  { apply (mapM_builds (face points) 2 quads); [done|]. intros q es' Hq Hs' Hle.
    eapply face_builds; [done|exact Hn| |done|done]. revert q Hq. apply Forall_forall. repeat constructor. }
  intros faces es2 Hs2 Hl2 [_ Hf]. apply (bind_builds _ _ 1 1 (λ k a, a = Z.of_nat k)).
  { apply add_builds; [done|]. rewrite wrapped_references; [done..|]. by eapply earlier_pos. }
  intros shell es3 Hs3 Hl3 ->. apply (bind_builds _ _ 1 0 (λ _ _, True)); [|intros; by apply ret_builds].
  assert (Ho : Forall (earlier (length es3)) [Z.of_nat (length es3)]) by (constructor; [unfold earlier; lia|done]).
  destruct (add_builds (cat ["FACETED_BREP('"; name; "',"; hash (Z.of_nat (length es3)); ")"]) es3) as (a & es4 & H); [done| |].
  - unfold cat, join_chars. cbn [foldr]. rewrite references_app, references_app, references_app, app_nil_r_str by done.
    rewrite references_hash by (done || lia). exact Ho.
  - exists a, es4. destruct H as (H1 & H2 & H3 & _). by split_and!.
Qed.

Lemma boxes_build l es :
  Forall (λ nb, no_hash nb.1 = true) l → sound es → builds (boxes l) (28 * length l) (λ _ _, True) es.
Proof.
  intros Hl. revert es. induction Hl as [|[name b] l Hn _ IH]; intros es Hs; [by apply ret_builds|].
  cbn [boxes length]. replace (28 * S (length l))%nat with (28 + 28 * length l)%nat by lia.
  apply (bind_builds _ _ _ _ (λ _ _, True)); [by apply box_builds|]. intros _ es' Hs' _ _. by apply IH.
Qed.

(** The STEP data of any boxes whose names hold no hash sign is complete:
    it has 28 entities per box, numbered from 1 in the file, and each of them
    refers only to entities with a smaller number. *)
Theorem step_references l :
  Forall (λ nb, no_hash nb.1 = true) l →
  length (entities_of l) = (28 * length l)%nat
  ∧ ∀ k e, entities_of l !! k = Some e → Forall (λ r, 1 ≤ r < Z.of_nat (S k)) (references e).
Proof.
  intros Hl. destruct (boxes_build l [] Hl) as (a & es & E & Hs & Hn & _); [by intros k e|].
  unfold entities_of. rewrite E. split; [exact Hn|]. intros k e Hk.
  eapply Forall_impl; [exact (Hs k e Hk)|]. unfold earlier. lia.
Qed.

Lemma step_references_witness :
  let pcb := Build_Box (of_int 0) (of_int 0) (of_int 0) (of_int 100) (of_int 70) (lit 16 1) in
  length (entities_of [("PCB", pcb); ("U1-ESP32_S3", pcb)]) = 56%nat
  ∧ Forall (λ r, 1 ≤ r < 55) (references "CLOSED_SHELL('',(#39,#42,#45,#48,#51,#54))").
Proof.
  intros pcb. destruct (step_references [("PCB", pcb); ("U1-ESP32_S3", pcb)]) as [Hn Hr]; [by repeat constructor|].
  split; [exact Hn|]. apply (Hr 54%nat). vm_compute. reflexivity.
Defined.
