(* ===== verification/Hardware.v ===== *)
(** [scripts/generate_hardware_artifacts.py]: the review artifacts generated
    from [hardware/design.json], and their validation.

    The design is the JSON value the file holds, with its objects as Python
    dicts ([canonical]); the script runs on a file system whose paths start at
    [root].  Directories made on the way, failing writes and texts that are not
    UTF-8 are modelled; permissions, disk space and paths that are neither a
    file nor a directory are not. *)
From S2P Require Import Prelude PyStr Float64 PyFormat Json JsonParse Csv JsonValues Files Solids.
Local Open Scope py_scope.

(** ** Names *)

(** [re.sub(r"[^A-Za-z0-9_]+", "_", value).strip("_")] *)
Definition word_char (c : ascii) : bool :=
  let n := N_of_ascii c in
  ((65 <=? n) && (n <=? 90) || (97 <=? n) && (n <=? 122) || (48 <=? n) && (n <=? 57) || (n =? 95))%N.
Fixpoint squash (inside : bool) (s : string) : string :=
  match s with
  | EmptyString => EmptyString
  | String c s' =>
      if word_char c then String c (squash false s') else if inside then squash true s' else String "_" (squash true s')
  end.
Fixpoint lstrip_underscores (l : list ascii) : list ascii :=
  match l with c :: l' => if Ascii.eqb c "_" then lstrip_underscores l' else l | [] => [] end.
Definition strip_underscores (s : string) : string :=
  String.string_of_list_ascii (rev (lstrip_underscores (rev (lstrip_underscores (String.list_ascii_of_string s))))).
Definition safe_name (value : string) : string := strip_underscores (squash false value).

Section Hardware.
(** [str] of lists and dicts, [float] of text, the digest of a content, the
    texts of the two Unicode errors. *)
Context (str_container : json → string) (float_of_str : string → result float).
Context (sha256 : string → string) (decode_error encode_error : string → string).
Context (root : path) (resolve : path → path).

Abbreviation read_text := (Files.read_text resolve decode_error).
Abbreviation checksum := (Files.checksum sha256 resolve).
Abbreviation relative_text := (Files.relative_text root).
Abbreviation exists_path := (Files.exists_path resolve).
Abbreviation make_dirs := (Files.make_dirs resolve).
Abbreviation open_writing := (Files.open_writing resolve).
Abbreviation append := (Files.append_text encode_error resolve).
Abbreviation text_field := (JsonValues.text_field str_container).
Abbreviation float_field := (JsonValues.float_field float_of_str).
Abbreviation write := (Files.write_text encode_error resolve).
Definition str (j : json) : string := py_str str_container j.
Definition join_lines (l : list string) : string := join lf l.

(** ** Files *)

Definition at_root (text : string) : path := path_of root text.
Definition write_row (p : path) (cells : list string) : M FS () := append p (csv_row cells).
(** A cell of a CSV row: [None] is written as nothing. *)
Definition cell_text (j : json) : string := match j with JNull => "" | _ => str j end.
Definition load_design (fs : FS) : result json :=
  text ← read_text (at_root "hardware/design.json") fs;
  value ← parse_json text;
  match value with JObj _ => Ok value | _ => Raise (ValueError "hardware design root must be an object") end.

(** ** Nets *)

Definition is_hashable (j : json) : bool := match j with JArr _ | JObj _ => false | _ => true end.
(** The name a pin adds to the nets, if any. *)
Definition pin_net (name : json) : result (option string) :=
  if negb (is_hashable name) then Raise TypeError
  else match name with
       | JStr s => Ok (if member s ["NC"; "ALERT_NC"] then None else Some s)
       | _ => Ok (Some (str name))
       end.
Definition component_nets (component : json) : result (list string) :=
  pins ← (v ← subscript "pins" component; items v);
  names ← mapM (λ pin, pin_net pin.2) pins;
  mret (omap id names).
Definition all_nets (design : json) : result (list string) :=
  nets ← entries "nets" design;
  components ← entries "components" design;
  used ← mapM component_nets components;
  mret (py_sorted String.ltb (remove_dups (map str nets ++ concat used))).

(** ** Bill of materials *)

Definition bom_fields : list string := ["manufacturer"; "mpn"; "value"; "package"; "rating"; "role"].
Definition Groups : Type := list (list string * list string).
Fixpoint group_add (key : list string) (ref : string) (grouped : Groups) : Groups :=
  match grouped with
  | [] => [(key, [ref])]
  | (k, refs) :: rest =>
      if bool_decide (k = key) then (k, refs ++ [ref]) :: rest else (k, refs) :: group_add key ref rest
  end.
Fixpoint group_components (components : list json) (grouped : Groups) : result Groups :=
  match components with
  | [] => Ok grouped
  | item :: rest =>
      key ← mapM (λ field, text_field field item) bom_fields;
      ref ← text_field "ref" item;
      group_components rest (group_add key ref grouped)
  end.
Definition first_ref (g : list string * list string) : string := default "" (head g.2).
Definition bom_header : list string :=
  ["references"; "quantity"; "manufacturer"; "manufacturer_part_number"; "value"; "package"; "rating"; "role";
   "sourcing_note"].
Definition sourcing_note : string :=
  "Verify lifecycle, authorized source, stock, and current datasheet before build".
Definition bom_row (g : list string * list string) : list string :=
  let '(key, refs) := g in
  [join " " (py_sorted String.ltb refs); str_of_Z (Z.of_nat (length refs))] ++ key ++ [sourcing_note].
Definition sorted_groups (grouped : Groups) : Groups :=
  py_sorted (λ a b, String.ltb (first_ref a) (first_ref b)) grouped.
Definition generate_bom (design : json) : M FS () :=
  components ← lift (entries "components" design);
  grouped ← lift (group_components components []);
  let path := at_root "hardware/bom/bom.csv" in
  make_dirs (parent path);;
  open_writing path;;
  write_row path bom_header;;
  for_each (λ g, write_row path (bom_row g)) (sorted_groups grouped).

(** ** Positions *)

Definition position_fields : list string := ["ref"; "value"; "package"; "x"; "y"; "rotation"].
Definition generate_positions (design : json) : M FS () :=
  let path := at_root "hardware/fabrication/iiot-monitor-all-pos.csv" in
  make_dirs (parent path);;
  open_writing path;;
  write_row path ["Ref"; "Val"; "Package"; "PosX(mm)"; "PosY(mm)"; "Rot(deg)"; "Side"];;
  components ← lift (entries "components" design);
  for_each (λ item,
    cells ← lift (mapM (λ field, v ← subscript field item; mret (cell_text v)) position_fields);
    write_row path (cells ++ ["top"])) components.

(** ** Legacy schematic *)

(** [math.ceil(len(pins) / 2)] *)
Definition half_of {A} (pins : list A) : Z := (Z.of_nat (length pins) + 1) / 2.
Definition body_half_height (half : Z) : Z := Z.max 300 (half * 60).
(** [value[0]] *)
Definition first_item (j : json) : result json :=
  match j with
  | JStr s => match chars s with c :: _ => Ok (JStr c) | [] => Raise IndexError end
  | JArr l => match l with v :: _ => Ok v | [] => Raise IndexError end
  | JObj _ => Raise KeyError
  | _ => Raise TypeError
  end.
Definition symbol_pin (half body : Z) (pin : Z * (string * json)) : string :=
  let '(index, (number, net)) := pin in
  let side_index := if index <? half then index else index - half in
  let y := str_of_Z (body - 100 - side_index * 120) in
  if index <? half
  then cat ["X "; safe_name (str net); " "; number; " -500 "; y; " 200 R 40 40 1 1 B"]
  else cat ["X "; safe_name (str net); " "; number; " 500 "; y; " 200 L 40 40 1 1 B"].
Definition symbol_definition (component : json) : result string :=
  value ← text_field "value" component;
  let name := safe_name value in
  pins ← (v ← subscript "pins" component; items v);
  let half := half_of pins in
  let body := body_half_height half in
  ref ← subscript "ref" component;
  letter ← first_item ref;
  mret (join_lines ([
      "# " +:+ name; "#";
      cat ["DEF "; name; " "; str letter; " 0 40 Y Y 1 F N"];
      cat ["F0 "; dq (str ref); " 0 "; str_of_Z (body + 150); " 50 H V C CNN"];
      cat ["F1 "; dq value; " 0 "; str_of_Z (- body - 150); " 50 H V C CNN"];
      "DRAW";
      cat ["S -300 "; str_of_Z body; " 300 "; str_of_Z (- body); " 0 1 10 f"] ]
    ++ map (symbol_pin half body) (enumerate pins)
    ++ ["ENDDRAW"; "ENDDEF"; "#"])).

(** [unique.setdefault(safe_name(str(component["value"])), component)] *)
Fixpoint unique_components (components : list json) (unique : list (string * json)) : result (list (string * json)) :=
  match components with
  | [] => Ok unique
  | component :: rest =>
      value ← text_field "value" component;
      let name := safe_name value in
      unique_components rest
        (if existsb (λ kv, String.eqb kv.1 name) unique then unique else unique ++ [(name, component)])
  end.

Definition tab : string := String (ascii_of_N 9) "".
Definition pad_left (width : nat) (s : string) : string := zeros (width - String.length s) +:+ s.
Definition pin_label (x y half body : Z) (pin : Z * (string * json)) : list string :=
  let '(pin_index, (_, net)) := pin in
  let side_index := if pin_index <? half then pin_index else pin_index - half in
  let pin_y := y + body - 100 - side_index * 120 in
  let pin_x := if pin_index <? half then x - 500 else x + 500 in
  [cat ["Text Label "; str_of_Z pin_x; " "; str_of_Z pin_y; " 0    40   ~ 0"]; str net].
Definition schematic_component (entry : Z * json) : result (list string) :=
  let '(index, component) := entry in
  let x := 1600 + index mod 5 * 3100 in
  let y := 1300 + index / 5 * 1200 in
  let xy := str_of_Z x +:+ " " +:+ str_of_Z y in
  value ← text_field "value" component;
  ref ← text_field "ref" component;
  package ← text_field "package" component;
  mpn ← text_field "mpn" component;
  pins ← (v ← subscript "pins" component; items v);
  let half := half_of pins in
  let body := body_half_height half in
  mret ([
      "$Comp";
      cat ["L iiot-monitor-cache:"; safe_name value; " "; ref];
      cat ["U 1 1 6"; pad_left 7 (str_of_Z (index + 1))];
      "P " +:+ xy;
      cat ["F 0 "; dq ref; " H "; str_of_Z x; " "; str_of_Z (y - 120); " 50  0000 C CNN"];
      cat ["F 1 "; dq value; " H "; str_of_Z x; " "; str_of_Z (y + 120); " 50  0000 C CNN"];
      cat ["F 2 "; dq ("Custom:" +:+ package); " H "; xy; " 50  0001 C CNN"];
      cat ["F 3 "; dq mpn; " H "; xy; " 50  0001 C CNN"];
      cat [tab; "1    "; xy];
      cat [tab; "1    0    0    -1"];
      "$EndComp" ]
    ++ flat_map (pin_label x y half body) (enumerate pins)).

Definition generate_legacy_schematic (design : json) : M FS () :=
  components ← lift (entries "components" design);
  unique ← lift (unique_components components []);
  symbols ← lift (mapM (λ kv, symbol_definition kv.2) unique);
  write (at_root "hardware/kicad/iiot-monitor-cache.lib")
    (join_lines (["EESchema-LIBRARY Version 2.4"; "#encoding utf-8"; "#"] ++ symbols ++ ["#End Library"]) +:+ lf);;
  title ← lift (text_field "title" design);
  revision ← lift (text_field "revision" design);
  author ← lift (text_field "author" design);
  email ← lift (text_field "email" design);
  safety_note ← lift (text_field "safety_note" design);
  placed ← lift (mapM schematic_component (enumerate components));
  write (at_root "hardware/kicad/iiot-monitor.sch") (join_lines ([
      "EESchema Schematic File Version 4"; "LIBS:iiot-monitor-cache"; "EELAYER 29 0"; "EELAYER END";
      "$Descr A3 16535 11693"; "encoding utf-8"; "Sheet 1 1";
      "Title " +:+ dq title; "Date " +:+ dq "2026-08-11"; "Rev " +:+ dq revision;
      "Comp " +:+ dq (cat [author; " <"; email; ">"]);
      "Comment1 " +:+ dq "EXTRA-LOW-VOLTAGE DEMONSTRATOR ONLY - NO MAINS";
      "Comment2 " +:+ dq "UNVERIFIED: import into KiCad 10, run ERC, and review before layout use";
      "$EndDescr"; "Text Notes 700 450 0    100  ~ 20"; safety_note ]
    ++ concat placed ++ [
      "Text Notes 700 11100 0    60   ~ 12";
      "Labels define electrical nets. Component pin numbering and ratings require KiCad ERC and datasheet review.";
      "$EndSCHEMATC" ]) +:+ lf).

(** ** Board *)

(** [n + value], and [f"{value:.3f}"] of a number. *)
Definition add_int (n : Z) (value : json) : result json :=
  match value with
  | JInt z => Ok (JInt (n + z))
  | JBool b => Ok (JInt (n + (if b then 1 else 0)))
  | JFloat x => Ok (JFloat (of_int n ⊕ x))
  | _ => Raise TypeError
  end.
Definition number_text (p : Z) (value : json) : result string :=
  match value with
  | JInt z => x ← float_of_Z z; mret (fmt_f p x)
  | JFloat x => Ok (fmt_f p x)
  | _ => Raise TypeError
  end.
(** [for index, (x, y) in ...] *)
Definition pair_of (value : json) : result (json * json) :=
  l ← iterate value;
  match l with [x; y] => Ok (x, y) | _ => Raise (ValueError "values to unpack (expected 2)") end.

(** [max(low, x)] and [min(high, x)]: the first unless the second is beyond it. *)
Definition max2 (low x : float) : float := if fltb low x then x else low.
Definition min2 (high x : float) : float := if fltb x high then x else high.
Definition pad_pitch (height : float) (pin_count : Z) : float :=
  min2 (of_int 2) (max2 (lit 7 1) (height ⊘ of_int (Z.max (pin_count / 2) 1))).
Definition through_hole_marks : list string := ["TerminalBlock"; "PinHeader"; "Relay_THT"; "TestPoint"].
(** [net_numbers]: the position of a name in the sorted nets, from 1. *)
Definition Numbering : Type := list (string * Z).
Definition number_nets (nets : list string) : Numbering := map (λ kv, (kv.2, kv.1 + 1)) (enumerate nets).
Definition net_number (net_numbers : Numbering) (net : string) : Z :=
  match List.find (λ kv, String.eqb kv.1 net) net_numbers with Some kv => kv.2 | None => 0 end.
Definition pad_net (net_numbers : Numbering) (net : string) : string :=
  cat ["(net "; str_of_Z (net_number net_numbers net); " "; dq net; "))"].
Definition pad_line (width pitch : float) (half : Z) (through_hole : bool) (net_numbers : Numbering)
    (pin : Z * (string * json)) : string :=
  let '(index, (number, net)) := pin in
  let side_index := if index <? half then index else index - half in
  let x := (if index <? half then fneg width else width) ⊘ of_int 2 in
  let y := (of_int side_index ⊖ int_div (half - 1) 2) ⊗ pitch in
  if through_hole
  then cat ["    (pad "; dq number; " thru_hole circle (at "; fmt_f 3 x; " "; fmt_f 3 y; ") ";
            "(size 1.8 1.8) (drill 1.0) (layers "; dq "*.Cu"; " "; dq "*.Mask"; ") "; pad_net net_numbers (str net)]
  else cat ["    (pad "; dq number; " smd rect (at "; fmt_f 3 x; " "; fmt_f 3 y; ") ";
            "(size 1.2 0.7) (layers "; dq "F.Cu"; " "; dq "F.Paste"; " "; dq "F.Mask"; ") ";
            pad_net net_numbers (str net)].
Definition pad_lines (component : json) (net_numbers : Numbering) : result (list string) :=
  pins ← (v ← subscript "pins" component; items v);
  height ← float_field "height" component;
  package ← text_field "package" component;
  width ← (if bool_decide (pins = []) then Ok (of_int 0) else float_field "width" component);
  mret (map (pad_line width (pad_pitch height (Z.of_nat (length pins))) (half_of pins)
               (any (λ mark, occurs mark package) through_hole_marks) net_numbers) (enumerate pins)).

Definition net_line (entry : string * Z) : string := cat ["  (net "; str_of_Z entry.2; " "; dq entry.1; ")"].
Definition footprint_lines (net_numbers : Numbering) (component : json) : result (list string) :=
  x ← float_field "x" component;
  y ← float_field "y" component;
  width ← float_field "width" component;
  height ← float_field "height" component;
  package ← text_field "package" component;
  rotation ← text_field "rotation" component;
  ref ← text_field "ref" component;
  value ← text_field "value" component;
  pads ← pad_lines component net_numbers;
  let w := width ⊘ of_int 2 in
  let h := height ⊘ of_int 2 in
  let minus_w := fneg width ⊘ of_int 2 in
  let minus_h := fneg height ⊘ of_int 2 in
  mret ([
      cat ["  (footprint "; dq ("Custom:" +:+ package); " (layer "; dq "F.Cu"; ")"];
      cat ["    (at "; fmt_f 3 (of_int 20 ⊕ x); " "; fmt_f 3 (of_int 20 ⊕ y); " "; rotation; ")"];
      cat ["    (property "; dq "Reference"; " "; dq ref; " (at 0 "; fmt_f 3 (minus_h ⊖ of_int 1); " 0) (layer ";
           dq "F.SilkS"; "))"];
      cat ["    (property "; dq "Value"; " "; dq value; " (at 0 "; fmt_f 3 (h ⊕ of_int 1); " 0) (layer ";
           dq "F.Fab"; "))"];
      cat ["    (fp_rect (start "; fmt_f 3 minus_w; " "; fmt_f 3 minus_h; ") (end "; fmt_f 3 w; " "; fmt_f 3 h;
           ") (stroke (width 0.25) (type default)) (fill none) (layer "; dq "F.SilkS"; "))"] ]
    ++ pads ++ ["  )"]).
Definition hole_lines (entry : Z * json) : result (list string) :=
  let '(index, hole) := entry in
  xy ← pair_of hole;
  x ← (v ← add_int 20 xy.1; number_text 3 v);
  y ← (v ← add_int 20 xy.2; number_text 3 v);
  mret [
    cat ["  (footprint "; dq "MountingHole:MountingHole_3.2mm_M3"; " (layer "; dq "F.Cu"; ")"];
    cat ["    (at "; x; " "; y; ")"];
    cat ["    (property "; dq "Reference"; " "; dq ("H" +:+ str_of_Z (index + 1)); " (at 0 -4 0) (layer ";
         dq "F.SilkS"; "))"];
    cat ["    (fp_circle (center 0 0) (end 3 0) (stroke (width 0.3) (type default)) (fill none) (layer ";
         dq "F.SilkS"; "))"];
    cat ["    (pad "; dq ""; " np_thru_hole circle (at 0 0) (size 3.2 3.2) (drill 3.2) (layers "; dq "*.Cu"; " ";
         dq "*.Mask"; "))"];
    "  )" ].
Definition board_head : list string := [
  "(kicad_pcb (version 20240108) (generator pcbnew)"; "  (general (thickness 1.6))"; "  (paper " +:+ dq "A4" +:+ ")";
  "  (layers"; cat ["    (0 "; dq "F.Cu"; " signal)"]; cat ["    (31 "; dq "B.Cu"; " signal)"];
  cat ["    (36 "; dq "B.SilkS"; " user "; dq "b.silkscreen"; ")"];
  cat ["    (37 "; dq "F.SilkS"; " user "; dq "f.silkscreen"; ")"];
  cat ["    (44 "; dq "Edge.Cuts"; " user)"]; "  )"; "  (setup (pad_to_mask_clearance 0))";
  cat ["  (net 0 "; dq ""; ")"] ].
Definition pcb_lines (design : json) : result (list string) :=
  nets ← all_nets design;
  let net_numbers := number_nets nets in
  board ← subscript "board" design;
  components ← entries "components" design;
  footprints ← mapM (footprint_lines net_numbers) components;
  mounting_holes ← entries "mounting_holes" board;
  holes ← mapM hole_lines (enumerate mounting_holes);
  width ← (v ← subscript "width" board; add_int 20 v);
  height ← (v ← subscript "height" board; add_int 20 v);
  title ← text_field "title" design;
  revision ← text_field "revision" design;
  mret (board_head ++ map net_line net_numbers ++ concat footprints ++ concat holes ++ [
    cat ["  (gr_rect (start 20 20) (end "; str width; " "; str height;
         ") (stroke (width 0.1) (type default)) (fill none) (layer "; dq "Edge.Cuts"; "))"];
    cat ["  (gr_text "; dq (cat [title; " "; revision]); " (at 70 23) (layer "; dq "F.SilkS"; "))"];
    cat ["  (gr_text "; dq "SELV/PELV ONLY - NO MAINS - UNVERIFIED"; " (at 70 87) (layer "; dq "F.SilkS"; "))"];
    ")" ]).
Definition project_settings (author email : string) (safety_note : json) : json := JObj [
  ("board", JObj [("design_settings", JObj [("defaults", JObj [("board_outline_line_width", JFloat (lit 1 1))])])]);
  ("cvpcb", JObj []); ("erc", JObj []); ("libraries", JObj []);
  ("meta", JObj [("filename", JStr "iiot-monitor.kicad_pro"); ("version", JInt 1)]);
  ("net_settings", JObj []); ("pcbnew", JObj []); ("schematic", JObj []);
  ("text_variables", JObj [("AUTHOR", JStr (cat [author; " <"; email; ">"])); ("SAFETY", safety_note)]) ].
Definition generate_pcb (design : json) : M FS () :=
  lines ← lift (pcb_lines design);
  write (at_root "hardware/kicad/iiot-monitor.kicad_pcb") (join_lines lines +:+ lf);;
  author ← lift (text_field "author" design);
  email ← lift (text_field "email" design);
  safety_note ← lift (subscript "safety_note" design);
  write (at_root "hardware/kicad/iiot-monitor.kicad_pro")
    (dumps_indented 0 (project_settings author email safety_note) +:+ lf).

(** ** Engineering models and enclosure *)

(** [width, height, depth = (float(value) for value in values)]: a fourth
    value is converted before it is refused. *)
Definition three_floats (values : list json) : result (float * float * float) :=
  converted ← mapM (to_float float_of_str) (take 4 values);
  match converted with
  | [a; b; c] => Ok (a, b, c)
  | _ => Raise (ValueError "values to unpack (expected 3)")
  end.
(** A coordinate or length used as a number. *)
Definition as_number (value : json) : result float :=
  match value with JStr _ => Raise TypeError | _ => to_float float_of_str value end.

Definition zero : float := of_int 0.
Definition model_path (name : string) : path := path_of (at_root "hardware/3d-models") (name +:+ ".step").
Definition path_name (p : path) : string := List.last p "".
Definition write_model (model : json) : M FS () :=
  dimensions ← lift (entries "dimensions" model);
  sizes ← lift (three_floats dimensions);
  name ← lift (text_field "name" model);
  let '(width, height, depth) := sizes in
  let path := model_path name in
  write path (step_content (path_name path) (entities_of [(name, Build_Box zero zero zero width height depth)])).

Definition assembly_box (board component : json) : result (string * Box float) :=
  ref ← text_field "ref" component;
  value ← text_field "value" component;
  x ← float_field "x" component;
  width ← float_field "width" component;
  y ← float_field "y" component;
  height ← float_field "height" component;
  thickness ← float_field "thickness" board;
  mret (cat [ref; "-"; safe_name value],
        Build_Box (x ⊖ width ⊘ of_int 2) (y ⊖ height ⊘ of_int 2) thickness width height
          (match component with
           | JObj fields => match jget "model" fields with Some JNull | None => of_int 3 | _ => of_int 6 end
           | _ => of_int 6 end)).
Definition board_box (board : json) : result (string * Box float) :=
  values ← mapM (λ key, subscript key board) ["width"; "height"; "thickness"];
  sizes ← mapM as_number values;
  mret ("PCB", Build_Box zero zero zero (nth 0 sizes zero) (nth 1 sizes zero) (nth 2 sizes zero)).

Definition wall : float := lit 24 1.
Definition floor : float := of_int 3.
Definition enclosure_height : float := of_int 28.
Definition base_boxes (w d : float) : list (Box float) :=
  let inner := w ⊖ of_int 2 ⊗ wall in [
    Build_Box zero zero zero w d floor;
    Build_Box zero zero floor wall d enclosure_height;
    Build_Box (w ⊖ wall) zero floor wall d enclosure_height;
    Build_Box wall zero floor inner wall enclosure_height;
    Build_Box wall (d ⊖ wall) floor inner wall enclosure_height ].
Definition lid_boxes (w d : float) : list (Box float) := [Build_Box zero zero zero w d (lit 24 1)].
Definition enclosure_boxes (w d : float) : list (string * Box float) :=
  map (λ kv, ("base-" +:+ str_of_Z kv.1, kv.2)) (enumerate (base_boxes w d))
  ++ [("lid-exploded", Build_Box zero zero (enclosure_height ⊕ of_int 12) w d (lit 24 1))].
Definition macro_text (enclosure_width enclosure_depth : float) : string := join_lines [
  "# FreeCAD 1.x parametric rebuild script; generated from hardware/design.json";
  "import FreeCAD as App";
  "import Part";
  "";
  cat ["doc = App.newDocument("; dq "IIoT_Enclosure"; ")"];
  cat ["width = "; py_repr enclosure_width];
  cat ["depth = "; py_repr enclosure_depth];
  cat ["wall = "; py_repr wall];
  cat ["floor = "; py_repr floor];
  cat ["height = "; py_repr enclosure_height];
  "outer = Part.makeBox(width, depth, height + floor)";
  "inner = Part.makeBox(width - 2 * wall, depth - 2 * wall, height + 1, App.Vector(wall, wall, floor))";
  "base_shape = outer.cut(inner)";
  cat ["base = doc.addObject("; dq "PartDesign::Feature"; ", "; dq "Base"; ")"];
  cat ["base.Label = "; dq "Parametric enclosure base"];
  "base.Shape = base_shape";
  cat ["lid = doc.addObject("; dq "PartDesign::Feature"; ", "; dq "Lid"; ")"];
  cat ["lid.Label = "; dq "Exploded lid"];
  "lid.Shape = Part.makeBox(width, depth, 2.4, App.Vector(0, 0, height + 12))";
  "doc.recompute()";
  cat ["doc.saveAs(App.getUserAppDataDir() + "; dq "iiot-enclosure.FCStd"; ")"];
  cat ["Part.export([base, lid], App.getUserAppDataDir() + "; dq "iiot-enclosure-assembly.step"; ")"];
  ""].

Definition provenance_path : path := at_root "hardware/model-provenance.csv".
Definition provenance_header : list string :=
  ["file"; "applies_to"; "kind"; "source"; "source_url"; "license"; "retrieval_date"; "sha256"].
Definition provenance_fields : list string := ["applies_to"; "kind"; "source"; "source_url"; "license"; "retrieved"].
Definition provenance_row (model : json) (fs : FS) : result (list string) :=
  name ← text_field "name" model;
  let path := model_path name in
  file ← relative_text path;
  cells ← mapM (λ field, v ← subscript field model; mret (cell_text v)) provenance_fields;
  digest ← checksum path fs;
  mret ([file] ++ cells ++ [digest]).
Definition write_provenance (models : list json) : M FS () :=
  open_writing provenance_path;;
  write_row provenance_path provenance_header;;
  for_each (λ model, cells ← reading (provenance_row model); write_row provenance_path cells) models.

Definition write_step (text : string) (l : list (string * Box float)) : M FS () :=
  write (at_root text) (step_content (path_name (at_root text)) (entities_of l)).
Definition generate_models_and_enclosure (design : json) : M FS () :=
  models ← lift (entries "engineering_models" design);
  for_each write_model models;;
  board ← lift (subscript "board" design);
  pcb ← lift (board_box board);
  components ← lift (entries "components" design);
  placed ← lift (mapM (assembly_box board) components);
  write_step "hardware/fabrication/iiot-monitor-board-engineering-envelope.step" (pcb :: placed);;
  board_width ← lift (float_field "width" board);
  board_height ← lift (float_field "height" board);
  let enclosure_width := board_width ⊕ of_int 8 in
  let enclosure_depth := board_height ⊕ of_int 8 in
  write (at_root "hardware/enclosure/iiot-enclosure-base.stl")
    (stl "iiot_base" (base_boxes enclosure_width enclosure_depth));;
  write (at_root "hardware/enclosure/iiot-enclosure-lid.stl") (stl "iiot_lid" (lid_boxes enclosure_width enclosure_depth));;
  write_step "hardware/enclosure/iiot-enclosure-assembly.step" (enclosure_boxes enclosure_width enclosure_depth);;
  write (at_root "hardware/enclosure/iiot-enclosure.FCMacro") (macro_text enclosure_width enclosure_depth);;
  models ← lift (entries "engineering_models" design);
  write_provenance models.

(** ** Fabrication review *)

Definition gerber_header (file_function : string) : list string := [
  "G04 Generated review artifact; NOT RELEASED FOR FABRICATION*"; "%FSLAX46Y46*%"; "%MOMM*%";
  cat ["%TF.FileFunction,"; file_function; "*%"]; "%TF.Part,Single*%"; "%ADD10C,0.200000*%"; "D10*" ].
Definition outline (width height : Z) : list string :=
  let x := "X" +:+ str_of_Z width in
  let y := "Y" +:+ str_of_Z height in
  gerber_header "Profile,NP"
  ++ ["X0Y0D02*"; x +:+ "Y0D01*"; cat [x; y; "D01*"]; cat ["X0"; y; "D01*"]; "X0Y0D01*"; "M02*"].
Definition layers : list (string * string) := [
  ("iiot-monitor-F_Cu.gtl", "Copper,L1,Top"); ("iiot-monitor-B_Cu.gbl", "Copper,L2,Bot");
  ("iiot-monitor-F_Mask.gts", "Soldermask,Top"); ("iiot-monitor-B_Mask.gbs", "Soldermask,Bot");
  ("iiot-monitor-F_Silkscreen.gto", "Legend,Top") ].
Definition layer_text (function : string) : string :=
  join_lines (gerber_header function ++ ["G04 Layer intentionally contains no approved production geometry*";
  "M02*"]) +:+ lf.
Definition drill_line (hole : json) : result string :=
  xy ← pair_of hole;
  x ← to_float float_of_str xy.1;
  y ← to_float float_of_str xy.2;
  mret (cat ["X"; fmt_f 3 x; "Y"; fmt_f 3 y]).
Definition status_path : path := at_root "hardware/fabrication/fabrication-status.json".
Definition fabrication_status (revision : json) : json := JObj [
  ("schema_version", JInt 1); ("revision", revision); ("fabrication_release_approved", JBool false);
  ("kicad_erc", JStr "NOT_RUN_TOOL_UNAVAILABLE"); ("kicad_drc", JStr "NOT_RUN_TOOL_UNAVAILABLE");
  ("routing_status", JStr "UNROUTED_REVIEW_PLACEMENT");
  ("generated_outputs", JStr "review-only geometry generated from hardware/design.json");
  ("required_before_fabrication", jstrs [
    "import and save the legacy schematic in KiCad 10";
    "review symbols, footprints, pin numbers, ratings, and net labels against current datasheets";
    "route power, signals, differential bus, and planes";
    "run ERC and DRC with zero unexplained violations";
    "regenerate all fabrication and 3D outputs using kicad-cli";
    "independent electrical and safety review"]) ].
Definition not_run_report : string :=
  cat ["Status: NOT RUN"; lf; "Tool: kicad-cli 10.0.4"; lf;
       "Reason: tool is unavailable in the execution environment."; lf;
       "This file is not a passing report and must be replaced by actual tool output."; lf].
Definition micrometres (length : float) : result Z := py_int (length ⊗ of_int 1000000).
Definition fabrication (name : string) : path := path_of (at_root "hardware/fabrication") name.
Definition generate_fabrication_review (design : json) : M FS () :=
  board ← lift (subscript "board" design);
  width ← lift (v ← float_field "width" board; micrometres v);
  height ← lift (v ← float_field "height" board; micrometres v);
  write (fabrication "iiot-monitor-Edge_Cuts.gm1") (join_lines (outline width height) +:+ lf);;
  for_each (λ layer, write (fabrication layer.1) (layer_text layer.2)) layers;;
  holes ← lift (entries "mounting_holes" board);
  drills ← lift (mapM drill_line holes);
  write (fabrication "iiot-monitor-PTH.drl")
    (join_lines (["M48"; "; DRILL file - review only; NOT RELEASED"; "METRIC,TZ"; "T1C3.200"; "%"; "T1"]
                 ++ drills ++ ["M30"; ""]));;
  revision ← lift (subscript "revision" design);
  write status_path (dumps_indented 0 (fabrication_status revision) +:+ lf);;
  write (fabrication "erc-report.txt") not_run_report;;
  write (fabrication "drc-report.txt") not_run_report.

(** ** Drawings *)

(** [max(x, low)] and [min(x, high)]. *)
Definition floor_at (x low : float) : float := if fltb x low then low else x.
Definition cap_at (x high : float) : float := if fltb high x then high else x.
Definition placement_head (width height : float) (title revision : string) : list string := [
    cat ["<svg xmlns="; dq "http://www.w3.org/2000/svg"; " width="; dq (py_repr (width ⊕ of_int 100)); " height=";
         dq (py_repr (height ⊕ of_int 120)); " viewBox="; dq (cat ["0 0 "; py_repr (width ⊕ of_int 100); " ";
         py_repr (height ⊕ of_int 120)]); ">"];
    cat ["<rect width="; dq "100%"; " height="; dq "100%"; " fill="; dq "#0b1116"; "/>"];
    cat ["<rect x="; dq "50"; " y="; dq "50"; " width="; dq (py_repr width); " height="; dq (py_repr height); " rx=";
         dq "8"; " fill="; dq "#164d3a"; " stroke="; dq "#7ee0b0"; " stroke-width="; dq "3"; "/>"];
    cat ["<text x="; dq "50"; " y="; dq "28"; " fill="; dq "#eef7f1"; " font-family="; dq "sans-serif"; " font-size=";
         dq "18"; ">"; title; " · "; revision; " · review placement</text>"] ].
Definition placement_component (component : json) : result (list string) :=
  cx ← float_field "x" component;
  cw ← float_field "width" component;
  cy ← float_field "y" component;
  ch ← float_field "height" component;
  ref ← text_field "ref" component;
  let x := of_int 50 ⊕ (cx ⊖ cw ⊘ of_int 2) ⊗ of_int 8 in
  let y := of_int 50 ⊕ (cy ⊖ ch ⊘ of_int 2) ⊗ of_int 8 in
  let w := floor_at (cw ⊗ of_int 8) (of_int 12) in
  let h := floor_at (ch ⊗ of_int 8) (of_int 10) in
  mret [
    cat ["<rect x="; dq (fmt_f 1 x); " y="; dq (fmt_f 1 y); " width="; dq (fmt_f 1 w); " height="; dq (fmt_f 1 h);
         " fill="; dq "#d7e5dc"; " stroke="; dq "#16231c"; "/>"];
    cat ["<text x="; dq (fmt_f 1 (x ⊕ of_int 2)); " y="; dq (fmt_f 1 (y ⊕ cap_at (h ⊖ of_int 2) (of_int 12)));
         " fill="; dq "#101915"; " font-family="; dq "monospace"; " font-size="; dq "9"; ">"; ref; "</text>"] ].
Definition placement_tail (height : float) (safety_note : string) : list string := [
    cat ["<text x="; dq "50"; " y="; dq (py_repr (height ⊕ of_int 78)); " fill="; dq "#ffcf70"; " font-family=";
         dq "sans-serif"; " font-size="; dq "16";
         ">100 × 70 × 1.6 mm · UNROUTED · NOT RELEASED FOR FABRICATION</text>"];
    cat ["<text x="; dq "50"; " y="; dq (py_repr (height ⊕ of_int 102)); " fill="; dq "#ff8f8f"; " font-family=";
         dq "sans-serif"; " font-size="; dq "15"; ">"; safety_note; "</text>"];
    "</svg>" ].
Definition assembly_drawing (enclosure_width enclosure_depth : float) : string := join_lines [
    cat ["<svg xmlns="; dq "http://www.w3.org/2000/svg"; " width="; dq "960"; " height="; dq "600"; " viewBox=";
         dq "0 0 960 600"; ">"];
    cat ["<rect width="; dq "960"; " height="; dq "600"; " fill="; dq "#0b1116"; "/>"];
    cat ["<text x="; dq "50"; " y="; dq "42"; " fill="; dq "#eef7f1"; " font-family="; dq "sans-serif"; " font-size=";
         dq "24"; ">Parametric enclosure assembly · engineering render</text>"];
    cat ["<path d="; dq "M180 330 L600 330 L760 430 L340 430 Z"; " fill="; dq "#284b63"; " stroke="; dq "#86c5da";
         " stroke-width="; dq "3"; "/>"];
    cat ["<path d="; dq "M180 330 L180 490 L340 575 L340 430 Z"; " fill="; dq "#183447"; " stroke="; dq "#86c5da";
         " stroke-width="; dq "3"; "/>"];
    cat ["<path d="; dq "M340 430 L760 430 L760 520 L340 575 Z"; " fill="; dq "#1d3f54"; " stroke="; dq "#86c5da";
         " stroke-width="; dq "3"; "/>"];
    cat ["<path d="; dq "M250 245 L570 245 L695 320 L375 320 Z"; " fill="; dq "#19624a"; " stroke="; dq "#7ee0b0";
         " stroke-width="; dq "3"; "/>"];
    cat ["<text x="; dq "390"; " y="; dq "290"; " fill="; dq "#eef7f1"; " font-family="; dq "sans-serif";
         " font-size="; dq "18"; ">PCB 100 × 70 mm</text>"];
    cat ["<path d="; dq "M150 90 L630 90 L800 190 L320 190 Z"; " fill="; dq "#b9c9d2"; " fill-opacity="; dq "0.72";
         " stroke="; dq "#eef7f1"; " stroke-width="; dq "3"; "/>"];
    cat ["<text x="; dq "350"; " y="; dq "145"; " fill="; dq "#14212a"; " font-family="; dq "sans-serif";
         " font-size="; dq "18"; ">Exploded lid</text>"];
    cat ["<line x1="; dq "700"; " y1="; dq "200"; " x2="; dq "700"; " y2="; dq "310"; " stroke="; dq "#ffcf70";
         " stroke-width="; dq "3"; " stroke-dasharray="; dq "8 8"; "/>"];
    cat ["<text x="; dq "720"; " y="; dq "260"; " fill="; dq "#ffcf70"; " font-family="; dq "sans-serif";
         " font-size="; dq "16"; ">assembly axis</text>"];
    cat ["<text x="; dq "50"; " y="; dq "555"; " fill="; dq "#eef7f1"; " font-family="; dq "sans-serif";
         " font-size="; dq "17"; ">Internal envelope "; fmt_f 1 enclosure_width; " × "; fmt_f 1 enclosure_depth;
         " mm; base wall 2.4 mm; no thermal/IP rating claimed.</text>"];
    "</svg>" ].
Definition generate_svgs (design : json) : M FS () :=
  board ← lift (subscript "board" design);
  width ← lift (v ← float_field "width" board; mret (v ⊗ of_int 8));
  height ← lift (v ← float_field "height" board; mret (v ⊗ of_int 8));
  title ← lift (text_field "title" design);
  revision ← lift (text_field "revision" design);
  components ← lift (entries "components" design);
  drawn ← lift (mapM placement_component components);
  safety_note ← lift (text_field "safety_note" design);
  write (fabrication "board-placement-review.svg")
    (join_lines (placement_head width height title revision ++ concat drawn ++ placement_tail height safety_note) +:+ lf);;
  board_width ← lift (float_field "width" board);
  board_height ← lift (float_field "height" board);
  write (at_root "hardware/enclosure/enclosure-assembly-review.svg")
    (assembly_drawing (board_width ⊕ of_int 8) (board_height ⊕ of_int 8) +:+ lf).

(** ** Validation *)

Definition required_roles : list string :=
  ["relay coil driver"; "flyback"; "RS-485 transient"; "termination"; "decoupling"; "current shunt"].
Definition procurement_fields : list string := ["mpn"; "manufacturer"; "package"; "rating"; "role"].
(** [value.get(key)] *)
Definition dict_lookup (key : string) (value : json) : result (option json) :=
  match value with JObj fields => Ok (jget key fields) | _ => Raise AttributeError end.
Definition is_false (v : option json) : bool := match v with Some (JBool false) => true | _ => false end.
Definition complete (item : json) : result bool :=
  match item with
  | JObj fields =>
      Ok (all (λ field, negb (String.eqb (strip (match jget field fields with Some v => str v | None => "" end)) ""))
            procurement_fields)
  | _ => Raise AttributeError
  end.
Definition metadata_error (item : json) : result (list string) :=
  ok ← complete item;
  ref ← dict_lookup "ref" item;
  mret (if (ok : bool) then []
        else [cat [match ref with Some v => str v | None => "?" end; " has incomplete procurement metadata"]]).
Definition design_errors (design : json) : result (list string) :=
  components ← entries "components" design;
  refs ← mapM (text_field "ref") components;
  roles ← mapM (text_field "role") components;
  incomplete ← mapM metadata_error components;
  approved ← dict_lookup "fabrication_release_approved" design;
  mret ((if bool_decide (NoDup refs) then [] else ["component references must be unique"])
    ++ map (λ role, "missing required role: " +:+ role)
         (List.filter (λ role, negb (occurs role (join " " roles))) required_roles)
    ++ concat incomplete
    ++ (if is_false approved then [] else ["unverified A0 hardware must not be fabrication-approved"])).
Definition status_errors (fs : FS) : result (list string) :=
  if negb (exists_path status_path fs) then Ok ["fabrication status is missing"]
  else
    text ← read_text status_path fs;
    status ← parse_json text;
    approved ← dict_lookup "fabrication_release_approved" status;
    mret (if is_false approved then [] else ["fabrication status incorrectly approves release"]).
(** [row[key]] of a [DictReader] row. *)
Definition row_value (key : string) (header row : list string) : result (option string) :=
  match cell key header row with Some v => Ok v | None => Raise KeyError end.
Definition row_errors (header : list string) (fs : FS) (row : list string) : result (list string) :=
  value ← row_value "file" header row;
  match value with
  | None => Raise TypeError
  | Some file =>
      let model := path_of root file in
      mismatch ← (if negb (is_file resolve fs model) then Ok true
                  else digest ← checksum model fs;
                       recorded ← row_value "sha256" header row;
                       mret (negb (bool_decide (recorded = Some digest))));
      kind ← row_value "kind" header row;
      match kind with
      | None => Raise TypeError
      | Some kind =>
          mret ((if (mismatch : bool) then ["model checksum mismatch: " +:+ file] else [])
                ++ (if occurs "engineering envelope" kind then [] else ["model kind is not explicit: " +:+ file]))
      end
  end.
Definition provenance_errors (fs : FS) : result (list string) :=
  if negb (exists_path provenance_path fs) then Ok ["3D model provenance is missing"]
  else
    text ← read_text provenance_path fs;
    let '(header, rows) := dict_reader text in
    found ← mapM (row_errors header fs) rows;
    mret (concat found).
Definition validate (design : json) (fs : FS) : result (list string) :=
  of_design ← design_errors design;
  of_status ← status_errors fs;
  of_provenance ← provenance_errors fs;
  mret (of_design ++ of_status ++ of_provenance).

(** ** The command *)

Definition generate_all (design : json) : M FS () :=
  generate_bom design;;
  generate_positions design;;
  generate_legacy_schematic design;;
  generate_pcb design;;
  generate_models_and_enclosure design;;
  generate_fabrication_review design;;
  generate_svgs design.
(** The errors the process exits with; none when it succeeds. *)
Definition generate : M FS (list string) :=
  design ← reading load_design;
  generate_all design;;
  reading (validate design).
Definition main (check : bool) : M FS (list string) :=
  design ← reading load_design;
  if check then reading (validate design) else generate.
End Hardware.
