(* ===== verification/HardwareProps.v ===== *)
(** What the hardware generator guarantees: the files it writes pass its own
    validation, the bill of materials accounts for every component, and the
    pads follow the numbered list of nets. *)
From Stdlib Require Permutation.
From S2P Require Import Prelude PyStr Float64 PyFormat Json JsonParse JsonRoundTrip JsonIndent Csv JsonValues Files.
From S2P Require Import Solids Hardware.
Local Open Scope py_scope.

Section Generated.
Context (str_container : json → string) (float_of_str : string → result float).
Context (sha256 : string → string) (decode_error encode_error : string → string).
Context (root : path) (resolve : path → path).
(** The root is an absolute path without links below it. *)
Context (plain : ∀ p, ".." ∉ p → resolve p = p) (root_plain : ".." ∉ root).

Abbreviation write := (write_text encode_error resolve).
Abbreviation append := (append_text encode_error resolve).
Abbreviation holds := Files.holds.
Abbreviation write_row := (write_row encode_error resolve).

(** ** Files *)

Lemma resolve_spot l : ".." ∉ l → resolve (root ++ l) = root ++ l.
Proof. intros H. apply plain. rewrite elem_of_app. by intros [?|?]. Qed.

(** A write somewhere else below the root. *)
Lemma write_apart p l l' value v : p = root ++ l → ".." ∉ l → l ≠ l' → preserves (holds (root ++ l') v) (write p value).
Proof. intros -> Hl Hne. apply write_holds. rewrite resolve_spot by done. by intros E%app_inv_head. Qed.
Lemma at_root_spot t l : startswith "/" t = false → path_parts t = l → at_root root t = root ++ l.
Proof. intros Ht <-. unfold at_root, path_of. by rewrite Ht. Qed.
Lemma fabrication_spot t l :
  startswith "/" t = false → path_parts t = l → fabrication root t = root ++ "hardware" :: "fabrication" :: l.
Proof.
  intros Ht <-. unfold fabrication, path_of. rewrite Ht, (at_root_spot "hardware/fabrication" ["hardware"; "fabrication"]) by done.
  by rewrite <- app_assoc.
Qed.

(** ** What comes after the models *)

Abbreviation fabrication_review := (generate_fabrication_review float_of_str encode_error root resolve).
Abbreviation svgs := (generate_svgs str_container float_of_str encode_error root resolve).

Ltac apart :=
  eapply write_apart;
    [first [apply at_root_spot|apply fabrication_spot]; vm_compute; reflexivity|by apply (bool_decide_unpack _)|congruence].
Ltac solve_holds :=
  repeat match goal with
  | |- preserves _ (_ ≫= _) => apply preserves_bind; [|intros ?]
  | |- preserves _ (lift _) => apply preserves_lift
  | |- preserves _ (mret _) => apply preserves_ret
  | |- preserves _ (for_each _ _) => cbn [for_each layers fst snd]
  | |- preserves _ (write_text _ _ _ _) => apart
  end.

Lemma svgs_hold design d x v :
  d ≠ "fabrication" → d ≠ "enclosure" → preserves (holds (root ++ ["hardware"; d; x]) v) (svgs design).
Proof. intros Hf He. unfold generate_svgs. solve_holds. Qed.
Lemma review_holds design d x v :
  d ≠ "fabrication" → d ≠ "enclosure" → preserves (holds (root ++ ["hardware"; d; x]) v) (fabrication_review design).
Proof. intros Hf He. unfold generate_fabrication_review. solve_holds. Qed.
Lemma svgs_provenance design v : preserves (holds (root ++ ["hardware"; "model-provenance.csv"]) v) (svgs design).
Proof. unfold generate_svgs. solve_holds. Qed.
Lemma review_provenance design v :
  preserves (holds (root ++ ["hardware"; "model-provenance.csv"]) v) (fabrication_review design).
Proof. unfold generate_fabrication_review. solve_holds. Qed.

(** ** Model files and their provenance *)

(** A model whose name is a file name. *)
Definition file_named (model : json) : Prop :=
  ∀ n, text_field str_container "name" model = Ok n → contains_char "/" n = false.
Definition model_file (n : string) : string := n +:+ ".step".
Definition model_spot (n : string) : path := root ++ ["hardware"; "3d-models"; model_file n].

Lemma model_file_plain n : contains_char "/" n = false → contains_char "/" (model_file n) = false.
Proof. unfold model_file. induction n as [|c n IH]; [done|]. cbn [contains_char]. rewrite orb_false_iff. intros [Hc Hn].
  change (String c n +:+ ".step") with (String c (n +:+ ".step")). cbn [contains_char]. by rewrite Hc, IH.
Qed.
Lemma model_file_long n : (5 <= String.length (model_file n))%nat.
Proof. unfold model_file. rewrite length_app_str. simpl. lia. Qed.
Lemma model_file_part n : contains_char "/" n = false → path_parts (model_file n) = [model_file n].
Proof.
  intros Hn. unfold path_parts. rewrite split_on_single by by apply model_file_plain. pose proof (model_file_long n) as Hl.
  cbn [List.filter]. destruct (String.eqb_spec (model_file n) "") as [E|_]; [rewrite E in Hl; simpl in Hl; lia|].
  destruct (String.eqb_spec (model_file n) ".") as [E|_]; [rewrite E in Hl; simpl in Hl; lia|done].
Qed.
Lemma model_path_spot n : contains_char "/" n = false → model_path root n = model_spot n.
Proof.
  intros Hn. unfold model_path, path_of. rewrite (at_root_spot "hardware/3d-models" ["hardware"; "3d-models"]) by done.
  change (n +:+ ".step") with (model_file n). rewrite model_file_part by done.
  assert (startswith "/" (model_file n) = false) as ->; [|unfold model_spot; by rewrite <- app_assoc].
  destruct n as [|c n]; [done|]. cbn [contains_char] in Hn. apply orb_false_iff in Hn as [Hc _].
  apply Ascii.eqb_neq in Hc. unfold model_file, startswith.
  change (String c n +:+ ".step") with (String c (n +:+ ".step")). cbn [String.prefix]. by destruct (ascii_dec "/" c).
Qed.
Lemma model_resolved n : resolve (model_spot n) = model_spot n.
Proof.
  apply resolve_spot. rewrite !elem_of_cons, elem_of_nil. intros [[=]|[[=]|[E|[]]]]. pose proof (model_file_long n) as Hl.
  rewrite <- E in Hl. simpl in Hl. lia.
Qed.
Lemma provenance_spot : provenance_path root = root ++ ["hardware"; "model-provenance.csv"].
Proof. by apply at_root_spot. Qed.
Lemma provenance_resolved : resolve (provenance_path root) = root ++ ["hardware"; "model-provenance.csv"].
Proof. rewrite provenance_spot. apply resolve_spot. by apply (bool_decide_unpack _). Qed.
Lemma model_not_provenance n : resolve (provenance_path root) ≠ model_spot n.
Proof. rewrite provenance_resolved. by intros E%app_inv_head. Qed.

Definition file_text (n : string) : string := join "/" ["hardware"; "3d-models"; model_file n].
Lemma file_text_reads n : contains_char "/" n = false → path_of root (file_text n) = model_spot n.
Proof.
  intros Hn. apply at_root_spot; [done|]. unfold path_parts, file_text.
  change (join "/" ["hardware"; "3d-models"; model_file n])
    with ("hardware" +:+ String "/" ("3d-models" +:+ String "/" (model_file n))).
  rewrite !split_on_app by done. pose proof (model_file_part n Hn) as Hp. unfold path_parts in Hp.
  cbn [List.filter]. cbn. by rewrite Hp.
Qed.

Abbreviation row_of := (provenance_row str_container sha256 root resolve).
Abbreviation errors_of := (row_errors sha256 root resolve provenance_header).
Abbreviation model_row := (λ model, cells ← reading (row_of model); write_row (provenance_path root) cells).

Lemma row_of_ext model fs fs' :
  file_named model → (∀ n, files fs !! model_spot n = files fs' !! model_spot n) → row_of model fs = row_of model fs'.
Proof.
  intros Hm He. unfold provenance_row, mbind, result_bind. destruct (text_field str_container "name" model) as [n|] eqn:Hn; [|done].
  rewrite (model_path_spot n) by by apply Hm. unfold checksum, read_file. by rewrite model_resolved, He.
Qed.

(** What a provenance row says about its model. *)
Definition unclear_kind (model : json) : result (list string) :=
  n ← text_field str_container "name" model;
  kind ← subscript "kind" model;
  mret (if occurs "engineering envelope" (cell_text str_container kind) then []
        else ["model kind is not explicit: " +:+ file_text n]).

Lemma row_checks model fs row :
  file_named model → row_of model fs = Ok row →
  errors_of fs row = unclear_kind model ∧ ∃ a b c, row = a :: b :: c.
Proof.
  intros Hm. unfold provenance_row, unclear_kind, mbind, result_bind.
  destruct (text_field str_container "name" model) as [n|] eqn:Hn; [|done]. pose proof (Hm n Hn) as Hp.
  rewrite (model_path_spot n Hp). unfold relative_text, model_spot. rewrite relative_to_app.
  change (root ++ ["hardware"; "3d-models"; model_file n]) with (model_spot n).
  change (join "/" ["hardware"; "3d-models"; model_file n]) with (file_text n). unfold provenance_fields. cbn [mapM].
  unfold mbind, result_bind, mret, result_ret.
  destruct (subscript "applies_to" model) as [v1|]; [|done]. destruct (subscript "kind" model) as [v2|]; [|done].
  destruct (subscript "source" model) as [v3|]; [|done]. destruct (subscript "source_url" model) as [v4|]; [|done].
  destruct (subscript "license" model) as [v5|]; [|done]. destruct (subscript "retrieved" model) as [v6|]; [|done].
  destruct (checksum sha256 resolve (model_spot n) fs) as [dg|] eqn:Hd; [|done]. intros [= <-]. split; [|eauto].
  unfold row_errors, row_value, mbind, result_bind, mret, result_ret. cbn -[file_text].
  rewrite file_text_reads by done. rewrite Hd. unfold checksum, read_file, mbind, result_bind, mret, result_ret in Hd.
  unfold is_file. destruct (files fs !! resolve (model_spot n)) as [content|]; [|done]. cbn -[file_text].
  by rewrite bool_decide_eq_true_2.
Qed.

Lemma rows_written models fs a fs' c :
  Forall file_named models → strict_utf8 c = true → files fs !! resolve (provenance_path root) = Some c →
  for_each model_row models fs = (Ok a, fs') →
  ∃ rows, Forall2 (λ m row, row_of m fs' = Ok row) models rows
    ∧ files fs' !! resolve (provenance_path root) = Some (c +:+ join_chars (map csv_row rows))
    ∧ strict_utf8 (c +:+ join_chars (map csv_row rows)) = true
    ∧ ∀ n, files fs' !! model_spot n = files fs !! model_spot n.
Proof.
  intros Hm. revert fs c. induction Hm as [|m models Hm Hms IH]; intros fs c Hc Hf H.
  - injection H as _ <-. exists []. change (join_chars (map csv_row [])) with "". by rewrite app_nil_r_str.
  - cbn [for_each] in H. apply bind_ok_inv in H as (u & fs1 & H1 & H2).
    apply bind_ok_inv in H1 as (row & fs0 & Hrow & Ha). injection Hrow as Hrow <-.
    destruct (append_ok _ _ _ _ _ _ _ _ Hf Ha) as [Hs1 Hf1].
    destruct (IH fs1 (c +:+ csv_row row)) as (rows & Hrows & Hf' & Hs' & Hsame); [by apply strict_utf8_app|done|done|].
    assert (Hmodels : ∀ n, files fs' !! model_spot n = files fs !! model_spot n).
    { intros n. rewrite Hsame. exact (append_only _ _ _ _ _ _ _ _ Ha (model_not_provenance n)). }
    exists (row :: rows). change (join_chars (map csv_row (row :: rows))) with (csv_row row +:+ join_chars (map csv_row rows)).
    rewrite <- app_assoc_str. split_and!; try done. constructor; [|done]. rewrite <- Hrow. by apply row_of_ext.
Qed.

(** ** The files the validation reads *)

Ltac unbind H :=
  repeat match type of H with
  | (_ ≫= _) _ = (Ok _, _) => let E := fresh "E" in apply bind_ok_inv in H as (? & ? & E & H)
  end.
Ltac unlift := repeat match goal with E : lift _ _ = (Ok _, _) |- _ => injection E as E ? end; subst.

Definition provenance_text (rows : list (list string)) : string :=
  join_chars (map csv_row (provenance_header :: rows)).

Lemma provenance_written models fs a fs' :
  Forall file_named models → write_provenance str_container sha256 encode_error root resolve models fs = (Ok a, fs') →
  ∃ rows, Forall2 (λ m row, row_of m fs' = Ok row) models rows
    ∧ files fs' !! resolve (provenance_path root) = Some (provenance_text rows)
    ∧ strict_utf8 (provenance_text rows) = true.
Proof.
  intros Hm H. unfold write_provenance in H. unbind H.
  match goal with Eo : open_writing _ _ _ = _, Eh : Hardware.write_row _ _ _ _ _ = _ |- _ =>
    apply open_ok in Eo; destruct (append_ok _ _ _ _ _ _ _ _ Eo Eh) as [Hs Hf] end.
  destruct (rows_written models _ _ _ _ Hm Hs Hf H) as (rows & Hrows & Hf' & Hs' & _). exists rows. by split_and!.
Qed.

Lemma models_written design models fs a fs' :
  entries "engineering_models" design = Ok models → Forall file_named models →
  generate_models_and_enclosure str_container float_of_str sha256 encode_error root resolve design fs = (Ok a, fs') →
  ∃ rows, Forall2 (λ m row, row_of m fs' = Ok row) models rows
    ∧ files fs' !! resolve (provenance_path root) = Some (provenance_text rows)
    ∧ strict_utf8 (provenance_text rows) = true.
Proof.
  intros Hm Hn H. unfold generate_models_and_enclosure in H. cbv zeta in H. unbind H.
  match type of H with write_provenance _ _ _ _ _ ?l _ = _ => assert (l = models) as -> end.
  { match goal with E : lift (entries "engineering_models" design) _ = (Ok ?l, _) |- ?l = _ =>
      injection E as E _; rewrite Hm in E; by injection E end. }
  eapply provenance_written; [done|exact H].
Qed.

Definition status_text (revision : json) : string := dumps_indented 0 (fabrication_status revision) +:+ lf.
Lemma status_spot : status_path root = root ++ ["hardware"; "fabrication"; "fabrication-status.json"].
Proof. by apply at_root_spot. Qed.
Lemma status_resolved : resolve (status_path root) = root ++ ["hardware"; "fabrication"; "fabrication-status.json"].
Proof. rewrite status_spot. apply resolve_spot. by apply (bool_decide_unpack _). Qed.
Lemma status_written design fs a fs' :
  fabrication_review design fs = (Ok a, fs') →
  ∃ revision, subscript "revision" design = Ok revision
    ∧ files fs' !! resolve (status_path root) = Some (status_text revision).
Proof.
  intros H. unfold generate_fabrication_review in H. cbv zeta in H. unbind H.
  match goal with
  | Er : lift (subscript "revision" design) _ = (Ok ?r, _), Es : write_text _ _ (status_path root) _ _ = (Ok _, ?f1),
    E1 : write_text _ _ (fabrication root "erc-report.txt") _ ?f1 = (Ok _, ?f2) |- _ =>
      exists r; injection Er as Er _; split; [exact Er|]; apply write_ok in Es as [_ Es];
      rewrite status_resolved in *;
      assert (K1 : holds (root ++ ["hardware"; "fabrication"; "fabrication-status.json"]) (Some (status_text r)) f2)
  end.
  - match goal with E1 : write_text _ _ (fabrication root "erc-report.txt") ?v ?f1 = (Ok ?u, ?f2) |- holds ?q ?w ?f2 =>
      change f2 with ((Ok u, f2).2); rewrite <- E1; assert (K : preserves (holds q w) (write (fabrication root "erc-report.txt") v));
      [apart|by apply K] end.
  - match goal with K1 : holds ?q ?w ?f1 |- _ =>
      assert (K : preserves (holds q w) (write (fabrication root "drc-report.txt") not_run_report)); [apart|];
      specialize (K f1 K1); rewrite H in K; exact K end.
Qed.
Lemma svgs_status design v :
  preserves (holds (root ++ ["hardware"; "fabrication"; "fabrication-status.json"]) v) (svgs design).
Proof. unfold generate_svgs. solve_holds. Qed.

(** ** Validation of what was generated *)

Lemma status_valid revision fs :
  portable revision = true → files fs !! resolve (status_path root) = Some (status_text revision) →
  status_errors decode_error root resolve fs = Ok [].
Proof.
  intros Hp Hf.
  assert (Hport : portable (fabrication_status revision) = true).
  { change (portable (fabrication_status revision)) with (portable revision && true). by rewrite Hp. }
  assert (Ha : ascii_text (status_text revision) = true).
  { unfold status_text. by rewrite ascii_text_app, indented_ascii. }
  unfold status_errors, exists_path, read_text. rewrite (is_file_holds _ _ _ _ Hf), (read_file_holds _ _ _ _ Hf). cbn [orb negb].
  unfold mbind, result_bind. rewrite ascii_strict by done.
  unfold parse_json. rewrite universal_plain by by apply ascii_no_cr. unfold status_text.
  change lf with newline. rewrite (loads_indented _ Hport). reflexivity.
Qed.

Lemma provenance_valid models rows fs :
  Forall file_named models → Forall2 (λ m row, row_of m fs = Ok row) models rows →
  files fs !! resolve (provenance_path root) = Some (provenance_text rows) →
  strict_utf8 (provenance_text rows) = true → contains_char (ascii_of_N 13) (provenance_text rows) = false →
  provenance_errors sha256 decode_error root resolve fs = (kinds ← mapM unclear_kind models; mret (concat kinds)).
Proof.
  intros Hm Hrows Hf Hs Hcr. unfold provenance_errors, exists_path, read_text.
  rewrite (is_file_holds _ _ _ _ Hf), (read_file_holds _ _ _ _ Hf). cbn [orb negb]. unfold mbind, result_bind. rewrite Hs.
  rewrite universal_plain by done.
  assert (Hlong : Forall (λ r, (2 ≤ length r)%nat) (provenance_header :: rows) ∧ mapM (errors_of fs) rows = mapM unclear_kind models).
  { clear Hf Hs Hcr. revert Hm. induction Hrows as [|m row ms rs Hrow _ IH]; intros Hm; [by repeat constructor|].
    apply Forall_cons in Hm as [Hm Hms]. destruct (row_checks _ _ _ Hm Hrow) as (E & a & b & c & ->).
    destruct (IH Hms) as [Hl E']. inversion Hl as [|? ? ? Hl']; subst.
    split; [constructor; [simpl; lia|constructor; [simpl; lia|exact Hl']]|].
    cbn [mapM]. by rewrite E, E'. }
  destruct Hlong as [Hlong E]. unfold dict_reader, provenance_text. rewrite csv_rows_read by done.
  unfold mbind, result_bind in E. rewrite filter_all, E; [done|]. intros r Hr. apply Forall_cons in Hlong as [_ Hl].
  pose proof (proj1 (Forall_forall _ _) Hl r Hr) as K. by destruct r; [simpl in K; lia|].
Qed.

(** C35: whatever was on the disk, the files the generator writes pass its own
    validation: after a complete generation the only errors left are those of
    the design and of models whose kind is not an engineering envelope; the
    fabrication status is there and approves nothing, and every checksum of the
    provenance table is that of the file it names.  (Model names are file
    names, there are no links below the root, and no cell of the table holds a
    carriage return, which the reader would take for a line feed.) *)
Theorem generated_files_valid design models fs a fs' :
  entries "engineering_models" design = Ok models → Forall file_named models →
  (∀ revision, subscript "revision" design = Ok revision → portable revision = true) →
  generate_all str_container float_of_str sha256 encode_error root resolve design fs = (Ok a, fs') →
  (∀ table, files fs' !! resolve (provenance_path root) = Some table → contains_char (ascii_of_N 13) table = false) →
  validate str_container sha256 decode_error root resolve design fs'
  = (of_design ← design_errors str_container design; kinds ← mapM unclear_kind models; mret (of_design ++ concat kinds)).
Proof.
  intros Hm Hn Hrev H Hcr. unfold generate_all in H. unbind H.
  match goal with
  | Em : generate_models_and_enclosure _ _ _ _ _ _ _ _ = (Ok _, ?f1), Er : generate_fabrication_review _ _ _ _ _ ?f1 = (Ok _, ?f2) |- _ =>
      destruct (models_written _ _ _ _ _ Hm Hn Em) as (rows & Hrows & Htable & Hs);
      destruct (status_written _ _ _ _ Er) as (revision & Hr & Hstatus);
      pose proof (λ d x v Hd He, review_holds design d x v Hd He f1) as K1;
      pose proof (λ v, review_provenance design v f1) as K2; rewrite Er in K1, K2
  end.
  match type of H with _ ?f2 = _ =>
    pose proof (λ d x v Hd He, svgs_hold design d x v Hd He f2) as L1;
    pose proof (λ v, svgs_provenance design v f2) as L2; pose proof (λ v, svgs_status design v f2) as L3
  end.
  rewrite H in L1, L2, L3. rewrite provenance_resolved in *. rewrite status_resolved in Hstatus. apply L3 in Hstatus.
  apply K2, L2 in Htable. unfold holds in *. cbn [snd] in *.
  assert (Hrows' : Forall2 (λ m row, row_of m fs' = Ok row) models rows).
  { clear - plain root_plain Hrows Hn K1 L1. revert Hn. induction Hrows as [|m row ms rs Hrow _ IH]; intros Hn; [constructor|].
    apply Forall_cons in Hn as [Hm Hms]. constructor; [|by apply IH]. rewrite <- Hrow. apply row_of_ext; [done|].
    intros n. unfold model_spot. by apply L1, K1. }
  unfold validate. unfold mbind, result_bind. destruct (design_errors str_container design) as [errors|e]; [|done].
  rewrite (status_valid revision fs') by (by rewrite ?status_resolved; auto).
  rewrite (provenance_valid models rows fs') by (by rewrite ?provenance_resolved; auto).
  unfold mbind, result_bind. by destruct (mapM unclear_kind models).
Qed.
End Generated.

(** ** Bill of materials *)

(** The references of the components with a key, in the order of the design. *)
Definition refs_of (key : list string) (cs : list (list string * string)) : list string :=
  map snd (List.filter (λ e, bool_decide (e.1 = key)) cs).
Definition group_all (cs : list (list string * string)) : Groups := fold_left (λ g e, group_add e.1 e.2 g) cs [].
Definition found (key : list string) (g : Groups) : list string :=
  match List.find (λ e, bool_decide (e.1 = key)) g with Some e => e.2 | None => [] end.

Lemma found_add key k ref g : found key (group_add k ref g) = found key g ++ (if bool_decide (k = key) then [ref] else []).
Proof.
  induction g as [|[k' refs] g IH]; unfold found in *; simpl; [by destruct (bool_decide (k = key))|].
  destruct (bool_decide_reflect (k' = k)) as [->|Hne]; simpl.
  - destruct (bool_decide (k = key)); [done|by rewrite app_nil_r].
  - destruct (bool_decide_reflect (k' = key)) as [->|_]; [|done]. rewrite bool_decide_eq_false_2 by congruence. by rewrite app_nil_r.
Qed.
Lemma keys_add k ref g :
  map fst (group_add k ref g) = if bool_decide (k ∈ map fst g) then map fst g else map fst g ++ [k].
Proof.
  induction g as [|[k' refs] g IH]; simpl; [done|]. destruct (bool_decide_reflect (k' = k)) as [->|Hne]; simpl.
  - rewrite bool_decide_eq_true_2; [done|by left].
  - rewrite IH. destruct (bool_decide_reflect (k ∈ map fst g)) as [Hin|Hn].
    + by rewrite bool_decide_eq_true_2 by by right.
    + rewrite bool_decide_eq_false_2; [done|]. rewrite elem_of_cons. intros [->|?]; [by apply Hne|done].
Qed.
Lemma refs_add k ref g : concat (map snd (group_add k ref g)) ≡ₚ concat (map snd g) ++ [ref].
Proof.
  induction g as [|[k' refs] g IH]; simpl; [done|]. destruct (bool_decide (k' = k)); simpl.
  - rewrite <- !app_assoc. f_equiv. apply Permutation_app_comm.
  - by rewrite IH, app_assoc.
Qed.

Lemma group_all_snoc cs e : group_all (cs ++ [e]) = group_add e.1 e.2 (group_all cs).
Proof. unfold group_all. by rewrite fold_left_app. Qed.
Lemma refs_of_snoc key cs e : refs_of key (cs ++ [e]) = refs_of key cs ++ (if bool_decide (e.1 = key) then [e.2] else []).
Proof. unfold refs_of. rewrite List.filter_app, map_app. simpl. by destruct (bool_decide (e.1 = key)). Qed.
Lemma groups_spec cs :
  NoDup (map fst (group_all cs)) ∧ concat (map snd (group_all cs)) ≡ₚ map snd cs
  ∧ (∀ key, found key (group_all cs) = refs_of key cs) ∧ ∀ key, key ∈ map fst (group_all cs) → refs_of key cs ≠ [].
Proof.
  induction cs as [|e cs (Hn & Hp & Hf & Hk)] using rev_ind; [repeat split; try constructor; by intros key ?%elem_of_nil|].
  rewrite group_all_snoc. split_and!.
  - rewrite keys_add. case_bool_decide as Hin; [done|]. apply NoDup_app. split; [done|].
    split; [|apply NoDup_singleton]. intros x Hx ->%list_elem_of_singleton. done.
  - by rewrite refs_add, Hp, map_app.
  - intros key. by rewrite found_add, refs_of_snoc, Hf.
  - intros key. rewrite keys_add, refs_of_snoc. case_bool_decide as Hin; [intros H E; apply app_nil in E as [E _]; by apply (Hk key)|].
    intros [H| ->%list_elem_of_singleton]%elem_of_app E; apply app_nil in E as [E1 E2]; [by apply (Hk key)|].
    by rewrite bool_decide_eq_true_2 in E2.
Qed.
Lemma found_elem key refs g : NoDup (map fst g) → (key, refs) ∈ g → found key g = refs.
Proof.
  unfold found. induction g as [|[k r] g IH]; [by intros _ ?%elem_of_nil|]. simpl. intros [Hk Hn]%NoDup_cons [[= -> ->]|Hin]%elem_of_cons.
  - by rewrite bool_decide_eq_true_2.
  - rewrite bool_decide_eq_false_2; [by apply IH|]. intros ->. apply Hk. apply list_elem_of_fmap. by exists (key, refs).
Qed.

Section Bom.
Context (str_container : json → string) (encode_error : string → string) (root : path) (resolve : path → path).

(** The procurement fields and the reference of a component. *)
Definition bom_entry (component : json) : result (list string * string) :=
  key ← mapM (λ field, text_field str_container field component) bom_fields;
  ref ← text_field str_container "ref" component;
  mret (key, ref).
Lemma group_components_ok components g0 g :
  group_components str_container components g0 = Ok g →
  ∃ cs, mapM bom_entry components = Ok cs ∧ g = fold_left (λ g e, group_add e.1 e.2 g) cs g0.
Proof.
  revert g0. induction components as [|c components IH]; intros g0; cbn [group_components]; [intros [= ->]; by exists []|].
  intros H. assert (Hc : ∃ e, bom_entry c = Ok e ∧ group_components str_container components (group_add e.1 e.2 g0) = Ok g).
  { revert H. unfold bom_entry, mbind, result_bind. destruct (mapM _ bom_fields) as [key|]; [|done].
    destruct (text_field str_container "ref" c) as [ref|]; [|done]. intros H. by exists (key, ref). }
  destruct Hc as (e & He & Hrest). destruct (IH _ Hrest) as (cs & E & ->). exists (e :: cs). split; [|done].
  apply mapM_forall2. constructor; [done|]. by apply mapM_forall2.
Qed.

Lemma rows_appended {A} (f : A → list string) p l fs a fs' c :
  files fs !! resolve p = Some c → for_each (λ x, write_row encode_error resolve p (f x)) l fs = (Ok a, fs') →
  files fs' !! resolve p = Some (c +:+ join_chars (map csv_row (map f l))).
Proof.
  revert fs c. induction l as [|x l IH]; intros fs c Hc H.
  - injection H as _ <-. change (join_chars (map csv_row (map f []))) with "". by rewrite app_nil_r_str.
  - cbn [for_each] in H. apply bind_ok_inv in H as (u & fs1 & Ha & H).
    destruct (append_ok encode_error resolve _ _ _ _ _ _ Hc Ha) as [_ Hf].
    change (join_chars (map csv_row (map f (x :: l)))) with (csv_row (f x) +:+ join_chars (map csv_row (map f l))).
    rewrite <- app_assoc_str. by eapply IH.
Qed.

(** The bill of materials accounts for the design: the file, read back as
    CSV, is its header and one row per group; no two rows have the same
    procurement fields, every reference of the design is in exactly one row,
    and a row lists (and counts) exactly the components with its fields. *)
Theorem bom_accounts design fs a fs' :
  generate_bom str_container encode_error root resolve design fs = (Ok a, fs') →
  ∃ components cs groups table,
    entries "components" design = Ok components ∧ mapM bom_entry components = Ok cs
    ∧ files fs' !! resolve (at_root root "hardware/bom/bom.csv") = Some table
    ∧ csv_records table = bom_header :: map bom_row groups
    ∧ NoDup (map fst groups) ∧ concat (map snd groups) ≡ₚ map snd cs
    ∧ ∀ key refs, (key, refs) ∈ groups → refs = refs_of key cs ∧ refs ≠ [].
Proof.
  intros H. unfold generate_bom in H. cbv zeta in H.
  apply bind_ok_inv in H as (components & f0 & Ec & H). injection Ec as Ec <-.
  apply bind_ok_inv in H as (g & f1 & Eg & H). injection Eg as Eg <-.
  apply bind_ok_inv in H as (u1 & f2 & _ & H). apply bind_ok_inv in H as (u2 & f3 & Eo & H).
  apply bind_ok_inv in H as (u3 & f4 & Eh & H). apply open_ok in Eo.
  destruct (append_ok encode_error resolve _ _ _ _ _ _ Eo Eh) as [_ Hf].
  pose proof (rows_appended bom_row _ _ _ _ _ _ Hf H) as Ht.
  destruct (group_components_ok _ _ _ Eg) as (cs & Ecs & Eall). change (g = group_all cs) in Eall. subst g.
  destruct (groups_spec cs) as (Hn & Hp & Hfound & Hne).
  assert (Hs : sorted_groups (group_all cs) ≡ₚ group_all cs) by apply py_sorted_perm.
  exists components, cs, (sorted_groups (group_all cs)), (join_chars (map csv_row (bom_header :: map bom_row (sorted_groups (group_all cs))))).
  split_and!; [done|done|exact Ht| |by rewrite Hs|by rewrite Hs|].
  - apply csv_rows_read. constructor; [simpl; lia|]. apply Forall_forall. intros r ([key refs] & -> & _)%list_elem_of_fmap. simpl. lia.
  - intros key refs Hin. rewrite Hs in Hin. pose proof (found_elem _ _ _ Hn Hin) as E. rewrite Hfound in E. split; [done|].
    rewrite <- E. apply Hne. apply list_elem_of_fmap. by exists (key, refs).
Qed.
End Bom.

(** ** Nets *)

Section Nets.
Context (str_container : json → string).

Lemma enumerate_lookup {A} (l : list A) i x : l !! i = Some x → enumerate l !! i = Some (Z.of_nat i, x).
Proof.
  intros H. unfold enumerate. apply lookup_lt_Some in H as Hi.
  apply lookup_zip_Some. split; [|done]. apply lookup_seqZ. lia.
Qed.
Lemma find_numbered l (i0 : Z) name i :
  NoDup l → l !! i = Some name →
  List.find (λ kv, String.eqb kv.1 name) (map (λ kv, (kv.2, kv.1 + 1)) (zip (seqZ i0 (Z.of_nat (length l))) l))
  = Some (name, i0 + Z.of_nat i + 1).
Proof.
  revert i0 i. induction l as [|x l IH]; intros i0 i; [done|]. intros [Hx Hn]%NoDup_cons Hi.
  cbn [length]. rewrite seqZ_cons by lia. cbn [zip zip_with map List.find fst snd].
  replace (Z.pred (Z.of_nat (S (length l)))) with (Z.of_nat (length l)) by lia. destruct i as [|i]; simpl in Hi.
  - injection Hi as ->. rewrite String.eqb_refl. do 2 f_equal. lia.
  - destruct (String.eqb_spec x name) as [->|_]; [exfalso; apply Hx; by eapply list_elem_of_lookup_2|].
    rewrite (IH (Z.succ i0) i) by done. do 2 f_equal. lia.
Qed.
Lemma number_nets_spec nets i name :
  NoDup nets → nets !! i = Some name → net_number (number_nets nets) name = Z.of_nat i + 1.
Proof. intros Hn Hi. unfold net_number, number_nets, enumerate. by rewrite (find_numbered nets 0 name i). Qed.

Lemma ok_bind {A B} (m : result A) (f : A → result B) b : m ≫= f = Ok b → ∃ a, m = Ok a ∧ f a = Ok b.
Proof. destruct m as [a|e]; [by exists a|done]. Qed.

Lemma all_nets_ok design nets components :
  all_nets str_container design = Ok nets → entries "components" design = Ok components →
  ∃ listed used, Forall2 (λ c names, component_nets str_container c = Ok names) components used
    ∧ nets = py_sorted String.ltb (remove_dups (map (str str_container) listed ++ concat used)).
Proof.
  intros H Hc. apply ok_bind in H as (listed & _ & H). apply ok_bind in H as (cs & Ec & H). apply ok_bind in H as (used & Hu & Hn).
  rewrite Hc in Ec. injection Ec as <-.
  injection Hn as <-. exists listed, used. split; [by apply mapM_forall2|done].
Qed.
Lemma component_nets_ok component names :
  component_nets str_container component = Ok names →
  ∃ pins, subscript "pins" component = Ok (JObj pins)
    ∧ ∀ number net, (number, net) ∈ pins → net = JStr "NC" ∨ net = JStr "ALERT_NC" ∨ str str_container net ∈ names.
Proof.
  intros H. apply ok_bind in H as (pins & Hv & H). apply ok_bind in Hv as (v & Ev & Ei). apply ok_bind in H as (nets & Hp & Hn).
  destruct v as [| | | | | |fields]; try done.
  injection Ei as ->. injection Hn as <-. exists pins. split; [done|]. intros number net Hpin. apply mapM_forall2 in Hp.
  destruct (Forall2_elem_l _ _ _ _ Hp Hpin) as (o & Ho & Eo). cbn [snd] in Eo.
  assert (Hlist : ∀ s, o = Some s → s ∈ omap id nets) by (intros s ->; apply list_elem_of_omap; by exists (Some s)).
  destruct net as [|b|z|x|s|l|fields]; try discriminate Eo; injection Eo as <-; auto.
  destruct (String.eqb_spec s "NC") as [->|_]; [by left|]. destruct (String.eqb_spec s "ALERT_NC") as [->|_]; [by right; left|].
  right. right. by apply Hlist.
Qed.

(** The pads follow the net list: the nets of a board are listed once and
    numbered from 1 in their order, so that distinct nets have distinct
    numbers, and every pin of every component is marked as not connected or
    belongs to a listed net. *)
Theorem pads_follow_nets design nets components :
  all_nets str_container design = Ok nets → entries "components" design = Ok components →
  NoDup nets
  ∧ (∀ i name, nets !! i = Some name → net_number (number_nets nets) name = Z.of_nat i + 1)
  ∧ ∀ component, component ∈ components → ∃ pins,
      subscript "pins" component = Ok (JObj pins)
      ∧ ∀ number net, (number, net) ∈ pins →
          net = JStr "NC" ∨ net = JStr "ALERT_NC" ∨ str str_container net ∈ nets.
Proof.
  intros Hall Hc. destruct (all_nets_ok _ _ _ Hall Hc) as (listed & used & Hu & ->).
  assert (Hn : NoDup (py_sorted String.ltb (remove_dups (map (str str_container) listed ++ concat used)))).
  { rewrite py_sorted_perm. apply NoDup_remove_dups. }
  split; [exact Hn|]. split; [intros i name; by apply number_nets_spec|]. intros component Hcomp.
  destruct (Forall2_elem_l _ _ _ _ Hu Hcomp) as (names & Hnames & E).
  destruct (component_nets_ok _ _ E) as (pins & Hp & Hnet). exists pins. split; [done|]. intros number net Hpin.
  destruct (Hnet number net Hpin) as [?|[?|Hin]]; [by left|by right; left|right; right].
  rewrite py_sorted_perm. apply elem_of_remove_dups, elem_of_app. right.
  apply list_elem_of_In, in_concat. exists names. by rewrite <- !list_elem_of_In.
Qed.
End Nets.

(** ** A small design *)

Definition sample_part (ref value package role : string) (pins : list (string * json)) : json := JObj [
  ("ref", JStr ref); ("value", JStr value); ("mpn", JStr "MPN-1"); ("manufacturer", JStr "Acme"); ("package", JStr package);
  ("role", JStr role); ("rating", JStr "5 V"); ("x", JInt 8); ("y", JInt 10); ("rotation", JInt 90);
  ("width", JFloat (lit 102 1)); ("height", JFloat (lit 85 1)); ("pins", JObj pins) ].
Definition sample_model : json := JObj [
  ("name", JStr "ESP32-envelope"); ("dimensions", JArr [JInt 18; JFloat (lit 255 1); JInt 3]); ("applies_to", JStr "U1");
  ("kind", JStr "engineering envelope"); ("source", JStr "project"); ("source_url", JNull); ("license", JStr "CC0");
  ("retrieved", JStr "2026-08-11") ].
Definition sample_design : json := JObj [
  ("title", JStr "Carrier"); ("revision", JStr "A0"); ("author", JStr "A"); ("email", JStr "a@b");
  ("fabrication_release_approved", JBool false); ("safety_note", JStr "NO MAINS");
  ("board", JObj [("width", JInt 100); ("height", JInt 70); ("thickness", JFloat (lit 16 1));
                  ("mounting_holes", JArr [JArr [JInt 4; JInt 4]])]);
  ("nets", JArr [JStr "GND"; JStr "+5V"]); ("engineering_models", JArr [sample_model]);
  ("components", JArr [
    sample_part "J1" "5V INPUT" "TerminalBlock_2P" "relay coil driver, flyback" [("1", JStr "+5V"); ("2", JStr "GND")];
    sample_part "R2" "1k" "0603" "termination" [("1", JStr "RS485_A"); ("2", JStr "NC")];
    sample_part "R1" "1k" "0603" "termination" [("1", JStr "RS485_B")] ]) ].
Definition empty_project : FS := {| files := ∅; dirs := {[ ["hardware"] ]} |}.
Definition sample_digest (content : string) : string := str_of_Z (Z.of_nat (String.length content)).
Definition sample_run : result () * FS :=
  generate_all (λ _, "") (λ _, Raise TypeError) sample_digest id [] id sample_design empty_project.

Lemma generated_files_valid_witness :
  validate (λ _, "") sample_digest id [] id sample_design sample_run.2
  = Ok ["missing required role: RS-485 transient"; "missing required role: decoupling"; "missing required role: current shunt"].
Proof.
  rewrite (generated_files_valid (λ _, "") (λ _, Raise TypeError) sample_digest id id [] id (λ _ _, eq_refl)
    (not_elem_of_nil _) sample_design [sample_model] empty_project () sample_run.2).
  - vm_compute. reflexivity.
  - reflexivity.
  - repeat constructor. intros n [= <-]. reflexivity.
  - intros revision [= <-]. reflexivity.
  - fold sample_run. rewrite (surjective_pairing sample_run) at 1. apply (f_equal2 pair); [vm_compute; reflexivity|reflexivity].
  - intros table Ht.
    transitivity (match files sample_run.2 !! id (provenance_path []) with
                  | Some t => contains_char (ascii_of_N 13) t | None => false end);
      [by rewrite Ht|vm_compute; reflexivity].
Defined.

Definition sample_bom : result () * FS := generate_bom (λ _, "") id [] id sample_design empty_project.
Definition bom_table (fs : FS) : list (list string) :=
  match files fs !! id (at_root [] "hardware/bom/bom.csv") with Some t => map (take 2) (csv_records t) | None => [] end.
Lemma bom_accounts_witness :
  bom_table sample_bom.2 = [["references"; "quantity"]; ["J1"; "1"]; ["R1 R2"; "2"]]
  ∧ ∃ groups, bom_table sample_bom.2 = map (take 2) (bom_header :: map bom_row groups) ∧ NoDup (map fst groups).
Proof.
  split; [vm_compute; reflexivity|].
  destruct (bom_accounts (λ _, "") id [] id sample_design empty_project () sample_bom.2) as
    (_ & _ & groups & table & _ & _ & Ht & Hrows & Hn & _).
  - transitivity (sample_bom.1, sample_bom.2); [apply surjective_pairing|].
    apply (f_equal2 pair); [vm_compute; reflexivity|reflexivity].
  - exists groups. split; [|exact Hn]. unfold bom_table. by rewrite Ht, Hrows.
Defined.

Lemma pads_follow_nets_witness :
  ∃ nets, all_nets (λ _, "") sample_design = Ok nets ∧ nets = ["+5V"; "GND"; "RS485_A"; "RS485_B"]
    ∧ net_number (number_nets nets) "RS485_B" = 4.
Proof.
  exists ["+5V"; "GND"; "RS485_A"; "RS485_B"]. split; [vm_compute; reflexivity|]. split; [reflexivity|].
  destruct (pads_follow_nets (λ _, "") sample_design ["+5V"; "GND"; "RS485_A"; "RS485_B"]
    (match entries "components" sample_design with Ok l => l | Raise _ => [] end)) as (_ & H & _);
    [vm_compute; reflexivity|reflexivity|]. exact (H 3%nat "RS485_B" eq_refl).
Defined.
