(* ===== verification/Modbus.v ===== *)
(** The deterministic Modbus RTU node: [simulator/modbus/protocol.py] and
    [serve_once] of [simulator/modbus/pty_node.py].

    Bytes are integers in [0, 256); [bytes([...])] and [int.to_bytes] raise on
    values out of range, as in Python.  A node is a record and [handle] a
    stateful block on it. *)
From S2P Require Import Prelude.

Abbreviation bytes := (list Z).
Definition is_byte (b : Z) : bool := (0 <=? b) && (b <? 256).
Definition are_bytes (l : bytes) : Prop := Forall (λ b, 0 ≤ b < 256) l.

(** [bytes([...])]. *)
Definition py_bytes (l : list Z) : result bytes :=
  if forallb is_byte l then Ok l else Raise (ValueError "bytes must be in range(0, 256)").

(** [x.to_bytes(2, "little")] and [x.to_bytes(2, "big")]. *)
Definition to_bytes_le (x : Z) : result bytes :=
  if (0 <=? x) && (x <? 2 ^ 16) then Ok [Z.land x 255; Z.shiftr x 8] else Raise OverflowError.
Definition to_bytes_be (x : Z) : result bytes :=
  if (0 <=? x) && (x <? 2 ^ 16) then Ok [Z.shiftr x 8; Z.land x 255] else Raise OverflowError.

(** [int.from_bytes(b, "big")] and [int.from_bytes(b, "little")]. *)
Definition from_bytes_be (b : bytes) : Z := foldl (λ acc x, acc * 256 + x) 0 b.
Definition from_bytes_le (b : bytes) : Z := foldr (λ x acc, x + acc * 256) 0 b.

(** ** CRC-16 *)

(** One turn of the inner loop: [((crc >> 1) ^ 0xA001) if crc & 1 else crc >> 1]. *)
Definition crc_round (crc : Z) : Z :=
  if Z.testbit crc 0 then Z.lxor (Z.shiftr crc 1) 0xA001 else Z.shiftr crc 1.
(** One turn of the outer loop. *)
Definition crc_byte (crc value : Z) : Z := Nat.iter 8 crc_round (Z.lxor crc value).
Definition crc16 (data : bytes) : Z := foldl crc_byte 0xFFFF data.

Definition with_crc (payload : bytes) : result bytes :=
  checksum ← to_bytes_le (crc16 payload);
  mret (payload ++ checksum).

Definition read_request (node_address first quantity : Z) : result bytes :=
  body ← py_bytes [node_address; 0x03; Z.shiftr first 8; Z.land first 0xFF;
                   Z.shiftr quantity 8; Z.land quantity 0xFF];
  with_crc body.

(** ** The node *)

Definition REGISTER_COUNT := 18.

Inductive Scenario := NORMAL | TIMEOUT | BAD_CRC | ILLEGAL_ADDRESS | STALE.
#[export] Instance Scenario_eq_dec : EqDecision Scenario.
Proof. solve_decision. Defined.

Record DeterministicNode := {
  node_address : Z;
  scenario : Scenario;
  temperature_centi_c : Z;
  adc_raw : Z;
  sensor_status : Z;
  fault_flags : Z;
  uptime_ms : Z;
  reset_count : Z;
  crc_error_count : Z;
  exception_count : Z;
  config_generation : Z;
  calibration_offset_centi_c : Z;
  calibration_gain_q15 : Z;
  stale_registers : option (list Z)
}.

(** [DeterministicNode(node_address=a, scenario=s)]: the field defaults. *)
Definition default_node (a : Z) (s : Scenario) : DeterministicNode := {|
  node_address := a; scenario := s; temperature_centi_c := 4250; adc_raw := 2048;
  sensor_status := 0; fault_flags := 0; uptime_ms := 120000; reset_count := 3;
  crc_error_count := 0; exception_count := 0; config_generation := 1;
  calibration_offset_centi_c := 0; calibration_gain_q15 := 32768; stale_registers := None |}.

Definition set_crc_error_count (v : Z) (n : DeterministicNode) : DeterministicNode := {|
  node_address := node_address n; scenario := scenario n;
  temperature_centi_c := temperature_centi_c n; adc_raw := adc_raw n;
  sensor_status := sensor_status n; fault_flags := fault_flags n; uptime_ms := uptime_ms n;
  reset_count := reset_count n; crc_error_count := v; exception_count := exception_count n;
  config_generation := config_generation n;
  calibration_offset_centi_c := calibration_offset_centi_c n;
  calibration_gain_q15 := calibration_gain_q15 n; stale_registers := stale_registers n |}.
Definition set_exception_count (v : Z) (n : DeterministicNode) : DeterministicNode := {|
  node_address := node_address n; scenario := scenario n;
  temperature_centi_c := temperature_centi_c n; adc_raw := adc_raw n;
  sensor_status := sensor_status n; fault_flags := fault_flags n; uptime_ms := uptime_ms n;
  reset_count := reset_count n; crc_error_count := crc_error_count n; exception_count := v;
  config_generation := config_generation n;
  calibration_offset_centi_c := calibration_offset_centi_c n;
  calibration_gain_q15 := calibration_gain_q15 n; stale_registers := stale_registers n |}.
Definition set_stale_registers (v : option (list Z)) (n : DeterministicNode) : DeterministicNode := {|
  node_address := node_address n; scenario := scenario n;
  temperature_centi_c := temperature_centi_c n; adc_raw := adc_raw n;
  sensor_status := sensor_status n; fault_flags := fault_flags n; uptime_ms := uptime_ms n;
  reset_count := reset_count n; crc_error_count := crc_error_count n;
  exception_count := exception_count n; config_generation := config_generation n;
  calibration_offset_centi_c := calibration_offset_centi_c n;
  calibration_gain_q15 := calibration_gain_q15 n; stale_registers := v |}.

(** The list [current] of the method [registers]. *)
Definition current_registers (n : DeterministicNode) : list Z := [
  0x0100;
  0x4949;
  node_address n;
  0x0001;
  sensor_status n;
  fault_flags n;
  Z.land (temperature_centi_c n) 0xFFFF;
  adc_raw n;
  Z.land (Z.shiftr (uptime_ms n) 16) 0xFFFF;
  Z.land (uptime_ms n) 0xFFFF;
  Z.land (Z.shiftr (reset_count n) 16) 0xFFFF;
  Z.land (reset_count n) 0xFFFF;
  Z.land (crc_error_count n) 0xFFFF;
  Z.land (exception_count n) 0xFFFF;
  Z.land (Z.shiftr (config_generation n) 16) 0xFFFF;
  Z.land (config_generation n) 0xFFFF;
  Z.land (calibration_offset_centi_c n) 0xFFFF;
  calibration_gain_q15 n ].

Definition registers : M DeterministicNode (list Z) :=
  current ← get current_registers;
  s ← get scenario;
  if decide (s = STALE) then
    frozen ← get stale_registers;
    match frozen with
    | None => modify (set_stale_registers (Some current));; mret current
    | Some old => mret old
    end
  else modify (set_stale_registers None);; mret current.

Definition node_exception (function code : Z) : M DeterministicNode bytes :=
  modify (λ n, set_exception_count (exception_count n + 1) n);;
  a ← get node_address;
  lift (body ← py_bytes [a; Z.lor function 0x80; code]; with_crc body).

(** [len(frame) != 8 or crc16(frame[:-2]) != int.from_bytes(frame[-2:], "little")]
    is the negation of this test. *)
Definition frame_ok (frame : bytes) : bool :=
  (Z.of_nat (length frame) =? 8)
  && (crc16 (take (length frame - 2) frame) =? from_bytes_le (drop (length frame - 2) frame)).

(** The branch [function == 0x03]. *)
Definition read_registers (frame : bytes) (function : Z) : M DeterministicNode bytes :=
  let first := from_bytes_be (take 2 (drop 2 frame)) in
  let quantity := from_bytes_be (take 2 (drop 4 frame)) in
  if (quantity <? 1) || (REGISTER_COUNT <? quantity) then node_exception function 0x03
  else if (REGISTER_COUNT <=? first) || (REGISTER_COUNT <? first + quantity)
  then node_exception function 0x02
  else
    regs ← registers;
    let values := take (Z.to_nat quantity) (drop (Z.to_nat first) regs) in
    a ← get node_address;
    lift (chunks ← mapM to_bytes_be values;
          let data := concat chunks in
          head ← py_bytes [a; function; Z.of_nat (length data)];
          with_crc (head ++ data)).

(** [response[:-1] + bytes([response[-1] ^ 0x01])]. *)
Definition corrupt_last (response : bytes) : bytes :=
  match last response with
  | Some b => take (length response - 1) response ++ [Z.lxor b 0x01]
  | None => response
  end.

Definition respond (s : Scenario) (frame : bytes) : M DeterministicNode bytes :=
  let function := frame !!! 1%nat in
  if decide (s = ILLEGAL_ADDRESS) then node_exception function 0x02
  else if function =? 0x03 then read_registers frame function
  else node_exception function 0x01.

Definition handle (frame : bytes) : M DeterministicNode (option bytes) :=
  s ← get scenario;
  if decide (s = TIMEOUT) then mret None
  else if negb (frame_ok frame) then
    modify (λ n, set_crc_error_count (crc_error_count n + 1) n);; mret None
  else
    a ← get node_address;
    if negb (frame !!! 0%nat =? a) then mret None
    else
      response ← respond s frame;
      if decide (s = BAD_CRC) then mret (Some (corrupt_last response))
      else mret (Some response).

(** [serve_once]: [readable] is what [select] and [os.read] deliver; the second
    component of the value is what is written back to the line. *)
Definition serve_once (readable : option bytes) : M DeterministicNode (bool * option bytes) :=
  match readable with
  | None => mret (false, None)
  | Some request => response ← handle request; mret (true, response)
  end.

Example golden_request : read_request 1 0 8 = Ok [1; 3; 0; 0; 0; 8; 68; 12].
Proof. vm_compute. done. Qed.
Example golden_response :
  (handle [1; 3; 0; 0; 0; 8; 68; 12] (default_node 1 NORMAL)).1 =
  Ok (Some [1; 3; 16; 1; 0; 73; 73; 0; 1; 0; 1; 0; 0; 0; 0; 16; 154; 8; 0; 164; 10]).
Proof. vm_compute. done. Qed.

(** ** The CRC as a 16-bit linear register *)

Definition word16 (x : Z) : Prop := 0 ≤ x < 2 ^ 16.

Lemma lt_pow2_testbit x n : 0 ≤ x → 0 ≤ n →
  (x < 2 ^ n ↔ ∀ i, n ≤ i → Z.testbit x i = false).
Proof.
  intros Hx Hn. split.
  - intros Hlt i Hi. destruct (decide (x = 0)) as [->|Hnz]; [apply Z.bits_0|].
    apply Z.bits_above_log2; [lia|].
    apply Z.lt_le_trans with n; [|lia]. apply Z.log2_lt_pow2; lia.
  - intros Hbits. destruct (decide (x = 0)) as [->|Hnz].
    { apply Z.pow_pos_nonneg; lia. }
    apply Z.log2_lt_pow2; [lia|]. destruct (Z.lt_ge_cases (Z.log2 x) n) as [|Hge]; [done|].
    specialize (Hbits _ Hge). rewrite Z.bit_log2 in Hbits by lia. done.
Qed.

Lemma word16_lxor x y : word16 x → word16 y → word16 (Z.lxor x y).
Proof.
  intros [Hx1 Hx2] [Hy1 Hy2].
  assert (0 ≤ Z.lxor x y) by (apply Z.lxor_nonneg; lia).
  split; [done|]. apply lt_pow2_testbit; [done|lia|]. intros i Hi.
  rewrite Z.lxor_spec.
  rewrite (proj1 (lt_pow2_testbit x 16 Hx1 ltac:(lia)) Hx2 i Hi).
  by rewrite (proj1 (lt_pow2_testbit y 16 Hy1 ltac:(lia)) Hy2 i Hi).
Qed.

Lemma shiftr1_half x : 0 ≤ x < 2 ^ 16 → 0 ≤ Z.shiftr x 1 < 2 ^ 15.
Proof. intros. rewrite Z.shiftr_div_pow2 by lia. change (2 ^ 1) with 2. zdiv. Qed.

Lemma byte_word16 b : 0 ≤ b < 256 → word16 b.
Proof. unfold word16. lia. Qed.

Lemma crc_round_word16 c : word16 c → word16 (crc_round c).
Proof.
  intros Hc. pose proof (shiftr1_half c Hc). unfold crc_round.
  destruct (Z.testbit c 0); [apply word16_lxor|]; unfold word16; lia.
Qed.

(** The top bit of the next state is the bit shifted out: the polynomial
    [0xA001] has bit 15 set and the shifted register has it clear. *)
Lemma crc_round_top c : word16 c → Z.testbit (crc_round c) 15 = Z.testbit c 0.
Proof.
  intros Hc. pose proof (shiftr1_half c Hc) as Hs.
  assert (Ht : Z.testbit (Z.shiftr c 1) 15 = false).
  { apply (proj1 (lt_pow2_testbit (Z.shiftr c 1) 15 ltac:(lia) ltac:(lia))); lia. }
  unfold crc_round. destruct (Z.testbit c 0) eqn:E; [|done].
  by rewrite Z.lxor_spec, Ht.
Qed.

Lemma lxor_cancel_r x y k : Z.lxor x k = Z.lxor y k → x = y.
Proof.
  intros H. apply (f_equal (λ z, Z.lxor z k)) in H.
  by rewrite !Z.lxor_assoc, !Z.lxor_nilpotent, !Z.lxor_0_r in H.
Qed.

Lemma shiftr1_testbit0 x : 0 ≤ x → x = 2 * Z.shiftr x 1 + Z.b2z (Z.testbit x 0).
Proof.
  intros Hx. rewrite Z.shiftr_div_pow2 by lia. change (2 ^ 1) with 2.
  rewrite Z.bit0_odd. pose proof (Zmod_odd x) as Hm. unfold Z.b2z.
  rewrite <- Hm. apply Z.div_mod. lia.
Qed.

Lemma crc_round_inj c d : word16 c → word16 d → crc_round c = crc_round d → c = d.
Proof.
  intros Hc Hd Heq.
  assert (Hb : Z.testbit c 0 = Z.testbit d 0).
  { rewrite <- (crc_round_top c), <- (crc_round_top d) by done. by rewrite Heq. }
  assert (Hs : Z.shiftr c 1 = Z.shiftr d 1).
  { unfold crc_round in Heq. rewrite Hb in Heq.
    destruct (Z.testbit d 0); [by apply lxor_cancel_r in Heq|done]. }
  unfold word16 in *.
  rewrite (shiftr1_testbit0 c), (shiftr1_testbit0 d) by lia. by rewrite Hb, Hs.
Qed.

Lemma crc_iter_word16 n c : word16 c → word16 (Nat.iter n crc_round c).
Proof. intros Hc. induction n as [|n IH]; simpl; [done|]. by apply crc_round_word16. Qed.

Lemma crc_iter_inj n c d :
  word16 c → word16 d → Nat.iter n crc_round c = Nat.iter n crc_round d → c = d.
Proof.
  intros Hc Hd. induction n as [|n IH]; simpl; [done|].
  intros Heq. apply IH. apply crc_round_inj; auto using crc_iter_word16.
Qed.

Lemma crc_byte_word16 c v : word16 c → 0 ≤ v < 256 → word16 (crc_byte c v).
Proof. intros. apply crc_iter_word16, word16_lxor; auto using byte_word16. Qed.

Lemma crc_byte_inj_state c d v :
  word16 c → word16 d → 0 ≤ v < 256 → crc_byte c v = crc_byte d v → c = d.
Proof.
  intros Hc Hd Hv Heq. apply crc_iter_inj in Heq; auto using word16_lxor, byte_word16.
  by apply lxor_cancel_r in Heq.
Qed.

Lemma crc_byte_inj_value c v w :
  word16 c → 0 ≤ v < 256 → 0 ≤ w < 256 → crc_byte c v = crc_byte c w → v = w.
Proof.
  intros Hc Hv Hw Heq. apply crc_iter_inj in Heq; auto using word16_lxor, byte_word16.
  rewrite !(Z.lxor_comm c) in Heq. by apply lxor_cancel_r in Heq.
Qed.

(** Rounds on a register whose low bits are clear only shift. *)
Lemma crc_iter_shift (n : nat) x : 0 ≤ x → Nat.iter n crc_round (x * 2 ^ Z.of_nat n) = x.
Proof.
  revert x. induction n as [|n IH]; intros x Hx; [by rewrite Z.mul_1_r|].
  rewrite Nat2Z.inj_succ, Z.pow_succ_r by lia.
  replace (x * (2 * 2 ^ Z.of_nat n)) with ((2 * x) * 2 ^ Z.of_nat n) by ring.
  change (Nat.iter (S n) crc_round ?z) with (crc_round (Nat.iter n crc_round z)).
  rewrite IH by lia. unfold crc_round. rewrite Z.testbit_even_0.
  rewrite Z.shiftr_div_pow2 by lia. change (2 ^ 1) with 2.
  rewrite Z.mul_comm. by apply Z.div_mul.
Qed.

Lemma lxor_low_byte c : word16 c → Z.lxor c (Z.land c 255) = Z.shiftr c 8 * 2 ^ Z.of_nat 8.
Proof.
  intros Hc. change (Z.of_nat 8) with 8. rewrite <- Z.shiftl_mul_pow2 by lia.
  apply Z.bits_inj'. intros i Hi.
  rewrite Z.lxor_spec, Z.land_spec. change 255 with (Z.ones 8).
  destruct (Z.lt_ge_cases i 8).
  - rewrite Z.ones_spec_low, Z.shiftl_spec_low by lia.
    by rewrite andb_true_r, xorb_nilpotent.
  - rewrite Z.ones_spec_high, Z.shiftl_spec_high by lia.
    rewrite Z.shiftr_spec by lia. rewrite andb_false_r, xorb_false_r. f_equal. lia.
Qed.

Lemma shiftr8_byte c : word16 c → 0 ≤ Z.shiftr c 8 < 256.
Proof. unfold word16. intros. rewrite Z.shiftr_div_pow2 by lia. change (2 ^ 8) with 256. zdiv. Qed.
Lemma land255_byte c : 0 ≤ Z.land c 255 < 256.
Proof.
  change 255 with (Z.ones 8). rewrite Z.land_ones by lia.
  change (2 ^ 8) with 256. zdiv.
Qed.

(** Feeding the low then the high byte of the register clears it. *)
Lemma crc_self_clears c :
  word16 c → crc_byte (crc_byte c (Z.land c 255)) (Z.shiftr c 8) = 0.
Proof.
  intros Hc. unfold crc_byte. rewrite lxor_low_byte by done.
  rewrite (crc_iter_shift 8) by (pose proof (shiftr8_byte c Hc); lia).
  by rewrite Z.lxor_nilpotent.
Qed.

Lemma crc_fold_word16 l c : word16 c → are_bytes l → word16 (foldl crc_byte c l).
Proof.
  intros Hc Hl. revert c Hc. induction Hl as [|b l Hb Hl IH]; intros c Hc; simpl; [done|].
  apply IH. by apply crc_byte_word16.
Qed.

Lemma crc_fold_inj l c d :
  word16 c → word16 d → are_bytes l → foldl crc_byte c l = foldl crc_byte d l → c = d.
Proof.
  intros Hc Hd Hl. revert c d Hc Hd.
  induction Hl as [|b l Hb Hl IH]; intros c d Hc Hd; simpl; [done|].
  intros Heq. apply IH in Heq; auto using crc_byte_word16.
  by eapply crc_byte_inj_state.
Qed.

Lemma crc16_word16 l : are_bytes l → word16 (crc16 l).
Proof. intros. apply crc_fold_word16; [unfold word16; lia|done]. Qed.

Lemma crc16_app l k : crc16 (l ++ k) = foldl crc_byte (crc16 l) k.
Proof. apply foldl_app. Qed.

(** ** Acceptance of frames *)

Lemma byte_pair c lo hi :
  word16 c → 0 ≤ lo < 256 → 0 ≤ hi < 256 →
  c = lo + hi * 256 → lo = Z.land c 255 ∧ hi = Z.shiftr c 8.
Proof.
  intros Hc Hlo Hhi ->. change 255 with (Z.ones 8).
  rewrite Z.land_ones, Z.shiftr_div_pow2 by lia. change (2 ^ 8) with 256. split; zdiv.
Qed.

(** The two CRC bytes match exactly when the CRC of the whole frame is zero. *)
Lemma crc_check_residue p lo hi :
  are_bytes p → 0 ≤ lo < 256 → 0 ≤ hi < 256 →
  crc16 p = lo + hi * 256 ↔ crc16 (p ++ [lo; hi]) = 0.
Proof.
  intros Hp Hlo Hhi. pose proof (crc16_word16 p Hp) as Hc.
  rewrite crc16_app. simpl. split.
  - intros Heq. destruct (byte_pair _ lo hi Hc Hlo Hhi Heq) as [-> ->].
    by apply crc_self_clears.
  - intros H0. set (d := lo + hi * 256).
    assert (Hd : word16 d) by (unfold word16, d; lia).
    destruct (byte_pair d lo hi Hd Hlo Hhi eq_refl) as [El Eh].
    pose proof (crc_self_clears d Hd) as Hself. rewrite <- El, <- Eh in Hself.
    rewrite <- H0 in Hself.
    apply crc_byte_inj_state in Hself; auto using crc_byte_word16.
    apply crc_byte_inj_state in Hself; auto.
Qed.

Lemma to_bytes_le_word c : word16 c → to_bytes_le c = Ok [Z.land c 255; Z.shiftr c 8].
Proof. intros [? ?]. unfold to_bytes_le. by rewrite (proj2 (Z.leb_le 0 c)), (proj2 (Z.ltb_lt _ _)). Qed.
Lemma to_bytes_be_word c : word16 c → to_bytes_be c = Ok [Z.shiftr c 8; Z.land c 255].
Proof. intros [? ?]. unfold to_bytes_be. by rewrite (proj2 (Z.leb_le 0 c)), (proj2 (Z.ltb_lt _ _)). Qed.

Lemma py_bytes_ok l : are_bytes l → py_bytes l = Ok l.
Proof.
  intros Hl. unfold py_bytes. replace (forallb is_byte l) with true; [done|].
  symmetry. apply forallb_elem. intros b Hb. unfold are_bytes in Hl. rewrite Forall_forall in Hl.
  specialize (Hl b Hb). unfold is_byte. apply andb_true_iff. lia.
Qed.

(** The frame built from a payload. *)
Definition framed (p : bytes) : bytes := p ++ [Z.land (crc16 p) 255; Z.shiftr (crc16 p) 8].

Lemma with_crc_framed p : are_bytes p → with_crc p = Ok (framed p).
Proof. intros Hp. unfold with_crc. by rewrite to_bytes_le_word by (by apply crc16_word16). Qed.

Lemma framed_bytes p : are_bytes p → are_bytes (framed p).
Proof.
  intros Hp. pose proof (crc16_word16 p Hp). apply Forall_app_2; [done|].
  repeat constructor; try apply land255_byte; by apply shiftr8_byte.
Qed.

(** Appending the CRC leaves residue zero: the check the master applies to a
    response and the node to a request succeeds on every framed payload. *)
Lemma framed_residue p : are_bytes p → crc16 (framed p) = 0.
Proof.
  intros Hp. unfold framed. rewrite crc16_app. by apply crc_self_clears, crc16_word16.
Qed.

Lemma frame_ok_residue frame :
  are_bytes frame → frame_ok frame = true ↔ length frame = 8%nat ∧ crc16 frame = 0.
Proof.
  intros Hb. unfold frame_ok. rewrite andb_true_iff, !Z.eqb_eq.
  split; intros [Hlen Hcrc]; (split; [lia|]).
  all: assert (Hl : length frame = 8%nat) by lia; rewrite Hl in *; simpl Nat.sub in *.
  all: destruct frame as [|a0 [|a1 [|a2 [|a3 [|a4 [|a5 [|a6 [|a7 [|]]]]]]]]]; try done.
  all: assert (Hp : are_bytes [a0; a1; a2; a3; a4; a5])
    by (apply (Forall_take _ 6%nat) in Hb; exact Hb).
  all: apply (Forall_drop _ 6%nat) in Hb; simpl in Hb; do 2 (apply Forall_cons in Hb as [? Hb]).
  all: pose proof (crc_check_residue [a0; a1; a2; a3; a4; a5] a6 a7) as Hr.
  all: simpl in Hcrc |- *; simpl in Hr; rewrite ?Z.mul_0_l, ?Z.add_0_r in *; apply Hr; auto.
  all: rewrite Hcrc; lia.
Qed.

(** Changing one byte of a sequence changes its CRC. *)
Lemma crc16_single_byte l1 x y l2 :
  are_bytes l1 → 0 ≤ x < 256 → 0 ≤ y < 256 → are_bytes l2 →
  crc16 (l1 ++ x :: l2) = crc16 (l1 ++ y :: l2) → x = y.
Proof.
  intros H1 Hx Hy H2. rewrite !crc16_app. simpl. intros Heq.
  pose proof (crc16_word16 l1 H1). apply crc_fold_inj in Heq; auto using crc_byte_word16.
  by apply crc_byte_inj_value in Heq.
Qed.

(** ** Well-formed nodes *)

Definition node_wf (n : DeterministicNode) : Prop :=
  0 ≤ node_address n < 256 ∧ word16 (sensor_status n) ∧ word16 (fault_flags n) ∧
  word16 (adc_raw n) ∧ word16 (calibration_gain_q15 n) ∧
  match stale_registers n with
  | Some regs => length regs = 18%nat ∧ Forall word16 regs
  | None => True
  end.

Lemma land_ffff_word16 x : word16 (Z.land x 0xFFFF).
Proof.
  change 0xFFFF with (Z.ones 16). rewrite Z.land_ones by lia. unfold word16.
  apply Z.mod_pos_bound. apply Z.pow_pos_nonneg; lia.
Qed.

Lemma current_registers_wf n :
  node_wf n → length (current_registers n) = 18%nat ∧ Forall word16 (current_registers n).
Proof.
  intros (Ha & ? & ? & ? & ? & _). split; [done|].
  repeat (apply List.Forall_cons; [auto using land_ffff_word16; unfold word16; lia|]).
  apply List.Forall_nil.
Qed.

(** What one call of [registers] returns and leaves behind. *)
Definition registers_value (n : DeterministicNode) : list Z :=
  match scenario n, stale_registers n with
  | STALE, Some old => old
  | _, _ => current_registers n
  end.
Definition registers_state (n : DeterministicNode) : DeterministicNode :=
  set_stale_registers (if decide (scenario n = STALE) then Some (registers_value n) else None) n.

Lemma registers_run n : registers n = (Ok (registers_value n), registers_state n).
Proof.
  unfold registers, registers_value, registers_state, mbind, M_bind, get, modify, mret, M_ret.
  destruct n as [? sc ? ? ? ? ? ? ? ? ? ? ? old]; simpl.
  destruct sc; simpl; try done. by destruct old.
Qed.

Lemma registers_value_wf n :
  node_wf n → length (registers_value n) = 18%nat ∧ Forall word16 (registers_value n).
Proof.
  intros Hn. pose proof (current_registers_wf n Hn).
  destruct Hn as (_ & _ & _ & _ & _ & Hs). unfold registers_value.
  destruct (scenario n); try done. by destruct (stale_registers n).
Qed.

Lemma registers_state_wf n : node_wf n → node_wf (registers_state n).
Proof.
  intros Hn. pose proof (registers_value_wf n Hn) as Hr.
  destruct Hn as (? & ? & ? & ? & ? & _). unfold registers_state, node_wf; simpl.
  do 5 (split; [done|]). by destruct (decide (scenario n = STALE)).
Qed.

(** ** The blocks of [handle], run on a well-formed node *)

Lemma node_exception_run n f code :
  node_wf n → 0 ≤ f < 256 → 0 ≤ code < 256 →
  node_exception f code n =
    (Ok (framed [node_address n; Z.lor f 0x80; code]),
     set_exception_count (exception_count n + 1) n).
Proof.
  intros (Ha & _) Hf Hc.
  assert (Hb : are_bytes [node_address n; Z.lor f 0x80; code]).
  { repeat constructor; try lia; [apply Z.lor_nonneg; lia|].
    apply (lt_pow2_testbit _ 8); [apply Z.lor_nonneg; lia|lia|]. intros i Hi.
    rewrite Z.lor_spec, (proj1 (lt_pow2_testbit f 8 ltac:(lia) ltac:(lia)) ltac:(lia) i Hi).
    by rewrite (proj1 (lt_pow2_testbit 0x80 8 ltac:(lia) ltac:(lia)) ltac:(lia) i Hi). }
  unfold node_exception, mbind, M_bind, modify, get, lift, result_bind; simpl.
  by rewrite py_bytes_ok, with_crc_framed.
Qed.

(** The bytes of a list of registers, high byte first. *)
Definition register_bytes (values : list Z) : bytes :=
  concat (map (λ v, [Z.shiftr v 8; Z.land v 255]) values).

Lemma mapM_to_bytes_be values :
  Forall word16 values →
  mapM to_bytes_be values = Ok (map (λ v, [Z.shiftr v 8; Z.land v 255]) values).
Proof.
  induction 1 as [|v vs Hv Hvs IH]; [done|].
  cbn [mapM]. rewrite to_bytes_be_word by done. simpl. by rewrite IH.
Qed.

Lemma register_bytes_wf values : Forall word16 values → are_bytes (register_bytes values).
Proof.
  induction 1 as [|v vs Hv Hvs IH]; simpl; [constructor|].
  repeat (apply List.Forall_cons; [auto using shiftr8_byte, land255_byte|]). done.
Qed.

Lemma length_register_bytes values : length (register_bytes values) = (2 * length values)%nat.
Proof. induction values as [|v vs IH]; [done|]. unfold register_bytes in *. simpl. lia. Qed.

Definition slice (first quantity : Z) (regs : list Z) : list Z :=
  take (Z.to_nat quantity) (drop (Z.to_nat first) regs).

Lemma slice_wf first quantity regs :
  Forall word16 regs → Forall word16 (slice first quantity regs).
Proof. intros. by apply Forall_take, Forall_drop. Qed.

Lemma length_slice first quantity regs :
  0 ≤ first → 0 ≤ quantity → first + quantity ≤ Z.of_nat (length regs) →
  length (slice first quantity regs) = Z.to_nat quantity.
Proof. intros. unfold slice. rewrite length_take, length_drop. lia. Qed.

(** The 16-bit fields of a request. *)
Definition req_first (frame : bytes) : Z := from_bytes_be (take 2 (drop 2 frame)).
Definition req_quantity (frame : bytes) : Z := from_bytes_be (take 2 (drop 4 frame)).
Definition in_map (first quantity : Z) : bool :=
  (1 <=? quantity) && (quantity <=? REGISTER_COUNT)
  && (0 <=? first) && (first + quantity <=? REGISTER_COUNT).

Lemma read_registers_run n frame f :
  node_wf n → 0 ≤ f < 256 → in_map (req_first frame) (req_quantity frame) = true →
  read_registers frame f n =
    (Ok (framed ([node_address n; f; 2 * req_quantity frame]
                 ++ register_bytes (slice (req_first frame) (req_quantity frame) (registers_value n)))),
     registers_state n).
Proof.
  intros Hn Hf Hin. unfold in_map, REGISTER_COUNT in Hin.
  unfold read_registers. fold (req_first frame) (req_quantity frame).
  set (first := req_first frame) in *. set (q := req_quantity frame) in *.
  b2p. unfold REGISTER_COUNT.
  rewrite (proj2 (Z.ltb_ge q 1)), (proj2 (Z.ltb_ge 18 q)),
    (proj2 (Z.leb_gt 18 first)), (proj2 (Z.ltb_ge 18 (first + q))) by lia.
  change (false || false) with false. cbv iota.
  destruct (registers_value_wf n Hn) as [Hlen Hw].
  unfold mbind, M_bind, get. rewrite registers_run. cbv iota beta.
  change (node_address (registers_state n)) with (node_address n).
  fold (slice first q (registers_value n)).
  pose proof (slice_wf first q _ Hw) as Hsw.
  assert (Hls : length (slice first q (registers_value n)) = Z.to_nat q)
    by (apply length_slice; lia).
  set (vs := slice first q (registers_value n)) in *.
  unfold lift. f_equal. rewrite mapM_to_bytes_be by done.
  unfold result_bind. fold (register_bytes vs).
  rewrite length_register_bytes, Hls.
  replace (Z.of_nat (2 * Z.to_nat q)) with (2 * q) by lia.
  destruct Hn as (Ha & _).
  rewrite py_bytes_ok.
  2:{ repeat (apply List.Forall_cons; [lia|]). apply List.Forall_nil. }
  apply with_crc_framed. apply Forall_app_2; [|by apply register_bytes_wf].
  repeat (apply List.Forall_cons; [lia|]). apply List.Forall_nil.
Qed.

(** The exception code the register contract assigns to a request, if any. *)
Definition exception_code (s : Scenario) (frame : bytes) : option Z :=
  if decide (s = ILLEGAL_ADDRESS) then Some 2
  else if negb (frame !!! 1%nat =? 3) then Some 1
  else if (req_quantity frame <? 1) || (18 <? req_quantity frame) then Some 3
  else if (18 <? req_first frame + req_quantity frame) then Some 2
  else None.

Lemma from_bytes_be_2 a b : from_bytes_be [a; b] = a * 256 + b.
Proof. reflexivity. Qed.

Lemma req_fields_nonneg frame :
  are_bytes frame → 0 ≤ req_first frame ∧ 0 ≤ req_quantity frame.
Proof.
  assert (H : ∀ l, are_bytes l → 0 ≤ from_bytes_be l).
  { intros l Hl. unfold from_bytes_be. cut (∀ c, 0 ≤ c → 0 ≤ foldl (λ acc x, acc * 256 + x) c l).
    { intros Hc. by apply Hc. }
    induction Hl as [|b l Hb Hl IH]; intros c Hc; simpl; [done|]. apply IH. lia. }
  intros Hb. split; apply H; by apply Forall_take, Forall_drop.
Qed.

Lemma function_byte frame : are_bytes frame → 0 ≤ frame !!! 1%nat < 256.
Proof.
  intros Hb. rewrite list_lookup_total_alt. destruct (frame !! 1%nat) eqn:E; simpl; [|lia].
  by eapply Forall_lookup_1 in Hb.
Qed.

Definition read_reply (n : DeterministicNode) (frame : bytes) : bytes :=
  framed ([node_address n; 3; 2 * req_quantity frame]
          ++ register_bytes (slice (req_first frame) (req_quantity frame) (registers_value n))).

(** [respond] answers with an exception or with the registers read. *)
Lemma respond_run n frame :
  node_wf n → are_bytes frame →
  respond (scenario n) frame n =
    match exception_code (scenario n) frame with
    | Some c => (Ok (framed [node_address n; Z.lor (frame !!! 1%nat) 0x80; c]),
                 set_exception_count (exception_count n + 1) n)
    | None => (Ok (read_reply n frame), registers_state n)
    end.
Proof.
  intros Hn Hb. pose proof (function_byte frame Hb) as Hf.
  destruct (req_fields_nonneg frame Hb) as [Hfst Hq].
  unfold respond, exception_code. destruct (decide (scenario n = ILLEGAL_ADDRESS)).
  { apply node_exception_run; [done|done|lia]. }
  destruct (frame !!! 1%nat =? 3) eqn:Efun; simpl negb; cbv iota.
  2:{ apply node_exception_run; [done|done|lia]. }
  b2p. rewrite Efun. unfold REGISTER_COUNT.
  destruct ((req_quantity frame <? 1) || (18 <? req_quantity frame)) eqn:Eq.
  { unfold read_registers. fold (req_first frame) (req_quantity frame).
    unfold REGISTER_COUNT. rewrite Eq. apply node_exception_run; [done|lia|lia]. }
  destruct (18 <? req_first frame + req_quantity frame) eqn:Er.
  { unfold read_registers. fold (req_first frame) (req_quantity frame).
    unfold REGISTER_COUNT. rewrite Eq, Er, orb_true_r. apply node_exception_run; [done|lia|lia]. }
  apply read_registers_run; [done|lia|]. unfold in_map, REGISTER_COUNT. b2p.
  rewrite !andb_true_iff, !Z.leb_le. lia.
Qed.

(** Running [handle] on an accepted frame addressed to the node. *)
Lemma handle_accepted n frame :
  scenario n ≠ TIMEOUT → frame_ok frame = true → frame !!! 0%nat = node_address n →
  node_wf n → are_bytes frame →
  ∃ r n', respond (scenario n) frame n = (Ok r, n') ∧
    handle frame n = (Ok (Some (if decide (scenario n = BAD_CRC) then corrupt_last r else r)), n').
Proof.
  intros Hs Hok Ha Hn Hb. pose proof (respond_run n frame Hn Hb) as Hr.
  unfold handle, mbind, M_bind, get. rewrite decide_False, Hok by done. simpl.
  rewrite Ha, Z.eqb_refl. simpl.
  destruct (exception_code (scenario n) frame); rewrite Hr;
    do 2 eexists; (split; [done|]); by destruct (decide (scenario n = BAD_CRC)).
Qed.

Lemma handle_rejected_frame n frame :
  scenario n ≠ TIMEOUT → frame_ok frame = false →
  handle frame n = (Ok None, set_crc_error_count (crc_error_count n + 1) n).
Proof. intros Hs Hok. unfold handle, mbind, M_bind, get. by rewrite decide_False, Hok. Qed.

(** ** The master's view: decoding a read response *)

Fixpoint register_pairs (l : bytes) : list Z :=
  match l with
  | hi :: lo :: rest => (hi * 256 + lo) :: register_pairs rest
  | _ => []
  end.

(** A response is accepted when its CRC residue is zero and its header names
    the polled node, function 3 and twice the requested quantity. *)
Definition decode_read_response (address quantity : Z) (resp : bytes) : option (list Z) :=
  if (crc16 resp =? 0) && bool_decide (take 3 resp = [address; 3; 2 * quantity])
     && (Z.of_nat (length resp) =? 2 * quantity + 5)
  then Some (register_pairs (take (length resp - 5) (drop 3 resp)))
  else None.

Lemma word16_split v : word16 v → Z.shiftr v 8 * 256 + Z.land v 255 = v.
Proof.
  intros [? ?]. change 255 with (Z.ones 8). rewrite Z.land_ones, Z.shiftr_div_pow2 by lia.
  change (2 ^ 8) with 256. zdiv.
Qed.

Lemma register_pairs_bytes values :
  Forall word16 values → register_pairs (register_bytes values) = values.
Proof.
  induction 1 as [|v vs Hv Hvs IH]; [done|].
  unfold register_bytes in *. simpl. by rewrite word16_split, IH.
Qed.

Lemma decode_framed a q values :
  0 ≤ a < 256 → 1 ≤ q ≤ 18 → Forall word16 values → length values = Z.to_nat q →
  decode_read_response a q (framed ([a; 3; 2 * q] ++ register_bytes values)) = Some values.
Proof.
  intros Ha Hq Hv Hl. unfold decode_read_response.
  assert (Hb : are_bytes ([a; 3; 2 * q] ++ register_bytes values)).
  { apply Forall_app_2; [|by apply register_bytes_wf].
    repeat (apply List.Forall_cons; [lia|]). apply List.Forall_nil. }
  rewrite framed_residue by done.
  assert (Hlen : length (framed ([a; 3; 2 * q] ++ register_bytes values)) = (2 * Z.to_nat q + 5)%nat).
  { unfold framed. rewrite !length_app, length_register_bytes, Hl. simpl. lia. }
  rewrite Hlen, bool_decide_eq_true_2 by done.
  rewrite (proj2 (Z.eqb_eq (Z.of_nat _) (2 * q + 5))) by lia.
  change ((0 =? 0) && true && true) with true. cbv iota. f_equal.
  replace (2 * Z.to_nat q + 5 - 5)%nat with (length (register_bytes values))
    by (rewrite length_register_bytes; lia).
  unfold framed. simpl. rewrite drop_0, take_app_length. by apply register_pairs_bytes.
Qed.

(** The six bytes of a read request. *)
Definition request_body (a first quantity : Z) : bytes :=
  [a; 3; Z.shiftr first 8; Z.land first 0xFF; Z.shiftr quantity 8; Z.land quantity 0xFF].

Lemma request_body_wf a first quantity :
  0 ≤ a < 256 → word16 first → word16 quantity → are_bytes (request_body a first quantity).
Proof.
  intros. repeat (apply List.Forall_cons; [auto using shiftr8_byte, land255_byte|]); try lia.
  apply List.Forall_nil.
Qed.

Lemma read_request_run a first quantity :
  0 ≤ a < 256 → word16 first → word16 quantity →
  read_request a first quantity = Ok (framed (request_body a first quantity)).
Proof.
  intros Ha Hf Hq. unfold read_request. fold (request_body a first quantity).
  rewrite py_bytes_ok by (by apply request_body_wf). by apply with_crc_framed, request_body_wf.
Qed.

Lemma request_accepted a first quantity (req := framed (request_body a first quantity)) :
  0 ≤ a < 256 → word16 first → word16 quantity →
  frame_ok req = true ∧ are_bytes req ∧ req !!! 0%nat = a ∧ req !!! 1%nat = 3
  ∧ req_first req = first ∧ req_quantity req = quantity.
Proof.
  intros Ha Hf Hq. pose proof (request_body_wf a first quantity Ha Hf Hq) as Hb.
  assert (are_bytes req) by (by apply framed_bytes).
  split; [apply frame_ok_residue; [done|]; split; [done|by apply framed_residue]|].
  split; [done|]. do 2 (split; [done|]).
  split; (etransitivity; [apply from_bytes_be_2|by apply word16_split]).
Qed.

(** ** Properties *)

Ltac run_handle Hs Hok Ha Hn Hb :=
  destruct (handle_accepted _ _ Hs Hok Ha Hn Hb) as (?r & ?n' & ?Hr & ?Hh);
  rewrite Hh; rewrite respond_run in Hr by done.

(** C5: a master that polls a well-formed node in the normal scenario for
    [quantity] registers from [first] inside the 18-register map gets back, by
    its own decoding of the response (CRC, header, byte count, big-endian
    pairs), exactly those registers of the node. *)
Theorem read_round_trip (n : DeterministicNode) (first quantity : Z)
    (Hn : node_wf n) (Hs : scenario n = NORMAL)
    (Hf : 0 ≤ first) (Hq : 1 ≤ quantity) (Hmap : first + quantity ≤ REGISTER_COUNT) :
  ∃ req resp, read_request (node_address n) first quantity = Ok req
    ∧ (handle req n).1 = Ok (Some resp)
    ∧ decode_read_response (node_address n) quantity resp
      = Some (slice first quantity (current_registers n)).
Proof.
  unfold REGISTER_COUNT in Hmap. assert (Ha : 0 ≤ node_address n < 256) by apply Hn.
  assert (Hwf : word16 first ∧ word16 quantity) by (unfold word16; lia). destruct Hwf as [Hw1 Hw2].
  destruct (request_accepted (node_address n) first quantity) as (Hok & Hb & E0 & E1 & Ef & Eq);
    try done.
  rewrite read_request_run by done. do 2 eexists. split; [done|].
  assert (Hs' : scenario n ≠ TIMEOUT) by (by rewrite Hs).
  run_handle Hs' Hok E0 Hn Hb.
  unfold exception_code in Hr. rewrite Hs, E1, Ef, Eq in Hr. simpl in Hr.
  rewrite (proj2 (Z.ltb_ge quantity 1)), !(proj2 (Z.ltb_ge 18 _)) in Hr by lia.
  simpl in Hr. injection Hr as <- <-. rewrite decide_False by (by rewrite Hs).
  split; [done|]. unfold read_reply. rewrite Ef, Eq.
  destruct (current_registers_wf n Hn) as [Hlen Hw].
  replace (registers_value n) with (current_registers n)
    by (unfold registers_value; by rewrite Hs).
  apply decode_framed; [done|lia|by apply slice_wf|]. apply length_slice; lia.
Qed.

Definition sample_node : DeterministicNode := default_node 1 NORMAL.

Lemma default_node_wf a s : 0 ≤ a < 256 → node_wf (default_node a s).
Proof. intros. unfold node_wf, word16; simpl. lia. Qed.

Lemma read_round_trip_witness :
  ∃ req resp, read_request 1 6 2 = Ok req ∧ (handle req sample_node).1 = Ok (Some resp)
    ∧ decode_read_response 1 2 resp = Some [4250; 2048].
Proof.
  apply (read_round_trip sample_node 6 2); unfold REGISTER_COUNT; try reflexivity; try lia.
  apply default_node_wf. lia.
Defined.

(** C6: every corruption of a single byte of an accepted frame is detected:
    the node stays silent, counts one CRC error and changes nothing else. *)
Theorem single_byte_corruption_rejected (n : DeterministicNode) (l1 l2 : bytes) (x y : Z)
    (Hs : scenario n ≠ TIMEOUT) (Hb : are_bytes (l1 ++ x :: l2)) (Hy : 0 ≤ y < 256)
    (Hxy : x ≠ y) (Hok : frame_ok (l1 ++ x :: l2) = true) :
  handle (l1 ++ y :: l2) n = (Ok None, set_crc_error_count (crc_error_count n + 1) n).
Proof.
  apply handle_rejected_frame; [done|]. apply not_true_iff_false. intros Hok'.
  apply Forall_app in Hb as [H1 [Hx H2]%Forall_cons].
  assert (Hb' : are_bytes (l1 ++ y :: l2)) by (by apply Forall_app_2, List.Forall_cons).
  assert (Hb : are_bytes (l1 ++ x :: l2)) by (by apply Forall_app_2, List.Forall_cons).
  apply frame_ok_residue in Hok as [_ E1], Hok' as [_ E2]; try done.
  apply Hxy, (crc16_single_byte l1 x y l2); try done. congruence.
Qed.

Lemma single_byte_corruption_rejected_witness :
  handle [1; 3; 0; 7; 0; 8; 68; 12] sample_node
  = (Ok None, set_crc_error_count 1 sample_node).
Proof.
  apply (single_byte_corruption_rejected sample_node [1; 3; 0] [0; 8; 68; 12] 0 7);
    [done| |lia|done|vm_compute; reflexivity].
  repeat (apply List.Forall_cons; [lia|]). apply List.Forall_nil.
Defined.

(** The frame a node may put on the line: CRC-correct unless it simulates a bad CRC. *)
Definition reply_ok (s : Scenario) (r : option bytes) : Prop :=
  match r with
  | None => True
  | Some resp => are_bytes resp ∧ (crc16 resp = 0 ↔ s ≠ BAD_CRC)
  end.

Lemma node_wf_counts n k : node_wf n →
  node_wf (set_crc_error_count k n) ∧ node_wf (set_exception_count k n).
Proof. done. Qed.

Lemma last_framed p : last (framed p) = Some (Z.shiftr (crc16 p) 8).
Proof. unfold framed. by rewrite (cons_middle (Z.land (crc16 p) 255)), app_assoc, last_snoc. Qed.

Lemma lxor1_byte b : 0 ≤ b < 256 → 0 ≤ Z.lxor b 1 < 256 ∧ Z.lxor b 1 ≠ b.
Proof.
  intros Hb. split.
  - assert (0 ≤ Z.lxor b 1) by (apply Z.lxor_nonneg; lia). split; [done|].
    apply (lt_pow2_testbit _ 8); [done|lia|]. intros i Hi. rewrite Z.lxor_spec.
    rewrite (proj1 (lt_pow2_testbit b 8 ltac:(lia) ltac:(lia)) ltac:(lia) i Hi).
    by rewrite (proj1 (lt_pow2_testbit 1 8 ltac:(lia) ltac:(lia)) ltac:(lia) i Hi).
  - intros H. apply (f_equal (Z.lxor b)) in H.
    by rewrite <- Z.lxor_assoc, Z.lxor_nilpotent, Z.lxor_0_l in H.
Qed.

Lemma corrupt_framed p :
  are_bytes p → are_bytes (corrupt_last (framed p)) ∧ crc16 (corrupt_last (framed p)) ≠ 0.
Proof.
  intros Hp. pose proof (crc16_word16 p Hp) as Hc. pose proof (shiftr8_byte _ Hc) as Hh.
  pose proof (land255_byte (crc16 p)) as Hl.
  destruct (lxor1_byte _ Hh) as [Hx Hne].
  assert (E : corrupt_last (framed p)
              = (p ++ [Z.land (crc16 p) 255]) ++ [Z.lxor (Z.shiftr (crc16 p) 8) 1]).
  { unfold corrupt_last. rewrite last_framed. unfold framed.
    rewrite (cons_middle (Z.land (crc16 p) 255)), app_assoc, length_app.
    change (length [Z.shiftr (crc16 p) 8]) with 1%nat. by rewrite Nat.add_sub, take_app_length. }
  assert (Hb : are_bytes (p ++ [Z.land (crc16 p) 255])).
  { apply Forall_app_2; [done|]. by apply List.Forall_cons. }
  rewrite E. split; [apply Forall_app_2; [done|by apply List.Forall_cons]|].
  intros H0. apply Hne. apply (crc16_single_byte (p ++ [Z.land (crc16 p) 255]) _ _ []);
    [done|done|done|apply List.Forall_nil|].
  rewrite H0. symmetry. rewrite <- app_assoc. by apply framed_residue.
Qed.

Lemma are_bytes_exception n f c :
  node_wf n → 0 ≤ f < 256 → 0 ≤ c < 256 → are_bytes [node_address n; Z.lor f 0x80; c].
Proof.
  intros Hn Hf Hc. pose proof (node_exception_run n f c Hn Hf Hc) as H.
  unfold node_exception, mbind, M_bind, modify, get, lift, result_bind in H; simpl in H.
  unfold py_bytes in H. destruct (forallb is_byte _) eqn:E; [|done].
  apply Forall_forall. intros b Hb. rewrite forallb_elem in E. specialize (E b Hb).
  unfold is_byte in E. b2p. lia.
Qed.

Lemma exception_code_bound s f c : exception_code s f = Some c → 1 ≤ c ≤ 3.
Proof. unfold exception_code. intros H. repeat case_in H; simplify_eq; lia. Qed.

Lemma exception_none_in_map s f :
  are_bytes f → exception_code s f = None → in_map (req_first f) (req_quantity f) = true.
Proof.
  intros Hb. destruct (req_fields_nonneg f Hb). unfold exception_code, in_map, REGISTER_COUNT.
  intros H1. repeat case_in H1; simplify_eq. b2p. rewrite !andb_true_iff, !Z.leb_le. lia.
Qed.

(** The answer of [respond] is a framed payload of bytes. *)
Lemma respond_framed n frame :
  node_wf n → are_bytes frame → scenario n ≠ TIMEOUT →
  ∃ p n', respond (scenario n) frame n = (Ok (framed p), n') ∧ are_bytes p
    ∧ node_wf n' ∧ scenario n' = scenario n.
Proof.
  intros Hn Hb Hs. rewrite respond_run by done.
  pose proof (function_byte frame Hb) as Hf.
  destruct (exception_code (scenario n) frame) as [c|] eqn:Ec.
  - pose proof (exception_code_bound _ _ _ Ec).
    do 2 eexists. split; [done|]. split; [apply are_bytes_exception; [done|done|lia]|].
    split; [by apply node_wf_counts|done].
  - pose proof (exception_none_in_map _ _ Hb Ec) as Hin. unfold in_map, REGISTER_COUNT in Hin. b2p.
    destruct (registers_value_wf n Hn) as [_ Hw].
    do 2 eexists. split; [done|]. split.
    + destruct Hn as (Ha & _). apply Forall_app_2; [|by apply register_bytes_wf, slice_wf].
      repeat (apply List.Forall_cons; [lia|]). apply List.Forall_nil.
    + split; [by apply registers_state_wf|done].
Qed.

(** C25: on any byte string a well-formed node never raises (no [ValueError] of
    [bytes], no [OverflowError] of [to_bytes]), stays well-formed in the same
    scenario, and what it writes passes the master's CRC check exactly when it
    does not simulate a bad CRC. *)
Theorem handle_safe (n : DeterministicNode) (frame : bytes)
    (Hn : node_wf n) (Hb : are_bytes frame) :
  ∃ r n', handle frame n = (Ok r, n') ∧ node_wf n' ∧ scenario n' = scenario n
    ∧ reply_ok (scenario n) r.
Proof.
  destruct (decide (scenario n = TIMEOUT)) as [Ht|Hs].
  { exists None, n. unfold handle, mbind, M_bind, get. by rewrite decide_True. }
  destruct (frame_ok frame) eqn:Hok.
  2:{ rewrite handle_rejected_frame by done. do 2 eexists. split; [done|].
      split; [by apply node_wf_counts|done]. }
  destruct (decide (frame !!! 0%nat = node_address n)) as [Ha|Ha].
  2:{ exists None, n. unfold handle, mbind, M_bind, get. rewrite decide_False, Hok by done. simpl.
      by rewrite (proj2 (Z.eqb_neq _ _) Ha). }
  destruct (handle_accepted _ _ Hs Hok Ha Hn Hb) as (r & n' & Hr & Hh). rewrite Hh.
  destruct (respond_framed n frame Hn Hb Hs) as (p & n1 & Hr' & Hp & Hn1 & Hs1).
  rewrite Hr' in Hr. injection Hr as <- <-. do 2 eexists. split; [done|].
  split; [done|]. split; [done|]. unfold reply_ok.
  destruct (decide (scenario n = BAD_CRC)) as [Hbad|Hgood].
  - destruct (corrupt_framed p Hp). split; [done|]. by split.
  - split; [by apply framed_bytes|]. by rewrite framed_residue.
Qed.

Lemma handle_safe_witness :
  ∃ r n', handle [1; 3; 0; 0; 0; 8; 68; 12] sample_node = (Ok r, n') ∧ node_wf n'
    ∧ scenario n' = NORMAL ∧ reply_ok NORMAL r.
Proof.
  apply (handle_safe sample_node); [apply default_node_wf; lia|].
  repeat (apply List.Forall_cons; [lia|]). apply List.Forall_nil.
Defined.

(** An accepted request that the register contract refuses is answered by
    the exception frame with the contract's code (illegal function 1, illegal
    address 2, illegal quantity 3) and counted once; nothing else changes. *)
Theorem handle_exception_reply (n : DeterministicNode) (frame : bytes) (c : Z)
    (Hs : scenario n = NORMAL ∨ scenario n = ILLEGAL_ADDRESS)
    (Hn : node_wf n) (Hb : are_bytes frame) (Hok : frame_ok frame = true)
    (Ha : frame !!! 0%nat = node_address n)
    (Hc : exception_code (scenario n) frame = Some c) :
  handle frame n =
    (Ok (Some (framed [node_address n; Z.lor (frame !!! 1%nat) 0x80; c])),
     set_exception_count (exception_count n + 1) n).
Proof.
  assert (Hs' : scenario n ≠ TIMEOUT) by (by destruct Hs as [-> | ->]).
  run_handle Hs' Hok Ha Hn Hb. rewrite Hc in Hr. injection Hr as <- <-.
  rewrite decide_False; [done|]. by destruct Hs as [-> | ->].
Qed.

Lemma handle_exception_reply_witness :
  handle [1; 6; 0; 2; 0; 5; 232; 9] sample_node
  = (Ok (Some (framed [1; 0x86; 1])), set_exception_count 1 sample_node).
Proof.
  apply (handle_exception_reply sample_node [1; 6; 0; 2; 0; 5; 232; 9] 1);
    [by left|apply default_node_wf; lia| |vm_compute; reflexivity|reflexivity|vm_compute; reflexivity].
  repeat (apply List.Forall_cons; [lia|]). apply List.Forall_nil.
Defined.

(** Two nodes that differ only in what the sensors and counters show. *)
Definition same_line (n1 n2 : DeterministicNode) : Prop :=
  node_address n1 = node_address n2 ∧ scenario n1 = scenario n2
  ∧ stale_registers n1 = stale_registers n2.

(** In the stale scenario the first answered read freezes the register
    image: whatever happens to the measurements and counters afterwards, any
    read of the map returns the image of that first read. *)
Theorem stale_image_frozen (n n1 n2 : DeterministicNode) (f1 f2 : bytes) (r1 : option bytes)
    (Hn : node_wf n) (Hs : scenario n = STALE) (Hb1 : are_bytes f1) (Hb2 : are_bytes f2)
    (Hok1 : frame_ok f1 = true) (Ha1 : f1 !!! 0%nat = node_address n)
    (Hr1 : exception_code STALE f1 = None)
    (Hok2 : frame_ok f2 = true) (Ha2 : f2 !!! 0%nat = node_address n)
    (Hr2 : exception_code STALE f2 = None)
    (H1 : handle f1 n = (Ok r1, n1)) (Hsame : same_line n1 n2) (Hn2 : node_wf n2) :
  (handle f2 n2).1 = Ok (Some (read_reply n f2)).
Proof.
  assert (Hs' : scenario n ≠ TIMEOUT) by (by rewrite Hs).
  destruct (handle_accepted _ _ Hs' Hok1 Ha1 Hn Hb1) as (r & n' & Hr & Hh).
  rewrite H1 in Hh. simplify_eq. rewrite respond_run in Hr by done.
  rewrite Hs, Hr1 in Hr. simplify_eq. destruct Hsame as (Ea & Es & Est).
  assert (Es2 : scenario n2 = STALE) by (rewrite <- Es; exact Hs).
  assert (Hreg : stale_registers n2 = Some (registers_value n)).
  { rewrite <- Est. unfold registers_state. simpl. by rewrite decide_True. }
  assert (Hs2 : scenario n2 ≠ TIMEOUT) by (by rewrite Es2).
  assert (Ha2' : f2 !!! 0%nat = node_address n2) by (rewrite Ha2; exact Ea).
  destruct (handle_accepted _ _ Hs2 Hok2 Ha2' Hn2 Hb2) as (r2 & n2' & Hr' & Hh2).
  rewrite Hh2. rewrite respond_run, Es2, Hr2 in Hr' by done. simplify_eq.
  rewrite decide_False by (by rewrite Es2).
  assert (Hv : registers_value n2 = registers_value n)
    by (unfold registers_value at 1; by rewrite Es2, Hreg).
  change (node_address (registers_state n)) with (node_address n) in Ea.
  unfold read_reply. by rewrite Hv, Ea.
Qed.

Lemma stale_image_frozen_witness :
  let n := default_node 1 STALE in
  let n2 := {| node_address := 1; scenario := STALE; temperature_centi_c := 9000;
    adc_raw := 4095; sensor_status := 0; fault_flags := 0; uptime_ms := 500000;
    reset_count := 3; crc_error_count := 0; exception_count := 0; config_generation := 1;
    calibration_offset_centi_c := 0; calibration_gain_q15 := 32768;
    stale_registers := Some (current_registers n) |} in
  (handle [1; 3; 0; 6; 0; 2; 36; 10] n2).1
  = Ok (Some (read_reply n [1; 3; 0; 6; 0; 2; 36; 10])).
Proof.
  intros n n2.
  assert (Hb : are_bytes [1; 3; 0; 6; 0; 2; 36; 10]).
  { repeat (apply List.Forall_cons; [lia|]). apply List.Forall_nil. }
  eapply (stale_image_frozen n (handle [1; 3; 0; 6; 0; 2; 36; 10] n).2 n2);
    [apply default_node_wf; lia|reflexivity|exact Hb|exact Hb|..];
    try (vm_compute; reflexivity).
  - vm_compute. repeat split.
  - do 5 (split; [unfold word16; simpl; lia|]).
    apply (current_registers_wf n), default_node_wf. lia.
Defined.
